(* ===== verification/_CoqProject ===== *)
-Q . S2P
Prelude.v
JsString.v
JsNumber.v
Utils.v
Markup.v
Tables.v
UtilsFormat.v
UtilsFacts.v
NewUtils.v
Fqn.v
Http.v
HttpFacts.v
JsObject.v
FluxCollection.v
FluxFacts.v
Timers.v
RunStore.v
RunStoreFacts.v
TableStore.v
TableStoreFacts.v
Stores.v
SchemaActions.v
SchemaFacts.v
SchemaTree.v
RefreshLoop.v
QueryText.v
ListPages.v
ClusterPages.v
ClusterMarkup.v
JsMap.v
StageDetail.v
StageFacts.v
StageMarkup.v
QueryDetail.v
QueryFacts.v
HistogramFacts.v
LivePlan.v
LiveFacts.v
LiveMarkup.v
JsRegex.v
WorkerThreads.v
ThreadMarkup.v
AddCatalog.v
AddCatalogFacts.v
AddCatalogMarkup.v
QueryEditor.v
QueryEditorFacts.v
AuditLog.v
AuditLogFacts.v
Overview.v
OverviewFacts.v
RunTables.v
RunTablesFacts.v
PageHeader.v
QueryPage.v
QueryPageFacts.v
WorkerPage.v
Panels.v
PanelsFacts.v
ShellMarkup.v
EchartCanvas.v
AuditLogMarkup.v
RunTablesMarkup.v
PanelsMarkup.v
EditorMarkup.v
ListMarkup.v
ListMarkupFacts.v
TreeMenu.v
SchemaTreeMarkup.v
Tableau.v
TableauFacts.v
