(* ===== verification/Prelude.v ===== *)
(** * The web console of hetu-core

    A model of the web console of the engine, with the theorems that make its
    parts correct.  The console is the JavaScript program in
    src/presto-main/src/main/resources/webapp/src (below: W).  It has two
    halves: the monitoring pages (W/components, W/overview, W/utils.js,
    W/newUtils.js), which poll the coordinator and draw what it answers, and the
    query editor (W/queryeditor), a flux application whose stores are changed by
    actions and whose actions are fed by requests.  Beside it stands the page a
    Tableau workbook loads (webapp/tableau).

    ** Files

    Foundations, the parts of the language the console uses:
    - Prelude: exceptions as values ([result]), lists, hints, automation;
    - JsString, JsNumber: strings, and binary64 numbers over [Z] with the
      standard's rounding, printing and parsing;
    - JsRegex: the operators of the console's regular expressions;
    - JsObject: a heap of shared objects and arrays, and what the console uses
      of lodash, as a class of operations with laws;
    - JsMap: Map objects in insertion order, grouping, the stable sort;
    - Timers: setTimeout and clearTimeout.

    Helpers of all pages:
    - Utils (W/utils.js), with UtilsFormat and UtilsFacts: formatting and
      parsing of counts, durations and data sizes, histories, identifiers,
      colours and labels of queries and stages, bubbleSort;
    - NewUtils (W/newUtils.js): the two functions in which the copy differs.

    The query editor:
    - Fqn, Http, HttpFacts (W/queryeditor/utils: fqn.js, xhr.js, xhrform.js,
      xhrutil.js, checkResults.js and the *ApiUtils.js): table names, requests,
      form bodies, and how a promise settles on every kind of answer;
    - FluxCollection, FluxFacts (utils/FluxCollection.js): the collection that
      the stores keep, on the heap, and its refinement of an association list;
    - RunStore, RunStoreFacts (stores/RunStore.js, stores/CnxnMonitorStore.js,
      actions/RunActions.js): the polling state machine;
    - TableStore, TableStoreFacts (stores/TableStore.js, TableActions.js);
    - Stores (the other stores and their actions);
    - SchemaActions with SchemaFacts (actions/SchemaActions.js), SchemaTree and
      TreeMenu (components/SchemaTree.jsx): the tree of catalogs, schemas and
      tables, the favourites, the reloading of the tree, the menus of its nodes;
    - QueryEditor, QueryEditorFacts (components/QueryEditor.jsx): the text, its
      context, completion, the run button, the runs of saved queries, and the
      query store behind them;
    - RunTables, RunTablesFacts (components/RunsTable.jsx, CollectionTable.jsx,
      MySavedQueries.jsx, ProgressBar.jsx): the tables of the tabs;
    - Panels, PanelsFacts (components/ResultsTable.jsx, DataPreview.jsx,
      ColumnsPreview.jsx, QueryInformation.jsx, LeftPanel.jsx, ShowCatalog.jsx,
      the state of Header.jsx): what stands around the editor;
    - AddCatalog, AddCatalogFacts (components/AddCatalog.jsx): the form of a
      new catalog, its validation and the objects it shares with a store.

    The monitoring pages:
    - RefreshLoop: the loop the pages have in common, as an interface
      [RefreshLoop] (what is sent along, what an answer does, when a page
      stops, whether the failure handler gets the exceptions of the other) with
      the theorems of every page that implements it, for any [Rendering], which
      says in what states drawing the page throws, so that React takes it away:
      [live_rendering], [stage_rendering] and [query_rendering] are those of the
      pages with such states;
    - ClusterPages (ClusterHUD.jsx, StatusFooter.jsx, WorkerStatus.jsx),
      ListPages (QueryList.jsx, QueryMonitor.jsx), StageDetail with StageFacts
      (StageDetail.jsx), QueryDetail with QueryFacts and HistogramFacts
      (QueryDetail.jsx), PageHeader (PageTitle.jsx, QueryHeader.jsx): instances
      of the loop, and what each page computes of its answer;
    - AuditLog, AuditLogFacts (AuditLog.jsx): a loop with filters, debouncing and
      deferred calls of its own;
    - Overview, OverviewFacts (W/overview): the charts and the table of nodes;
      EchartCanvas: what the charts are given to draw, and the pages' intervals;
    - QueryText: the static functions of the class QueryListItem;
    - LivePlan, LiveFacts (LivePlan.jsx): the plan, drawn on a graph;
    - WorkerThreads (WorkerThreadList.jsx): the threads by group.

    The elements of the pages:
    - Markup: the trees JSX makes, and what the browser and the console do with
      them: text, identifiers, handlers, copy buttons, nesting, the grid of a
      table; [markup], [attributes] and [collects] reason about them;
    - ShellMarkup (Header.jsx, Footer.jsx, NavigationMenu.jsx, ModalDialog.jsx,
      PageTitle.jsx, HetuQueryEditorApp.jsx, W/overview): the frame of the pages
      and the pages that only fill it;
    - QueryPage, QueryPageFacts (QueryHeader.jsx, QueryDetail.jsx), WorkerPage
      (WorkerStatus.jsx), ClusterMarkup (ClusterHUD.jsx, StatusFooter.jsx),
      StageMarkup (StageDetail.jsx), ThreadMarkup (WorkerThreadList.jsx),
      ListMarkup, ListMarkupFacts (QueryList.jsx, QueryMonitor.jsx), LiveMarkup
      (LivePlan.jsx), AddCatalogMarkup (AddCatalog.jsx), RunTablesMarkup
      (RunsTable.jsx, CollectionTable.jsx, MySavedQueries.jsx, ProgressBar.jsx,
      AllRunningQueries.jsx, MyCollection.jsx), PanelsMarkup (ResultsTable.jsx,
      DataPreview.jsx, ColumnsPreview.jsx, Column.jsx, ShowCatalog.jsx,
      QueryInformation.jsx, LeftPanel.jsx), EditorMarkup (QueryEditor.jsx),
      AuditLogMarkup (AuditLog.jsx), SchemaTreeMarkup (SchemaTree.jsx): what the
      render methods return, what is drawn into it after an update, and what its
      buttons do;
    - Tables: what the table widget is given and the cells it gets.

    The Tableau page:
    - Tableau, TableauFacts (webapp/tableau/presto-client.js and
      presto-connector.html): the client that follows the pages of a result and
      the connector that hands them on.

    ** Correspondence

    A function of the source is the definition of the same name; a class is a
    Module, its state a Record with the source's field names.  A handler of
    several lines becomes one definition and its inner loops and branches are
    definitions of their own, so that [addEntry] of SchemaActions, say, is the
    body of the outer loop of fetchSchemas.  A handler that changes a shared
    object runs in the heap monad of JsObject; a handler that may throw returns
    [result], and a TypeError is what reading a property of undefined or null
    gives.  Concurrency is that of the browser: a world has the requests that
    were sent and not answered and the timers that are armed, and a step is an
    answer, a timer that fires, or a user's action; answers may overtake each
    other.  Numbers are binary64 with every rounding, except where a definition
    says that it reads a count as an integer.

    What the console calls and this repository does not hold is a parameter with
    its documented behaviour as laws: lodash ([Lodash], [LodashLaws] and the
    laws of single functions), graphlib under dagre-d3 ([Graphlib],
    [GraphlibLaws]), dagre-d3's renderer in LiveMarkup, which may throw, ECharts
    ([Echarts], [EchartsLaws]).  The order in which Array.sort calls a comparator
    is not fixed (a sort is any stable one).  Each class of laws has an instance
    ([LodashRef], [FindRef], [RefGraph], ...) the witnesses use, so the laws
    can hold together.

    ** The theorems

    Formatting: the unit of a count or a size is the one its magnitude asks
    for, and the value printed is the exact quotient rounded once to three
    digits (formatCount_unit, formatDataSize_exact, precisionRound_nearest,
    label_width).  Parsing: matchNumberUnit_spec, parseDataSize_int,
    identifier_numbers, fqn_roundtrip, encodeForm_roundtrip.  Sorting, histories
    and histograms: bubbleSort_sorts, addToHistory_window, histogram_counts.

    Data: the collection implements its specification (flux_add,
    flux_modifiers, flux_add_throws); the tree has each catalog and schema once
    and every node lies where its fields say (fetchSchemas_tree,
    tree_well_formed, fetchChildren_one_node); favourites are a set and come
    first (favourites_set, sortItems_order, favourite_tables_stay); operator
    chains are complete (computeOperatorGraphs_complete); stack traces determine
    the stacks (formatStackTrace_complete); query texts are only re-indented
    (getAllQueryText_dedents); the live plan draws each node once, with
    exactly its edges, consumers of a CTE read from its feeder
    (plan_nodes_drawn_once); Tableau gets the whole result (tableau_complete,
    lists_filled); tables are drawn completely (collection_rows,
    renderGrid_complete).

    State machines: polling_invariant, polling_backoff and
    polling_survives_disconnect for the run store; monitor_counts_failures for
    the connection monitor; refresh_goes_on for every page on the refresh loop,
    which says when the loop is broken by a page that cannot be drawn,
    refresh_ends for those of something that ends, live_plan_polls_on for the
    live plan that is taken away and polls for good,
    history_stops_on_failure for the page that is not on the loop; editor_runs,
    completion_context and edits_overwritten for the query editor; log_settles
    and log_current for the audit log; charts_drawn for the overview;
    reload_races for the tree; selected_stage_lost for the stage page;
    selectTable_unique, partition_preview and addTable_not_active for the table
    store; filters_consistent for the lists of queries; title_light for the
    title bar; results_pager and collect_button for the tables;
    createQuery_stored for the other stores.

    Pages: a page is nested as HTML asks and its tables are grids
    (query_page_wellFormed, which says when it is not, list_menus, worker_page,
    thread_page, stage_page, cluster_sparklines, overview_page, nodes_page,
    audit_page);
    what code looks up in a page is there (drawn_elements_found, list_menus,
    charts_have_elements; drawn_elements_found, cluster_sparklines and
    title_dialog say what is not); what is drawn by D3 has a canvas (plan_canvas,
    which says when it has none, and when the page is taken away);
    copy buttons copy what they stand beside (copy_buttons, thread_page;
    worker_page says which does not); sparklines_lag, poolQueries_complete;
    buttons are bound to the row they stand in (run_buttons, which also says when
    the table cannot be drawn, saved_queries), or
    take it from the element that was hit, which may be another (files_in_step,
    collection_delete); tables show their data (grid_drawn, catalog_shown,
    column_lines), tabs stand where actions look for them (tab_panels), menus
    show the context of the next query (menus_show); every rendering of the
    editor leaves an interval behind (renderings_leak); the table drawn as
    selected is the one noted as selected (selection_consistent).

    Termination: log_settles, refresh_ends, headers_terminate, which says when
    the connector's waiting loop ends and when it never does,
    processThreads_groups.

    Errors: xhr_reloads, monitor_drawn, collectionBody_encoding, validation_correct,
    edits_survive_reset, getTableData_silent.

    Where the code does something else than its comments, its messages or its
    other half say, the theorem states what it does, and the sentence before
    it says so.

    ** Fuel

    Loops over data are structural.  The definitions with fuel are:
    computeOperatorGraphs, whose fuel bounds the depth of the plan and is
    [node_size root], enough by computeOperatorGraphs_complete; processLoop of
    WorkerThreads, which answers [None] when its fuel runs out and never does
    so with the length of the list, by processThreads_groups; show_aux, the
    decimal digits of an integer, with one more than its binary logarithm
    (show_pos_fuel); dec_exp and shortest of JsNumber, the exponent and the
    shortest digits of a double, with 5 and 17, since the first guess is off by
    at most 2 and 17 digits always read back; iterations of QueryDetail, 177
    because there are at most 176 buckets, enough by histogram_counts; advance,
    waitForHeaders, drain and what calls them in Tableau, which answer [None]
    when the fuel runs out: more than the number of pages is enough by
    tableau_complete, headers_terminate and lists_filled.

    ** Not modelled

    Rendering: React and the browser are not modelled but for what the pages rely
    on: setState outside of React's own events draws the page at once, and an
    exception of drawing takes the page away and is passed on to the caller.  What
    the render methods return is modelled as element trees.  A page whose render
    methods are total definitions never throws while it is drawn.  The page of a
    query sets its state twice for an answer; when the first cannot be drawn, the
    second is skipped, which the page, taken away, no longer shows.  D3, dagre,
    sparklines, eCharts, Ace, the tree library, the pager and the date picker
    draw; but for the canvas of the live plan they are taken to draw what they
    are given.  The entry points only pass properties on.  The copied libraries
    under W/dateRangePicker, webapp/vendor and the bundles of webapp/dist are
    not the console's own code.  The server (Java) is the other end of the
    requests. *)

From Corelib Require Export ssreflect.
From Stdlib Require Export ZArith Lia List Bool Ascii String Sorting.Permutation.
From stdpp Require Export base tactics numbers list strings gmap sorting.

#[global] Set Warnings "-register-all".
#[global] Open Scope general_if_scope.
#[global] Open Scope Z_scope.

(** stdpp keeps [String.append] folded; the string lemmas here compute it. *)
#[global] Arguments String.append !_ _ : simpl nomatch.

(** ** Exceptions

    A call that may throw returns [result]; reading a property of [undefined]
    or [null] throws a TypeError. *)

Inductive exn :=
  | TypeError
  | ErrorMsg (msg : string).

#[export] Instance exn_eq_dec : EqDecision exn.
Proof. solve_decision. Defined.

Inductive result (A : Type) :=
  | Ok (a : A)
  | Throw (e : exn).
Arguments Ok {A} a.
Arguments Throw {A} e.

#[export] Instance result_ret : MRet result := fun A a => Ok a.
#[export] Instance result_bind : MBind result := fun A B f m =>
  match m with Ok a => f a | Throw e => Throw e end.
#[export] Instance result_fmap : FMap result := fun A B f m =>
  match m with Ok a => Ok (f a) | Throw e => Throw e end.

(** [o.f] where [o] may be undefined. *)
Definition member {A B} (o : option A) (f : A -> B) : result B :=
  match o with Some a => Ok (f a) | None => Throw TypeError end.

(** The value of a call that does not throw. *)
Definition resultOr {A} (d : A) (r : result A) : A := match r with Ok a => a | Throw _ => d end.

(** ** Automation *)

(** Replace closed integer powers by their values. *)
Ltac nat_lit k := lazymatch k with O => idtac | S ?k => nat_lit k end.
Ltac Z_lit b :=
  lazymatch b with
  | Z0 => idtac
  | Zpos _ => idtac
  | Z.of_nat ?k => nat_lit k
  | Z.add ?a ?b => Z_lit a; Z_lit b
  end.

Ltac eval_pows :=
  repeat match goal with
  | |- context [Z.pow ?a ?b] =>
      Z_lit a; Z_lit b; let v := eval vm_compute in (Z.pow a b) in change (Z.pow a b) with v
  | H : context [Z.pow ?a ?b] |- _ =>
      Z_lit a; Z_lit b; let v := eval vm_compute in (Z.pow a b) in change (Z.pow a b) with v in H
  end.

(** ** Lists *)

Lemma NoDup_snoc {A} (l : list A) x : NoDup l -> x ∉ l -> NoDup (l ++ [x])%list.
Proof.
  intros Hl Hx. apply NoDup_app. split; [done|split; [|apply NoDup_singleton]].
  intros y Hy ->%list_elem_of_singleton. done.
Qed.

Lemma elem_of_snoc {A} (l : list A) x y : y ∈ (l ++ [x])%list <-> y ∈ l \/ y = x.
Proof. by rw elem_of_app list_elem_of_singleton. Qed.

Lemma elem_of_filter_not {A} (p : A -> bool) l x :
  x ∈ List.filter (fun y => negb (p y)) l <-> x ∈ l /\ p x = false.
Proof.
  rw list_elem_of_In List.filter_In -list_elem_of_In. by rw negb_true_iff.
Qed.

Lemma NoDup_filter_not {A} (p : A -> bool) l : NoDup l -> NoDup (List.filter (fun y => negb (p y)) l).
Proof. intros Hl. apply NoDup_ListNoDup. apply List.NoDup_filter. by apply NoDup_ListNoDup. Qed.

Lemma find_app {A} (p : A -> bool) l l' :
  List.find p (l ++ l') = match List.find p l with Some x => Some x | None => List.find p l' end.
Proof. induction l as [|x l IH]; cbn; [done|]. by destruct (p x). Qed.

Lemma drop_rev {A} (l : list A) n : (n <= length l)%nat -> rev (take n (rev l)) = drop (length l - n) l.
Proof.
  intros Hn. rw -{1}(take_drop (length l - n) l) rev_app_distr take_app_length'.
  { rw length_rev length_drop. lia. }
  by rw rev_involutive.
Qed.

Lemma all_app {A} (P : A -> Prop) (a b c : list A) :
  (forall e, e ∈ (a ++ b ++ c)%list -> P e) <->
  (forall e, e ∈ a -> P e) /\ (forall e, e ∈ b -> P e) /\ (forall e, e ∈ c -> P e).
Proof.
  split.
  - intros Hall. repeat split; intros e Hin; apply Hall; rw !elem_of_app; tauto.
  - intros (Ha & Hb & Hc) e [?|[?|?]%elem_of_app]%elem_of_app; auto.
Qed.

Lemma fmap_alter_same {A B} (f : A -> B) (g : A -> A) i (l : list A) :
  (forall x, f (g x) = f x) -> f <$> alter g i l = f <$> l.
Proof.
  intros Hg. revert i. induction l as [|x l IH]; intros [|i]; try done; cbn; [by rw Hg|].
  f_equal. apply IH.
Qed.

(** A change at position [i]. *)
Lemma Forall_alter_at {A} (P Q : A -> Prop) (g : A -> A) i (l : list A) x :
  l !! i = Some x -> Q (g x) -> (forall j y, j <> i -> l !! j = Some y -> P y -> Q y) ->
  Forall P l -> Forall Q (alter g i l).
Proof.
  intros Hi Hg Hother HP. apply Forall_lookup. intros j y Hj. rw Forall_lookup in HP.
  destruct (decide (j = i)) as [->|Hne].
  - rw list_lookup_alter_eq Hi in Hj. cbn in Hj. by injection Hj as <-.
  - rw list_lookup_alter_ne in Hj; [done|]. eauto.
Qed.

(** A call that may throw, on every element in order. *)
Fixpoint mapM_result {A B} (f : A -> result B) (l : list A) : result (list B) :=
  match l with
  | [] => Ok []
  | x :: l => y ← f x; ys ← mapM_result f l; Ok (y :: ys)
  end.

Lemma mapM_result_spec {A B} (f : A -> result B) l ys :
  mapM_result f l = Ok ys <-> Forall2 (fun x y => f x = Ok y) l ys.
Proof.
  revert ys. induction l as [|x l IH]; intros ys; cbn.
  - split; [intros [= <-]; constructor|intros H; by inversion H].
  - destruct (f x) as [y|] eqn:Hf; cbn; [|split; [done|intros H; inversion H; congruence]].
    destruct (mapM_result f l) as [ys'|] eqn:Hm; cbn.
    + split.
      * intros [= <-]. constructor; [done|]. by apply IH.
      * intros H. inversion H as [|? ? ? ys0 H1 H2]; subst. apply IH in H2. congruence.
    + split; [done|]. intros H. inversion H as [|? ? ? ys0 H1 H2]; subst. by apply IH in H2.
Qed.

(** ** Termination *)

(** Steps that keep a property and lower a measure come to an end. *)
Lemma invariant_terminates {A} (P : A -> Prop) (R : A -> A -> Prop) (m : A -> nat) x :
  (forall x y, P x -> R x y -> P y /\ (m y < m x)%nat) -> P x -> Acc (flip R) x.
Proof.
  intros Hm. remember (m x) as n eqn:Hn. revert x Hn. induction n as [n IH] using lt_wf_ind. intros x -> Hx.
  constructor. intros y Hy. destruct (Hm x y Hx Hy) as [HP Hlt]. by apply (IH (m y)).
Qed.

Lemma measure_terminates {A} (R : A -> A -> Prop) (m : A -> nat) x :
  (forall x y, R x y -> (m y < m x)%nat) -> Acc (flip R) x.
Proof. intros Hm. apply (invariant_terminates (fun _ => True) R m); [|done]. intros y z _ Hr. by split; [|apply Hm]. Qed.

(** ** Hints

    [console] closes the side conditions that recur: uniqueness of an extended
    list, positions, and the trivial facts of strings and numbers the files
    above add to it. *)
Create HintDb console.
Create Rewrite HintDb console.
#[export] Hint Resolve NoDup_snoc NoDup_singleton NoDup_filter_not NoDup_nil_2 : console.
#[export] Hint Resolve list_elem_of_here list_elem_of_further : console.
#[export] Hint Rewrite @elem_of_snoc @list_elem_of_singleton : console.
