(* ===== verification/JsString.v ===== *)
(** * ECMAScript strings

    A string is a sequence of code units.  Rocq's [string] is used, so code
    units range over 0..255 (Latin-1); the console's own literals, identifiers
    and the server's JSON keys are in that range.  Positions are [Z], because
    the source passes around -1 and differences of lengths. *)

From S2P Require Import Prelude.

Declare Scope js_scope.
Delimit Scope js_scope with js.
#[global] Open Scope string_scope.
#[global] Open Scope Z_scope.

Definition strlen (s : string) : Z := Z.of_nat (String.length s).

(** [s === t]. *)
Definition streq (s t : string) : bool := String.eqb s t.

Fixpoint take_str (n : nat) (s : string) : string :=
  match n, s with
  | S n, String c s => String c (take_str n s)
  | _, _ => EmptyString
  end.

Fixpoint drop_str (n : nat) (s : string) : string :=
  match n, s with
  | S n, String _ s => drop_str n s
  | _, _ => s
  end.

(** The code units from position [a] up to [b], both already clamped. *)
Definition sub_str (s : string) (a b : Z) : string :=
  take_str (Z.to_nat (b - a)) (drop_str (Z.to_nat a) s).

Definition clamp (n len : Z) : Z := Z.min (Z.max n 0) len.

(** String.prototype.substring: clamps both ends and swaps them if needed. *)
Definition substring (s : string) (a b : Z) : string :=
  let a' := clamp a (strlen s) in
  let b' := clamp b (strlen s) in
  sub_str s (Z.min a' b') (Z.max a' b').

Definition substring_from (s : string) (a : Z) : string := substring s a (strlen s).

(** String.prototype.slice: negative positions count from the end. *)
Definition slice (s : string) (a b : Z) : string :=
  let rel n := if n <? 0 then Z.max (strlen s + n) 0 else Z.min n (strlen s) in
  sub_str s (rel a) (rel b).

(** String.prototype.substr(a): from [a] to the end. *)
Definition substr_from (s : string) (a : Z) : string :=
  let a' := if a <? 0 then Z.max (strlen s + a) 0 else Z.min a (strlen s) in
  sub_str s a' (strlen s).

(** String.prototype.indexOf / lastIndexOf for a single code unit. *)
Fixpoint index_of (c : ascii) (s : string) : Z :=
  match s with
  | EmptyString => -1
  | String d s =>
      if Ascii.eqb c d then 0
      else let i := index_of c s in if i =? -1 then -1 else i + 1
  end.

Fixpoint last_index_of (c : ascii) (s : string) : Z :=
  match s with
  | EmptyString => -1
  | String d s =>
      let i := last_index_of c s in
      if i =? -1 then (if Ascii.eqb c d then 0 else -1) else i + 1
  end.

(** Whether [p] occurs in [s] ([s.indexOf(p) !== -1]). *)
Fixpoint contains_str (p s : string) : bool :=
  String.prefix p s ||
  match s with EmptyString => false | String _ s => contains_str p s end.

(** String.prototype.split on a one-character separator. *)
Fixpoint split (c : ascii) (s : string) : list string :=
  match s with
  | EmptyString => [EmptyString]
  | String d s =>
      if Ascii.eqb d c then EmptyString :: split c s
      else match split c s with
           | [] => [String d EmptyString]
           | w :: ws => String d w :: ws
           end
  end.

(** Array.prototype.join on an array of strings. *)
Fixpoint join (sep : string) (l : list string) : string :=
  match l with
  | [] => ""
  | [s] => s
  | s :: l => s ++ sep ++ join sep l
  end.

(** The white space of [trim] and of the class \s, within Latin-1. *)
Definition is_space (c : ascii) : bool :=
  let n := Z.of_N (N_of_ascii c) in
  ((9 <=? n) && (n <=? 13)) || (n =? 32) || (n =? 160).

Definition is_digit (c : ascii) : bool :=
  let n := Z.of_N (N_of_ascii c) in (48 <=? n) && (n <=? 57).

Definition is_alpha (c : ascii) : bool :=
  let n := Z.of_N (N_of_ascii c) in
  ((65 <=? n) && (n <=? 90)) || ((97 <=? n) && (n <=? 122)).

(** The longest prefix of characters satisfying [p], and the rest. *)
Fixpoint span (p : ascii -> bool) (s : string) : string * string :=
  match s with
  | EmptyString => (EmptyString, EmptyString)
  | String c s' =>
      if p c then let '(a, b) := span p s' in (String c a, b)
      else (EmptyString, s)
  end.

Definition trim_start (s : string) : string := snd (span is_space s).

(** [s.replace(/\s+$/g, '')]. *)
Fixpoint trim_end (s : string) : string :=
  match s with
  | EmptyString => EmptyString
  | String c s =>
      let t := trim_end s in
      if is_space c && streq t "" then EmptyString else String c t
  end.

Definition trim (s : string) : string := trim_end (trim_start s).

(** [s.search(/\S/)]: the position of the first character that is not white
    space, or -1. *)
Definition search_nonspace (s : string) : Z :=
  let '(w, rest) := span is_space s in
  match rest with EmptyString => -1 | _ => strlen w end.

(** ** Decimal notation *)

Definition digit_val (c : ascii) : Z := Z.of_N (N_of_ascii c) - 48.
Definition digit_char (d : Z) : ascii := ascii_of_N (Z.to_N (d + 48)).

Fixpoint show_aux (fuel : nat) (n : Z) (acc : string) : string :=
  match fuel with
  | O => acc
  | S f =>
      let acc' := String (digit_char (n mod 10)) acc in
      if n <? 10 then acc' else show_aux f (n / 10) acc'
  end.

(** The decimal digits of a non-negative integer.  A number below 2^b has at
    most b digits, so the fuel suffices. *)
Definition show_pos (n : Z) : string := show_aux (S (Z.to_nat (Z.log2 n))) n "".

Definition show_Z (n : Z) : string :=
  if n <? 0 then String "-" (show_pos (- n)) else show_pos n.

Fixpoint read_digits (s : string) (acc : Z) : Z :=
  match s with
  | EmptyString => acc
  | String c s => read_digits s (acc * 10 + digit_val c)
  end.

(** Hexadecimal digits, for the 0x prefix parseInt understands. *)
Definition hex_val (c : ascii) : option Z :=
  let n := Z.of_N (N_of_ascii c) in
  if (48 <=? n) && (n <=? 57) then Some (n - 48)
  else if (65 <=? n) && (n <=? 70) then Some (n - 55)
  else if (97 <=? n) && (n <=? 102) then Some (n - 87)
  else None.

Fixpoint read_hex (s : string) (acc : option Z) : option Z :=
  match s with
  | EmptyString => acc
  | String c s =>
      match hex_val c with
      | None => acc
      | Some d => read_hex s (Some (default 0 acc * 16 + d))
      end
  end.

Definition strip_sign (t : string) : bool * string :=
  match t with
  | String c r =>
      if Ascii.eqb c "-" then (true, r)
      else if Ascii.eqb c "+" then (false, r) else (false, t)
  | EmptyString => (false, t)
  end.

Definition hex_prefix (t : string) : option string :=
  match t with
  | String c (String d r) =>
      if Ascii.eqb c "0" && (Ascii.eqb d "x" || Ascii.eqb d "X") then Some r else None
  | _ => None
  end.

(** parseInt(s) with no radix: leading white space, a sign, an optional 0x
    prefix, then the longest run of digits.  The result is the sign and the
    magnitude; [None] stands for NaN. *)
Definition parse_int (s : string) : option (bool * Z) :=
  let '(neg, t) := strip_sign (trim_start s) in
  match hex_prefix t with
  | Some r => n ← read_hex r None; Some (neg, n)
  | None =>
      match fst (span is_digit t) with
      | EmptyString => None
      | ds => Some (neg, read_digits ds 0)
      end
  end.

(** ** Lemmas *)

(** [c] does not occur in [s]. *)
Fixpoint no_char (c : ascii) (s : string) : bool :=
  match s with
  | EmptyString => true
  | String d s => negb (Ascii.eqb d c) && no_char c s
  end.

Fixpoint all_chars (p : ascii -> bool) (s : string) : bool :=
  match s with
  | EmptyString => true
  | String d s => p d && all_chars p s
  end.

Lemma streq_eq s t : streq s t = true <-> s = t.
Proof. apply String.eqb_eq. Qed.

Lemma streq_refl s : streq s s = true.
Proof. by apply streq_eq. Qed.

Lemma streq_neq s t : streq s t = false <-> s <> t.
Proof. apply String.eqb_neq. Qed.

Lemma streq_spec s t : reflect (s = t) (streq s t).
Proof. apply String.eqb_spec. Qed.

Lemma append_assoc (a b c : string) : (a ++ b) ++ c = a ++ (b ++ c).
Proof. induction a; simpl; congruence. Qed.

Lemma append_nil_r (a : string) : a ++ "" = a.
Proof. induction a; simpl; congruence. Qed.

Lemma concat_cons x xs : String.concat "" (x :: xs) = x ++ String.concat "" xs.
Proof. destruct xs; [by rw append_nil_r|done]. Qed.

Lemma length_append a b : String.length (a ++ b) = (String.length a + String.length b)%nat.
Proof. induction a; simpl; congruence. Qed.

Lemma strlen_append a b : strlen (a ++ b) = strlen a + strlen b.
Proof. unfold strlen. rw length_append. lia. Qed.

Lemma strlen_nonneg s : 0 <= strlen s.
Proof. unfold strlen; lia. Qed.

Lemma strlen_nil : strlen "" = 0.
Proof. done. Qed.

Lemma strlen_cons c s : strlen (String c s) = 1 + strlen s.
Proof. unfold strlen; simpl; lia. Qed.

(** Lengths are not negative, and add up. *)
Ltac strlen_bounds :=
  repeat match goal with
  | |- context [strlen ?s] => assert_fails (assert (0 <= strlen s) by assumption); pose proof (strlen_nonneg s)
  | H : context [strlen ?s] |- _ =>
      assert_fails (assert (0 <= strlen s) by assumption); pose proof (strlen_nonneg s)
  end.
#[export] Hint Resolve streq_refl strlen_nonneg : console.
#[export] Hint Rewrite append_nil_r strlen_append strlen_cons strlen_nil : console.
Ltac str_lia := autorewrite with console in *; strlen_bounds; lia.

Lemma take_str_all s n : (String.length s <= n)%nat -> take_str n s = s.
Proof.
  revert n; induction s as [|c s IH]; intros [|n] H; simpl in *; try done; try lia.
  rw IH; [lia|done].
Qed.

Lemma drop_str_app a b : drop_str (String.length a) (a ++ b) = b.
Proof. induction a; simpl; auto. Qed.

Lemma take_str_app a b : take_str (String.length a) (a ++ b) = a.
Proof. induction a; simpl; [by destruct b|congruence]. Qed.

Lemma take_drop_str n s : take_str n s ++ drop_str n s = s.
Proof. revert n; induction s; intros [|n]; simpl; try done. by rw IHs. Qed.

Lemma length_take_str n s : String.length (take_str n s) = Nat.min n (String.length s).
Proof. revert n; induction s; intros [|n]; simpl; auto. Qed.

Lemma length_drop_str n s : String.length (drop_str n s) = (String.length s - n)%nat.
Proof. revert n; induction s; intros [|n]; simpl; auto. Qed.

(** The part of a string from a position inside it to its end. *)
Lemma sub_str_tail a b : sub_str (a ++ b) (strlen a) (strlen (a ++ b)) = b.
Proof.
  unfold sub_str. rw strlen_append. unfold strlen.
  rw Nat2Z.id drop_str_app. apply take_str_all. lia.
Qed.

Lemma sub_str_head a b : sub_str (a ++ b) 0 (strlen a) = a.
Proof.
  unfold sub_str, strlen. rw Z.sub_0_r Nat2Z.id. simpl. apply take_str_app.
Qed.

Lemma substring_from_app p t : substring_from (p ++ t) (strlen p) = t.
Proof.
  unfold substring_from, substring. pose proof (strlen_nonneg p). pose proof (strlen_nonneg t).
  assert (clamp (strlen p) (strlen (p ++ t)) = strlen p) as -> by (unfold clamp; rw strlen_append; lia).
  assert (clamp (strlen (p ++ t)) (strlen (p ++ t)) = strlen (p ++ t)) as ->
    by (unfold clamp; rw strlen_append; lia).
  rw Z.min_l; [rw strlen_append; lia|]. rw Z.max_r; [rw strlen_append; lia|]. apply sub_str_tail.
Qed.

Lemma substring_head a b : substring (a ++ b) 0 (strlen a) = a.
Proof.
  assert (clamp 0 (strlen (a ++ b)) = 0) as Hz by (unfold clamp; str_lia).
  assert (clamp (strlen a) (strlen (a ++ b)) = strlen a) as Ha by (unfold clamp; str_lia).
  unfold substring. rw Hz Ha. replace (Z.min 0 (strlen a)) with 0 by str_lia.
  replace (Z.max 0 (strlen a)) with (strlen a) by str_lia. apply sub_str_head.
Qed.

Lemma index_of_bound c s : -1 <= index_of c s < strlen s \/ (index_of c s = -1).
Proof.
  induction s as [|d s IH]; simpl; [lia|].
  destruct (Ascii.eqb c d); [str_lia|]. destruct (index_of c s =? -1) eqn:E; str_lia.
Qed.

Lemma index_of_none c s : no_char c s = true -> index_of c s = -1.
Proof.
  induction s as [|d s IH]; simpl; [done|].
  intros [H1 H2]%andb_prop. apply negb_true_iff in H1.
  rw Ascii.eqb_sym H1 (IH H2). done.
Qed.

Lemma index_of_found c a b :
  no_char c a = true -> index_of c (a ++ String c b) = strlen a.
Proof.
  induction a as [|d a IH]; simpl.
  - by rw Ascii.eqb_refl.
  - intros [H1 H2]%andb_prop. apply negb_true_iff in H1.
    rw Ascii.eqb_sym H1 (IH H2). destruct (strlen a =? -1) eqn:E; str_lia.
Qed.

Lemma last_index_of_none c s : no_char c s = true -> last_index_of c s = -1.
Proof.
  induction s as [|d s IH]; simpl; [done|].
  intros [H1 H2]%andb_prop. apply negb_true_iff in H1.
  rw (IH H2) Ascii.eqb_sym H1. done.
Qed.

Lemma last_index_of_found c a b :
  no_char c b = true -> last_index_of c (a ++ String c b) = strlen a.
Proof.
  intros Hb. induction a as [|d a IH]; simpl.
  - by rw last_index_of_none // Ascii.eqb_refl.
  - rw IH. destruct (strlen a =? -1) eqn:E; str_lia.
Qed.

Lemma no_char_app c a b : no_char c (a ++ b) = no_char c a && no_char c b.
Proof. induction a; simpl; [done|]. rw IHa. by rw andb_assoc. Qed.

Lemma all_chars_app p a b : all_chars p (a ++ b) = all_chars p a && all_chars p b.
Proof. induction a; simpl; [done|]. rw IHa. by rw andb_assoc. Qed.

(** *** split and join *)

Lemma split_nonempty c s : split c s <> [].
Proof.
  destruct s as [|d s]; simpl; [done|].
  destruct (Ascii.eqb d c); [done|]. by destruct (split c s).
Qed.

Lemma split_no_char c s : Forall (fun w => no_char c w = true) (split c s).
Proof.
  induction s as [|d s IH]; simpl; [by repeat constructor|].
  destruct (Ascii.eqb d c) eqn:E; [by constructor|].
  destruct (split c s) as [|w ws]; [constructor; simpl; [by rw E|done]|].
  inversion IH; subst. constructor; simpl; [by rw E|done].
Qed.

Lemma split_id c s : no_char c s = true -> split c s = [s].
Proof.
  induction s as [|d s IH]; simpl; [done|].
  intros [H1 H2]%andb_prop. apply negb_true_iff in H1. by rw H1 (IH H2).
Qed.

Lemma split_cons c a b :
  no_char c a = true -> split c (a ++ String c b) = a :: split c b.
Proof.
  induction a as [|d a IH]; simpl.
  - by rw Ascii.eqb_refl.
  - intros [H1 H2]%andb_prop. apply negb_true_iff in H1. by rw H1 (IH H2).
Qed.

Lemma join_split c s : join (String c "") (split c s) = s.
Proof.
  induction s as [|d s IH]; [done|]. simpl.
  destruct (Ascii.eqb d c) eqn:E.
  - apply Ascii.eqb_eq in E as ->. pose proof (split_nonempty c s).
    destruct (split c s); [done|]. change (String c (join (String c "") (s0 :: l)) = String c s).
    by rw IH.
  - destruct (split c s) as [|w [|w' ws]] eqn:Es; simpl in *.
    + by apply split_nonempty in Es.
    + by rw IH.
    + by rw IH.
Qed.

Lemma split_join c l :
  l <> [] -> Forall (fun w => no_char c w = true) l ->
  split c (join (String c "") l) = l.
Proof.
  intros Hne H. induction H as [|w ws Hw Hws IH]; [done|].
  destruct ws as [|w' ws]; simpl; [by apply split_id|].
  change (split c (w ++ String c (join (String c "") (w' :: ws))) = w :: w' :: ws).
  rw split_cons //. f_equal. by apply IH.
Qed.

Lemma join_app_last sep l x :
  l <> [] -> join sep (l ++ [x]) = join sep l ++ sep ++ x.
Proof.
  induction l as [|w ws IH]; [done|]. intros _.
  destruct ws as [|w' ws]; [done|].
  change (w ++ sep ++ join sep ((w' :: ws) ++ [x]) = (w ++ sep ++ join sep (w' :: ws)) ++ sep ++ x).
  rw IH // !append_assoc. done.
Qed.

(** *** White space *)

Lemma span_app p s : fst (span p s) ++ snd (span p s) = s.
Proof.
  induction s as [|c s IH]; simpl; [done|].
  destruct (p c); [|done]. destruct (span p s); simpl in *. by rw IH.
Qed.

Lemma span_fst p s : all_chars p (fst (span p s)) = true.
Proof.
  induction s as [|c s IH]; simpl; [done|].
  destruct (p c) eqn:E; [|done]. destruct (span p s); simpl in *. by rw E.
Qed.

(** A run of [p] characters followed by something that stops it. *)
Lemma span_stop p a b :
  all_chars p a = true ->
  match b with EmptyString => true | String c _ => negb (p c) end = true ->
  span p (a ++ b) = (a, b).
Proof.
  intros Ha Hb. induction a as [|c a IH]; simpl in *.
  - destruct b as [|c b]; [done|]. simpl. apply negb_true_iff in Hb. by rw Hb.
  - apply andb_prop in Ha as [-> Ha]. by rw (IH Ha).
Qed.

(** *** Decimal round trip *)

Lemma digit_val_char d : 0 <= d <= 9 -> digit_val (digit_char d) = d.
Proof.
  intros H. assert (d = 0 \/ d = 1 \/ d = 2 \/ d = 3 \/ d = 4 \/ d = 5 \/ d = 6 \/ d = 7 \/ d = 8 \/ d = 9) as Hd by lia.
  by repeat destruct Hd as [->|Hd]; subst.
Qed.

Lemma is_digit_char d : 0 <= d <= 9 -> is_digit (digit_char d) = true.
Proof.
  intros H. assert (d = 0 \/ d = 1 \/ d = 2 \/ d = 3 \/ d = 4 \/ d = 5 \/ d = 6 \/ d = 7 \/ d = 8 \/ d = 9) as Hd by lia.
  by repeat destruct Hd as [->|Hd]; subst.
Qed.

Lemma read_digits_app a b acc : read_digits (a ++ b) acc = read_digits b (read_digits a acc).
Proof. revert acc; induction a; intros; simpl; auto. Qed.

Lemma show_aux_spec f n acc :
  0 <= n < 10 ^ Z.of_nat f ->
  exists ds, show_aux f n acc = ds ++ acc /\ all_chars is_digit ds = true /\
             (forall a, read_digits ds a = a * 10 ^ strlen ds + n) /\
             (f <> O -> ds <> "").
Proof.
  revert n acc. induction f as [|f IH]; intros n acc Hn.
  - exists "". simpl in *. change (10 ^ 0) with 1 in Hn. repeat split; try done.
    intros a. change (strlen "") with 0. simpl. lia.
  - assert (Hd : 0 <= n mod 10 <= 9) by (pose proof (Z.mod_pos_bound n 10); lia).
    cbn [show_aux]. destruct (n <? 10) eqn:E.
    + exists (String (digit_char (n mod 10)) ""). split; [done|].
      split; [simpl; by rw is_digit_char|]. split; [|done].
      intros a. simpl. rw digit_val_char // Z.mod_small; [lia|].
      change (strlen _) with 1. lia.
    + assert (Hp : 10 ^ Z.of_nat (S f) = 10 * 10 ^ Z.of_nat f).
      { rw Nat2Z.inj_succ Z.pow_succ_r; lia. }
      destruct (IH (n / 10) (String (digit_char (n mod 10)) acc)) as (ds & H1 & H2 & H3 & H4).
      { split; [apply Z.div_pos; lia|]. apply Z.div_lt_upper_bound; lia. }
      exists (ds ++ String (digit_char (n mod 10)) ""). split; [|split; [|split]].
      * rw H1 append_assoc. done.
      * rw all_chars_app H2. simpl. by rw is_digit_char.
      * intros a. rw read_digits_app H3. simpl. rw digit_val_char //.
        rw strlen_append. change (strlen (String _ "")) with 1.
        pose proof (strlen_nonneg ds). rw Z.pow_add_r; [lia|lia|].
        pose proof (Z.div_mod n 10). lia.
      * intros _ He. by destruct ds.
Qed.

Lemma show_pos_fuel n : 0 <= n -> 0 <= n < 10 ^ Z.of_nat (S (Z.to_nat (Z.log2 n))).
Proof.
  intros H. split; [done|]. pose proof (Z.log2_nonneg n).
  rw Nat2Z.inj_succ Z2Nat.id; [lia|].
  destruct (Z.eq_dec n 0) as [->|Hn]; [apply Z.pow_pos_nonneg; lia|].
  pose proof (Z.log2_spec n ltac:(lia)).
  assert (2 ^ Z.succ (Z.log2 n) <= 10 ^ Z.succ (Z.log2 n)) by (apply Z.pow_le_mono_l; lia). lia.
Qed.

Lemma show_pos_spec n :
  0 <= n ->
  all_chars is_digit (show_pos n) = true /\ read_digits (show_pos n) 0 = n /\ show_pos n <> "".
Proof.
  intros H. destruct (show_aux_spec _ _ "" (show_pos_fuel n H)) as (ds & H1 & H2 & H3 & H4).
  unfold show_pos. rw H1 append_nil_r. split; [done|].
  split; [rw H3; lia|]. by apply H4.
Qed.

Lemma show_pos_inj n m : 0 <= n -> 0 <= m -> show_pos n = show_pos m -> n = m.
Proof.
  intros Hn Hm E. destruct (show_pos_spec n Hn) as (_ & <- & _).
  destruct (show_pos_spec m Hm) as (_ & <- & _). by rw E.
Qed.

(** A character class implied by another. *)
Lemma all_chars_impl (p q : ascii -> bool) s :
  (forall c, p c = true -> q c = true) -> all_chars p s = true -> all_chars q s = true.
Proof.
  intros H. induction s; simpl; [done|]. intros [H1 H2]%andb_prop. by rw (H _ H1) (IHs H2).
Qed.

Lemma all_chars_no_char p c s : p c = false -> all_chars p s = true -> no_char c s = true.
Proof.
  intros Hp. induction s as [|d s IH]; simpl; [done|]. intros [H1 H2]%andb_prop.
  rw (IH H2) andb_true_r. apply negb_true_iff, Ascii.eqb_neq. by intros ->; congruence.
Qed.

Lemma is_digit_not c d : is_digit c = true -> is_digit d = false -> Ascii.eqb c d = false.
Proof. intros Hc Hd. apply Ascii.eqb_neq. by intros ->; congruence. Qed.

Lemma is_digit_not_space c : is_digit c = true -> is_space c = false.
Proof. unfold is_space, is_digit. lia. Qed.

(** parseInt reads the digits at the start of a string and stops after them. *)
Lemma parse_int_digits ds rest :
  ds <> "" -> all_chars is_digit ds = true ->
  match rest with EmptyString => true | String c _ => negb (is_digit c) && negb (is_alpha c) end = true ->
  parse_int (ds ++ rest) = Some (false, read_digits ds 0).
Proof.
  destruct ds as [|c ds]; [done|]. intros _ Hd Hrest.
  assert (Hsp : span is_digit (String c ds ++ rest) = (String c ds, rest)).
  { apply span_stop; [done|]. destruct rest; [done|]. by apply andb_prop in Hrest as [? _]. }
  simpl in Hd. apply andb_prop in Hd as [Hc Hd]. unfold parse_int, trim_start.
  cbn [String.append] in *. cbn [span]. rw (is_digit_not_space _ Hc). cbn [snd].
  unfold strip_sign. rw !(is_digit_not c) //.
  assert (hex_prefix (String c (ds ++ rest)) = None) as ->.
  { destruct ds as [|c' ds]; simpl in *.
    - destruct rest as [|d r]; [done|]. apply andb_prop in Hrest as [_ Hr].
      destruct (Ascii.eqb_spec d "x"), (Ascii.eqb_spec d "X"); subst; try done.
      by rw andb_false_r.
    - apply andb_prop in Hd as [Hd _]. rw !(is_digit_not c') //. by rw andb_false_r. }
  by rw Hsp.
Qed.

(** parseInt reads back a printed natural number. *)
Lemma parse_int_show n : 0 <= n -> parse_int (show_pos n) = Some (false, n).
Proof.
  intros H. destruct (show_pos_spec n H) as (Hd & Hr & Hne).
  pose proof (parse_int_digits (show_pos n) "" Hne Hd eq_refl) as E.
  by rw append_nil_r Hr in E.
Qed.

(** A number below 10^d prints with at most d digits. *)
Lemma show_aux_length f n acc (d : nat) :
  0 <= n < 10 ^ Z.of_nat d -> (1 <= d)%nat ->
  (String.length (show_aux f n acc) <= d + String.length acc)%nat.
Proof.
  revert n acc d. induction f as [|f IH]; intros n acc d Hn Hd; simpl; [lia|].
  destruct (n <? 10) eqn:E; [simpl; lia|].
  destruct d as [|[|d]]; [lia|change (10 ^ Z.of_nat 1) with 10 in Hn; lia|].
  specialize (IH (n / 10) (String (digit_char (n mod 10)) acc) (S d)). simpl in IH.
  assert (10 ^ Z.of_nat (S (S d)) = 10 * 10 ^ Z.of_nat (S d)) as E2.
  { rw (Nat2Z.inj_succ (S d)) Z.pow_succ_r; lia. }
  assert (0 <= n / 10 < 10 ^ Z.of_nat (S d)).
  { split; [apply Z.div_pos; lia|]. apply Z.div_lt_upper_bound; lia. }
  lia.
Qed.

Lemma show_pos_length n (d : nat) :
  0 <= n < 10 ^ Z.of_nat d -> (1 <= d)%nat -> (String.length (show_pos n) <= d)%nat.
Proof.
  intros H Hd. etransitivity; [by apply (show_aux_length _ _ _ d)|].
  rw Nat.add_0_r. done.
Qed.
