(* ===== verification/JsNumber.v ===== *)
(** * ECMAScript numbers: IEEE-754 binary64, written over [Z]

    Every finite double is an integer multiple of 2^-1074, so a finite number
    is stored as that integer ([Fin k] is k * 2^-1074; [Fin 0] is +0).  A
    multiple is a double exactly when it has at most 53 significant bits
    ([repr]).  Arithmetic computes the exact rational result and rounds it once
    to nearest, ties to even ([round_pos]), as the standard prescribes. *)

From S2P Require Import Prelude JsString.

Inductive num :=
  | NaN
  | PInf
  | NInf
  | NegZero
  | Fin (k : Z).

#[export] Instance num_eq_dec : EqDecision num.
Proof. solve_decision. Defined.

(** The denominator of the scaled representation, 2^1074. *)
Definition scale : Z := 2 ^ 1074.

(** The first magnitude that is not a finite double: 2^1024, scaled. *)
Definition huge : Z := 2 ^ 2098.

Definition repr (k : Z) : Prop :=
  exists m e, 0 <= e /\ Z.abs m <= 2 ^ 53 /\ k = m * 2 ^ e.

(** Round the non-negative rational p/q to an integer, ties to even. *)
Definition rne (p q : Z) : Z :=
  let d := p / q in
  let r := p mod q in
  if 2 * r <? q then d
  else if q <? 2 * r then d + 1
  else if Z.even d then d else d + 1.

(** The exponent of the last of the 53 bits kept. *)
Definition ulp_exp (p q : Z) : Z := Z.max 0 (Z.log2 (p / q) - 52).

Definition round_pos (p q : Z) : Z :=
  let e := ulp_exp p q in rne p (q * 2 ^ e) * 2 ^ e.

(** Round the rational p/q (q > 0), given in multiples of 2^-1074. *)
Definition round (p q : Z) : num :=
  if p <? 0 then
    let r := round_pos (- p) q in
    if r =? 0 then NegZero else if huge <=? r then NInf else Fin (- r)
  else
    let r := round_pos p q in
    if huge <=? r then PInf else Fin r.

(** The double of an integer, as [Number(n)] or a numeric literal gives it. *)
Definition of_Z (n : Z) : num := round (n * scale) 1.

(** The double nearest to the decimal literal n / 10^f. *)
Definition of_decimal (n : Z) (f : nat) : num :=
  round (n * scale) (10 ^ Z.of_nat f).

Definition neg (x : num) : num :=
  match x with
  | NaN => NaN | PInf => NInf | NInf => PInf | NegZero => Fin 0
  | Fin k => if k =? 0 then NegZero else Fin (- k)
  end.

(** The scaled magnitude of a finite number; [None] for NaN and infinities. *)
Definition fin_val (x : num) : option Z :=
  match x with
  | NegZero => Some 0
  | Fin k => Some k
  | _ => None
  end.

(** Whether the sign bit is set (irrelevant for NaN). *)
Definition sign_neg (x : num) : bool :=
  match x with
  | NInf | NegZero => true
  | Fin k => k <? 0
  | _ => false
  end.

Definition signed_zero (s : bool) : num := if s then NegZero else Fin 0.
Definition signed_inf (s : bool) : num := if s then NInf else PInf.

Definition add (x y : num) : num :=
  match x, y with
  | NaN, _ | _, NaN => NaN
  | PInf, NInf | NInf, PInf => NaN
  | PInf, _ | _, PInf => PInf
  | NInf, _ | _, NInf => NInf
  | NegZero, NegZero => NegZero
  | NegZero, Fin b => Fin b
  | Fin a, NegZero => Fin a
  | Fin a, Fin b => round (a + b) 1
  end.

Definition sub (x y : num) : num := add x (neg y).

Definition mul (x y : num) : num :=
  match x, y with
  | NaN, _ | _, NaN => NaN
  | _, _ =>
      let s := xorb (sign_neg x) (sign_neg y) in
      match fin_val x, fin_val y with
      | Some a, Some b =>
          if (a =? 0) || (b =? 0) then signed_zero s else round (a * b) scale
      | Some a, None => if a =? 0 then NaN else signed_inf s
      | None, Some b => if b =? 0 then NaN else signed_inf s
      | None, None => signed_inf s
      end
  end.

Definition div (x y : num) : num :=
  match x, y with
  | NaN, _ | _, NaN => NaN
  | _, _ =>
      let s := xorb (sign_neg x) (sign_neg y) in
      match fin_val x, fin_val y with
      | Some a, Some b =>
          if b =? 0 then (if a =? 0 then NaN else signed_inf s)
          else if a =? 0 then signed_zero s
          else round (a * scale * Z.sgn b) (Z.abs b)
      | Some a, None => signed_zero s
      | None, Some b => signed_inf s
      | None, None => NaN
      end
  end.

(** The relational operators; every comparison with NaN is false. *)
Definition cmp (x y : num) : option comparison :=
  match x, y with
  | NaN, _ | _, NaN => None
  | PInf, PInf | NInf, NInf => Some Eq
  | PInf, _ | _, NInf => Some Gt
  | NInf, _ | _, PInf => Some Lt
  | _, _ =>
      match fin_val x, fin_val y with
      | Some a, Some b => Some (a ?= b)
      | _, _ => None
      end
  end.

Definition lt (x y : num) : bool :=
  match cmp x y with Some Lt => true | _ => false end.
Definition gt (x y : num) : bool := lt y x.
Definition le (x y : num) : bool :=
  match cmp x y with Some Lt | Some Eq => true | _ => false end.
Definition ge (x y : num) : bool := le y x.
(** [===] on numbers. *)
Definition eq (x y : num) : bool :=
  match cmp x y with Some Eq => true | _ => false end.
(** Truthiness of a number. *)
Definition truthy (x : num) : bool :=
  match x with NaN | NegZero => false | Fin k => negb (k =? 0) | _ => true end.

(** A number, or null, in an arithmetic operation: null is converted to 0. *)
Definition nullToNumber (x : option num) : num := default (of_Z 0) x.

(** ** Math *)

(** Math.floor. *)
Definition floor (x : num) : num :=
  match x with
  | Fin k => Fin (k / scale * scale)
  | _ => x
  end.

(** Math.round: the integer nearest to x, ties towards +infinity; an x in
    [-0.5, -0] rounds to -0. *)
Definition math_round (x : num) : num :=
  match x with
  | Fin k =>
      let n := (2 * k + scale) / (2 * scale) in
      if (n =? 0) && (k <? 0) then NegZero else Fin (n * scale)
  | _ => x
  end.

(** Math.sqrt: the exact root, rounded once. *)
Definition sqrt (x : num) : num :=
  match x with
  | Fin k =>
      if k <? 0 then NaN
      else
        let n := k * scale in
        let e := Z.max 0 (Z.log2 (Z.sqrt n) - 52) in
        let d := Z.sqrt (n / 4 ^ e) in
        let half := ((2 * d + 1) * 2 ^ e) ^ 2 in
        let r := match 4 * n ?= half with
                 | Lt => d
                 | Gt => d + 1
                 | Eq => if Z.even d then d else d + 1
                 end in
        Fin (r * 2 ^ e)
  | NInf => NaN
  | _ => x
  end.

(** Math.min / Math.max of two numbers. *)
Definition num_min (x y : num) : num :=
  match x, y with
  | NaN, _ | _, NaN => NaN
  | NegZero, Fin 0 | Fin 0, NegZero => NegZero
  | _, _ => if lt y x then y else x
  end.

Definition num_max (x y : num) : num :=
  match x, y with
  | NaN, _ | _, NaN => NaN
  | NegZero, Fin 0 | Fin 0, NegZero => Fin 0
  | _, _ => if lt x y then y else x
  end.

(** The integer a number equals, when it is one. *)
Definition to_Z (x : num) : option Z :=
  match x with
  | NegZero => Some 0
  | Fin k => if k mod scale =? 0 then Some (k / scale) else None
  | _ => None
  end.

(** ** Conversion to strings *)

Fixpoint zeros (n : nat) : string :=
  match n with O => "" | S n => String "0" (zeros n) end.

(** Pad a digit string on the left to at least [n] characters. *)
Definition pad (n : nat) (s : string) : string := zeros (n - String.length s) ++ s.

(** n / 10^f in positional notation with exactly [f] fraction digits. *)
Definition show_fixed (n : Z) (f : nat) : string :=
  match f with
  | O => show_pos n
  | _ =>
      let ds := pad (S f) (show_pos n) in
      let i := (String.length ds - f)%nat in
      take_str i ds ++ "." ++ drop_str i ds
  end.

(** The nearest integer to p/q, ties upwards. *)
Definition nearest_up (p q : Z) : Z := (2 * p + q) / (2 * q).

(** Floor of the decimal logarithm of the positive rational p/q, searched
    upwards from a lower bound [n].  The caller's bound comes from the binary
    logarithm and is off by at most 2, so a fuel of 5 is enough. *)
Fixpoint dec_exp (fuel : nat) (p q : Z) (n : Z) : Z :=
  match fuel with
  | O => n
  | S f =>
      let big := if 0 <=? n + 1 then q * 10 ^ (n + 1) <=? p
                 else q <=? p * 10 ^ (- (n + 1)) in
      if big then dec_exp f p q (n + 1) else n
  end.

(** The shortest decimal significand s (with j digits, value s * 10^(n-j))
    that reads back as the number k. *)
Fixpoint shortest (fuel : nat) (k n : Z) (j : Z) : Z * Z :=
  let s := if 0 <=? n - j then nearest_up k (scale * 10 ^ (n - j))
           else nearest_up (k * 10 ^ (j - n)) scale in
  let back := if 0 <=? n - j then round (s * 10 ^ (n - j) * scale) 1
              else round (s * scale) (10 ^ (j - n)) in
  match fuel with
  | O => (s, j)
  | S f => if decide (back = Fin k) then (s, j) else shortest f k n (j + 1)
  end.

(** Number::toString for a positive finite number. *)
Definition show_pos_num (k : Z) : string :=
  let n := dec_exp 5 k scale ((Z.log2 k - 1074) * 30103 / 100000 - 1) + 1 in
  let '(s, j) := shortest 17 k n 1 in
  let '(s, n) := if s =? 10 ^ j then (10 ^ (j - 1), n + 1) else (s, n) in
  let ds := show_pos s in
  if (j <=? n) && (n <=? 21) then ds ++ zeros (Z.to_nat (n - j))
  else if (0 <? n) && (n <=? 21) then
    take_str (Z.to_nat n) ds ++ "." ++ drop_str (Z.to_nat n) ds
  else if (-6 <? n) && (n <=? 0) then "0." ++ zeros (Z.to_nat (- n)) ++ ds
  else
    let e := n - 1 in
    let es := (if e <? 0 then "-" else "+") ++ show_pos (Z.abs e) in
    if j =? 1 then ds ++ "e" ++ es
    else take_str 1 ds ++ "." ++ drop_str 1 ds ++ "e" ++ es.

(** Number.prototype.toString() and implicit conversion to a string. *)
Definition to_string (x : num) : string :=
  match x with
  | NaN => "NaN"
  | PInf => "Infinity"
  | NInf => "-Infinity"
  | NegZero => "0"
  | Fin k =>
      match to_Z (Fin k) with
      | Some n =>
          if Z.abs n <? 2 ^ 53 then show_Z n
          else if k <? 0 then "-" ++ show_pos_num (- k) else show_pos_num k
      | None => if k <? 0 then "-" ++ show_pos_num (- k) else show_pos_num k
      end
  end.

(** Number.prototype.toFixed(f). *)
Definition to_fixed (x : num) (f : nat) : string :=
  match fin_val x with
  | None => to_string x
  | Some k =>
      if 10 ^ 21 * scale <=? Z.abs k then to_string x
      else (if k <? 0 then "-" else "") ++
           show_fixed (nearest_up (Z.abs k * 10 ^ Z.of_nat f) scale) f
  end.

(** Number.parseInt(s). *)
Definition parseInt (s : string) : num :=
  match parse_int s with
  | None => NaN
  | Some (neg, n) => if neg then (if n =? 0 then NegZero else of_Z (- n)) else of_Z n
  end.

(** The value of a decimal literal m * 10^e. *)
Definition of_scientific (m e : Z) : num :=
  if 0 <=? e then round (m * 10 ^ e * scale) 1 else round (m * scale) (10 ^ (- e)).

(** An exponent part, [e-3] say; none counts as 0. *)
Definition read_exponent (t : string) : option Z :=
  match t with
  | EmptyString => Some 0
  | String c t =>
      if Ascii.eqb c "e" || Ascii.eqb c "E" then
        let '(neg, t) := strip_sign t in
        if negb (streq t "") && all_chars is_digit t
        then Some (if neg then - read_digits t 0 else read_digits t 0) else None
      else None
  end.

(** The text after 0x, 0o or 0b, with the base. *)
Definition radix_prefix (t : string) : option (Z * string) :=
  match t with
  | String z (String c t) =>
      if negb (Ascii.eqb z "0") then None
      else if Ascii.eqb c "x" || Ascii.eqb c "X" then Some (16, t)
      else if Ascii.eqb c "o" || Ascii.eqb c "O" then Some (8, t)
      else if Ascii.eqb c "b" || Ascii.eqb c "B" then Some (2, t)
      else None
  | _ => None
  end.

Fixpoint read_base (b : Z) (t : string) (acc : Z) : option Z :=
  match t with
  | EmptyString => Some acc
  | String c t =>
      d ← hex_val c; if d <? b then read_base b t (acc * b + d) else None
  end.

(** Number(s) of a string: white space around it is dropped, the empty text is
    0, and a text that is not a number as a whole is NaN. *)
Definition number_of_string (s : string) : num :=
  let t := trim s in
  if streq t "" then of_Z 0
  else
    match radix_prefix t with
    | Some (b, ds) =>
        if streq ds "" then NaN else match read_base b ds 0 with Some n => of_Z n | None => NaN end
    | None =>
        let '(negative, t) := strip_sign t in
        let sign x := if negative then neg x else x in
        if streq t "Infinity" then sign PInf
        else
          let '(int, t) := span is_digit t in
          let '(frac, t) :=
            match t with
            | String c r => if Ascii.eqb c "." then span is_digit r else ("", t)
            | EmptyString => ("", t)
            end in
          if streq int "" && streq frac "" then NaN
          else
            match read_exponent t with
            | Some e => sign (of_scientific (read_digits (int ++ frac) 0) (e - strlen frac))
            | None => NaN
            end
    end.

(** ** Rounding lemmas *)

Lemma scale_pos : 0 < scale.
Proof. unfold scale. apply Z.pow_pos_nonneg; lia. Qed.

Lemma huge_scale : huge = 2 ^ 1024 * scale.
Proof. unfold huge, scale. rw -Z.pow_add_r; [lia|lia|]. by f_equal. Qed.

#[global] Opaque scale huge.

Lemma rne_bounds p q : 0 < q -> p / q <= rne p q <= p / q + 1.
Proof.
  intros Hq. unfold rne. destruct (2 * (p mod q) <? q); [lia|].
  destruct (q <? 2 * (p mod q)); [lia|]. destruct (Z.even (p / q)); lia.
Qed.

(** The error of one rounding is at most half a unit. *)
Lemma rne_error p q : 0 < q -> 2 * Z.abs (rne p q * q - p) <= q.
Proof.
  intros Hq. unfold rne. pose proof (Z.mod_pos_bound p q Hq).
  pose proof (Z.div_mod p q ltac:(lia)) as E.
  destruct (2 * (p mod q) <? q) eqn:E1; [nia|].
  destruct (q <? 2 * (p mod q)) eqn:E2; [nia|].
  destruct (Z.even (p / q)); nia.
Qed.

Lemma rne_le p q m : 0 < q -> p <= m * q -> rne p q <= m.
Proof.
  intros Hq H. pose proof (rne_error p q Hq). nia.
Qed.

Lemma rne_ge p q m : 0 < q -> m * q <= p -> m <= rne p q.
Proof.
  intros Hq H. pose proof (rne_error p q Hq). nia.
Qed.

Lemma ulp_exp_nonneg p q : 0 <= ulp_exp p q.
Proof. unfold ulp_exp. lia. Qed.

(** Above the finest binade the quotient fills all 53 bits. *)
Lemma ulp_exp_full p q :
  0 <= p -> 0 < q -> 0 < ulp_exp p q -> 2 ^ (52 + ulp_exp p q) * q <= p.
Proof.
  intros Hp Hq He. unfold ulp_exp in *.
  assert (E : 52 + Z.max 0 (Z.log2 (p / q) - 52) = Z.log2 (p / q)) by lia.
  rw E. pose proof (Z.div_pos p q Hp Hq).
  assert (p / q <> 0) by (intros E0; rw E0 in He; simpl in He; lia).
  pose proof (Z.log2_spec (p / q) ltac:(lia)).
  pose proof (Z.mul_div_le p q Hq). nia.
Qed.

Lemma pow_split a b : 0 <= b <= a -> 2 ^ a = 2 ^ (a - b) * 2 ^ b.
Proof. intros H. rw -Z.pow_add_r; [lia|lia|]. f_equal. lia. Qed.

Lemma pow2_pos e : 0 <= e -> 0 < 2 ^ e.
Proof. intros. apply Z.pow_pos_nonneg; lia. Qed.

(** A representable number that is coarser than the quotient's last place, or
    just above it, is a multiple of that place. *)
Lemma repr_multiple y p q :
  0 <= p -> 0 < q -> repr y ->
  (exists m, y = m * 2 ^ ulp_exp p q) \/
  (0 < ulp_exp p q /\ Z.abs y < 2 ^ (52 + ulp_exp p q)).
Proof.
  intros Hp Hq (m & e & He & Hm & ->). set (u := ulp_exp p q).
  pose proof (ulp_exp_nonneg p q). destruct (Z.le_gt_cases u e) as [Hle|Hlt].
  - left. exists (m * 2 ^ (e - u)). rw (pow_split e u); [lia|]. lia.
  - assert (Hpe : 2 ^ (52 + u) = 2 ^ 53 * 2 ^ (u - 1 - e) * 2 ^ e).
    { rw -!Z.pow_add_r; try lia. f_equal. lia. }
    pose proof (pow2_pos e He). pose proof (pow2_pos (u - 1 - e) ltac:(lia)).
    rw Z.abs_mul (Z.abs_eq (2 ^ e)); [lia|].
    destruct (Z.eq_dec (Z.abs m * 2 ^ e) (2 ^ (52 + u))) as [E|E].
    + left. exists (Z.sgn m * 2 ^ 52). rw -Z.mul_assoc -Z.pow_add_r; [lia|lia|].
      rw -E. pose proof (Z.sgn_abs m). nia.
    + right. split; [lia|nia].
Qed.

(** Rounding never crosses a representable number. *)
Lemma round_pos_le p q y :
  0 <= p -> 0 < q -> repr y -> p <= y * q -> round_pos p q <= y.
Proof.
  intros Hp Hq Hy H. unfold round_pos.
  pose proof (pow2_pos _ (ulp_exp_nonneg p q)) as Hu.
  destruct (repr_multiple y p q Hp Hq Hy) as [[m ->]|[He Hlt]].
  - apply Z.mul_le_mono_nonneg_r; [lia|]. apply rne_le; [nia|]. nia.
  - pose proof (ulp_exp_full p q Hp Hq He). nia.
Qed.

Lemma round_pos_ge p q y :
  0 <= p -> 0 < q -> repr y -> y * q <= p -> y <= round_pos p q.
Proof.
  intros Hp Hq Hy H. unfold round_pos.
  pose proof (pow2_pos _ (ulp_exp_nonneg p q)) as Hu.
  destruct (repr_multiple y p q Hp Hq Hy) as [[m ->]|[He Hlt]].
  - apply Z.mul_le_mono_nonneg_r; [lia|]. apply rne_ge; [nia|]. nia.
  - pose proof (ulp_exp_full p q Hp Hq He) as Hf.
    rw Z.pow_add_r in Hf; [lia|lia|]. rw Z.pow_add_r in Hlt; [lia|lia|].
    assert (2 ^ 52 <= rne p (q * 2 ^ ulp_exp p q)) by (apply rne_ge; nia). nia.
Qed.

Lemma round_pos_nonneg p q : 0 <= p -> 0 < q -> 0 <= round_pos p q.
Proof.
  intros. apply round_pos_ge; [done|done| |lia]. exists 0, 0. lia.
Qed.

(** Arithmetic whose exact result is a double is not rounded. *)
Lemma round_pos_exact y q : 0 <= y -> 0 < q -> repr y -> round_pos (y * q) q = y.
Proof.
  intros Hy Hq Hr. apply Z.le_antisymm.
  - apply round_pos_le; try done; nia.
  - apply round_pos_ge; try done; nia.
Qed.

(** The result of a rounding is itself representable. *)
Lemma round_pos_repr p q : 0 <= p -> 0 < q -> repr (round_pos p q).
Proof.
  intros Hp Hq. unfold round_pos. exists (rne p (q * 2 ^ ulp_exp p q)), (ulp_exp p q).
  pose proof (ulp_exp_nonneg p q). pose proof (pow2_pos (ulp_exp p q) ltac:(lia)).
  split; [done|]. split; [|done]. rw Z.abs_eq; [apply rne_ge; nia|].
  apply rne_le; [nia|]. rw (Z.mul_comm q) Z.mul_assoc -Z.pow_add_r; [lia|lia|].
  pose proof (Z.div_pos p q Hp Hq).
  destruct (Z.eq_dec (p / q) 0) as [E|E].
  - pose proof (Z.mod_pos_bound p q Hq). pose proof (Z.div_mod p q ltac:(lia)).
    assert (0 < 2 ^ (53 + ulp_exp p q)) by (apply pow2_pos; lia). nia.
  - pose proof (Z.log2_spec (p / q) ltac:(lia)) as [_ Hl].
    assert (2 ^ Z.succ (Z.log2 (p / q)) <= 2 ^ (53 + ulp_exp p q)).
    { apply Z.pow_le_mono_r; [lia|]. unfold ulp_exp. lia. }
    pose proof (Z.mod_pos_bound p q Hq). pose proof (Z.div_mod p q ltac:(lia)). nia.
Qed.

(** ** Integers and comparisons *)

Lemma repr_mul_pow2 k e : 0 <= e -> repr k -> repr (k * 2 ^ e).
Proof.
  intros He (m & e' & He' & Hm & ->). exists m, (e' + e). split; [lia|]. split; [done|].
  rw Z.pow_add_r; [lia|lia|]. lia.
Qed.

Lemma repr_small n : Z.abs n <= 2 ^ 53 -> repr n.
Proof. intros. exists n, 0. lia. Qed.

(** Dyadic rationals with a 53-bit numerator. *)
Lemma repr_dyadic n e :
  Z.abs n <= 2 ^ 53 -> 0 <= e <= 1074 -> repr (n * (scale / 2 ^ e)).
Proof.
  intros Hn He.
  assert (scale / 2 ^ e = 2 ^ (1074 - e)) as ->.
  { Transparent scale. unfold scale. Opaque scale.
    rw (pow_split 1074 e); [lia|]. rw Z.div_mul; [|done]. pose proof (pow2_pos e). lia. }
  apply repr_mul_pow2; [lia|]. by apply repr_small.
Qed.

Lemma repr_int n : Z.abs n <= 2 ^ 53 -> repr (n * scale).
Proof.
  intros H. pose proof (repr_dyadic n 0 H ltac:(lia)) as Hr.
  by rw Z.pow_0_r Z.div_1_r in Hr.
Qed.

Lemma int_below_huge n : Z.abs n <= 2 ^ 53 -> Z.abs (n * scale) < huge.
Proof.
  intros H. rw huge_scale Z.abs_mul. pose proof scale_pos.
  rw (Z.abs_eq scale); [lia|]. assert (2 ^ 53 < 2 ^ 1024) by done. nia.
Qed.

Lemma round_fin p q :
  0 <= p -> 0 < q -> round_pos p q < huge -> round p q = Fin (round_pos p q).
Proof.
  intros Hp Hq H. unfold round.
  replace (p <? 0) with false by lia. by replace (huge <=? round_pos p q) with false by lia.
Qed.

Lemma of_Z_small n : 0 <= n <= 2 ^ 53 -> of_Z n = Fin (n * scale).
Proof.
  intros H. unfold of_Z. pose proof scale_pos.
  assert (E : round_pos (n * scale) 1 = n * scale).
  { rw -{1}(Z.mul_1_r (n * scale)). apply round_pos_exact; [nia|lia|].
    apply repr_int. lia. }
  rw round_fin; [nia|lia| |by rw E]. rw E.
  pose proof (int_below_huge n). lia.
Qed.

Lemma lt_fin a b : lt (Fin a) (Fin b) = (a <? b).
Proof. unfold lt, cmp, fin_val. unfold Z.ltb. by destruct (a ?= b). Qed.

Lemma gt_fin a b : gt (Fin a) (Fin b) = (b <? a).
Proof. apply lt_fin. Qed.

Lemma le_fin a b : le (Fin a) (Fin b) = (a <=? b).
Proof. unfold le, cmp, fin_val. unfold Z.leb. by destruct (a ?= b). Qed.

Lemma eq_fin a b : eq (Fin a) (Fin b) = (a =? b).
Proof. unfold eq, cmp, fin_val. rw Z.eqb_compare. by destruct (a ?= b). Qed.

(** ** Division of a non-negative double by a positive integer constant *)

Definition div_by (k c : Z) : Z := round_pos (k * scale) (c * scale).

Lemma div_by_le k c y :
  0 <= k -> 0 < c -> repr y -> k <= y * c -> div_by k c <= y.
Proof. intros. pose proof scale_pos. apply round_pos_le; try done; nia. Qed.

Lemma div_by_ge k c y :
  0 <= k -> 0 < c -> repr y -> y * c <= k -> y <= div_by k c.
Proof. intros. pose proof scale_pos. apply round_pos_ge; try done; nia. Qed.

Lemma div_by_nonneg k c : 0 <= k -> 0 < c -> 0 <= div_by k c.
Proof. intros. pose proof scale_pos. apply round_pos_nonneg; nia. Qed.

Lemma div_by_repr k c : 0 <= k -> 0 < c -> repr (div_by k c).
Proof. intros. pose proof scale_pos. apply round_pos_repr; nia. Qed.

Lemma div_by_bound k c : 0 <= k -> 0 < c -> repr k -> div_by k c <= k.
Proof. intros. apply div_by_le; try done. nia. Qed.

(** Dividing by a power of two is exact while the quotient stays a multiple of
    the finest binade. *)
Lemma div_by_exact k c : 0 <= k -> 0 < c -> repr k -> div_by (k * c) c = k.
Proof.
  intros Hk Hc Hr. apply Z.le_antisymm; [apply div_by_le|apply div_by_ge]; try done; nia.
Qed.

Lemma div_const k c :
  0 <= k < huge -> repr k -> 1 <= c <= 2 ^ 53 ->
  div (Fin k) (of_Z c) = Fin (div_by k c).
Proof.
  intros Hk Hr Hc. rw of_Z_small; [lia|]. pose proof scale_pos.
  unfold div. cbn [fin_val sign_neg].
  replace (c * scale =? 0) with false by nia.
  replace (c * scale <? 0) with false by nia. replace (k <? 0) with false by lia.
  assert (Hb : div_by k c <= k) by (apply div_by_bound; [lia|lia|done]).
  destruct (k =? 0) eqn:E.
  - assert (k = 0) as -> by lia. simpl.
    pose proof (div_by_nonneg 0 c). f_equal. lia.
  - rw (Z.sgn_pos (c * scale)); [nia|]. rw Z.abs_eq; [nia|]. rw Z.mul_1_r.
    apply round_fin; [nia|nia|]. unfold div_by in Hb. lia.
Qed.

(** ** The order of numbers *)

(** A number's place in the order: minus infinity, the finite numbers by value
    (both zeros together), plus infinity. *)
Definition rank (x : num) : Z * Z :=
  match x with
  | NInf => (-1, 0) | PInf => (1, 0) | Fin k => (0, k) | _ => (0, 0)
  end.

Lemma le_rank x y :
  x <> NaN -> y <> NaN ->
  le x y = ((rank x).1 <? (rank y).1) ||
           (((rank x).1 =? (rank y).1) && ((rank x).2 <=? (rank y).2)).
Proof.
  intros Hx Hy. destruct x as [| | | |a], y as [| | | |b]; try done; unfold le, cmp, fin_val, rank; simpl.
  all: unfold Z.leb; by destruct (_ ?= _).
Qed.

Lemma lt_rank x y :
  x <> NaN -> y <> NaN ->
  lt x y = ((rank x).1 <? (rank y).1) ||
           (((rank x).1 =? (rank y).1) && ((rank x).2 <? (rank y).2)).
Proof.
  intros Hx Hy. destruct x as [| | | |a], y as [| | | |b]; try done; unfold lt, cmp, fin_val, rank; simpl.
  all: unfold Z.ltb; by destruct (_ ?= _).
Qed.

Lemma eq_rank x y :
  x <> NaN -> y <> NaN ->
  eq x y = (((rank x).1 =? (rank y).1) && ((rank x).2 =? (rank y).2)).
Proof.
  intros Hx Hy. destruct x as [| | | |a], y as [| | | |b]; try done;
    unfold eq, cmp, fin_val, rank; cbn [fst snd]; change (0 =? 0) with true; cbn [andb].
  all: rw Z.eqb_compare; by destruct (_ ?= _).
Qed.

Lemma le_total x y : x <> NaN -> y <> NaN -> lt x y = false -> le y x = true.
Proof. intros Hx Hy. rw lt_rank // le_rank //. lia. Qed.

Lemma lt_le x y : x <> NaN -> y <> NaN -> lt x y = true -> le x y = true.
Proof. intros Hx Hy. rw lt_rank // le_rank //. lia. Qed.

Lemma le_refl x : x <> NaN -> le x x = true.
Proof. intros Hx. rw le_rank //. lia. Qed.

Lemma le_trans x y z :
  x <> NaN -> y <> NaN -> z <> NaN -> le x y = true -> le y z = true -> le x z = true.
Proof. intros Hx Hy Hz. rw !le_rank //. lia. Qed.

Lemma eq_class_not_lt x y w : eq x w = true -> eq y w = true -> lt x y = false.
Proof.
  intros H1 H2. destruct (decide (x = NaN)) as [->|Hx]; [done|].
  destruct (decide (y = NaN)) as [->|Hy]; [by destruct x|].
  destruct (decide (w = NaN)) as [->|Hw]; [by destruct x|].
  rw eq_rank // in H1. rw eq_rank // in H2. rw lt_rank //. lia.
Qed.
