(* ===== verification/Utils.v ===== *)
(** * utils.js: the console's shared helpers

    Colours and labels of query and stage states, histories of the sparklines,
    identifier parsing, and the formatting and parsing of counts, durations and
    data sizes.  JSON objects of the server are records; a field the server may
    omit is an [option] and reading through it may throw. *)

From S2P Require Import Prelude JsString JsNumber.

Record ErrorCode := { errorCode_name : string }.

Record QueryStats := {
  totalDrivers : num;
  runningDrivers : num;
  fullyBlocked : bool;
  blockedReasons : option (list string);
  progressPercentage : option num;
}.

(** The fields of BasicQueryInfo / QueryInfo the helpers read.  [failed] is the
    name newUtils.js uses for the error type. *)
Record Query := {
  state : string;
  queryStats : option QueryStats;
  errorType : option string;
  errorCode : option ErrorCode;
  failed : option string;
  scheduled : bool;
  memoryPool : option string;
}.

Record Stage := {
  stage_state : string;
  stage_fullyBlocked : option bool;   (* [stageStats.fullyBlocked]; None without stageStats *)
}.

Module STATE_COLOR_MAP.
Definition QUEUED := "#1b8f72".
Definition RUNNING := "#19874e".
Definition PLANNING := "#674f98".
Definition FINISHED := "#678975".
Definition BLOCKED := "#61003b".
Definition USER_ERROR := "#9a7d66".
Definition CANCELED := "#858959".
Definition INSUFFICIENT_RESOURCES := "#7f5b72".
Definition EXTERNAL_ERROR := "#ca7640".
Definition UNKNOWN_ERROR := "#943524".
End STATE_COLOR_MAP.

(** [o === s] for an optional string. *)
Definition opt_is (o : option string) (s : string) : bool :=
  match o with Some t => streq t s | None => false end.

Definition stats_blocked (q : Query) : bool :=
  match queryStats q with Some st => fullyBlocked st | None => false end.

Definition getQueryStateColor (query : Query) : result string :=
  let st := state query in
  if streq st "QUEUED" then Ok STATE_COLOR_MAP.QUEUED
  else if streq st "PLANNING" then Ok STATE_COLOR_MAP.PLANNING
  else if streq st "SUSPENDED" then Ok STATE_COLOR_MAP.BLOCKED
  else if streq st "STARTING" || streq st "FINISHING" || streq st "RUNNING" then
    if stats_blocked query then Ok STATE_COLOR_MAP.BLOCKED
    else Ok STATE_COLOR_MAP.RUNNING
  else if streq st "FAILED" then
    if opt_is (errorType query) "USER_ERROR" then
      name ← member (errorCode query) errorCode_name;
      if streq name "USER_CANCELED" then Ok STATE_COLOR_MAP.CANCELED
      else Ok STATE_COLOR_MAP.USER_ERROR
    else if opt_is (errorType query) "EXTERNAL" then Ok STATE_COLOR_MAP.EXTERNAL_ERROR
    else if opt_is (errorType query) "INSUFFICIENT_RESOURCES" then
      Ok STATE_COLOR_MAP.INSUFFICIENT_RESOURCES
    else Ok STATE_COLOR_MAP.UNKNOWN_ERROR
  else if streq st "FINISHED" then Ok STATE_COLOR_MAP.FINISHED
  else Ok STATE_COLOR_MAP.QUEUED.

Definition getStageStateColor (stage : Stage) : string :=
  let st := stage_state stage in
  if streq st "PLANNED" then STATE_COLOR_MAP.QUEUED
  else if streq st "SUSPENDED" then STATE_COLOR_MAP.BLOCKED
  else if streq st "SCHEDULING" || streq st "SCHEDULING_SPLITS" || streq st "SCHEDULED" then
    STATE_COLOR_MAP.PLANNING
  else if streq st "RUNNING" then
    if default false (stage_fullyBlocked stage) then STATE_COLOR_MAP.BLOCKED
    else STATE_COLOR_MAP.RUNNING
  else if streq st "FINISHED" then STATE_COLOR_MAP.FINISHED
  else if streq st "CANCELED" || streq st "ABORTED" then STATE_COLOR_MAP.CANCELED
  else if streq st "FAILED" then STATE_COLOR_MAP.UNKNOWN_ERROR
  else "#b5b5b5".

(** The title of a running query whose drivers are known. *)
Definition runningTitle (qs : QueryStats) (pool : option string) : string :=
  let title :=
    if fullyBlocked qs then
      "BLOCKED" ++
      match blockedReasons qs with
      | Some ((_ :: _) as rs) => " (" ++ join ", " rs ++ ")"
      | _ => ""
      end
    else "RUNNING" in
  if opt_is pool "reserved" then title ++ " (RESERVED)" else title.

Definition failedTitle (query : Query) : result string :=
  if opt_is (errorType query) "USER_ERROR" then
    name ← member (errorCode query) errorCode_name;
    Ok (if streq name "USER_CANCELED" then "USER CANCELED" else "USER ERROR")
  else if opt_is (errorType query) "INTERNAL_ERROR" then Ok "INTERNAL ERROR"
  else if opt_is (errorType query) "INSUFFICIENT_RESOURCES" then Ok "INSUFFICIENT RESOURCES"
  else if opt_is (errorType query) "EXTERNAL" then Ok "EXTERNAL ERROR"
  else Ok (state query).

Definition getHumanReadableState (query : Query) : result string :=
  if streq (state query) "RUNNING" then
    if scheduled query then
      qs ← member (queryStats query) id;
      if gt (totalDrivers qs) (of_Z 0) && ge (runningDrivers qs) (of_Z 0)
      then Ok (runningTitle qs (memoryPool query))
      else Ok (state query)
    else Ok (state query)
  else if streq (state query) "FAILED" then failedTitle query
  else Ok (state query).

Definition opt_truthy (o : option num) : bool :=
  match o with Some x => truthy x | None => false end.

Definition getProgressBarPercentage (query : Query) : result num :=
  progress ← member (queryStats query) progressPercentage;
  if negb (opt_truthy progress) || negb (streq (state query) "RUNNING") then Ok (of_Z 100)
  else Ok (math_round (default NaN progress)).

Definition getProgressBarTitle (query : Query) : result string :=
  progress ← member (queryStats query) progressPercentage;
  if opt_truthy progress && streq (state query) "RUNNING" then
    title ← getHumanReadableState query;
    pct ← getProgressBarPercentage query;
    Ok (title ++ " (" ++ to_string pct ++ "%)")
  else getHumanReadableState query.

Definition isQueryEnded (query : Query) : bool :=
  bool_decide (state query ∈ ["FINISHED"; "FAILED"; "CANCELED"]).

(** ** Sparkline histories *)

Definition MAX_HISTORY : Z := 60 * 5.
Definition MOVING_AVERAGE_ALPHA : num := of_decimal 2 1.

Definition keepRecent {A} (valuesArray : list A) (value : A) : list A :=
  drop (Z.to_nat (Z.max (Z.of_nat (length valuesArray) - MAX_HISTORY) 0))
       (valuesArray ++ [value])%list.

Definition addToHistory {A} (value : A) (valuesArray : list A) : list A :=
  match valuesArray with
  | [] => (valuesArray ++ [value])%list
  | _ => keepRecent valuesArray value
  end.

Definition addExponentiallyWeightedToHistory (value : num) (valuesArray : list num) : list num :=
  match valuesArray with
  | [] => (valuesArray ++ [value])%list
  | _ =>
      let lastValue := List.last valuesArray NaN in
      let movingAverage :=
        add (mul value MOVING_AVERAGE_ALPHA)
            (mul lastValue (sub (of_Z 1) MOVING_AVERAGE_ALPHA)) in
      let movingAverage := if lt value (of_Z 1) then of_Z 0 else movingAverage in
      keepRecent valuesArray movingAverage
  end.

(** ** Strings and identifiers *)

(** [inputString] may be undefined or null. *)
Definition truncateString (inputString : option string) (length : Z) : option string :=
  match inputString with
  | Some s =>
      if negb (streq s "") && (length <? strlen s)
      then Some (substring s 0 length ++ "...") else Some s
  | None => None
  end.

Definition getStageNumber (stageId : string) : num :=
  parseInt (slice stageId (index_of "." stageId + 1) (strlen stageId)).

Definition getTaskIdSuffix (taskId : string) : string :=
  slice taskId (index_of "." taskId + 1) (strlen taskId).

Definition getTaskNumber (taskId : string) : num :=
  parseInt (getTaskIdSuffix (getTaskIdSuffix taskId)).

Definition getFirstParameter (searchString : string) : string :=
  let searchText := substring_from searchString 1 in
  if negb (index_of "&" searchText =? -1)
  then substring searchText 0 (index_of "&" searchText)
  else searchText.

Definition removeNodeTypePackage (nodeType : string) : string :=
  let classEndIndex := last_index_of "." nodeType in
  substr_from nodeType (classEndIndex + 1).

Section Url.
(** The URL constructor of the platform: it throws on an invalid URL. *)
Variable URL : Type.
Variable newURL : string -> result URL.
Variables hostname port : URL -> string.

Definition getHostname (url : string) : result string :=
  u ← newURL url;
  let h := hostname u in
  Ok (if streq (take_str 1 h) "[" && streq (substring h (strlen h - 1) (strlen h)) "]"
      then sub_str h 1 (1 + Z.max 0 (strlen h - 2)) else h).

Definition getPort (url : string) : result string := port <$> newURL url.

Definition getHostAndPort (urlStr : string) : result string :=
  url ← newURL urlStr; Ok (hostname url ++ ":" ++ port url).
End Url.

(** ** Plan nodes *)

Inductive PlanNode := mkPlanNode {
  nodeType : string;                 (* ["@type"] *)
  nodeId : string;
  source : option PlanNode;
  left_ : option PlanNode;
  right_ : option PlanNode;
  filteringSource : option PlanNode;
  probeSource : option PlanNode;
  indexSource : option PlanNode;
  sources : option (list (option PlanNode));
}.

Definition singleSourceNodes : list string :=
  ["OutputNode"; "ExplainAnalyzeNode"; "ProjectNode"; "FilterNode"; "AggregationNode";
   "SortNode"; "MarkDistinctNode"; "WindowNode"; "RowNumberNode"; "TopNRowNumberNode";
   "LimitNode"; "DistinctLimitNode"; "TopNNode"; "SampleNode"; "TableWriterNode";
   "DeleteNode"; "TableDeleteNode"; "TableFinishNode"; "GroupIdNode"; "CTEScanNode";
   "UnnestNode"; "EnforceSingleRowNode"].

(** The children; [None] when [sources] itself is undefined, and an element is
    [None] when that property of the node is. *)
Definition getChildren (nodeInfo : PlanNode) : option (list (option PlanNode)) :=
  let nodeType := removeNodeTypePackage (nodeType nodeInfo) in
  if bool_decide (nodeType ∈ singleSourceNodes) then Some [source nodeInfo]
  else if streq nodeType "JoinNode" then Some [left_ nodeInfo; right_ nodeInfo]
  else if streq nodeType "SemiJoinNode" then Some [source nodeInfo; filteringSource nodeInfo]
  else if streq nodeType "SpatialJoinNode" then Some [left_ nodeInfo; right_ nodeInfo]
  else if streq nodeType "IndexJoinNode" then Some [probeSource nodeInfo; indexSource nodeInfo]
  else if streq nodeType "UnionNode" || streq nodeType "ExchangeNode" then sources nodeInfo
  else Some [].

(** ** Numbers *)

Definition computeRate (count ms : num) : num :=
  if eq ms (of_Z 0) then of_Z 0 else mul (div count ms) (of_Z 1000).

Definition precisionRound (n : num) : string :=
  if lt n (of_Z 10) then to_fixed n 2
  else if lt n (of_Z 100) then to_fixed n 1
  else to_string (math_round n).

(** One [if (unit === from && duration > limit)] of formatDuration. *)
Definition durationStep (from : string) (limit : Z) (to : string)
    (du : num * string) : num * string :=
  let '(duration, unit) := du in
  if streq unit from && gt duration (of_Z limit) then (div duration (of_Z limit), to)
  else (duration, unit).

Definition formatDuration (duration : num) : string :=
  let '(duration, unit) :=
    durationStep "d" 7 "w" (durationStep "h" 24 "d" (durationStep "m" 60 "h"
      (durationStep "s" 60 "m" (durationStep "ms" 1000 "s" (duration, "ms"))))) in
  precisionRound duration ++ unit.

(** One [if (count > 1000)] of formatCount. *)
Definition countStep (to : string) (cu : num * string) : num * string :=
  let '(count, unit) := cu in
  if gt count (of_Z 1000) then (div count (of_Z 1000), to) else (count, unit).

Definition formatCount (count : num) : string :=
  let '(count, unit) :=
    countStep "Q" (countStep "T" (countStep "B" (countStep "M" (countStep "K" (count, ""))))) in
  precisionRound count ++ unit.

Definition formatRows (count : num) : string :=
  if eq count (of_Z 1) then "1 row" else formatCount count ++ " rows".

(** One [if (size >= 1024)] of formatDataSizeMinUnit. *)
Definition sizeStep (to : string) (su : num * string) : num * string :=
  let '(size, unit) := su in
  if ge size (of_Z 1024) then (div size (of_Z 1024), to) else (size, unit).

Definition formatDataSizeMinUnit (size : num) (minUnit : string) : string :=
  let unit := minUnit in
  if eq size (of_Z 0) then "0" ++ unit
  else
    let '(size, unit) :=
      sizeStep ("P" ++ minUnit) (sizeStep ("T" ++ minUnit) (sizeStep ("G" ++ minUnit)
        (sizeStep ("M" ++ minUnit) (sizeStep ("K" ++ minUnit) (size, unit))))) in
    precisionRound size ++ unit.

Definition formatDataSizeBytes (size : num) : string := formatDataSizeMinUnit size "".
Definition formatDataSize (size : num) : string := formatDataSizeMinUnit size "B".

(** The pattern /^\s*(\d+(?:\.\d+)?)\s*([a-zA-Z]+)\s*$/.  The classes of
    neighbouring parts are disjoint, so matching greedily loses no match.  The
    first group is returned as its integer and fraction digits. *)
Definition matchNumberUnit (value : string) : option (string * string * string) :=
  let t := snd (span is_space value) in
  let '(int, t) := span is_digit t in
  if streq int "" then None
  else
    let '(frac, t) :=
      match t with
      | String c r =>
          if Ascii.eqb c "." then
            let '(f, r') := span is_digit r in
            if streq f "" then ("", t) else (f, r')
          else ("", t)
      | EmptyString => ("", t)
      end in
    let t := snd (span is_space t) in
    let '(unit, t) := span is_alpha t in
    if streq unit "" then None
    else if streq (snd (span is_space t)) "" then Some (int, frac, unit) else None.

(** parseFloat of the digits the pattern captured. *)
Definition parseFloatDigits (int frac : string) : num :=
  of_decimal (read_digits (int ++ frac) 0) (String.length frac).

(** [value] is not a string at all ([undefined]) when the server omitted it:
    exec then matches the text "undefined" and fails. *)
Definition parseDataSize (value : string) : option num :=
  match matchNumberUnit value with
  | None => None
  | Some (int, frac, unit) =>
      let number := parseFloatDigits int frac in
      if streq unit "B" then Some number
      else if streq unit "kB" then Some (mul number (of_Z (2 ^ 10)))
      else if streq unit "MB" then Some (mul number (of_Z (2 ^ 20)))
      else if streq unit "GB" then Some (mul number (of_Z (2 ^ 30)))
      else if streq unit "TB" then Some (mul number (of_Z (2 ^ 40)))
      else if streq unit "PB" then Some (mul number (of_Z (2 ^ 50)))
      else None
  end.

Definition parseDuration (value : string) : option num :=
  match matchNumberUnit value with
  | None => None
  | Some (int, frac, unit) =>
      let number := parseFloatDigits int frac in
      if streq unit "ns" then Some (div number (of_Z 1000000))
      else if streq unit "us" then Some (div number (of_Z 1000))
      else if streq unit "ms" then Some number
      else if streq unit "s" then Some (mul number (of_Z 1000))
      else if streq unit "m" then Some (mul (mul number (of_Z 1000)) (of_Z 60))
      else if streq unit "h" then Some (mul (mul (mul number (of_Z 1000)) (of_Z 60)) (of_Z 60))
      else if streq unit "d" then
        Some (mul (mul (mul (mul number (of_Z 1000)) (of_Z 60)) (of_Z 60)) (of_Z 24))
      else None
  end.

(** A formatter applied to null, which the parsers return for a text they cannot
    read, throws: toFixed is a method of null. *)
Definition formatOf (format : num -> string) (x : option num) : result string :=
  match x with Some n => Ok (format n) | None => Throw TypeError end.

(** ** Dates *)

(** The local-time fields of a Date. *)
Record Date := {
  getFullYear : Z;
  getMonth : Z;
  getDate : Z;
  getHours : Z;
  getMinutes : Z;
}.

Definition formatShortTime (date : Date) : string :=
  let h := getHours date mod 12 in
  let hours := if h =? 0 then 12 else h in
  let minutes := (if getMinutes date <? 10 then "0" else "") ++ show_Z (getMinutes date) in
  show_Z hours ++ ":" ++ minutes ++ (if 12 <=? getHours date then "pm" else "am").

(** [s[1] ? s : "0" + s[0]]. *)
Definition twoDigits (s : string) : string :=
  if 2 <=? strlen s then s else "0" ++ substring s 0 1.

Definition formatShortDateTime (date : Date) : string :=
  let year := show_Z (getFullYear date) in
  let month := show_Z (getMonth date + 1) in
  let dayOfMonth := show_Z (getDate date) in
  year ++ "-" ++ twoDigits month ++ "-" ++ twoDigits dayOfMonth ++ " " ++ formatShortTime date.

(** ** bubbleSort *)

Section BubbleSort.
Context {A : Type} (value : A -> num).
Implicit Types arr : list A.

(** The loop body: compare arr[j] and arr[j+1], swap them in place. *)
Definition compareSwap (arr : list A) (j : nat) : list A :=
  match arr !! j, arr !! S j with
  | Some a, Some temp =>
      if lt (value a) (value temp) then <[j := temp]> (<[S j := a]> arr) else arr
  | _, _ => arr
  end.

Definition innerLoop (arr : list A) (n : nat) : list A :=
  fold_left compareSwap (List.seq 0 n) arr.

Definition bubbleSort (arr : list A) : list A :=
  let len := length arr in
  fold_left (fun arr i => innerLoop arr (len - 1 - i)) (List.seq 0 (len - 1)) arr.
End BubbleSort.
