(* ===== verification/Markup.v ===== *)
(** * Markup: the element trees of JSX

    What a render method returns, as a tree of elements, and what the browser
    and the console's own code do with it: text, ids and the elements found by
    them, the nesting HTML asks for, and the grid of a table. *)

From Stdlib Require Import Btauto.
From S2P Require Import Prelude JsString JsNumber Utils.

(** ** Elements *)

(** The value of an attribute: a string (numbers as they print), a style object,
    a list of strings,
    or a handler, of which only the call is kept. *)
Inductive Value :=
  | Str (s : string)
  | Style (properties : list (string * string))
  | Handler (call : string)
  | Strings (l : list string).

Inductive Node :=
  | Text (s : string)
  | Element (tag : string) (attributes : list (string * Value)) (children : list Node).

(** A child of JSX is any number of nodes: an array has many; undefined, null
    and false have none. *)
Notation Html := (list Node).

Definition el (tag : string) (attributes : list (string * Value)) (children : list Html) : Html :=
  [Element tag attributes (concat children)].
Definition txt (s : string) : Html := [Text s].

(** [{condition && child}] for a boolean condition. *)
Definition when (condition : bool) (child : Html) : Html := if condition then child else [].
(** [{value}] where the value may be undefined or null. *)
Definition opt (value : option string) : Html := from_option txt [] value.

Declare Scope markup_scope.
Delimit Scope markup_scope with markup.
Open Scope markup_scope.
Notation "name =: s" := (name, Str s) (at level 65, no associativity) : markup_scope.
Notation "name =>: call" := (name, Handler call) (at level 65, no associativity) : markup_scope.
Definition cls (className : string) : string * Value := "className" =: className.
Definition style (properties : list (string * string)) : string * Value := ("style", Style properties).

(** [&nbsp;], in UTF-8. *)
Definition nbsp : string := String "194" (String "160" "").

Definition br : Html := el "br" [] [].

(** Numbers as children, the last value of a history, the length of an array. *)
Definition num_child (n : num) : Html := txt (to_string n).
Definition last_child (history : list num) : Html := from_option num_child [] (last history).
Definition show_nat (n : nat) : string := show_Z (Z.of_nat n).
Definition length_child {A} (l : list A) : Html := txt (show_Z (Z.of_nat (length l))).

(** [history[history.length - 1]] as a number: undefined formats like NaN. *)
Definition latest (history : list num) : num := default NaN (last history).

(** utils.js *)
Definition GLYPHICON_DEFAULT : string * Value := style [("color", "#0e5201")].
Definition GLYPHICON_HIGHLIGHT : string * Value := style [("color", "#999999")].

(** A call of the sparkline plugin: the identifier of the element, the values and
    the formatter of its tooltips. *)
Inductive Formatter := Plain | PrecisionRound | FormatCount | FormatDataSize | FormatDataSizeBytes | FormatDuration.
Record Drawing := { element : string; values : list (option num); numberFormatter : Formatter }.

(** ** Induction

    The children of a node are a list, so the principle the kernel derives is
    too weak. *)
Lemma node_induction (P : Node -> Prop) :
  (forall s, P (Text s)) -> (forall tag a children, Forall P children -> P (Element tag a children)) ->
  forall n, P n.
Proof.
  intros HT HE. fix IH 1. intros [s|tag a children]; [apply HT|]. apply HE.
  induction children as [|c children IHc]; constructor; [apply IH|done].
Qed.

(** ** Attributes, text and identifiers *)

Definition attribute (name : string) (n : Node) : option string :=
  match n with
  | Text _ => None
  | Element _ attributes _ =>
      match List.find (fun '(key, _) => streq key name) attributes with
      | Some (_, Str s) => Some s
      | _ => None
      end
  end.

Fixpoint textContent (n : Node) : string :=
  match n with Text s => s | Element _ _ children => String.concat "" (textContent <$> children) end.

(** The elements of a tree, in document order. *)
Fixpoint elements (n : Node) : list Node :=
  match n with Text _ => [] | Element _ _ children => n :: flat_map elements children end.
Definition allElements (h : Html) : list Node := flat_map elements h.

Definition attributesOf (name : string) (h : Html) : list string := omap (attribute name) (allElements h).

(** The calls an event offers, and the arguments bound to those of one handler. *)
Definition handler (event : string) (n : Node) : option string :=
  match n with
  | Text _ => None
  | Element _ attributes _ =>
      match List.find (fun '(key, _) => streq key event) attributes with
      | Some (_, Handler call) => Some call
      | _ => None
      end
  end.
Definition handlersOn (event : string) (h : Html) : list string := omap (handler event) (allElements h).
Definition argumentOf (method call : string) : option string :=
  if String.prefix (method ++ " ") call then Some (drop_str (String.length (method ++ " ")) call) else None.
Definition offered (event method : string) (h : Html) : list string := omap (argumentOf method) (handlersOn event h).

(** The ways to trigger an event: it happens to the innermost element, its target,
    and every element around that has a handler calls it. *)
Definition triggers (event : string) (h : Html) : list (string * Node) :=
  flat_map (fun n => match handler event n with Some call => pair call <$> elements n | None => [] end) (allElements h).

Definition ids (h : Html) : list string := attributesOf "id" h.

(** document.querySelector("#" + id): the first element with the identifier. *)
Definition byId (id : string) (h : Html) : option Node :=
  List.find (fun n => match attribute "id" n with Some i => streq i id | None => false end) (allElements h).

(** ** Copy buttons

    Clipboard.js copies the text of the element its button names in
    [data-clipboard-target], a selector "#id". *)
Definition copyTargets (h : Html) : list string := attributesOf "data-clipboard-target" h.

Definition copied (selector : string) (h : Html) : option string :=
  match selector with
  | String "#" id => textContent <$> byId id h
  | _ => None
  end.

(** ** Nesting

    The content model of tables and lists; anything else may contain anything
    else. *)
Definition tableParts : list (string * list string) :=
  [("table", ["thead"; "tbody"; "tfoot"]); ("thead", ["tr"]); ("tbody", ["tr"]); ("tfoot", ["tr"]);
   ("tr", ["td"; "th"]); ("ul", ["li"])].

Definition partsOf (parent : string) : option (list string) :=
  snd <$> List.find (fun '(tag, _) => streq tag parent) tableParts.

(** Parts of tables and lists occur only in their wholes. *)
Definition isPart (tag : string) : bool := existsb (fun '(_, parts) => existsb (streq tag) parts) tableParts.

Definition allowed (parent tag : string) : bool :=
  match partsOf parent with
  | Some parts => existsb (streq tag) parts
  | None => negb (isPart tag)
  end.

Fixpoint nests (parent : string) (n : Node) : bool :=
  match n with
  | Text _ => match partsOf parent with Some _ => false | None => true end
  | Element tag _ children => allowed parent tag && forallb (nests tag) children
  end.

Definition wellNested (parent : string) (h : Html) : bool := forallb (nests parent) h.

(** ** The grid of a table *)

Definition span (name : string) (n : Node) : nat :=
  match attribute name n with Some s => Z.to_nat (read_digits s 0) | None => 1%nat end.

Definition children (n : Node) : Html := match n with Text _ => [] | Element _ _ children => children end.
Definition hasTag (tag : string) (n : Node) : bool :=
  match n with Text _ => false | Element t _ _ => streq t tag end.

(** The cells of a row: columns and rows they span. *)
Definition rowCells (row : Node) : list (nat * nat) :=
  (fun cell => (span "colSpan" cell, span "rowSpan" cell)) <$> children row.

(** The cells that reach into the row below. *)
Definition reaching (cells : list (nat * nat)) : list (nat * nat) :=
  omap (fun '(columns, rows) => if (1 <? rows)%nat then Some (columns, (rows - 1)%nat) else None) cells.

Definition columnCount (cells : list (nat * nat)) : nat := list_sum (fst <$> cells).

(** The widths of the rows of a group, given the cells that reach into its first
    row; what reaches below the last row. *)
Fixpoint rowWidths (above : list (nat * nat)) (rows : list Node) : list nat * list (nat * nat) :=
  match rows with
  | [] => ([], above)
  | row :: rows =>
      let cells := (above ++ rowCells row)%list in
      let '(widths, below) := rowWidths (reaching cells) rows in
      (columnCount cells :: widths, below)
  end.

(** The row groups of a table; rows outside of any group count as one. *)
Definition rowGroups (table : Node) : list (list Node) :=
  List.filter (hasTag "tr") (children table) ::
  (children <$> List.filter (fun n => existsb (fun tag => hasTag tag n) ["thead"; "tbody"; "tfoot"]) (children table)).

(** Every row is as wide as the table, and no cell reaches below its group. *)
Definition gridOf (width : nat) (table : Node) : bool :=
  forallb (fun rows => let '(widths, below) := rowWidths [] rows in
             forallb (Nat.eqb width) widths && bool_decide (below = [])) (rowGroups table).

Definition tableWidth (table : Node) : nat := hd 0%nat (flat_map (fun rows => fst (rowWidths [] rows)) (rowGroups table)).

Definition rectangular (table : Node) : bool := gridOf (tableWidth table) table.

Definition tables (h : Html) : list Node := List.filter (hasTag "table") (allElements h).
Definition allRectangular (h : Html) : bool := forallb rectangular (tables h).

(** What every page should be: nested as HTML asks, all its tables grids. *)
Definition wellFormed (parent : string) (h : Html) : bool := wellNested parent h && allRectangular h.

(** ** Fragments

    The parts of a page can be looked at one by one. *)

Lemma allElements_app a b : allElements (a ++ b) = (allElements a ++ allElements b)%list.
Proof. unfold allElements. by rw flat_map_app. Qed.

Lemma attributesOf_app name a b : attributesOf name (a ++ b) = (attributesOf name a ++ attributesOf name b)%list.
Proof. unfold attributesOf. by rw allElements_app omap_app. Qed.

Lemma ids_app a b : ids (a ++ b) = (ids a ++ ids b)%list.
Proof. apply attributesOf_app. Qed.

Lemma copyTargets_app a b : copyTargets (a ++ b) = (copyTargets a ++ copyTargets b)%list.
Proof. apply attributesOf_app. Qed.

Lemma wellNested_app parent a b : wellNested parent (a ++ b) = wellNested parent a && wellNested parent b.
Proof. apply forallb_app. Qed.

Lemma allRectangular_app a b : allRectangular (a ++ b) = allRectangular a && allRectangular b.
Proof. unfold allRectangular, tables. by rw allElements_app List.filter_app forallb_app. Qed.

Lemma wellFormed_app parent a b : wellFormed parent (a ++ b) = wellFormed parent a && wellFormed parent b.
Proof.
  unfold wellFormed. rw wellNested_app allRectangular_app. btauto.
Qed.

Lemma byId_app id a b : byId id (a ++ b) = match byId id a with Some n => Some n | None => byId id b end.
Proof. unfold byId. by rw allElements_app find_app. Qed.

(** An element is in order when its place and its children are and, a table, it
    is a grid. *)
Lemma wellFormed_cons parent n h : wellFormed parent (n :: h) = wellFormed parent [n] && wellFormed parent h.
Proof. apply (wellFormed_app parent [n] h). Qed.

Lemma wellFormed_element parent tag a cs :
  wellFormed parent [Element tag a cs] =
  allowed parent tag && wellFormed tag cs && (if streq tag "table" then rectangular (Element tag a cs) else true).
Proof.
  unfold wellFormed, wellNested, allRectangular, tables, allElements.
  cbn -[allowed rectangular streq]. rw ?andb_true_r ?app_nil_r.
  destruct (streq tag "table"); cbn -[allowed rectangular streq]; btauto.
Qed.

Lemma wellFormed_text parent s :
  wellFormed parent [Text s] = match partsOf parent with Some _ => false | None => true end.
Proof. unfold wellFormed, wellNested. cbn -[partsOf]. by destruct (partsOf parent). Qed.

Lemma wellFormed_forall parent h : wellFormed parent h = true <-> Forall (fun n => wellFormed parent [n] = true) h.
Proof.
  induction h as [|n h IH]; [split; [constructor|done]|].
  rw wellFormed_cons andb_true_iff IH. split; [intros []; by constructor|intros H; by inversion H].
Qed.

(** Rows without cells that reach into others have the widths of their cells. *)
Lemma rowWidths_plain rows :
  Forall (fun row => reaching (rowCells row) = []) rows ->
  rowWidths [] rows = ((fun row => columnCount (rowCells row)) <$> rows, []).
Proof. induction 1 as [|row rows Hr _ IH]; cbn -[rowCells reaching columnCount]; [done|]. by rw Hr IH. Qed.

(** A table that is one body of such rows is a grid when its rows are equally
    wide. *)
Definition uniform (widths : list nat) : bool := forallb (Nat.eqb (hd 0%nat widths)) widths.

Lemma rectangular_body a b (rows : list Html) :
  Forall (fun row => reaching (rowCells row) = []) (concat rows) ->
  rectangular (Element "table" a (concat [el "tbody" b rows])) =
  uniform ((fun row => columnCount (rowCells row)) <$> concat rows).
Proof.
  intros Hr. unfold rectangular, tableWidth, gridOf, uniform. cbn -[rowWidths].
  rw (rowWidths_plain _ Hr). cbn. rw ?app_nil_r ?andb_true_r. done.
Qed.

(** Rows that are one row element each, without cells that reach into others. *)
Definition plainRow (width : nat) (h : Html) : Prop :=
  exists row, h = [row] /\ reaching (rowCells row) = [] /\ columnCount (rowCells row) = width.

Lemma rectangular_rows {A} a b (rows : list Html) (width : A -> nat) (l : list A) :
  Forall2 (fun x h => plainRow (width x) h) l rows ->
  rectangular (Element "table" a (concat [el "tbody" b rows])) = uniform (width <$> l).
Proof.
  intros Hrows. rw rectangular_body.
  - induction Hrows as [|x h l rows (row & -> & Hr & _) _ IH]; [done|]. by constructor.
  - f_equal. induction Hrows as [|x h l rows (row & -> & _ & Hc) _ IH]; [done|].
    cbn -[columnCount rowCells]. by rw Hc IH.
Qed.

Lemma uniform_const {A} (width : nat) (l : list A) : uniform ((fun _ => width) <$> l) = true.
Proof.
  destruct l as [|x l]; [done|]. unfold uniform. cbn. rw Nat.eqb_refl. cbn.
  induction l as [|y l IH]; [done|]. cbn. by rw Nat.eqb_refl.
Qed.

(** A table with a row of headings and a body of rows as wide. *)
Lemma rectangular_headed {A} n a b head c (row : A -> Html) l :
  plainRow n head -> (forall x, plainRow n (row x)) ->
  rectangular (Element "table" a (concat [el "thead" b [head]; el "tbody" c [concat (row <$> l)]])) = true.
Proof.
  intros (h & -> & Hr & Hc) Hrow.
  assert (Forall (fun row => reaching (rowCells row) = []) (concat (row <$> l)) /\
               forallb (Nat.eqb n) ((fun row => columnCount (rowCells row)) <$> concat (row <$> l)) = true) as [Hp Hn].
  { induction l as [|x l [IH1 IH2]]; [done|]. cbn [fmap list_fmap concat].
    destruct (Hrow x) as (r & -> & Hr' & Hc'). split; [by constructor|].
    cbn -[rowCells columnCount Nat.eqb]. by rw Hc' Nat.eqb_refl. }
  unfold rectangular, tableWidth, gridOf.
  assert (rowGroups (Element "table" a (concat [el "thead" b [[h]]; el "tbody" c [concat (row <$> l)]])) =
          [[]; [h]; concat (row <$> l)]) as ->.
  { unfold rowGroups. cbn. by rw app_nil_r. }
  cbn [flat_map forallb]. rw (rowWidths_plain _ Hp) (rowWidths_plain [h] (Forall_cons_2 _ _ _ Hr (Forall_nil_2 _))).
  cbn -[rowCells columnCount Nat.eqb]. rw Hc Nat.eqb_refl. cbn -[rowCells columnCount Nat.eqb]. by rw Hn.
Qed.

(** The identifiers of an element come before those of its children. *)
Lemma byId_found id h : is_Some (byId id h) <-> id ∈ ids h.
Proof.
  unfold byId, ids, attributesOf. induction (allElements h) as [|n l IH]; cbn.
  - split; [by intros []|intros H; inversion H].
  - unfold mbind. destruct (attribute "id" n) as [i|]; cbn; [|done].
    destruct (String.eqb_spec i id) as [->|Hne]; unfold streq.
    + rw ?String.eqb_refl. split; [intros _; left|by eexists].
    + apply String.eqb_neq in Hne as He. rw ?He IH elem_of_cons. naive_solver.
Qed.

Lemma byId_attribute id h : id ∈ ids h -> exists n, byId id h = Some n /\ attribute "id" n = Some id.
Proof.
  rw -byId_found. intros [n Hn]. exists n. split; [done|]. unfold byId in Hn. apply List.find_some in Hn as [_ Hn].
  destruct (attribute "id" n) as [i|]; [|done]. by apply String.eqb_eq in Hn as ->.
Qed.

(** ** What an event tells its handler *)

(** An attribute of the target that is an index. *)
Definition indexIn (name : string) (target : Node) : option nat :=
  (fun s => Z.to_nat (read_digits s 0)) <$> attribute name target.

Lemma read_show n : Z.to_nat (read_digits (show_nat n) 0) = n.
Proof.
  unfold show_nat, show_Z. destruct (Z.ltb_spec (Z.of_nat n) 0); [lia|].
  destruct (show_pos_spec (Z.of_nat n)) as (_ & -> & _); lia.
Qed.

#[export] Instance show_nat_inj : Inj (=) (=) show_nat.
Proof. intros i j E. by rw -(read_show i) -(read_show j) E. Qed.

Lemma prefix_append a b : String.prefix a (a ++ b) = true.
Proof. induction a as [|c a IH]; [by destruct b|]. cbn. by rw IH; destruct (ascii_dec c c). Qed.

Lemma argument_own method v : argumentOf method ((method ++ " ") ++ v) = Some v.
Proof. unfold argumentOf. rw drop_str_app. by rw prefix_append. Qed.

(** ** Well-formed fragments *)

Lemma wellFormed_concat parent (cs : list Html) : wellFormed parent (concat cs) = forallb (wellFormed parent) cs.
Proof. induction cs as [|c cs IH]; cbn -[wellFormed]; [done|]. by rw wellFormed_app IH. Qed.

Lemma wellFormed_el parent tag a cs :
  wellFormed parent (el tag a cs) =
  allowed parent tag && forallb (wellFormed tag) cs &&
  (if streq tag "table" then rectangular (Element tag a (concat cs)) else true).
Proof. unfold el. by rw wellFormed_element wellFormed_concat. Qed.

Lemma forallb_intro {A} (p : A -> bool) l : Forall (fun x => p x = true) l -> forallb p l = true.
Proof. induction 1 as [|x l Hx _ IH]; cbn; [done|]. by rw Hx IH. Qed.

Lemma wf_el parent tag a cs :
  allowed parent tag = true -> streq tag "table" = false -> Forall (fun h => wellFormed tag h = true) cs ->
  wellFormed parent (el tag a cs) = true.
Proof. intros Ha Ht Hcs. rw wellFormed_el Ha Ht. by rw (forallb_intro _ _ Hcs). Qed.

Lemma wf_table parent a cs :
  allowed parent "table" = true -> rectangular (Element "table" a (concat cs)) = true ->
  Forall (fun h => wellFormed "table" h = true) cs -> wellFormed parent (el "table" a cs) = true.
Proof. intros Ha Hr Hcs. rw wellFormed_el Ha Hr. by rw (forallb_intro _ _ Hcs). Qed.

Lemma wf_nil parent : wellFormed parent [] = true.
Proof. done. Qed.

Lemma wf_txt parent s : partsOf parent = None -> wellFormed parent (txt s) = true.
Proof. intros Hp. unfold txt. by rw wellFormed_text Hp. Qed.

Lemma wf_when parent b h : wellFormed parent h = true -> wellFormed parent (when b h) = true.
Proof. by destruct b. Qed.

Lemma wf_opt parent o : partsOf parent = None -> wellFormed parent (opt o) = true.
Proof. intros Hp. destruct o; [by apply wf_txt|done]. Qed.

Lemma wf_app parent a b : wellFormed parent a = true -> wellFormed parent b = true -> wellFormed parent (a ++ b) = true.
Proof. intros Ha Hb. by rw wellFormed_app Ha Hb. Qed.

Lemma wf_concat parent cs : Forall (fun h => wellFormed parent h = true) cs -> wellFormed parent (concat cs) = true.
Proof. intros Hcs. rw wellFormed_concat. by apply forallb_intro. Qed.

Lemma wf_map {A} parent (f : A -> Html) l :
  (forall x, wellFormed parent (f x) = true) -> Forall (fun h => wellFormed parent h = true) (f <$> l).
Proof. intros Hf. apply Forall_fmap, Forall_true. done. Qed.

(** [markup] walks through the constructors of a fragment; fragments with a name
    are in the hint database. *)
Create HintDb markup.
#[export] Hint Resolve wf_nil wf_map : markup.

Ltac markup :=
  repeat match goal with
  | |- wellFormed _ (el "table" _ _) = true => apply wf_table; [reflexivity|try reflexivity|]
  | |- wellFormed _ (el _ _ _) = true => apply wf_el; [reflexivity|reflexivity|]
  | |- wellFormed _ (txt _) = true => apply wf_txt; reflexivity
  | |- wellFormed _ (opt _) = true => apply wf_opt; reflexivity
  | |- wellFormed _ (when _ _) = true => apply wf_when
  | |- wellFormed _ (concat _) = true => apply wf_concat
  | |- wellFormed _ (_ ++ _) = true => apply wf_app
  | |- Forall _ [] => apply Forall_nil_2
  | |- Forall _ (_ :: _) => apply Forall_cons_2
  | |- wellFormed _ (if ?b then _ else _) = true => destruct b
  | |- _ => solve [auto with markup nocore]
  end.

(** ** Attributes of fragments *)

(** What is read off the elements one by one, from their own attributes. *)
Lemma omap_elements_el {B} (f : Node -> option B) tag a cs :
  (forall children, f (Element tag a children) = f (Element tag a [])) ->
  omap f (allElements (el tag a cs)) =
  (option_list (f (Element tag a [])) ++ flat_map (fun h => omap f (allElements h)) cs)%list.
Proof.
  intros Hf. unfold el, allElements at 1. cbn [flat_map elements]. rw app_nil_r. cbn [omap list_omap].
  rw Hf. assert (omap f (flat_map elements (concat cs)) = flat_map (fun h => omap f (allElements h)) cs) as ->.
  { clear Hf. induction cs as [|c cs IH]; [done|]. cbn [concat flat_map]. by rw flat_map_app omap_app IH. }
  by destruct (f (Element tag a [])).
Qed.

Lemma attributesOf_el name tag a cs :
  attributesOf name (el tag a cs) =
  (option_list (attribute name (Element tag a [])) ++ flat_map (attributesOf name) cs)%list.
Proof. by apply omap_elements_el. Qed.

Lemma handlersOn_el event tag a cs :
  handlersOn event (el tag a cs) =
  (option_list (handler event (Element tag a [])) ++ flat_map (handlersOn event) cs)%list.
Proof. by apply omap_elements_el. Qed.

Lemma handlersOn_app event a b : handlersOn event (a ++ b) = (handlersOn event a ++ handlersOn event b)%list.
Proof. unfold handlersOn. by rw allElements_app omap_app. Qed.

Lemma handlersOn_concat event cs : handlersOn event (concat cs) = flat_map (handlersOn event) cs.
Proof. induction cs as [|c cs IH]; cbn -[handlersOn]; [done|]. by rw handlersOn_app IH. Qed.

Lemma handlersOn_txt event s : handlersOn event (txt s) = [].
Proof. done. Qed.

Lemma handlersOn_opt event o : handlersOn event (opt o) = [].
Proof. by destruct o. Qed.

Lemma handlersOn_when event b h : handlersOn event (when b h) = if b then handlersOn event h else [].
Proof. by destruct b. Qed.

Lemma attributesOf_txt name s : attributesOf name (txt s) = [].
Proof. done. Qed.

Lemma attributesOf_opt name o : attributesOf name (opt o) = [].
Proof. by destruct o. Qed.

Lemma attributesOf_nil name : attributesOf name [] = [].
Proof. done. Qed.

Lemma attributesOf_when name b h : attributesOf name (when b h) = if b then attributesOf name h else [].
Proof. by destruct b. Qed.

Lemma attributesOf_concat name cs : attributesOf name (concat cs) = flat_map (attributesOf name) cs.
Proof. induction cs as [|c cs IH]; cbn -[attributesOf]; [done|]. by rw attributesOf_app IH. Qed.

Lemma attributesOf_map {A} name (f : A -> Html) l :
  (forall x, attributesOf name (f x) = []) -> flat_map (attributesOf name) (f <$> l) = [].
Proof. intros Hf. induction l as [|x l IH]; cbn -[attributesOf]; [done|]. by rw Hf IH. Qed.

Create Rewrite HintDb attributes.
#[export] Hint Rewrite attributesOf_el attributesOf_txt attributesOf_opt attributesOf_nil attributesOf_when
  attributesOf_app attributesOf_concat handlersOn_el handlersOn_txt handlersOn_opt handlersOn_when handlersOn_app
  handlersOn_concat : attributes.

(** [attributes] computes the attributes of a fragment; named fragments are in
    the database. *)
Ltac attributes :=
  repeat (autorewrite with attributes; cbn [flat_map option_list attribute handler List.find streq String.eqb Ascii.eqb Bool.eqb app]);
  repeat rewrite ?app_nil_r ?app_nil_l.

(** On a whole page rewriting is slow: [collects] goes down the page once.  What
    the named fragments contribute is in the hint database. *)
Definition collect {B} (f : Node -> option B) (h : Html) : list B := omap f (allElements h).

Section Collect.
Context {B : Type} (f : Node -> option B).
Implicit Types l : list B.

Lemma collect_el tag a cs o l :
  (forall children, f (Element tag a children) = o) -> flat_map (collect f) cs = l ->
  collect f (el tag a cs) = (option_list o ++ l)%list.
Proof.
  intros Ho <-. unfold collect at 1.
  assert (forall children, f (Element tag a children) = f (Element tag a [])) as Hf by (intros; by rw !Ho).
  by rw (omap_elements_el f tag a cs Hf) Ho.
Qed.

Lemma collect_nil : flat_map (collect f) [] = [].
Proof. done. Qed.

Lemma collect_cons c cs l l' : collect f c = l -> flat_map (collect f) cs = l' -> flat_map (collect f) (c :: cs) = (l ++ l')%list.
Proof. by intros <- <-. Qed.

Lemma collect_app a b l l' : collect f a = l -> collect f b = l' -> collect f (a ++ b) = (l ++ l')%list.
Proof. intros <- <-. unfold collect. by rw allElements_app omap_app. Qed.

Lemma collect_concat cs l : flat_map (collect f) cs = l -> collect f (concat cs) = l.
Proof.
  intros <-. unfold collect. induction cs as [|c cs IH]; [done|]. cbn [concat flat_map]. by rw allElements_app omap_app IH.
Qed.

Lemma collect_when b h l : collect f h = l -> collect f (when b h) = if b then l else [].
Proof. intros <-. by destruct b. Qed.

Lemma collect_opt o : collect f (opt o) = [].
Proof. by destruct o. Qed.

Lemma collect_txt s : collect f (txt s) = [].
Proof. done. Qed.
End Collect.

Create HintDb collected.

Ltac collect_step :=
  match goal with
  | |- collect _ (el _ _ _) = _ =>
      eapply collect_el;
      [intros ?; cbn [attribute handler List.find streq String.eqb Ascii.eqb Bool.eqb cls style GLYPHICON_HIGHLIGHT
                      GLYPHICON_DEFAULT]; reflexivity|]
  | |- flat_map (collect _) [] = _ => apply collect_nil
  | |- flat_map (collect _) (_ :: _) = _ => eapply collect_cons
  | |- collect _ (_ ++ _) = _ => eapply collect_app
  | |- collect _ (concat _) = _ => eapply collect_concat
  | |- collect _ (when _ _) = _ => eapply collect_when
  | |- collect _ (opt _) = _ => apply collect_opt
  | |- collect _ (txt _) = _ => apply collect_txt
  | |- collect _ [] = _ => reflexivity
  | |- collect (attribute ?name) ?h = ?r => change (attributesOf name h = r); first [solve [eauto with collected nocore]|reflexivity]
  | |- collect (handler ?event) ?h = ?r => change (handlersOn event h = r); first [solve [eauto with collected nocore]|reflexivity]
  | |- _ => reflexivity
  end.

Ltac collects :=
  eapply eq_trans;
  [match goal with
   | |- attributesOf ?name ?h = ?r => change (collect (attribute name) h = r)
   | |- ids ?h = ?r => change (collect (attribute "id") h = r)
   | |- handlersOn ?event ?h = ?r => change (collect (handler event) h = r)
   end; repeat collect_step
  |unfold option_list; cbn [option_rect app]; rewrite ?app_nil_r].

(** Looking for an identifier in a fragment, child by child. *)
Lemma byId_el id tag a cs :
  byId id (el tag a cs) =
  match attribute "id" (Element tag a []) with
  | Some i => if streq i id then Some (Element tag a (concat cs)) else byId id (concat cs)
  | None => byId id (concat cs)
  end.
Proof.
  unfold el, byId at 1, allElements at 1. cbn [flat_map elements]. rw app_nil_r. cbn [List.find].
  change (attribute "id" (Element tag a (concat cs))) with (attribute "id" (Element tag a [])).
  by destruct (attribute "id" (Element tag a [])) as [i|]; [destruct (streq i id)|].
Qed.

Lemma byId_absent id h : id ∉ ids h -> byId id h = None.
Proof. rw -byId_found. destruct (byId id h); [|done]. intros H. exfalso. apply H. by eexists. Qed.

Lemma byId_cons id c cs :
  byId id (concat (c :: cs)) = match byId id c with Some n => Some n | None => byId id (concat cs) end.
Proof. apply byId_app. Qed.

Lemma byId_txt id s : byId id (txt s) = None.
Proof. done. Qed.

(** One element of a list of fragments that have one identifier each. *)
Lemma byId_map {A} (f : A -> Html) (g : A -> string) l x :
  (forall x, ids (f x) = [g x]) -> NoDup (g <$> l) -> x ∈ l -> byId (g x) (concat (f <$> l)) = byId (g x) (f x).
Proof.
  intros Hf. induction l as [|y l IH]; [intros _ H; inversion H|]. cbn. intros [Hn Hd]%NoDup_cons Hx.
  change (byId (g x) (f y ++ concat (f <$> l)) = byId (g x) (f x)). rw byId_app.
  apply elem_of_cons in Hx as [->|Hx].
  - destruct (byId (g y) (f y)) eqn:Hb; [done|]. exfalso.
    assert (is_Some (byId (g y) (f y))) as [? ?]; [apply byId_found; rw Hf; by left|congruence].
  - rw byId_absent; [|by apply IH]. rw Hf. intros He%list_elem_of_singleton. apply Hn. rw -He. apply list_elem_of_fmap. by exists x.
Qed.

Lemma ids_map {A} (f : A -> Html) (g : A -> string) l :
  (forall x, ids (f x) = [g x]) -> flat_map ids (f <$> l) = g <$> l.
Proof. intros Hf. induction l as [|y l IH]; cbn; [done|]. by rw Hf IH. Qed.

Lemma byId_into id tag a cs :
  attribute "id" (Element tag a []) <> Some id -> byId id (el tag a cs) = byId id (concat cs).
Proof.
  intros Hne. rw byId_el. destruct (attribute "id" (Element tag a [])) as [i|]; [|done]. unfold streq.
  destruct (String.eqb_spec i id) as [->|]; done.
Qed.

Lemma byId_one id h : byId id (concat [h]) = byId id h.
Proof. cbn. by rw app_nil_r. Qed.

Lemma byId_skip id h cs : id ∉ ids h -> byId id (concat (h :: cs)) = byId id (concat cs).
Proof. intros Hn. by rw byId_cons byId_absent. Qed.
