(* ===== verification/Tables.v ===== *)
(** * Tables of fixed-data-table-2

    What the console hands to the table widget, and the cells it gets back. *)

From S2P Require Import Prelude JsNumber Markup.

(** A table is given its columns: the header of each, its width, which may be
    undefined, and a function that makes the cell of a row.  It draws the rows in
    view, by calling that function. *)
Record TableColumn := { header : string; cellOf : nat -> result Html; columnWidth : option Z }.

Record DataTable := { rows : nat; columns : list TableColumn; tableWidth : num; tableHeight : num }.

(** [<Cell> {content}</Cell>] *)
Definition Cell (content : Html) : Html := el "Cell" [] [txt " "; content].

(** The cells of a row. *)
Definition drawRow (t : DataTable) (rowIndex : nat) : result Html :=
  cells ← mapM_result (fun c => cellOf c rowIndex) (columns t);
  Ok (concat cells).

(** All rows a table announces. *)
Definition drawRows (t : DataTable) : result (list Html) := mapM_result (drawRow t) (seq 0 (rows t)).

(** A table whose cells are all made. *)
Lemma drawRows_all t (row : nat -> Html) n :
  rows t = n -> (forall i, (i < n)%nat -> drawRow t i = Ok (row i)) -> drawRows t = Ok (row <$> seq 0 n).
Proof.
  intros <- Hr. unfold drawRows. apply mapM_result_spec, Forall2_fmap_r, Forall_Forall2_diag, Forall_seq.
  intros i Hi. apply Hr. lia.
Qed.

(** What is collected over the rows. *)
Lemma flat_map_imap {A B C} (g : nat -> A -> B) (k : B -> list C) (f : A -> list C) l :
  (forall i x, k (g i x) = f x) -> flat_map k (imap g l) = flat_map f l.
Proof.
  revert g. induction l as [|x l IH]; intros g Hk; [done|]. rw imap_cons. cbn [flat_map]. rw Hk. f_equal.
  apply IH. intros i y. apply Hk.
Qed.

Lemma flat_map_index {A B C} (g : nat -> A -> B) (k : B -> list C) (f : nat -> C) l :
  (forall i x, k (g i x) = [f i]) -> flat_map k (imap g l) = f <$> seq 0 (length l).
Proof.
  intros Hk. rw -imap_seq_0. revert f g Hk. induction l as [|x l IH]; intros f g Hk; [done|].
  rw !imap_cons. cbn [flat_map]. rw Hk. cbn [app]. f_equal. apply (IH (f ∘ S)). intros i y. apply Hk.
Qed.

Lemma flat_map_when {A B} (p : A -> bool) (f : A -> B) l :
  flat_map (fun x => if p x then [f x] else []) l = f <$> List.filter p l.
Proof. induction l as [|x l IH]; [done|]. cbn. rw IH. by destruct (p x). Qed.

Lemma flat_map_option {A B} (f : A -> option B) l : flat_map (fun x => option_list (f x)) l = omap f l.
Proof. induction l as [|x l IH]; [done|]. cbn. rw IH. by destruct (f x). Qed.

Lemma flat_map_one {A B} (f : A -> B) l : flat_map (fun x => [f x]) l = f <$> l.
Proof. induction l as [|x l IH]; [done|]. cbn. by rw IH. Qed.
