(* ===== verification/UtilsFormat.v ===== *)
(** * Properties of the formatting helpers of utils.js

    The helpers divide repeatedly and compare after each rounded division; the
    theorems relate the unit they print to the exact number they were given. *)

From S2P Require Import Prelude JsString JsNumber Utils.

(** ** Counts: repeated division by 1000 *)

(** The step between level [i] and level [i + 1]: [floor_at A i] is a double
    just above A * 1000^(-i), at the precision still available there. *)
Definition floor_at (A i : Z) : Z := (A * 2 ^ (10 * i) + 1) * (scale / 2 ^ (10 * i)).

Lemma scale_split i : 0 <= i <= 100 ->
  scale / 2 ^ (10 * i) = 1024 * (scale / 2 ^ (10 * (i + 1))) /\
  0 < scale / 2 ^ (10 * (i + 1)) /\ scale = 2 ^ (10 * i) * (scale / 2 ^ (10 * i)).
Proof.
  intros Hi. Transparent scale. unfold scale. Opaque scale.
  assert (H : forall e, 0 <= e <= 1074 -> 2 ^ 1074 / 2 ^ e = 2 ^ (1074 - e)).
  { intros e He. rw (pow_split 1074 e); [lia|]. rw Z.div_mul; [|done].
    pose proof (pow2_pos e). lia. }
  rw !H; [lia|lia|]. split; [|split].
  - replace 1024 with (2 ^ 10) by done. rw -Z.pow_add_r; [lia|lia|]. f_equal. lia.
  - apply pow2_pos. lia.
  - rw -Z.pow_add_r; [lia|lia|]. f_equal. lia.
Qed.

Lemma floor_at_repr A i :
  0 <= i <= 100 -> 0 <= A -> A * 2 ^ (10 * i) < 2 ^ 53 -> repr (floor_at A i).
Proof.
  intros Hi HA Hb. pose proof (pow2_pos (10 * i)). apply repr_dyadic; [nia|lia].
Qed.

(** Being above A * 1000 survives the division: the quotient is above A. *)
Lemma floor_at_step A i k :
  0 <= i <= 99 -> 0 <= A -> A * 2 ^ (10 * (i + 1)) < 2 ^ 53 -> 0 <= k ->
  floor_at (A * 1000) i <= k -> floor_at A (i + 1) <= div_by k 1000.
Proof.
  intros Hi HA Hb Hk H. apply div_by_ge; [done|done| |].
  { apply floor_at_repr; lia. }
  etransitivity; [|exact H]. unfold floor_at.
  destruct (scale_split i ltac:(lia)) as (E & Hp & _). rw E.
  set (u := scale / 2 ^ (10 * (i + 1))) in *.
  assert (2 ^ (10 * (i + 1)) = 1024 * 2 ^ (10 * i)) as ->; [|nia].
  replace 1024 with (2 ^ 10) by done. rw -Z.pow_add_r; [lia|lia|]. f_equal. lia.
Qed.

Lemma floor_at_above A i : 0 <= i <= 100 -> A * scale < floor_at A i.
Proof.
  intros Hi. unfold floor_at. destruct (scale_split i Hi) as (E & Hp & E2). nia.
Qed.

Lemma floor_at_0 n : floor_at n 0 = (n + 1) * scale.
Proof. unfold floor_at. rw Z.mul_0_r Z.pow_0_r Z.div_1_r. lia. Qed.

(** The value after [i] divisions by 1000. *)
Fixpoint div1000 (i : nat) (k : Z) : Z :=
  match i with O => k | S i => div_by (div1000 i k) 1000 end.

Section Level.
Variable n : Z.
Hypothesis Hn : 0 <= n <= 2 ^ 53.

Lemma div1000_inv i :
  0 <= div1000 i (n * scale) <= n * scale /\ repr (div1000 i (n * scale)).
Proof.
  pose proof scale_pos. induction i as [|i (H1 & H2)]; simpl.
  - split; [nia|]. apply repr_int. lia.
  - split; [|apply div_by_repr; lia].
    pose proof (div_by_nonneg (div1000 i (n * scale)) 1000 ltac:(lia) ltac:(lia)).
    pose proof (div_by_bound (div1000 i (n * scale)) 1000 ltac:(lia) ltac:(lia) H2). lia.
Qed.

Lemma div1000_num i :
  div (Fin (div1000 i (n * scale))) (of_Z 1000) = Fin (div1000 (S i) (n * scale)).
Proof.
  destruct (div1000_inv i) as (H1 & H2). pose proof (int_below_huge n ltac:(lia)).
  apply div_const; [nia|done|lia].
Qed.

(** n <= A * 1000^i bounds the value after [i] divisions by A, *)
Lemma div1000_le i A :
  0 <= A -> A * 1000 ^ Z.of_nat i <= 1000 * 2 ^ 53 -> n <= A * 1000 ^ Z.of_nat i ->
  div1000 i (n * scale) <= A * scale.
Proof.
  pose proof scale_pos. revert A. induction i as [|i IH]; intros A HA Hb H'.
  - simpl in *. change (1000 ^ 0) with 1 in *. nia.
  - rw Nat2Z.inj_succ Z.pow_succ_r in Hb; [lia|].
    rw Nat2Z.inj_succ Z.pow_succ_r in H'; [lia|]. simpl.
    assert (0 < 1000 ^ Z.of_nat i) by (apply Z.pow_pos_nonneg; lia).
    apply div_by_le; [apply div1000_inv|lia| |].
    { apply repr_int. nia. }
    replace (A * scale * 1000) with (A * 1000 * scale) by lia. apply IH; nia.
Qed.

(** and n > A * 1000^i keeps it above A. *)
Lemma div1000_gt i A :
  (i <= 5)%nat -> 0 <= A -> A * 1024 ^ Z.of_nat i < 2 ^ 53 -> A * 1000 ^ Z.of_nat i < n ->
  floor_at A (Z.of_nat i) <= div1000 i (n * scale).
Proof.
  pose proof scale_pos. revert A. induction i as [|i IH]; intros A Hi HA Hb H'.
  - simpl in *. change (1000 ^ 0) with 1 in *. rw floor_at_0. nia.
  - rw Nat2Z.inj_succ Z.pow_succ_r in Hb; [lia|].
    rw Nat2Z.inj_succ Z.pow_succ_r in H'; [lia|].
    assert (Hp : 0 < 1024 ^ Z.of_nat i) by (apply Z.pow_pos_nonneg; lia).
    rw Nat2Z.inj_succ. change (Z.succ (Z.of_nat i)) with (Z.of_nat i + 1).
    assert (E : 2 ^ (10 * (Z.of_nat i + 1)) = 1024 * 1024 ^ Z.of_nat i).
    { rw Z.pow_mul_r; [lia|lia|]. change (2 ^ 10) with 1024.
      rw Z.add_1_r Z.pow_succ_r; lia. }
    apply floor_at_step; [lia|lia|rw E; lia|apply div1000_inv|].
    apply IH; [lia|lia|nia|nia].
Qed.

(** So the comparison with 1000 after [i] rounded divisions decides the
    comparison of the exact integer with 1000^(i+1). *)
Lemma div1000_test i :
  (i <= 4)%nat -> gt (Fin (div1000 i (n * scale))) (of_Z 1000) = (1000 ^ (Z.of_nat i + 1) <? n).
Proof.
  intros Hi. rw of_Z_small; [lia|]. rw gt_fin.
  assert (E : 1000 ^ (Z.of_nat i + 1) = 1000 * 1000 ^ Z.of_nat i).
  { rw Z.add_1_r Z.pow_succ_r; lia. }
  assert (Hi' : (i = 0 \/ i = 1 \/ i = 2 \/ i = 3 \/ i = 4)%nat) by lia.
  destruct (1000 ^ (Z.of_nat i + 1) <? n) eqn:H; [apply Z.ltb_lt|apply Z.ltb_ge].
  - apply Z.lt_le_trans with (floor_at 1000 (Z.of_nat i)); [apply floor_at_above; lia|].
    apply div1000_gt; [lia|lia| |lia]. by repeat destruct Hi' as [->|Hi']; subst.
  - apply div1000_le; [lia| |lia]. by repeat destruct Hi' as [->|Hi']; subst.
Qed.
End Level.

(** The number of divisions, and so the unit, for an integer count. *)
Definition count_level (n : Z) : nat :=
  if n <=? 10 ^ 3 then 0%nat else if n <=? 10 ^ 6 then 1%nat
  else if n <=? 10 ^ 9 then 2%nat else if n <=? 10 ^ 12 then 3%nat
  else if n <=? 10 ^ 15 then 4%nat else 5%nat.

Definition count_unit (level : nat) : string :=
  nth level [""; "K"; "M"; "B"; "T"; "Q"] "".

Lemma count_level_spec n :
  0 <= n <= 2 ^ 53 ->
  (count_level n <= 5)%nat /\ n <= 1000 * 1000 ^ Z.of_nat (count_level n) /\
  (count_level n <> 0%nat -> 1000 ^ Z.of_nat (count_level n) < n).
Proof.
  intros Hn. unfold count_level.
  destruct (Z.leb_spec n (10 ^ 3)); [eval_pows; lia|].
  destruct (Z.leb_spec n (10 ^ 6)); [eval_pows; lia|].
  destruct (Z.leb_spec n (10 ^ 9)); [eval_pows; lia|].
  destruct (Z.leb_spec n (10 ^ 12)); [eval_pows; lia|].
  destruct (Z.leb_spec n (10 ^ 15)); eval_pows; lia.
Qed.

(** After the tests for the first [j] units the loop is at level
    [min j (count_level n)]. *)
Lemma countStep_level n j :
  0 <= n <= 2 ^ 53 -> (j <= 4)%nat ->
  let at_level j := let l := Nat.min j (count_level n) in
                    (Fin (div1000 l (n * scale)), count_unit l) in
  countStep (count_unit (S j)) (at_level j) = at_level (S j).
Proof.
  intros Hn Hj at_level. unfold at_level, countStep.
  destruct (count_level_spec n Hn) as (Hl & Hle & Hgt).
  set (l := count_level n) in *.
  assert (E : forall i, 1000 ^ (Z.of_nat i + 1) = 1000 * 1000 ^ Z.of_nat i).
  { intros i. rw Z.add_1_r Z.pow_succ_r; lia. }
  destruct (Nat.le_gt_cases l j) as [Hjl|Hjl].
  - rw !Nat.min_r; [lia|lia|]. destruct (decide (l = 5%nat)); [lia|].
    rw div1000_test; [lia|lia|]. rw E.
    by replace (1000 * 1000 ^ Z.of_nat l <? n) with false by lia.
  - rw !Nat.min_l; [lia|lia|]. rw div1000_test; [lia|lia|].
    replace (1000 ^ (Z.of_nat j + 1) <? n) with true; [by rw div1000_num|].
    symmetry. apply Z.ltb_lt. apply Z.le_lt_trans with (1000 ^ Z.of_nat l); [|lia].
    apply Z.pow_le_mono_r; lia.
Qed.

Lemma formatCount_level n :
  0 <= n <= 2 ^ 53 ->
  exists c,
    formatCount (of_Z n) = precisionRound (Fin c) ++ count_unit (count_level n) /\
    0 <= c <= 1000 * scale /\ (10 ^ 3 < n -> scale < c).
Proof.
  intros Hn. exists (div1000 (count_level n) (n * scale)).
  destruct (count_level_spec n Hn) as (Hl & Hle & Hgt). split; [|split].
  - unfold formatCount. rw of_Z_small; [lia|].
    pose proof (countStep_level n 0 Hn ltac:(lia)) as E0.
    pose proof (countStep_level n 1 Hn ltac:(lia)) as E1.
    pose proof (countStep_level n 2 Hn ltac:(lia)) as E2.
    pose proof (countStep_level n 3 Hn ltac:(lia)) as E3.
    pose proof (countStep_level n 4 Hn ltac:(lia)) as E4.
    cbv zeta in *. rw Nat.min_0_l in E0. cbn [count_unit nth div1000] in *.
    rw E0 E1 E2 E3 E4. rw Nat.min_r; [lia|reflexivity].
  - split; [apply div1000_inv; lia|]. apply div1000_le; [lia|lia| |lia].
    assert (1000 ^ Z.of_nat (count_level n) <= 1000 ^ 5) by (apply Z.pow_le_mono_r; lia).
    lia.
  - intros H. apply Z.lt_le_trans with (floor_at 1 (Z.of_nat (count_level n))).
    { rw -{1}(Z.mul_1_l scale). apply floor_at_above. lia. }
    apply div1000_gt; [lia|lia|lia| |].
    + assert (1024 ^ Z.of_nat (count_level n) <= 1024 ^ 5) by (apply Z.pow_le_mono_r; lia). lia.
    + rw Z.mul_1_l. apply Hgt. intros E. rw E in Hle. change (1000 ^ Z.of_nat 0) with 1 in Hle. lia.
Qed.

(** For every integer count the unit formatCount prints is the one of the
    exact value, although it is chosen by comparing after rounded floating
    point divisions: none up to 10^3, K up to 10^6, M up to 10^9, B up to
    10^12, T up to 10^15 and Q above; and the number printed before it lies
    between 0 and 1000 (above 1 as soon as a unit is printed). *)
Theorem formatCount_unit n :
  0 <= n <= 2 ^ 53 ->
  exists c,
    formatCount (of_Z n) = precisionRound (Fin c) ++ count_unit (count_level n) /\
    0 <= c <= 1000 * scale /\ (10 ^ 3 < n -> scale < c).
Proof. apply formatCount_level. Qed.

Lemma formatCount_unit_witness :
  exists c, formatCount (of_Z 1000001) = precisionRound (Fin c) ++ "M" /\
            0 <= c <= 1000 * scale /\ (10 ^ 3 < 1000001 -> scale < c).
Proof. apply (formatCount_unit 1000001). lia. Defined.

(** ** Data sizes: repeated exact division by 1024 *)

(** The largest power of 1024 not above n, capped at peta. *)
Definition size_level (n : Z) : nat := Z.to_nat (Z.min 5 (Z.log2 n / 10)).

Definition size_unit (minUnit : string) (level : nat) : string :=
  nth level [""; "K"; "M"; "G"; "T"; "P"] "" ++ minUnit.

(** n / 1024^level, scaled: no rounding is needed. *)
Definition size_value (n : Z) (level : nat) : Z := n * (scale / 2 ^ (10 * Z.of_nat level)).

Lemma size_level_spec n l :
  0 < n -> (l <= 4)%nat -> (l < size_level n)%nat <-> 2 ^ (10 * (Z.of_nat l + 1)) <= n.
Proof.
  intros Hn Hl. unfold size_level. pose proof (Z.log2_nonneg n).
  assert (Hd : 0 <= Z.log2 n / 10) by (apply Z.div_pos; lia).
  assert ((l < Z.to_nat (Z.min 5 (Z.log2 n / 10)))%nat <-> 10 * (Z.of_nat l + 1) <= Z.log2 n) as ->.
  { split; intros.
    - pose proof (Z.mul_div_le (Z.log2 n) 10). lia.
    - assert (Z.of_nat l + 1 <= Z.log2 n / 10) by (apply Z.div_le_lower_bound; lia). lia. }
  symmetry. apply Z.log2_le_pow2. lia.
Qed.

Lemma size_value_div n l :
  0 <= n <= 2 ^ 53 -> (l <= 4)%nat ->
  div (Fin (size_value n l)) (of_Z 1024) = Fin (size_value n (S l)).
Proof.
  intros Hn Hl. pose proof scale_pos. unfold size_value.
  destruct (scale_split (Z.of_nat l) ltac:(lia)) as (E & Hp & E2).
  assert (Hr : forall i, (i <= 5)%nat -> repr (n * (scale / 2 ^ (10 * Z.of_nat i)))).
  { intros. apply repr_dyadic; lia. }
  pose proof (int_below_huge n ltac:(lia)) as Hh.
  pose proof (pow2_pos (10 * Z.of_nat l)) as Hpl.
  rw div_const; [|apply Hr; lia|lia|].
  { set (u := scale / 2 ^ (10 * Z.of_nat l)) in *. nia. }
  f_equal. rw E. replace (Z.of_nat (S l)) with (Z.of_nat l + 1) by lia.
  replace (n * (1024 * (scale / 2 ^ (10 * (Z.of_nat l + 1)))))
    with (n * (scale / 2 ^ (10 * (Z.of_nat l + 1))) * 1024) by lia.
  apply div_by_exact; [nia|lia|].
  replace (Z.of_nat l + 1) with (Z.of_nat (S l)) by lia. apply Hr; lia.
Qed.

Lemma size_value_test n l :
  0 < n <= 2 ^ 53 -> (l <= 4)%nat ->
  ge (Fin (size_value n l)) (of_Z 1024) = bool_decide (l < size_level n)%nat.
Proof.
  intros Hn Hl. rw of_Z_small; [lia|]. unfold ge. rw le_fin. unfold size_value.
  destruct (scale_split (Z.of_nat l) ltac:(lia)) as (_ & Hp & E2).
  destruct (scale_split (Z.of_nat l) ltac:(lia)) as (E & _ & _).
  pose proof (pow2_pos (10 * Z.of_nat l)) as Hpl.
  assert (E3 : 2 ^ (10 * (Z.of_nat l + 1)) = 1024 * 2 ^ (10 * Z.of_nat l)).
  { replace 1024 with (2 ^ 10) by done. rw -Z.pow_add_r; [lia|lia|]. f_equal. lia. }
  set (u := scale / 2 ^ (10 * Z.of_nat l)) in *.
  case_bool_decide as Hd; rw size_level_spec // in Hd; try lia; rw E3 in Hd.
  - apply Z.leb_le. rw E2. nia.
  - apply Z.leb_gt. rw E2. nia.
Qed.

Lemma sizeStep_level n m j :
  0 < n <= 2 ^ 53 -> (j <= 4)%nat ->
  let at_level j := let l := Nat.min j (size_level n) in
                    (Fin (size_value n l), size_unit m l) in
  sizeStep (size_unit m (S j)) (at_level j) = at_level (S j).
Proof.
  intros Hn Hj at_level. unfold at_level, sizeStep.
  assert (size_level n <= 5)%nat by (unfold size_level; lia).
  destruct (Nat.le_gt_cases (size_level n) j) as [Hjl|Hjl].
  - rw !Nat.min_r; [lia|lia|]. rw size_value_test; [lia|lia|].
    by rw bool_decide_eq_false_2; [lia|].
  - rw !Nat.min_l; [lia|lia|]. rw size_value_test; [lia|lia|].
    rw bool_decide_eq_true_2; [lia|]. rw size_value_div; [lia|lia|done].
Qed.

Lemma formatDataSize_level n minUnit :
  0 <= n <= 2 ^ 53 ->
  formatDataSizeMinUnit (of_Z n) minUnit =
    if n =? 0 then "0" ++ minUnit
    else precisionRound (Fin (size_value n (size_level n))) ++ size_unit minUnit (size_level n).
Proof.
  intros Hn. unfold formatDataSizeMinUnit. pose proof scale_pos.
  assert (eq (of_Z n) (of_Z 0) = (n =? 0)) as ->.
  { rw !of_Z_small; [lia|lia|]. rw eq_fin. nia. }
  destruct (n =? 0) eqn:E; [done|].
  assert (Hn' : 0 < n <= 2 ^ 53) by lia.
  assert (size_level n <= 5)%nat by (unfold size_level; lia).
  assert (E0 : of_Z n = Fin (size_value n 0)).
  { rw of_Z_small; [lia|]. unfold size_value. by rw Z.div_1_r. }
  rw E0.
  pose proof (sizeStep_level n minUnit 0 Hn' ltac:(lia)) as S0.
  pose proof (sizeStep_level n minUnit 1 Hn' ltac:(lia)) as S1.
  pose proof (sizeStep_level n minUnit 2 Hn' ltac:(lia)) as S2.
  pose proof (sizeStep_level n minUnit 3 Hn' ltac:(lia)) as S3.
  pose proof (sizeStep_level n minUnit 4 Hn' ltac:(lia)) as S4.
  cbv zeta in *. rw Nat.min_0_l in S0.
  change (size_unit minUnit 0) with minUnit in S0.
  unfold size_unit at 1 in S0. unfold size_unit at 1 in S1. unfold size_unit at 1 in S2.
  unfold size_unit at 1 in S3. unfold size_unit at 1 in S4. cbn [nth] in *.
  rw S0 S1 S2 S3 S4. rw Nat.min_r; [lia|reflexivity].
Qed.

(** C9.  formatDataSize loses nothing before the final rounding to three
    digits: for an integer number of bytes n (up to 2^53) the value handed to
    precisionRound is exactly n / 1024^l, where l is the number of times 1024
    divides into n's magnitude (at most 5), and the unit printed is the l-th of
    none, K, M, G, T, P followed by the caller's minimal unit. *)
Theorem formatDataSize_exact n minUnit :
  0 <= n <= 2 ^ 53 ->
  formatDataSizeMinUnit (of_Z n) minUnit =
    if n =? 0 then "0" ++ minUnit
    else precisionRound (Fin (size_value n (size_level n))) ++ size_unit minUnit (size_level n).
Proof. apply formatDataSize_level. Qed.

Lemma formatDataSize_exact_witness :
  formatDataSizeMinUnit (of_Z 10240000) "B" =
    precisionRound (Fin (10240000 * (scale / 2 ^ 20))) ++ "MB".
Proof. apply (formatDataSize_exact 10240000 "B"). lia. Defined.

(** ** Digits *)

Lemma nearest_up_error p q : 0 < q -> 2 * Z.abs (nearest_up p q * q - p) <= q.
Proof.
  intros Hq. unfold nearest_up.
  pose proof (Z.div_mod (2 * p + q) (2 * q) ltac:(lia)).
  pose proof (Z.mod_pos_bound (2 * p + q) (2 * q) ltac:(lia)). nia.
Qed.

Lemma nearest_up_bound p q m : 0 < q -> 0 <= p <= m * q -> 0 <= nearest_up p q <= m.
Proof. intros Hq Hp. pose proof (nearest_up_error p q Hq). nia. Qed.

Lemma to_Z_int n : to_Z (Fin (n * scale)) = Some n.
Proof.
  pose proof scale_pos. unfold to_Z. rw Z.mod_mul; [lia|]. rw Z.div_mul; [lia|]. done.
Qed.

Lemma to_string_int n : 0 <= n < 2 ^ 53 -> to_string (Fin (n * scale)) = show_pos n.
Proof.
  intros H. unfold to_string. rw to_Z_int. replace (Z.abs n <? 2 ^ 53) with true by lia.
  unfold show_Z. by replace (n <? 0) with false by lia.
Qed.

(** The number of fraction digits precisionRound keeps. *)
Definition precision_digits (k : Z) : nat :=
  if k <? 10 * scale then 2%nat else if k <? 100 * scale then 1%nat else 0%nat.

Lemma precisionRound_show k :
  0 <= k -> k <= (2 ^ 53 - 2) * scale ->
  exists m,
    precisionRound (Fin k) = show_fixed m (precision_digits k) /\
    0 <= m /\
    2 * Z.abs (m * scale - k * 10 ^ Z.of_nat (precision_digits k)) <= scale.
Proof.
  intros Hk Hb. pose proof scale_pos. unfold precisionRound, precision_digits.
  rw !of_Z_small; [lia|lia|]. rw !lt_fin.
  assert (Hfix : forall f, k < 100 * scale -> exists m,
    to_fixed (Fin k) f = show_fixed m f /\ 0 <= m /\
    2 * Z.abs (m * scale - k * 10 ^ Z.of_nat f) <= scale).
  { intros f Hlt. exists (nearest_up (k * 10 ^ Z.of_nat f) scale).
    assert (0 < 10 ^ Z.of_nat f) by (apply Z.pow_pos_nonneg; lia).
    pose proof (nearest_up_error (k * 10 ^ Z.of_nat f) scale ltac:(lia)).
    split; [|split; [nia|done]]. unfold to_fixed. cbn [fin_val].
    rw Z.abs_eq; [lia|]. replace (10 ^ 21 * scale <=? k) with false by lia.
    by replace (k <? 0) with false by lia. }
  destruct (k <? 10 * scale) eqn:E1; [apply Hfix; lia|].
  destruct (k <? 100 * scale) eqn:E2; [apply Hfix; lia|].
  exists (nearest_up k scale). pose proof (nearest_up_error k scale ltac:(lia)).
  change (10 ^ Z.of_nat 0) with 1. rw Z.mul_1_r. split; [|split; [nia|done]].
  unfold math_round. fold (nearest_up k scale).
  replace ((nearest_up k scale =? 0) && (k <? 0)) with false by lia.
  rw to_string_int; [nia|done].
Qed.

(** precisionRound keeps three significant digits of a number below 1000
    (none after the point from 100 on), and the decimal it prints is the
    nearest one: the error is at most half a unit of its last digit. *)
Theorem precisionRound_nearest k :
  0 <= k -> k <= (2 ^ 53 - 2) * scale ->
  exists m,
    precisionRound (Fin k) = show_fixed m (precision_digits k) /\
    0 <= m /\
    2 * Z.abs (m * scale - k * 10 ^ Z.of_nat (precision_digits k)) <= scale.
Proof. apply precisionRound_show. Qed.

Lemma precisionRound_nearest_witness :
  exists m, precisionRound (Fin (12 * scale)) = show_fixed m 1 /\ 0 <= m /\
            2 * Z.abs (m * scale - 12 * scale * 10) <= scale.
Proof. apply (precisionRound_nearest (12 * scale)); vm_compute; discriminate. Defined.

Lemma show_fixed_length m (f d : nat) :
  0 <= m < 10 ^ Z.of_nat d -> (S f <= d)%nat ->
  (String.length (show_fixed m f) <= S d)%nat.
Proof.
  intros Hm Hf. pose proof (show_pos_length m d Hm ltac:(lia)).
  unfold show_fixed. destruct f as [|f]; [lia|].
  assert (Hz : forall n, String.length (zeros n) = n) by (induction n; simpl; auto).
  rw !length_append length_take_str length_drop_str. simpl.
  unfold pad. rw length_append Hz. lia.
Qed.

Lemma precisionRound_width k :
  0 <= k <= 1024 * scale -> (String.length (precisionRound (Fin k)) <= 5)%nat.
Proof.
  intros Hk. pose proof scale_pos.
  destruct (precisionRound_show k) as (m & -> & Hm & He); [lia|lia|].
  revert He. unfold precision_digits.
  destruct (k <? 10 * scale) eqn:E1; [|destruct (k <? 100 * scale) eqn:E2]; intros He.
  all: apply show_fixed_length; [|lia]; change (10 ^ Z.of_nat 4) with 10000;
    split; [lia|].
  - change (10 ^ Z.of_nat 2) with 100 in He. nia.
  - change (10 ^ Z.of_nat 1) with 10 in He. nia.
  - change (10 ^ Z.of_nat 0) with 1 in He. nia.
Qed.

Lemma size_value_bound n :
  0 < n <= 2 ^ 53 -> 0 <= size_value n (size_level n) <= 1024 * scale.
Proof.
  intros Hn. pose proof scale_pos. unfold size_value.
  assert (Hl : (size_level n <= 5)%nat) by (unfold size_level; lia).
  destruct (scale_split (Z.of_nat (size_level n)) ltac:(lia)) as (E & Hp & E2).
  set (u := scale / 2 ^ (10 * Z.of_nat (size_level n))) in *.
  assert (n <= 1024 * 2 ^ (10 * Z.of_nat (size_level n))); [|nia].
  destruct (decide (size_level n = 5%nat)) as [->|Hne].
  - change (2 ^ (10 * Z.of_nat 5)) with (2 ^ 50). lia.
  - assert (Hnot : ~ (size_level n < size_level n)%nat) by lia.
    rw size_level_spec in Hnot; [lia|lia|].
    replace (10 * (Z.of_nat (size_level n) + 1)) with (10 + 10 * Z.of_nat (size_level n)) in Hnot by lia.
    rw Z.pow_add_r in Hnot; [lia|lia|]. change (2 ^ 10) with 1024 in Hnot. lia.
Qed.

(** Labels have bounded width: for every integer up to 2^53 a count is
    printed with at most 6 characters and a data size in bytes with at most 7. *)
Theorem label_width n :
  0 <= n <= 2 ^ 53 ->
  strlen (formatCount (of_Z n)) <= 6 /\ strlen (formatDataSize (of_Z n)) <= 7.
Proof.
  intros Hn. pose proof scale_pos. split.
  - destruct (formatCount_level n Hn) as (c & -> & Hc & _). rw strlen_append.
    pose proof (precisionRound_width c ltac:(lia)). unfold strlen.
    destruct (count_level_spec n Hn) as (Hl & _).
    assert (String.length (count_unit (count_level n)) <= 1)%nat; [|lia].
    destruct (count_level n) as [|[|[|[|[|[|l]]]]]]; simpl; lia.
  - unfold formatDataSize. rw formatDataSize_level //.
    destruct (n =? 0) eqn:E; [unfold strlen; simpl; lia|]. rw strlen_append.
    pose proof (precisionRound_width (size_value n (size_level n))
                  (size_value_bound n ltac:(lia))). unfold strlen.
    assert (Hl : (size_level n <= 5)%nat) by (unfold size_level; lia).
    assert (String.length (size_unit "B" (size_level n)) <= 2)%nat; [|lia].
    destruct (size_level n) as [|[|[|[|[|[|l]]]]]]; simpl; lia.
Qed.

Lemma label_width_witness :
  strlen (formatCount (of_Z 999999)) <= 6 /\ strlen (formatDataSize (of_Z 999999)) <= 7.
Proof. apply (label_width 999999). lia. Defined.
