(* ===== verification/UtilsFacts.v ===== *)
(** * Properties of utils.js: parsing, histories, identifiers, sorting, dates *)

From S2P Require Import Prelude JsString JsNumber Utils.

(** ** The number-with-unit pattern *)

(** The strings of the pattern, with the captured parts. *)
Definition unit_form (int frac unit ws1 ws2 ws3 : string) : string :=
  ws1 ++ int ++ (if streq frac "" then "" else "." ++ frac) ++ ws2 ++ unit ++ ws3.

Definition unit_form_ok (int frac unit ws1 ws2 ws3 : string) : Prop :=
  int <> "" /\ unit <> "" /\ all_chars is_digit int = true /\ all_chars is_digit frac = true /\
  all_chars is_alpha unit = true /\ all_chars is_space ws1 = true /\
  all_chars is_space ws2 = true /\ all_chars is_space ws3 = true.

(** The first character of a string, if any, does not satisfy [p]. *)
Definition stops (p : ascii -> bool) (s : string) : Prop :=
  match s with EmptyString => True | String c _ => p c = false end.

Lemma span_stops p a b : all_chars p a = true -> stops p b -> span p (a ++ b) = (a, b).
Proof.
  intros Ha Hb. apply span_stop; [done|]. destruct b; [done|]. by apply negb_true_iff.
Qed.

Lemma stops_app p q a b :
  (forall c, q c = true -> p c = false) -> all_chars q a = true -> (a = "" -> stops p b) ->
  stops p (a ++ b).
Proof.
  intros Hpq Ha Hb. destruct a as [|c a]; [by apply Hb|]. simpl in *.
  apply andb_prop in Ha as [Hc _]. by apply Hpq.
Qed.

Lemma class_disjoint c :
  (is_digit c = true -> is_space c = false /\ is_alpha c = false /\ c <> "."%char) /\
  (is_space c = true -> is_digit c = false /\ is_alpha c = false /\ c <> "."%char) /\
  (is_alpha c = true -> is_digit c = false /\ is_space c = false /\ c <> "."%char).
Proof.
  assert (c = "."%char -> is_digit c = false /\ is_space c = false /\ is_alpha c = false)
    by (by intros ->).
  unfold is_digit, is_space, is_alpha in *.
  repeat split; intros; try lia; intros ->; vm_compute in *; done.
Qed.

Lemma span_snd_stops p s : stops p (snd (span p s)).
Proof.
  induction s as [|c s IH]; simpl; [done|].
  destruct (p c) eqn:E; [|done]. by destruct (span p s).
Qed.

Lemma span_split p s a b : span p s = (a, b) -> s = a ++ b /\ all_chars p a = true /\ stops p b.
Proof.
  intros E. pose proof (span_app p s). pose proof (span_fst p s). pose proof (span_snd_stops p s).
  rw E in H, H0, H1. done.
Qed.

(** The tail of the pattern after the number: blanks, a unit, blanks. *)
Lemma match_tail ws2 unit ws3 :
  unit <> "" -> all_chars is_alpha unit = true -> all_chars is_space ws2 = true ->
  all_chars is_space ws3 = true ->
  let t := ws2 ++ unit ++ ws3 in
  stops is_digit t /\ (forall r, t <> String "." r) /\
  span is_space t = (ws2, unit ++ ws3) /\ span is_alpha (unit ++ ws3) = (unit, ws3) /\
  span is_space ws3 = (ws3, "").
Proof.
  intros Hu Hua H2 H3 t. unfold t.
  assert (Hd : stops is_digit (unit ++ ws3)).
  { apply (stops_app _ is_alpha); [intros c; apply class_disjoint|done|done]. }
  assert (Hs : stops is_space (unit ++ ws3)).
  { apply (stops_app _ is_alpha); [intros c; apply class_disjoint|done|done]. }
  split; [|split; [|split; [|split]]].
  - apply (stops_app _ is_space); [intros c; apply class_disjoint|done|done].
  - intros r E. destruct ws2 as [|c ws2].
    + destruct unit as [|c unit]; [done|]. simpl in *. injection E as -> _. done.
    + simpl in *. injection E as -> _. done.
  - by apply span_stops.
  - apply span_stops; [done|]. rw -(append_nil_r ws3).
    apply (stops_app _ is_space); [intros c; apply class_disjoint|done|done].
  - rw -{1}(append_nil_r ws3). by apply span_stops.
Qed.

Lemma matchNumberUnit_complete int frac unit ws1 ws2 ws3 :
  unit_form_ok int frac unit ws1 ws2 ws3 ->
  matchNumberUnit (unit_form int frac unit ws1 ws2 ws3) = Some (int, frac, unit).
Proof.
  intros (Hi & Hu & Hid & Hfd & Hua & H1 & H2 & H3).
  destruct (match_tail ws2 unit ws3 Hu Hua H2 H3) as (Td & Tdot & Ts & Ta & Te).
  unfold unit_form, matchNumberUnit. set (t := ws2 ++ unit ++ ws3) in *.
  assert (Hsp : span is_space (ws1 ++ int ++ (if streq frac "" then "" else "." ++ frac) ++ t)
                = (ws1, int ++ (if streq frac "" then "" else "." ++ frac) ++ t)).
  { apply span_stops; [done|].
    apply (stops_app _ is_digit); [intros c; apply class_disjoint|done|done]. }
  rw Hsp. cbn [snd].
  assert (Hdi : span is_digit (int ++ (if streq frac "" then "" else "." ++ frac) ++ t)
                = (int, (if streq frac "" then "" else "." ++ frac) ++ t)).
  { apply span_stops; [done|]. destruct (streq frac ""); [done|]. done. }
  rw Hdi. destruct (streq_spec int ""); [done|].
  destruct (streq_spec frac "") as [->|Hf].
  - cbn [String.append]. destruct t as [|c r] eqn:Et.
    + by rw Ts Ta; destruct (streq_spec unit ""); rw ?Te.
    + destruct (Ascii.eqb_spec c "."); [subst; by destruct (Tdot r)|].
      rw Ts. cbn [snd]. rw Ta. destruct (streq_spec unit ""); [done|]. by rw Te.
  - cbn [String.append]. rw Ascii.eqb_refl.
    rw (span_stops is_digit frac t) //. destruct (streq_spec frac ""); [done|].
    rw Ts. cbn [snd]. rw Ta. destruct (streq_spec unit ""); [done|]. by rw Te.
Qed.

Lemma matchNumberUnit_sound value int frac unit :
  matchNumberUnit value = Some (int, frac, unit) ->
  exists ws1 ws2 ws3,
    unit_form_ok int frac unit ws1 ws2 ws3 /\ value = unit_form int frac unit ws1 ws2 ws3.
Proof.
  unfold matchNumberUnit. destruct (span is_space value) as [ws1 t0] eqn:E1. cbn [snd].
  destruct (span is_digit t0) as [i t1] eqn:E2. destruct (streq_spec i ""); [done|].
  intros H.
  assert (exists f t2, match t1 with
      | String c r => if Ascii.eqb c "." then let '(f, r') := span is_digit r in
            if streq f "" then ("", t1) else (f, r') else ("", t1)
      | EmptyString => ("", t1) end = (f, t2) /\ all_chars is_digit f = true /\
      t1 = (if streq f "" then "" else "." ++ f) ++ t2) as (f & t2 & E3 & Hf & Ht1).
  { destruct t1 as [|c r]; [by exists "", ""|].
    destruct (Ascii.eqb_spec c ".") as [->|]; [|by exists "", (String c r)].
    destruct (span is_digit r) as [f r'] eqn:E3. destruct (streq_spec f "") as [->|Hne].
    - by exists "", (String "." r).
    - apply span_split in E3 as (-> & Hf & _). exists f, r'. split; [done|]. split; [done|].
      by destruct (streq_spec f ""). }
  rw E3 in H. destruct (span is_space t2) as [ws2 t3] eqn:E4. cbn [snd] in H.
  destruct (span is_alpha t3) as [u t4] eqn:E5. destruct (streq_spec u ""); [done|].
  destruct (span is_space t4) as [ws3 t5] eqn:E6. cbn [snd] in H.
  destruct (streq_spec t5 "") as [->|]; [|done]. injection H as <- <- <-.
  apply span_split in E1 as (-> & ? & _), E2 as (-> & ? & _), E4 as (-> & ? & _),
    E5 as (-> & ? & _), E6 as (-> & ? & _).
  exists ws1, ws2, ws3. split; [done|]. unfold unit_form.
  by rw Ht1 append_nil_r.
Qed.

(** C8.  The matcher behind parseDataSize and parseDuration accepts exactly the
    strings of the pattern /^\s*(\d+(?:\.\d+)?)\s*([a-zA-Z]+)\s*$/ and returns
    the parts the groups capture. *)
Theorem matchNumberUnit_spec value int frac unit :
  matchNumberUnit value = Some (int, frac, unit) <->
  exists ws1 ws2 ws3,
    unit_form_ok int frac unit ws1 ws2 ws3 /\ value = unit_form int frac unit ws1 ws2 ws3.
Proof.
  split; [apply matchNumberUnit_sound|].
  intros (ws1 & ws2 & ws3 & Hok & ->). by apply matchNumberUnit_complete.
Qed.

(** ** Parsed sizes and durations *)

Lemma mul_int a b :
  0 <= a -> 0 <= b -> a * b <= 2 ^ 53 ->
  mul (Fin (a * scale)) (Fin (b * scale)) = Fin (a * b * scale).
Proof.
  intros Ha Hb Hab. pose proof scale_pos as Hs. unfold mul. cbn [fin_val sign_neg].
  replace (a * scale <? 0) with false by nia. replace (b * scale <? 0) with false by nia.
  cbn [xorb]. destruct (a * scale =? 0) eqn:Ea.
  - assert (a = 0) as -> by nia. done.
  - destruct (b * scale =? 0) eqn:Eb.
    + assert (b = 0) as -> by nia. rw Z.mul_0_r. done.
    + cbn [orb]. replace (a * scale * (b * scale)) with (a * b * scale * scale) by lia.
      assert (0 <= a * b) by nia.
      assert (E : round_pos (a * b * scale * scale) scale = a * b * scale).
      { apply round_pos_exact; [nia|lia|]. apply repr_int. lia. }
      rw round_fin; [nia|lia| |by rw E]. rw E. pose proof (int_below_huge (a * b)). lia.
Qed.

Lemma mul_of_Z a b :
  0 <= a -> 0 < b <= 2 ^ 53 -> a * b <= 2 ^ 53 -> mul (of_Z a) (of_Z b) = of_Z (a * b).
Proof. intros Ha Hb Hab. rw !of_Z_small; [nia|nia|nia|]. apply mul_int; lia. Qed.

Lemma parseFloatDigits_int n : 0 <= n -> parseFloatDigits (show_pos n) "" = of_Z n.
Proof.
  intros Hn. unfold parseFloatDigits. rw append_nil_r.
  destruct (show_pos_spec n Hn) as (_ & -> & _). done.
Qed.

Lemma match_int n unit ws1 ws2 ws3 :
  0 <= n -> unit <> "" -> all_chars is_alpha unit = true ->
  all_chars is_space ws1 = true -> all_chars is_space ws2 = true ->
  all_chars is_space ws3 = true ->
  matchNumberUnit (ws1 ++ show_pos n ++ ws2 ++ unit ++ ws3) = Some (show_pos n, "", unit).
Proof.
  intros Hn Hu Hua H1 H2 H3. destruct (show_pos_spec n Hn) as (Hd & _ & Hne).
  by apply (matchNumberUnit_complete (show_pos n) "" unit ws1 ws2 ws3).
Qed.

(** The binary units of the server's data sizes, by their power of 1024. *)
Definition size_units : list string := ["B"; "kB"; "MB"; "GB"; "TB"; "PB"].

(** A data size printed by the server as an integer and a unit is read
    back exactly: "<n><unit>" with any white space around the parts gives
    n * 1024^j bytes, for every n and unit whose product is at most 2^53. *)
Theorem parseDataSize_int n j unit ws1 ws2 ws3 :
  0 <= n -> size_units !! j = Some unit -> n * 2 ^ (10 * Z.of_nat j) <= 2 ^ 53 ->
  all_chars is_space ws1 = true -> all_chars is_space ws2 = true ->
  all_chars is_space ws3 = true ->
  parseDataSize (ws1 ++ show_pos n ++ ws2 ++ unit ++ ws3) = Some (of_Z (n * 2 ^ (10 * Z.of_nat j))).
Proof.
  intros Hn Hj Hb H1 H2 H3. unfold parseDataSize.
  rw match_int //.
  { destruct j as [|[|[|[|[|[|j]]]]]]; by simplify_eq/=. }
  { destruct j as [|[|[|[|[|[|j]]]]]]; by simplify_eq/=. }
  rw parseFloatDigits_int //.
  destruct j as [|[|[|[|[|[|j]]]]]]; simplify_eq/=; cbn [streq String.eqb Ascii.eqb Bool.eqb].
  - by rw Z.mul_1_r.
  - f_equal. by apply mul_of_Z.
  - f_equal. by apply mul_of_Z.
  - f_equal. by apply mul_of_Z.
  - f_equal. by apply mul_of_Z.
  - f_equal. by apply mul_of_Z.
Qed.

Lemma parseDataSize_int_witness : parseDataSize " 512 MB" = Some (of_Z (512 * 2 ^ 20)).
Proof. apply (parseDataSize_int 512 2 "MB" " " " " ""); try reflexivity; vm_compute; discriminate. Defined.

(** ** Identifiers *)

Lemma slice_after c a b :
  no_char c a = true ->
  slice (a ++ String c b) (index_of c (a ++ String c b) + 1) (strlen (a ++ String c b)) = b.
Proof.
  intros Ha. rw index_of_found //. unfold slice.
  pose proof (strlen_nonneg a). pose proof (strlen_nonneg b).
  assert (E : strlen (a ++ String c b) = strlen a + 1 + strlen b).
  { rw strlen_append strlen_cons. lia. }
  replace (strlen a + 1 <? 0) with false by lia.
  replace (strlen (a ++ String c b) <? 0) with false by lia.
  rw !Z.min_l; [lia|lia|].
  replace (a ++ String c b) with ((a ++ String c "") ++ b) by (rw append_assoc; done).
  replace (strlen a + 1) with (strlen (a ++ String c "")); [apply sub_str_tail|].
  rw strlen_append. done.
Qed.

Lemma getTaskIdSuffix_app a b :
  no_char "." a = true -> getTaskIdSuffix (a ++ "." ++ b) = b.
Proof. apply slice_after. Qed.

Lemma parseInt_show n : 0 <= n -> parseInt (show_pos n) = of_Z n.
Proof. intros Hn. unfold parseInt. by rw parse_int_show. Qed.

Lemma show_pos_no_dot n : 0 <= n -> no_char "." (show_pos n) = true.
Proof.
  intros Hn. destruct (show_pos_spec n Hn) as (Hd & _ & _).
  by apply (all_chars_no_char is_digit).
Qed.

(** Stage and task identifiers: "<query>.<stage>" yields the stage number
    and "<query>.<stage>.<task>" the task number, whatever the query id is as
    long as it holds no dot. *)
Theorem identifier_numbers queryId stage task :
  no_char "." queryId = true -> 0 <= stage -> 0 <= task ->
  getStageNumber (queryId ++ "." ++ show_pos stage) = of_Z stage /\
  getTaskIdSuffix (queryId ++ "." ++ show_pos stage ++ "." ++ show_pos task)
    = show_pos stage ++ "." ++ show_pos task /\
  getTaskNumber (queryId ++ "." ++ show_pos stage ++ "." ++ show_pos task) = of_Z task.
Proof.
  intros Hq Hs Ht. split; [|split].
  - unfold getStageNumber. rw slice_after //. by apply parseInt_show.
  - by apply getTaskIdSuffix_app.
  - unfold getTaskNumber. rw getTaskIdSuffix_app // getTaskIdSuffix_app; [by apply show_pos_no_dot|].
    by apply parseInt_show.
Qed.

Lemma identifier_numbers_witness :
  getStageNumber "20200101_000000_00001_abcde.12" = of_Z 12 /\
  getTaskIdSuffix "20200101_000000_00001_abcde.12.7" = "12.7" /\
  getTaskNumber "20200101_000000_00001_abcde.12.7" = of_Z 7.
Proof.
  apply (identifier_numbers "20200101_000000_00001_abcde" 12 7); [reflexivity|lia|lia].
Defined.

(** ** Histories *)

Lemma addToHistory_cons {A} (v : A) l :
  addToHistory v l = drop (length (l ++ [v])%list - 301) (l ++ [v])%list.
Proof.
  destruct l as [|x l]; [done|]. unfold addToHistory, keepRecent, MAX_HISTORY.
  f_equal. rw length_app. simpl. lia.
Qed.

(** The history of a sparkline is a sliding window: after any sequence of
    measurements it holds the last 301 of them, in order.  The window is one
    longer than MAX_HISTORY = 300, which the code intends as the maximum. *)
Theorem addToHistory_window {A} (vs : list A) :
  fold_left (fun l v => addToHistory v l) vs [] = drop (length vs - 301) vs.
Proof.
  induction vs as [|v vs IH] using rev_ind; [done|].
  rw fold_left_app IH. cbn [fold_left]. rw addToHistory_cons !length_app length_drop. simpl.
  destruct (Nat.le_gt_cases (length vs) 301) as [H|H].
  - replace (length vs - 301)%nat with 0%nat by lia. rw drop_0. f_equal. lia.
  - replace (drop (length vs - 301) vs ++ [v])%list with (drop (length vs - 301) (vs ++ [v])).
    + rw drop_drop. f_equal. lia.
    + rw drop_app_le; [lia|done].
Qed.

(** ** bubbleSort *)

Section Bubble.
Context {A : Type} (value : A -> num).
Implicit Types l arr : list A.

Let ge_value (a b : A) : Prop := le (value b) (value a) = true.
Let ordered (a : A) : Prop := value a <> NaN.

(** One inner loop, read structurally: carry the smaller element along. *)
Fixpoint bubble (n : nat) (l : list A) : list A :=
  match n, l with
  | S n, a :: b :: r =>
      if lt (value a) (value b) then b :: bubble n (a :: r) else a :: bubble n (b :: r)
  | _, _ => l
  end.

Lemma bubble_short n l : (length l <= 1)%nat -> bubble n l = l.
Proof. destruct n, l as [|a [|b r]]; simpl; done || lia. Qed.

Lemma compareSwap_app pre l :
  compareSwap value (pre ++ l)%list (length pre) = (pre ++ bubble 1 l)%list.
Proof.
  unfold compareSwap. rw lookup_app_r // Nat.sub_diag.
  rw lookup_app_r; [lia|]. replace (S (length pre) - length pre)%nat with 1%nat by lia.
  destruct l as [|a [|b r]]; simpl; try done.
  destruct (lt (value a) (value b)); [|done].
  rw insert_app_r_alt; [lia|]. rw insert_app_r_alt; [lia|].
  rw Nat.sub_diag. replace (S (length pre) - length pre)%nat with 1%nat by lia. done.
Qed.

Lemma innerLoop_short arr i n :
  (length arr <= S i)%nat -> fold_left (compareSwap value) (List.seq i n) arr = arr.
Proof.
  revert i. induction n as [|n IH]; intros i Hi; [done|]. cbn [List.seq fold_left].
  assert (compareSwap value arr i = arr) as ->; [|apply IH; lia].
  unfold compareSwap. rw (lookup_ge_None_2 arr (S i)); [lia|]. by destruct (arr !! i).
Qed.

Lemma innerLoop_app pre n l :
  fold_left (compareSwap value) (List.seq (length pre) n) (pre ++ l)%list = (pre ++ bubble n l)%list.
Proof.
  revert pre l. induction n as [|n IH]; intros pre l; [done|].
  destruct (Nat.le_gt_cases (length l) 1) as [Hl|Hl].
  { rw innerLoop_short; [rw length_app; lia|]. by rw bubble_short. }
  cbn [List.seq fold_left]. rw compareSwap_app.
  destruct l as [|a [|b r]]; [simpl in Hl; lia|simpl in Hl; lia|].
  cbn [bubble]. destruct (lt (value a) (value b)); cbn [bubble].
  - specialize (IH (pre ++ [b])%list (a :: r)). by rw length_app Nat.add_1_r -!app_assoc in IH.
  - specialize (IH (pre ++ [a])%list (b :: r)). by rw length_app Nat.add_1_r -!app_assoc in IH.
Qed.

Lemma innerLoop_bubble n l : innerLoop value l n = bubble n l.
Proof. apply (innerLoop_app []). Qed.

Lemma bubble_app n l m : (n < length l)%nat -> bubble n (l ++ m)%list = (bubble n l ++ m)%list.
Proof.
  revert l. induction n as [|n IH]; intros l Hl; [done|].
  destruct l as [|a [|b r]]; simpl in Hl; [lia|lia|]. simpl.
  destruct (lt (value a) (value b)); simpl; f_equal; apply (IH (_ :: r)); simpl; lia.
Qed.

Lemma bubble_perm n l : bubble n l ≡ₚ l.
Proof.
  revert l. induction n as [|n IH]; intros l; [done|]. destruct l as [|a [|b r]]; [done|done|].
  simpl. destruct (lt (value a) (value b)).
  - rw (IH (a :: r)). constructor.
  - by rw (IH (b :: r)).
Qed.

(** A full pass moves a minimum to the end. *)
Lemma bubble_min n l :
  length l = S n -> Forall ordered l ->
  exists l' m, bubble n l = (l' ++ [m])%list /\ Forall (fun a => ge_value a m) l /\ ordered m.
Proof.
  revert l. induction n as [|n IH]; intros l Hl Ho.
  - destruct l as [|a [|b r]]; try done. inversion Ho; subst.
    exists [], a. split; [done|]. split; [|done]. repeat constructor. by apply le_refl.
  - destruct l as [|a [|b r]]; try done. inversion Ho as [|? ? Ha Hbr]; subst.
    inversion Hbr as [|? ? Hb Hr]; subst. simpl.
    destruct (lt (value a) (value b)) eqn:E.
    + destruct (IH (a :: r)) as (l' & m & -> & Hm & Hmo); [simpl in *; lia|by constructor|].
      exists (b :: l'), m. split; [done|]. split; [|done]. inversion Hm; subst.
      constructor; [done|]. constructor; [|done].
      apply (le_trans _ (value a)); try done. by apply lt_le.
    + destruct (IH (b :: r)) as (l' & m & -> & Hm & Hmo); [simpl in *; lia|done|].
      exists (a :: l'), m. split; [done|]. split; [|done]. inversion Hm; subst.
      constructor; [|done]. apply (le_trans _ (value b)); try done. by apply le_total.
Qed.

(** Equal elements keep their relative order. *)
Lemma bubble_stable n l w :
  filter (fun a => eq (value a) w = true) (bubble n l) =
  filter (fun a => eq (value a) w = true) l.
Proof.
  revert l. induction n as [|n IH]; intros l; [done|].
  destruct l as [|a [|b r]]; [done|done|]. simpl.
  destruct (lt (value a) (value b)) eqn:E.
  - rw (filter_cons _ b (bubble n (a :: r))) IH !filter_cons.
    destruct (decide (eq (value a) w = true)) as [Ha|Ha],
      (decide (eq (value b) w = true)) as [Hb|Hb]; try done.
    by rw (eq_class_not_lt _ _ _ Ha Hb) in E.
  - by rw filter_cons IH (filter_cons _ a (b :: r)).
Qed.

(** The outer loop after [i] rounds: the last [i] elements are in place. *)
Lemma outerLoop_inv arr i :
  Forall ordered arr -> (i < length arr)%nat ->
  let arr' := fold_left (fun arr' i => innerLoop value arr' (length arr - 1 - i)) (List.seq 0 i) arr in
  arr' ≡ₚ arr /\
  (forall w, filter (fun a => eq (value a) w = true) arr' =
             filter (fun a => eq (value a) w = true) arr) /\
  exists l m, arr' = (l ++ m)%list /\ length m = i /\ StronglySorted ge_value m /\
              Forall (fun b => Forall (fun a => ge_value a b) l) m.
Proof.
  intros Ho. induction i as [|i IH]; intros Hi.
  { simpl. split; [done|]. split; [done|]. exists arr, []. rw app_nil_r. repeat split; constructor. }
  rw List.seq_S fold_left_app. cbn [fold_left].
  destruct IH as (Hp & Hst & l & m & El & Hm & Hs & Hlm); [lia|].
  set (arr' := fold_left _ _ _) in *. rw innerLoop_bubble El Nat.add_0_l.
  assert (Hlen : length l = S (length arr - 1 - i)).
  { apply Permutation_length in Hp. rw El length_app in Hp. lia. }
  rw bubble_app; [lia|]. split; [|split].
  - by rw bubble_perm -El.
  - intros w. by rw filter_app bubble_stable -filter_app -El.
  - destruct (bubble_min _ l Hlen) as (l' & x & E & Hx & Hxo).
    { rw -Hp El in Ho. by apply Forall_app in Ho as [? _]. }
    assert (Hl' : l' ++ [x] ≡ₚ l) by (by rw -E bubble_perm).
    exists l', (x :: m). rw E -app_assoc. split; [done|]. split; [simpl; lia|].
    assert (Hin : forall y, y ∈ l' -> y ∈ l) by (intros y Hy; rw -Hl'; set_solver).
    assert (Hxin : x ∈ l) by (rw -Hl'; set_solver).
    rw Forall_forall in Hx. rw Forall_forall in Hlm. split.
    + constructor; [done|]. apply List.Forall_forall. intros b Hb. apply list_elem_of_In in Hb.
      specialize (Hlm b Hb). rw Forall_forall in Hlm. by apply Hlm.
    + constructor.
      * apply Forall_forall. intros y Hy. apply Hx. by apply Hin.
      * apply Forall_forall. intros b Hb. specialize (Hlm b Hb).
        rw Forall_forall in Hlm. apply Forall_forall. intros y Hy. by apply Hlm, Hin.
Qed.
End Bubble.

(** C7.  bubbleSort sorts in descending order of [value]: for numbers other
    than NaN the result is a permutation of the input, every element is at
    least as large as every later one, and elements of equal value keep their
    order. *)
Theorem bubbleSort_sorts {A} (value : A -> num) (arr : list A) :
  Forall (fun a => value a <> NaN) arr ->
  bubbleSort value arr ≡ₚ arr /\
  StronglySorted (fun a b => le (value b) (value a) = true) (bubbleSort value arr) /\
  (forall w, filter (fun a => eq (value a) w = true) (bubbleSort value arr) =
             filter (fun a => eq (value a) w = true) arr).
Proof.
  intros Ho. unfold bubbleSort. destruct arr as [|a0 arr0] eqn:Earr.
  { simpl. repeat split; constructor. }
  rw -Earr in Ho |- *.
  destruct (outerLoop_inv value arr (length arr - 1) Ho) as (Hp & Hst & l & m & El & Hm & Hs & Hlm);
    [subst; simpl; lia|].
  split; [done|]. split; [|done]. rw El.
  assert (length l = 1%nat) as Hl.
  { apply Permutation_length in Hp. rw El length_app Hm in Hp. subst. simpl in *. lia. }
  destruct l as [|x [|]]; try done. simpl. constructor; [done|].
  apply List.Forall_forall. intros b Hb. apply list_elem_of_In in Hb.
  rw Forall_forall in Hlm. specialize (Hlm b Hb). by inversion Hlm.
Qed.

Lemma bubbleSort_sorts_witness :
  let arr := [(1, of_Z 3); (2, of_Z 7); (3, of_Z 3)] in
  bubbleSort snd arr ≡ₚ arr /\
  StronglySorted (fun a b => le (snd b) (snd a) = true) (bubbleSort snd arr) /\
  (forall w, filter (fun a => eq (snd a) w = true) (bubbleSort snd arr) =
             filter (fun a => eq (snd a) w = true) arr).
Proof. apply (bubbleSort_sorts snd). repeat constructor; vm_compute; discriminate. Defined.

(** ** Times of day *)

(** The reading of a 12-hour clock label. *)
Definition readShortTime (s : string) : Z * Z :=
  let '(h, rest) := span is_digit s in
  let '(m, suffix) := span is_digit (drop_str 1 rest) in
  ((read_digits h 0) mod 12 + (if streq suffix "pm" then 12 else 0), read_digits m 0).

Definition timeOk (h m : nat) : bool :=
  let d := {| getFullYear := 0; getMonth := 0; getDate := 1;
              getHours := Z.of_nat h; getMinutes := Z.of_nat m |} in
  bool_decide (readShortTime (formatShortTime d) = (Z.of_nat h, Z.of_nat m)) &&
  (6 <=? strlen (formatShortTime d)) && (strlen (formatShortTime d) <=? 7).

Lemma timeOk_all : forallb (fun h => forallb (timeOk h) (List.seq 0 60)) (List.seq 0 24) = true.
Proof. vm_compute. reflexivity. Qed.

(** The 12-hour label of formatShortTime determines the time of day: for
    every hour and minute it can be read back (so 0:05 and 12:05 are told apart
    as "12:05am" and "12:05pm"), and it has 6 or 7 characters. *)
Theorem formatShortTime_readable date :
  0 <= getHours date < 24 -> 0 <= getMinutes date < 60 ->
  readShortTime (formatShortTime date) = (getHours date, getMinutes date) /\
  6 <= strlen (formatShortTime date) <= 7.
Proof.
  intros Hh Hm. pose proof timeOk_all as H. rw forallb_forall in H.
  specialize (H (Z.to_nat (getHours date))). rw forallb_forall in H.
  specialize (H ltac:(apply in_seq; lia) (Z.to_nat (getMinutes date)) ltac:(apply in_seq; lia)).
  unfold timeOk in H. rw !Z2Nat.id in H; [lia|lia|].
  unfold formatShortTime in *. cbn [getHours getMinutes] in H.
  apply andb_prop in H as [[H1 H2]%andb_prop H3]. apply bool_decide_eq_true in H1.
  split; [done|lia].
Qed.

Lemma formatShortTime_readable_witness :
  let d := {| getFullYear := 2020; getMonth := 0; getDate := 1; getHours := 0; getMinutes := 5 |} in
  readShortTime (formatShortTime d) = (0, 5) /\ 6 <= strlen (formatShortTime d) <= 7.
Proof.
  apply (formatShortTime_readable
    {| getFullYear := 2020; getMonth := 0; getDate := 1; getHours := 0; getMinutes := 5 |}); simpl; lia.
Defined.
