(* ===== verification/NewUtils.v ===== *)
(** * newUtils.js: the copy of utils.js the query history page uses

    The file repeats utils.js; only the two functions below differ, because a
    query read from the history store carries the error type in [failed] and
    has no error code.  The repeated functions are textually identical and are
    the definitions of Utils.v. *)

From S2P Require Import Prelude JsString JsNumber Utils.

Module NewUtils.

Definition getQueryStateColor (query : Query) : string :=
  let st := state query in
  if streq st "QUEUED" then STATE_COLOR_MAP.QUEUED
  else if streq st "PLANNING" then STATE_COLOR_MAP.PLANNING
  else if streq st "SUSPENDED" then STATE_COLOR_MAP.BLOCKED
  else if streq st "STARTING" || streq st "FINISHING" || streq st "RUNNING" then
    if stats_blocked query then STATE_COLOR_MAP.BLOCKED else STATE_COLOR_MAP.RUNNING
  else if streq st "FAILED" then
    if opt_is (failed query) "USER_ERROR" then STATE_COLOR_MAP.USER_ERROR
    else if opt_is (failed query) "EXTERNAL" then STATE_COLOR_MAP.EXTERNAL_ERROR
    else if opt_is (failed query) "INSUFFICIENT_RESOURCES" then
      STATE_COLOR_MAP.INSUFFICIENT_RESOURCES
    else STATE_COLOR_MAP.UNKNOWN_ERROR
  else if streq st "FINISHED" then STATE_COLOR_MAP.FINISHED
  else STATE_COLOR_MAP.QUEUED.

Definition failedTitle (query : Query) : string :=
  if opt_is (failed query) "USER_ERROR" then "USER ERROR"
  else if opt_is (failed query) "INTERNAL_ERROR" then "INTERNAL ERROR"
  else if opt_is (failed query) "INSUFFICIENT_RESOURCES" then "INSUFFICIENT RESOURCES"
  else if opt_is (failed query) "EXTERNAL" then "EXTERNAL ERROR"
  else state query.

Definition getHumanReadableState (query : Query) : result string :=
  if streq (state query) "RUNNING" then
    if scheduled query then
      qs ← member (queryStats query) id;
      if gt (totalDrivers qs) (of_Z 0) && ge (runningDrivers qs) (of_Z 0)
      then Ok (runningTitle qs (memoryPool query))
      else Ok (state query)
    else Ok (state query)
  else if streq (state query) "FAILED" then Ok (failedTitle query)
  else Ok (state query).

(** The functions repeated without a change. *)
Definition getStageStateColor := Utils.getStageStateColor.
Definition isQueryEnded := Utils.isQueryEnded.
Definition addToHistory := @Utils.addToHistory.
Definition addExponentiallyWeightedToHistory := Utils.addExponentiallyWeightedToHistory.
Definition getChildren := Utils.getChildren.
Definition truncateString := Utils.truncateString.
Definition getStageNumber := Utils.getStageNumber.
Definition getTaskIdSuffix := Utils.getTaskIdSuffix.
Definition getTaskNumber := Utils.getTaskNumber.
Definition getFirstParameter := Utils.getFirstParameter.
Definition getHostname := Utils.getHostname.
Definition getPort := Utils.getPort.
Definition getHostAndPort := Utils.getHostAndPort.
Definition computeRate := Utils.computeRate.
Definition precisionRound := Utils.precisionRound.
Definition formatDuration := Utils.formatDuration.
Definition formatRows := Utils.formatRows.
Definition formatCount := Utils.formatCount.
Definition formatDataSizeBytes := Utils.formatDataSizeBytes.
Definition formatDataSize := Utils.formatDataSize.
Definition formatDataSizeMinUnit := Utils.formatDataSizeMinUnit.
Definition parseDataSize := Utils.parseDataSize.
Definition parseDuration := Utils.parseDuration.
Definition formatShortTime := Utils.formatShortTime.
Definition formatShortDateTime := Utils.formatShortDateTime.
Definition bubbleSort := @Utils.bubbleSort.
Definition removeNodeTypePackage := Utils.removeNodeTypePackage.

End NewUtils.

(** A history record of a query: its [failed] field is the error type, and it
    was not cancelled by the user (the history has no error code to tell). *)
Definition history_record (query : Query) : Prop :=
  failed query = errorType query /\
  forall c, errorCode query = Some c -> errorCode_name c <> "USER_CANCELED".

(** The two copies agree: on a record that carries the error type under
    both names and is not a user cancellation, the colour and the label of the
    history page are those of the live pages, whenever the live functions do
    not throw (they do throw for a user error without an error code, where the
    history page still shows USER ERROR). *)
Theorem newUtils_agrees query :
  history_record query ->
  (forall s, getQueryStateColor query = Ok s -> NewUtils.getQueryStateColor query = s) /\
  (forall s, getHumanReadableState query = Ok s -> NewUtils.getHumanReadableState query = Ok s) /\
  (state query = "FAILED" -> errorType query = Some "USER_ERROR" -> errorCode query = None ->
     getHumanReadableState query = Throw TypeError /\
     NewUtils.getHumanReadableState query = Ok "USER ERROR").
Proof.
  intros [Hf Hc]. split; [|split].
  - intros s. unfold getQueryStateColor, NewUtils.getQueryStateColor. rw Hf.
    destruct (streq (state query) "QUEUED"); [by intros [= <-]|].
    destruct (streq (state query) "PLANNING"); [by intros [= <-]|].
    destruct (streq (state query) "SUSPENDED"); [by intros [= <-]|].
    destruct (streq (state query) "STARTING" || streq (state query) "FINISHING" ||
              streq (state query) "RUNNING").
    { by destruct (stats_blocked query); intros [= <-]. }
    destruct (streq (state query) "FAILED").
    + destruct (opt_is (errorType query) "USER_ERROR").
      * destruct (errorCode query) as [c|]; [|done]. simpl.
        destruct (streq_spec (errorCode_name c) "USER_CANCELED") as [E|]; [by destruct (Hc c)|].
        by intros [= <-].
      * by repeat destruct (opt_is _ _); intros [= <-].
    + by destruct (streq (state query) "FINISHED"); intros [= <-].
  - intros s. unfold getHumanReadableState, NewUtils.getHumanReadableState.
    destruct (streq (state query) "RUNNING"); [done|].
    destruct (streq (state query) "FAILED"); [|done].
    unfold failedTitle, NewUtils.failedTitle. rw Hf.
    destruct (opt_is (errorType query) "USER_ERROR"); [|by repeat destruct (opt_is _ _)].
    destruct (errorCode query) as [c|]; [|done]. simpl.
    destruct (streq_spec (errorCode_name c) "USER_CANCELED") as [E|]; [by destruct (Hc c)|done].
  - intros Hs He Hn. unfold getHumanReadableState, NewUtils.getHumanReadableState.
    rw Hs. unfold failedTitle, NewUtils.failedTitle. by rw Hf He Hn.
Qed.

Lemma newUtils_agrees_witness :
  let q := {| state := "FAILED"; queryStats := None; errorType := Some "EXTERNAL";
              errorCode := None; failed := Some "EXTERNAL"; scheduled := false;
              memoryPool := None |} in
  (forall s, getQueryStateColor q = Ok s -> NewUtils.getQueryStateColor q = s) /\
  (forall s, getHumanReadableState q = Ok s -> NewUtils.getHumanReadableState q = Ok s) /\
  (state q = "FAILED" -> errorType q = Some "USER_ERROR" -> errorCode q = None ->
     getHumanReadableState q = Throw TypeError /\
     NewUtils.getHumanReadableState q = Ok "USER ERROR").
Proof.
  apply (newUtils_agrees {| state := "FAILED"; queryStats := None; errorType := Some "EXTERNAL";
              errorCode := None; failed := Some "EXTERNAL"; scheduled := false;
              memoryPool := None |}).
  split; [reflexivity|]. intros c H. discriminate.
Defined.
