(* ===== verification/Fqn.v ===== *)
(** * utils/fqn.js: fully qualified table names *)

From S2P Require Import Prelude JsString.

Module Fqn.

(** [_.isString(part) && !_.isEmpty(part)]; [None] is any non-string. *)
Definition validFqnPart (part : option string) : bool :=
  match part with Some s => negb (streq s "") | None => false end.

(** [None] is returned for anything but a non-empty string. *)
Definition getParts (fqn : option string) : option (list string) :=
  match fqn with
  | Some s => if streq s "" then None else Some (split "." s)
  | None => None
  end.

(** The loop [for (; i < stop; i++) acc = acc + '.' + parts[i]] from [i] = 1. *)
Definition joinUpTo (parts : list string) (stop : nat) : string :=
  fold_left (fun acc i => acc ++ "." ++ nth i parts "") (List.seq 1 (stop - 1)) (nth 0 parts "").

Definition schema (fqn : option string) : option string :=
  parts ← getParts fqn; Some (joinUpTo parts (length parts - 1)).

Definition catalog (fqn : option string) : option string :=
  parts ← getParts fqn; Some (joinUpTo parts (length parts - 2)).

Definition simpleSchema (fqn : option string) : option string :=
  parts ← getParts fqn;
  if (2 <=? length parts)%nat then parts !! (length parts - 2)%nat else None.

Definition table (fqn : option string) : option string :=
  parts ← getParts fqn; parts !! (length parts - 1)%nat.

Definition toFqn (schema table : string) : string := join "." [schema; table].

End Fqn.

Lemma joinUpTo_take parts n :
  parts <> [] -> (n <= length parts)%nat ->
  Fqn.joinUpTo parts n = join "." (take (Nat.max 1 n) parts).
Proof.
  intros Hne. unfold Fqn.joinUpTo. destruct parts as [|p ps]; [done|]. intros Hn.
  destruct n as [|n]; [done|]. simpl in Hn. replace (S n - 1)%nat with n by lia.
  replace (Nat.max 1 (S n)) with (S n) by lia. induction n as [|n IH]; [done|].
  rw List.seq_S fold_left_app IH; [lia|]. cbn [fold_left].
  assert (Hl : (n < length ps)%nat) by lia.
  destruct (lookup_lt_is_Some_2 ps n Hl) as [x Hx].
  rw (take_S_r (p :: ps) (S n) x); [done|]. rw join_app_last; [done|].
  by rw (nth_lookup_Some (p :: ps) (1 + n) "" x Hx).
Qed.

Section Parts.
Variables (s : string) (hs : s <> "").

Lemma getParts_some : Fqn.getParts (Some s) = Some (split "." s).
Proof using hs. unfold Fqn.getParts. by destruct (streq_spec s ""). Qed.

Lemma parts_nonempty : split "." s <> [].
Proof. apply split_nonempty. Qed.
End Parts.

(** C34.  A name with at least two parts is split without loss:
    toFqn(schema(f), table(f)) = f, and with at least three parts
    catalog.simpleSchema.table = f as well. *)
Theorem fqn_roundtrip s :
  (2 <= length (split "." s))%nat ->
  (exists sc t, Fqn.schema (Some s) = Some sc /\ Fqn.table (Some s) = Some t /\
                Fqn.toFqn sc t = s) /\
  ((3 <= length (split "." s))%nat ->
   exists c m t, Fqn.catalog (Some s) = Some c /\ Fqn.simpleSchema (Some s) = Some m /\
                 Fqn.table (Some s) = Some t /\ join "." [c; m; t] = s).
Proof.
  intros H2.
  assert (Hs : s <> "") by (intros ->; simpl in H2; lia).
  pose proof (getParts_some s Hs) as Hg. pose proof (split_nonempty "." s) as Hne.
  pose proof (join_split "." s) as Hj.
  unfold Fqn.schema, Fqn.table, Fqn.catalog, Fqn.simpleSchema, Fqn.toFqn. rw Hg.
  set (ps := split "." s) in *. clearbody ps. cbn [mbind option_bind].
  destruct (lookup_lt_is_Some_2 ps (length ps - 1)) as [t Ht]; [lia|].
  destruct (lookup_lt_is_Some_2 ps (length ps - 2)) as [m Hm]; [lia|].
  assert (E1 : ps = (take (length ps - 1) ps ++ [t])%list).
  { rw -(take_S_r _ _ _ Ht) take_ge; [lia|done]. }
  assert (Hn1 : take (length ps - 1) ps <> []).
  { intros E. apply (f_equal length) in E. rw length_take in E. simpl in E. lia. }
  split.
  - exists (join "." (take (length ps - 1) ps)), t. rw joinUpTo_take; [done|lia|].
    rw Nat.max_r; [lia|]. split; [done|]. split; [done|].
    assert (E3 : join "." ps = join "." (take (length ps - 1) ps ++ [t])%list) by (by f_equal).
    by rw -Hj E3 join_app_last.
  - intros H3.
    assert (E2 : take (length ps - 1) ps = (take (length ps - 2) ps ++ [m])%list).
    { rw -(take_S_r _ _ _ Hm). f_equal. lia. }
    assert (Hn2 : take (length ps - 2) ps <> []).
    { intros E. apply (f_equal length) in E. rw length_take in E. simpl in E. lia. }
    exists (join "." (take (length ps - 2) ps)), m, t. rw joinUpTo_take; [done|lia|].
    rw Nat.max_r; [lia|]. destruct (Nat.leb_spec 2 (length ps)); [|lia].
    split; [done|]. split; [done|]. split; [done|].
    assert (E3 : join "." ps = join "." (take (length ps - 1) ps ++ [t])%list) by (by f_equal).
    by rw -Hj E3 join_app_last // E2 join_app_last // append_assoc.
Qed.

Lemma fqn_roundtrip_witness :
  (exists sc t, Fqn.schema (Some "hive.web.logs") = Some sc /\
                Fqn.table (Some "hive.web.logs") = Some t /\ Fqn.toFqn sc t = "hive.web.logs") /\
  ((3 <= length (split "." "hive.web.logs"))%nat ->
   exists c m t, Fqn.catalog (Some "hive.web.logs") = Some c /\
                 Fqn.simpleSchema (Some "hive.web.logs") = Some m /\
                 Fqn.table (Some "hive.web.logs") = Some t /\ join "." [c; m; t] = "hive.web.logs").
Proof. apply (fqn_roundtrip "hive.web.logs"). vm_compute. lia. Defined.
