(* ===== verification/Http.v ===== *)
(** * queryeditor/utils: requests and responses

    A promise is modelled by what it settles to: [Ok] for a resolved promise,
    [Throw] for a rejected one.  [fetch] belongs to the platform and is a
    parameter; a response exposes the fields the code reads. *)

From S2P Require Import Prelude JsString.

Record Request := {
  method : string;
  url : string;
  contentType : option string;
  body : option string;
}.

Record Response (J : Type) := {
  status_code : Z;
  statusText : string;
  response_url : string;
  contentLength : option Z;      (* headers.get("Content-length") as a number *)
  text : result string;          (* response.text() *)
  json_body : result J;          (* response.json() *)
}.
Arguments status_code {J}. Arguments statusText {J}. Arguments response_url {J}.
Arguments contentLength {J}. Arguments text {J}. Arguments json_body {J}.

(** ** xhrutil.js *)

Definition statusTexts : list (Z * string) :=
  [(200, "OK"); (201, "Created"); (202, "Accepted"); (204, "No Content");
   (205, "Reset Content"); (206, "Partial Content"); (301, "Moved Permanently");
   (302, "Found"); (303, "See Other"); (304, "Not Modified"); (305, "Use Proxy");
   (307, "Temporary Redirect"); (400, "Bad Request"); (401, "Unauthorized");
   (402, "Payment Required"); (403, "Forbidden"); (404, "Not Found");
   (405, "Method Not Allowed"); (406, "Not Acceptable");
   (407, "Proxy Authentication Required"); (408, "Request Timeout"); (409, "Conflict");
   (410, "Gone"); (411, "Length Required"); (412, "Precondition Failed");
   (413, "Request Entity Too Large"); (414, "Request-URI Too Long");
   (415, "Unsupported Media Type"); (416, "Requested Range Not Satisfiable");
   (417, "Expectation Failed"); (428, "Precondition Required"); (429, "Too Many Requests");
   (431, "Request Header Fields Too Large"); (500, "Internal Server Error");
   (501, "Not Implemented"); (502, "Bad Gateway"); (503, "Service Unavailable");
   (504, "Gateway Timeout"); (505, "HTTP Version Not Supported");
   (511, "Network Authentication Required")].

(** [None] is undefined: the switch has no default. *)
Definition getStatusText {J} (response : Response J) : option string :=
  if negb (streq (statusText response) "") then Some (statusText response)
  else snd <$> List.find (fun p => fst p =? status_code response) statusTexts.

(** ** xhr.js and xhrform.js *)

(** Both end in [window.location.reload()] being called or not. *)
Record Settled (A : Type) := { reloaded : bool; outcome : result A }.
Arguments reloaded {A}. Arguments outcome {A}.

Definition is_success (code : Z) : bool := (200 <=? code) && (code <? 300).

Definition errorMessage {J} (response : Response J) : string :=
  "Error: " ++ default "undefined" (getStatusText response) ++
  " (code: " ++ show_Z (status_code response) ++ ");".

(** The rejection both [status] functions end with. *)
Definition rejectStatus {J A} (response : Response J) : result A :=
  let message := errorMessage response in
  match contentLength response with
  | Some content =>
      if 0 <? content then
        msg ← text response; Throw (ErrorMsg (message ++ " " ++ msg))
      else Throw (ErrorMsg message)
  | None => Throw (ErrorMsg message)
  end.

Section Xhr.
Context {J : Type} (emptyObject : J).

(** [status] of xhr.js; a resolved [None] is the undefined it returns after
    asking for a reload. *)
Definition status (response : Response J) : Settled (option (Response J)) :=
  if is_success (status_code response) then
    {| reloaded := false; outcome := Ok (Some response) |}
  else if (status_code response <=? 308) && negb (streq (response_url response) "") then
    {| reloaded := true; outcome := Ok None |}
  else {| reloaded := false; outcome := rejectStatus response |}.

Definition json (response : option (Response J)) : result J :=
  match response with
  | None => Throw TypeError
  | Some response =>
      if negb (status_code response =? 204) then json_body response else Ok emptyObject
  end.

(** fetch(url, params).then(status).then(json), for what fetch settled to. *)
Definition xhr (fetched : result (Response J)) : Settled J :=
  match fetched with
  | Throw e => {| reloaded := false; outcome := Throw e |}
  | Ok response =>
      let s := status response in
      {| reloaded := reloaded s; outcome := r ← outcome s; json r |}
  end.

Definition xhrform_status (response : Response J) : result (Response J) :=
  if is_success (status_code response) then Ok response else rejectStatus response.

Definition xhrform_json (response : Response J) : result J :=
  if negb (status_code response =? 204) &&
     match contentLength response with Some content => 0 <? content | None => false end
  then json_body response else Ok emptyObject.

Definition xhrform (fetched : result (Response J)) : result J :=
  response ← fetched; response ← xhrform_status response; xhrform_json response.
End Xhr.

(** ** encodeURIComponent *)

Definition hexDigit (d : Z) : ascii := ascii_of_N (Z.to_N (if d <? 10 then 48 + d else 55 + d)).

Definition percent (b : Z) : string :=
  String "%" (String (hexDigit (b / 16)) (String (hexDigit (b mod 16)) "")).

Definition isUnreserved (c : ascii) : bool :=
  is_alpha c || is_digit c || bool_decide (c ∈ ["-"; "_"; "."; "!"; "~"; "*"; "'"; "("; ")"]%char).

(** One code unit: itself, or the percent-encoded bytes of its UTF-8 form. *)
Definition encodeUnit (c : ascii) : string :=
  let n := Z.of_N (N_of_ascii c) in
  if isUnreserved c then String c ""
  else if n <? 128 then percent n
  else percent (192 + n / 64) ++ percent (128 + n mod 64).

Fixpoint encodeURIComponent (s : string) : string :=
  match s with
  | EmptyString => EmptyString
  | String c s => encodeUnit c ++ encodeURIComponent s
  end.

(** ** The API modules *)

Definition formType : option string := Some "application/x-www-form-urlencoded".
Definition jsonType : option string := Some "application/json".

Definition get (url : string) : Request :=
  {| method := "get"; url := url; contentType := jsonType; body := None |}.

Module QueryApiUtils.
Definition fetchSavedQueries : Request := get "../api/query/saved".

(** The reduce over Object.keys(data). *)
Definition encodeForm (data : list (string * string)) : string :=
  fold_left (fun encoded '(key, value) =>
    encoded ++ "&" ++ encodeURIComponent key ++ "=" ++ encodeURIComponent value) data "".

Definition createQuery (data : list (string * string)) : Request :=
  {| method := "post"; url := "../api/query/saved"; contentType := formType;
     body := Some (encodeForm data) |}.

Definition destroyQuery (uuid : string) : Request :=
  {| method := "delete"; url := "../api/query/saved/" ++ uuid; contentType := jsonType;
     body := None |}.
End QueryApiUtils.

Module ResultsPreviewApiUtils.
(** [None] is a page number or size that is not an integer. *)
Definition loadResultsPreview (file : string) (pageNum pageSize : option Z) : Request :=
  let pageNum := default 1 pageNum in
  let pageSize := default 10 pageSize in
  get ("../api/preview?fileURI=" ++ encodeURIComponent file ++ "&pageSize=" ++ show_Z pageSize
       ++ "&pageNum=" ++ show_Z pageNum).
End ResultsPreviewApiUtils.

Module RunApiUtils.
Definition fetchForUser (name : string) : Request := get ("../api/users/" ++ name ++ "/queries").
Definition fetchHistory : Request := get "../api/query/history".
Definition kill (uuid : string) : Request :=
  {| method := "delete"; url := "../api/queries/" ++ uuid; contentType := jsonType; body := None |}.
Definition killAll : Request := get "../api/query/killAll".
End RunApiUtils.

Module TableApiUtils.
Definition fetchColumData (tableUrl : string) : Request := get ("../api/metadata/columns/" ++ tableUrl).

(** [partition.name && partition.value]. *)
Definition fetchPreviewData (tableUrl : string) (partition : option (string * string)) : Request :=
  let url := "../api/metadata/preview/" ++ tableUrl in
  match partition with
  | Some (name, value) =>
      if negb (streq name "") && negb (streq value "")
      then get (url ++ "?" ++ "partitionName=" ++ name ++ "&" ++ "partitionValue=" ++ value)
      else get url
  | None => get url
  end.

Definition fetchPartitionData (tableUrl : string) : Request :=
  get ("../api/metadata/partitions/" ++ tableUrl).
Definition fetchTables : Request := get "../api/metadata/tables".
End TableApiUtils.

Module ConnectorApiUtils.
Definition fetchSupportedConnectors : Request := get "../api/connectors".
End ConnectorApiUtils.

Module UserApiUtils.
Definition fetchCurrentUser : Request := get "../api/user".
End UserApiUtils.

Module OverviewApiUtils.
Definition getLineData : Request := get "../v1/cluster".
Definition getWorkMemory : Request := get "../v1/cluster/workerMemory".
End OverviewApiUtils.

Module CollectionActions.
(** The body is concatenated as it is; only the caller may have encoded it. *)
Definition collectionBody (queryText catalog schema : string) : string :=
  "queryText=" ++ queryText ++ "&" ++ "catalog=" ++ catalog ++ "&" ++ "schema=" ++ schema.

Definition addToCollection (queryText catalog schema : string) : Request :=
  {| method := "post"; url := "../v1/myCollection/collection"; contentType := formType;
     body := Some (collectionBody queryText catalog schema) |}.

Definition getCollection (queryText : string) : Request :=
  get ("../v1/myCollection/collection/query?" ++ queryText).

Definition deleteCollection (queryText catalog schema : string) : Request :=
  {| method := "DELETE"; url := "../v1/myCollection/collection/delete"; contentType := formType;
     body := Some (collectionBody queryText catalog schema) |}.
End CollectionActions.

Module AuditLogActions.
Definition auditBody (user beginTime endTime level type : string) : string :=
  "user=" ++ user ++ "&" ++ "beginTime=" ++ beginTime ++ "&" ++ "endTime=" ++ endTime ++ "&" ++
  "level=" ++ level ++ "&" ++ "type=" ++ type.

Definition getAuditLog (user beginTime endTime level type : string) : Request :=
  {| method := "post"; url := "../v1/audit/" ++ type; contentType := formType;
     body := Some (auditBody user beginTime endTime level type) |}.

Definition downloadAuditLog (user beginTime endTime level type : string) : Request :=
  {| method := "post"; url := "../v1/audit/download"; contentType := formType;
     body := Some (auditBody user beginTime endTime level type) |}.
End AuditLogActions.

(** What an action built on a form request reports to its caller:
    [{result, message}]. *)
Record ActionResult := { succeeded : bool; message : string }.

Module CatalogActions.
(** [error.message] of a rejection; a TypeError's text is the engine's. *)
Definition addCatalog {J} (typeErrorText : string) (sent : result J) : ActionResult :=
  match sent with
  | Ok _ => {| succeeded := true; message := "Success" |}
  | Throw (ErrorMsg m) => {| succeeded := false; message := m |}
  | Throw TypeError => {| succeeded := false; message := typeErrorText |}
  end.
End CatalogActions.
