(* ===== verification/HttpFacts.v ===== *)
(** * Properties of the request and response helpers *)

From S2P Require Import Prelude JsString Http.

(** ** Responses *)

Section Outcomes.
Context {J : Type} (emptyObject : J).
Implicit Types r : Response J.

(** When a request is reloaded away and when it resolves, by the number of the
    status.  The page is reloaded for a redirect, but also for an informational
    status, if the response has a url, and the request is then rejected all the
    same, because the next callback reads the status of undefined. *)
Lemma xhr_reloads r :
  let s := status_code r in
  let x := xhr emptyObject (Ok r) in
  (reloaded x = true <-> response_url r <> "" /\ (s < 200 \/ 300 <= s <= 308)) /\
  (reloaded x = true -> outcome x = Throw TypeError) /\
  (forall j, outcome x = Ok j -> 200 <= s < 300 /\ (s = 204 /\ j = emptyObject \/ s <> 204 /\ json_body r = Ok j)).
Proof.
  cbv zeta. set (s := status_code r).
  assert (Hrange : is_success s = true <-> 200 <= s < 300) by (unfold is_success; lia).
  unfold xhr, status. fold s. destruct (is_success s).
  { cbn. split; [|split; [done|]]; [split; [done|lia]|]. intros j. unfold json. fold s.
    destruct (Z.eqb_spec s 204) as [->|]; cbn; [intros [= <-]; split; [lia|by left]|].
    intros Hj. split; [by apply Hrange|by right]. }
  assert (Hne : ~ 200 <= s < 300) by (rw -Hrange; done).
  destruct (Z.leb_spec s 308) as [Hle|Hle]; [destruct (streq_spec (response_url r) "") as [Hu|Hu]|]; cbn.
  2: { split; [split; [intros _; split; [done|lia]|done]|]. done. }
  all: split; [split; [done|intros [? ?]; done || lia]|]; split; [done|].
  all: intros j; unfold rejectStatus; destruct (contentLength r) as [n|]; [destruct (0 <? n); [by destruct (text r)|done]|done].
Qed.
End Outcomes.

(** ** Forms *)

(** How a server reads an application/x-www-form-urlencoded body. *)

Fixpoint plusToSpace (s : string) : string :=
  match s with
  | EmptyString => EmptyString
  | String c s => String (if Ascii.eqb c "+" then " "%char else c) (plusToSpace s)
  end.

(** The bytes of a percent-encoded string. *)
Fixpoint unescape (s : string) : string :=
  match s with
  | EmptyString => EmptyString
  | String c r =>
      if Ascii.eqb c "%" then
        match r with
        | String a (String b r') =>
            match hex_val a, hex_val b with
            | Some x, Some y => String (ascii_of_N (Z.to_N (16 * x + y))) (unescape r')
            | _, _ => String c (unescape r)
            end
        | _ => String c (unescape r)
        end
      else String c (unescape r)
  end.

(** UTF-8, for the one- and two-byte sequences Latin-1 needs. *)
Fixpoint utf8 (s : string) : string :=
  match s with
  | EmptyString => EmptyString
  | String c r =>
      let n := Z.of_N (N_of_ascii c) in
      if n <? 128 then String c (utf8 r)
      else match r with
           | String d r' =>
               String (ascii_of_N (Z.to_N ((n - 192) * 64 + (Z.of_N (N_of_ascii d) - 128)))) (utf8 r')
           | EmptyString => EmptyString
           end
  end.

Definition decodeField (s : string) : string := utf8 (unescape (plusToSpace s)).

Definition parsePair (s : string) : string * string :=
  let '(key, rest) := span (fun c => negb (Ascii.eqb c "=")) s in
  (decodeField key, decodeField (drop_str 1 rest)).

Definition parseForm (s : string) : list (string * string) :=
  map parsePair (List.filter (fun f => negb (streq f "")) (split "&" s)).

(** The UTF-8 bytes of a code unit. *)
Definition bytes (c : ascii) : string :=
  let n := Z.of_N (N_of_ascii c) in
  if n <? 128 then String c ""
  else String (ascii_of_N (Z.to_N (192 + n / 64))) (String (ascii_of_N (Z.to_N (128 + n mod 64))) "").

Lemma unescape_unit c s : unescape (encodeUnit c ++ s) = bytes c ++ unescape s.
Proof. destruct c as [[] [] [] [] [] [] [] []]; reflexivity. Qed.

Lemma utf8_bytes c s : utf8 (bytes c ++ s) = String c (utf8 s).
Proof. destruct c as [[] [] [] [] [] [] [] []]; reflexivity. Qed.

Definition form_safe (c : ascii) : bool :=
  negb (Ascii.eqb c "&") && negb (Ascii.eqb c "=") && negb (Ascii.eqb c "+").

Lemma encodeUnit_safe c : all_chars form_safe (encodeUnit c) = true.
Proof. destruct c as [[] [] [] [] [] [] [] []]; reflexivity. Qed.

Lemma encode_safe s : all_chars form_safe (encodeURIComponent s) = true.
Proof. induction s; simpl; [done|]. by rw all_chars_app encodeUnit_safe. Qed.

Lemma plusToSpace_safe s : all_chars form_safe s = true -> plusToSpace s = s.
Proof.
  induction s as [|c s IH]; simpl; [done|]. intros [Hc Hs]%andb_prop. rw (IH Hs).
  unfold form_safe in Hc. by destruct (Ascii.eqb c "+"); rw ?andb_false_r in Hc.
Qed.

Fixpoint all_bytes (s : string) : string :=
  match s with EmptyString => "" | String c s => bytes c ++ all_bytes s end.

Lemma unescape_encode s : unescape (encodeURIComponent s) = all_bytes s.
Proof. induction s as [|c s IH]; simpl; [done|]. by rw unescape_unit IH. Qed.

Lemma utf8_all_bytes s : utf8 (all_bytes s) = s.
Proof. induction s as [|c s IH]; simpl; [done|]. by rw utf8_bytes IH. Qed.

Lemma decodeField_encode s : decodeField (encodeURIComponent s) = s.
Proof.
  unfold decodeField. by rw (plusToSpace_safe _ (encode_safe s)) unescape_encode utf8_all_bytes.
Qed.

Lemma safe_no_char c s : form_safe c = false -> all_chars form_safe s = true -> no_char c s = true.
Proof. apply all_chars_no_char. Qed.

Lemma parsePair_encoded k v :
  parsePair (encodeURIComponent k ++ "=" ++ encodeURIComponent v) = (k, v).
Proof.
  unfold parsePair. rw span_stop; [|done|].
  - eapply all_chars_impl; [|apply encode_safe]. intros c. unfold form_safe.
    by destruct (Ascii.eqb c "="); rw ?andb_false_r.
  - cbn [drop_str String.append]. by rw !decodeField_encode.
Qed.

(** The body of a form request, one "&key=value" per entry. *)
Lemma encodeForm_app data acc :
  fold_left (fun encoded '(key, value) =>
    encoded ++ "&" ++ encodeURIComponent key ++ "=" ++ encodeURIComponent value) data acc =
  acc ++ QueryApiUtils.encodeForm data.
Proof.
  unfold QueryApiUtils.encodeForm. revert acc.
  induction data as [|[k v] data IH]; intros acc; simpl; [by rw append_nil_r|].
  by rw IH (IH ("&" ++ _)) !append_assoc.
Qed.

Lemma encodeForm_cons k v data :
  QueryApiUtils.encodeForm ((k, v) :: data) =
  "&" ++ (encodeURIComponent k ++ "=" ++ encodeURIComponent v) ++ QueryApiUtils.encodeForm data.
Proof. unfold QueryApiUtils.encodeForm at 1. cbn [fold_left]. by rw encodeForm_app !append_assoc. Qed.

Lemma encodeForm_split data :
  split "&" (QueryApiUtils.encodeForm data) =
  "" :: map (fun '(k, v) => encodeURIComponent k ++ "=" ++ encodeURIComponent v) data.
Proof.
  induction data as [|[k v] data IH]; [done|]. rw encodeForm_cons. cbn [String.append split].
  rw Ascii.eqb_refl. f_equal.
  assert (Hp : no_char "&" (encodeURIComponent k ++ "=" ++ encodeURIComponent v) = true).
  { rw !no_char_app. by rw !(safe_no_char "&" _ eq_refl (encode_safe _)). }
  destruct data as [|[k' v'] data].
  - rw append_nil_r. by apply split_id.
  - rw encodeForm_cons in IH |- *. cbn [String.append split] in IH. rw Ascii.eqb_refl in IH.
    injection IH as IH. change ("&" ++ ?x) with (String "&" x).
    rw split_cons // IH. done.
Qed.

Lemma parse_encodeForm data :
  parseForm (QueryApiUtils.encodeForm data) = data.
Proof.
  unfold parseForm. rw encodeForm_split. cbn [List.filter streq String.eqb negb].
  induction data as [|[k v] data IH]; [done|]. cbn [map List.filter].
  assert (streq (encodeURIComponent k ++ "=" ++ encodeURIComponent v) "" = false) as ->.
  { by destruct (encodeURIComponent k). }
  cbn [negb map]. by rw parsePair_encoded IH.
Qed.

(** C33.  A saved query reaches the server as it was entered: the form body
    createQuery builds, read as a form, gives back the entries of the data in
    order, whatever characters of eight bits names, descriptions and SQL contain. *)
Theorem encodeForm_roundtrip data :
  parseForm (QueryApiUtils.encodeForm data) = data.
Proof. apply parse_encodeForm. Qed.

(** The body of the collection requests is read back as the three fields
    when the caller encoded them, but a raw text is not encoded by the action:
    a query containing '&' or '+' is cut or altered. *)
Theorem collectionBody_encoding :
  (forall q c s,
     parseForm (CollectionActions.collectionBody (encodeURIComponent q) (encodeURIComponent c)
                  (encodeURIComponent s))
     = [("queryText", q); ("catalog", c); ("schema", s)]) /\
  parseForm (CollectionActions.collectionBody "select 1+1" "hive" "web")
    = [("queryText", "select 1 1"); ("catalog", "hive"); ("schema", "web")] /\
  parseForm (CollectionActions.collectionBody "select a&b" "hive" "web")
    = [("queryText", "select a"); ("b", ""); ("catalog", "hive"); ("schema", "web")].
Proof.
  split; [|split; reflexivity]. intros q c s.
  pose proof (parse_encodeForm [("queryText", q); ("catalog", c); ("schema", s)]) as H.
  rw -H. unfold parseForm, QueryApiUtils.encodeForm, CollectionActions.collectionBody.
  cbn [fold_left]. rw !append_assoc. cbn [String.append]. done.
Qed.
