(* ===== verification/JsObject.v ===== *)
(** * JavaScript objects: a shared heap

    Objects and arrays live in a heap and are passed by reference, so that two
    holders of an object see each other's assignments.  A computation threads
    the heap and may throw; the heap written so far is kept. *)

From S2P Require Import Prelude JsString JsNumber.

Definition loc := positive.

Inductive val :=
  | VUndef
  | VNull
  | VBool (b : bool)
  | VNum (n : num)
  | VStr (s : string)
  | VRef (l : loc).

#[export] Instance val_eq_dec : EqDecision val.
Proof. solve_decision. Defined.

(** The own properties of an object; an absent property reads as undefined. *)
Notation props := (gmap string val).

Inductive cell :=
  | Obj (o : props)
  | Arr (l : list val).

#[export] Instance cell_eq_dec : EqDecision cell.
Proof. solve_decision. Defined.

Notation heap := (gmap loc cell).

Definition truthy (v : val) : bool :=
  match v with
  | VUndef | VNull => false
  | VBool b => b
  | VNum n => JsNumber.truthy n
  | VStr s => negb (streq s "")
  | VRef _ => true
  end.

(** ** The heap and error monad *)

Definition M (A : Type) : Type := heap -> heap * result A.

#[export] Instance M_ret : MRet M := fun A a h => (h, Ok a).
#[export] Instance M_bind : MBind M := fun A B f m h =>
  match m h with (h', Ok a) => f a h' | (h', Throw e) => (h', Throw e) end.

Definition throw {A} (e : exn) : M A := fun h => (h, Throw e).

(** The properties of the object a reference denotes; an array has no named
    property that the code reads through this. *)
Definition props_at (h : heap) (l : loc) : props :=
  match h !! l with Some (Obj o) => o | _ => ∅ end.

Definition items_at (h : heap) (l : loc) : list val :=
  match h !! l with Some (Arr vs) => vs | _ => [] end.

(** [v.k] *)
Definition prop_of (h : heap) (v : val) (k : string) : result val :=
  match v with
  | VUndef | VNull => Throw TypeError
  | VRef l => Ok (default VUndef (props_at h l !! k))
  | _ => Ok VUndef
  end.

(** Read the heap. *)
Definition gets {A} (f : heap -> A) : M A := fun h => (h, Ok (f h)).

(** A change of the heap that cannot throw. *)
Definition modify (f : heap -> heap) : M unit := fun h => (f h, Ok tt).

Definition get_prop (v : val) (k : string) : M val := fun h => (h, prop_of h v k).

(** [v.k = w]; on a primitive the assignment is lost. *)
Definition set_prop (v : val) (k : string) (w : val) : M unit := fun h =>
  match v with
  | VUndef | VNull => (h, Throw TypeError)
  | VRef l => (<[l := Obj (<[k := w]> (props_at h l))]> h, Ok tt)
  | _ => (h, Ok tt)
  end.

Definition new_loc (h : heap) : loc := fresh (dom h : gset loc).

Definition alloc (c : cell) : M loc := fun h =>
  let l := new_loc h in (<[l := c]> h, Ok l).

Definition read_array (l : loc) : M (list val) := gets (fun h => items_at h l).
Definition write_array (l : loc) (vs : list val) : M unit := modify (fun h => <[l := Arr vs]> h).

(** [array.push(v)] *)
Definition push (l : loc) (v : val) : M unit :=
  modify (fun h => <[l := Arr (items_at h l ++ [v])%list]> h).

Fixpoint for_each {A} (f : A -> M unit) (vs : list A) : M unit :=
  match vs with
  | [] => mret tt
  | v :: vs => _ ← f v; for_each f vs
  end.

Lemma bind_ok {A B} (m : M A) (f : A -> M B) h h' a :
  m h = (h', Ok a) -> (a ← m; f a) h = f a h'.
Proof. intros H. unfold mbind, M_bind. by rw H. Qed.

Lemma new_loc_fresh h : h !! new_loc h = None.
Proof. apply (not_elem_of_dom (D:=gset loc)). exact (is_fresh (dom h : gset loc)). Qed.

Lemma for_each_app {A} (f : A -> M unit) vs ws h h' :
  for_each f vs h = (h', Ok tt) ->
  for_each f (vs ++ ws)%list h = for_each f ws h'.
Proof.
  revert h. induction vs as [|v vs IH]; intros h; simpl.
  { intros [= ->]. done. }
  unfold mbind, M_bind. destruct (f v h) as [h1 [a|e]]; [|done]. apply IH.
Qed.

(** ** lodash

    The functions of the lodash package the console calls, as an interface.
    The laws state the documented behaviour on the arguments used here: match
    by one string property, a shallow assignment, a stable ascending sort. *)

Class Lodash := {
  isMatch : heap -> val -> string * val -> bool;
  find : heap -> list val -> string * val -> val;
  findIndex : heap -> list val -> string * val -> Z;
  reject : heap -> list val -> string * val -> list val;
  assign : props -> props -> props;
  sortBy : (val -> val) -> list val -> list val;
}.

Fixpoint index_where {A} (p : A -> bool) (l : list A) : Z :=
  match l with
  | [] => -1
  | x :: l => if p x then 0 else let i := index_where p l in if i <? 0 then -1 else i + 1
  end.

Class LodashLaws `{Lodash} : Prop := {
  isMatch_string h l k s :
    isMatch h (VRef l) (k, VStr s) = bool_decide (props_at h l !! k = Some (VStr s));
  find_first h vs src : find h vs src = default VUndef (List.find (fun v => isMatch h v src) vs);
  findIndex_first h vs src : findIndex h vs src = index_where (fun v => isMatch h v src) vs;
  reject_filter h vs src : reject h vs src = List.filter (fun v => negb (isMatch h v src)) vs;
  assign_union o changed : assign o changed = changed ∪ o;
  sortBy_permutes key vs : sortBy key vs ≡ₚ vs;
  sortBy_constant key vs w : (forall v, v ∈ vs -> key v = w) -> sortBy key vs = vs;
}.

(** Run [f] over a list, threading the heap: lodash's each with a callback that
    never returns false. *)
Definition each {A} (vs : list A) (f : A -> M unit) : M unit := for_each f vs.

(** What [Object.assign]-like calls read from a value: the own properties of an
    object, nothing from undefined, null and other primitives. *)
Definition own_props (h : heap) (v : val) : props :=
  match v with VRef l => props_at h l | _ => ∅ end.

Definition is_array (h : heap) (v : val) : bool :=
  match v with
  | VRef l => match h !! l with Some (Arr _) => true | _ => false end
  | _ => false
  end.

(** A heap cell is untouched by a change of other cells. *)
Lemma props_at_insert_ne h l l' c : l <> l' -> props_at (<[l := c]> h) l' = props_at h l'.
Proof. intros H. unfold props_at. by rw lookup_insert_ne. Qed.

Lemma items_at_insert_ne h l l' c : l <> l' -> items_at (<[l := c]> h) l' = items_at h l'.
Proof. intros H. unfold items_at. by rw lookup_insert_ne. Qed.

Lemma props_at_insert h l o : props_at (<[l := Obj o]> h) l = o.
Proof. unfold props_at. by rw lookup_insert_eq. Qed.

Lemma items_at_insert h l vs : items_at (<[l := Arr vs]> h) l = vs.
Proof. unfold items_at. by rw lookup_insert_eq. Qed.

Lemma props_at_some h l o : h !! l = Some (Obj o) -> props_at h l = o.
Proof. intros H. unfold props_at. by rw H. Qed.

Lemma items_at_some h l vs : h !! l = Some (Arr vs) -> items_at h l = vs.
Proof. intros H. unfold items_at. by rw H. Qed.
