(* ===== verification/FluxCollection.v ===== *)
(** * utils/FluxCollection.js: the collection every store keeps

    The collection object is a heap object whose [collection] property refers
    to an array of models; models are shared with whoever passed them in.  The
    comparator is a function and stays outside the heap. *)

From S2P Require Import Prelude JsString JsNumber JsObject.

(** A comparator is called with a model and an index. *)
Record FluxCollection := { self : loc; comparator : heap -> val -> val -> val }.

Module Flux.
Section Operations.
Context `{Lodash}.
Implicit Types this : FluxCollection.

(** The default comparator: the lodash shorthand for the property [uuid]. *)
Definition byUuid (h : heap) (model _index : val) : val :=
  match prop_of h model "uuid" with Ok v => v | Throw _ => VUndef end.

Definition constructor (comparator : heap -> val -> val -> val) : M FluxCollection :=
  items ← alloc (Arr []);
  this ← alloc (Obj {["collection" := VRef items]});
  mret {| self := this; comparator := comparator |}.

(** [this.collection] *)
Definition collection this : M loc :=
  v ← get_prop (VRef (self this)) "collection";
  match v with VRef l => mret l | _ => throw TypeError end.

Definition models this : M (list val) := a ← collection this; read_array a.

(** [this.collection = array], for a new array. *)
Definition setCollection this (vs : list val) : M unit :=
  a ← alloc (Arr vs); set_prop (VRef (self this)) "collection" (VRef a).

Definition size this : M Z := vs ← models this; mret (Z.of_nat (length vs)).

(** lodash 4 calls the iteratee of sortBy with the value alone. *)
Definition sorted (compare : heap -> val -> val -> val) (vs : list val) : M loc :=
  vs ← gets (fun h => sortBy (fun v => compare h v VUndef) vs); alloc (Arr vs).

(** The result is a reference: without a sort it is the live array itself. *)
Definition all this (sort : bool) (by_ : option (heap -> val -> val -> val)) : M loc :=
  n ← size this;
  if n =? 0 then alloc (Arr [])
  else if sort then vs ← models this; sorted (default (comparator this) by_) vs
  else collection this.

Definition get this (uuid : val) : M val :=
  vs ← models this; gets (fun h => find h vs ("uuid", uuid)).

(** lodash 4 has no [_.where]: the call throws. *)
Definition where_ this (contextIsEmpty : bool) : M loc :=
  n ← size this;
  if contextIsEmpty || (n =? 0) then alloc (Arr []) else throw TypeError.

Definition update this (uuid : val) (changedObject : val) : M unit :=
  found ← get this uuid;
  model ← (if truthy found then mret found else l ← alloc (Obj ∅); mret (VRef l));
  match model with
  | VRef l =>
      _ ← modify (fun h => <[l := Obj (assign (props_at h l) (own_props h changedObject))]> h);
      vs ← models this;
      kept ← gets (fun h => reject h vs ("uuid", uuid));
      _ ← setCollection this kept;
      a ← collection this;
      push a (VRef l)
  | _ => throw TypeError
  end.

(** The body of the loop in [add]. *)
Definition addOne this (update_ : bool) (model : val) : M unit :=
  uuid ← get_prop model "uuid";
  unique ← get this uuid;
  if bool_decide (unique = VUndef) then a ← collection this; push a model
  else if update_ then update this uuid model else mret tt.

(** [singular ? (models ? [models] : []) : _.clone(models)] *)
Definition asModels (models : val) : M (list val) :=
  gets (fun h =>
    match models with
    | VRef l => if is_array h models then items_at h l else [models]
    | _ => if truthy models then [models] else []
    end).

Definition add this (models : val) (update_ : bool) : M unit :=
  vs ← asModels models; each vs (addOne this update_).

(** [splice(index, 1)] in place. *)
Definition remove this (uuid : val) : M unit :=
  a ← collection this;
  vs ← read_array a;
  index ← gets (fun h => findIndex h vs ("uuid", uuid));
  if negb (index =? -1)
  then write_array a (take (Z.to_nat index) vs ++ drop (S (Z.to_nat index)) vs)%list
  else mret tt.

Definition clear this : M unit := setCollection this [].

Definition contains this (uuid : val) : M bool :=
  unique ← get this uuid; mret (bool_decide (unique <> VUndef)).

End Operations.
End Flux.
