(* ===== verification/FluxFacts.v ===== *)
(** * The collection against its specification

    A collection is a list of entries in insertion order: the reference of a
    model, its uuid and its properties.  [Repr] relates a heap to such a list;
    its invariant is that uuids are unique. *)

From S2P Require Import Prelude JsString JsNumber JsObject FluxCollection.

Record entry := { e_loc : loc; e_uuid : string; e_props : props }.

#[export] Instance entry_eq_dec : EqDecision entry.
Proof. solve_decision. Defined.

#[local] Arguments streq : simpl never.

Implicit Types (h : heap) (this : FluxCollection) (E : list entry) (u : string).

(** ** Specification *)

Definition uuids E : list string := e_uuid <$> E.
Definition others u E : list entry := List.filter (fun e => negb (streq (e_uuid e) u)) E.
Definition spec_get u E : option entry := List.find (fun e => streq (e_uuid e) u) E.

(** The updated model moves to the end; a missing one is created at [l]. *)
Definition spec_update u (changed : props) (l : loc) E : list entry :=
  let old := spec_get u E in
  (others u E ++
   [{| e_loc := default l (e_loc <$> old); e_uuid := u;
       e_props := changed ∪ default ∅ (e_props <$> old) |}])%list.

Definition spec_addOne (update_ : bool) E (m : entry) : list entry :=
  if spec_get (e_uuid m) E is Some _ then
    if update_ then spec_update (e_uuid m) (e_props m) (e_loc m) E else E
  else (E ++ [m])%list.

Definition spec_add (update_ : bool) (ms : list entry) E : list entry :=
  fold_left (spec_addOne update_) ms E.

(** ** Representation *)

Definition stored h (e : entry) : Prop :=
  h !! e_loc e = Some (Obj (e_props e)) /\ e_props e !! "uuid" = Some (VStr (e_uuid e)).

Definition refs E : list val := (fun e => VRef (e_loc e)) <$> E.

Definition Repr h this E : Prop :=
  exists o a,
    h !! self this = Some (Obj o) /\ o !! "collection" = Some (VRef a) /\
    h !! a = Some (Arr (refs E)) /\ Forall (stored h) E /\ NoDup (uuids E) /\
    self this ∉ (e_loc <$> E).

(** Objects that belong to neither the collection nor its models are kept. *)
Definition untouched h h' this E : Prop :=
  forall l o, h !! l = Some (Obj o) -> l <> self this -> l ∉ (e_loc <$> E) ->
    h' !! l = Some (Obj o).

Section Facts.
Context `{LodashLaws}.

Lemma isMatch_stored h e u :
  stored h e -> isMatch h (VRef (e_loc e)) ("uuid", VStr u) = streq (e_uuid e) u.
Proof.
  intros [Hl Hu]. rw isMatch_string (props_at_some _ _ _ Hl) Hu.
  destruct (streq_spec (e_uuid e) u) as [->|Hne]; [by rw bool_decide_eq_true_2|].
  rw bool_decide_eq_false_2; [|done]. congruence.
Qed.

Lemma find_refs h u E :
  Forall (stored h) E ->
  JsObject.find h (refs E) ("uuid", VStr u) =
    default VUndef ((fun e => VRef (e_loc e)) <$> spec_get u E).
Proof.
  intros HE. rw find_first. f_equal.
  induction HE as [|e E He HE IH]; [done|]. simpl. rw isMatch_stored //.
  by destruct (streq (e_uuid e) u).
Qed.

Lemma reject_refs h u E :
  Forall (stored h) E -> reject h (refs E) ("uuid", VStr u) = refs (others u E).
Proof.
  intros HE. rw reject_filter.
  induction HE as [|e E He HE IH]; [done|]. simpl. rw isMatch_stored //.
  destruct (streq (e_uuid e) u); simpl; [done|]. by f_equal.
Qed.

Lemma findIndex_refs h u E :
  Forall (stored h) E ->
  findIndex h (refs E) ("uuid", VStr u) = index_where (fun e => streq (e_uuid e) u) E.
Proof.
  intros HE. rw findIndex_first.
  induction HE as [|e E He HE IH]; [done|]. cbn. rw isMatch_stored //. unfold refs in IH. by rw IH.
Qed.

Lemma collection_repr h this E :
  Repr h this E ->
  exists a, Flux.collection this h = (h, Ok a) /\ h !! a = Some (Arr (refs E)) /\
            props_at h (self this) !! "collection" = Some (VRef a) /\ a <> self this /\
            a ∉ (e_loc <$> E).
Proof.
  intros (o & a & Ho & Ha & Hi & HE & _ & _). exists a.
  assert (Hp : props_at h (self this) !! "collection" = Some (VRef a)) by by rw (props_at_some _ _ _ Ho).
  split; [|split; [done|split; [done|split]]].
  - unfold Flux.collection, mbind, M_bind, get_prop, prop_of. by rw Hp.
  - intros ->. congruence.
  - intros (e & -> & He)%list_elem_of_fmap. rw Forall_forall in HE.
    destruct (HE e He) as [He' _]. congruence.
Qed.

Lemma models_repr h this E : Repr h this E -> Flux.models this h = (h, Ok (refs E)).
Proof.
  intros (a & Hc & Hi & _)%collection_repr. unfold Flux.models. erewrite bind_ok; [|exact Hc].
  unfold read_array, gets. by rw (items_at_some _ _ _ Hi).
Qed.

Lemma get_repr h this E u :
  Repr h this E ->
  Flux.get this (VStr u) h =
    (h, Ok (default VUndef ((fun e => VRef (e_loc e)) <$> spec_get u E))).
Proof.
  intros HR. unfold Flux.get. erewrite bind_ok; [|by apply models_repr].
  unfold gets. rw find_refs //. by destruct HR as (? & ? & ? & ? & ? & ? & ?).
Qed.

Lemma stored_insert_ne h l c e : e_loc e <> l -> stored h e -> stored (<[l := c]> h) e.
Proof. intros Hne [Hl Hu]. split; [|done]. by rw lookup_insert_ne. Qed.

Lemma stored_fresh h l c E : h !! l = None -> Forall (stored h) E -> Forall (stored (<[l := c]> h)) E.
Proof.
  intros Hl HE. eapply Forall_impl; [exact HE|]. intros e He. apply stored_insert_ne; [|done].
  intros Heq. rw -Heq in Hl. destruct He as [He _]. congruence.
Qed.

Lemma stored_avoids h l c E :
  l ∉ (e_loc <$> E) -> Forall (stored h) E -> Forall (stored (<[l := c]> h)) E.
Proof.
  intros Hl HE. rw Forall_forall in HE. rw Forall_forall. intros e He.
  apply stored_insert_ne; [|by apply HE]. intros <-. apply Hl. by apply list_elem_of_fmap_2.
Qed.

(** A new object does not disturb a collection. *)
Lemma repr_alloc h this E l c : Repr h this E -> h !! l = None -> Repr (<[l := c]> h) this E.
Proof.
  intros (o & a & Ho & Ha & Hi & HE & Hrest) Hl. exists o, a.
  rw lookup_insert_ne; [congruence|]. rw lookup_insert_ne; [congruence|].
  split; [done|split; [done|split; [done|split; [|done]]]]. by apply stored_fresh.
Qed.

(** [this.collection = [...]] *)
Lemma setCollection_repr h this o E :
  h !! self this = Some (Obj o) -> Forall (stored h) E -> NoDup (uuids E) ->
  self this ∉ (e_loc <$> E) ->
  exists h', Flux.setCollection this (refs E) h = (h', Ok tt) /\ Repr h' this E /\
    forall l c, h !! l = Some c -> l <> self this -> h' !! l = Some c.
Proof.
  intros Ho HE Hnd Hself. pose proof (new_loc_fresh h) as Hf. set (a := new_loc h) in *.
  assert (a <> self this) by congruence.
  eexists. split; [reflexivity|]. fold a.
  rw (props_at_some _ _ o); [by rw lookup_insert_ne|]. split.
  - exists (<["collection" := VRef a]> o), a. rw !lookup_insert_eq. split; [done|split; [done|]].
    split; [by rw lookup_insert_ne // lookup_insert_eq|]. split; [|done].
    apply stored_avoids; [done|]. by apply stored_fresh.
  - intros l c Hl Hne. rw lookup_insert_ne //. rw lookup_insert_ne //. congruence.
Qed.

(** [this.collection.push(model)] *)
Lemma push_repr h this E m :
  Repr h this E -> stored h m -> e_uuid m ∉ uuids E -> e_loc m <> self this ->
  exists h', (a ← Flux.collection this; push a (VRef (e_loc m))) h = (h', Ok tt) /\
    Repr h' this (E ++ [m])%list /\ forall l o, h !! l = Some (Obj o) -> h' !! l = Some (Obj o).
Proof.
  intros HR Hm Hu Hs. destruct (collection_repr h this E HR) as (a & Hc & Hi & Hp & Ha & Hna).
  destruct HR as (o & a' & Ho & Ha' & _ & HE & Hnd & Hself).
  rw (props_at_some _ _ _ Ho) in Hp. assert (a' = a) as -> by congruence.
  eexists. erewrite bind_ok; [|exact Hc]. split; [reflexivity|]. rw (items_at_some _ _ _ Hi).
  assert (Hae : forall e, stored h e -> e_loc e <> a) by (intros e [He _] Heq; rw Heq in He; congruence).
  split.
  - exists o, a. rw lookup_insert_ne // lookup_insert_eq. split; [done|split; [done|split]].
    { unfold refs. by rw fmap_app. }
    split; [|split].
    + apply Forall_app. split; [by apply stored_avoids|]. constructor; [|done].
      by apply stored_insert_ne; [apply Hae|].
    + unfold uuids. rw fmap_app. apply NoDup_app. split; [done|split; [|apply NoDup_singleton]].
      intros x Hx Hx'. apply list_elem_of_singleton in Hx'. subst x. done.
    + rw fmap_app not_elem_of_app. split; [done|]. cbn. by rw list_elem_of_singleton.
  - intros l o' Hl. rw lookup_insert_ne //. congruence.
Qed.

Lemma spec_get_some u E e : spec_get u E = Some e -> e ∈ E /\ e_uuid e = u.
Proof.
  intros Hf. destruct (List.find_some _ _ Hf) as [Hin Hs].
  split; [by apply list_elem_of_In|]. by destruct (streq_spec (e_uuid e) u).
Qed.

Lemma spec_get_none u E : spec_get u E = None -> u ∉ uuids E.
Proof.
  intros Hn (e & -> & He)%list_elem_of_fmap.
  pose proof (List.find_none _ _ Hn e (proj1 (list_elem_of_In _ _) He)) as Hs. cbn in Hs.
  by destruct (streq_spec (e_uuid e) (e_uuid e)).
Qed.

Lemma others_elem u E e : e ∈ others u E <-> e ∈ E /\ e_uuid e <> u.
Proof.
  unfold others. rw list_elem_of_In List.filter_In -list_elem_of_In.
  destruct (streq_spec (e_uuid e) u); cbn; intuition congruence.
Qed.

Lemma others_absent u E : u ∉ uuids E -> others u E = E.
Proof.
  intros Hu. unfold others. apply forallb_filter_id. apply forallb_forall.
  intros e He%list_elem_of_In. destruct (streq_spec (e_uuid e) u) as [<-|]; [|done].
  exfalso. apply Hu. by apply list_elem_of_fmap_2.
Qed.

Lemma others_uuids u E : NoDup (uuids E) -> NoDup (uuids (others u E)) /\ u ∉ uuids (others u E).
Proof.
  intros Hnd. split.
  - apply NoDup_ListNoDup in Hnd. apply NoDup_ListNoDup. revert Hnd.
    unfold uuids, others. induction E as [|e E IH]; [done|]. cbn. intros Hnd.
    inversion Hnd as [|? ? Hn Hnd']; subst. destruct (streq (e_uuid e) u); cbn; [by apply IH|].
    constructor; [|by apply IH]. intros Hin. apply Hn. rw in_map_iff in Hin. rw in_map_iff.
    destruct Hin as (e' & He & Hin). exists e'. split; [done|]. apply List.filter_In in Hin as [Hin _]. done.
  - intros (e & -> & He)%list_elem_of_fmap. by apply others_elem in He as [_ ?].
Qed.

Lemma others_stored h u E : Forall (stored h) E -> Forall (stored h) (others u E).
Proof.
  intros HE. rw Forall_forall in HE. rw Forall_forall. intros e [He _]%others_elem. by apply HE.
Qed.

Lemma others_locs u E l : l ∉ (e_loc <$> E) -> l ∉ (e_loc <$> others u E).
Proof.
  intros Hl (e & -> & He)%list_elem_of_fmap. apply others_elem in He as [He _].
  apply Hl. by apply list_elem_of_fmap_2.
Qed.

(** Entries of a collection are different objects. *)
Lemma repr_distinct h E e e' :
  Forall (stored h) E -> e ∈ E -> e' ∈ E -> e_loc e = e_loc e' -> e_uuid e = e_uuid e'.
Proof.
  intros HE He He' Hl. rw Forall_forall in HE.
  destruct (HE e He) as [H1 H2], (HE e' He') as [H3 H4]. rw Hl in H1. congruence.
Qed.

(** Replace the properties of the model [u], as an assignment to the shared
    object does. *)
Definition touch u (p : props) E : list entry :=
  (fun e => if streq (e_uuid e) u then {| e_loc := e_loc e; e_uuid := e_uuid e; e_props := p |} else e)
    <$> E.

Lemma touch_refs u p E :
  refs (touch u p E) = refs E /\ uuids (touch u p E) = uuids E /\
  (e_loc <$> touch u p E) = (e_loc <$> E) /\ others u (touch u p E) = others u E.
Proof.
  unfold touch, refs, uuids, others. induction E as [|e E (IH1 & IH2 & IH3 & IH4)]; [done|]. cbn.
  split; [|split; [|split]].
  - f_equal; [by destruct (streq (e_uuid e) u)|exact IH1].
  - f_equal; [by destruct (streq (e_uuid e) u)|exact IH2].
  - f_equal; [by destruct (streq (e_uuid e) u)|exact IH3].
  - destruct (streq (e_uuid e) u) eqn:He; cbn; rw ?He; cbn; [exact IH4|f_equal; exact IH4].
Qed.

Lemma assign_repr h this E u e p :
  Repr h this E -> spec_get u E = Some e -> p !! "uuid" = Some (VStr u) ->
  Repr (<[e_loc e := Obj p]> h) this (touch u p E).
Proof.
  intros HR Hg Hp. destruct (collection_repr h this E HR) as (a & _ & Hi & Hpr & _ & Hna).
  destruct HR as (o & a' & Ho & Ha' & _ & HE & Hnd & Hself).
  rw (props_at_some _ _ _ Ho) in Hpr. assert (a' = a) as -> by congruence.
  destruct (spec_get_some _ _ _ Hg) as [Hin Hu].
  pose proof (list_elem_of_fmap_2 e_loc _ _ Hin) as Hl.
  destruct (touch_refs u p E) as (E1 & E2 & E3 & _).
  exists o, a. rw E1 E2 E3. rw lookup_insert_ne; [by intros Heq; rw Heq in Hl|].
  rw lookup_insert_ne; [by intros Heq; rw Heq in Hl|].
  split; [done|split; [done|split; [done|split; [|done]]]].
  unfold touch. rw Forall_fmap. rw Forall_forall. rw Forall_forall in HE. intros x Hx. cbn.
  destruct (streq_spec (e_uuid x) u) as [Hxu|Hxu].
  - assert (e_loc x = e_loc e) as Hxl.
    { f_equal. apply list_elem_of_lookup in Hx as [i Hx]. apply list_elem_of_lookup in Hin as [j Hin].
      assert (i = j) as ->; [|congruence]. eapply NoDup_lookup; [exact Hnd| |].
      - unfold uuids. rw list_lookup_fmap Hx. cbn. by rw Hxu.
      - unfold uuids. rw list_lookup_fmap Hin. cbn. by rw Hu. }
    split; cbn; [by rw Hxl lookup_insert_eq|by rw Hxu].
  - apply stored_insert_ne; [|by apply HE]. intros Heq. apply Hxu. rw -Hu.
    apply (repr_distinct h E); [by apply Forall_forall|done|done|done].
Qed.

(** The tail of [update]: drop the old reference, append the model. *)
Lemma replace_repr h this E u m :
  Repr h this E -> stored h m -> e_uuid m = u -> e_loc m <> self this ->
  exists h',
    (vs ← Flux.models this;
     kept ← gets (fun h => reject h vs ("uuid", VStr u));
     _ ← Flux.setCollection this kept;
     a ← Flux.collection this;
     push a (VRef (e_loc m))) h = (h', Ok tt) /\
    Repr h' this (others u E ++ [m])%list /\
    forall l o, h !! l = Some (Obj o) -> l <> self this -> h' !! l = Some (Obj o).
Proof.
  intros HR Hm Hu Hs. pose proof HR as (o & a & Ho & _ & _ & HE & Hnd & Hself).
  erewrite bind_ok; [|by apply models_repr]. erewrite bind_ok; [|reflexivity]. rw reject_refs //.
  destruct (others_uuids u E Hnd) as [Hnd' Hu'].
  destruct (setCollection_repr h this o (others u E)) as (h1 & E1 & HR1 & Hk1); [done| | | |].
  { by apply others_stored. }
  { done. }
  { by apply others_locs. }
  erewrite bind_ok; [|exact E1].
  destruct (push_repr h1 this (others u E) m HR1) as (h2 & E2 & HR2 & Hk2); [|by rw Hu|done|].
  { destruct Hm as [Hm1 Hm2]. split; [by apply Hk1|done]. }
  exists h2. split; [exact E2|split; [done|]]. intros l o' Hl Hne. apply Hk2. by apply Hk1.
Qed.

Lemma update_repr h this E u changed :
  Repr h this E ->
  own_props h changed !! "uuid" = Some (VStr u) \/
    (own_props h changed !! "uuid" = None /\ is_Some (spec_get u E)) ->
  exists h' l,
    Flux.update this (VStr u) changed h = (h', Ok tt) /\
    Repr h' this (spec_update u (own_props h changed) l E) /\
    untouched h h' this E /\ (spec_get u E = None -> h !! l = None).
Proof.
  intros HR Hc. set (c := own_props h changed) in *.
  pose proof HR as (o & a & Ho & _ & _ & HE & Hnd & Hself).
  unfold Flux.update. erewrite bind_ok; [|by apply get_repr].
  destruct (spec_get u E) as [e|] eqn:Hg; cbn [option_fmap option_map default truthy].
  - destruct (spec_get_some _ _ _ Hg) as [Hin Hu].
    assert (stored h e) as [He1 He2] by (rw Forall_forall in HE; by apply HE).
    assert (Hp : (c ∪ e_props e) !! "uuid" = Some (VStr u)).
    { rw lookup_union He2 Hu. destruct Hc as [->|[-> _]]; by rw ?left_id. }
    assert (Hls : e_loc e <> self this).
    { intros Heq. apply Hself. rw -Heq. by apply list_elem_of_fmap_2. }
    pose proof (assign_repr h this E u e _ HR Hg Hp) as HR1.
    destruct (touch_refs u (c ∪ e_props e) E) as (_ & _ & _ & Ho4).
    edestruct (replace_repr (<[e_loc e := Obj (c ∪ e_props e)]> h) this _ u
      {| e_loc := e_loc e; e_uuid := u; e_props := c ∪ e_props e |} HR1) as (h' & E' & HR' & Hk);
      [|done|done|].
    { split; cbn; [by rw lookup_insert_eq|done]. }
    exists h', (e_loc e). split; [|split; [|split]].
    + erewrite bind_ok; [|reflexivity].
      change (default VUndef ((fun e0 => VRef (e_loc e0)) <$> Some e)) with (VRef (e_loc e)).
      cbv beta iota. erewrite bind_ok; [|reflexivity].
      rw assign_union (props_at_some _ _ _ He1). exact E'.
    + unfold spec_update. rw Hg. cbn. by rw -Ho4.
    + intros l o' Hl Hne Hnin. apply Hk; [|done]. rw lookup_insert_ne //.
      intros <-. apply Hnin. by apply list_elem_of_fmap_2.
    + done.
  - destruct Hc as [Hc|[_ [? ?]]]; [|done].
    pose proof (new_loc_fresh h) as Hf. set (l := new_loc h) in *.
    assert (Hls : l <> self this) by congruence.
    set (h1 := <[l := Obj (c ∪ ∅)]> (<[l := Obj ∅]> h)).
    assert (HR1 : Repr h1 this E).
    { destruct HR as (o' & a' & Ho' & Ha' & Hi' & _). exists o', a'. unfold h1.
      rw !(lookup_insert_ne _ l (self this)) //. rw !(lookup_insert_ne _ l a'); [congruence|congruence|].
      split; [done|split; [done|split; [done|split; [|done]]]].
      rw insert_insert_eq. by apply stored_fresh. }
    destruct (replace_repr h1 this E u {| e_loc := l; e_uuid := u; e_props := c ∪ ∅ |} HR1)
      as (h' & E' & HR' & Hk); [|done|done|].
    { split; cbn; [by unfold h1; rw lookup_insert_eq|by rw right_id]. }
    exists h', l. split; [|split; [|split]].
    + erewrite bind_ok; [|reflexivity]. fold l. cbv beta iota. erewrite bind_ok; [|reflexivity].
      rw props_at_insert assign_union.
      assert (own_props (<[l := Obj ∅]> h) changed = c) as ->; [|exact E'].
      unfold c, own_props. destruct changed as [| | | | |lc]; try done. apply props_at_insert_ne.
      intros ->. unfold c, own_props in Hc. unfold props_at in Hc. by rw Hf in Hc.
    + unfold spec_update. by rw Hg.
    + intros l' o' Hl Hne _. apply Hk; [|done]. unfold h1. rw !lookup_insert_ne //; congruence.
    + done.
Qed.

Lemma asModels_array h l E : h !! l = Some (Arr (refs E)) -> Flux.asModels (VRef l) h = (h, Ok (refs E)).
Proof. intros Hl. unfold Flux.asModels, gets, is_array. by rw Hl (items_at_some _ _ _ Hl). Qed.

Lemma addOne_repr h this E m upd :
  Repr h this E -> stored h m -> e_loc m <> self this ->
  exists h', Flux.addOne this upd (VRef (e_loc m)) h = (h', Ok tt) /\
    Repr h' this (spec_addOne upd E m) /\ untouched h h' this E.
Proof.
  intros HR [Hm1 Hm2] Hs. unfold Flux.addOne.
  erewrite bind_ok; [|unfold get_prop, prop_of; by rw (props_at_some _ _ _ Hm1) Hm2].
  cbn [default from_option id]. erewrite bind_ok; [|by apply get_repr].
  unfold spec_addOne. destruct (spec_get (e_uuid m) E) as [e|] eqn:Hg.
  - change (default VUndef ((fun e0 => VRef (e_loc e0)) <$> Some e)) with (VRef (e_loc e)).
    rw bool_decide_eq_false_2 //. destruct upd; [|exists h; split; [done|split; [done|by intros ?]]].
    destruct (update_repr h this E (e_uuid m) (VRef (e_loc m)) HR) as (h' & l & E' & HR' & Hk & _).
    { left. cbn. by rw (props_at_some _ _ _ Hm1). }
    exists h'. split; [done|split; [|done]]. cbn [own_props] in HR'.
    rw (props_at_some _ _ _ Hm1) in HR'. unfold spec_update in HR' |- *. by rw Hg in HR' |- *.
  - change (default VUndef ((fun e0 => VRef (e_loc e0)) <$> None)) with VUndef.
    rw bool_decide_eq_true_2 //.
    destruct (push_repr h this E m HR ltac:(done) (spec_get_none _ _ Hg) Hs) as (h' & E' & HR' & Hk).
    exists h'. split; [exact E'|split; [done|]]. intros l o Hl _ _. by apply Hk.
Qed.

Lemma spec_addOne_locs upd E m l :
  l ∈ (e_loc <$> spec_addOne upd E m) -> l ∈ (e_loc <$> E) \/ l = e_loc m.
Proof.
  unfold spec_addOne. destruct (spec_get (e_uuid m) E) as [e|] eqn:Hg; [destruct upd|].
  - unfold spec_update. rw Hg fmap_app elem_of_app. cbn. rw list_elem_of_singleton.
    destruct (spec_get_some _ _ _ Hg) as [Hin _].
    intros [(x & -> & Hx)%list_elem_of_fmap| ->]; left; apply list_elem_of_fmap_2; [|done].
    by apply others_elem in Hx as [? _].
  - by left.
  - rw fmap_app elem_of_app. cbn. by rw list_elem_of_singleton.
Qed.

Lemma repr_locs h this E : Repr h this E -> NoDup (e_loc <$> E).
Proof.
  intros (o & a & _ & _ & _ & HE & Hnd & _). apply NoDup_alt. intros i j l Hi Hj.
  rw list_lookup_fmap in Hi. rw list_lookup_fmap in Hj.
  destruct (E !! i) as [x|] eqn:Hx; [|done]. destruct (E !! j) as [y|] eqn:Hy; [|done].
  cbn in Hi, Hj. eapply NoDup_lookup; [exact Hnd| |]; unfold uuids; rw list_lookup_fmap.
  - rw Hx. reflexivity.
  - rw Hy. cbn. f_equal. symmetry. apply (repr_distinct h E); [done| | |congruence].
    + by apply list_elem_of_lookup_2 in Hx.
    + by apply list_elem_of_lookup_2 in Hy.
Qed.

Lemma add_repr ms upd h this E :
  Repr h this E -> Forall (stored h) ms -> NoDup (e_loc <$> E ++ ms)%list ->
  self this ∉ (e_loc <$> ms) ->
  exists h', each (refs ms) (Flux.addOne this upd) h = (h', Ok tt) /\
    Repr h' this (spec_add upd ms E).
Proof.
  revert h E. induction ms as [|m ms IH]; intros h E HR Hms Hnd Hs; [by exists h|].
  inversion Hms as [|? ? Hm Hms']; subst.
  cbn in Hs. rw not_elem_of_cons in Hs. destruct Hs as [Hs1 Hs2].
  destruct (addOne_repr h this E m upd HR Hm ltac:(done)) as (h1 & E1 & HR1 & Hk).
  rw fmap_app in Hnd. apply NoDup_app in Hnd as (HndE & Hdis & Hnd2). cbn in Hnd2.
  apply NoDup_cons in Hnd2 as [Hm2 Hnd2].
  destruct (IH h1 (spec_addOne upd E m)) as (h2 & E2 & HR2); [done| | |done|].
  - rw Forall_forall in Hms'. rw Forall_forall. intros x Hx.
    pose proof (list_elem_of_fmap_2 e_loc _ _ Hx) as Hxl.
    destruct (Hms' x Hx) as [Hx1 Hx2]. split; [|done]. apply Hk; [done| |].
    + intros Heq. by rw Heq in Hxl.
    + intros Hin. apply (Hdis _ Hin). cbn. by right.
  - rw fmap_app. apply NoDup_app. split; [|split; [|done]].
    + by apply (repr_locs h1 this).
    + intros l Hl Hl'. apply spec_addOne_locs in Hl as [Hl|Hl].
      * apply (Hdis l Hl). cbn. by right.
      * by rw Hl in Hl'.
  - exists h2. split; [|done]. unfold each in *. cbn. by erewrite bind_ok.
Qed.

Lemma index_where_none {A} (p : A -> bool) l : List.find p l = None -> index_where p l = -1.
Proof.
  induction l as [|x l IH]; [done|]. cbn. destruct (p x); [done|]. intros Hn. by rw IH.
Qed.

Lemma index_where_some {A} (p : A -> bool) l x :
  List.find p l = Some x ->
  exists l1 l2, l = (l1 ++ x :: l2)%list /\ forallb (fun y => negb (p y)) l1 = true /\ p x = true /\
    index_where p l = Z.of_nat (length l1).
Proof.
  induction l as [|y l IH]; [done|]. cbn. destruct (p y) eqn:Hp.
  - intros [= <-]. by exists [], l.
  - intros Hf. destruct (IH Hf) as (l1 & l2 & -> & Hl1 & Hx & Hi). exists (y :: l1), l2. rw Hi. cbn.
    rw Hp. split; [done|split; [done|split; [done|]]].
    replace (Z.of_nat (length l1) <? 0) with false by lia. lia.
Qed.

Lemma remove_repr h this E u :
  Repr h this E ->
  exists h', Flux.remove this (VStr u) h = (h', Ok tt) /\ Repr h' this (others u E).
Proof.
  intros HR. destruct (collection_repr h this E HR) as (a & Hc & Hi & Hp & Ha & Hna).
  pose proof HR as (o & a' & Ho & Ha' & _ & HE & Hnd & Hself).
  rw (props_at_some _ _ _ Ho) in Hp. assert (a' = a) as -> by congruence.
  unfold Flux.remove. erewrite bind_ok; [|exact Hc]. erewrite bind_ok; [|reflexivity].
  erewrite bind_ok; [|reflexivity]. rw (items_at_some _ _ _ Hi) findIndex_refs //.
  destruct (spec_get u E) as [e|] eqn:Hg.
  - destruct (index_where_some _ _ _ Hg) as (E1 & E2 & HEq & HE1 & Hx & ->).
    assert ((Z.of_nat (length E1) =? -1) = false) as -> by (apply Z.eqb_neq; lia). cbn [negb].
    rw Nat2Z.id.
    assert (others u E = E1 ++ E2)%list as Hoth.
    { subst E. unfold others. rw List.filter_app (forallb_filter_id _ _ HE1). cbn. rw Hx. cbn. f_equal.
      apply forallb_filter_id. apply forallb_forall. intros y Hy%list_elem_of_In.
      destruct (streq_spec (e_uuid y) u) as [Hyu|]; [|done]. exfalso.
      unfold uuids in Hnd. rw fmap_app in Hnd. apply NoDup_app in Hnd as (_ & _ & Hnd). cbn in Hnd.
      apply NoDup_cons in Hnd as [Hnin _]. apply Hnin.
      destruct (streq_spec (e_uuid e) u) as [->|]; [|done]. rw -Hyu. by apply list_elem_of_fmap_2. }
    eexists. split; [reflexivity|]. exists o, a. rw lookup_insert_ne //. rw lookup_insert_eq.
    split; [done|split; [done|split; [|split; [|split]]]].
    + rw Hoth HEq. unfold refs. rw !fmap_app fmap_cons take_app_length'; [by rw length_fmap|].
      rw (drop_app_ge); [rw length_fmap; lia|]. rw length_fmap.
      by replace (S (length E1) - length E1)%nat with 1%nat by lia.
    + apply stored_avoids; [by apply others_locs|by apply others_stored].
    + apply (others_uuids u E Hnd).
    + by apply others_locs.
  - rw index_where_none //. exists h. rw (others_absent u E); [by apply spec_get_none|]. done.
Qed.

Lemma clear_repr h this E :
  Repr h this E -> exists h', Flux.clear this h = (h', Ok tt) /\ Repr h' this [].
Proof.
  intros (o & a & Ho & _ & _ & _ & _ & _).
  destruct (setCollection_repr h this o []) as (h' & E' & HR & _).
  - exact Ho.
  - constructor.
  - constructor.
  - cbn. by intros ?%elem_of_nil.
  - by exists h'.
Qed.

Lemma contains_repr h this E u :
  Repr h this E -> Flux.contains this (VStr u) h = (h, Ok (bool_decide (u ∈ uuids E))).
Proof.
  intros HR. unfold Flux.contains. erewrite bind_ok; [|by apply get_repr].
  unfold mret, M_ret. repeat f_equal. destruct (spec_get u E) as [e|] eqn:Hg.
  - destruct (spec_get_some _ _ _ Hg) as [Hin <-]. rw !bool_decide_eq_true_2 //.
    by apply list_elem_of_fmap_2.
  - rw !bool_decide_eq_false_2 //; [by intros []|]. by apply spec_get_none.
Qed.

Lemma size_repr h this E : Repr h this E -> Flux.size this h = (h, Ok (Z.of_nat (length E))).
Proof.
  intros HR. unfold Flux.size. erewrite bind_ok; [|by apply models_repr].
  unfold refs. by rw length_fmap.
Qed.

Lemma constructor_repr h cmp :
  exists h' this, Flux.constructor cmp h = (h', Ok this) /\ Repr h' this [].
Proof.
  unfold Flux.constructor. erewrite bind_ok; [|reflexivity]. erewrite bind_ok; [|reflexivity].
  eexists _, _. split; [reflexivity|]. set (a := new_loc h). set (h1 := <[a := Arr []]> h).
  pose proof (new_loc_fresh h1) as Hf. eexists _, a. cbn. rw lookup_insert_eq.
  split; [done|]. rw lookup_insert_eq. split; [done|split; [|split; [constructor|split; [constructor|]]]].
  - rw lookup_insert_ne; [|by unfold h1; rw lookup_insert_eq]. intros Heq. rw Heq in Hf.
    unfold h1 in Hf. by rw lookup_insert_eq in Hf.
  - by intros ?%elem_of_nil.
Qed.
End Facts.

(** Without an update the first model of a uuid wins. *)
Lemma spec_get_app u E E' :
  spec_get u (E ++ E')%list = match spec_get u E with Some e => Some e | None => spec_get u E' end.
Proof. induction E as [|e E IH]; [done|]. cbn. by destruct (streq (e_uuid e) u). Qed.

Lemma spec_add_first u ms E : spec_get u (spec_add false ms E) = spec_get u (E ++ ms)%list.
Proof.
  revert E. induction ms as [|m ms IH]; intros E; [by rw app_nil_r|]. unfold spec_add in *. cbn [fold_left].
  rw IH !spec_get_app. unfold spec_addOne. destruct (spec_get (e_uuid m) E) as [e|] eqn:Hg.
  - cbn. destruct (spec_get u E) eqn:HE; [done|]. destruct (streq_spec (e_uuid m) u) as [Heq|]; [|done].
    rw Heq in Hg. congruence.
  - rw spec_get_app. destruct (spec_get u E); [done|]. cbn. by destruct (streq (e_uuid m) u).
Qed.

(** ** A lodash for concrete runs *)

Module LodashRef.
Definition val_lt (x y : val) : bool :=
  match x, y with
  | VNum m, VNum n => JsNumber.lt m n
  | VStr s, VStr t => String.ltb s t
  | _, _ => false
  end.

Fixpoint insertBy (key : val -> val) (v : val) (vs : list val) : list val :=
  match vs with
  | [] => [v]
  | w :: vs => if val_lt (key v) (key w) then v :: w :: vs else w :: insertBy key v vs
  end.

Definition matches (h : heap) (v : val) (src : string * val) : bool :=
  match v with
  | VRef l => bool_decide (props_at h l !! src.1 = Some src.2)
  | _ => false
  end.

#[export] Instance lodash : Lodash := {
  isMatch := matches;
  find h vs src := default VUndef (List.find (fun v => matches h v src) vs);
  findIndex h vs src := index_where (fun v => matches h v src) vs;
  reject h vs src := List.filter (fun v => negb (matches h v src)) vs;
  assign o changed := changed ∪ o;
  sortBy key vs := fold_left (fun acc v => insertBy key v acc) vs [];
}.

Lemma insertBy_perm key v vs : insertBy key v vs ≡ₚ v :: vs.
Proof.
  induction vs as [|w vs IH]; [done|]. cbn. destruct (val_lt (key v) (key w)); [done|].
  rw IH. apply Permutation_swap.
Qed.

Lemma val_lt_irrefl v : val_lt v v = false.
Proof.
  destruct v as [| | |n|s|]; try done; cbn.
  - destruct n; try done. rw lt_fin. lia.
  - unfold String.ltb. pose proof (String.compare_antisym s s) as Hc. by destruct (String.compare s s).
Qed.

#[export] Instance lodash_laws : LodashLaws.
Proof.
  split; try done.
  - intros key vs. cbn. rw -{2}(app_nil_r vs). generalize (@nil val) as acc.
    induction vs as [|v vs IH]; intros acc; [done|]. cbn. rw IH insertBy_perm.
    by rw Permutation_middle.
  - intros key vs w Hkey. cbn. rw -{2}(app_nil_l vs).
    assert (Hacc : forall v, v ∈ @nil val -> key v = w) by by intros ? ?%elem_of_nil.
    revert Hacc. generalize (@nil val) as acc. induction vs as [|v vs IH]; intros acc Hacc.
    { by rw app_nil_r. }
    cbn. assert (insertBy key v acc = acc ++ [v])%list as ->.
    { clear IH. assert (Hv : key v = w) by (apply Hkey; by left).
      induction acc as [|x acc IHa]; [done|]. cbn. rw Hv (Hacc x) ?val_lt_irrefl; [by left|].
      f_equal. apply IHa. intros y Hy. apply Hacc. by right. }
    rw IH; [by intros x Hx; apply Hkey; right| |by rw -app_assoc].
    intros x [Hx|Hx%list_elem_of_singleton]%elem_of_app; [by apply Hacc|]. subst x. apply Hkey. by left.
Qed.
End LodashRef.

(** ** Properties *)

(** C1.  Adding an array of models refines the specification: each model is
    appended unless its uuid is present, in which case it is ignored, or merged
    into the present object when an update is asked for; uuids stay unique.
    Without an update, looking up a uuid afterwards gives the model that was
    there before, or else the first one of the array. *)
Theorem flux_add `{LodashLaws} h this E ms l upd :
  Repr h this E -> Forall (stored h) ms -> NoDup (e_loc <$> E ++ ms)%list ->
  self this ∉ (e_loc <$> ms) -> h !! l = Some (Arr (refs ms)) ->
  exists h',
    Flux.add this (VRef l) upd h = (h', Ok tt) /\ Repr h' this (spec_add upd ms E) /\
    (upd = false -> forall u,
       Flux.get this (VStr u) h' =
         (h', Ok (default VUndef ((fun e => VRef (e_loc e)) <$> spec_get u (E ++ ms)%list)))).
Proof.
  intros HR Hms Hnd Hs Hl. destruct (add_repr ms upd h this E HR Hms Hnd Hs) as (h' & E' & HR').
  exists h'. split; [|split; [done|]].
  - unfold Flux.add. erewrite bind_ok; [|by apply asModels_array]. exact E'.
  - intros -> u. rw -spec_add_first. by apply get_repr.
Qed.

(** C28.  The other operations refine the specification: get, contains and size
    read it; remove drops exactly the model of the uuid and keeps the order of
    the others; clear empties it; update merges the new properties over the
    old ones of the same object, moves it to the end, creates it when it is
    missing, and leaves every object outside the collection alone. *)
Theorem flux_modifiers `{LodashLaws} h this E u :
  Repr h this E ->
  Flux.get this (VStr u) h =
    (h, Ok (default VUndef ((fun e => VRef (e_loc e)) <$> spec_get u E))) /\
  Flux.contains this (VStr u) h = (h, Ok (bool_decide (u ∈ uuids E))) /\
  Flux.size this h = (h, Ok (Z.of_nat (length E))) /\
  (exists h', Flux.remove this (VStr u) h = (h', Ok tt) /\ Repr h' this (others u E)) /\
  (exists h', Flux.clear this h = (h', Ok tt) /\ Repr h' this []) /\
  forall changed,
    own_props h changed !! "uuid" = Some (VStr u) \/
      (own_props h changed !! "uuid" = None /\ is_Some (spec_get u E)) ->
    exists h' l,
      Flux.update this (VStr u) changed h = (h', Ok tt) /\
      Repr h' this (spec_update u (own_props h changed) l E) /\ untouched h h' this E.
Proof.
  intros HR. split; [by apply get_repr|split; [by apply contains_repr|split; [by apply size_repr|]]].
  split; [by apply remove_repr|split; [by eapply clear_repr|]]. intros changed Hc.
  destruct (update_repr h this E u changed HR Hc) as (h' & l & Hu & HR' & Hk & _). eauto.
Qed.

(** A null or undefined model makes add throw a TypeError; the models
    before it have been added, the ones after it have not. *)
Theorem flux_add_throws `{LodashLaws} h this E ms v rest l upd :
  Repr h this E -> Forall (stored h) ms -> NoDup (e_loc <$> E ++ ms)%list ->
  self this ∉ (e_loc <$> ms) -> v = VUndef \/ v = VNull ->
  h !! l = Some (Arr (refs ms ++ v :: rest)) ->
  exists h',
    Flux.add this (VRef l) upd h = (h', Throw TypeError) /\ Repr h' this (spec_add upd ms E).
Proof.
  intros HR Hms Hnd Hs Hv Hl. destruct (add_repr ms upd h this E HR Hms Hnd Hs) as (h' & E' & HR').
  exists h'. split; [|done]. unfold Flux.add.
  assert (Flux.asModels (VRef l) h = (h, Ok (refs ms ++ v :: rest)%list)) as Ha.
  { unfold Flux.asModels, gets, is_array. by rw Hl (items_at_some _ _ _ Hl). }
  erewrite bind_ok; [|exact Ha]. unfold each in *. erewrite for_each_app; [|exact E'].
  by destruct Hv as [-> | ->].
Qed.

(** A heap with an empty collection and a response of two models. *)
Module FluxExample.
Definition model (u : string) (state : string) : props :=
  <["uuid" := VStr u]> {["state" := VStr state]}.
Definition m1 : entry := {| e_loc := 3%positive; e_uuid := "q1"; e_props := model "q1" "QUEUED" |}.
Definition m2 : entry := {| e_loc := 4%positive; e_uuid := "q2"; e_props := model "q2" "RUNNING" |}.
Definition this : FluxCollection := {| self := 2%positive; comparator := Flux.byUuid |}.
Definition heap_of (stored_ : list entry) (response : list val) : heap :=
  <[1%positive := Arr (refs stored_)]> (<[2%positive := Obj {["collection" := VRef 1%positive]}]>
    (<[3%positive := Obj (e_props m1)]> (<[4%positive := Obj (e_props m2)]>
      {[5%positive := Arr response]}))).

Lemma repr_example E response :
  Forall (fun e => e = m1 \/ e = m2) E -> NoDup (uuids E) -> Repr (heap_of E response) this E.
Proof.
  intros HE Hnd. exists {["collection" := VRef 1%positive]}, 1%positive.
  split; [done|split; [done|split; [done|split; [|split; [done|]]]]].
  - eapply Forall_impl; [exact HE|]. by intros e [-> | ->].
  - intros (e & He & Hin)%list_elem_of_fmap. rw Forall_forall in HE.
    by destruct (HE e Hin) as [-> | ->].
Qed.
End FluxExample.

Import LodashRef.

Lemma flux_add_witness :
  exists h',
    Flux.add FluxExample.this (VRef 5%positive) false
      (FluxExample.heap_of [] (refs [FluxExample.m1; FluxExample.m2])) = (h', Ok tt) /\
    Repr h' FluxExample.this (spec_add false [FluxExample.m1; FluxExample.m2] []) /\
    (false = false -> forall u,
       Flux.get FluxExample.this (VStr u) h' =
         (h', Ok (default VUndef ((fun e => VRef (e_loc e)) <$>
                    spec_get u [FluxExample.m1; FluxExample.m2])))).
Proof.
  apply (flux_add (FluxExample.heap_of [] (refs [FluxExample.m1; FluxExample.m2]))
           FluxExample.this [] [FluxExample.m1; FluxExample.m2] 5%positive false).
  - apply FluxExample.repr_example; constructor.
  - by repeat constructor.
  - by apply (bool_decide_unpack _); vm_compute.
  - by apply (bool_decide_unpack _); vm_compute.
  - done.
Defined.

Lemma flux_modifiers_witness :
  Flux.size FluxExample.this (FluxExample.heap_of [FluxExample.m1] []) =
    (FluxExample.heap_of [FluxExample.m1] [], Ok 1).
Proof.
  apply (flux_modifiers (FluxExample.heap_of [FluxExample.m1] []) FluxExample.this [FluxExample.m1] "q1").
  apply FluxExample.repr_example; [|by apply (bool_decide_unpack _); vm_compute].
  repeat constructor.
Defined.

Lemma flux_add_throws_witness :
  exists h',
    Flux.add FluxExample.this (VRef 5%positive) true
      (FluxExample.heap_of [] (refs [FluxExample.m1] ++ [VNull])) = (h', Throw TypeError) /\
    Repr h' FluxExample.this (spec_add true [FluxExample.m1] []).
Proof.
  apply (flux_add_throws (FluxExample.heap_of [] (refs [FluxExample.m1] ++ [VNull]))
           FluxExample.this [] [FluxExample.m1] VNull [] 5%positive true).
  - apply FluxExample.repr_example; constructor.
  - by repeat constructor.
  - by apply (bool_decide_unpack _); vm_compute.
  - by apply (bool_decide_unpack _); vm_compute.
  - by right.
  - done.
Defined.
