(* ===== verification/Timers.v ===== *)
(** * The browser's timers

    [setTimeout] arms a one-shot timer under a new identifier, [clearTimeout]
    disarms one and ignores an identifier that is not armed (or is null). *)

From S2P Require Import Prelude.

Record Timers := { armed : list (nat * Z); next_id : nat }.

Definition no_timers : Timers := {| armed := []; next_id := 1 |}.

Definition setTimeout (delay : Z) (t : Timers) : nat * Timers :=
  (next_id t, {| armed := (next_id t, delay) :: armed t; next_id := S (next_id t) |}).

Definition clearTimeout (id : option nat) (t : Timers) : Timers :=
  match id with
  | None => t
  | Some i => {| armed := List.filter (fun p => negb (p.1 =? i)%nat) (armed t); next_id := next_id t |}
  end.

(** A timer fires: it is disarmed and its callback runs. *)
Definition fire (id : nat) (t : Timers) : Timers := clearTimeout (Some id) t.

(** [clearTimeout(id); id = setTimeout(f, delay)] *)
Definition rearm (id : option nat) (delay : Z) (t : Timers) : option nat * Timers :=
  let '(i, t) := setTimeout delay (clearTimeout id t) in (Some i, t).

(** The only timer that can be armed is the one remembered in [id]. *)
Definition only_timer (id : option nat) (t : Timers) : Prop :=
  (forall i d, (i, d) ∈ armed t -> id = Some i) /\ (length (armed t) <= 1)%nat /\
  (forall i d, (i, d) ∈ armed t -> (i < next_id t)%nat).

Lemma clear_only id t : only_timer id t -> armed (clearTimeout id t) = [].
Proof.
  intros (H1 & H2 & _). destruct (armed t) as [|[i d] [|? ?]] eqn:Ha; [| |simpl in H2; lia].
  - destruct id; cbn; by rw Ha.
  - rw (H1 i d); [by left|]. cbn. rw Ha. cbn. by rw Nat.eqb_refl.
Qed.

Lemma rearm_armed id delay t :
  only_timer id t ->
  armed (rearm id delay t).2 = [(next_id t, delay)] /\ (rearm id delay t).1 = Some (next_id t) /\
  only_timer (rearm id delay t).1 (rearm id delay t).2.
Proof.
  intros Ho. pose proof (clear_only id t Ho) as Hc. unfold rearm, setTimeout.
  assert (next_id (clearTimeout id t) = next_id t) as Hn by by destruct id.
  unfold only_timer. cbn [fst snd armed next_id]. rw Hc Hn.
  split; [done|split; [done|split; [|split; [simpl; lia|]]]].
  - intros i d Hin. apply list_elem_of_singleton in Hin as [= -> ->]. done.
  - intros i d Hin. apply list_elem_of_singleton in Hin as [= -> ->]. lia.
Qed.

Lemma clear_only_timer id id' t : only_timer id t -> only_timer id (clearTimeout id' t).
Proof.
  intros (H1 & H2 & H3). destruct id' as [j|]; [|done]. unfold only_timer. cbn [clearTimeout armed next_id].
  assert (Hsub : forall i d, (i, d) ∈ List.filter (fun p : nat * Z => negb (p.1 =? j)%nat) (armed t) ->
                        (i, d) ∈ armed t).
  { intros i d Hin. apply list_elem_of_In in Hin. apply List.filter_In in Hin as [Hin _].
    by apply list_elem_of_In. }
  split; [eauto|split; [|eauto]].
  pose proof (List.filter_length_le (fun p : nat * Z => negb (p.1 =? j)%nat) (armed t)). lia.
Qed.

Lemma no_timers_only id : only_timer id no_timers.
Proof. split; [by intros ? ? ?%elem_of_nil|split; [simpl; lia|by intros ? ? ?%elem_of_nil]]. Qed.

(** ** How many timers are armed *)

Lemma clear_length id t : (length (armed (clearTimeout id t)) <= length (armed t))%nat.
Proof. destruct id; cbn; [apply List.filter_length_le|lia]. Qed.

Lemma rearm_length id delay t : (length (armed (rearm id delay t).2) <= S (length (armed t)))%nat.
Proof. unfold rearm, setTimeout. cbn. pose proof (clear_length id t). lia. Qed.

Lemma fire_length id t :
  existsb (fun p => (p.1 =? id)%nat) (armed t) = true -> (length (armed (fire id t)) < length (armed t))%nat.
Proof.
  cbn. induction (armed t) as [|p l IH]; [done|]. cbn. destruct (p.1 =? id)%nat; cbn.
  - intros _. pose proof (List.filter_length_le (fun p : nat * Z => negb (p.1 =? id)%nat) l). lia.
  - intros Hl. specialize (IH Hl). lia.
Qed.
