(* ===== verification/RunStore.v ===== *)
(** * RunStore.js and RunActions.js: polling the query history

    The store keeps the runs and polls the server: [poll] asks for the history,
    and when the answer arrives a timer is armed for the next poll.  A world is
    the store, the heap, the browser's timers, the requests that were sent and
    not answered, and the connection monitor; a step is one event of the
    browser. *)

From S2P Require Import Prelude JsString JsNumber JsObject FluxCollection Timers.

(** ** CnxnMonitorStore.js *)

Module CnxnMonitorStore.
Record t := {
  lastSubmittedQuery : string;
  lastSubmissionResult : string;
  pollingFaiureCount : Z;
  lastPollingError : string
}.

Definition constructor : t :=
  {| lastSubmittedQuery := ""; lastSubmissionResult := ""; pollingFaiureCount := 0;
     lastPollingError := "" |}.

Definition onSubmitSuccess (query : string) (s : t) : t :=
  {| lastSubmittedQuery := query; lastSubmissionResult := "";
     pollingFaiureCount := pollingFaiureCount s; lastPollingError := lastPollingError s |}.

Definition onSubmitFailure (query error : string) (s : t) : t :=
  {| lastSubmittedQuery := query; lastSubmissionResult := error;
     pollingFaiureCount := pollingFaiureCount s; lastPollingError := lastPollingError s |}.

Definition onPollingFailure (error : string) (s : t) : t :=
  let count := pollingFaiureCount s + 1 in
  {| lastSubmittedQuery := lastSubmittedQuery s; lastSubmissionResult := lastSubmissionResult s;
     pollingFaiureCount := count;
     lastPollingError := if count <? 5 then lastPollingError s else error |}.

Definition onClear (_ : t) : t := constructor.
End CnxnMonitorStore.

(** ** Constants *)

Module RunStateConstants.
Definition FINISHED := "FINISHED".
Definition QUEUED := "QUEUED".
Definition FAILED := "FAILED".
Definition CANCELED := "CANCELED".
Definition RESCHEDULING := "RESCHEDULING".
Definition RESUMING := "RESUMING".
End RunStateConstants.

Module TabConstants.
Definition MY_SAVED_QUERIES := 0.
Definition ALL_QUERIES := 1.
Definition RESULTS_PREVIEW := 2.
Definition DATA_PREVIEW := 3.
Definition LEFT_PANEL_TREE := 0.
Definition LEFT_PANEL_COLUMNS := 1.
End TabConstants.

(** ** The store *)

Record RunStore := mkRunStore {
  collection : FluxCollection;
  hasFetchedHistory : bool;
  online : bool;
  offline : bool;
  pollTimeoutId : option nat;
  currentPollDelay : Z;
  pollErrorDelay : Z
}.

Record World := mkWorld {
  store : RunStore;
  mem : heap;
  timers : Timers;
  inflight : nat;                    (* history requests not answered yet *)
  monitor : CnxnMonitorStore.t;
  deferred : list Z                  (* tabs whose selection was deferred *)
}.

Definition constructor (collection : FluxCollection) : RunStore :=
  mkRunStore collection false false false None 10000 1000.

(** The comparator the store sorts its runs by. *)
Definition byQueryStarted (h : heap) (model _index : val) : val :=
  match prop_of h model "queryStarted" with Ok v => v | Throw _ => VUndef end.

Definition setupNextPoll (hasError fastRefresh : bool) (w : World) : World :=
  let s := store w in
  let currentPollDelay :=
    if fastRefresh && negb (currentPollDelay s =? 1000) then 1000 else currentPollDelay s in
  let pollErrorDelay :=
    if hasError then if pollErrorDelay s * 2 <? 60000 then pollErrorDelay s * 2 else 60000
    else currentPollDelay in
  let delay := if hasError then pollErrorDelay else currentPollDelay in
  let '(id, timers) := rearm (pollTimeoutId s) delay (timers w) in
  mkWorld (mkRunStore (collection s) (hasFetchedHistory s) (online s) (offline s) id
             currentPollDelay pollErrorDelay)
    (mem w) timers (inflight w) (monitor w) (deferred w).

(** [poll] sends the request; its answer is a later step. *)
Definition poll (w : World) : World :=
  mkWorld (store w) (mem w) (timers w) (S (inflight w)) (monitor w) (deferred w).

Definition setStatus (online offline : bool) (w : World) : World :=
  let s := store w in
  mkWorld (mkRunStore (collection s) (hasFetchedHistory s) online offline (pollTimeoutId s)
             (currentPollDelay s) (pollErrorDelay s))
    (mem w) (timers w) (inflight w) (monitor w) (deferred w).

Definition onDisconnect (w : World) : World :=
  let w := mkWorld (store w) (mem w) (clearTimeout (pollTimeoutId (store w)) (timers w))
             (inflight w) (monitor w) (deferred w) in
  setStatus false true w.

Definition onConnect (w : World) : World := poll (setStatus true false (onDisconnect w)).

Definition onResetOnlineStatus (w : World) : World := setStatus false false w.

Section Handlers.
Context `{Lodash}.

(** The text of an engine exception, which the code only displays. *)
Variable typeErrorText : string.

Definition message (e : exn) : string :=
  match e with ErrorMsg m => m | TypeError => typeErrorText end.

Definition isOver (state : val) : bool :=
  bool_decide (state = VStr RunStateConstants.FAILED) ||
  bool_decide (state = VStr RunStateConstants.FINISHED) ||
  bool_decide (state = VStr RunStateConstants.CANCELED).

(** The loop over [data] that looks for a run that is not over. *)
Fixpoint anyRunning (runs : list val) : M bool :=
  match runs with
  | [] => mret false
  | run :: runs =>
      state ← get_prop run "state";
      rest ← anyRunning runs;
      mret (negb (isOver state) || rest)
  end.

(** The delay after a history arrived; [data.map] throws unless [data] is an
    array. *)
Definition onAddMultipleRuns (s : RunStore) (data : val) : M RunStore :=
  _ ← Flux.clear (collection s);
  _ ← Flux.add (collection s) data true;
  isArray ← gets (fun h => is_array h data);
  if negb isArray then throw TypeError
  else
    runs ← Flux.asModels data;
    running ← anyRunning runs;
    mret (mkRunStore (collection s) (hasFetchedHistory s) (online s) (offline s) (pollTimeoutId s)
            (if (running : bool) then 1000 else 10000) (pollErrorDelay s)).

Definition onAddRun (w : World) : World := setupNextPoll false true w.

Definition onMessage (data : val) (w : World) : result World :=
  match (uuid ← get_prop data "uuid"; Flux.update (collection (store w)) uuid data) (mem w) with
  | (h, Ok _) => Ok (mkWorld (store w) h (timers w) (inflight w) (monitor w) (deferred w))
  | (_, Throw e) => Throw e
  end.

Definition onFetchHistory (s : RunStore) : RunStore :=
  if hasFetchedHistory s then s
  else mkRunStore (collection s) true (online s) (offline s) (pollTimeoutId s)
         (currentPollDelay s) (pollErrorDelay s).

Definition onExecute (w : World) : World :=
  mkWorld (store w) (mem w) (timers w) (inflight w) (monitor w)
    (deferred w ++ [TabConstants.ALL_QUERIES])%list.

(** [RunActions.fetchHistory()] settles, and [poll]'s callback runs: [true]
    when the runs were added, [false] after an error was reported. *)
Definition fetchHistory (fetched : result val) (w : World) : World * bool :=
  let failed (h : heap) (e : exn) :=
    (mkWorld (store w) h (timers w) (inflight w)
       (CnxnMonitorStore.onPollingFailure (message e) (monitor w)) (deferred w), false) in
  match fetched with
  | Throw e => failed (mem w) e
  | Ok data =>
      match onAddMultipleRuns (store w) data (mem w) with
      | (h, Ok s) => (mkWorld s h (timers w) (inflight w) (monitor w) (deferred w), true)
      | (h, Throw e) => failed h e
      end
  end.

Definition onHistory (fetched : result val) (w : World) : World :=
  let w := mkWorld (store w) (mem w) (timers w) (pred (inflight w)) (monitor w) (deferred w) in
  let '(w, success) := fetchHistory fetched w in
  setupNextPoll (negb success) false w.

(** [RunActions.execute(query)] settles. *)
Definition execute (query : string) (fetched : result val) (w : World) : World :=
  let report (m : CnxnMonitorStore.t) (w : World) := mkWorld (store w) (mem w) (timers w) (inflight w) m (deferred w) in
  match fetched with
  | Ok _ =>
      let w := onAddRun (onExecute w) in
      report (CnxnMonitorStore.onSubmitSuccess query (monitor w)) w
  | Throw e => report (CnxnMonitorStore.onSubmitFailure query (message e) (monitor w)) w
  end.

(** ** The events of the browser *)

Inductive event :=
  | Connect
  | Disconnect
  | ResetOnlineStatus
  | TimerFires (id : nat)
  | HistoryArrives (fetched : result val)
  | ExecuteSettles (query : string) (fetched : result val)
  | ClearMonitor.

Definition clearMonitor (w : World) : World :=
  mkWorld (store w) (mem w) (timers w) (inflight w) (CnxnMonitorStore.onClear (monitor w)) (deferred w).

Definition onTimer (id : nat) (w : World) : World :=
  poll (mkWorld (store w) (mem w) (fire id (timers w)) (inflight w) (monitor w) (deferred w)).

(** The handler of an event; [None] when it cannot happen now. *)
Definition handle (e : event) (w : World) : option World :=
  match e with
  | Connect => Some (onConnect w)
  | Disconnect => Some (onDisconnect w)
  | ResetOnlineStatus => Some (onResetOnlineStatus w)
  | TimerFires id => if existsb (fun p => (p.1 =? id)%nat) (armed (timers w)) then Some (onTimer id w) else None
  | HistoryArrives fetched => match inflight w with O => None | S _ => Some (onHistory fetched w) end
  | ExecuteSettles query fetched => Some (execute query fetched w)
  | ClearMonitor => Some (clearMonitor w)
  end.

(** A step: an answer is first decoded into new objects, which may change the
    heap in any way outside the store. *)
Inductive step : World -> event -> World -> Prop :=
  | step_event w h e w' :
      handle e (mkWorld (store w) h (timers w) (inflight w) (monitor w) (deferred w)) = Some w' ->
      step w e w'.

Inductive reachable (c : FluxCollection) : World -> Prop :=
  | reach_init h m : reachable c (mkWorld (constructor c) h no_timers 0 m [])
  | reach_step w e w' : reachable c w -> step w e w' -> reachable c w'.

Fixpoint run (es : list event) (w : World) : option World :=
  match es with
  | [] => Some w
  | e :: es => w' ← handle e w; run es w'
  end.
End Handlers.
