(* ===== verification/RunStoreFacts.v ===== *)
(** * Invariants of the polling state machine *)

From S2P Require Import Prelude JsString JsNumber JsObject FluxCollection FluxFacts Timers RunStore.

(** What every reachable world satisfies. *)
Record polling_ok (c : FluxCollection) (w : World) : Prop := {
  ok_collection : collection (store w) = c;
  ok_timer : only_timer (pollTimeoutId (store w)) (timers w);
  ok_current : currentPollDelay (store w) = 1000 \/ currentPollDelay (store w) = 10000;
  ok_error : 1000 <= pollErrorDelay (store w) <= 60000;
  ok_delays : forall i d, (i, d) ∈ armed (timers w) -> 1000 <= d <= 60000;
  ok_online : online (store w) = true -> (0 < inflight w)%nat \/ armed (timers w) <> [];
}.

Lemma fast_delay (fast : bool) d :
  (if fast && negb (d =? 1000) then 1000 else d) = if fast then 1000 else d.
Proof. destruct fast, (Z.eqb_spec d 1000); cbn; lia. Qed.

Lemma doubled_delay e : (if e * 2 <? 60000 then e * 2 else 60000) = Z.min (e * 2) 60000.
Proof. destruct (Z.ltb_spec (e * 2) 60000); lia. Qed.

(** [setupNextPoll] arms exactly one timer. *)
Lemma setupNextPoll_armed hasError fast w :
  only_timer (pollTimeoutId (store w)) (timers w) ->
  let w' := setupNextPoll hasError fast w in
  armed (timers w') =
    [(next_id (timers w),
      if hasError then Z.min (pollErrorDelay (store w) * 2) 60000
      else if fast then 1000 else currentPollDelay (store w))] /\
  only_timer (pollTimeoutId (store w')) (timers w').
Proof.
  intros Ho. cbv zeta. unfold setupNextPoll. rw fast_delay doubled_delay.
  match goal with |- context [rearm ?i ?d ?t] =>
    destruct (rearm_armed i d t Ho) as (H1 & H2 & H3); destruct (rearm i d t) as [id t'] end.
  cbn in *. split; [|done]. rw H1. by destruct hasError.
Qed.

Lemma setupNextPoll_store hasError fast w :
  let s := store (setupNextPoll hasError fast w) in
  collection s = collection (store w) /\ online s = online (store w) /\ offline s = offline (store w) /\
  currentPollDelay s = (if fast then 1000 else currentPollDelay (store w)) /\
  pollErrorDelay s =
    (if hasError then Z.min (pollErrorDelay (store w) * 2) 60000
     else if fast then 1000 else currentPollDelay (store w)) /\
  inflight (setupNextPoll hasError fast w) = inflight w /\
  monitor (setupNextPoll hasError fast w) = monitor w.
Proof.
  cbv zeta. unfold setupNextPoll. rw fast_delay doubled_delay.
  match goal with |- context [rearm ?i ?d ?t] => destruct (rearm i d t) as [id t'] end. done.
Qed.

Lemma setupNextPoll_monitor hasError fast w : monitor (setupNextPoll hasError fast w) = monitor w.
Proof. apply setupNextPoll_store. Qed.

Lemma setupNextPoll_ok c hasError fast w :
  polling_ok c w -> polling_ok c (setupNextPoll hasError fast w).
Proof.
  intros [Hc Ht Hcur Herr Hd Hon].
  destruct (setupNextPoll_armed hasError fast w Ht) as [Ha Ht'].
  destruct (setupNextPoll_store hasError fast w) as (S1 & S2 & S3 & S4 & S5 & S6 & _).
  split; [congruence|done| | | |].
  - rw S4. destruct fast; [by left|done].
  - rw S5. destruct hasError, fast; lia.
  - intros i d. rw Ha. intros [= -> ->]%list_elem_of_singleton. destruct hasError, fast; lia.
  - intros _. right. by rw Ha.
Qed.

Lemma poll_ok c w : polling_ok c w -> polling_ok c (poll w).
Proof. intros []. split; try done. cbn. lia. Qed.

(** Answering keeps a pending poll, because the answer arms a timer. *)
Lemma rearmed_ok c hasError fast w :
  collection (store w) = c -> only_timer (pollTimeoutId (store w)) (timers w) ->
  currentPollDelay (store w) = 1000 \/ currentPollDelay (store w) = 10000 ->
  1000 <= pollErrorDelay (store w) <= 60000 ->
  polling_ok c (setupNextPoll hasError fast w).
Proof.
  intros Hc Ht Hcur Herr.
  destruct (setupNextPoll_armed hasError fast w Ht) as [Ha Ht'].
  destruct (setupNextPoll_store hasError fast w) as (S1 & S2 & S3 & S4 & S5 & S6 & _).
  split; [congruence|done| | | |].
  - rw S4. destruct fast; [by left|done].
  - rw S5. destruct hasError, fast; lia.
  - intros i d. rw Ha. intros [= -> ->]%list_elem_of_singleton. destruct hasError, fast; lia.
  - intros _. right. by rw Ha.
Qed.

Section Polling.
Context `{Lodash} (typeErrorText : string).
Implicit Types (w : World) (c : FluxCollection).

Lemma onAddMultipleRuns_store s data h h' s' :
  onAddMultipleRuns s data h = (h', Ok s') ->
  exists running : bool,
    s' = mkRunStore (collection s) (hasFetchedHistory s) (online s) (offline s) (pollTimeoutId s)
           (if running then 1000 else 10000) (pollErrorDelay s).
Proof.
  unfold onAddMultipleRuns, mbind, M_bind, gets, throw, mret, M_ret.
  destruct (Flux.clear (collection s) h) as [h1 [[]|e]]; [|done].
  destruct (Flux.add (collection s) data true h1) as [h2 [[]|e]]; [|done].
  destruct (is_array h2 data); [|done]. cbn [negb].
  destruct (Flux.asModels data h2) as [h3 [runs|e]]; [|done].
  destruct (anyRunning runs h3) as [h4 [r|e]]; [|done]. intros [= <- <-]. by exists r.
Qed.

(** Whatever the answer, the store keeps its timer, status and collection, and
    its delays stay in range. *)
Lemma fetchHistory_store fetched w w' b :
  fetchHistory typeErrorText fetched w = (w', b) ->
  collection (store w') = collection (store w) /\ online (store w') = online (store w) /\
  offline (store w') = offline (store w) /\
  pollTimeoutId (store w') = pollTimeoutId (store w) /\ timers w' = timers w /\
  inflight w' = inflight w /\ pollErrorDelay (store w') = pollErrorDelay (store w) /\
  (currentPollDelay (store w') = currentPollDelay (store w) \/ currentPollDelay (store w') = 1000 \/
   currentPollDelay (store w') = 10000) /\
  (b = true -> monitor w' = monitor w).
Proof.
  unfold fetchHistory. destruct fetched as [data|e]; [|intros [= <- <-]; cbn; intuition done].
  destruct (onAddMultipleRuns (store w) data (mem w)) as [h [s|e]] eqn:Hr;
    intros [= <- <-]; cbn; [|intuition done].
  destruct (onAddMultipleRuns_store _ _ _ _ _ Hr) as [r ->]. cbn. destruct r; intuition done.
Qed.

Lemma onHistory_ok c fetched w : polling_ok c w -> polling_ok c (onHistory typeErrorText fetched w).
Proof.
  intros [Hc Ht Hcur Herr Hd Hon]. unfold onHistory.
  match goal with |- context [fetchHistory ?t ?f ?w0] =>
    destruct (fetchHistory t f w0) as [w1 b] eqn:Hf end.
  destruct (fetchHistory_store _ _ _ _ Hf) as (H1 & H2 & _ & H3 & H4 & H5 & H6 & H7 & _).
  cbn in H1, H2, H3, H4, H5, H6, H7.
  apply rearmed_ok; [congruence|by rw H3 H4| |lia].
  destruct H7 as [-> | [-> | ->]]; auto.
Qed.

Lemma handle_ok c e w w' : polling_ok c w -> handle typeErrorText e w = Some w' -> polling_ok c w'.
Proof.
  intros Hw. pose proof Hw as [Hc Ht Hcur Herr Hd Hon].
  assert (Hclear : forall id i d, (i, d) ∈ armed (clearTimeout id (timers w)) -> 1000 <= d <= 60000).
  { intros [id|] i d Hin; [|by eapply Hd]. apply list_elem_of_In in Hin.
    apply List.filter_In in Hin as [Hin _]. apply list_elem_of_In in Hin. by eapply Hd. }
  destruct e as [| | |id|fetched|query fetched|]; cbn; try (intros [= <-]).
  - split; cbn; try done; [by apply clear_only_timer|apply Hclear|]. intros _. left. lia.
  - split; cbn; try done; [by apply clear_only_timer|apply Hclear].
  - split; cbn; done.
  - destruct (existsb _ _); [|done]. intros [= <-].
    split; cbn; try done; [by apply (clear_only_timer _ (Some id))|apply (Hclear (Some id))|].
    intros _. left. lia.
  - destruct (inflight w); [done|]. intros [= <-]. by apply onHistory_ok.
  - unfold execute. destruct fetched as [v|e]; [|by split].
    assert (polling_ok c (onAddRun (onExecute w))) as [] by (apply rearmed_ok; done). by split.
  - by split.
Qed.

Lemma init_ok c h m : polling_ok c (mkWorld (constructor c) h no_timers 0 m []).
Proof.
  split; cbn; try done; [apply no_timers_only|by right|].
  by intros i d ?%elem_of_nil.
Qed.

Lemma reachable_ok c w : reachable typeErrorText c w -> polling_ok c w.
Proof.
  induction 1 as [h m|w e w' _ IH Hs]; [apply init_ok|].
  destruct Hs as [w h e w' Hh]. eapply handle_ok; [|exact Hh]. by destruct IH.
Qed.

(** A failed poll: the answer is an error, then the timer it armed fires. *)
Definition failed_poll (w : World) (e : exn) : World :=
  let w := onHistory typeErrorText (Throw e) w in
  match armed (timers w) with
  | (id, _) :: _ => onTimer id w
  | [] => w
  end.

Lemma onHistory_failed e w :
  only_timer (pollTimeoutId (store w)) (timers w) ->
  let w' := onHistory typeErrorText (Throw e) w in
  exists id, armed (timers w') = [(id, Z.min (pollErrorDelay (store w) * 2) 60000)] /\
    only_timer (pollTimeoutId (store w')) (timers w') /\
    pollErrorDelay (store w') = Z.min (pollErrorDelay (store w) * 2) 60000.
Proof.
  intros Ht. cbv zeta. unfold onHistory, fetchHistory.
  match goal with |- context [setupNextPoll ?b ?f ?w0] =>
    destruct (setupNextPoll_armed b f w0 Ht) as [Ha Ht'];
    destruct (setupNextPoll_store b f w0) as (_ & _ & _ & _ & He & _) end.
  eexists. split; [exact Ha|split; [exact Ht'|exact He]].
Qed.

Lemma failed_poll_delay e w :
  only_timer (pollTimeoutId (store w)) (timers w) ->
  only_timer (pollTimeoutId (store (failed_poll w e))) (timers (failed_poll w e)) /\
  pollErrorDelay (store (failed_poll w e)) = Z.min (pollErrorDelay (store w) * 2) 60000.
Proof.
  intros Ht. destruct (onHistory_failed e w Ht) as (id & Ha & Ht' & He). unfold failed_poll.
  rw Ha. split; [|exact He].
  by apply (clear_only_timer _ (Some id)).
Qed.

Lemma failed_polls es w :
  only_timer (pollTimeoutId (store w)) (timers w) -> 0 < pollErrorDelay (store w) <= 60000 ->
  let w' := fold_left failed_poll es w in
  only_timer (pollTimeoutId (store w')) (timers w') /\
  pollErrorDelay (store w') = Z.min (pollErrorDelay (store w) * 2 ^ Z.of_nat (length es)) 60000.
Proof.
  revert w. induction es as [|e es IH]; intros w Ht He; cbv zeta; cbn [fold_left length].
  { rw Z.mul_1_r. split; [done|lia]. }
  destruct (failed_poll_delay e w Ht) as [Ht1 He1].
  destruct (IH (failed_poll w e) Ht1) as [Ht2 He2]; [lia|]. split; [done|]. rw He2 He1.
  rw Nat2Z.inj_succ Z.pow_succ_r; [lia|].
  assert (1 <= 2 ^ Z.of_nat (length es)) by (apply Z.pow_le_mono_r with (b := 0); lia). nia.
Qed.

(** The failures among a sequence of answers, as the messages reported. *)
Fixpoint failures (fs : list (result val)) (w : World) : list string :=
  match fs with
  | [] => []
  | f :: fs =>
      let w1 := mkWorld (store w) (mem w) (timers w) (pred (inflight w)) (monitor w) (deferred w) in
      (if (fetchHistory typeErrorText f w1).2 then []
       else [match f with
             | Throw e => message typeErrorText e
             | Ok data => match (onAddMultipleRuns (store w) data (mem w)).2 with
                          | Throw e => message typeErrorText e
                          | Ok _ => ""
                          end
             end]) ++ failures fs (onHistory typeErrorText f w)
  end%list.

Definition polls (fs : list (result val)) (w : World) : World :=
  fold_left (fun w f => onHistory typeErrorText f w) fs w.

Lemma onHistory_monitor f w :
  monitor (onHistory typeErrorText f w) =
    fold_left (fun m e => CnxnMonitorStore.onPollingFailure e m) (failures [f] w) (monitor w).
Proof.
  unfold onHistory, failures, fetchHistory. cbn [store mem timers inflight monitor deferred].
  destruct f as [data|e]; [destruct (onAddMultipleRuns (store w) data (mem w)) as [h [s|e]]|];
    by rw setupNextPoll_monitor.
Qed.

Lemma polls_monitor fs w :
  monitor (polls fs w) =
    fold_left (fun m e => CnxnMonitorStore.onPollingFailure e m) (failures fs w) (monitor w).
Proof.
  revert w. induction fs as [|f fs IH]; intros w; [done|].
  change (polls (f :: fs) w) with (polls fs (onHistory typeErrorText f w)).
  rw IH onHistory_monitor -fold_left_app. f_equal. cbn [failures]. by rw app_nil_r.
Qed.

Lemma onPollingFailure_fold es m :
  0 <= CnxnMonitorStore.pollingFaiureCount m ->
  let m' := fold_left (fun m e => CnxnMonitorStore.onPollingFailure e m) es m in
  CnxnMonitorStore.pollingFaiureCount m' =
    CnxnMonitorStore.pollingFaiureCount m + Z.of_nat (length es) /\
  CnxnMonitorStore.lastPollingError m' =
    if (length es =? 0)%nat || (CnxnMonitorStore.pollingFaiureCount m + Z.of_nat (length es) <? 5)
    then CnxnMonitorStore.lastPollingError m else List.last es "".
Proof.
  revert m. induction es as [|e es IH] using rev_ind; intros m Hm; cbv zeta.
  { cbn. split; [lia|done]. }
  rw fold_left_app. cbn [fold_left]. destruct (IH m Hm) as [H1 H2]. cbn. rw H1 H2.
  rw length_app List.last_last. cbn [length].
  replace (length es + 1 =? 0)%nat with false by (symmetry; apply Nat.eqb_neq; lia). cbn [orb].
  split; [lia|].
  replace (CnxnMonitorStore.pollingFaiureCount m + Z.of_nat (length es + 1)) with
    (CnxnMonitorStore.pollingFaiureCount m + Z.of_nat (length es) + 1) by lia.
  destruct (Z.ltb_spec (CnxnMonitorStore.pollingFaiureCount m + Z.of_nat (length es) + 1) 5); [|done].
  replace (CnxnMonitorStore.pollingFaiureCount m + Z.of_nat (length es) <? 5) with true by lia.
  by rw orb_true_r.
Qed.
End Polling.

(** ** Properties *)

(** C3.  In every reachable world of the run store at most one poll timer is
    armed and it is the one the store remembers, every armed delay lies between
    one second and one minute, and a store that is online has a poll under way:
    a request that was not answered or an armed timer. *)
Theorem polling_invariant `{Lodash} typeErrorText c w :
  reachable typeErrorText c w ->
  (length (armed (timers w)) <= 1)%nat /\
  (forall i d, (i, d) ∈ armed (timers w) ->
     pollTimeoutId (store w) = Some i /\ 1000 <= d <= 60000) /\
  (online (store w) = true -> (0 < inflight w)%nat \/ armed (timers w) <> []).
Proof.
  intros [Hc (Ht1 & Ht2 & _) Hcur Herr Hd Hon]%reachable_ok. split; [done|split; [|done]].
  intros i d Hin. split; [by eapply Ht1|by eapply Hd].
Qed.

(** Exponential back-off: after n failed polls the next failure arms a
    timer of min(e * 2^(n+1), 60 s), e being the error delay at the start. *)
Theorem polling_backoff `{Lodash} typeErrorText w es e :
  only_timer (pollTimeoutId (store w)) (timers w) -> 0 < pollErrorDelay (store w) <= 60000 ->
  exists id,
    armed (timers (onHistory typeErrorText (Throw e) (fold_left (failed_poll typeErrorText) es w))) =
      [(id, Z.min (pollErrorDelay (store w) * 2 ^ (Z.of_nat (length es) + 1)) 60000)].
Proof.
  intros Ht He. destruct (failed_polls typeErrorText es w Ht He) as [Ht' He'].
  destruct (onHistory_failed typeErrorText e _ Ht') as (id & Ha & _). exists id.
  rw Ha He' Z.pow_add_r; [lia|lia|]. change (2 ^ 1) with 2. rw Z.mul_assoc.
  set (y := pollErrorDelay (store w) * 2 ^ Z.of_nat (length es)).
  by replace (Z.min (Z.min y 60000 * 2) 60000) with (Z.min (y * 2) 60000) by lia.
Qed.

(** Disconnecting does not stop the polling: an answer that arrives
    afterwards arms the timer again although the store is offline. *)
Theorem polling_survives_disconnect `{Lodash} typeErrorText c h m fetched :
  exists w,
    run typeErrorText [Connect; Disconnect; HistoryArrives fetched]
      (mkWorld (constructor c) h no_timers 0 m []) = Some w /\
    online (store w) = false /\ offline (store w) = true /\ armed (timers w) <> [].
Proof.
  cbn. eexists. split; [reflexivity|]. unfold onHistory.
  match goal with |- context [fetchHistory ?t ?f ?w0] =>
    destruct (fetchHistory t f w0) as [w1 b] eqn:Hf end.
  destruct (fetchHistory_store _ _ _ _ _ Hf) as (H1 & H2 & H3 & H4 & H5 & _).
  destruct (setupNextPoll_store (negb b) false w1) as (_ & -> & -> & _).
  destruct (setupNextPoll_armed (negb b) false w1) as [-> _]; [|by rw H2 H3].
  rw H4 H5. apply no_timers_only.
Qed.

(** The connection monitor counts every failed poll since it was cleared,
    whether or not polls succeeded in between, and reports the last error from
    the fifth on. *)
Theorem monitor_counts_failures `{Lodash} typeErrorText w fs :
  monitor w = CnxnMonitorStore.constructor ->
  let errors := failures typeErrorText fs w in
  let m := monitor (polls typeErrorText fs w) in
  CnxnMonitorStore.pollingFaiureCount m = Z.of_nat (length errors) /\
  CnxnMonitorStore.lastPollingError m =
    if (length errors <? 5)%nat then "" else List.last errors "".
Proof.
  intros Hm. cbv zeta. rw polls_monitor Hm.
  destruct (onPollingFailure_fold (failures typeErrorText fs w) CnxnMonitorStore.constructor)
    as [-> ->]; [done|]. cbn [CnxnMonitorStore.pollingFaiureCount CnxnMonitorStore.constructor].
  split; [lia|]. rw Z.add_0_l. destruct (length (failures typeErrorText fs w)) as [|n] eqn:Hl; [done|].
  cbn [Nat.eqb orb]. destruct (Z.ltb_spec (Z.of_nat (S n)) 5), (Nat.ltb_spec (S n) 5); done || lia.
Qed.

Import LodashRef.

Definition example_world : World :=
  mkWorld (constructor FluxExample.this) (FluxExample.heap_of [] []) no_timers 0
    CnxnMonitorStore.constructor [].

Lemma polling_invariant_witness :
  (length (armed (timers (onConnect example_world))) <= 1)%nat /\
  (forall i d, (i, d) ∈ armed (timers (onConnect example_world)) ->
     pollTimeoutId (store (onConnect example_world)) = Some i /\ 1000 <= d <= 60000) /\
  (online (store (onConnect example_world)) = true ->
     (0 < inflight (onConnect example_world))%nat \/ armed (timers (onConnect example_world)) <> []).
Proof.
  apply (polling_invariant "" FluxExample.this).
  apply (reach_step "" _ example_world Connect); [apply reach_init|].
  apply (step_event "" example_world (mem example_world) Connect). reflexivity.
Defined.

Lemma polling_backoff_witness :
  exists id,
    armed (timers (onHistory "" (Throw TypeError)
      (fold_left (failed_poll "") [TypeError; TypeError] (onConnect example_world)))) = [(id, 8000)].
Proof.
  apply (polling_backoff "" (onConnect example_world) [TypeError; TypeError] TypeError).
  - apply no_timers_only.
  - cbn. lia.
Defined.

Lemma monitor_counts_failures_witness :
  CnxnMonitorStore.pollingFaiureCount (monitor (polls "" [Throw TypeError] example_world)) = 1 /\
  CnxnMonitorStore.lastPollingError (monitor (polls "" [Throw TypeError] example_world)) = "".
Proof. apply (monitor_counts_failures "" example_world [Throw TypeError]). reflexivity. Defined.
