(* ===== verification/TableStore.v ===== *)
(** * TableStore.js and TableActions.js: the tables of the column panel

    Tables are shared heap objects: an action receives the object the store
    keeps.  A handler runs in the store's state and the heap, and may throw
    after some assignments. *)

From S2P Require Import Prelude JsString JsNumber JsObject Fqn Http.

Record TableStore := { tables : list val; activeTable : val; requests : list Request }.

Definition T (A : Type) : Type := TableStore -> heap -> TableStore * heap * result A.

#[export] Instance T_ret : MRet T := fun A a s h => (s, h, Ok a).
#[export] Instance T_bind : MBind T := fun A B f m s h =>
  match m s h with
  | (s, h, Ok a) => f a s h
  | (s, h, Throw e) => (s, h, Throw e)
  end.

(** A heap computation inside a handler. *)
Definition lift {A} (m : M A) : T A := fun s h => let '(h, r) := m h in (s, h, r).

Definition getTables : T (list val) := fun s h => (s, h, Ok (tables s)).
Definition getActive : T val := fun s h => (s, h, Ok (activeTable s)).
Definition setTables (ts : list val) : T unit := fun s h =>
  ({| tables := ts; activeTable := activeTable s; requests := requests s |}, h, Ok tt).
Definition setActive (t : val) : T unit := fun s h =>
  ({| tables := tables s; activeTable := t; requests := requests s |}, h, Ok tt).

(** A request an action sends; its answer comes back as another action. *)
Definition send (r : Request) : T unit := fun s h =>
  ({| tables := tables s; activeTable := activeTable s; requests := requests s ++ [r] |}, h, Ok tt).

Definition throwT {A} (e : exn) : T A := fun s h => (s, h, Throw e).

Definition getp (v : val) (k : string) : T val := lift (get_prop v k).
Definition setp (v : val) (k : string) (w : val) : T unit := lift (set_prop v k w).

Definition for_tables (f : val -> T unit) : list val -> T unit :=
  fix go vs := match vs with [] => mret tt | v :: vs => _ ← f v; go vs end.

Definition textOf (v : val) : string := match v with VStr s => s | _ => "" end.

Definition init : TableStore := {| tables := []; activeTable := VNull; requests := [] |}.

(** lodash's [first], called with a callback that has an effect of type [S].
    In lodash 4 the second argument is ignored. *)
Class LodashFirst := first : forall {S : Type}, list val -> (val -> S -> M (S * bool)) -> S -> M (S * val).
Class LodashFirstLaw `{LodashFirst} : Prop :=
  first_head : forall S vs (f : val -> S -> M (S * bool)) s, first vs f s = mret (s, default VUndef (head vs)).

Section Handlers.
Context `{Lodash, LodashFirst}.

Definition getByName (name : val) : T val :=
  ts ← getTables;
  if (length ts =? 0)%nat then mret VUndef else lift (gets (fun h => find h ts ("name", name))).

(** [_.isEmpty] of an object, an array, null or undefined. *)
Definition isEmpty (h : heap) (v : val) : bool :=
  match v with
  | VRef l =>
      match h !! l with
      | Some (Obj o) => bool_decide (o = ∅)
      | Some (Arr vs) => (length vs =? 0)%nat
      | None => true
      end
  | VStr s => streq s ""
  | _ => true
  end.

Definition getPartitionByValue (value : val) : T val :=
  table ← getActive;
  empty ← lift (gets (fun h => isEmpty h table));
  if (empty : bool) then mret VUndef
  else
    partitions ← getp table "partitions";
    empty ← lift (gets (fun h => isEmpty h partitions));
    if (empty : bool) then mret VUndef
    else lift (gets (fun h =>
           find h (match partitions with VRef l => items_at h l | _ => [] end) ("value", value))).

Definition unmarkTable (table : val) : T unit :=
  active ← getp table "active";
  if truthy active then setp table "active" (VBool false) else mret tt.

Definition unmarkActiveTables : T unit :=
  ts ← getTables; _ ← for_tables unmarkTable ts; setActive VNull.

Definition unmarkActive (name : val) : T unit :=
  table ← getByName name;
  if bool_decide (table = VUndef) then mret tt
  else
    _ ← setp table "active" (VBool false);
    _ ← setp table "activePartition" VNull;
    setActive VNull.

Definition markActive (name : val) : T unit :=
  _ ← unmarkActiveTables;
  table ← getByName name;
  if negb (truthy table) then mret tt
  else _ ← setp table "active" (VBool true); setActive table.

Definition markActivePartition (tableName partition : val) : T unit :=
  table ← getByName tableName;
  if truthy table && truthy partition then setp table "activePartition" partition else mret tt.

(** [==] on the values a partition name can take: strings, null, undefined. *)
Definition looseEq (v w : val) : bool :=
  bool_decide (v = w) ||
  match v, w with VUndef, VNull | VNull, VUndef => true | _, _ => false end.

Definition unmarkActivePartition (tableName partition : val) : T unit :=
  table ← getByName tableName;
  if negb (truthy table) then mret tt
  else
    current ← getp table "activePartition";
    if looseEq current partition then
      _ ← setp table "activePartition" VNull;
      data ← getp table "defaultData";
      setp table "data" data
    else mret tt.

(** A template substitution of an optional name part. *)
Definition shown (part : option string) : string := default "null" part.

Definition tableUrl (name : option string) : string :=
  shown (Fqn.catalog name) ++ "/" ++ shown (Fqn.simpleSchema name) ++ "/" ++ shown (Fqn.table name).

Definition nameOf (v : val) : option string := match v with VStr s => Some s | _ => None end.

(** TableActions.fetchTable: the columns and the preview of the table. *)
Definition fetchTable (table : val) : T unit :=
  url ← getp table "url";
  _ ← send (TableApiUtils.fetchColumData (textOf url));
  send (TableApiUtils.fetchPreviewData (textOf url) None).

Definition fetchTablePreview (table : val) (name value : string) : T unit :=
  url ← getp table "url"; send (TableApiUtils.fetchPreviewData (textOf url) (Some (name, value))).

Definition onAddTable (table : val) : T unit :=
  _ ← unmarkActiveTables;
  name ← getp table "name";
  partitions ← lift (alloc (Arr []));
  _ ← setp table "active" (VBool true);
  _ ← setp table "url" (VStr (tableUrl (nameOf name)));
  _ ← setp table "partitions" (VRef partitions);
  _ ← setTables [table];
  fetchTable table.

Definition onRemoveTable (name : val) : T unit :=
  table ← getByName name;
  if bool_decide (table = VUndef) then mret tt
  else
    activePartition ← getp table "activePartition";
    _ ← (if truthy activePartition then setp table "activePartition" VNull else mret tt);
    _ ← unmarkActiveTables;
    ts ← getTables;
    kept ← lift (gets (fun h => reject h ts ("name", name)));
    _ ← setTables kept;
    match kept with
    | [] => mret tt
    | first :: _ => name ← getp first "name"; markActive name
    end.

Definition onSelectTable (name : val) : T unit := markActive name.
Definition onUnselectTable (name : val) : T unit := unmarkActive name.

(** [partition.split('=')], destructured into [[name, value]]. *)
Definition partitionParts (partition : string) : string * option string :=
  let parts := split "=" partition in (nth 0 parts "", parts !! 1%nat).

(** [data] is the pair {table, partition} of strings; an empty one is falsy. *)
Definition onSelectPartition (tableName partition : string) : T unit :=
  if streq partition "" || streq tableName "" then mret tt
  else
    let '(name, value) := partitionParts partition in
    table ← getByName (VStr tableName);
    if negb (truthy table) then mret tt
    else
      _ ← fetchTablePreview table name (default "" value);
      markActivePartition (VStr tableName) (VStr partition).

Definition onUnselectPartition (tableName partition : string) : T unit :=
  if streq partition "" || streq tableName "" then mret tt
  else unmarkActivePartition (VStr tableName) (VStr partition).

Definition setAll (table : val) (assignments : list (string * val)) : T unit :=
  (fix go l := match l with
               | [] => mret tt
               | (k, v) :: l => _ ← setp table k v; go l
               end) assignments.

(** The callback given to [_.first]: it remembers a date partition. *)
Definition noteDatePartition (partition : val) (datePartition : option string) :
    M (option string * bool) :=
  name ← get_prop partition "name";
  mret (if bool_decide (name = VStr "ds") then (Some "ds", true)
        else if bool_decide (name = VStr "d") then (Some "d", true)
        else (datePartition, false)).

(** After a date partition was noted the code calls [_.where], which lodash 4
    does not have: the call throws. *)
Definition markMostRecentPartitionAsActive (table : val) : T unit :=
  if negb (truthy table) then mret tt
  else
    partitions ← getp table "partitions";
    empty ← lift (gets (fun h => isEmpty h partitions));
    if negb (truthy partitions) || (empty : bool) then mret tt
    else
      found ← lift (fun h =>
        first (match partitions with VRef l => items_at h l | _ => [] end) noteDatePartition None h);
      match (found : option string * val).1 with
      | None => mret tt
      | Some _ => throwT TypeError
      end.

(** [columns.map(() => 120)] throws unless [columns] is an array. *)
Definition onReceivedTableData (refTable columns data : val) : T unit :=
  name ← getp refTable "name";
  table ← getByName name;
  if bool_decide (table = VUndef) then mret tt
  else
    isArray ← lift (gets (fun h => is_array h columns));
    if negb isArray then throwT TypeError
    else
      widths ← lift (fun h =>
        alloc (Arr (map (fun _ => VNum (of_Z 120))
          (match columns with VRef l => items_at h l | _ => [] end))) h);
      _ ← setAll table [("columns", columns); ("data", data); ("columnWidths", VRef widths);
                        ("defaultData", data)];
      markMostRecentPartitionAsActive table.

Definition onFetchTables (ts : list val) : T unit := setTables ts.

Definition onReceivedPartitionData (refTable : val) (name value : string) (data : val) : T unit :=
  refName ← getp refTable "name";
  table ← getByName refName;
  if bool_decide (table = VUndef) then mret tt
  else
    current ← getp table "activePartition";
    if negb (bool_decide (current = VStr (join "=" [name; value]))) then mret tt
    else setp table "data" data.

(** [table.columnWidths[columnIdx] = width], an in-place array assignment. *)
Definition onSetTableColumnWidth (columnIdx : nat) (width : val) : T unit :=
  table ← getActive;
  if bool_decide (table = VUndef) then mret tt
  else
    widths ← getp table "columnWidths";
    match widths with
    | VRef l =>
        lift (modify (fun h =>
          let vs := items_at h l in
          let vs := (vs ++ replicate (S columnIdx - length vs) VUndef)%list in
          <[l := Arr (<[columnIdx := width]> vs)]> h))
    | VUndef | VNull => throwT TypeError
    | _ => mret tt
    end.

Definition getAll (s : TableStore) : list val := tables s.
Definition getActiveTable (s : TableStore) : val := activeTable s.

Definition containsTable (s : TableStore) (h : heap) (name : string) : bool :=
  truthy (find h (tables s) ("name", VStr name)).
End Handlers.
