(* ===== verification/TableStoreFacts.v ===== *)
(** * The table store: which table is active, and stale answers *)

From S2P Require Import Prelude JsString JsNumber JsObject FluxFacts Fqn Http TableStore.

Lemma bindT_ok {A B} (m : T A) (f : A -> T B) s h s' h' a :
  m s h = (s', h', Ok a) -> (a ← m; f a) s h = f a s' h'.
Proof. intros E. unfold mbind, T_bind. by rw E. Qed.

(** One step of a handler whose first action succeeds. *)
Ltac stepT lem := erewrite bindT_ok; [|by apply lem].

Lemma getp_obj s h l o k :
  h !! l = Some (Obj o) -> getp (VRef l) k s h = (s, h, Ok (default VUndef (o !! k))).
Proof. intros Hl. unfold getp, lift, get_prop, prop_of. by rw (props_at_some _ _ _ Hl). Qed.

Lemma setp_obj s h l o k v :
  h !! l = Some (Obj o) -> setp (VRef l) k v s h = (s, <[l := Obj (<[k := v]> o)]> h, Ok tt).
Proof. intros Hl. unfold setp, lift, set_prop. by rw (props_at_some _ _ _ Hl). Qed.

(** ** Deactivating every table *)

Definition active_in (o : props) : bool := truthy (default VUndef (o !! "active")).

Definition deactivate (o : props) : props :=
  if active_in o then <["active" := VBool false]> o else o.

Lemma deactivate_inactive o : active_in (deactivate o) = false.
Proof.
  unfold deactivate. destruct (active_in o) eqn:Ha; [|done]. unfold active_in. by rw lookup_insert_eq.
Qed.

Lemma deactivate_other o k : k <> "active" -> deactivate o !! k = o !! k.
Proof. intros Hk. unfold deactivate. destruct (active_in o); [|done]. by rw lookup_insert_ne. Qed.

Definition objects (h : heap) (ls : list loc) : Prop := Forall (fun l => exists o, h !! l = Some (Obj o)) ls.

(** [h'] is [h] with every table of [ls] deactivated. *)
Definition all_inactive (ls : list loc) (h h' : heap) : Prop :=
  forall l, h' !! l =
    if bool_decide (l ∈ ls) then Obj <$> (deactivate <$> (match h !! l with Some (Obj o) => Some o | _ => None end))
    else h !! l.

Section Facts.
Context `{LodashLaws} `{LodashFirstLaw}.

Lemma unmarkTable_spec s h l o :
  h !! l = Some (Obj o) -> unmarkTable (VRef l) s h = (s, <[l := Obj (deactivate o)]> h, Ok tt).
Proof.
  intros Hl. unfold unmarkTable. stepT getp_obj. unfold deactivate. fold (active_in o).
  destruct (active_in o); [by apply setp_obj|]. by rw insert_id.
Qed.

Lemma deactivate_idem o : deactivate (deactivate o) = deactivate o.
Proof. unfold deactivate at 1. by rw deactivate_inactive. Qed.

Lemma unmark_tables ls s h :
  objects h ls ->
  exists h', for_tables unmarkTable (VRef <$> ls) s h = (s, h', Ok tt) /\ all_inactive ls h h'.
Proof.
  revert h. induction ls as [|l ls IH]; intros h Hls.
  { exists h. split; [done|]. intros l. by rw bool_decide_eq_false_2; [apply not_elem_of_nil|]. }
  inversion Hls as [|? ? [o Ho] Hls']; subst.
  destruct (IH (<[l := Obj (deactivate o)]> h)) as (h' & E & Hh').
  { unfold objects in *. rw Forall_forall in Hls'. rw Forall_forall. intros x Hx.
    destruct (decide (x = l)) as [->|Hne]; [rw lookup_insert_eq; eauto|].
    rw lookup_insert_ne //. by apply Hls'. }
  exists h'. split.
  - cbn. erewrite bindT_ok; [|by apply unmarkTable_spec]. exact E.
  - intros x. rw Hh'. destruct (decide (x = l)) as [->|Hne].
    + rw lookup_insert_eq Ho. rw (bool_decide_eq_true_2 (l ∈ l :: ls)); [by left|]. cbn.
      rw deactivate_idem. by destruct (bool_decide (l ∈ ls)).
    + rw lookup_insert_ne //. destruct (decide (x ∈ ls)) as [Hin|Hnin].
      * rw !bool_decide_eq_true_2 //. by right.
      * rw !bool_decide_eq_false_2 //. by rw not_elem_of_cons.
Qed.

Lemma all_inactive_obj ls h h' l o :
  all_inactive ls h h' -> h !! l = Some (Obj o) ->
  exists o', h' !! l = Some (Obj o') /\ (l ∈ ls -> active_in o' = false) /\
    forall k, k <> "active" -> o' !! k = o !! k.
Proof.
  intros Hi Hl. specialize (Hi l). rw Hl in Hi. cbn in Hi. destruct (decide (l ∈ ls)) as [Hin|Hnin].
  - rw bool_decide_eq_true_2 in Hi; [done|]. exists (deactivate o).
    split; [done|split; [intros _; apply deactivate_inactive|apply deactivate_other]].
  - rw bool_decide_eq_false_2 in Hi; [done|]. by exists o.
Qed.

Lemma unmarkActiveTables_spec ls s h :
  tables s = VRef <$> ls -> objects h ls ->
  exists h', unmarkActiveTables s h =
    ({| tables := tables s; activeTable := VNull; requests := requests s |}, h', Ok tt) /\
    all_inactive ls h h'.
Proof.
  intros Hs Hls. destruct (unmark_tables ls s h Hls) as (h' & E & Hh'). exists h'. split; [|done].
  unfold unmarkActiveTables. erewrite bindT_ok; [|reflexivity]. rw Hs.
  erewrite bindT_ok; [|exact E]. unfold setActive. by rw Hs.
Qed.

(** ** Finding a table by name *)

Definition named (h : heap) (n : string) (l : loc) : bool :=
  bool_decide (props_at h l !! "name" = Some (VStr n)).

Definition table_of (h : heap) (n : string) (ls : list loc) : option loc := List.find (named h n) ls.

Lemma getByName_spec ls s h n :
  tables s = VRef <$> ls ->
  getByName (VStr n) s h = (s, h, Ok (default VUndef (VRef <$> table_of h n ls))).
Proof.
  intros Hs. unfold getByName. erewrite bindT_ok; [|reflexivity]. rw Hs. destruct ls as [|l ls]; [done|].
  cbn [length fmap list_fmap Nat.eqb]. unfold lift, gets. rw find_first. repeat f_equal.
  change (VRef l :: (VRef <$> ls)) with (VRef <$> (l :: ls)). unfold table_of.
  generalize (l :: ls) as ks. induction ks as [|k ks IH]; [done|]. cbn.
  assert (isMatch h (VRef k) ("name", VStr n) = named h n k) as -> by apply isMatch_string.
  by destruct (named h n k).
Qed.

Lemma table_of_elem h n ls l : table_of h n ls = Some l -> l ∈ ls /\ named h n l = true.
Proof. intros [Hin Hn]%List.find_some. split; [by apply list_elem_of_In|done]. Qed.

Lemma table_of_ext h h' n ls :
  (forall l, l ∈ ls -> props_at h' l !! "name" = props_at h l !! "name") ->
  table_of h' n ls = table_of h n ls.
Proof.
  unfold table_of. induction ls as [|l ls IH]; [done|]. intros He. cbn.
  assert (named h' n l = named h n l) as ->.
  { unfold named. rw He; [by left|done]. }
  destruct (named h n l); [done|]. apply IH. intros x Hx. apply He. by right.
Qed.

Lemma markActive_spec ls s h n :
  tables s = VRef <$> ls -> objects h ls ->
  exists h',
    markActive (VStr n) s h =
      ({| tables := tables s; activeTable := default VNull (VRef <$> table_of h n ls);
          requests := requests s |}, h', Ok tt) /\
    forall l o, h !! l = Some (Obj o) ->
      exists o', h' !! l = Some (Obj o') /\ (forall k, k <> "active" -> o' !! k = o !! k) /\
        (l ∈ ls -> active_in o' = bool_decide (table_of h n ls = Some l)).
Proof.
  intros Hs Hls. destruct (unmarkActiveTables_spec ls s h Hs Hls) as (h1 & E1 & Hh1).
  assert (Hname : table_of h1 n ls = table_of h n ls).
  { apply table_of_ext. intros l Hl. unfold objects in Hls. rw Forall_forall in Hls.
    destruct (Hls l Hl) as [o Ho]. destruct (all_inactive_obj ls h h1 l o Hh1 Ho) as (o' & Ho' & _ & Hk).
    rw (props_at_some _ _ _ Ho) (props_at_some _ _ _ Ho'). by apply Hk. }
  unfold markActive. erewrite bindT_ok; [|exact E1]. erewrite bindT_ok; [|by apply (getByName_spec ls)].
  rw Hname. destruct (table_of h n ls) as [t|] eqn:Ht; cbn [fmap option_fmap option_map default from_option id].
  - destruct (table_of_elem _ _ _ _ Ht) as [Hin _]. unfold objects in Hls. rw Forall_forall in Hls.
    destruct (Hls t Hin) as [ot Hot]. destruct (all_inactive_obj ls h h1 t ot Hh1 Hot) as (ot' & Hot' & _ & Hkt).
    cbn [truthy negb]. erewrite bindT_ok; [|by apply setp_obj]. eexists. split; [reflexivity|].
    intros l o Hl. destruct (decide (l = t)) as [->|Hne].
    + rw lookup_insert_eq. eexists. split; [done|split].
      * intros k Hk. rw lookup_insert_ne //. rw Hkt //. congruence.
      * intros _. rw bool_decide_eq_true_2 //. unfold active_in. by rw lookup_insert_eq.
    + rw lookup_insert_ne //. destruct (all_inactive_obj ls h h1 l o Hh1 Hl) as (o' & Ho' & Ha & Hk).
      exists o'. split; [done|split; [done|]]. intros Hl'. rw Ha //. rw bool_decide_eq_false_2 //. congruence.
  - cbn [truthy negb]. exists h1. split; [done|]. intros l o Hl.
    destruct (all_inactive_obj ls h h1 l o Hh1 Hl) as (o' & Ho' & Ha & Hk).
    exists o'. split; [done|split; [done|]]. intros Hl'. rw Ha //.
Qed.

Lemma setActive_spec v s h :
  setActive v s h = ({| tables := tables s; activeTable := v; requests := requests s |}, h, Ok tt).
Proof. done. Qed.

(** The two requests fetchTable sends for a table. *)
Definition table_requests (name : option string) : list Request :=
  [TableApiUtils.fetchColumData (tableUrl name); TableApiUtils.fetchPreviewData (tableUrl name) None].

Lemma onAddTable_spec ls s h l o name :
  tables s = VRef <$> ls -> objects h ls -> h !! l = Some (Obj o) -> o !! "name" = Some (VStr name) ->
  exists h' o',
    onAddTable (VRef l) s h =
      ({| tables := [VRef l]; activeTable := VNull;
          requests := requests s ++ table_requests (Some name) |}, h', Ok tt) /\
    h' !! l = Some (Obj o') /\ active_in o' = true /\ o' !! "name" = Some (VStr name) /\
    o' !! "url" = Some (VStr (tableUrl (Some name))) /\
    exists a, o' !! "partitions" = Some (VRef a) /\ h' !! a = Some (Arr []).
Proof.
  intros Hs Hls Hl Hn. destruct (unmarkActiveTables_spec ls s h Hs Hls) as (h1 & E1 & Hh1).
  destruct (all_inactive_obj ls h h1 l o Hh1 Hl) as (o1 & Ho1 & _ & Hk).
  unfold onAddTable. erewrite bindT_ok; [|exact E1]. stepT getp_obj. rw Hk; [done|]. rw Hn.
  cbn [default from_option id]. erewrite bindT_ok; [|reflexivity].
  pose proof (new_loc_fresh h1) as Hf. set (a := new_loc h1) in *.
  assert (Hla : a <> l) by congruence. assert (Hal : l <> a) by congruence.
  erewrite bindT_ok; [|apply (setp_obj _ _ _ o1); by rw lookup_insert_ne].
  erewrite bindT_ok; [|apply setp_obj; by rw lookup_insert_eq].
  erewrite bindT_ok; [|apply setp_obj; by rw lookup_insert_eq].
  erewrite bindT_ok; [|reflexivity]. unfold fetchTable.
  erewrite bindT_ok; [|apply getp_obj; by rw lookup_insert_eq].
  erewrite bindT_ok; [|reflexivity]. eexists _, _.
  rw (lookup_insert_ne _ "partitions" "url") // lookup_insert_eq.
  split; [unfold send; cbn; by rw -app_assoc|]. rw lookup_insert_eq. split; [done|]. split.
  { unfold active_in. rw lookup_insert_ne // lookup_insert_ne // lookup_insert_eq. done. }
  rw lookup_insert_ne // lookup_insert_ne // lookup_insert_ne //. rw Hk // Hn. split; [done|].
  rw lookup_insert_ne // lookup_insert_eq. split; [done|]. exists a. rw lookup_insert_eq. split; [done|].
  by rw !(lookup_insert_ne _ l a) // lookup_insert_eq.
Qed.
End Facts.

(** ** Properties *)

(** Selecting a table by name: among the store's tables exactly the first
    one of that name is active afterwards, it becomes the active table (null
    when no table has the name), and nothing but the active marks changes. *)
Theorem selectTable_unique `{LodashLaws} ls s h n :
  tables s = VRef <$> ls -> objects h ls ->
  exists h',
    onSelectTable (VStr n) s h =
      ({| tables := tables s; activeTable := default VNull (VRef <$> table_of h n ls);
          requests := requests s |}, h', Ok tt) /\
    forall l o, h !! l = Some (Obj o) ->
      exists o', h' !! l = Some (Obj o') /\ (forall k, k <> "active" -> o' !! k = o !! k) /\
        (l ∈ ls -> active_in o' = bool_decide (table_of h n ls = Some l)).
Proof. apply markActive_spec. Qed.

(** Adding a table replaces the others by it, marks it active, gives it
    its url and asks the server for its columns and its preview; but the
    store's active table stays null, so that setting a column width right
    after throws a TypeError. *)
Theorem addTable_not_active `{LodashLaws} ls s h l o name :
  tables s = VRef <$> ls -> objects h ls -> h !! l = Some (Obj o) -> o !! "name" = Some (VStr name) ->
  exists s' h' o',
    onAddTable (VRef l) s h = (s', h', Ok tt) /\
    tables s' = [VRef l] /\ activeTable s' = VNull /\
    requests s' = (requests s ++ table_requests (Some name))%list /\
    h' !! l = Some (Obj o') /\ active_in o' = true /\
    o' !! "url" = Some (VStr (tableUrl (Some name))) /\
    forall columnIdx width, onSetTableColumnWidth columnIdx width s' h' = (s', h', Throw TypeError).
Proof.
  intros Hs Hls Hl Hn.
  destruct (onAddTable_spec ls s h l o name Hs Hls Hl Hn) as (h' & o' & E & Hl' & Ha & _ & Hu & _).
  eexists _, h', o'. split; [exact E|]. cbn. by repeat split.
Qed.

(** A partition preview that arrives late is dropped: it is stored only
    when the partition it is for is still the active one of its table, and it
    changes nothing but the table's data.  Unselecting the active partition
    clears it and restores the default data. *)
Theorem partition_preview `{LodashLaws} ls s h r ro n t o :
  tables s = VRef <$> ls -> h !! r = Some (Obj ro) -> ro !! "name" = Some (VStr n) ->
  table_of h n ls = Some t -> h !! t = Some (Obj o) ->
  (forall name value data,
     onReceivedPartitionData (VRef r) name value data s h =
       (s, if bool_decide (o !! "activePartition" = Some (VStr (name ++ "=" ++ value)))
           then <[t := Obj (<["data" := data]> o)]> h else h, Ok tt)) /\
  (forall partition, o !! "activePartition" = Some (VStr partition) -> n <> "" -> partition <> "" ->
     exists h' o',
       onUnselectPartition n partition s h = (s, h', Ok tt) /\ h' !! t = Some (Obj o') /\
       o' !! "activePartition" = Some VNull /\
       o' !! "data" = Some (default VUndef (o !! "defaultData"))).
Proof.
  intros Hs Hr Hn Ht Ho. split.
  - intros name value data. unfold onReceivedPartitionData. stepT getp_obj. rw Hn.
    cbn [default from_option id]. erewrite bindT_ok; [|by apply (getByName_spec ls)]. rw Ht.
    cbn [default from_option id fmap option_fmap option_map]. rw bool_decide_eq_false_2 //.
    stepT getp_obj. change (join "=" [name; value]) with (name ++ "=" ++ value).
    destruct (o !! "activePartition") as [v|]; cbn [default from_option id].
    + destruct (decide (v = VStr (name ++ "=" ++ value))) as [->|Hne].
      * rw !bool_decide_eq_true_2 //. cbn [negb]. by apply setp_obj.
      * rw !bool_decide_eq_false_2 //. congruence.
    + rw !bool_decide_eq_false_2 //.
  - intros partition Hp Hne Hpe. unfold onUnselectPartition.
    destruct (streq_spec partition ""), (streq_spec n ""); try done. cbn [orb].
    unfold unmarkActivePartition. erewrite bindT_ok; [|by apply (getByName_spec ls)]. rw Ht.
    cbn [default from_option id fmap option_fmap option_map truthy negb]. stepT getp_obj. rw Hp.
    cbn [default from_option id]. unfold looseEq. rw bool_decide_eq_true_2 //. cbn [orb].
    stepT setp_obj. erewrite bindT_ok; [|apply getp_obj; by rw lookup_insert_eq].
    eexists _, _. split; [apply setp_obj; by rw lookup_insert_eq|]. rw lookup_insert_eq.
    split; [done|]. rw lookup_insert_ne // !lookup_insert_eq. split; [done|]. by rw lookup_insert_ne.
Qed.

Import LodashRef.

#[local] Instance first_ref : LodashFirst := fun S vs _ s => mret (s, default VUndef (head vs)).

Module TableExample.
Definition table (name : string) : props :=
  <["name" := VStr name]> (<["activePartition" := VStr "ds=1"]> ∅).
Definition mem : heap :=
  <[1%positive := Obj (table "hive.web.log")]> {[2%positive := Obj (table "hive.web.users")]}.
Definition store : TableStore :=
  {| tables := VRef <$> [1%positive; 2%positive]; activeTable := VNull; requests := [] |}.
Lemma mem_objects : objects mem [1%positive; 2%positive].
Proof. repeat constructor; eexists; reflexivity. Qed.
End TableExample.

Lemma selectTable_unique_witness :
  exists h',
    onSelectTable (VStr "hive.web.users") TableExample.store TableExample.mem =
      ({| tables := tables TableExample.store; activeTable := VRef 2%positive; requests := [] |}, h', Ok tt) /\
    forall l o, TableExample.mem !! l = Some (Obj o) ->
      exists o', h' !! l = Some (Obj o') /\ (forall k, k <> "active" -> o' !! k = o !! k) /\
        (l ∈ [1%positive; 2%positive] ->
         active_in o' = bool_decide
           (table_of TableExample.mem "hive.web.users" [1%positive; 2%positive] = Some l)).
Proof.
  apply (selectTable_unique [1%positive; 2%positive] TableExample.store TableExample.mem "hive.web.users").
  - reflexivity.
  - apply TableExample.mem_objects.
Defined.

Lemma addTable_not_active_witness :
  exists s' h' o',
    onAddTable (VRef 1%positive) TableExample.store TableExample.mem = (s', h', Ok tt) /\
    tables s' = [VRef 1%positive] /\ activeTable s' = VNull /\
    requests s' = table_requests (Some "hive.web.log") /\
    h' !! 1%positive = Some (Obj o') /\ active_in o' = true /\
    o' !! "url" = Some (VStr "hive/web/log") /\
    forall columnIdx width, onSetTableColumnWidth columnIdx width s' h' = (s', h', Throw TypeError).
Proof.
  apply (addTable_not_active [1%positive; 2%positive] TableExample.store TableExample.mem 1%positive
           (TableExample.table "hive.web.log") "hive.web.log"); try reflexivity.
  apply TableExample.mem_objects.
Defined.

Lemma partition_preview_witness :
  onReceivedPartitionData (VRef 2%positive) "ds" "2" VNull TableExample.store TableExample.mem =
    (TableExample.store, TableExample.mem, Ok tt).
Proof.
  apply (partition_preview [1%positive; 2%positive] TableExample.store TableExample.mem 2%positive
           (TableExample.table "hive.web.users") "hive.web.users" 2%positive
           (TableExample.table "hive.web.users")); reflexivity.
Defined.
