(* ===== verification/Stores.v ===== *)
(** * The smaller stores and the actions that feed them

    QueryStore, ConnectorStore, ResultsPreviewStore, TabStore, UserStore,
    SchemaStore and OverviewStore, with the part of their action files that
    turns an answer of the server into an action. *)

From S2P Require Import Prelude JsString JsNumber JsObject FluxCollection FluxFacts Http RunStore.

(** [-1 * index] for the value [index] has when the comparator is called. *)
Definition minusIndex (_ : heap) (_model index : val) : val :=
  match index with
  | VNum n => VNum (mul (of_Z (-1)) n)
  | _ => VNum NaN
  end.

Module QueryStore.
Section Handlers.
Context `{Lodash}.

Record t := { selectedQuery : val; sessionContext : val; collection : FluxCollection }.

Definition constructor : M t :=
  c ← Flux.constructor minusIndex;
  mret {| selectedQuery := VNull; sessionContext := VNull; collection := c |}.

Definition onSelectQuery (query context : val) (s : t) : t :=
  {| selectedQuery := query; sessionContext := context; collection := collection s |}.

Definition onSetSessionContext (context : val) (s : t) : t :=
  {| selectedQuery := selectedQuery s; sessionContext := context; collection := collection s |}.

Definition onReceivedQuery (query : val) (s : t) : M unit := Flux.add (collection s) query false.
Definition onReceivedQueries (queries : val) (s : t) : M unit := Flux.add (collection s) queries false.
Definition onDestroyQuery (uuid : val) (s : t) : M unit := Flux.remove (collection s) uuid.
Definition getSelectedQuery (s : t) : val := selectedQuery s.
Definition getCollection (s : t) : FluxCollection := collection s.
Definition getSessionContext (s : t) : val := sessionContext s.
End Handlers.
End QueryStore.

Module QueryActions.
Section Actions.
Context `{Lodash}.

(** The object QueryApiUtils.createQuery resolves to: the entered data under
    the uuid the server chose. *)
Definition createdQuery (uuid name description query : val) : M loc :=
  inner ← alloc (Obj {["query" := query]});
  alloc (Obj (<["uuid" := uuid]> (<["name" := name]> (<["description" := description]>
    {["queryWithPlaceholders" := VRef inner]})))).

(** [createQuery(data)] settles: the new query is announced, an error logged. *)
Definition createQuery (s : QueryStore.t) (uuid : result val) (name description query : val) : M unit :=
  match uuid with
  | Throw _ => mret tt
  | Ok uuid => q ← createdQuery uuid name description query; QueryStore.onReceivedQuery (VRef q) s
  end.

Definition destroyQuery (s : QueryStore.t) (uuid : string) (settled : result val) : M unit :=
  match settled with
  | Throw _ => mret tt
  | Ok _ => QueryStore.onDestroyQuery (VStr uuid) s
  end.

Definition fetchSavedQueries (s : QueryStore.t) (results : result val) : M unit :=
  match results with
  | Throw _ => mret tt
  | Ok queries => QueryStore.onReceivedQueries queries s
  end.
End Actions.
End QueryActions.

Module ConnectorStore.
Section Handlers.
Context `{Lodash}.

Definition constructor : M FluxCollection := Flux.constructor minusIndex.
Definition onReceivedConnector (connector : val) (s : FluxCollection) : M unit := Flux.add s connector false.
Definition onReceivedConnectors (connectors : val) (s : FluxCollection) : M unit := Flux.add s connectors false.
Definition onReceivedOriginalConnectors (connectors : val) (s : FluxCollection) : M unit :=
  Flux.add s connectors true.
Definition getCollection (s : FluxCollection) : FluxCollection := s.

(** The settled requests of ConnectorActions. *)
Definition fetchSupportedConnectors (s : FluxCollection) (results : result val) : M unit :=
  match results with Ok v => onReceivedConnectors v s | Throw _ => mret tt end.
Definition fetchOriginalSupportedConnectors (s : FluxCollection) (results : result val) : M unit :=
  match results with Ok v => onReceivedOriginalConnectors v s | Throw _ => mret tt end.
End Handlers.
End ConnectorStore.

Module ResultsPreviewStore.
Record t := { preview : val; previewQuery : val }.

Definition constructor : t := {| preview := VNull; previewQuery := VNull |}.
Definition onClearPreview (s : t) : t := {| preview := VNull; previewQuery := previewQuery s |}.
Definition onSelectPreviewQuery (query : val) (s : t) : t :=
  {| preview := preview s; previewQuery := query |}.

(** [_.extend(preview, {columnWidths: ...})] assigns into the answer. *)
Definition onLoadResultsPreview (p : val) (s : t) : M t :=
  columns ← get_prop p "columns";
  isArray ← gets (fun h => is_array h columns);
  if negb isArray then throw TypeError
  else
    vs ← Flux.asModels columns;
    widths ← alloc (Arr (map (fun _ => VNum (of_Z 120)) vs));
    _ ← set_prop p "columnWidths" (VRef widths);
    mret {| preview := p; previewQuery := previewQuery s |}.

(** [xs[i] = v]: assigning past the end extends the array with holes. *)
Definition assignIndex (vs : list val) (i : nat) (v : val) : list val :=
  <[i := v]> (vs ++ replicate (S i - length vs) VUndef)%list.

Definition onSetTableColumnWidth (columnIdx : nat) (width : val) (s : t) : M unit :=
  if truthy (preview s) then
    widths ← get_prop (preview s) "columnWidths";
    match widths with
    | VRef l => modify (fun h => <[l := Arr (assignIndex (items_at h l) columnIdx width)]> h)
    | VUndef | VNull => throw TypeError
    | _ => mret tt
    end
  else mret tt.

Definition getPreviewQuery (s : t) : val := previewQuery s.
Definition getResultsPreview (s : t) : val := preview s.

(** [loadResultsPreview] settles. *)
Definition loadResultsPreview (s : t) (results : result val) : M t :=
  match results with Ok p => onLoadResultsPreview p s | Throw _ => mret s end.
End ResultsPreviewStore.

Module TabStore.
Record t := { selectedTab : Z; selectedLeftPanelTab : Z }.
Definition constructor : t :=
  {| selectedTab := TabConstants.ALL_QUERIES; selectedLeftPanelTab := TabConstants.LEFT_PANEL_TREE |}.
Definition onSelectTab (tab : Z) (s : t) : t :=
  {| selectedTab := tab; selectedLeftPanelTab := selectedLeftPanelTab s |}.
Definition onSelectLeftPanelTab (tab : Z) (s : t) : t :=
  {| selectedTab := selectedTab s; selectedLeftPanelTab := tab |}.
Definition getSelectedTab (s : t) : Z := selectedTab s.
Definition getSelectedLeftPanelTab (s : t) : Z := selectedLeftPanelTab s.
End TabStore.

Module UserStore.
Record User := { name : string; accessLevel : string; canCreateCsv : bool; canCreateTable : bool }.
Definition getDefaultUser : User :=
  {| name := "lk"; accessLevel := "default"; canCreateCsv := false; canCreateTable := false |}.
Definition constructor : User := getDefaultUser.
Definition onReceivedCurrentUser (user : User) (_ : User) : User := user.
Definition getCurrentUser (s : User) : User := s.
(** UserActions.fetchCurrentUser settles. *)
Definition fetchCurrentUser (s : User) (fetched : result User) : User :=
  match fetched with Ok user => onReceivedCurrentUser user s | Throw _ => s end.
End UserStore.

Module SchemaStore.
Section Model.
Context {A : Type}.
Definition constructor : list A := [].
Definition onUpdateSchemas (model _ : list A) : list A := model.
Definition onUpdateTables (model _ : list A) : list A := model.
Definition getModel (s : list A) : list A := s.
End Model.
End SchemaStore.

Module OverviewStore.
Section Handlers.
Context {L M : Type}.                    (* the answers about the cluster and its memory *)

Record t := { lineData : option L; memoryData : option M; requestNum : Z }.
Definition constructor : t := {| lineData := None; memoryData := None; requestNum := 0 |}.
Definition onReceiveData (data : L) (s : t) : t :=
  {| lineData := Some data; memoryData := memoryData s; requestNum := requestNum s + 1 |}.
Definition onMemoryData (data : M) (s : t) : t :=
  {| lineData := lineData s; memoryData := Some data; requestNum := requestNum s + 1 |}.
(** OverviewActions: a failed request leaves a rejected promise unhandled. *)
Definition getData (s : t) (fetched : result L) : t :=
  match fetched with Ok data => onReceiveData data s | Throw _ => s end.
Definition getMemoryData (s : t) (fetched : result M) : t :=
  match fetched with Ok data => onMemoryData data s | Throw _ => s end.
End Handlers.
Arguments t : clear implicits.
End OverviewStore.

(** ** Facts *)

Section Sorting.
Context `{LodashLaws}.

Lemma sorted_minusIndex vs h :
  Flux.sorted minusIndex vs h =
    (<[new_loc h := Arr vs]> h, Ok (new_loc h)).
Proof.
  unfold Flux.sorted. erewrite bind_ok; [|reflexivity].
  rw (sortBy_constant _ vs (VNum NaN)); [done|reflexivity].
Qed.
End Sorting.

(** The stores of saved queries and connectors ask for the reverse of
    the insertion order, but their comparator gets no index and answers NaN for
    every model: sorting them returns the models in insertion order. *)
Theorem minusIndex_never_reverses `{LodashLaws} h this E by_ :
  Repr h this E -> comparator this = minusIndex -> by_ = None \/ by_ = Some minusIndex ->
  exists h' a, Flux.all this true by_ h = (h', Ok a) /\ items_at h' a = refs E.
Proof.
  intros HR Hc Hby. unfold Flux.all. erewrite bind_ok; [|by apply size_repr].
  destruct E as [|e E].
  - eexists _, _. split; [reflexivity|]. apply items_at_insert.
  - replace (Z.of_nat (length (e :: E)) =? 0) with false by (simpl; lia).
    erewrite bind_ok; [|by apply models_repr].
    assert (default (comparator this) by_ = minusIndex) as -> by by destruct Hby as [-> | ->].
    rw sorted_minusIndex. eexists _, _. split; [reflexivity|]. apply items_at_insert.
Qed.

(** Saving a query makes it findable under the uuid the server gave it,
    with the data entered, unless a query of that uuid is there already;
    destroying it removes it and only it. *)
Theorem createQuery_stored `{LodashLaws} h s E u name description query :
  Repr h (QueryStore.collection s) E ->
  (u ∉ uuids E ->
   exists h' l,
     QueryActions.createQuery s (Ok (VStr u)) name description query h = (h', Ok tt) /\
     Flux.get (QueryStore.collection s) (VStr u) h' = (h', Ok (VRef l)) /\
     props_at h' l !! "name" = Some name /\ props_at h' l !! "description" = Some description /\
     exists i, props_at h' l !! "queryWithPlaceholders" = Some (VRef i) /\
               props_at h' i !! "query" = Some query) /\
  exists h',
    QueryActions.destroyQuery s u (Ok VUndef) h = (h', Ok tt) /\
    Repr h' (QueryStore.collection s) (others u E).
Proof.
  intros HR. split; [|by apply remove_repr]. intros Hu.
  set (o := <["uuid" := VStr u]> (<["name" := name]> (<["description" := description]>
    {["queryWithPlaceholders" := VRef (new_loc h)]})) : props).
  set (h1 := <[new_loc h := Obj {["query" := query]}]> h). set (l := new_loc h1).
  set (h2 := <[l := Obj o]> h1). pose proof (new_loc_fresh h) as F0. pose proof (new_loc_fresh h1) as F1.
  fold l in F1.
  assert (Hne : new_loc h <> l).
  { intros Heq. rw -Heq in F1. unfold h1 in F1. by rw lookup_insert_eq in F1. }
  assert (HR2 : Repr h2 (QueryStore.collection s) E) by (do 2 (apply repr_alloc; [|done]); done).
  set (m := {| e_loc := l; e_uuid := u; e_props := o |}).
  assert (Hg : spec_get u E = None).
  { destruct (spec_get u E) as [e|] eqn:Hg; [|done]. exfalso. apply Hu.
    destruct (spec_get_some _ _ _ Hg) as [Hin <-]. by apply list_elem_of_fmap_2. }
  assert (Hl2 : h2 !! l = Some (Obj o)) by (unfold h2; by rw lookup_insert_eq).
  destruct (push_repr h2 (QueryStore.collection s) E m) as (h3 & E3 & HR3 & Hk); [done|done| | |].
  - by apply spec_get_none.
  - cbn. destruct HR as (os & a & Ho & _). intros Heq. rw Heq in F1. unfold h1 in F1.
    rw lookup_insert_ne in F1; [|congruence]. intros Heq2. congruence.
  - exists h3, l. split; [|split; [|split; [|split]]].
    + unfold QueryActions.createQuery, QueryActions.createdQuery. erewrite bind_ok; [|reflexivity].
      fold h1. fold l. fold o. fold h2. unfold QueryStore.onReceivedQuery, Flux.add.
      erewrite bind_ok; [|reflexivity]. unfold is_array. rw Hl2. unfold each. cbn [for_each].
      assert (Flux.addOne (QueryStore.collection s) false (VRef l) h2 = (h3, Ok tt)) as Hadd.
      { unfold Flux.addOne. erewrite bind_ok; [|unfold get_prop, prop_of; by rw (props_at_some _ _ _ Hl2)].
        erewrite bind_ok; [|by apply (get_repr h2 _ E u)]. rw Hg. exact E3. }
      by erewrite bind_ok; [|exact Hadd].
    + erewrite get_repr; [|exact HR3]. rw spec_get_app Hg. cbn. by rw String.eqb_refl.
    + rw (props_at_some h3 l o); [by apply Hk|done].
    + rw (props_at_some h3 l o); [by apply Hk|done].
    + exists (new_loc h). rw (props_at_some h3 l o); [by apply Hk|]. split; [done|].
      rw (props_at_some h3 (new_loc h) {["query" := query]}); [|done]. apply Hk.
      unfold h2. rw lookup_insert_ne //. unfold h1. by rw lookup_insert_eq.
Qed.

Import LodashRef.

Definition example_queries : FluxCollection := {| self := 2%positive; comparator := minusIndex |}.

Lemma example_repr E response :
  Forall (fun e => e = FluxExample.m1 \/ e = FluxExample.m2) E -> NoDup (uuids E) ->
  Repr (FluxExample.heap_of E response) example_queries E.
Proof. intros HE Hnd. by apply (FluxExample.repr_example E response). Qed.

Lemma minusIndex_never_reverses_witness :
  exists h' a,
    Flux.all example_queries true None
      (FluxExample.heap_of [FluxExample.m1; FluxExample.m2] []) = (h', Ok a) /\
    items_at h' a = refs [FluxExample.m1; FluxExample.m2].
Proof.
  apply (minusIndex_never_reverses _ example_queries).
  - apply example_repr; [|by apply (bool_decide_unpack _); vm_compute].
    constructor; [by left|]. constructor; [by right|constructor].
  - reflexivity.
  - by left.
Defined.

Lemma createQuery_stored_witness :
  exists h' l,
    QueryActions.createQuery
      {| QueryStore.selectedQuery := VNull; QueryStore.sessionContext := VNull;
         QueryStore.collection := example_queries |}
      (Ok (VStr "q2")) (VStr "daily") (VStr "") (VStr "select 1")
      (FluxExample.heap_of [FluxExample.m1] []) = (h', Ok tt) /\
    Flux.get example_queries (VStr "q2") h' = (h', Ok (VRef l)) /\
    props_at h' l !! "name" = Some (VStr "daily") /\ props_at h' l !! "description" = Some (VStr "") /\
    exists i, props_at h' l !! "queryWithPlaceholders" = Some (VRef i) /\
              props_at h' i !! "query" = Some (VStr "select 1").
Proof.
  apply (createQuery_stored (FluxExample.heap_of [FluxExample.m1] [])
    {| QueryStore.selectedQuery := VNull; QueryStore.sessionContext := VNull;
       QueryStore.collection := example_queries |} [FluxExample.m1] "q2").
  - apply example_repr; [|by apply (bool_decide_unpack _); vm_compute]. constructor; [by left|constructor].
  - by apply (bool_decide_unpack _); vm_compute.
Defined.
