(* ===== verification/SchemaActions.v ===== *)
(** * SchemaActions.js: the tree of catalogs, schemas and tables

    The tree is built from the server's list of (catalog, schemas) entries,
    which may repeat; a schema starts with a deferred list of tables, fetched
    when it is opened. *)

From S2P Require Import Prelude JsString Http.

Inductive dataType := ROOT | CATALOG | SCHEMA | TABLE.

#[export] Instance dataType_eq_dec : EqDecision dataType.
Proof. solve_decision. Defined.

Record Table := { t_name : string; t_catalog : string; t_schema : string; t_fqn : string }.

(** The children of a schema: a closure that fetches a url, or its tables. *)
Inductive SchemaChildren :=
  | Deferred (url : string)
  | Tables (tables : list Table).

Record Schema := { s_name : string; s_catalog : string; s_fqn : string; s_children : SchemaChildren }.
Record Catalog := { c_name : string; c_fqn : string; c_children : list Schema }.

(** The entry of a table in the server's answer. *)
Record TableEntry := { connectorId : string; e_schema : string; e_table : string; e_fqn : string }.

(** The node a refresh is asked for. *)
Record Item := { i_type : dataType; i_name : string; i_catalog : string }.

(** lodash's [find] with [{name: s}], as the position of the object it returns
    among objects of the given names. *)
Class FindByName := find_pos : list string -> string -> option nat.
Class FindByNameLaw `{FindByName} : Prop :=
  find_pos_first names s : find_pos names s = fst <$> list_find (fun x => x = s) names.

Section Actions.
Context `{FindByName}.

Definition tablesUrl (catalog schema : string) : string :=
  "../api/metadata/tables/" ++ catalog ++ "/" ++ schema.

Definition fetchCatalogs : Request := get "../api/metadata/catalogs".
Definition fetchOnlySchema (catalog : string) : Request := get ("../api/metadata/schemas/" ++ catalog).
Definition fetchTable (catalog schema : string) : Request := get (tablesUrl catalog schema).

(** The request of deleteCatalog, and what its settlement is reported as. *)
Definition deleteCatalogRequest (catalogName : string) : Request :=
  {| method := "DELETE"; url := "../v1/catalog/" ++ catalogName; contentType := None; body := None |}.

Definition deleteCatalog {J} (typeErrorText : string) (sent : result J) : ActionResult :=
  match sent with
  | Ok _ => {| succeeded := true; message := "Success" |}
  | Throw (ErrorMsg m) => {| succeeded := false; message := m |}
  | Throw TypeError => {| succeeded := false; message := typeErrorText |}
  end.

Definition newCatalog (name : string) : Catalog :=
  {| c_name := name; c_fqn := "schematree-catalog." ++ name; c_children := [] |}.

Definition newSchema (catalog name : string) : Schema :=
  {| s_name := name; s_catalog := catalog; s_fqn := "schematree-schema." ++ catalog ++ "." ++ name;
     s_children := Deferred (tablesUrl catalog name) |}.

Definition newTable (entry : TableEntry) : Table :=
  {| t_name := e_table entry; t_catalog := connectorId entry; t_schema := e_schema entry;
     t_fqn := e_fqn entry |}.

(** What a deferred list of tables resolves to. *)
Definition loadTables (data : list TableEntry) : list Table := newTable <$> data.

Definition addSchema (catalog : string) (schemas : list Schema) (schemaName : string) : list Schema :=
  match find_pos (s_name <$> schemas) schemaName with
  | None => (schemas ++ [newSchema catalog schemaName])%list
  | Some _ => schemas
  end.

(** The inner loop over [entry.schemas], on the catalog object. *)
Definition addSchemas (schemaNames : list string) (catalog : Catalog) : Catalog :=
  {| c_name := c_name catalog; c_fqn := c_fqn catalog;
     c_children := fold_left (addSchema (c_name catalog)) schemaNames (c_children catalog) |}.

Definition addEntry (catalogs : list Catalog) (entry : string * list string) : list Catalog :=
  let '(catalogName, schemaNames) := entry in
  match find_pos (c_name <$> catalogs) catalogName with
  | Some i => alter (addSchemas schemaNames) i catalogs
  | None => (catalogs ++ [addSchemas schemaNames (newCatalog catalogName)])%list
  end.

(** [fetchSchemas], on the answer of the server. *)
Definition fetchSchemas (data : list (string * list string)) : list Catalog :=
  fold_left addEntry data [].

Definition withChildren (children : list Schema) (catalog : Catalog) : Catalog :=
  {| c_name := c_name catalog; c_fqn := c_fqn catalog; c_children := children |}.

Definition withTables (tables : list Table) (schema : Schema) : Schema :=
  {| s_name := s_name schema; s_catalog := s_catalog schema; s_fqn := s_fqn schema;
     s_children := Tables tables |}.

(** The answers of the two requests [fetchChildren] may send. *)
Definition childrenOfCatalog (catalogs : list Catalog) (item : Item) (schemaNames : list string) :
    list Catalog :=
  match find_pos (c_name <$> catalogs) (i_name item) with
  | Some i =>
      alter (fun catalog => withChildren (newSchema (c_name catalog) <$> schemaNames) catalog) i catalogs
  | None => catalogs
  end.

(** [catalog.children = [...catalog.children]] stands outside the test that the
    catalog was found. *)
Definition childrenOfSchema (catalogs : list Catalog) (item : Item) (data : list TableEntry) :
    result (list Catalog) :=
  match find_pos (c_name <$> catalogs) (i_catalog item) with
  | None => Throw TypeError
  | Some i =>
      Ok (alter (fun catalog =>
            match find_pos (s_name <$> c_children catalog) (i_name item) with
            | Some j => withChildren (alter (withTables (loadTables data)) j (c_children catalog)) catalog
            | None => catalog
            end) i catalogs)
  end.

(** What the server answers to a refresh. *)
Inductive Answer :=
  | SchemaNames (schemas : list string)
  | TableEntries (data : list TableEntry).

Definition childrenRequest (item : Item) : option Request :=
  match i_type item with
  | CATALOG => Some (fetchOnlySchema (i_name item))
  | SCHEMA => Some (fetchTable (i_catalog item) (i_name item))
  | _ => None
  end.

(** [fetchChildren] returns undefined for other types, and calling [then] on it
    throws. *)
Definition fetchChildren (catalogs : list Catalog) (item : Item) (answer : Answer) :
    result (list Catalog) :=
  match i_type item, answer with
  | CATALOG, SchemaNames schemas => Ok (childrenOfCatalog catalogs item schemas)
  | SCHEMA, TableEntries data => childrenOfSchema catalogs item data
  | _, _ => Throw TypeError
  end.
End Actions.

(** ** Facts *)

Section Facts.
Context `{FindByNameLaw}.
Implicit Types (catalogs : list Catalog) (schemas : list Schema).

Lemma find_pos_none names s : find_pos names s = None <-> s ∉ names.
Proof.
  rw find_pos_first. destruct (list_find (fun x => x = s) names) as [[i x]|] eqn:Hf; cbn; split; try done.
  - apply list_find_Some in Hf as (Hi & -> & _). intros Hn. exfalso. apply Hn. by eapply list_elem_of_lookup_2.
  - intros _ Hin. apply list_find_None in Hf. rw Forall_forall in Hf. by apply (Hf s).
Qed.

Lemma find_pos_some names s i : find_pos names s = Some i -> names !! i = Some s.
Proof.
  rw find_pos_first. destruct (list_find (fun x => x = s) names) as [[j x]|] eqn:Hf; [|done].
  intros [= <-]. by apply list_find_Some in Hf as (Hi & -> & _).
Qed.

(** A well-formed list of schemas of catalog [c]. *)
Definition schemas_ok (c : string) schemas : Prop :=
  NoDup (s_name <$> schemas) /\ Forall (fun s => s = newSchema c (s_name s)) schemas.

Lemma addSchema_ok c schemas name :
  schemas_ok c schemas ->
  schemas_ok c (addSchema c schemas name) /\
  forall x, x ∈ (s_name <$> addSchema c schemas name) <-> x ∈ (s_name <$> schemas) \/ x = name.
Proof.
  intros [Hnd Hf]. unfold addSchema. destruct (find_pos (s_name <$> schemas) name) as [i|] eqn:Hp.
  - split; [done|]. intros x. apply find_pos_some in Hp. apply list_elem_of_lookup_2 in Hp.
    split; [by left|]. by intros [?| ->].
  - apply find_pos_none in Hp. split.
    + split; [|apply Forall_app; by repeat constructor]. rw fmap_app. apply NoDup_app.
      split; [done|split; [|apply NoDup_singleton]]. intros x Hx Hx'.
      apply list_elem_of_singleton in Hx'. by subst x.
    + intros x. rw fmap_app elem_of_app. cbn. by rw list_elem_of_singleton.
Qed.

Lemma addSchemas_ok c names schemas :
  schemas_ok c schemas ->
  schemas_ok c (fold_left (addSchema c) names schemas) /\
  forall x, x ∈ (s_name <$> fold_left (addSchema c) names schemas) <->
            x ∈ (s_name <$> schemas) \/ x ∈ names.
Proof.
  revert schemas. induction names as [|n names IH]; intros schemas Hok; cbn.
  { split; [done|]. intros x. split; [by left|]. by intros [?|?%elem_of_nil]. }
  destruct (addSchema_ok c schemas n Hok) as [Hok1 H1]. destruct (IH _ Hok1) as [Hok2 H2].
  split; [done|]. intros x. rw H2 H1 elem_of_cons. tauto.
Qed.

(** The schema names the data lists for a catalog. *)
Definition listed (data : list (string * list string)) (c s : string) : Prop :=
  exists names, (c, names) ∈ data /\ s ∈ names.

Definition tree_ok (data : list (string * list string)) catalogs : Prop :=
  NoDup (c_name <$> catalogs) /\ (forall c, c ∈ (c_name <$> catalogs) <-> c ∈ data.*1) /\
  Forall (fun catalog =>
    c_fqn catalog = "schematree-catalog." ++ c_name catalog /\
    schemas_ok (c_name catalog) (c_children catalog) /\
    forall s, s ∈ (s_name <$> c_children catalog) <-> listed data (c_name catalog) s) catalogs.

Lemma listed_app data c0 names c s :
  listed (data ++ [(c0, names)])%list c s <-> listed data c s \/ (c = c0 /\ s ∈ names).
Proof.
  unfold listed. split.
  - intros (ns & [Hin|Hin]%elem_of_app & Hs); [left; eauto|].
    apply list_elem_of_singleton in Hin as [= -> ->]. by right.
  - intros [(ns & Hin & Hs)|[-> Hs]]; eexists; (split; [apply elem_of_app|exact Hs]).
    + by left.
    + right. by apply list_elem_of_singleton.
Qed.

Lemma addEntry_ok data catalogs c0 names :
  tree_ok data catalogs -> tree_ok (data ++ [(c0, names)])%list (addEntry catalogs (c0, names)).
Proof.
  intros (Hnd & Hc & Hf). unfold addEntry, tree_ok.
  assert (Hdata : forall c, c ∈ (data ++ [(c0, names)])%list.*1 <-> c ∈ data.*1 \/ c = c0).
  { intros c. rw fmap_app elem_of_app. cbn. by rw list_elem_of_singleton. }
  destruct (find_pos (c_name <$> catalogs) c0) as [i|] eqn:Hp.
  - apply find_pos_some in Hp as Hp'. rw list_lookup_fmap in Hp'.
    destruct (catalogs !! i) as [cat|] eqn:Hi; [|done]. cbn in Hp'. injection Hp' as Hcat.
    rw fmap_alter_same; [done|]. split; [done|split].
    + intros c. rw Hdata Hc. split; [by left|]. intros [?| ->]; [done|]. apply Hc. rw -Hcat.
      apply list_elem_of_fmap_2. by eapply list_elem_of_lookup_2.
    + pose proof (Forall_lookup_1 _ _ _ _ Hf Hi) as (H1 & H2 & H3).
      apply (Forall_alter_at _ _ _ _ _ cat Hi) with (3 := Hf); cbn.
      * destruct (addSchemas_ok _ names _ H2) as [Hok Hin]. split; [done|split; [done|]].
        intros s. rw Hin H3 listed_app. rw Hcat. tauto.
      * intros j y Hne Hj (Hy1 & Hy2 & Hy3). split; [done|split; [done|]]. intros s.
        rw Hy3 listed_app. split; [by left|]. intros [?|[Hyc _]]; [done|]. exfalso. apply Hne.
        eapply NoDup_lookup; [exact Hnd| |]; rw list_lookup_fmap.
        -- rw Hj. cbn. by rw Hyc.
        -- rw Hi. cbn. by rw Hcat.
  - apply find_pos_none in Hp. assert (Hnc : c0 ∉ data.*1) by by rw -Hc.
    rw fmap_app. cbn. split; [|split].
    + apply NoDup_app. split; [done|split; [|apply NoDup_singleton]]. intros x Hx Hx'.
      apply list_elem_of_singleton in Hx'. by subst x.
    + intros c. rw Hdata elem_of_app list_elem_of_singleton Hc. done.
    + apply Forall_app. split.
      * rw Forall_forall. rw Forall_forall in Hf. intros y Hy. destruct (Hf y Hy) as (Hy1 & Hy2 & Hy3).
        split; [done|split; [done|]].
        intros s. rw Hy3 listed_app. split; [by left|]. intros [?|[Hyc Hs]]; [done|].
        exfalso. apply Hp. rw -Hyc. by apply list_elem_of_fmap_2.
      * constructor; [|constructor]. cbn.
        destruct (addSchemas_ok c0 names []) as [Hok Hin]; [by split; constructor|].
        split; [done|split; [done|]]. intros s. rw Hin listed_app. cbn.
        split; [intros [?%elem_of_nil|?]; [done|by right]|].
        intros [(ns & Hin' & _)|[_ ?]]; [|by right]. exfalso. apply Hnc.
        by apply (list_elem_of_fmap_2 fst) in Hin'.
Qed.

Lemma fetchSchemas_ok data : tree_ok data (fetchSchemas data).
Proof.
  unfold fetchSchemas. induction data as [|[c names] data IH] using rev_ind.
  - split; [constructor|split; [done|constructor]].
  - rw fold_left_app. by apply addEntry_ok.
Qed.

(** An update of the first object of a name, in a list with unique names. *)
Lemma alter_named {A} (name : A -> string) (g : A -> A) (l : list A) n j x :
  NoDup (name <$> l) -> l !! j = Some x ->
  match find_pos (name <$> l) n with Some i => alter g i l | None => l end !! j =
    Some (if streq (name x) n then g x else x).
Proof.
  intros Hnd Hj. assert (Hx : (name <$> l) !! j = Some (name x)) by (rw list_lookup_fmap Hj; done).
  destruct (find_pos (name <$> l) n) as [i|] eqn:Hp.
  - apply find_pos_some in Hp. destruct (streq_spec (name x) n) as [Hn|Hn].
    + rw -Hn in Hp. pose proof (NoDup_lookup _ _ _ _ Hnd Hp Hx) as ->. by rw list_lookup_alter_eq Hj.
    + rw list_lookup_alter_ne; [|done]. intros ->. congruence.
  - apply find_pos_none in Hp. destruct (streq_spec (name x) n) as [Hn|Hn]; [|done].
    exfalso. apply Hp. rw -Hn. by eapply list_elem_of_lookup_2.
Qed.
End Facts.

(** ** Properties *)

(** C5.  The tree built from the server's list has every catalog and, under
    it, every schema listed for it exactly once, however often the list repeats
    them, and nothing else; a schema starts with its tables deferred. *)
Theorem fetchSchemas_tree `{FindByNameLaw} data :
  let catalogs := fetchSchemas data in
  NoDup (c_name <$> catalogs) /\ (forall c, c ∈ (c_name <$> catalogs) <-> c ∈ data.*1) /\
  forall catalog, catalog ∈ catalogs ->
    c_fqn catalog = "schematree-catalog." ++ c_name catalog /\
    NoDup (s_name <$> c_children catalog) /\
    (forall s, s ∈ (s_name <$> c_children catalog) <-> listed data (c_name catalog) s) /\
    forall schema, schema ∈ c_children catalog -> schema = newSchema (c_name catalog) (s_name schema).
Proof.
  intros catalogs. destruct (fetchSchemas_ok data) as (Hnd & Hc & Hf). fold catalogs in Hnd, Hc, Hf.
  split; [done|split; [done|]]. intros catalog Hin. rw Forall_forall in Hf.
  destruct (Hf catalog Hin) as (H1 & [H2 H3] & H4). rw Forall_forall in H3. eauto.
Qed.

(** A refresh changes one node: refreshing a catalog replaces its schemas
    by the ones the server answered, with their tables deferred, refreshing a
    schema loads its tables, and every other catalog and schema stays.
    Refreshing a schema whose catalog is gone throws a TypeError. *)
Theorem fetchChildren_one_node `{FindByNameLaw} catalogs cat name :
  NoDup (c_name <$> catalogs) ->
  (forall schemas, exists catalogs',
     fetchChildren catalogs {| i_type := CATALOG; i_name := cat; i_catalog := "" |}
       (SchemaNames schemas) = Ok catalogs' /\
     forall j c, catalogs !! j = Some c ->
       catalogs' !! j =
         Some (if streq (c_name c) cat then withChildren (newSchema (c_name c) <$> schemas) c else c)) /\
  (forall data, cat ∉ (c_name <$> catalogs) ->
     fetchChildren catalogs {| i_type := SCHEMA; i_name := name; i_catalog := cat |}
       (TableEntries data) = Throw TypeError) /\
  (forall data, cat ∈ (c_name <$> catalogs) -> exists catalogs',
     fetchChildren catalogs {| i_type := SCHEMA; i_name := name; i_catalog := cat |}
       (TableEntries data) = Ok catalogs' /\
     forall j c, catalogs !! j = Some c ->
       exists c', catalogs' !! j = Some c' /\
         (c_name c <> cat -> c' = c) /\
         (c_name c = cat -> NoDup (s_name <$> c_children c) -> forall k s, c_children c !! k = Some s ->
            c_children c' !! k =
              Some (if streq (s_name s) name then withTables (loadTables data) s else s))).
Proof.
  intros Hnd. split; [|split].
  - intros schemas. eexists. split; [reflexivity|]. intros j c Hj.
    by apply (alter_named c_name (fun c => withChildren (newSchema (c_name c) <$> schemas) c)).
  - intros data Hin. cbn. unfold childrenOfSchema. cbn. by rw (proj2 (find_pos_none _ _) Hin).
  - intros data Hin. cbn. unfold childrenOfSchema. cbn.
    destruct (find_pos (c_name <$> catalogs) cat) as [i|] eqn:Hp; [|by apply find_pos_none in Hp].
    eexists. split; [reflexivity|]. intros j c Hj.
    set (g := fun catalog : Catalog => match find_pos (s_name <$> c_children catalog) name with
              | Some k => withChildren (alter (withTables (loadTables data)) k (c_children catalog)) catalog
              | None => catalog end).
    pose proof (alter_named c_name g catalogs cat j c Hnd Hj) as Ha. rw Hp in Ha.
    eexists. split; [exact Ha|]. destruct (streq_spec (c_name c) cat) as [Hc|Hc]; [|done].
    split; [done|]. intros _ Hnds k s Hk. unfold g.
    pose proof (alter_named s_name (withTables (loadTables data)) _ name k s Hnds Hk) as Hs.
    by destruct (find_pos (s_name <$> c_children c) name).
Qed.

Module FindRef.
#[export] Instance find_ref : FindByName := fun names s => fst <$> list_find (fun x => x = s) names.
#[export] Instance find_ref_law : FindByNameLaw.
Proof. by intros names s. Qed.
End FindRef.

Import FindRef.

Lemma fetchSchemas_tree_witness :
  let catalogs := fetchSchemas [("hive", ["web"; "web"]); ("hive", ["tmp"])] in
  NoDup (c_name <$> catalogs) /\
  (forall c, c ∈ (c_name <$> catalogs) <-> c ∈ [("hive", ["web"; "web"]); ("hive", ["tmp"])].*1) /\
  forall catalog, catalog ∈ catalogs ->
    c_fqn catalog = "schematree-catalog." ++ c_name catalog /\
    NoDup (s_name <$> c_children catalog) /\
    (forall s, s ∈ (s_name <$> c_children catalog) <->
       listed [("hive", ["web"; "web"]); ("hive", ["tmp"])] (c_name catalog) s) /\
    forall schema, schema ∈ c_children catalog -> schema = newSchema (c_name catalog) (s_name schema).
Proof. apply (fetchSchemas_tree [("hive", ["web"; "web"]); ("hive", ["tmp"])]). Defined.

Lemma fetchChildren_one_node_witness :
  fetchChildren (fetchSchemas [("hive", ["web"])])
    {| i_type := SCHEMA; i_name := "web"; i_catalog := "tpch" |} (TableEntries []) = Throw TypeError.
Proof.
  apply (fetchChildren_one_node (fetchSchemas [("hive", ["web"])]) "tpch" "web");
    by apply (bool_decide_unpack _); vm_compute.
Defined.
