(* ===== verification/SchemaFacts.v ===== *)
(** * The tree stays well-formed

    A type discipline for the nodes of SchemaActions.v: each node lies where its
    own fields say. *)

From S2P Require Import Prelude JsString Http SchemaActions.

Section Typing.
Context `{FindByNameLaw}.
Implicit Types (catalogs : list Catalog) (c s : string).

(** A table under the schema [s] of the catalog [c]. *)
Definition table_in c s (t : Table) : Prop := t_catalog t = c /\ t_schema t = s.

(** The children of a schema: not fetched, and then the request is that of the
    schema, or tables of the schema. *)
Definition children_in c s (children : SchemaChildren) : Prop :=
  match children with
  | Deferred url => url = tablesUrl c s
  | Tables tables => Forall (table_in c s) tables
  end.

Definition schema_in c (x : Schema) : Prop :=
  s_catalog x = c /\ s_fqn x = "schematree-schema." ++ c ++ "." ++ s_name x /\
  children_in c (s_name x) (s_children x).

Definition catalog_typed (x : Catalog) : Prop :=
  c_fqn x = "schematree-catalog." ++ c_name x /\ Forall (schema_in (c_name x)) (c_children x).

Definition tree_typed catalogs : Prop := NoDup (c_name <$> catalogs) /\ Forall catalog_typed catalogs.

(** What the server answers when it is asked for the tables of a schema. *)
Definition answer_typed (item : Item) (answer : Answer) : Prop :=
  match i_type item, answer with
  | SCHEMA, TableEntries data =>
      Forall (fun e => connectorId e = i_catalog item /\ e_schema e = i_name item) data
  | _, _ => True
  end.

(** A refresh whose promise is rejected leaves the tree. *)
Definition refreshItem catalogs (refresh : Item * Answer) : list Catalog :=
  match fetchChildren catalogs refresh.1 refresh.2 with Ok catalogs' => catalogs' | Throw _ => catalogs end.

Lemma newSchema_in c s : schema_in c (newSchema c s).
Proof. by repeat split. Qed.

Lemma loadTables_in c s data :
  Forall (fun e => connectorId e = c /\ e_schema e = s) data -> Forall (table_in c s) (loadTables data).
Proof. intros Hd. apply Forall_fmap. by eapply Forall_impl; [exact Hd|]. Qed.

(** A change of one catalog that keeps its name. *)
Lemma alter_typed (g : Catalog -> Catalog) i catalogs :
  (forall x, c_name (g x) = c_name x) ->
  (forall x, catalogs !! i = Some x -> catalog_typed x -> catalog_typed (g x)) ->
  tree_typed catalogs -> tree_typed (alter g i catalogs).
Proof.
  intros Hn Hg [Hnd Hf]. split; [by rw fmap_alter_same|].
  destruct (catalogs !! i) as [x|] eqn:Hi.
  - apply (Forall_alter_at _ _ _ _ _ x Hi) with (3 := Hf); [|done]. apply Hg; [done|]. by eapply Forall_lookup_1.
  - rw (list_alter_ext g id catalogs catalogs) //; [by intros x; rw Hi|]. by rw list_alter_id.
Qed.

Lemma refreshItem_typed catalogs item answer :
  answer_typed item answer -> tree_typed catalogs -> tree_typed (refreshItem catalogs (item, answer)).
Proof.
  unfold answer_typed, refreshItem, fetchChildren. cbn. intros Ha Ht.
  destruct (i_type item), answer as [schemas|data]; try done.
  - unfold childrenOfCatalog. destruct (find_pos _ _) as [i|]; [|done]. apply alter_typed; [done| |done].
    intros x _ [Hq _]. split; [done|]. cbn. apply Forall_fmap, Forall_forall. intros s _. apply newSchema_in.
  - unfold childrenOfSchema. destruct (find_pos (c_name <$> catalogs) _) as [i|] eqn:Hp; [|done].
    apply find_pos_some in Hp. apply alter_typed; [by intros x; destruct (find_pos _ _)| |done].
    intros x Hx [Hq Hs]. rw list_lookup_fmap Hx in Hp. cbn in Hp. injection Hp as Hc.
    destruct (find_pos _ _) as [j|] eqn:Hj; [|done]. apply find_pos_some in Hj. split; [done|]. cbn.
    rw list_lookup_fmap in Hj. destruct (c_children x !! j) as [y|] eqn:Hy; [|done]. cbn in Hj. injection Hj as Hn.
    apply (Forall_alter_at (schema_in (c_name x)) _ _ _ _ y Hy) with (3 := Hs); [|done].
    destruct (Forall_lookup_1 _ _ _ _ Hs Hy) as (H1 & H2 & _). split; [done|split; [done|]]. cbn.
    rw Hc Hn. by apply loadTables_in.
Qed.
End Typing.

(** C6.  The tree is well-formed at all times: whatever list the server gives
    first and whatever nodes are refreshed afterwards, in any order, every
    catalog name occurs once, every schema lies under the catalog it names, with
    the names of both in its key, and what is under a schema is either the
    request for the tables of this schema or tables whose own catalog and schema
    are the ones they are shown under.  Provided the server answers a request
    for the tables of a schema with tables of that schema: the code files an
    answer under the node it was asked for and does not compare the names. *)
Theorem tree_well_formed `{FindByNameLaw} data (refreshes : list (Item * Answer)) :
  Forall (fun r => answer_typed r.1 r.2) refreshes ->
  tree_typed (fold_left refreshItem refreshes (fetchSchemas data)).
Proof.
  intros Hr. assert (Ht : tree_typed (fetchSchemas data)).
  { destruct (fetchSchemas_ok data) as (Hnd & _ & Hf). split; [done|]. eapply Forall_impl; [exact Hf|].
    intros x (Hq & [_ Hs] & _). split; [done|]. eapply Forall_impl; [exact Hs|]. intros s ->. apply newSchema_in. }
  generalize dependent (fetchSchemas data). induction Hr as [|[item answer] rs Ha _ IH]; intros t Ht; [done|].
  apply IH. by apply refreshItem_typed.
Qed.

Import FindRef.

Lemma tree_well_formed_witness :
  tree_typed (fold_left refreshItem
    [({| i_type := SCHEMA; i_name := "web"; i_catalog := "hive" |},
      TableEntries [{| connectorId := "hive"; e_schema := "web"; e_table := "t"; e_fqn := "hive.web.t" |}]);
     ({| i_type := SCHEMA; i_name := "web"; i_catalog := "gone" |}, TableEntries [])]
    (fetchSchemas [("hive", ["web"; "tmp"])])).
Proof. apply tree_well_formed. by repeat constructor. Defined.
