(* ===== verification/SchemaTree.v ===== *)
(** * components/SchemaTree.jsx: favourites, ordering and reloading of the tree

    The favourites are three lists of records; an item is recognised by lodash
    matching its identifying properties.  The tree is redrawn by emptying the
    model and restoring it from a timer. *)

From S2P Require Import Prelude JsString JsObject Http SchemaActions.

(** A node of the tree: [schema] is set for tables, [catalog] for schemas and
    tables. *)
Record Node := { type : dataType; name : string; catalog : string; schema : string; favorite : bool }.

Record Favourites := {
  catalogs : list string;
  schemas : list (string * string);
  tables : list (string * string * string)
}.

Definition noFavourites : Favourites := {| catalogs := []; schemas := []; tables := [] |}.

(** lodash's [findIndex] with a predicate, -1 when nothing matches. *)
Class FindIndex := find_index : forall {A : Type}, (A -> bool) -> list A -> Z.
Class FindIndexLaw `{FindIndex} : Prop :=
  find_index_first : forall A (p : A -> bool) l, find_index p l = index_where p l.

(** What [isFavorite] answers. *)
Record Found := { found : bool; self : bool }.

#[export] Instance found_eq_dec : EqDecision Found.
Proof. solve_decision. Defined.

Section Favourites.
Context `{FindIndex}.
Implicit Types (item : Node) (f : Favourites).

Definition has {A} (p : A -> bool) (l : list A) : bool := negb (find_index p l =? -1).

(** The predicate of an item, matched against the three lists. *)
Definition matchCatalog item (c : string) : bool := streq c (name item).

Definition matchSchema item (s : string * string) : bool :=
  match type item with
  | CATALOG => streq s.1 (name item)
  | _ => streq s.1 (catalog item) && streq s.2 (name item)
  end.

Definition matchTable item (t : string * string * string) : bool :=
  let '(c, s, n) := t in
  match type item with
  | CATALOG => streq c (name item)
  | SCHEMA => streq c (catalog item) && streq s (name item)
  | TABLE => streq c (catalog item) && streq s (schema item) && streq n (name item)
  | ROOT => true                        (* no predicate: everything matches *)
  end.

Definition isFavorite f item : Found :=
  if bool_decide (type item = CATALOG) && has (matchCatalog item) (catalogs f)
  then {| found := true; self := true |}
  else if (bool_decide (type item = SCHEMA) || bool_decide (type item = CATALOG)) &&
          has (matchSchema item) (schemas f)
  then {| found := true; self := bool_decide (type item = SCHEMA) |}
  else if has (matchTable item) (tables f)
  then {| found := true; self := bool_decide (type item = TABLE) |}
  else {| found := false; self := false |}.

(** The new favourites, and whether the item is reloaded. *)
Definition addToFavorites f item : Favourites * bool :=
  match type item with
  | CATALOG =>
      if has (matchCatalog item) (catalogs f) then (f, false)
      else ({| catalogs := catalogs f ++ [name item]; schemas := schemas f; tables := tables f |}, true)
  | SCHEMA =>
      if has (matchSchema item) (schemas f) then (f, false)
      else ({| catalogs := catalogs f; schemas := schemas f ++ [(catalog item, name item)];
               tables := tables f |}, true)
  | _ =>
      let table := (catalog item, schema item, name item) in
      if has (fun t => bool_decide (t = table)) (tables f) then (f, false)
      else ({| catalogs := catalogs f; schemas := schemas f; tables := tables f ++ [table] |}, true)
  end%list.

(** [findIndex] and [splice(index, 1)]. *)
Definition removeFirst {A} (p : A -> bool) (l : list A) : list A :=
  let index := find_index p l in
  if negb (index =? -1) then (take (Z.to_nat index) l ++ drop (S (Z.to_nat index)) l)%list else l.

(** The item is always reloaded. *)
Definition removeFromFavorites f item : Favourites :=
  match type item with
  | CATALOG => {| catalogs := removeFirst (matchCatalog item) (catalogs f); schemas := schemas f;
                  tables := tables f |}
  | SCHEMA => {| catalogs := catalogs f; schemas := removeFirst (matchSchema item) (schemas f);
                 tables := tables f |}
  | TABLE => {| catalogs := catalogs f; schemas := schemas f;
                tables := removeFirst (matchTable item) (tables f) |}
  | ROOT => f
  end.

(** The comparison the tree sorts siblings by. *)
Variable localeCompare : string -> string -> Z.

Definition sortItems f item1 item2 : Z :=
  let isItem1Fav := found (isFavorite f item1) in
  let isItem2Fav := found (isFavorite f item2) in
  if isItem1Fav && negb isItem2Fav then -1
  else if isItem2Fav && negb isItem1Fav then 1
  else localeCompare (name item1) (name item2).
End Favourites.

(** ** Reloading *)

Section Reload.
Context {A : Type}.

(** The model shown, and the models the armed timers will restore, oldest
    first; every timer runs 100 ms after it was armed. *)
Record TreeState := { model : list A; pending : list (list A) }.

Definition reloadItem (s : TreeState) : TreeState :=
  {| model := []; pending := pending s ++ [model s] |}.

(** A reload timer fires. *)
Definition restore (s : TreeState) : TreeState :=
  match pending s with
  | [] => s
  | m :: rest => {| model := m; pending := rest |}
  end.

(** The answer of fetchSchemas is shown at once. *)
Definition updateTree (fetched : list A) (s : TreeState) : TreeState :=
  {| model := fetched; pending := pending s |}.

(** The answer of fetchChildren is shown by a timer. *)
Definition refreshItem (fetched : list A) (s : TreeState) : TreeState :=
  {| model := model s; pending := pending s ++ [fetched] |}.
End Reload.
Arguments TreeState : clear implicits.

(** ** The selected table *)

(** The colour of the elements of the document, by identifier. *)
Record Selection := { document : gmap string string; selectedTableName : string }.

Definition unselectTable (s : Selection) : Selection :=
  if streq (selectedTableName s) "" then s
  else
    {| document :=
         match document s !! selectedTableName s with
         | Some _ => <[selectedTableName s := "#222222"]> (document s)
         | None => document s
         end;
       selectedTableName := "" |}.

Definition selectTable (tableName : string) (s : Selection) : Selection :=
  let s := unselectTable s in
  match document s !! tableName with
  | None => s
  | Some _ => {| document := <[tableName := "#0000ff"]> (document s); selectedTableName := tableName |}
  end.

(** ** Deleting a catalog *)

Definition deletePrompt (name : string) : string :=
  if contains_str "." name
  then "The operation will delete all catalogs of this datacenter, Are you sure you want to delete the datacenter?"
  else "Are you sure you want to delete the catalog?".

Inductive DeleteOutcome := Alert (text : string) | UpdateTree.

(** The part of a message before the first line break. *)
Definition firstLine (message : string) : string :=
  nth 0 (split (ascii_of_nat 10) message) "".

Definition deleteReport (res : ActionResult) : DeleteOutcome :=
  if succeeded res then UpdateTree
  else if contains_str "Not Found (code: 404)" (message res)
  then Alert "Error while delete catalog: service is not available. Maybe the catalog is not manually added."
  else Alert ("Error while delete catalog:" ++ firstLine (message res)).

(** ** Facts *)

#[local] Arguments streq : simpl never.

Section Facts.
Context `{FindIndexLaw}.
Implicit Types (item : Node) (f : Favourites).

Lemma index_where_cons {A} (p : A -> bool) x l :
  (index_where p l = -1 \/ 0 <= index_where p l) /\
  index_where p (x :: l) =
    if p x then 0 else if index_where p l =? -1 then -1 else index_where p l + 1.
Proof.
  assert (Hr : index_where p l = -1 \/ 0 <= index_where p l).
  { induction l as [|y l IH]; cbn; [by left|]. destruct (p y); [lia|].
    destruct (Z.ltb_spec (index_where p l) 0); lia. }
  split; [done|]. cbn. destruct (p x); [done|].
  destruct (Z.ltb_spec (index_where p l) 0), (Z.eqb_spec (index_where p l) (-1)); lia.
Qed.

Lemma has_existsb {A} (p : A -> bool) l : has p l = existsb p l.
Proof.
  unfold has. rw find_index_first. induction l as [|x l IH]; [done|].
  destruct (index_where_cons p x l) as [Hr ->]. cbn [existsb]. rw -IH.
  destruct (p x); [done|]. cbn [orb].
  destruct (Z.eqb_spec (index_where p l) (-1)); [done|].
  destruct (Z.eqb_spec (index_where p l + 1) (-1)); [lia|done].
Qed.

Lemma has_spec {A} (p : A -> bool) l : has p l = true <-> exists x, x ∈ l /\ p x = true.
Proof.
  rw has_existsb existsb_exists. split; intros (x & Hx & Hp); exists x; (split; [|done]);
    by apply list_elem_of_In.
Qed.

Lemma removeFirst_filter {A} (p : A -> bool) l :
  NoDup l -> (forall x y, p x = true -> p y = true -> x = y) ->
  removeFirst p l = List.filter (fun x => negb (p x)) l.
Proof.
  intros Hnd Hp. unfold removeFirst. rw find_index_first. induction l as [|x l IH]; [done|].
  apply NoDup_cons in Hnd as [Hx Hnd]. destruct (index_where_cons p x l) as [Hr ->]. cbn [List.filter].
  destruct (p x) eqn:Hpx.
  - cbn. symmetry. apply forallb_filter_id. apply forallb_forall. intros y Hy%list_elem_of_In.
    destruct (p y) eqn:Hpy; [|done]. exfalso. apply Hx. by rw (Hp x y).
  - rw -IH //. cbn [negb]. destruct (Z.eqb_spec (index_where p l) (-1)) as [|Hne]; [done|].
    destruct (Z.eqb_spec (index_where p l + 1) (-1)); [lia|]. cbn [negb].
    rw Z2Nat.inj_add; [lia|lia|]. change (Z.to_nat 1) with 1%nat. rw Nat.add_1_r. done.
Qed.

(** Whether an item is a favourite itself, and whether something below it is. *)
Definition is_self f item : Prop :=
  match type item with
  | CATALOG => name item ∈ catalogs f
  | SCHEMA => (catalog item, name item) ∈ schemas f
  | TABLE => (catalog item, schema item, name item) ∈ tables f
  | ROOT => False
  end.

Definition is_above f item : Prop :=
  match type item with
  | CATALOG => (exists s, (name item, s) ∈ schemas f) \/ (exists s t, (name item, s, t) ∈ tables f)
  | SCHEMA => exists t, (catalog item, name item, t) ∈ tables f
  | _ => False
  end.

Lemma streq_true a b : streq a b = true <-> a = b.
Proof. by destruct (streq_spec a b). Qed.

Lemma has_catalog f item : type item = CATALOG -> has (matchCatalog item) (catalogs f) = true <-> is_self f item.
Proof.
  intros Ht. rw has_spec. unfold is_self, matchCatalog. rw Ht. split.
  - by intros (c & Hc & ->%streq_true).
  - intros Hin. exists (name item). split; [done|]. by apply streq_true.
Qed.

Lemma has_schema f item :
  type item = SCHEMA -> has (matchSchema item) (schemas f) = true <-> is_self f item.
Proof.
  intros Ht. rw has_spec. unfold is_self, matchSchema. rw Ht. split.
  - intros ([c s] & Hc & [H1%streq_true H2%streq_true]%andb_true_iff). cbn in H1, H2. by subst.
  - intros Hin. eexists. split; [exact Hin|]. cbn. by rw !(proj2 (streq_true _ _) eq_refl).
Qed.

Lemma has_table f item : type item = TABLE -> has (matchTable item) (tables f) = true <-> is_self f item.
Proof.
  intros Ht. rw has_spec. unfold is_self, matchTable. rw Ht. split.
  - intros ([[c s] t] & Hc & [[->%streq_true ->%streq_true]%andb_true_iff ->%streq_true]%andb_true_iff).
    done.
  - intros Hin. eexists. split; [exact Hin|]. cbn. by rw !(proj2 (streq_true _ _) eq_refl).
Qed.

Lemma has_schema_below f item :
  type item = CATALOG -> has (matchSchema item) (schemas f) = true <-> exists s, (name item, s) ∈ schemas f.
Proof.
  intros Ht. rw has_spec. unfold matchSchema. rw Ht. split.
  - intros ([c s] & Hc & H1%streq_true). cbn in H1. subst. eauto.
  - intros [s Hin]. eexists. split; [exact Hin|]. by apply streq_true.
Qed.

Lemma has_table_below f item :
  type item = CATALOG \/ type item = SCHEMA ->
  has (matchTable item) (tables f) = true <->
  match type item with
  | CATALOG => exists s t, (name item, s, t) ∈ tables f
  | _ => exists t, (catalog item, name item, t) ∈ tables f
  end.
Proof.
  intros Ht. rw has_spec. unfold matchTable. destruct Ht as [Ht|Ht]; rw Ht; split.
  - intros ([[c s] t] & Hc & ->%streq_true). eauto.
  - intros (s & t & Hin). eexists. split; [exact Hin|]. by apply streq_true.
  - intros ([[c s] t] & Hc & [->%streq_true ->%streq_true]%andb_true_iff). eauto.
  - intros [t Hin]. eexists. split; [exact Hin|]. cbn. by rw !(proj2 (streq_true _ _) eq_refl).
Qed.

(** [isFavorite] decides both. *)
Lemma isFavorite_spec f item :
  type item <> ROOT ->
  (self (isFavorite f item) = true <-> is_self f item) /\
  (found (isFavorite f item) = true <-> is_self f item \/ is_above f item).
Proof.
  intros Hroot. unfold isFavorite, is_above.
  destruct (type item) eqn:Ht; [done| | |];
    repeat match goal with |- context [bool_decide (?a = ?b :> dataType)] =>
      let v := eval vm_compute in (bool_decide (a = b)) in change (bool_decide (a = b)) with v
    end; cbn [andb orb].
  - rw -(has_catalog f item Ht) -(has_schema_below f item Ht).
    pose proof (has_table_below f item (or_introl Ht)) as Hb. rw Ht in Hb. rw -Hb.
    destruct (has (matchCatalog item) (catalogs f)), (has (matchSchema item) (schemas f)),
      (has (matchTable item) (tables f)); cbn; intuition done.
  - rw -(has_schema f item Ht).
    pose proof (has_table_below f item (or_intror Ht)) as Hb. rw Ht in Hb. rw -Hb.
    destruct (has (matchSchema item) (schemas f)), (has (matchTable item) (tables f)); cbn; intuition done.
  - rw -(has_table f item Ht). destruct (has (matchTable item) (tables f)); cbn; intuition done.
Qed.

(** Two nodes with the same identity, as far as favourites are concerned. *)
Definition same_id (x y : Node) : Prop :=
  type x = type y /\
  match type x with
  | CATALOG => name x = name y
  | SCHEMA => catalog x = catalog y /\ name x = name y
  | _ => catalog x = catalog y /\ schema x = schema y /\ name x = name y
  end.

Definition no_repeats f : Prop := NoDup (catalogs f) /\ NoDup (schemas f) /\ NoDup (tables f).

Lemma has_table_eq f (x : string * string * string) :
  has (fun t => bool_decide (t = x)) (tables f) = true <-> x ∈ tables f.
Proof.
  rw has_spec. split; [by intros (y & Hy & ->%bool_decide_eq_true)|]. intros Hx. exists x.
  by rw bool_decide_eq_true.
Qed.

(** Membership of a node that has the identity of [item], or another type. *)
Ltac by_identity x item :=
  split; [by left|]; intros [?|[Htx Hid]]; [done|]; try discriminate Htx; destruct_and? Hid;
  repeat match goal with Hq : _ x = _ item |- _ => rw Hq end; tauto.

Lemma add_spec f item :
  type item <> ROOT -> no_repeats f ->
  no_repeats (addToFavorites f item).1 /\
  forall x, type x <> ROOT ->
    is_self (addToFavorites f item).1 x <-> is_self f x \/ same_id x item.
Proof.
  intros Hroot (H1 & H2 & H3). unfold addToFavorites.
  pose proof (has_catalog f item) as Hc. pose proof (has_schema f item) as Hs.
  pose proof (has_table_eq f (catalog item, schema item, name item)) as Htb.
  unfold is_self in Hc, Hs. unfold no_repeats, is_self, same_id.
  destruct (type item) eqn:Ht; [done| | |].
  - specialize (Hc eq_refl). clear Hs Htb.
    destruct (has (matchCatalog item) (catalogs f)); cbn; (split; [|intros x Hx; clear H1 H2 H3 Hx Ht Hroot]).
    + done.
    + destruct (type x); by_identity x item.
    + split; [|done]. apply NoDup_snoc; [done|]. by rw -Hc.
    + clear Hc. destruct (type x); rw ?elem_of_snoc; intuition discriminate.
  - specialize (Hs eq_refl). clear Hc Htb.
    destruct (has (matchSchema item) (schemas f)); cbn; (split; [|intros x Hx; clear H1 H2 H3 Hx Ht Hroot]).
    + done.
    + destruct (type x); by_identity x item.
    + split; [done|split; [|done]]. apply NoDup_snoc; [done|]. by rw -Hs.
    + clear Hs. destruct (type x); rw ?elem_of_snoc ?pair_eq; intuition discriminate.
  - clear Hc Hs. destruct (has _ (tables f)); cbn; (split; [|intros x Hx; clear H1 H2 H3 Ht Hroot]).
    + done.
    + destruct (type x); by_identity x item.
    + split; [done|split; [done|]]. apply NoDup_snoc; [done|]. by rw -Htb.
    + clear Htb. destruct (type x); rw ?elem_of_snoc ?pair_eq; intuition discriminate.
Qed.

Lemma remove_spec f item :
  type item <> ROOT -> no_repeats f ->
  no_repeats (removeFromFavorites f item) /\
  forall x, type x <> ROOT ->
    is_self (removeFromFavorites f item) x <-> is_self f x /\ ~ same_id x item.
Proof.
  intros Hroot (H1 & H2 & H3). unfold removeFromFavorites, no_repeats, is_self, same_id.
  destruct (type item) eqn:Ht; [done| | |]; cbn [catalogs schemas tables].
  - rw removeFirst_filter //; [unfold matchCatalog; by intros ? ? ->%streq_true ->%streq_true|].
    split; [by split; [apply NoDup_filter_not|]|]. intros x Hx.
    unfold matchCatalog. clear.
    destruct (type x); rw ?elem_of_filter_not ?streq_neq; intuition discriminate.
  - rw removeFirst_filter //.
    { unfold matchSchema. rw Ht. intros [a b] [c d] [Ha%streq_true Hb%streq_true]%andb_true_iff
        [Hc%streq_true Hd%streq_true]%andb_true_iff. cbn in *. congruence. }
    split; [by split; [|split; [apply NoDup_filter_not|]]|]. intros x Hx.
    unfold matchSchema. rw Ht. clear. destruct (type x); rw ?elem_of_filter_not; cbn;
      rw ?andb_false_iff ?streq_neq; try (intuition discriminate).
    destruct (decide (catalog x = catalog item)), (decide (name x = name item)); intuition.
  - rw removeFirst_filter //.
    { unfold matchTable. rw Ht. intros [[a b] c] [[a' b'] c']
        [[Ha%streq_true Hb%streq_true]%andb_true_iff Hc%streq_true]%andb_true_iff
        [[Ha'%streq_true Hb'%streq_true]%andb_true_iff Hc'%streq_true]%andb_true_iff. congruence. }
    split; [by split; [|split; [|apply NoDup_filter_not]]|]. intros x Hx.
    unfold matchTable. rw Ht. clear. destruct (type x); rw ?elem_of_filter_not; cbn;
      rw ?andb_false_iff ?streq_neq; try (intuition discriminate).
    destruct (decide (catalog x = catalog item)), (decide (schema x = schema item)),
      (decide (name x = name item)); intuition.
Qed.
End Facts.

(** ** Properties *)

(** Favourites behave as a set: an item is its own favourite exactly when
    it was added and not removed since, and it is shown as found exactly when
    it or something below it is a favourite; adding and removing an item change
    the status of that item alone and never record it twice. *)
Theorem favourites_set `{FindIndexLaw} f item :
  type item <> ROOT -> no_repeats f ->
  ((self (isFavorite f item) = true <-> is_self f item) /\
   (found (isFavorite f item) = true <-> is_self f item \/ is_above f item)) /\
  (no_repeats (addToFavorites f item).1 /\
   forall x, type x <> ROOT -> is_self (addToFavorites f item).1 x <-> is_self f x \/ same_id x item) /\
  no_repeats (removeFromFavorites f item) /\
  forall x, type x <> ROOT -> is_self (removeFromFavorites f item) x <-> is_self f x /\ ~ same_id x item.
Proof.
  intros Hroot Hnr. split; [by apply isFavorite_spec|]. split; [by apply add_spec|by apply remove_spec].
Qed.

(** The order of siblings: favourites come first, and whenever the
    locale's comparison is a consistent order of names (signs are opposite
    when the arguments are swapped, and it is transitive), so is this one. *)
Theorem sortItems_order `{FindIndex} localeCompare f a b c :
  (forall x y, Z.sgn (localeCompare y x) = - Z.sgn (localeCompare x y)) ->
  (forall x y z, localeCompare x y <= 0 -> localeCompare y z <= 0 -> localeCompare x z <= 0) ->
  let cmp := sortItems localeCompare f in
  Z.sgn (cmp b a) = - Z.sgn (cmp a b) /\
  (cmp a b <= 0 -> cmp b c <= 0 -> cmp a c <= 0) /\
  (found (isFavorite f a) = true -> found (isFavorite f b) = false -> cmp a b < 0).
Proof.
  intros Hsym Htrans. cbv zeta. unfold sortItems.
  destruct (found (isFavorite f a)), (found (isFavorite f b)), (found (isFavorite f c)); cbn;
    (split; [first [apply Hsym|done]|split; [try (intros; first [lia|by eapply Htrans])|]]); try done; lia.
Qed.

Lemma iter_restore {A} (p : list (list A)) m :
  Nat.iter (length p) restore {| model := m; pending := p |} = {| model := List.last p m; pending := [] |}.
Proof.
  revert m. induction p as [|x p IH]; intros m; [done|]. cbn [length]. rw Nat.iter_succ_r.
  change (restore {| model := m; pending := x :: p |}) with {| model := x; pending := p |}.
  rw IH. destruct p as [|y p]; [done|]. f_equal. cbn [List.last]. clear. revert y.
  induction p as [|z p IH]; intros y; [done|]. apply IH.
Qed.

Lemma iter_reload {A} (m : list A) n :
  Nat.iter (S n) reloadItem {| model := m; pending := [] |} =
    {| model := []; pending := m :: replicate n [] |}.
Proof.
  induction n as [|n IH]; [done|]. rw Nat.iter_succ IH. unfold reloadItem. cbn [model pending]. f_equal.
  cbn [app]. f_equal. by rw -replicate_cons_app.
Qed.

(** Reloading restores the tree when its timer fires before anything
    else; but after two or more overlapping reloads the tree is empty once all
    their timers have fired, and a tree that was fetched between a reload and
    its timer is replaced by the old one. *)
Theorem reload_races {A} (m fetched : list A) n :
  let s := {| model := m; pending := [] |} in
  Nat.iter n restore (Nat.iter n reloadItem s) =
    {| model := if (n <=? 1)%nat then m else []; pending := [] |} /\
  restore (updateTree fetched (reloadItem s)) = s.
Proof.
  intros s. split; [|done]. destruct n as [|n]; [done|]. unfold s. rw iter_reload.
  pose proof (iter_restore (m :: replicate n []) []) as Hr. cbn [length] in Hr.
  rw length_replicate in Hr. rw Hr. f_equal. destruct n as [|n]; [done|]. cbn.
  clear. induction n as [|n IH]; [done|]. exact IH.
Qed.

Module FindIndexRef.
#[export] Instance find_index_ref : FindIndex := @index_where.
#[export] Instance find_index_ref_law : FindIndexLaw.
Proof. by intros A p l. Qed.
End FindIndexRef.

Import FindIndexRef.

Definition example_table : Node :=
  {| type := TABLE; name := "logs"; catalog := "hive"; schema := "web"; favorite := false |}.

Lemma favourites_set_witness :
  ((self (isFavorite noFavourites example_table) = true <-> is_self noFavourites example_table) /\
   (found (isFavorite noFavourites example_table) = true <->
      is_self noFavourites example_table \/ is_above noFavourites example_table)) /\
  (no_repeats (addToFavorites noFavourites example_table).1 /\
   forall x, type x <> ROOT ->
     is_self (addToFavorites noFavourites example_table).1 x <->
     is_self noFavourites x \/ same_id x example_table) /\
  no_repeats (removeFromFavorites noFavourites example_table) /\
  forall x, type x <> ROOT ->
    is_self (removeFromFavorites noFavourites example_table) x <->
    is_self noFavourites x /\ ~ same_id x example_table.
Proof.
  apply (favourites_set noFavourites example_table); [discriminate|].
  split; [constructor|split; constructor].
Defined.

(** A comparison of names by length. *)
Definition by_length (x y : string) : Z := Z.of_nat (String.length x) - Z.of_nat (String.length y).

Lemma sortItems_order_witness :
  let cmp := sortItems by_length (addToFavorites noFavourites example_table).1 in
  let other := {| type := TABLE; name := "a"; catalog := "hive"; schema := "web"; favorite := false |} in
  Z.sgn (cmp other example_table) = - Z.sgn (cmp example_table other) /\
  (cmp example_table other <= 0 -> cmp other other <= 0 -> cmp example_table other <= 0) /\
  (found (isFavorite (addToFavorites noFavourites example_table).1 example_table) = true ->
   found (isFavorite (addToFavorites noFavourites example_table).1 other) = false ->
   cmp example_table other < 0).
Proof.
  apply sortItems_order.
  - intros x y. unfold by_length. lia.
  - intros x y z. unfold by_length. lia.
Defined.
