(* ===== verification/RefreshLoop.v ===== *)
(** * The refresh loop the pages share

    A page clears its timer and sends a request; when the answer or the failure
    arrives it changes its state and arms the timer again, unless the query it
    shows has ended.  The pages differ in what they send along, what an answer
    does to the state and when they stop: that is the interface.

    A change of the state draws the page before the handler goes on (React 16,
    outside its own events).  When drawing throws, React takes the whole page
    away and the exception ends the handler, so that the timer is not armed. *)

From stdpp Require Import relations.
From S2P Require Import Prelude Timers.

(** A page with state [S]; [P] is what the request's callback captured when it
    was sent, [R] an answer. *)
Class RefreshLoop (S P R : Type) := {
  capture : S -> P;
  on_answer : P -> R -> S -> S;
  on_fail : S -> S;
  stopped : S -> bool;            (* resetTimer arms no timer *)
  interval : Z;
  (** the failure handler also gets what the handler of an answer throws: the
      [catch] of a promise does, the [fail] of jQuery does not *)
  recovers : bool
}.

(** Whether drawing the page in a state throws: its render methods, or those that
    run after an update. *)
Class Rendering (S : Type) := breaks : S -> bool.

Record Page (S P : Type) := {
  page : S;
  pending : list P;               (* requests that were not answered *)
  clock : Timers;
  timeoutId : option nat;
  unmounted : bool                (* drawing threw, and the page was taken away *)
}.
Arguments page {S P}.
Arguments pending {S P}.
Arguments clock {S P}.
Arguments timeoutId {S P}.
Arguments unmounted {S P}.
Arguments Build_Page {S P}.

Section Loop.
Context `{RefreshLoop St P R} `{Rendering St}.
Implicit Types w : Page St P.

(** The page is drawn at once; without it there is no effect. *)
Definition setState (st : St) w : Page St P :=
  if unmounted w then w else Build_Page st (pending w) (clock w) (timeoutId w) (breaks st).

Definition resetTimer w : Page St P :=
  if stopped (page w) then
    Build_Page (page w) (pending w) (clearTimeout (timeoutId w) (clock w)) (timeoutId w) (unmounted w)
  else
    let '(id, t) := rearm (timeoutId w) interval (clock w) in
    Build_Page (page w) (pending w) t id (unmounted w).

Definition refreshLoop w : Page St P :=
  Build_Page (page w) (pending w ++ [capture (page w)])%list
    (clearTimeout (timeoutId w) (clock w)) (timeoutId w) (unmounted w).

(** The handlers of an answer and of a failure: setState, and resetTimer unless
    that threw.  A failure handler that gets the exception finds the page gone:
    its own setState has no effect, and it resets the timer. *)
Definition handle (answer : option R) (st : St) w : Page St P :=
  let w' := setState st w in
  let threw := negb (unmounted w) && unmounted w' in
  let rescued := recovers && bool_decide (is_Some answer) in
  if threw && negb rescued then w' else resetTimer w'.

(** The i-th outstanding request is answered; answers may overtake each other. *)
Definition settle (i : nat) (answer : option R) w : option (Page St P) :=
  p ← pending w !! i;
  let st := match answer with Some r => on_answer p r (page w) | None => on_fail (page w) end in
  Some (handle answer st
    (Build_Page (page w) (delete i (pending w)) (clock w) (timeoutId w) (unmounted w))).

Definition fireTimer (id : nat) w : option (Page St P) :=
  if existsb (fun p => (p.1 =? id)%nat) (armed (clock w))
  then Some (refreshLoop (Build_Page (page w) (pending w) (fire id (clock w)) (timeoutId w) (unmounted w)))
  else None.

(** The user changes the page; [refresh] says whether the change asks for a
    refresh, which is sent before the page is drawn.  No control makes a page
    stop. *)
Definition userChange (f : St -> St) (refresh : bool) w : Page St P :=
  let w := setState (f (page w)) w in
  if refresh then
    Build_Page (page w) (pending w ++ [capture (page w)])%list (clock w) (timeoutId w) (unmounted w)
  else w.

Definition mount (st : St) : Page St P := refreshLoop (Build_Page st [] no_timers None false).

(** What happens without the user: the timer fires or an answer arrives. *)
Inductive step (w w' : Page St P) : Prop :=
  | step_timer id : fireTimer id w = Some w' -> step w w'
  | step_settle i a : settle i a w = Some w' -> step w w'.

(** A page that was taken away has no controls. *)
Inductive reachable (st : St) : Page St P -> Prop :=
  | reach_mount : breaks st = false -> reachable st (mount st)
  | reach_step w w' : reachable st w -> step w w' -> reachable st w'
  | reach_user w f refresh :
      reachable st w -> unmounted w = false -> (forall s, stopped (f s) = stopped s) ->
      reachable st (userChange f refresh w).

(** A request is under way or a timer is armed. *)
Definition polls w : Prop := pending w <> [] \/ armed (clock w) <> [].

Record timer_ok (id : option nat) (t : Timers) : Prop := {
  ok_timer : only_timer id t;
  ok_interval : forall i d, (i, d) ∈ armed t -> d = interval
}.

Record loop_ok w : Prop := {
  ok_timers : timer_ok (timeoutId w) (clock w);
  ok_drawn : unmounted w = breaks (page w);
  ok_alive : stopped (page w) = true \/ polls w \/ unmounted w = true
}.

Lemma armed_clear id t i d : (i, d) ∈ armed (clearTimeout id t) -> (i, d) ∈ armed t.
Proof.
  destruct id as [j|]; [|done]. cbn. intros Hin. apply list_elem_of_In in Hin.
  apply List.filter_In in Hin as [Hin _]. by apply list_elem_of_In.
Qed.

Lemma clear_timer_ok i id t : timer_ok id t -> timer_ok id (clearTimeout i t).
Proof.
  intros [Ht Hi]. split; cbn; [by apply clear_only_timer|]. intros j d Hin%armed_clear. eauto.
Qed.

Lemma resetTimer_ok w :
  timer_ok (timeoutId w) (clock w) ->
  timer_ok (timeoutId (resetTimer w)) (clock (resetTimer w)) /\ page (resetTimer w) = page w /\ unmounted (resetTimer w) = unmounted w /\
  (stopped (page w) = true \/ polls (resetTimer w)).
Proof.
  intros Hok. unfold resetTimer. destruct (stopped (page w)).
  - split; [by apply clear_timer_ok|]. split; [done|]. split; [done|by left].
  - destruct Hok as [Ht Hi]. destruct (rearm_armed (timeoutId w) interval (clock w) Ht) as (H1 & H2 & H3).
    destruct (rearm (timeoutId w) interval (clock w)) as [id t]. cbn in H1, H2, H3.
    split; [split; cbn|]; [done| |split; [done|]; split; [done|]; right; right; cbn; by rw H1].
    intros i d. rw H1. by intros [= -> ->]%list_elem_of_singleton.
Qed.

Lemma refreshLoop_ok w :
  timer_ok (timeoutId w) (clock w) ->
  timer_ok (timeoutId (refreshLoop w)) (clock (refreshLoop w)) /\ polls (refreshLoop w).
Proof. intros Hok. split; [by apply clear_timer_ok|]. left. cbn. by destruct (pending w). Qed.

(** A page that is shown was drawn, and setState leaves it so or takes it away. *)
Lemma setState_drawn st w :
  unmounted w = breaks (page w) -> unmounted (setState st w) = breaks (page (setState st w)).
Proof. intros Hd. unfold setState. destruct (unmounted w) eqn:Hu; [by rw Hu|done]. Qed.

Lemma setState_timers st w : timeoutId (setState st w) = timeoutId w /\ clock (setState st w) = clock w.
Proof. unfold setState. by destruct (unmounted w). Qed.

Lemma loop_handles answer st w :
  timer_ok (timeoutId w) (clock w) -> unmounted w = breaks (page w) -> loop_ok (handle answer st w).
Proof.
  intros Hok Hd. destruct (setState_timers st w) as [Hi Hc]. rw -Hi -Hc in Hok. pose proof (setState_drawn st w Hd) as Hd'.
  unfold handle. destruct (_ && negb _) eqn:Hb.
  - split; [done|done|]. apply andb_true_iff in Hb as [[_ Hu]%andb_true_iff _]. by do 2 right.
  - destruct (resetTimer_ok (setState st w) Hok) as (H1 & H2 & H3 & H4).
    split; [done|by rw H2 H3|]. rw H2. tauto.
Qed.

Lemma fireTimer_some id w w' :
  fireTimer id w = Some w' ->
  existsb (fun p => (p.1 =? id)%nat) (armed (clock w)) = true /\
  w' = refreshLoop (Build_Page (page w) (pending w) (fire id (clock w)) (timeoutId w) (unmounted w)).
Proof. unfold fireTimer. destruct (existsb _ _); [|done]. by intros [= <-]. Qed.

Lemma loop_steps w w' : loop_ok w -> step w w' -> loop_ok w'.
Proof.
  intros [Hok Hd _] [id [_ ->]%fireTimer_some|i a Hf].
  - destruct (refreshLoop_ok (Build_Page (page w) (pending w) (fire id (clock w)) (timeoutId w) (unmounted w)))
      as [H1 H2]; [by apply clear_timer_ok|]. split; [done|done|by right; left].
  - unfold settle in Hf. destruct (pending w !! i) as [p|]; [|done]. injection Hf as <-.
    by apply loop_handles.
Qed.

Lemma reachable_loop_ok st w : reachable st w -> loop_ok w.
Proof.
  induction 1 as [Hb|w w' _ IH Hs|w f refresh _ IH Hu Hf].
  - destruct (refreshLoop_ok (Build_Page st [] no_timers None false)) as [H1 H2].
    { split; [apply no_timers_only|]. by intros i d ?%elem_of_nil. }
    split; [done|done|by right; left].
  - by apply (loop_steps w).
  - destruct IH as [[Ht Hi] Hd Ha]. unfold userChange, setState. rw Hu. rw Hu in Ha.
    destruct refresh; split; try done; cbn; rw Hf.
    + right. left. left. cbn. by destruct (pending w).
    + destruct Ha as [?|[?|?]]; [by left|by right; left|done].
Qed.

(** Where the failure handler also gets the exceptions, and draws what can be
    drawn, the loop goes on whatever is drawn. *)
Lemma recovers_polls st w :
  recovers = true ->
  (forall w, reachable st w -> unmounted w = false -> breaks (on_fail (page w)) = false) ->
  reachable st w -> stopped (page w) = true \/ polls w.
Proof.
  intros Hrec Hfail. induction 1 as [Hb|w w' Hw IH Hs|w f refresh _ IH Hu Hf].
  - right. by left.
  - pose proof (reachable_loop_ok _ _ Hw) as [Hok Hd _]. destruct Hs as [id [_ ->]%fireTimer_some|i a Hs].
    + right. apply refreshLoop_ok. by apply clear_timer_ok.
    + unfold settle in Hs. destruct (pending w !! i) as [p|]; [|done]. injection Hs as <-.
      set (w0 := Build_Page _ _ _ _ _).
      unfold handle. rw Hrec. destruct (_ && negb _) eqn:Hb.
      * exfalso. destruct a as [r|]; [by rw andb_false_r in Hb|]. rw andb_true_r in Hb.
        unfold setState in Hb. cbn [unmounted w0] in Hb. destruct (unmounted w) eqn:Hu; [done|].
        cbn in Hb. by rw Hfail in Hb.
      * match goal with |- context [resetTimer ?w1] =>
          destruct (resetTimer_ok w1) as (_ & -> & _ & H4); [|exact H4] end.
        match goal with |- context [setState ?st ?w1] => by destruct (setState_timers st w1) as [-> ->] end.
  - unfold userChange, setState. rw Hu. destruct refresh; cbn; rw Hf; [right; left; cbn; by destruct (pending w)|].
    exact IH.
Qed.

(** A page that was taken away and has not stopped polls for good. *)
Lemma unmounted_polls w w' :
  unmounted w = true -> stopped (page w) = false -> polls w -> rtc step w w' ->
  page w' = page w /\ unmounted w' = true /\ polls w'.
Proof.
  intros Hu Hs Hp. induction 1 as [w|w w1 w' Hstep _ IH]; [done|].
  enough (page w1 = page w /\ unmounted w1 = true /\ polls w1) as (Hpage & Hu1 & Hp1).
  { rw Hpage in IH. by apply IH. }
  destruct Hstep as [id [_ ->]%fireTimer_some|i a Hf].
  - split; [done|]. split; [done|]. left. cbn. by destruct (pending w).
  - unfold settle in Hf. destruct (pending w !! i) as [p|]; [|done]. injection Hf as <-.
    unfold handle, setState, resetTimer. cbn [unmounted]. rw Hu. cbn [negb andb page]. rw Hs.
    destruct (rearm _ _ _) as [id t] eqn:Hr. split; [done|]. split; [done|]. right. cbn.
    unfold rearm, setTimeout in Hr. by injection Hr as <- <-.
Qed.

Lemma idle_nf w : ~ polls w -> nf step w.
Proof.
  intros Hp [w' [id [Hf _]%fireTimer_some|i a Hf]]; apply Hp.
  - right. by destruct (armed (clock w)).
  - left. unfold settle in Hf. by destruct (pending w).
Qed.

(** An answer that cannot be drawn, on a page whose failure handler does not get
    the exception. *)
Lemma settle_lost i p r w w' :
  recovers = false -> unmounted w = false -> pending w !! i = Some p ->
  breaks (on_answer p r (page w)) = true -> settle i (Some r) w = Some w' ->
  w' = Build_Page (on_answer p r (page w)) (delete i (pending w)) (clock w) (timeoutId w) true.
Proof.
  intros Hrec Hu Hi Hb Hs. unfold settle in Hs. rw Hi in Hs. injection Hs as <-.
  unfold handle, setState. cbn [unmounted]. rw Hu. cbn [unmounted]. by rw Hb Hrec.
Qed.

(** The same where the failure handler gets the exception. *)
Lemma settle_rescued i p r w w' :
  recovers = true -> unmounted w = false -> pending w !! i = Some p ->
  breaks (on_answer p r (page w)) = true -> settle i (Some r) w = Some w' ->
  page w' = on_answer p r (page w) /\ unmounted w' = true /\ (stopped (page w') = false -> polls w').
Proof.
  intros Hrec Hu Hi Hb Hs. unfold settle in Hs. rw Hi in Hs. injection Hs as <-.
  unfold handle, setState. cbn [unmounted]. rw Hu. cbn [unmounted]. rw Hb Hrec. cbn [negb andb bool_decide_eq_true].
  rw bool_decide_eq_true_2; [by eexists|]. cbn [negb]. unfold resetTimer. cbn [page].
  destruct (stopped (on_answer p r (page w))) eqn:Hst.
  { split; [done|]. split; [done|]. cbn. by rw Hst. }
  destruct (rearm _ _ _) as [id t] eqn:Hr. split; [done|]. split; [done|]. intros _. right. cbn.
  unfold rearm, setTimeout in Hr. by injection Hr as <- <-.
Qed.
End Loop.

(** C17.  When the refresh loop goes on.  In every reachable state of a page built
    on it, whatever the user and the server did, at most one timer is armed, and
    with the page's interval; and the page has stopped for good, or a request is
    under way, or a timer is armed, or what it shows could not be drawn, so that
    it was taken away.  Where the failure handler also gets the exceptions, and
    draws what can be drawn, the loop goes on even then.  Where it does not, the
    answer that cannot be drawn ends the loop of a page that has not stopped:
    unless another request is under way or a timer armed, nothing happens any
    more. *)
Theorem refresh_goes_on `{RefreshLoop St P R} `{Rendering St} st w :
  reachable st w ->
  ((length (armed (clock w)) <= 1)%nat /\
   forall i d, (i, d) ∈ armed (clock w) -> timeoutId w = Some i /\ d = interval) /\
  (stopped (page w) = true \/ polls w \/ unmounted w = true /\ breaks (page w) = true) /\
  (recovers = true ->
   (forall w, reachable st w -> unmounted w = false -> breaks (on_fail (page w)) = false) ->
   stopped (page w) = true \/ polls w) /\
  (recovers = false -> unmounted w = false -> forall i p r w',
   pending w !! i = Some p -> breaks (on_answer p r (page w)) = true -> settle i (Some r) w = Some w' ->
   unmounted w' = true /\ page w' = on_answer p r (page w) /\
   (polls w' <-> armed (clock w) <> [] \/ delete i (pending w) <> []) /\ (~ polls w' -> nf step w')).
Proof.
  intros Hw. pose proof (reachable_loop_ok _ _ Hw) as [[(Ht1 & Ht2 & _) Hi] Hd Ha].
  split; [split; [done|by eauto]|]. split; [|split].
  - destruct Ha as [?|[?|Hu]]; [by left|by right; left|]. do 2 right. by rw -Hd.
  - intros Hrec Hfail. by apply (recovers_polls st).
  - intros Hrec Hu i p r w' Hp Hb Hs. split; [|split; [|split; [|apply idle_nf]]].
    all: rw (settle_lost i p r w w' Hrec Hu Hp Hb Hs) //. unfold polls. cbn. tauto.
Qed.

(** ** The end of the loop *)

(** A page that shows something that ends: a final answer stops it, and a
    failure does not start it again. *)
Class EndingLoop (S P R : Type) `{RefreshLoop S P R} (Final : R -> Prop) := {
  final_stops p r s : Final r -> stopped (on_answer p r s) = true;
  fail_keeps s : stopped s = true -> stopped (on_fail s) = true;
}.

Section Ending.
Context `{EndingLoop St P R Final} `{Rendering St}.
Implicit Types w : Page St P.

(** What happens by itself once the server's answers are final. *)
Inductive ending w w' : Prop :=
  | ending_timer id : fireTimer id w = Some w' -> ending w w'
  | ending_settle i a : (forall r, a = Some r -> Final r) -> settle i a w = Some w' -> ending w w'.

(** A timer counts twice, because it sends a request when it fires. *)
Definition to_do w : nat := 2 * length (armed (clock w)) + length (pending w).

Lemma handle_stopped answer st w :
  stopped (page w) = true -> stopped st = true ->
  stopped (page (handle answer st w)) = true /\ (to_do (handle answer st w) <= to_do w)%nat.
Proof.
  intros Hw Hst. assert (Hs : stopped (page (setState st w)) = true).
  { unfold setState. by destruct (unmounted w). }
  assert (Ht : to_do (setState st w) = to_do w) by (unfold setState; by destruct (unmounted w)).
  unfold handle. destruct (_ && negb _); [by rw Ht|]. unfold resetTimer. rw Hs. split; [done|].
  rw -Ht. unfold to_do. cbn. pose proof (clear_length (timeoutId (setState st w)) (clock (setState st w))). lia.
Qed.

Lemma ending_less w w' :
  stopped (page w) = true -> ending w w' -> stopped (page w') = true /\ (to_do w' < to_do w)%nat.
Proof.
  intros Hs [id [He ->]%fireTimer_some|i a Ha Hf].
  - split; [done|]. unfold to_do. cbn. rw length_app. cbn. apply fire_length in He.
    pose proof (clear_length (timeoutId w) (fire id (clock w))). cbn in *. lia.
  - unfold settle in Hf. destruct (pending w !! i) as [p|] eqn:Hi; [|done]. injection Hf as <-.
    match goal with |- context [handle a ?st0 ?w1] => set (st := st0); set (w0 := w1) end.
    assert (Hst : stopped st = true) by (destruct a as [r|]; [by apply final_stops, Ha|by apply fail_keeps]).
    destruct (handle_stopped a st w0 Hs Hst) as [Hs2 Hless]. split; [done|].
    enough (to_do w0 < to_do w)%nat by lia. unfold to_do, w0. cbn. rw length_delete; [by eexists|].
    apply lookup_lt_Some in Hi. lia.
Qed.

(** With nothing left to do there is no request and no timer. *)
Lemma ending_nf w : nf ending w -> pending w = [] /\ armed (clock w) = [].
Proof.
  intros Hnf. split.
  - destruct (pending w) as [|p ps] eqn:Hp; [done|]. destruct Hnf. eexists.
    apply (ending_settle _ _ 0 None); [done|]. unfold settle. rw Hp. cbn. reflexivity.
  - destruct (armed (clock w)) as [|[i d] l] eqn:Ha; [done|]. destruct Hnf. eexists.
    apply (ending_timer _ _ i). unfold fireTimer. rw Ha. cbn. rw Nat.eqb_refl. reflexivity.
Qed.
End Ending.
