(* ===== verification/QueryText.v ===== *)
(** * The query text of QueryList.jsx and QueryMonitor.jsx

    Both pages carry the same class QueryListItem; its static functions remove
    the common indentation and the blank lines of a query. *)

From S2P Require Import Prelude JsString JsNumber Utils.

Module QueryListItem.
(** The first loop; it stops as soon as the minimum is 0. *)
Fixpoint minLeadingWhitespace (minimum : Z) (lines : list string) : Z :=
  match lines with
  | [] => minimum
  | line :: lines =>
      if minimum =? 0 then minimum
      else if strlen (trim line) =? 0 then minLeadingWhitespace minimum lines
      else
        let leadingWhitespace := search_nonspace line in
        minLeadingWhitespace
          (if (-1 <? leadingWhitespace) && ((leadingWhitespace <? minimum) || (minimum =? -1))
           then leadingWhitespace else minimum) lines
  end.

Definition trimmedLine (minimum : Z) (line : string) : string := trim_end (substring_from line minimum).

(** The second loop: every kept line but the last one of the text is followed
    by a line break. *)
Fixpoint formatLines (minimum : Z) (lines : list string) : string :=
  match lines with
  | [] => ""
  | line :: lines =>
      let t := trimmedLine minimum line in
      (if 0 <? strlen t
       then t ++ match lines with [] => "" | _ => String "010" "" end else "")
      ++ formatLines minimum lines
  end.

Definition getAllQueryText (queryText : string) : string :=
  let lines := split "010" queryText in
  formatLines (minLeadingWhitespace (-1) lines) lines.

Definition stripQueryTextWhitespace (queryText : string) : option string :=
  truncateString (Some (getAllQueryText queryText)) 550.

Definition isShowMore (queryText : string) : bool :=
  let formattedQueryText := getAllQueryText queryText in
  let row := Z.of_nat (length (split "010" formattedQueryText)) in
  negb (streq formattedQueryText "") && ((550 <? strlen formattedQueryText) || (8 <? row)).

Definition showModal (show : bool) : bool := negb show.
End QueryListItem.

(** QueryMonitor.jsx repeats the class, text for text. *)
Module QueryMonitorItem.
Definition getAllQueryText := QueryListItem.getAllQueryText.
Definition stripQueryTextWhitespace := QueryListItem.stripQueryTextWhitespace.
Definition isShowMore := QueryListItem.isShowMore.
Definition showModal := QueryListItem.showModal.
End QueryMonitorItem.

Import QueryListItem.

(** ** White space *)

Notation spaces := (all_chars is_space).

Lemma trim_end_spec s :
  exists q, s = trim_end s ++ q /\ spaces q = true /\ trim_end (trim_end s) = trim_end s.
Proof.
  induction s as [|c s (q & Hs & Hq & Hi)]; [by exists ""|]. cbn.
  destruct (is_space c) eqn:Hc; cbn [andb].
  - destruct (streq_spec (trim_end s) "") as [Ht|Ht].
    + exists (String c s). split; [done|]. cbn. rw Hc. rw Hs Ht. by cbn.
    + exists q. cbn. rw Hc. cbn [andb]. rw Hi. destruct (streq_spec (trim_end s) ""); [done|].
      split; [by rw {1}Hs|done].
  - exists q. cbn. rw Hc. cbn [andb]. rw Hi. split; [by rw {1}Hs|done].
Qed.

Lemma trim_end_nil s : trim_end s = "" <-> spaces s = true.
Proof.
  split.
  - intros Ht. destruct (trim_end_spec s) as (q & Hs & Hq & _). rw Ht in Hs. by rw Hs.
  - induction s as [|c s IH]; [done|]. cbn. intros [Hc Hs]%andb_prop. rw Hc (IH Hs). done.
Qed.

Lemma span_spaces s : spaces s = true -> span is_space s = (s, "").
Proof.
  induction s as [|c s IH]; [done|]. cbn. intros [-> Hs]%andb_prop. by rw (IH Hs).
Qed.

Lemma span_rest s c t : snd (span is_space s) = String c t -> is_space c = false.
Proof.
  induction s as [|d s IH]; [done|]. cbn. destruct (is_space d) eqn:Hd.
  - destruct (span is_space s) as [w r]. cbn in *. exact IH.
  - cbn. intros [= -> ->]. done.
Qed.

Lemma trim_blank s : strlen (trim s) = 0 <-> spaces s = true.
Proof.
  unfold trim, trim_start. split.
  - intros Hl. assert (Ht : trim_end (snd (span is_space s)) = "").
    { destruct (trim_end _); [done|]. str_lia. }
    apply trim_end_nil in Ht. rw -(span_app is_space s) all_chars_app Ht span_fst. done.
  - intros Hs. by rw (span_spaces s Hs).
Qed.

Lemma search_nonspace_spec s :
  (spaces s = true -> search_nonspace s = -1) /\
  (spaces s = false -> exists p c t, s = p ++ String c t /\ spaces p = true /\ is_space c = false /\
                                   search_nonspace s = strlen p).
Proof.
  unfold search_nonspace. split.
  - intros Hs. by rw (span_spaces s Hs).
  - intros Hs. pose proof (span_app is_space s) as Ha. pose proof (span_fst is_space s) as Hf.
    pose proof (span_rest s) as Hr. destruct (span is_space s) as [w [|c t]]; cbn in *.
    + rw append_nil_r in Ha. subst w. congruence.
    + exists w, c, t. split; [done|split; [done|split; [by eapply Hr|done]]].
Qed.

(** ** The common indentation *)

Definition blank (line : string) : Prop := spaces line = true.

Lemma strlen_trim_test line : (strlen (trim line) =? 0) = spaces line.
Proof.
  destruct (spaces line) eqn:Hs.
  - apply Z.eqb_eq. by apply trim_blank.
  - apply Z.eqb_neq. intros Hl%trim_blank. congruence.
Qed.

(** [k] is the least indentation of the lines that are not blank. *)
Definition least_indent (k : Z) (lines : list string) : Prop :=
  (forall line, line ∈ lines -> spaces line = false -> k <= search_nonspace line) /\
  exists line, line ∈ lines /\ spaces line = false /\ search_nonspace line = k.

Lemma search_nonneg line : spaces line = false -> 0 <= search_nonspace line.
Proof.
  intros Hs. destruct (proj2 (search_nonspace_spec line) Hs) as (p & c & t & _ & _ & _ & ->).
  apply strlen_nonneg.
Qed.

Lemma minLeadingWhitespace_spec minimum lines :
  -1 <= minimum ->
  let k := minLeadingWhitespace minimum lines in
  (minimum = -1 -> (k = -1 /\ Forall blank lines) \/ (0 <= k /\ least_indent k lines)) /\
  (0 <= minimum ->
     0 <= k <= minimum /\
     (forall line, line ∈ lines -> spaces line = false -> k <= search_nonspace line) /\
     (k = minimum \/ least_indent k lines)).
Proof.
  revert minimum. induction lines as [|line lines IH]; intros minimum Hm; cbv zeta;
    cbn [minLeadingWhitespace].
  { split.
    - intros ->. by left.
    - intros. split; [lia|]. split; [by intros ? ?%elem_of_nil|by left]. }
  destruct (Z.eqb_spec minimum 0) as [->|Hm0].
  { split; [done|]. intros _. split; [lia|split; [|by left]]. intros l _ Hl. by apply search_nonneg. }
  rw strlen_trim_test. destruct (spaces line) eqn:Hs.
  - destruct (IH minimum Hm) as [H1 H2]. split.
    + intros Hm1. destruct (H1 Hm1) as [[Hk Hf]|[Hk (Hle & l & Hin & Hl)]].
      * left. split; [done|]. by constructor.
      * right. split; [done|split]. { intros x [->|Hx]%elem_of_cons Hx'; [congruence|by apply Hle]. }
        exists l. split; [by right|done].
    + intros Hm1. destruct (H2 Hm1) as (Hk & Hle & Hor). split; [done|split].
      * intros x [->|Hx]%elem_of_cons Hx'; [congruence|by apply Hle].
      * destruct Hor as [?|(Hle' & l & Hin & Hl)]; [by left|right]. split.
        { intros x [->|Hx]%elem_of_cons Hx'; [congruence|by apply Hle]. }
        exists l. split; [by right|done].
  - pose proof (search_nonneg line Hs) as Hn. set (d := search_nonspace line) in *.
    set (m' := if (-1 <? d) && ((d <? minimum) || (minimum =? -1)) then d else minimum).
    assert (Hm' : 0 <= m' <= d /\ (m' = d \/ m' = minimum) /\ (0 <= minimum -> m' <= minimum) /\
                  (minimum = -1 -> m' = d)).
    { unfold m'. destruct (Z.ltb_spec (-1) d), (Z.ltb_spec d minimum), (Z.eqb_spec minimum (-1)); cbn; lia. }
    destruct Hm' as (Hm1 & Hm2 & Hm3 & Hm4). destruct (IH m') as [_ H2]; [lia|].
    destruct (H2 ltac:(lia)) as (Hk & Hle & Hor). clear IH H2. fold m' in Hk, Hle, Hor |- *.
    set (k := minLeadingWhitespace m' lines) in *.
    assert (Hall : forall x, x ∈ line :: lines -> spaces x = false -> k <= search_nonspace x).
    { intros x [->|Hx]%elem_of_cons Hx'; [fold d; lia|by apply Hle]. }
    assert (Hleast : k = d -> least_indent k (line :: lines)).
    { intros Hkd. split; [done|]. exists line. split; [by left|split; [done|]]. by rw Hkd. }
    assert (Hlift : least_indent k lines -> least_indent k (line :: lines)).
    { intros (_ & l & Hin & Hl). split; [done|]. exists l. split; [by right|done]. }
    split.
    + intros Hmin. right. split; [lia|]. destruct Hor as [Hkm|Hl]; [apply Hleast; rw Hkm; auto|auto].
    + intros Hmin. split; [lia|split; [done|]]. destruct Hor as [Hkm|Hl]; [|by right; auto].
      destruct Hm2 as [Hmd|Hmm]; [right; apply Hleast; congruence|left; congruence].
Qed.

(** ** The kept lines *)

Lemma strlen_pos s : (0 <? strlen s) = negb (streq s "").
Proof.
  destruct (streq_spec s "") as [->|Hs]; [done|]. destruct s; [done|].
  cbn [negb]. apply Z.ltb_lt. str_lia.
Qed.

(** A kept line with the white space that was removed around it. *)
Definition kept (k : Z) (line t : string) : Prop :=
  exists p q, line = p ++ t ++ q /\ strlen p = k /\ spaces p = true /\ spaces q = true /\
              t <> "" /\ trim_end t = t.

Lemma spaces_append_split k p r :
  spaces p = true -> 0 <= k <= strlen p ->
  exists a b, p ++ r = a ++ b /\ strlen a = k /\ spaces a = true /\
              exists c, p = a ++ c /\ b = c ++ r.
Proof.
  intros Hp Hk. exists (take_str (Z.to_nat k) p), (drop_str (Z.to_nat k) p ++ r).
  rw -append_assoc take_drop_str. split; [done|].
  assert (String.length p = Z.to_nat (strlen p)) by (unfold strlen; lia).
  split; [unfold strlen; rw length_take_str; lia|].
  rw -(take_drop_str (Z.to_nat k) p) all_chars_app in Hp. apply andb_prop in Hp as [Hp _].
  split; [done|]. exists (drop_str (Z.to_nat k) p). by rw take_drop_str.
Qed.

Lemma trimmedLine_kept k line :
  spaces line = false -> 0 <= k <= search_nonspace line -> kept k line (trimmedLine k line).
Proof.
  intros Hs Hk. destruct (proj2 (search_nonspace_spec line) Hs) as (p & c & t & -> & Hp & Hc & Hd).
  rw Hd in Hk. destruct (spaces_append_split k p (String c t) Hp Hk) as (a & b & Hab & Ha & Hsa & e & Hpe & Hb).
  unfold trimmedLine. rw Hab -Ha substring_from_app.
  destruct (trim_end_spec b) as (q & Hq1 & Hq2 & Hq3). exists a, q.
  split; [by rw {1}Hq1|]. split; [done|split; [done|split; [done|split; [|done]]]].
  intros Hn%trim_end_nil. rw Hb all_chars_app in Hn. apply andb_prop in Hn as [_ Hn]. cbn in Hn. by rw Hc in Hn.
Qed.

Lemma spaces_drop n s : spaces s = true -> spaces (drop_str n s) = true.
Proof.
  revert s. induction n as [|n IH]; intros [|c s]; try done. cbn. intros [_ Hs]%andb_prop. by apply IH.
Qed.

Lemma spaces_take n s : spaces s = true -> spaces (take_str n s) = true.
Proof.
  revert s. induction n as [|n IH]; intros [|c s]; try done. cbn. intros [-> Hs]%andb_prop. by apply IH.
Qed.

Lemma trimmedLine_blank k line : spaces line = true -> trimmedLine k line = "".
Proof.
  intros Hs. apply trim_end_nil. unfold substring_from, substring, sub_str.
  apply spaces_take. by apply spaces_drop.
Qed.

(** The lines formatLines keeps. *)
Definition kept_lines (k : Z) (lines : list string) : list string :=
  List.filter (fun t => negb (streq t "")) (map (trimmedLine k) lines).

(** A line break follows the last kept line when blank lines follow it. *)
Definition ends_blank (lines : list string) : bool := spaces (List.last lines "").

Lemma kept_lines_nil k lines :
  (forall line, line ∈ lines -> spaces line = false -> 0 <= k <= search_nonspace line) ->
  kept_lines k lines = [] -> ends_blank lines = true.
Proof.
  intros Hk Hn. unfold ends_blank. induction lines as [|line lines IH]; [done|].
  assert (Hrest : forall l, l ∈ lines -> spaces l = false -> 0 <= k <= search_nonspace l).
  { intros l Hl. apply Hk. by right. }
  unfold kept_lines in Hn. cbn [map List.filter] in Hn.
  destruct (spaces line) eqn:Hs.
  - rw trimmedLine_blank // in Hn. cbn in Hn. specialize (IH Hrest Hn).
    destruct lines as [|l lines]; [done|exact IH].
  - destruct (trimmedLine_kept k line Hs ltac:(by apply Hk; [left|])) as (p & q & _ & _ & _ & _ & Hne & _).
    by destruct (streq_spec (trimmedLine k line) "").
Qed.

Lemma formatLines_join k lines :
  (forall line, line ∈ lines -> spaces line = false -> 0 <= k <= search_nonspace line) ->
  formatLines k lines =
    join (String "010" "") (kept_lines k lines) ++
    (if ends_blank lines && negb (bool_decide (kept_lines k lines = [])) then String "010" "" else "").
Proof.
  intros Hk. induction lines as [|line lines IH]; [done|]. cbn [formatLines].
  assert (Hrest : forall l, l ∈ lines -> spaces l = false -> 0 <= k <= search_nonspace l).
  { intros l Hl. apply Hk. by right. }
  rw IH // strlen_pos. clear IH. unfold kept_lines. cbn [map List.filter].
  fold (kept_lines k lines).
  destruct (spaces line) eqn:Hs.
  - rw trimmedLine_blank //. cbn [streq String.eqb negb String.append].
    destruct lines as [|l lines]; [unfold ends_blank; cbn [List.last]; by rw Hs|done].
  - destruct (trimmedLine_kept k line Hs ltac:(by apply Hk; [left|])) as (p & q & _ & _ & _ & _ & Hne & _).
    destruct (streq_spec (trimmedLine k line) ""); [done|]. cbn [negb].
    destruct lines as [|l lines].
    + cbn. unfold ends_blank. cbn. rw Hs. cbn. by rw append_nil_r.
    + assert (ends_blank (line :: l :: lines) = ends_blank (l :: lines)) as -> by done.
      destruct (kept_lines k (l :: lines)) as [|x xs] eqn:Hkl.
      * rw (kept_lines_nil k (l :: lines)) //. cbn. by rw append_nil_r.
      * do 2 (case_bool_decide; [done|]). cbn [join negb]. by rw !append_assoc.
Qed.

Lemma kept_lines_spec k lines :
  (forall line, line ∈ lines -> spaces line = false -> 0 <= k <= search_nonspace line) ->
  Forall2 (kept k) (List.filter (fun line => negb (spaces line)) lines) (kept_lines k lines).
Proof.
  intros Hk. unfold kept_lines. induction lines as [|line lines IH]; [constructor|].
  assert (Hrest : forall l, l ∈ lines -> spaces l = false -> 0 <= k <= search_nonspace l).
  { intros l Hl. apply Hk. by right. }
  cbn [map List.filter]. destruct (spaces line) eqn:Hs; cbn [negb].
  - rw trimmedLine_blank //. by apply IH.
  - pose proof (trimmedLine_kept k line Hs ltac:(by apply Hk; [left|])) as Hkept.
    assert (streq (trimmedLine k line) "" = false) as ->.
    { destruct Hkept as (p & q & _ & _ & _ & _ & Hne & _). by destruct (streq_spec (trimmedLine k line) ""). }
    cbn [negb]. constructor; [done|]. by apply IH.
Qed.

(** C10.  The query text is only re-indented: there is a number k such that
    the text printed is the lines of the query that are not blank, in order,
    each without its first k and its trailing white space characters, joined by
    line breaks (with one more at the end when the query ends in a blank line);
    the k characters removed are white space on every line, and k is the
    largest possible: some line starts at the margin. *)
Theorem getAllQueryText_dedents text :
  let lines := split "010" text in
  let visible := List.filter (fun line => negb (spaces line)) lines in
  exists k ts,
    getAllQueryText text =
      join (String "010" "") ts ++
      (if ends_blank lines && negb (bool_decide (ts = [])) then String "010" "" else "") /\
    Forall2 (kept k) visible ts /\
    (visible <> [] -> exists c t, String c t ∈ ts /\ is_space c = false).
Proof.
  cbv zeta. unfold getAllQueryText. set (lines := split "010" text). clearbody lines.
  set (k := minLeadingWhitespace (-1) lines).
  destruct (minLeadingWhitespace_spec (-1) lines ltac:(lia)) as [Hk _]. fold k in Hk.
  assert (Hrange : forall line, line ∈ lines -> spaces line = false -> 0 <= k <= search_nonspace line).
  { intros line Hin Hs. destruct (Hk eq_refl) as [[_ Hb]|[H0 [Hle _]]].
    - rw Forall_forall in Hb. specialize (Hb line Hin). unfold blank in Hb. congruence.
    - split; [done|by apply Hle]. }
  exists k, (kept_lines k lines). split; [by apply formatLines_join|].
  pose proof (kept_lines_spec k lines Hrange) as Hf. split; [done|]. intros Hv.
  destruct (Hk eq_refl) as [[_ Hb]|[H0 [_ (line & Hin & Hs & Hd)]]].
  - exfalso. apply Hv. clear -Hb. induction Hb as [|l ls Hl _ IH]; [done|]. cbn. by rw Hl.
  - destruct (proj2 (search_nonspace_spec line) Hs) as (p & c & t & Hline & Hp & Hc & Hlen).
    assert (Ht : trimmedLine k line = trim_end (String c t)).
    { unfold trimmedLine. by rw -Hd Hlen Hline substring_from_app. }
    assert (Hcons : exists t', trim_end (String c t) = String c t').
    { cbn. rw Hc. cbn. eauto. }
    destruct Hcons as [t' Ht']. exists c, t'. split; [|done]. rw -Ht' -Ht. unfold kept_lines.
    apply list_elem_of_In. apply List.filter_In. split.
    + apply in_map. by apply list_elem_of_In.
    + by rw Ht Ht'.
Qed.
