(* ===== verification/ListPages.v ===== *)
(** * QueryList.jsx and QueryMonitor.jsx: filters, order, pages and refresh

    The two pages share their handlers; they differ in the states one can
    filter by, in the search fields and in how they refresh.  The query monitor
    is a refresh loop; the query history asks for the number of queries first
    and has its own handlers. *)

From S2P Require Import Prelude JsString JsNumber Timers RefreshLoop.

Definition SELECT_ALL := "all".

Module QueryList.
Definition FILTER_TYPE : list string := ["finished"; "failed"].
End QueryList.

Module QueryMonitor.
Definition FILTER_TYPE : list string :=
  ["queued"; "waiting_for_resources"; "dispatching"; "planning"; "starting"; "running"; "suspended";
   "finishing"; "finished"; "failed"].
End QueryMonitor.

Definition SORT_TYPE : list string := ["creation"; "elapsed"; "execution"; "cpu"; "cumulative"; "memory"].
Definition ERROR_TYPE : list string := ["user_error"; "internal_error"; "insufficient_resources"; "external"].

Inductive SORT_ORDER := ASCENDING | DESCENDING.

#[export] Instance sort_order_eq_dec : EqDecision SORT_ORDER.
Proof. solve_decision. Defined.

Definition showOrder (o : SORT_ORDER) : string :=
  match o with ASCENDING => "ascending" | DESCENDING => "descending" end.

(** What both pages keep; [searches] are the search fields under the names the
    request gives them. *)
Record ListState := {
  currentSortType : string;
  currentSortOrder : SORT_ORDER;
  stateFilters : list string;
  errorTypeFilters : list string;
  stateSelectAll : bool;
  errorSelectAll : bool;
  searches : list (string * string);
  currentPage : Z;
  pageSize : Z;
  total : Z
}.

Definition initialState (filters : list string) (searches : list string) : ListState :=
  {| currentSortType := "creation"; currentSortOrder := DESCENDING; stateFilters := filters;
     errorTypeFilters := ["internal_error"; "insufficient_resources"; "external"; "user_error"];
     stateSelectAll := true; errorSelectAll := true; searches := (fun k => (k, "")) <$> searches;
     currentPage := 1; pageSize := 10; total := 0 |}.

(** ** Handlers *)

(** The body of both filter handlers: the new filters and the new mark of the
    entry "Select All". *)
Definition filterClick (all filters : list string) (selectAll : bool) (filter : string) :
    list string * bool :=
  if streq filter SELECT_ALL then (if negb selectAll then all else [], negb selectAll)
  else
    let newFilters :=
      match list_find (fun f => f = filter) filters with
      | Some (i, _) => delete i filters
      | None => (filters ++ [filter])%list
      end in
    (newFilters, (length newFilters =? length all)%nat).

Definition handleStateFilterClick (all : list string) (filter : string) (s : ListState) : ListState :=
  let '(newFilters, selectAll) := filterClick all (stateFilters s) (stateSelectAll s) filter in
  {| currentSortType := currentSortType s; currentSortOrder := currentSortOrder s;
     stateFilters := newFilters; errorTypeFilters := errorTypeFilters s; stateSelectAll := selectAll;
     errorSelectAll := errorSelectAll s; searches := searches s; currentPage := 1;
     pageSize := pageSize s; total := total s |}.

Definition handleErrorTypeFilterClick (errorType : string) (s : ListState) : ListState :=
  let '(newFilters, selectAll) := filterClick ERROR_TYPE (errorTypeFilters s) (errorSelectAll s) errorType in
  {| currentSortType := currentSortType s; currentSortOrder := currentSortOrder s;
     stateFilters := stateFilters s; errorTypeFilters := newFilters; stateSelectAll := stateSelectAll s;
     errorSelectAll := selectAll; searches := searches s; currentPage := 1;
     pageSize := pageSize s; total := total s |}.

(** Whether a filter entry is drawn with its check mark. *)
Definition checkmark (filters : list string) (selectAll : bool) (filter : string) : bool :=
  bool_decide (filter ∈ filters) || (streq filter SELECT_ALL && selectAll).

Definition handleSortClick (sortType : string) (s : ListState) : ListState :=
  let newSortOrder :=
    if streq (currentSortType s) sortType && bool_decide (currentSortOrder s = DESCENDING)
    then ASCENDING else DESCENDING in
  {| currentSortType := sortType; currentSortOrder := newSortOrder; stateFilters := stateFilters s;
     errorTypeFilters := errorTypeFilters s; stateSelectAll := stateSelectAll s;
     errorSelectAll := errorSelectAll s; searches := searches s; currentPage := 1;
     pageSize := pageSize s; total := total s |}.

(** The search field of a name takes a new text. *)
Definition handleSearchStringChange (field text : string) (s : ListState) : ListState :=
  {| currentSortType := currentSortType s; currentSortOrder := currentSortOrder s;
     stateFilters := stateFilters s; errorTypeFilters := errorTypeFilters s;
     stateSelectAll := stateSelectAll s; errorSelectAll := errorSelectAll s;
     searches := (fun '(k, v) => (k, if streq k field then text else v)) <$> searches s;
     currentPage := if existsb (fun '(k, _) => streq k field) (searches s) then 1 else currentPage s;
     pageSize := pageSize s; total := total s |}.

Definition onPageChange (current : Z) (s : ListState) : ListState :=
  {| currentSortType := currentSortType s; currentSortOrder := currentSortOrder s;
     stateFilters := stateFilters s; errorTypeFilters := errorTypeFilters s;
     stateSelectAll := stateSelectAll s; errorSelectAll := errorSelectAll s; searches := searches s;
     currentPage := current; pageSize := pageSize s; total := total s |}.

Definition onPageSizeChange (size : Z) (s : ListState) : ListState :=
  {| currentSortType := currentSortType s; currentSortOrder := currentSortOrder s;
     stateFilters := stateFilters s; errorTypeFilters := errorTypeFilters s;
     stateSelectAll := stateSelectAll s; errorSelectAll := errorSelectAll s; searches := searches s;
     currentPage := currentPage s; pageSize := size; total := total s |}.

(** ** Requests *)

(** The parameters are joined by "&&" and not encoded. *)
Definition queryParam (s : ListState) : list (string * string) :=
  ([("state", join "," (stateFilters s)); ("failed", join "," (errorTypeFilters s));
    ("sort", currentSortType s); ("sortOrder", showOrder (currentSortOrder s))] ++
   searches s ++
   [("pageNum", show_Z (currentPage s)); ("pageSize", show_Z (pageSize s))])%list.

Definition queryString (s : ListState) : string :=
  join "&&" (map (fun '(key, value) => key ++ "=" ++ value) (queryParam s)).

(** ** The query monitor *)

(** The answer: the queries shown and their number. *)
Record MonitorState := { list_state : ListState; allQueries : list string }.

(** The page never has a query, so it never stops. *)
#[export] Instance monitor_loop : RefreshLoop MonitorState string (list string * Z) := {
  capture s := "../v1/query?" ++ queryString (list_state s);
  on_answer _ r s :=
    let l := list_state s in
    {| list_state :=
         {| currentSortType := currentSortType l; currentSortOrder := currentSortOrder l;
            stateFilters := stateFilters l; errorTypeFilters := errorTypeFilters l;
            stateSelectAll := stateSelectAll l; errorSelectAll := errorSelectAll l;
            searches := searches l; currentPage := currentPage l; pageSize := pageSize l;
            total := r.2 |};
       allQueries := r.1 |};
  on_fail s := s;
  stopped _ := false;
  interval := 1000;
  recovers := false;
}.

(** The handlers of QueryMonitor.jsx: those above, with its own states and its
    single search field. *)
Module QueryMonitorPage.
Definition initialState : ListState := initialState QueryMonitor.FILTER_TYPE ["search"].
Definition handleSearchStringChange (text : string) : ListState -> ListState :=
  handleSearchStringChange "search" text.
Definition handleSortClick := handleSortClick.
Definition handleStateFilterClick := handleStateFilterClick QueryMonitor.FILTER_TYPE.
Definition handleErrorTypeFilterClick := handleErrorTypeFilterClick.
Definition checkmark := checkmark.
Definition onPageChange := onPageChange.
Definition onPageSizeChange := onPageSizeChange.
End QueryMonitorPage.

(** ** The query history *)

(** A request of the history page: the kind of store, the number of queries, or
    the queries for a query string.  The callback of the second has captured the
    query string of its time. *)
Inductive HistoryRequest :=
  | MetaStoreType
  | QueryNums (parameters : string)
  | QueryInfo (parameters : string).

Record History := {
  hstate : ListState;
  shown : list string;
  lastQueryString : string;            (* state.queryString *)
  queryNums : Z;
  outstanding : list HistoryRequest;
  hclock : Timers;
  htimeoutId : option nat
}.

Definition withRequests (rs : list HistoryRequest) (h : History) : History :=
  {| hstate := hstate h; shown := shown h; lastQueryString := lastQueryString h; queryNums := queryNums h;
     outstanding := rs; hclock := hclock h; htimeoutId := htimeoutId h |}.

Definition send (r : HistoryRequest) (h : History) : History := withRequests (outstanding h ++ [r])%list h.

Definition withClock (id : option nat) (t : Timers) (h : History) : History :=
  {| hstate := hstate h; shown := shown h; lastQueryString := lastQueryString h; queryNums := queryNums h;
     outstanding := outstanding h; hclock := t; htimeoutId := id |}.

(** [state.query] is undefined and [state.ended] too: the timer is always armed. *)
Definition historyResetTimer (h : History) : History :=
  let '(id, t) := rearm (htimeoutId h) 1000 (hclock h) in withClock id t h.

(** The number is always asked for, the queries only when the parameters have
    changed since the last time. *)
Definition refreshData (h : History) : History :=
  let parameters := queryString (hstate h) in
  let h := send (QueryNums parameters) h in
  let h := if negb (streq parameters (lastQueryString h)) then send (QueryInfo parameters) h else h in
  {| hstate := hstate h; shown := shown h; lastQueryString := parameters; queryNums := queryNums h;
     outstanding := outstanding h; hclock := hclock h; htimeoutId := htimeoutId h |}.

Definition historyRefreshLoop (h : History) : History :=
  refreshData (withClock (htimeoutId h) (clearTimeout (htimeoutId h) (hclock h)) h).

(** The number of queries arrives: when it is new, the queries are asked for,
    with the parameters the request was built with. *)
Definition onQueryNums (parameters : string) (num : Z) (h : History) : History :=
  let h :=
    if queryNums h =? num then h
    else
      send (QueryInfo parameters)
        {| hstate := hstate h; shown := shown h; lastQueryString := lastQueryString h; queryNums := num;
           outstanding := outstanding h; hclock := hclock h; htimeoutId := htimeoutId h |} in
  historyResetTimer h.

Definition onQueryInfo (answer : list string * Z) (h : History) : History :=
  let l := hstate h in
  historyResetTimer
    {| hstate :=
         {| currentSortType := currentSortType l; currentSortOrder := currentSortOrder l;
            stateFilters := stateFilters l; errorTypeFilters := errorTypeFilters l;
            stateSelectAll := stateSelectAll l; errorSelectAll := errorSelectAll l;
            searches := searches l; currentPage := currentPage l; pageSize := pageSize l;
            total := answer.2 |};
       shown := answer.1; lastQueryString := lastQueryString h; queryNums := queryNums h;
       outstanding := outstanding h; hclock := hclock h; htimeoutId := htimeoutId h |}.

Inductive HistoryEvent :=
  | Mount
  | TimerFires (id : nat)
  | MetaStoreTypeSettles (i : nat)
  | QueryNumsArrives (i : nat) (num : Z)
  | QueryNumsFails (i : nat)
  | QueryInfoArrives (i : nat) (answer : list string * Z)
  | QueryInfoFails (i : nat)
  | UserRefresh (f : ListState -> ListState).

(** [$.get(queryNums)] has no failure handler: its failure is dropped. *)
Definition handleHistory (e : HistoryEvent) (h : History) : option History :=
  let take i := withRequests (delete i (outstanding h)) h in
  match e with
  | Mount => Some (historyRefreshLoop (send MetaStoreType h))
  | TimerFires id =>
      if existsb (fun p => (p.1 =? id)%nat) (armed (hclock h))
      then Some (historyRefreshLoop (withClock (htimeoutId h) (fire id (hclock h)) h)) else None
  | MetaStoreTypeSettles i =>
      match outstanding h !! i with
      | Some MetaStoreType => Some (historyResetTimer (take i))
      | _ => None
      end
  | QueryNumsArrives i num =>
      match outstanding h !! i with
      | Some (QueryNums parameters) => Some (onQueryNums parameters num (take i))
      | _ => None
      end
  | QueryNumsFails i =>
      match outstanding h !! i with Some (QueryNums _) => Some (take i) | _ => None end
  | QueryInfoArrives i answer =>
      match outstanding h !! i with
      | Some (QueryInfo _) => Some (onQueryInfo answer (take i))
      | _ => None
      end
  | QueryInfoFails i =>
      match outstanding h !! i with
      | Some (QueryInfo _) => Some (historyResetTimer (take i))
      | _ => None
      end
  | UserRefresh f =>
      Some (refreshData
        {| hstate := f (hstate h); shown := shown h; lastQueryString := lastQueryString h;
           queryNums := queryNums h; outstanding := outstanding h; hclock := hclock h;
           htimeoutId := htimeoutId h |})
  end.

Fixpoint runHistory (es : list HistoryEvent) (h : History) : option History :=
  match es with
  | [] => Some h
  | e :: es => h' ← handleHistory e h; runHistory es h'
  end.

Definition initialHistory : History :=
  {| hstate := initialState QueryList.FILTER_TYPE
       ["searchUser"; "searchDate"; "searchSql"; "searchQueryId"; "searchResourceGroup"];
     shown := []; lastQueryString := ""; queryNums := -1; outstanding := []; hclock := no_timers;
     htimeoutId := None |}.

(** ** Facts *)

(** *** Filters *)

(** The filters chosen are different entries of [all], and "Select All" is
    marked when all of them are. *)
Definition filters_ok (all filters : list string) (selectAll : bool) : Prop :=
  NoDup filters /\ (forall f, f ∈ filters -> f ∈ all) /\ (selectAll = true <-> filters ≡ₚ all).

Lemma chosen_all (all filters : list string) :
  NoDup filters -> (forall f, f ∈ filters -> f ∈ all) ->
  (length filters =? length all)%nat = true <-> filters ≡ₚ all.
Proof.
  intros Hnd Hsub. rw Nat.eqb_eq. split; [|by intros ->]. intros Hlen.
  apply submseteq_length_Permutation; [by apply NoDup_submseteq|lia].
Qed.

Lemma filterClick_ok all filters selectAll filter :
  NoDup all -> all <> [] -> filter = SELECT_ALL \/ filter ∈ all ->
  filters_ok all filters selectAll ->
  filters_ok all (filterClick all filters selectAll filter).1 (filterClick all filters selectAll filter).2.
Proof.
  intros Hall Hne Hf (Hnd & Hsub & Hsel). unfold filterClick.
  destruct (streq_spec filter SELECT_ALL) as [->|Hns].
  - cbn. destruct selectAll; cbn; (split; [|split]); try done; try constructor.
    + by intros ? ?%elem_of_nil.
    + done.
    + intros Hp. by apply Permutation_nil in Hp.
  - destruct Hf as [?|Hf]; [done|].
    destruct (list_find (fun f => f = filter) filters) as [[i x]|] eqn:Hi; cbn.
    + assert (Hd : NoDup (delete i filters)).
      { eapply sublist_NoDup; [exact Hnd|]. apply sublist_delete. }
      assert (Hs : forall f, f ∈ delete i filters -> f ∈ all).
      { intros f Hfi. apply Hsub. eapply elem_of_submseteq; [exact Hfi|]. apply submseteq_delete. }
      split; [done|split; [done|]]. by apply chosen_all.
    + apply list_find_None in Hi. rw Forall_forall in Hi.
      assert (Hd : NoDup (filters ++ [filter])%list).
      { apply NoDup_app. split; [done|split; [|apply NoDup_singleton]].
        intros f Hfi ->%list_elem_of_singleton. by apply (Hi filter). }
      assert (Hs : forall f, f ∈ (filters ++ [filter])%list -> f ∈ all).
      { intros f [?| ->%list_elem_of_singleton]%elem_of_app; [by apply Hsub|done]. }
      split; [done|split; [done|]]. by apply chosen_all.
Qed.

Inductive click :=
  | StateClick (filter : string)
  | ErrorClick (errorType : string).

Definition onClick (all : list string) (s : ListState) (c : click) : ListState :=
  match c with
  | StateClick f => handleStateFilterClick all f s
  | ErrorClick e => handleErrorTypeFilterClick e s
  end.

(** The entries the menus offer. *)
Definition offered (all : list string) (c : click) : Prop :=
  match c with
  | StateClick f => f = SELECT_ALL \/ f ∈ all
  | ErrorClick e => e = SELECT_ALL \/ e ∈ ERROR_TYPE
  end.

Lemma error_types_ok : NoDup ERROR_TYPE.
Proof. by apply (bool_decide_unpack _); vm_compute. Qed.

Lemma clicks_ok all cs s :
  NoDup all -> all <> [] -> Forall (offered all) cs ->
  filters_ok all (stateFilters s) (stateSelectAll s) ->
  filters_ok ERROR_TYPE (errorTypeFilters s) (errorSelectAll s) ->
  let s' := fold_left (onClick all) cs s in
  filters_ok all (stateFilters s') (stateSelectAll s') /\
  filters_ok ERROR_TYPE (errorTypeFilters s') (errorSelectAll s') /\
  (cs <> [] -> currentPage s' = 1).
Proof.
  intros Hall Hne Hcs. revert s. induction Hcs as [|c cs Hc Hcs IH]; intros s Hs He; [done|].
  cbv zeta. cbn [fold_left]. destruct (IH (onClick all s c)) as (H1 & H2 & H3).
  - destruct c as [f|e]; cbn; [|unfold handleErrorTypeFilterClick; by destruct (filterClick _ _ _ _)].
    unfold handleStateFilterClick. pose proof (filterClick_ok all _ _ f Hall Hne Hc Hs) as Hf.
    by destruct (filterClick _ _ _ _).
  - destruct c as [f|e]; cbn; [unfold handleStateFilterClick; by destruct (filterClick _ _ _ _)|].
    unfold handleErrorTypeFilterClick.
    pose proof (filterClick_ok ERROR_TYPE _ _ e error_types_ok ltac:(done) Hc He) as Hf.
    by destruct (filterClick _ _ _ _).
  - split; [done|split; [done|]]. intros _. destruct cs as [|c' cs]; [|by apply H3].
    cbn. destruct c; cbn; unfold handleStateFilterClick, handleErrorTypeFilterClick;
      by destruct (filterClick _ _ _ _).
Qed.

Lemma error_types_initial :
  ["internal_error"; "insufficient_resources"; "external"; "user_error"] ≡ₚ ERROR_TYPE.
Proof. by apply (bool_decide_unpack _); vm_compute. Qed.

(** *** Refreshing the history *)

Definition alive (h : History) : Prop := outstanding h <> [] \/ armed (hclock h) <> [].

Lemma historyResetTimer_alive h : alive (historyResetTimer h).
Proof.
  unfold historyResetTimer, alive, rearm, setTimeout. right. cbn. done.
Qed.

Lemma refreshData_alive h : alive (refreshData h).
Proof.
  left. unfold refreshData. destruct (negb _); cbn; intros Hn; by apply app_eq_nil in Hn as [_ Hn].
Qed.

Lemma handleHistory_alive e h h' :
  (forall i, e <> QueryNumsFails i) -> handleHistory e h = Some h' -> alive h'.
Proof.
  intros He. destruct e as [|id|i|i num|i|i answer|i|f]; cbn [handleHistory].
  - intros [= <-]. apply refreshData_alive.
  - destruct (existsb _ _); [|done]. intros [= <-]. apply refreshData_alive.
  - destruct (outstanding h !! i) as [[]|]; try done. intros [= <-]. apply historyResetTimer_alive.
  - destruct (outstanding h !! i) as [[]|]; try done. intros [= <-]. apply historyResetTimer_alive.
  - by destruct (He i).
  - destruct (outstanding h !! i) as [[]|]; try done. intros [= <-]. apply historyResetTimer_alive.
  - destruct (outstanding h !! i) as [[]|]; try done. intros [= <-]. apply historyResetTimer_alive.
  - intros [= <-]. apply refreshData_alive.
Qed.

Lemma runHistory_alive es h h' :
  Forall (fun e => forall i, e <> QueryNumsFails i) es -> es <> [] -> runHistory es h = Some h' -> alive h'.
Proof.
  intros Hes. revert h. induction Hes as [|e es He Hes IH]; intros h Hne; [done|]. cbn.
  destruct (handleHistory e h) as [h1|] eqn:H1; [|done]. cbn. intros Hr.
  destruct es as [|e' es]; [|by eapply IH]. cbn in Hr. injection Hr as <-. by eapply handleHistory_alive.
Qed.

(** ** Properties *)

(** The query history can stop refreshing: the request for the number of
    queries has no failure handler, so that one failure can leave the page with
    neither a request nor a timer, and from there nothing but the user (or
    mounting it again) brings it back.  It is the only way: as long as that
    request does not fail, the page keeps a request or a timer after every
    event. *)
Theorem history_stops_on_failure :
  (exists es h,
     runHistory (Mount :: es) initialHistory = Some h /\
     outstanding h = [] /\ armed (hclock h) = [] /\
     (forall e, handleHistory e h <> None -> e = Mount \/ exists f, e = UserRefresh f)) /\
  (forall es h,
     Forall (fun e => forall i, e <> QueryNumsFails i) es ->
     runHistory (Mount :: es) initialHistory = Some h ->
     outstanding h <> [] \/ armed (hclock h) <> []).
Proof.
  split.
  - eexists [MetaStoreTypeSettles 0; QueryInfoArrives 1 ([], 0); QueryNumsArrives 0 5;
             QueryInfoArrives 0 ([], 5); TimerFires 4; QueryNumsFails 0], _.
    split; [vm_compute; reflexivity|]. split; [reflexivity|split; [reflexivity|]].
    intros e He. destruct e as [|id|i|i num|i|i answer|i|f]; [by left|..|by right; exists f];
      exfalso; apply He; reflexivity.
  - intros es h Hes Hr. apply (runHistory_alive (Mount :: es) initialHistory); [by constructor|discriminate|done].
Qed.

(** C36.  On both pages the entry "Select All" of a filter menu is marked
    exactly when every entry is chosen, whatever entries were clicked, no entry
    is chosen twice, and a click goes back to the first page. *)
Theorem filters_consistent all cs searches :
  all = QueryList.FILTER_TYPE \/ all = QueryMonitor.FILTER_TYPE -> Forall (offered all) cs ->
  let s := fold_left (onClick all) cs (initialState all searches) in
  (stateSelectAll s = true <-> stateFilters s ≡ₚ all) /\
  (errorSelectAll s = true <-> errorTypeFilters s ≡ₚ ERROR_TYPE) /\
  NoDup (stateFilters s) /\ NoDup (errorTypeFilters s) /\ (cs <> [] -> currentPage s = 1).
Proof.
  intros Hall Hcs. assert (Hnd : NoDup all) by
    (destruct Hall as [-> | ->]; by apply (bool_decide_unpack _); vm_compute).
  destruct (clicks_ok all cs (initialState all searches)) as ((H1 & _ & H2) & (H3 & _ & H4) & H5);
    [done|by destruct Hall as [-> | ->]|done| | |split; [exact H2|split; [exact H4|done]]].
  - split; [done|split; [done|]]. done.
  - split; [by apply (bool_decide_unpack _); vm_compute|]. cbn. split.
    + intros f Hf. by rw -error_types_initial.
    + split; [|done]. intros _. apply error_types_initial.
Qed.

Lemma filters_consistent_witness :
  let s := fold_left (onClick QueryList.FILTER_TYPE) [StateClick "failed"; ErrorClick SELECT_ALL]
             (initialState QueryList.FILTER_TYPE []) in
  (stateSelectAll s = true <-> stateFilters s ≡ₚ QueryList.FILTER_TYPE) /\
  (errorSelectAll s = true <-> errorTypeFilters s ≡ₚ ERROR_TYPE) /\
  NoDup (stateFilters s) /\ NoDup (errorTypeFilters s) /\
  ([StateClick "failed"; ErrorClick SELECT_ALL] <> [] -> currentPage s = 1).
Proof.
  apply (filters_consistent QueryList.FILTER_TYPE [StateClick "failed"; ErrorClick SELECT_ALL] []).
  - by left.
  - constructor; [right; by apply (bool_decide_unpack _); vm_compute|]. constructor; [by left|constructor].
Defined.
