(* ===== verification/ClusterPages.v ===== *)
(** * ClusterHUD.jsx, StatusFooter.jsx and WorkerStatus.jsx: the cluster figures

    Three pages built on the refresh loop.  They keep the recent values of
    figures of the cluster or of one worker for the sparklines; [now] and [now']
    are the two readings of the clock while an answer is handled. *)

From S2P Require Import Prelude JsString JsNumber Utils Timers RefreshLoop.

(** The answer of v1/cluster. *)
Record ClusterState := {
  runningQueries : num;
  queuedQueries : num;
  blockedQueries : num;
  activeWorkers : num;
  runningDrivers : num;
  reservedMemory : num;
  totalMemory : num;
  systemCpuLoad : num;
  totalInputRows : num;
  totalInputBytes : num;
  totalCpuTimeSecs : num
}.

Record Answer := { clusterState : ClusterState; now : num; now' : num }.

(** [(Date.now() - this.state.lastRefresh) / 1000.0] *)
Definition secsSinceRefresh (now : num) (lastRefresh : num) : num := div (sub now lastRefresh) (of_Z 1000).

(** The sparklines are drawn again, and the time noted, when they are at least a
    second old. *)
Definition drawsSparklines (now : num) (lastRender : option num) : bool :=
  match lastRender with None => true | Some t => ge (sub now t) (of_Z 1000) end.

Module ClusterHUD.
Record t := {
  running : list num;
  queued : list num;
  blocked : list num;
  workers : list num;
  drivers : list num;
  memory : list num;
  rowInputRate : list num;
  byteInputRate : list num;
  perWorkerCpuTimeRate : list num;
  lastRender : option num;
  lastRefresh : option num;
  lastInputRows : option num;
  lastInputBytes : option num;
  lastCpuTime : option num;
  initialized : bool
}.

Definition initial : t :=
  {| running := []; queued := []; blocked := []; workers := []; drivers := []; memory := [];
     rowInputRate := []; byteInputRate := []; perWorkerCpuTimeRate := []; lastRender := None;
     lastRefresh := None; lastInputRows := None; lastInputBytes := None; lastCpuTime := None;
     initialized := false |}.

(** A rate: the difference since the last refresh by the seconds since then,
    averaged into the history; no rate is known at the first answer. *)
Definition newRate (perSecond : num -> num) (a : Answer) (s : t) (history : list num) : list num :=
  match lastRefresh s with
  | None => []
  | Some last => addExponentiallyWeightedToHistory (perSecond (secsSinceRefresh (now a) last)) history
  end.

Definition newRowInputRate (a : Answer) (s : t) : list num :=
  newRate (div (sub (totalInputRows (clusterState a)) (nullToNumber (lastInputRows s)))) a s (rowInputRate s).

Definition newByteInputRate (a : Answer) (s : t) : list num :=
  newRate (div (sub (totalInputBytes (clusterState a)) (nullToNumber (lastInputBytes s)))) a s
    (byteInputRate s).

Definition newPerWorkerCpuTimeRate (a : Answer) (s : t) : list num :=
  newRate
    (div (div (sub (totalCpuTimeSecs (clusterState a)) (nullToNumber (lastCpuTime s)))
              (activeWorkers (clusterState a)))) a s (perWorkerCpuTimeRate s).

Definition onClusterState (a : Answer) (s : t) : t :=
  let c := clusterState a in
  {| running := addToHistory (runningQueries c) (running s);
     queued := addToHistory (queuedQueries c) (queued s);
     blocked := addToHistory (blockedQueries c) (blocked s);
     workers := addToHistory (activeWorkers c) (workers s);
     drivers := addExponentiallyWeightedToHistory (runningDrivers c) (drivers s);
     memory := addExponentiallyWeightedToHistory (reservedMemory c) (memory s);
     rowInputRate := newRowInputRate a s;
     byteInputRate := newByteInputRate a s;
     perWorkerCpuTimeRate := newPerWorkerCpuTimeRate a s;
     lastRender := lastRender s;
     lastRefresh := Some (now' a);
     lastInputRows := Some (totalInputRows c);
     lastInputBytes := Some (totalInputBytes c);
     lastCpuTime := Some (totalCpuTimeSecs c);
     initialized := true |}.

Definition componentDidUpdate (now renderTimestamp : num) (s : t) : t :=
  if drawsSparklines now (lastRender s) then
    {| running := running s; queued := queued s; blocked := blocked s; workers := workers s;
       drivers := drivers s; memory := memory s; rowInputRate := rowInputRate s;
       byteInputRate := byteInputRate s; perWorkerCpuTimeRate := perWorkerCpuTimeRate s;
       lastRender := Some renderTimestamp; lastRefresh := lastRefresh s;
       lastInputRows := lastInputRows s; lastInputBytes := lastInputBytes s;
       lastCpuTime := lastCpuTime s; initialized := initialized s |}
  else s.

(** The page has neither a query nor a field [ended]: it never stops. *)
#[export] Instance hud_loop : RefreshLoop t unit Answer := {
  capture _ := ();
  on_answer _ a s := onClusterState a s;
  on_fail s := s;
  stopped _ := false;
  interval := 1000;
  recovers := false;
}.
End ClusterHUD.

Module StatusFooter.
Record t := {
  running : list num;
  queued : list num;
  blocked : list num;
  workers : list num;
  drivers : list num;
  memory : list num;
  currentReservedMemory : num;
  total : num;
  cpuUsage : list num;
  perWorkerCpuTimeRate : list num;
  lastRender : option num;
  lastRefresh : option num;
  lastCpuTime : option num;
  initialized : bool
}.

(** The fields for rows and bytes are never used. *)
Definition initial : t :=
  {| running := []; queued := []; blocked := []; workers := []; drivers := []; memory := [];
     currentReservedMemory := of_Z 0; total := of_Z 0; cpuUsage := []; perWorkerCpuTimeRate := [];
     lastRender := None; lastRefresh := None; lastCpuTime := None; initialized := false |}.

Definition newPerWorkerCpuTimeRate (a : Answer) (s : t) : list num :=
  match lastRefresh s with
  | None => []
  | Some last =>
      let cpuTimeSinceRefresh := sub (totalCpuTimeSecs (clusterState a)) (nullToNumber (lastCpuTime s)) in
      addExponentiallyWeightedToHistory
        (div (div cpuTimeSinceRefresh (activeWorkers (clusterState a))) (secsSinceRefresh (now a) last))
        (perWorkerCpuTimeRate s)
  end.

Definition onClusterState (a : Answer) (s : t) : t :=
  let c := clusterState a in
  {| running := addToHistory (runningQueries c) (running s);
     queued := addToHistory (queuedQueries c) (queued s);
     blocked := addToHistory (blockedQueries c) (blocked s);
     workers := addToHistory (activeWorkers c) (workers s);
     drivers := addExponentiallyWeightedToHistory (runningDrivers c) (drivers s);
     memory := addExponentiallyWeightedToHistory (reservedMemory c) (memory s);
     currentReservedMemory := reservedMemory c;
     total := totalMemory c;
     cpuUsage := addExponentiallyWeightedToHistory (mul (systemCpuLoad c) (of_Z 100)) (cpuUsage s);
     perWorkerCpuTimeRate := newPerWorkerCpuTimeRate a s;
     lastRender := lastRender s;
     lastRefresh := Some (now' a);
     lastCpuTime := Some (totalCpuTimeSecs c);
     initialized := true |}.

Definition componentDidUpdate (now renderTimestamp : num) (s : t) : t :=
  if drawsSparklines now (lastRender s) then
    {| running := running s; queued := queued s; blocked := blocked s; workers := workers s;
       drivers := drivers s; memory := memory s; currentReservedMemory := currentReservedMemory s;
       total := total s; cpuUsage := cpuUsage s; perWorkerCpuTimeRate := perWorkerCpuTimeRate s;
       lastRender := Some renderTimestamp; lastRefresh := lastRefresh s;
       lastCpuTime := lastCpuTime s; initialized := initialized s |}
  else s.

#[export] Instance footer_loop : RefreshLoop t unit Answer := {
  capture _ := ();
  on_answer _ a s := onClusterState a s;
  on_fail s := s;
  stopped _ := false;
  interval := 1000;
  recovers := false;
}.
End StatusFooter.

Module WorkerStatus.
Record Pool := {
  maxBytes : num;
  reservedBytes : num;
  reservedRevocableBytes : num;
  queryMemoryReservations : list (string * num);
  queryMemoryRevocableReservations : list (string * num)
}.

Record ServerInfo := {
  nodeId : string;
  processors : num;
  uptime : string;
  externalAddress : string;
  internalAddress : string;
  processCpuLoad : num;
  workerCpuLoad : num;                  (* systemCpuLoad *)
  heapUsed : num;
  heapAvailable : num;
  nonHeapUsed : num;
  general : option Pool;
  reserved : option Pool
}.

Record t := {
  serverInfo : option ServerInfo;
  initialized : bool;
  processCpuLoads : list num;
  systemCpuLoads : list num;
  heapPercentUsed : list num;
  nonHeapUsage : list num
}.

Definition initial : t :=
  {| serverInfo := None; initialized := false; processCpuLoads := []; systemCpuLoads := [];
     heapPercentUsed := []; nonHeapUsage := [] |}.

(** [query] is undefined, not null, and [ended] is never set. *)
#[export] Instance worker_loop : RefreshLoop t unit ServerInfo := {
  capture _ := ();
  on_answer _ i s :=
    {| serverInfo := Some i; initialized := true;
       processCpuLoads := addToHistory (mul (processCpuLoad i) (of_Z 100)) (processCpuLoads s);
       systemCpuLoads := addToHistory (mul (workerCpuLoad i) (of_Z 100)) (systemCpuLoads s);
       heapPercentUsed :=
         addToHistory (div (mul (heapUsed i) (of_Z 100)) (heapAvailable i)) (heapPercentUsed s);
       nonHeapUsage := addToHistory (mul (nonHeapUsed i) (of_Z 100)) (nonHeapUsage s) |};
  on_fail s :=
    {| serverInfo := serverInfo s; initialized := true; processCpuLoads := processCpuLoads s;
       systemCpuLoads := systemCpuLoads s; heapPercentUsed := heapPercentUsed s;
       nonHeapUsage := nonHeapUsage s |};
  stopped _ := false;
  interval := 1000;
  recovers := false;
}.

(** ** The memory pools *)

(** A bar that is not empty is at least 15% wide. *)
Definition barPercentage (bytes size : num) : num :=
  if eq bytes (of_Z 0) then of_Z 0
  else num_max (math_round (div (mul bytes (of_Z 100)) size)) (of_Z 15).

(** [queries[query][1] = revocable], or a new entry. *)
Fixpoint setRevocable (query : string) (revocable : num) (queries : list (string * (num * num))) :
    list (string * (num * num)) :=
  match queries with
  | [] => [(query, (of_Z 0, revocable))]
  | (q, (a, b)) :: queries =>
      if streq q query then (q, (a, revocable)) :: queries
      else (q, (a, b)) :: setRevocable query revocable queries
  end.

(** The queries with reservations of either kind.  (Query ids are not integers,
    so that an object keeps them in the order they were added.) *)
Definition poolQueries (pool : Pool) : list (string * (num * num)) :=
  let reserved := map (fun '(query, bytes) => (query, (bytes, of_Z 0))) (queryMemoryReservations pool) in
  fold_left (fun queries '(query, bytes) => setRevocable query bytes queries)
    (queryMemoryRevocableReservations pool) reserved.
End WorkerStatus.
