(* ===== verification/ClusterMarkup.v ===== *)
(** * The elements of the cluster figures

    What the render methods of ClusterHUD.jsx and StatusFooter.jsx return, and the
    sparklines their componentDidUpdate draws into it. *)

From S2P Require Import Prelude JsString JsNumber Utils Markup Timers RefreshLoop ClusterPages.

Definition draw (id : string) (history : list num) (formatter : Formatter) : Drawing :=
  {| element := id; values := Some <$> history; numberFormatter := formatter |}.

Module ClusterHUD.
Import ClusterPages.ClusterHUD.

(** What componentDidUpdate draws when the last drawing is old enough. *)
Definition sparklines (s : t) : list Drawing :=
  [draw "running-queries-sparkline" (running s) Plain;
   draw "blocked-queries-sparkline" (blocked s) Plain;
   draw "queued-queries-sparkline" (queued s) Plain;
   draw "active-workers-sparkline" (workers s) Plain;
   draw "running-drivers-sparkline" (drivers s) PrecisionRound;
   draw "reserved-memory-sparkline" (memory s) FormatDataSizeBytes;
   draw "row-input-rate-sparkline" (rowInputRate s) FormatCount;
   draw "byte-input-rate-sparkline" (byteInputRate s) FormatDataSizeBytes;
   draw "cpu-time-rate-sparkline" (perWorkerCpuTimeRate s) PrecisionRound].

Definition render (s : t) : Html :=
  el "div" [cls "row"]
    [el "div" [cls "col-xs-12"]
       [el "div" [cls "row"]
          [el "div" [cls "col-xs-4"]
             [el "div" [cls "stat-title"]
                [el "span" [cls "text"; "data-toggle" =: "tooltip"; "data-placement" =: "right";
                            "title" =: "Total number of queries currently running"]
                   [txt "Running queries"]]];
           el "div" [cls "col-xs-4"]
             [el "div" [cls "stat-title"]
                [el "span" [cls "text"; "data-toggle" =: "tooltip"; "data-placement" =: "right";
                            "title" =: "Total number of active worker nodes"]
                   [txt "Active workers"]]];
           el "div" [cls "col-xs-4"]
             [el "div" [cls "stat-title"]
                [el "span" [cls "text"; "data-toggle" =: "tooltip"; "data-placement" =: "right";
                            "title" =: "Moving average of input rows processed per second"]
                   [txt "Rows/sec"]]]];
        el "div" [cls "row stat-line-end"]
          [el "div" [cls "col-xs-4"]
             [el "div" [cls "stat stat-large"]
                [el "span" [cls "stat-text"] [last_child (running s)];
                 el "span" [cls "sparkline"; "id" =: "running-queries-sparkline"]
                   [el "div" [cls "loader"] [txt "Loading ..."]]]];
           el "div" [cls "col-xs-4"]
             [el "div" [cls "stat stat-large"]
                [el "span" [cls "stat-text"] [last_child (workers s)];
                 el "span" [cls "sparkline"; "id" =: "active-workers-sparkline"]
                   [el "div" [cls "loader"] [txt "Loading ..."]]]];
           el "div" [cls "col-xs-4"]
             [el "div" [cls "stat stat-large"]
                [el "span" [cls "stat-text"] [txt (formatCount (latest (rowInputRate s)))];
                 el "span" [cls "sparkline"; "id" =: "row-input-rate-sparkline"]
                   [el "div" [cls "loader"] [txt "Loading ..."]]]]];
        el "div" [cls "row"]
          [el "div" [cls "col-xs-4"]
             [el "div" [cls "stat-title"]
                [el "span" [cls "text"; "data-toggle" =: "tooltip"; "data-placement" =: "right";
                            "title" =: "Total number of queries currently queued and awaiting execution"]
                   [txt "Queued queries"]]];
           el "div" [cls "col-xs-4"]
             [el "div" [cls "stat-title"]
                [el "span" [cls "text"; "data-toggle" =: "tooltip"; "data-placement" =: "right";
                            "title" =: "Moving average of total running drivers"]
                   [txt "Runnable drivers"]]];
           el "div" [cls "col-xs-4"]
             [el "div" [cls "stat-title"]
                [el "span" [cls "text"; "data-toggle" =: "tooltip"; "data-placement" =: "right";
                            "title" =: "Moving average of input bytes processed per second"]
                   [txt "Bytes/sec"]]]];
        el "div" [cls "row stat-line-end"]
          [el "div" [cls "col-xs-4"]
             [el "div" [cls "stat stat-large"]
                [el "span" [cls "stat-text"] [last_child (queued s)];
                 el "span" [cls "sparkline"; "id" =: "queued-queries-sparkline"]
                   [el "div" [cls "loader"] [txt "Loading ..."]]]];
           el "div" [cls "col-xs-4"]
             [el "div" [cls "stat stat-large"]
                [el "span" [cls "stat-text"] [txt (formatCount (latest (drivers s)))];
                 el "span" [cls "sparkline"; "id" =: "running-drivers-sparkline"]
                   [el "div" [cls "loader"] [txt "Loading ..."]]]];
           el "div" [cls "col-xs-4"]
             [el "div" [cls "stat stat-large"]
                [el "span" [cls "stat-text"] [txt (formatDataSizeBytes (latest (byteInputRate s)))];
                 el "span" [cls "sparkline"; "id" =: "byte-input-rate-sparkline"]
                   [el "div" [cls "loader"] [txt "Loading ..."]]]]];
        el "div" [cls "row"]
          [el "div" [cls "col-xs-4"]
             [el "div" [cls "stat-title"]
                [el "span" [cls "text"; "data-toggle" =: "tooltip"; "data-placement" =: "right";
                            "title" =: "Total number of queries currently blocked and unable to make progress"]
                   [txt "Blocked Queries"]]];
           el "div" [cls "col-xs-4"]
             [el "div" [cls "stat-title"]
                [el "span" [cls "text"; "data-toggle" =: "tooltip"; "data-placement" =: "right";
                            "title" =: "Total amount of memory reserved by all running queries"]
                   [txt "Reserved Memory (B)"]]];
           el "div" [cls "col-xs-4"]
             [el "div" [cls "stat-title"]
                [el "span" [cls "text"; "data-toggle" =: "tooltip"; "data-placement" =: "right";
                            "title" =: "Moving average of CPU time utilized per second per worker"]
                   [txt "Worker Parallelism"]]]];
        el "div" [cls "row stat-line-end"]
          [el "div" [cls "col-xs-4"]
             [el "div" [cls "stat stat-large"]
                [el "span" [cls "stat-text"] [last_child (blocked s)];
                 el "span" [cls "sparkline"; "id" =: "blocked-queries-sparkline"]
                   [el "div" [cls "loader"] [txt "Loading ..."]]]];
           el "div" [cls "col-xs-4"]
             [el "div" [cls "stat stat-large"]
                [el "span" [cls "stat-text"] [txt (formatDataSizeBytes (latest (memory s)))];
                 el "span" [cls "sparkline"; "id" =: "reserved-memory-sparkline"]
                   [el "div" [cls "loader"] [txt "Loading ..."]]]];
           el "div" [cls "col-xs-4"]
             [el "div" [cls "stat stat-large"]
                [el "span" [cls "stat-text"] [txt (formatCount (latest (perWorkerCpuTimeRate s)))];
                 el "span" [cls "sparkline"; "id" =: "cpu-time-rate-sparkline"]
                   [el "div" [cls "loader"] [txt "Loading ..."]]]]]]].
End ClusterHUD.

Module StatusFooter.
Import ClusterPages.StatusFooter.

(** The icons, drawn as paths. *)
Definition icon1 : Html :=
  el "svg" ["width" =: "1em"; "height" =: "1em"; "viewBox" =: "0 0 16 16";
    cls "bi bi-person-check-fill"; "fill" =: "currentColor";
    "xmlns" =: "http://www.w3.org/2000/svg"]
    [el "path" ["fillRule" =: "evenodd";
    "d" =: "M1 14s-1 0-1-1 1-4 6-4 6 3 6 4-1 1-1 1H1zm5-6a3 3 0 1 0 0-6 3 3 0 0 0 0 6zm9.854-2.854a.5.5 0 0 1 0 .708l-3 3a.5.5 0 0 1-.708 0l-1.5-1.5a.5.5 0 0 1 .708-.708L12.5 7.793l2.646-2.647a.5.5 0 0 1 .708 0z"] []].

Definition icon2 : Html :=
  el "svg" ["width" =: "1em"; "height" =: "1em"; "viewBox" =: "0 0 16 16";
    cls "bi bi-cpu-fill cpuIco"; "fill" =: "currentColor";
    "xmlns" =: "http://www.w3.org/2000/svg"]
    [el "path" ["fillRule" =: "evenodd";
    "d" =: "M5.5.5a.5.5 0 0 0-1 0V2A2.5 2.5 0 0 0 2 4.5H.5a.5.5 0 0 0 0 1H2v1H.5a.5.5 0 0 0 0 1H2v1H.5a.5.5 0 0 0 0 1H2v1H.5a.5.5 0 0 0 0 1H2A2.5 2.5 0 0 0 4.5 14v1.5a.5.5 0 0 0 1 0V14h1v1.5a.5.5 0 0 0 1 0V14h1v1.5a.5.5 0 0 0 1 0V14h1v1.5a.5.5 0 0 0 1 0V14a2.5 2.5 0 0 0 2.5-2.5h1.5a.5.5 0 0 0 0-1H14v-1h1.5a.5.5 0 0 0 0-1H14v-1h1.5a.5.5 0 0 0 0-1H14v-1h1.5a.5.5 0 0 0 0-1H14A2.5 2.5 0 0 0 11.5 2V.5a.5.5 0 0 0-1 0V2h-1V.5a.5.5 0 0 0-1 0V2h-1V.5a.5.5 0 0 0-1 0V2h-1V.5zm1 4.5A1.5 1.5 0 0 0 5 6.5v3A1.5 1.5 0 0 0 6.5 11h3A1.5 1.5 0 0 0 11 9.5v-3A1.5 1.5 0 0 0 9.5 5h-3zm0 1a.5.5 0 0 0-.5.5v3a.5.5 0 0 0 .5.5h3a.5.5 0 0 0 .5-.5v-3a.5.5 0 0 0-.5-.5h-3z"] []].

Definition icon3 : Html :=
  el "svg" ["width" =: "1em"; "height" =: "1em"; "viewBox" =: "0 0 16 16";
    cls "bi bi-grid-3x2-gap-fill ramIco"; "fill" =: "currentColor";
    "xmlns" =: "http://www.w3.org/2000/svg"]
    [el "path" ["d" =: "M1 4a1 1 0 0 1 1-1h2a1 1 0 0 1 1 1v2a1 1 0 0 1-1 1H2a1 1 0 0 1-1-1V4zm5 0a1 1 0 0 1 1-1h2a1 1 0 0 1 1 1v2a1 1 0 0 1-1 1H7a1 1 0 0 1-1-1V4zm5 0a1 1 0 0 1 1-1h2a1 1 0 0 1 1 1v2a1 1 0 0 1-1 1h-2a1 1 0 0 1-1-1V4zM1 9a1 1 0 0 1 1-1h2a1 1 0 0 1 1 1v2a1 1 0 0 1-1 1H2a1 1 0 0 1-1-1V9zm5 0a1 1 0 0 1 1-1h2a1 1 0 0 1 1 1v2a1 1 0 0 1-1 1H7a1 1 0 0 1-1-1V9zm5 0a1 1 0 0 1 1-1h2a1 1 0 0 1 1 1v2a1 1 0 0 1-1 1h-2a1 1 0 0 1-1-1V9z"] []].

Definition icon4 : Html :=
  el "svg" ["width" =: "1em"; "height" =: "1em"; "viewBox" =: "0 0 16 16"; cls "bi bi-list-check";
    "fill" =: "currentColor"; "xmlns" =: "http://www.w3.org/2000/svg"]
    [el "path" ["fillRule" =: "evenodd";
    "d" =: "M5 11.5a.5.5 0 0 1 .5-.5h9a.5.5 0 0 1 0 1h-9a.5.5 0 0 1-.5-.5zm0-4a.5.5 0 0 1 .5-.5h9a.5.5 0 0 1 0 1h-9a.5.5 0 0 1-.5-.5zm0-4a.5.5 0 0 1 .5-.5h9a.5.5 0 0 1 0 1h-9a.5.5 0 0 1-.5-.5zM3.854 2.146a.5.5 0 0 1 0 .708l-1.5 1.5a.5.5 0 0 1-.708 0l-.5-.5a.5.5 0 1 1 .708-.708L2 3.293l1.146-1.147a.5.5 0 0 1 .708 0zm0 4a.5.5 0 0 1 0 .708l-1.5 1.5a.5.5 0 0 1-.708 0l-.5-.5a.5.5 0 1 1 .708-.708L2 7.293l1.146-1.147a.5.5 0 0 1 .708 0zm0 4a.5.5 0 0 1 0 .708l-1.5 1.5a.5.5 0 0 1-.708 0l-.5-.5a.5.5 0 0 1 .708-.708l.146.147 1.146-1.147a.5.5 0 0 1 .708 0z"] []].

Definition icon5 : Html :=
  el "svg" ["width" =: "1em"; "height" =: "1em"; "viewBox" =: "0 0 16 16";
    cls "bi bi-person-lines-fill"; "fill" =: "currentColor";
    "xmlns" =: "http://www.w3.org/2000/svg"]
    [el "path" ["fillRule" =: "evenodd";
    "d" =: "M1 14s-1 0-1-1 1-4 6-4 6 3 6 4-1 1-1 1H1zm5-6a3 3 0 1 0 0-6 3 3 0 0 0 0 6zm7 1.5a.5.5 0 0 1 .5-.5h2a.5.5 0 0 1 0 1h-2a.5.5 0 0 1-.5-.5zm-2-3a.5.5 0 0 1 .5-.5h4a.5.5 0 0 1 0 1h-4a.5.5 0 0 1-.5-.5zm0-3a.5.5 0 0 1 .5-.5h4a.5.5 0 0 1 0 1h-4a.5.5 0 0 1-.5-.5zm2 9a.5.5 0 0 1 .5-.5h2a.5.5 0 0 1 0 1h-2a.5.5 0 0 1-.5-.5z"] []].

Definition icon6 : Html :=
  el "svg" ["width" =: "1em"; "height" =: "1em"; "viewBox" =: "0 0 16 16";
    cls "bi bi-slash-circle blockIco"; "fill" =: "currentColor";
    "xmlns" =: "http://www.w3.org/2000/svg"]
    [el "path" ["fillRule" =: "evenodd";
    "d" =: "M8 15A7 7 0 1 0 8 1a7 7 0 0 0 0 14zm0 1A8 8 0 1 0 8 0a8 8 0 0 0 0 16z"] [];
    el "path" ["fillRule" =: "evenodd";
    "d" =: "M11.854 4.146a.5.5 0 0 1 0 .708l-7 7a.5.5 0 0 1-.708-.708l7-7a.5.5 0 0 1 .708 0z"] []].

Definition icon7 : Html :=
  el "svg" ["width" =: "1em"; "height" =: "1em"; "viewBox" =: "0 0 16 16";
    cls "bi bi-hdd-fill diskIco"; "fill" =: "currentColor";
    "xmlns" =: "http://www.w3.org/2000/svg"]
    [el "path" ["fillRule" =: "evenodd";
    "d" =: "M0 10a2 2 0 0 1 2-2h12a2 2 0 0 1 2 2v1a2 2 0 0 1-2 2H2a2 2 0 0 1-2-2v-1zm2.5 1a.5.5 0 1 0 0-1 .5.5 0 0 0 0 1zm2 0a.5.5 0 1 0 0-1 .5.5 0 0 0 0 1z"] [];
    el "path" ["d" =: "M.91 7.204A2.993 2.993 0 0 1 2 7h12c.384 0 .752.072 1.09.204l-1.867-3.422A1.5 1.5 0 0 0 11.906 3H4.094a1.5 1.5 0 0 0-1.317.782L.91 7.204z"] []].

Definition icon8 : Html :=
  el "svg" ["width" =: "1em"; "height" =: "1em"; "viewBox" =: "0 0 16 16"; cls "bi bi-list";
    "fill" =: "currentColor"; "xmlns" =: "http://www.w3.org/2000/svg"]
    [el "path" ["fillRule" =: "evenodd";
    "d" =: "M2.5 11.5A.5.5 0 0 1 3 11h10a.5.5 0 0 1 0 1H3a.5.5 0 0 1-.5-.5zm0-4A.5.5 0 0 1 3 7h10a.5.5 0 0 1 0 1H3a.5.5 0 0 1-.5-.5zm0-4A.5.5 0 0 1 3 3h10a.5.5 0 0 1 0 1H3a.5.5 0 0 1-.5-.5z"] []].

Definition sparklines (s : t) : list Drawing :=
  [draw "running-queries-sparkline" (running s) Plain;
   draw "blocked-queries-sparkline" (blocked s) Plain;
   draw "queued-queries-sparkline" (queued s) Plain;
   draw "active-workers-sparkline" (workers s) Plain;
   draw "running-drivers-sparkline" (drivers s) PrecisionRound;
   draw "cpu-usage-sparkline" (cpuUsage s) PrecisionRound;
   draw "reserved-memory-sparkline" (memory s) FormatDataSizeBytes;
   draw "cpu-time-rate-sparkline" (perWorkerCpuTimeRate s) PrecisionRound].

Definition render (s : t) : Html :=
  el "div" [cls "flex"]
    [el "div" [cls "flex flex-initial"]
       [el "div" [cls "clusterOverview"]
          [el "div" [cls "clusterOverviewIconSetContainer"; style [("minWidth", "60px")];
                     "data-toggle" =: "tooltip"; "data-placement" =: "top"; "title" =: "Active Workers"]
             [el "div" [cls "clusterOverviewIcon"]
                [icon1];
              el "div" [cls "clusterOverviewContent"] [txt " "; last_child (workers s); txt " "]];
           el "div" [cls "clusterOverviewIconSetContainer"; "data-toggle" =: "tooltip"; "data-placement" =: "top";
                     "title" =: "Avg Cluster Cpu Usage"]
             [el "div" [cls "clusterOverviewIcon"]
                [icon2];
              el "div" [cls "clusterOverviewContent"] [txt (formatCount (latest (cpuUsage s))); txt "%"];
              el "div" [cls "clusterOverviewGraph"]
                [el "span" [cls "sparkline"; "id" =: "cpu-usage-sparkline"]
                   [el "div" [cls "loader"] [txt "Loading ..."]]]];
           el "div" [cls "clusterOverviewIconSetContainer"; style [("minWidth", "calc(10vw + 60px)")];
                     "data-toggle" =: "tooltip"; "data-placement" =: "top"; "title" =: "Used Query Memory"]
             [el "div" [cls "clusterOverviewIcon"]
                [icon3];
              el "div" [cls "clusterOverviewContent"; style [("minWidth", "100px"); ("textAlign", "center")]]
                [txt (formatDataSizeBytes (currentReservedMemory s));
                 el "span" [cls "seprator"] [txt "/"];
                 txt (formatDataSizeBytes (total s))];
              el "div" [cls "clusterOverviewGraph"]
                [el "span" [cls "sparkline"; "id" =: "reserved-memory-sparkline"]
                   [el "div" [cls "loader"] [txt "Loading ..."]]]];
           el "div" [cls "clusterOverviewIconSetContainer"; "data-toggle" =: "tooltip"; "data-placement" =: "top";
                     "title" =: "Running Queries"]
             [el "div" [cls "clusterOverviewIcon"]
                [icon4];
              el "div" [cls "clusterOverviewContent"] [txt " "; last_child (running s); txt " "];
              el "div" [cls "clusterOverviewGraph"]
                [el "span" [cls "sparkline"; "id" =: "running-queries-sparkline"]
                   [el "div" [cls "loader"] [txt "Loading ..."]]]];
           el "div" [cls "clusterOverviewIconSetContainer"; "data-toggle" =: "tooltip"; "data-placement" =: "top";
                     "title" =: "Queued Queries"]
             [el "div" [cls "clusterOverviewIcon"]
                [icon5];
              el "div" [cls "clusterOverviewContent"] [txt " "; last_child (queued s); txt " "];
              el "div" [cls "clusterOverviewGraph"]
                [el "span" [cls "sparkline"; "id" =: "queued-queries-sparkline"]
                   [el "div" [cls "loader"] [txt "Loading ..."]]]];
           el "div" [cls "clusterOverviewIconSetContainer"; "data-toggle" =: "tooltip"; "data-placement" =: "top";
                     "title" =: "Blocked Queries"]
             [el "div" [cls "clusterOverviewIcon"]
                [icon6];
              el "div" [cls "clusterOverviewContent"] [txt " "; last_child (blocked s); txt " "];
              el "div" [cls "clusterOverviewGraph"]
                [el "span" [cls "sparkline"; "id" =: "blocked-queries-sparkline"]
                   [el "div" [cls "loader"] [txt "Loading ..."]]]];
           el "div" [cls "clusterOverviewIconSetContainer"; "data-toggle" =: "tooltip"; "data-placement" =: "top";
                     "title" =: "Avg Running Tasks"]
             [el "div" [cls "clusterOverviewIcon"]
                [icon7];
              el "div" [cls "clusterOverviewContent"] [txt " "; txt (formatCount (latest (drivers s))); txt " "];
              el "div" [cls "clusterOverviewGraph"]
                [el "span" [cls "sparkline"; "id" =: "running-drivers-sparkline"]
                   [el "div" [cls "loader"] [txt "Loading ..."]]]];
           el "div" [cls "clusterOverviewIconSetContainer"; "data-toggle" =: "tooltip"; "data-placement" =: "top";
                     "title" =: "Avg CPU Cycles per Worker"]
             [el "div" [cls "clusterOverviewIcon"]
                [icon8];
              el "div" [cls "clusterOverviewContent"]
                [txt " ";
                 txt (formatCount (latest (perWorkerCpuTimeRate s)));
                 txt " "];
              el "div" [cls "clusterOverviewGraph"]
                [el "span" [cls "sparkline"; "id" =: "cpu-time-rate-sparkline"]
                   [el "div" [cls "loader"] [txt "Loading ..."]]]]]]].
End StatusFooter.

(** ** The figures in the browser *)

Lemma ids_hud s :
  ids (ClusterHUD.render s) =
  ["running-queries-sparkline"; "active-workers-sparkline"; "row-input-rate-sparkline"; "queued-queries-sparkline"; "running-drivers-sparkline"; "byte-input-rate-sparkline"; "blocked-queries-sparkline"; "reserved-memory-sparkline"; "cpu-time-rate-sparkline"].
Proof.
  unfold ClusterHUD.render, last_child.
  by destruct (last (ClusterPages.ClusterHUD.running s)), (last (ClusterPages.ClusterHUD.workers s)),
    (last (ClusterPages.ClusterHUD.queued s)), (last (ClusterPages.ClusterHUD.blocked s)).
Qed.

Lemma ids_footer s :
  ids (StatusFooter.render s) =
  ["cpu-usage-sparkline"; "reserved-memory-sparkline"; "running-queries-sparkline"; "queued-queries-sparkline"; "blocked-queries-sparkline"; "running-drivers-sparkline"; "cpu-time-rate-sparkline"].
Proof.
  unfold StatusFooter.render, last_child.
  by destruct (last (ClusterPages.StatusFooter.running s)), (last (ClusterPages.StatusFooter.workers s)),
    (last (ClusterPages.StatusFooter.queued s)), (last (ClusterPages.StatusFooter.blocked s)).
Qed.

Lemma wf_last_child parent history : partsOf parent = None -> wellFormed parent (last_child history) = true.
Proof. intros Hp. unfold last_child. destruct (last history); [by apply wf_txt|done]. Qed.
#[export] Hint Extern 1 (wellFormed _ (last_child _) = true) => apply wf_last_child; reflexivity : markup.

Lemma wf_icon (icon : Html) :
  icon ∈ [StatusFooter.icon1; StatusFooter.icon2; StatusFooter.icon3; StatusFooter.icon4; StatusFooter.icon5; StatusFooter.icon6; StatusFooter.icon7; StatusFooter.icon8] -> wellFormed "div" icon = true.
Proof. intros H. repeat (apply elem_of_cons in H as [->|H]; [reflexivity|]). inversion H. Qed.
#[export] Hint Extern 2 (wellFormed _ _ = true) => apply wf_icon; repeat constructor : markup.

Lemma wf_clusterHUD s : wellFormed "div" (ClusterHUD.render s) = true.
Proof. unfold ClusterHUD.render. markup. Qed.
Lemma wf_statusFooter s : wellFormed "div" (StatusFooter.render s) = true.
Proof. unfold StatusFooter.render. markup. Qed.
#[export] Hint Resolve wf_clusterHUD wf_statusFooter : markup.

(** The panel of the cluster and the footer are well formed.  Every sparkline of
    the panel has its element; of those of the footer the workers' has none, so
    that its drawing is lost. *)
Theorem cluster_sparklines hud footer :
  wellFormed "div" (ClusterHUD.render hud) = true /\ NoDup (ids (ClusterHUD.render hud)) /\
  (element <$> ClusterHUD.sparklines hud) ≡ₚ ids (ClusterHUD.render hud) /\
  wellFormed "div" (StatusFooter.render footer) = true /\ NoDup (ids (StatusFooter.render footer)) /\
  (element <$> StatusFooter.sparklines footer) ≡ₚ "active-workers-sparkline" :: ids (StatusFooter.render footer).
Proof.
  rw ids_hud ids_footer. split; [apply wf_clusterHUD|].
  split; [apply (bool_decide_unpack (NoDup _)); by vm_compute|].
  split; [apply (bool_decide_unpack (_ ≡ₚ _)); by vm_compute|].
  split; [apply wf_statusFooter|].
  split; [apply (bool_decide_unpack (NoDup _)); by vm_compute|].
  apply (bool_decide_unpack (_ ≡ₚ _)); by vm_compute.
Qed.
