(* ===== verification/JsMap.v ===== *)
(** * Map objects and Array.prototype.sort

    A Map keeps its entries in the order their keys were first set.  [sort] with
    a comparator that orders the elements consistently has one possible result,
    since it is stable. *)

From S2P Require Import Prelude.

Notation jsmap K V := (list (K * V)).

Section Map.
Context {K V : Type} `{EqDecision K}.
Implicit Types (m : jsmap K V) (k : K) (v : V).

Fixpoint map_get k m : option V :=
  match m with
  | [] => None
  | (k', v) :: m => if decide (k' = k) then Some v else map_get k m
  end.

Definition map_has k m : bool := match map_get k m with Some _ => true | None => false end.

Fixpoint map_set k v m : jsmap K V :=
  match m with
  | [] => [(k, v)]
  | (k', v') :: m => if decide (k' = k) then (k, v) :: m else (k', v') :: map_set k v m
  end.

Lemma map_get_set k k' v m : map_get k (map_set k' v m) = if decide (k' = k) then Some v else map_get k m.
Proof.
  induction m as [|[k0 v0] m IH]; cbn; [done|]. destruct (decide (k0 = k')) as [->|Hne]; cbn.
  - by destruct (decide (k' = k)).
  - rw IH. destruct (decide (k0 = k)) as [->|]; [|done]. by destruct (decide (k' = k)).
Qed.

Lemma map_get_set_eq k v m : map_get k (map_set k v m) = Some v.
Proof. rw map_get_set. by destruct (decide (k = k)). Qed.

Lemma map_get_set_ne k k' v m : k' <> k -> map_get k (map_set k' v m) = map_get k m.
Proof. intros. rw map_get_set. by destruct (decide (k' = k)). Qed.

Lemma map_has_get k m : map_has k m = bool_decide (is_Some (map_get k m)).
Proof. unfold map_has. destruct (map_get k m); symmetry; by [apply bool_decide_eq_true_2|apply bool_decide_eq_false_2; intros [? ?]]. Qed.

Lemma map_get_elem k v m : map_get k m = Some v -> (k, v) ∈ m.
Proof.
  induction m as [|[k' v'] m IH]; cbn; [done|]. destruct (decide (k' = k)) as [->|].
  - intros [= ->]. by left.
  - intros Hg. right. by apply IH.
Qed.

Lemma map_keys_set k v m :
  (map_set k v m).*1 = if decide (k ∈ m.*1) then m.*1 else (m.*1 ++ [k])%list.
Proof.
  induction m as [|[k' v'] m IH]; cbn; [done|].
  destruct (decide (k' = k)) as [->|Hne]; cbn.
  - rw decide_True //. by left.
  - rw IH. destruct (decide (k ∈ m.*1)) as [Hin|Hin].
    + rw decide_True //. by right.
    + rw decide_False //. by intros [?|?]%elem_of_cons.
Qed.

Lemma map_keys_nodup k v m : NoDup m.*1 -> NoDup (map_set k v m).*1.
Proof.
  intros Hnd. rw map_keys_set. destruct (decide (k ∈ m.*1)); [done|].
  apply NoDup_app. split; [done|split; [|apply NoDup_singleton]].
  by intros x Hx ->%list_elem_of_singleton.
Qed.

Lemma map_get_none k m : map_get k m = None <-> k ∉ m.*1.
Proof.
  induction m as [|[k' v'] m IH]; cbn; [split; [by intros _ ?%elem_of_nil|done]|].
  rw not_elem_of_cons. destruct (decide (k' = k)) as [->|]; [split; [done|by intros [? _]]|].
  rw IH. split; [|by intros [_ ?]]. by intros Hn; split.
Qed.

(** [if (!m.has(k)) m.set(k, v)] for every entry, the first one winning. *)
Definition set_new (m : jsmap K V) (kv : K * V) : jsmap K V :=
  if map_has kv.1 m then m else map_set kv.1 kv.2 m.

Lemma get_set_new_all k (kvs : jsmap K V) m :
  map_get k (fold_left set_new kvs m) =
  match map_get k m with Some v => Some v | None => map_get k kvs end.
Proof.
  revert m. induction kvs as [|[k' v'] kvs IH]; intros m; cbn; [by destruct (map_get k m)|].
  rw IH. unfold set_new. cbn. destruct (map_has k' m) eqn:Hh.
  - unfold map_has in Hh. destruct (decide (k' = k)) as [->|]; [|done]. by destruct (map_get k m).
  - rw map_get_set. destruct (decide (k' = k)) as [->|]; [|done].
    unfold map_has in Hh. by destruct (map_get k m).
Qed.

Lemma keys_set_new_all (kvs : jsmap K V) m :
  NoDup m.*1 -> NoDup (fold_left set_new kvs m).*1.
Proof.
  revert m. induction kvs as [|[k' v'] kvs IH]; intros m Hnd; cbn; [done|]. apply IH.
  unfold set_new. cbn. destruct (map_has k' m); [done|]. by apply map_keys_nodup.
Qed.
End Map.

(** ** Grouping

    [if (!m.has(key(x))) m.set(key(x), []); m.get(key(x)).push(x)] *)
Section Group.
Context {K A : Type} `{EqDecision K} (key : A -> K).

Definition pushUnder (m : jsmap K (list A)) (x : A) : jsmap K (list A) :=
  map_set (key x) (default [] (map_get (key x) m) ++ [x])%list m.

Definition groupBy (xs : list A) : jsmap K (list A) := fold_left pushUnder xs [].

Lemma group_get k xs m :
  map_get k (fold_left pushUnder xs m) =
  match List.filter (fun x => bool_decide (key x = k)) xs with
  | [] => map_get k m
  | ys => Some (default [] (map_get k m) ++ ys)%list
  end.
Proof.
  revert m. induction xs as [|x xs IH]; intros m; cbn; [done|]. rw IH. unfold pushUnder.
  rw map_get_set. case_bool_decide as Hk.
  - rw Hk decide_True //. destruct (List.filter _ xs) as [|y ys] eqn:Hf; cbn; [done|].
    by rw -app_assoc.
  - by rw decide_False.
Qed.

Lemma groupBy_get k xs :
  map_get k (groupBy xs) =
  match List.filter (fun x => bool_decide (key x = k)) xs with [] => None | ys => Some ys end.
Proof. unfold groupBy. by rw group_get. Qed.
End Group.

(** ** Sorting

    [lt a b] says that the comparator of [a] and [b] is negative. *)
Section Sort.
Context {A : Type} (lt : A -> A -> bool).

Fixpoint insertAfter (x : A) (l : list A) : list A :=
  match l with
  | [] => [x]
  | y :: l => if lt x y then x :: y :: l else y :: insertAfter x l
  end.

Definition arraySort (l : list A) : list A := fold_left (fun l x => insertAfter x l) l [].

Lemma insertAfter_perm x l : insertAfter x l ≡ₚ x :: l.
Proof.
  induction l as [|y l IH]; cbn; [done|]. destruct (lt x y); [done|]. rw IH. constructor.
Qed.

Lemma arraySort_perm l : arraySort l ≡ₚ l.
Proof.
  unfold arraySort. assert (forall acc, fold_left (fun l x => insertAfter x l) l acc ≡ₚ acc ++ l) as H.
  { induction l as [|x l IH]; intros acc; cbn; [by rw app_nil_r|]. rw IH insertAfter_perm.
    cbn. by rw Permutation_middle. }
  by rw H.
Qed.
End Sort.
