(* ===== verification/StageDetail.v ===== *)
(** * components/StageDetail.jsx: the operators of a stage

    The page of one stage: the figures of an operator, the chains of operators
    of the stage's pipelines and the graph drawn of them, and the refresh loop
    with the choice of the stage.  dagre-d3's graph is the list of the calls
    made on it. *)

From S2P Require Import Prelude JsString JsNumber Utils JsMap Timers RefreshLoop.

Record OperatorStats := {
  planNodeId : string;
  pipelineId : Z;
  operatorId : Z;
  operatorType : string;
  addInputWall : string;
  getOutputWall : string;
  finishWall : string;
  blockedWall : string;
  inputPositions : num;
  inputDataSize : string;
  outputPositions : num;
  outputDataSize : string;
  totalDrivers : Z
}.

Definition getTotalWallTime (operator : OperatorStats) : num :=
  add (add (add (nullToNumber (parseDuration (addInputWall operator)))
                (nullToNumber (parseDuration (getOutputWall operator))))
           (nullToNumber (parseDuration (finishWall operator))))
      (nullToNumber (parseDuration (blockedWall operator))).

(** [rate] of the amount where the time is not 0. *)
Definition overWallTime (totalWallTime : num) (rate : num) : num :=
  if eq totalWallTime (of_Z 0) then of_Z 0 else rate.

Definition rateLine (rows bytes : num) : string :=
  formatCount rows ++ " rows/s (" ++ formatDataSize bytes ++ "/s)".

Definition amountLine (positions : num) (dataSize : string) : string :=
  formatCount positions ++ " rows (" ++ dataSize ++ ")".

Module OperatorSummary.
Definition rowInputRate (operator : OperatorStats) : num :=
  let totalWallTime := getTotalWallTime operator in
  overWallTime totalWallTime
    (div (mul (of_Z 1) (inputPositions operator)) (div totalWallTime (of_Z 1000))).

Definition byteInputRate (operator : OperatorStats) : num :=
  let totalWallTime := getTotalWallTime operator in
  overWallTime totalWallTime
    (div (mul (of_Z 1) (nullToNumber (parseDataSize (inputDataSize operator))))
         (div totalWallTime (of_Z 1000))).
End OperatorSummary.

(** A task of a stage with the operators of its pipelines. *)
Record PipelineStats := { pipeline_id : Z; operatorSummaries : list OperatorStats }.
Record Task := { taskId : string; pipelines : list PipelineStats }.

Module OperatorDetail.
(** The bar charts: title, id, the value of an operator, the label of a value. *)
Definition getInitialStatistics :
    list (string * string * (OperatorStats -> option num) * (num -> string)) :=
  [("Total Wall Time", "totalWallTime", fun operator => Some (getTotalWallTime operator), formatDuration);
   ("Input Rows", "inputPositions", fun operator => Some (inputPositions operator), formatCount);
   ("Input Data Size", "inputDataSize", fun operator => parseDataSize (inputDataSize operator),
     formatDataSize);
   ("Output Rows", "outputPositions", fun operator => Some (outputPositions operator), formatCount);
   ("Output Data Size", "outputDataSize", fun operator => parseDataSize (outputDataSize operator),
     formatDataSize)].

(** The difference of two task numbers is negative exactly when they are in
    order (of identifiers that end in a number). *)
Definition taskBefore (taskA taskB : Task) : bool :=
  lt (getTaskNumber (taskId taskA)) (getTaskNumber (taskId taskB)).

Definition getOperatorTasks (tasks : list Task) (operatorSummary : OperatorStats) : list OperatorStats :=
  flat_map
    (fun task =>
       flat_map
         (fun pipeline =>
            if pipeline_id pipeline =? pipelineId operatorSummary then
              List.filter (fun operator => operatorId operatorSummary =? operatorId operator)
                (operatorSummaries pipeline)
            else [])
         (pipelines task))
    (arraySort taskBefore tasks).

(** The rates of rows are per millisecond, those of bytes per second. *)
Definition rowInputRate (operator : OperatorStats) : num :=
  let totalWallTime := getTotalWallTime operator in
  overWallTime totalWallTime (div (mul (of_Z 1) (inputPositions operator)) totalWallTime).

Definition byteInputRate (operator : OperatorStats) : num := OperatorSummary.byteInputRate operator.

Definition rowOutputRate (operator : OperatorStats) : num :=
  let totalWallTime := getTotalWallTime operator in
  overWallTime totalWallTime (div (mul (of_Z 1) (outputPositions operator)) totalWallTime).

Definition byteOutputRate (operator : OperatorStats) : num :=
  let totalWallTime := getTotalWallTime operator in
  overWallTime totalWallTime
    (div (mul (of_Z 1) (nullToNumber (parseDataSize (outputDataSize operator))))
         (div totalWallTime (of_Z 1000))).
End OperatorDetail.

Module StageOperatorGraph.
(** The operator a node of the graph stands for, by the node's id; the last
    match wins. *)
Definition handleOperatorClick (operatorCssId : string) (summaries : list OperatorStats) :
    option OperatorStats :=
  let part i := match split "-" operatorCssId !! i with Some s => parseInt s | None => NaN end in
  let pipelineId' := part 1%nat in
  let operatorId' := part 2%nat in
  fold_left (fun found operator =>
    if eq (of_Z (pipelineId operator)) pipelineId' && eq (of_Z (operatorId operator)) operatorId'
    then Some operator else found) summaries None.

(** A copy of an operator with the property [child]. *)
Inductive Chain := mkChain (operator : OperatorStats) (child : option Chain).

(** Put the operators, sorted from source to sink, one upon the other. *)
Fixpoint chainUp (currentOperator : Chain) (linkedOperators : list OperatorStats) : Chain :=
  match linkedOperators with
  | [] => currentOperator
  | source :: rest => chainUp (mkChain source (Some currentOperator)) rest
  end.

Definition operatorBefore (a b : OperatorStats) : bool := operatorId a <? operatorId b.

(** One pipeline at one plan node: the sink of its operators, which stand on the
    chain the sources have for the pipeline. *)
Definition linkPipeline (sourceResults : jsmap Z Chain) (pipeline : Z) (operators : list OperatorStats) :
    option Chain :=
  match arraySort operatorBefore operators with
  | [] => None
  | sourceOperator :: rest => Some (chainUp (mkChain sourceOperator (map_get pipeline sourceResults)) rest)
  end.

(** The first source to have a pipeline wins (the others are logged). *)
Fixpoint collectSources (compute : PlanNode -> result (jsmap Z Chain))
    (sources : list (option PlanNode)) (sourceResults : jsmap Z Chain) : result (jsmap Z Chain) :=
  match sources with
  | [] => Ok sourceResults
  | None :: _ => Throw TypeError
  | Some source :: rest =>
      sourceResult ← compute source;
      collectSources compute rest (fold_left set_new sourceResult sourceResults)
  end.

(** [fuel] bounds the depth of the plan; [node_size] below is enough. *)
Fixpoint computeOperatorGraphs (fuel : nat) (operatorMap : jsmap string (list OperatorStats))
    (planNode : PlanNode) : result (jsmap Z Chain) :=
  match fuel with
  | O => Throw TypeError
  | S fuel =>
      match getChildren planNode with
      | None => Throw TypeError
      | Some sources =>
          sourceResults ← collectSources (computeOperatorGraphs fuel operatorMap) sources [];
          match map_get (nodeId planNode) operatorMap with
          | None | Some [] => Ok sourceResults
          | Some nodeOperators =>
              let pipelineOperators := groupBy pipelineId nodeOperators in
              let result :=
                fold_left (fun result '(pipeline, operators) =>
                  match linkPipeline sourceResults pipeline operators with
                  | Some sinkOperator => map_set pipeline sinkOperator result
                  | None => result
                  end) pipelineOperators [] in
              Ok (fold_left set_new sourceResults result)
          end
      end
  end.

Definition computeOperatorMap (summaries : list OperatorStats) : jsmap string (list OperatorStats) :=
  groupBy planNodeId summaries.

(** The calls on the graph. *)
Inductive GraphCall :=
  | setNode (id : string) (label : string)
  | setOperatorNode (id : string) (operator : OperatorStats)
  | setEdge (from to : string)
  | setParent (id parent : string).

Definition operatorNodeId (operator : OperatorStats) : string :=
  "operator-" ++ show_Z (pipelineId operator) ++ "-" ++ show_Z (operatorId operator).

Fixpoint computeD3StageOperatorGraph (chain : Chain) (sink : option string) (pipelineNode : string) :
    list GraphCall :=
  match chain with
  | mkChain operator child =>
      ([setOperatorNode (operatorNodeId operator) operator] ++
       match child with
       | Some child => computeD3StageOperatorGraph child (Some (operatorNodeId operator)) pipelineNode
       | None => []
       end ++
       match sink with Some sink => [setEdge (operatorNodeId operator) sink] | None => [] end ++
       [setParent (operatorNodeId operator) pipelineNode])%list
  end.

Definition drawPipeline (entry : Z * Chain) : list GraphCall :=
  let '(pipeline, operator) := entry in
  let pipelineNodeId := "pipeline-" ++ show_Z pipeline in
  setNode pipelineNodeId ("Pipeline " ++ show_Z pipeline ++ " ") ::
  computeD3StageOperatorGraph operator None pipelineNodeId.

(** A bound of the depth of a plan: the number of its nodes. *)
Fixpoint node_size (n : PlanNode) : nat :=
  match n with
  | mkPlanNode _ _ s l r f p i ss =>
      let size := fun o : option PlanNode => match o with Some m => node_size m | None => 0%nat end in
      S (size s + size l + size r + size f + size p + size i +
         match ss with
         | Some ss => fold_right (fun o total => (match o with Some m => node_size m | None => 0 end + total)%nat) 0%nat ss
         | None => 0
         end)
  end.

(** What the page draws of a stage; a stage without a plan or without operators
    throws. *)
Definition updateD3Graph (root : option PlanNode) (summaries : option (list OperatorStats)) :
    result (list GraphCall) :=
  summaries ← member summaries id;
  root ← member root id;
  operatorGraphs ← computeOperatorGraphs (node_size root) (computeOperatorMap summaries) root;
  Ok (flat_map drawPipeline operatorGraphs).
End StageOperatorGraph.

(** ** The page *)

Record Plan := { planId : string; planRoot : PlanNode }.

(** A stage of a query whose plan was pruned has no plan. *)
Inductive StageInfo := mkStage {
  stageId : string;
  plan : option Plan;
  summaries : option (list OperatorStats);    (* stageStats.operatorSummaries *)
  subStages : list StageInfo
}.

Definition plan_id (stage : StageInfo) : option string := planId <$> plan stage.

Record QueryAnswer := {
  queryId : string;
  queryState : string;
  finalQueryInfo : bool;
  outputStage : option StageInfo
}.

Record StagePage := {
  initialized : bool;
  ended : bool;
  selectedStageId : option string;
  query : option QueryAnswer
}.

Definition initialPage : StagePage :=
  {| initialized := false; ended := false; selectedStageId := None; query := None |}.

(** The stage the request is sent for: the selected one or else the one of the
    address, "queryId.stageNumber". *)
Definition requestedStage (search : string) (s : StagePage) : string :=
  match selectedStageId s with
  | Some stage => stage
  | None =>
      match split "." (getFirstParameter search) with
      | _ :: stage :: _ => to_string (parseInt stage)
      | _ => "0"
      end
  end.

(** An answer selects the stage its request was sent for. *)
Definition stage_loop (search : string) : RefreshLoop StagePage string QueryAnswer := {|
  capture := requestedStage search;
  on_answer selectedStageId q s :=
    {| initialized := true; ended := finalQueryInfo q; selectedStageId := Some selectedStageId;
       query := Some q |};
  on_fail s :=
    {| initialized := true; ended := ended s; selectedStageId := selectedStageId s; query := query s |};
  stopped s := match query s with None => false | Some _ => ended s end;
  interval := 1000;
  recovers := false
|}.

(** A click on an entry of the menu "Select Stage". *)
Definition selectStage (stageId : string) (s : StagePage) : StagePage :=
  {| initialized := initialized s; ended := ended s; selectedStageId := Some stageId; query := query s |}.

Fixpoint findStage (stage_id : option string) (currentStage : StageInfo) : option StageInfo :=
  match stage_id with
  | None => None
  | Some id =>
      if streq (stageId currentStage) id then Some currentStage
      else
        (fix firstOf (stages : list StageInfo) : option StageInfo :=
           match stages with
           | [] => None
           | stage :: stages =>
               match findStage stage_id stage with
               | Some stage => Some stage
               | None => firstOf stages
               end
           end) (subStages currentStage)
  end.

(** A stage without a plan throws. *)
Fixpoint getAllStageIds (result : list string) (currentStage : StageInfo) : Prelude.result (list string) :=
  match plan_id currentStage with
  | None => Throw TypeError
  | Some id =>
      (fix each (result : list string) (stages : list StageInfo) : Prelude.result (list string) :=
         match stages with
         | [] => Ok result
         | stage :: stages =>
             match getAllStageIds result stage with
             | Ok result => each result stages
             | Throw e => Throw e
             end
         end) (result ++ [id])%list (subStages currentStage)
  end.

(** What the page shows: a message, or the stage with the entries of the menu and
    whether its operators are drawn. *)
Inductive View :=
  | Message (text : string)
  | ShowStage (stage : StageInfo) (allStages : list string) (operators : bool).

Definition view (s : StagePage) : result View :=
  match query s with
  | None => Ok (Message (if initialized s then "Query not found" else "Loading..."))
  | Some q =>
      match outputStage q with
      | None => Ok (Message "Query does not have an output stage")
      | Some output =>
          allStages ← getAllStageIds [] output;
          match findStage (Some (queryId q ++ "." ++ default "null" (selectedStageId s))) output with
          | None => Ok (Message "Stage not found")
          | Some stage =>
              Ok (ShowStage stage allStages
                    (bool_decide (queryState q ∈ ["FINISHED"; "FAILED"; "CANCELED"])))
          end
      end
  end.
