(* ===== verification/StageFacts.v ===== *)
(** * The stage page: operator chains, choice of the stage

    Lemmas and properties of StageDetail.v. *)

From S2P Require Import Prelude JsString JsNumber Utils JsMap Timers RefreshLoop StageDetail.
Import StageOperatorGraph.

#[local] Arguments streq : simpl never.

(** ** The plan *)

Lemma getChildren_fields n cs o :
  getChildren n = Some cs -> o ∈ cs ->
  o ∈ ([source n; left_ n; right_ n; filteringSource n; probeSource n; indexSource n] ++
       default [] (sources n))%list.
Proof.
  unfold getChildren. destruct (sources n) as [ss|]; cbn [default]; rw elem_of_app !elem_of_cons.
  all: repeat case_match; intros Hc; simplify_eq; rw ?elem_of_cons ?elem_of_nil; tauto.
Qed.

Lemma child_smaller n cs c :
  getChildren n = Some cs -> Some c ∈ cs -> (node_size c < node_size n)%nat.
Proof.
  intros Hc Hin. pose proof (getChildren_fields n cs (Some c) Hc Hin) as Hf. clear Hc Hin.
  destruct n as [ty id s l r f p i ss]. cbn in Hf |- *.
  assert (Hlist : forall ss : list (option PlanNode), Some c ∈ ss ->
    (node_size c <= fold_right (fun o total =>
      (match o with Some m => node_size m | None => 0 end + total)%nat) 0%nat ss)%nat).
  { clear. induction ss as [|o ss IH]; [by intros ?%elem_of_nil|]. cbn.
    intros [<-|Hin]%elem_of_cons; [lia|]. specialize (IH Hin). lia. }
  rw !elem_of_cons in Hf.
  destruct Hf as [<-|[<-|[<-|[<-|[<-|[<-|Hf]]]]]]; [lia..|].
  destruct ss as [ss|]; cbn in Hf; [|by apply elem_of_nil in Hf]. specialize (Hlist ss Hf). lia.
Qed.

(** ** Chains *)

(** The operators of a chain from the sink to the source. *)
Fixpoint chain_operators (c : Chain) : list OperatorStats :=
  match c with
  | mkChain operator child =>
      operator :: match child with Some child => chain_operators child | None => [] end
  end.

Definition operators_of (c : option Chain) : list OperatorStats :=
  match c with Some c => chain_operators c | None => [] end.

Lemma chainUp_operators c ops : chain_operators (chainUp c ops) = (rev ops ++ chain_operators c)%list.
Proof.
  revert c. induction ops as [|o ops IH]; intros c; cbn; [done|]. rw IH. cbn. by rw -app_assoc.
Qed.

(** The operators of one plan node in a pipeline, from the last to the first. *)
Definition node_operators (operatorMap : jsmap string (list OperatorStats)) (pipeline : Z) (n : PlanNode) :
    list OperatorStats :=
  rev (arraySort operatorBefore
    (List.filter (fun o => bool_decide (pipelineId o = pipeline))
       (default [] (map_get (nodeId n) operatorMap)))).

Lemma arraySort_nil {A} (lt : A -> A -> bool) l : arraySort lt l = [] -> l = [].
Proof. intros Hs. apply Permutation_nil. by rw -(arraySort_perm lt l) Hs. Qed.

Lemma linkPipeline_operators sourceResults pipeline ops :
  ops <> [] ->
  exists c, linkPipeline sourceResults pipeline ops = Some c /\
    chain_operators c =
      (rev (arraySort operatorBefore ops) ++ operators_of (map_get pipeline sourceResults))%list.
Proof.
  intros Hne. unfold linkPipeline. destruct (arraySort operatorBefore ops) as [|o rest] eqn:Hs.
  - by apply arraySort_nil in Hs.
  - eexists. split; [done|]. rw chainUp_operators. cbn.
    rw -app_assoc. cbn. by destruct (map_get pipeline sourceResults).
Qed.

(** The pipelines of one plan node. *)
Definition linkAll (sourceResults : jsmap Z Chain) (groups : jsmap Z (list OperatorStats)) : jsmap Z Chain :=
  fold_left (fun result '(pipeline, operators) =>
    match linkPipeline sourceResults pipeline operators with
    | Some sinkOperator => map_set pipeline sinkOperator result
    | None => result
    end) groups [].

Lemma linkAll_get sourceResults groups pipeline :
  NoDup groups.*1 -> (forall p ops, (p, ops) ∈ groups -> ops <> []) ->
  map_get pipeline (linkAll sourceResults groups) =
    match map_get pipeline groups with
    | Some ops => linkPipeline sourceResults pipeline ops
    | None => None
    end /\ NoDup (linkAll sourceResults groups).*1.
Proof.
  unfold linkAll. intros Hnd Hne.
  assert (forall acc, (forall p, p ∈ groups.*1 -> map_get p acc = None) -> NoDup acc.*1 ->
    let res := fold_left (fun result '(pipeline, operators) =>
      match linkPipeline sourceResults pipeline operators with
      | Some sinkOperator => map_set pipeline sinkOperator result
      | None => result
      end) groups acc in
    map_get pipeline res =
      match map_get pipeline groups with
      | Some ops => linkPipeline sourceResults pipeline ops
      | None => map_get pipeline acc
      end /\ NoDup res.*1) as H.
  { induction groups as [|[p ops] groups IH]; intros acc Hacc Hda; cbv zeta; cbn; [done|].
    cbn in Hnd. apply NoDup_cons in Hnd as [Hp Hnd].
    destruct (linkPipeline_operators sourceResults p ops) as (c & Hc & _).
    { apply (Hne p). by left. }
    rw Hc. destruct (IH Hnd ltac:(intros q o Hin; apply (Hne q); by right) (map_set p c acc)) as [H1 H2].
    - intros q Hq. rw map_get_set_ne; [by intros ->|]. apply Hacc. by right.
    - by apply map_keys_nodup.
    - cbv zeta in H1, H2. split; [|done]. rw H1. destruct (decide (p = pipeline)) as [->|Hne'].
      + assert (map_get pipeline groups = None) as -> by by apply map_get_none.
        by rw map_get_set_eq.
      + destruct (map_get pipeline groups); [done|]. by rw map_get_set_ne. }
  apply (H []); [done|constructor].
Qed.

(** ** The chains of a plan *)

Section Graphs.
Context (operatorMap : jsmap string (list OperatorStats)).
Notation ops := (node_operators operatorMap).

(** No pipeline has operators both in [ns] and in [ns']. *)
Definition disjoint_pipelines (ns ns' : list PlanNode) : Prop :=
  forall p, flat_map (ops p) ns = [] \/ flat_map (ops p) ns' = [].

(** [nodes] are the nodes of the plan, parents first; the sources are all there
    and no two sources of a node share a pipeline. *)
Inductive unambiguous : PlanNode -> list PlanNode -> Prop :=
  | unambiguous_node n cs nss :
      getChildren n = Some (map Some cs) -> Forall2 unambiguous cs nss ->
      ForallOrdPairs disjoint_pipelines nss -> unambiguous n (n :: concat nss).

(** [g] has one chain for each pipeline of [nodes], with all of its operators. *)
Definition chains_ok (nodes : list PlanNode) (g : jsmap Z Chain) : Prop :=
  NoDup g.*1 /\ forall p, operators_of (map_get p g) = flat_map (ops p) nodes.

Lemma set_new_all_ok ns ns' acc g :
  chains_ok ns acc -> chains_ok ns' g -> disjoint_pipelines ns ns' ->
  chains_ok (ns ++ ns') (fold_left set_new g acc).
Proof.
  intros [Ha1 Ha2] [Hg1 Hg2] Hd. split; [by apply keys_set_new_all|]. intros p.
  rw get_set_new_all flat_map_app -Ha2 -Hg2. specialize (Hd p). rw -Ha2 -Hg2 in Hd.
  destruct (map_get p acc) as [c|]; cbn; [|done].
  destruct Hd as [Hd| ->]; [by destruct c|by rw app_nil_r].
Qed.

Lemma collectSources_ok compute cs nss pre acc :
  Forall2 (fun c ns => exists g, compute c = Ok g /\ chains_ok ns g) cs nss ->
  ForallOrdPairs disjoint_pipelines nss -> Forall (disjoint_pipelines pre) nss -> chains_ok pre acc ->
  exists g, collectSources compute (map Some cs) acc = Ok g /\ chains_ok (pre ++ concat nss) g.
Proof.
  intros Hcs. revert pre acc. induction Hcs as [|c ns cs nss (g & Hc & Hg) _ IH]; intros pre acc Ho Hp Hacc.
  - exists acc. by rw app_nil_r.
  - inversion Ho as [|? ? Ho1 Ho2]; subst. apply Forall_cons in Hp as [Hp1 Hp2].
    cbn. rw Hc. cbn. rw app_assoc. apply IH; [done| |by apply set_new_all_ok].
    rw Forall_forall. intros ns' Hin p. rw flat_map_app.
    rw Forall_forall in Hp2. rw Forall_forall in Ho1.
    destruct (Ho1 ns' Hin p) as [H1|H1]; [|by right].
    destruct (Hp2 ns' Hin p) as [H2|H2]; [|by right]. left. by rw H1 H2.
Qed.

Lemma groups_ok xs :
  NoDup (groupBy pipelineId xs).*1 /\ forall p ys, (p, ys) ∈ groupBy pipelineId xs -> ys <> [].
Proof.
  unfold groupBy. assert (forall m, NoDup m.*1 -> (forall p ys, (p, ys) ∈ m -> ys <> []) ->
    let m' := fold_left (pushUnder pipelineId) xs m in
    NoDup m'.*1 /\ forall p ys, (p, ys) ∈ m' -> ys <> []) as H.
  { induction xs as [|x xs IH]; intros m Hn Hm; [done|]. cbn. apply IH; [by apply map_keys_nodup|].
    unfold pushUnder. generalize (default [] (map_get (pipelineId x) m)) as l. intros l.
    clear IH Hn. induction m as [|[k v] m IHm]; cbn.
    - intros p ys [= _ ->]%list_elem_of_singleton. by destruct l.
    - destruct (decide (k = pipelineId x)).
      + intros p ys [[= _ ->]|Hin]%elem_of_cons; [by destruct l|]. apply (Hm p). by right.
      + intros p ys [[= -> ->]|Hin]%elem_of_cons; [apply (Hm k); by left|].
        revert p ys Hin. apply IHm. intros p ys Hin. apply (Hm p). by right. }
  apply (H []); [constructor|by intros ? ? ?%elem_of_nil].
Qed.

Lemma computeOperatorGraphs_ok fuel n nodes :
  (node_size n <= fuel)%nat -> unambiguous n nodes ->
  exists g, computeOperatorGraphs fuel operatorMap n = Ok g /\ chains_ok nodes g.
Proof.
  revert n nodes. induction fuel as [|fuel IH]; intros n nodes Hs Hu.
  { destruct n. cbn in Hs. lia. }
  destruct Hu as [n cs nss Hc Hcs Ho]. cbn. rw Hc.
  destruct (collectSources_ok (computeOperatorGraphs fuel operatorMap) cs nss [] []) as (g & Hg & Hnd & Hget).
  - assert (Hsm : forall c, c ∈ cs -> (node_size c <= fuel)%nat).
    { intros c Hin. assert (node_size c < node_size n)%nat; [|lia].
      apply (child_smaller n (map Some cs)); [done|]. by apply list_elem_of_fmap_2. }
    clear Hc Ho. induction Hcs as [|c ns cs nss Hu _ IHcs]; constructor.
    + apply IH; [|done]. apply Hsm. by left.
    + apply IHcs. intros c' Hin. apply Hsm. by right.
  - done.
  - rw Forall_forall. intros ns _ p. by left.
  - by split; [constructor|].
  - rw Hg. cbn [mbind result_bind]. cbn [app] in Hget.
    destruct (map_get (nodeId n) operatorMap) as [[|o os]|] eqn:Hm.
    + exists g. split; [done|split; [done|]]. intros p. rw Hget. cbn.
      unfold node_operators. by rw Hm.
    + set (xs := o :: os) in *. destruct (groups_ok xs) as [Hgn Hge].
      eexists. split; [reflexivity|].
      fold (linkAll g (groupBy pipelineId xs)). split.
      { apply keys_set_new_all. by apply (linkAll_get g _ 0). }
      intros p. rw get_set_new_all (proj1 (linkAll_get g _ p Hgn Hge)) groupBy_get. cbn [flat_map].
      rw -Hget. unfold node_operators at 1. rw Hm. cbn [default id].
      destruct (List.filter (fun x => bool_decide (pipelineId x = p)) xs) as [|y ys] eqn:Hf; [done|].
      destruct (linkPipeline_operators g p (y :: ys)) as (c & -> & Hops); [done|]. cbn [operators_of].
      rw Hops. done.
    + exists g. split; [done|split; [done|]]. intros p. rw Hget. cbn.
      unfold node_operators. by rw Hm.
Qed.
End Graphs.

(** ** The graph *)

Definition edge_of (call : GraphCall) : option (string * string) :=
  match call with setEdge from to => Some (from, to) | _ => None end.

Lemma chain_edges c sink pipeline :
  omap edge_of (computeD3StageOperatorGraph c sink pipeline) =
  let ids := map operatorNodeId (chain_operators c) in
  (rev (zip (tail ids) ids) ++
   match sink with Some sink => [(default "" (head ids), sink)] | None => [] end)%list.
Proof.
  revert c sink. fix IH 1. intros [o child] sink. cbn. rw !omap_app.
  destruct child as [child|].
  - rw IH. cbn. destruct child as [o' child']. cbn. rw -!app_assoc. cbn.
    by destruct sink.
  - cbn. by destruct sink.
Qed.

(** ** Stages *)

(** The stages of a query, parents first. *)
Fixpoint stages_of (s : StageInfo) : list StageInfo :=
  s :: flat_map stages_of (subStages s).

Section StageInfoInd.
Context (P : StageInfo -> Prop)
  (H : forall s, Forall P (subStages s) -> P s).

Fixpoint StageInfo_nested_ind (s : StageInfo) : P s :=
  H s ((fix all (l : list StageInfo) : Forall P l :=
          match l with
          | [] => Forall_nil_2 P
          | s :: l => Forall_cons_2 P s l (StageInfo_nested_ind s) (all l)
          end) (subStages s)).
End StageInfoInd.

Lemma findStage_first id s :
  findStage (Some id) s = List.find (fun s => streq (stageId s) id) (stages_of s).
Proof.
  induction s as [s IH] using StageInfo_nested_ind. destruct s as [sid pid ops subs].
  cbn [findStage stages_of stageId subStages List.find]. destruct (streq sid id); [done|].
  cbn [subStages] in IH. induction IH as [|s' subs Hs _ IHs]; [done|].
  cbn [flat_map]. rw Hs. rw find_app. destruct (List.find _ (stages_of s')); [done|].
  exact IHs.
Qed.

Lemma getAllStageIds_spec result s ids :
  getAllStageIds result s = Ok ids ->
  exists ids', ids = (result ++ ids')%list /\ map plan_id (stages_of s) = map Some ids'.
Proof.
  revert result ids. induction s as [s IH] using StageInfo_nested_ind. intros result ids.
  destruct s as [sid [[pid rt]|] ops subs]; [|done]. cbn [getAllStageIds stages_of map subStages].
  unfold plan_id at 1 2. cbn [plan fmap option_fmap option_map planId].
  cbn [subStages] in IH. intros Hg.
  assert (exists ids', ids = ((result ++ [pid]) ++ ids')%list /\
                       map plan_id (flat_map stages_of subs) = map Some ids') as (ids' & -> & Hm).
  { revert Hg. generalize (result ++ [pid])%list as acc.
    induction IH as [|s' subs Hs _ IHs]; intros acc.
    - intros [= <-]. exists []. by rw app_nil_r.
    - cbn [flat_map]. destruct (getAllStageIds acc s') as [acc'|] eqn:Ha; [|done].
      destruct (Hs _ _ Ha) as (i1 & -> & H1). intros (i2 & -> & H2)%IHs.
      exists (i1 ++ i2)%list. rw app_assoc. split; [done|]. by rw !map_app H1 H2. }
  exists (pid :: ids'). split; [by rw -app_assoc|]. cbn. by rw Hm.
Qed.

(** ** Properties *)

Section Selection.
Context (search : string) `{Rendering StagePage}.
#[local] Instance loop : RefreshLoop StagePage string QueryAnswer := stage_loop search.
Notation StageWeb := (Page StagePage string).

(** The selected stage, and all that the answers under way will select, is [stage]. *)
Definition settled_on (stage : string) (w : StageWeb) : Prop :=
  selectedStageId (page w) = Some stage /\ Forall (fun p => p = stage) (pending w).

Lemma handle_page answer st (w : StageWeb) :
  page (handle answer st w) = (if unmounted w then page w else st) /\
  pending (handle answer st w) = pending w.
Proof.
  unfold handle, setState, resetTimer. destruct (unmounted w); cbn; repeat case_match; done.
Qed.

Lemma settled_on_step stage w w' : settled_on stage w -> step w w' -> settled_on stage w'.
Proof.
  intros [Hs Hp] [id [_ ->]%fireTimer_some|i a Hf].
  - split; [done|]. cbn. apply Forall_app. split; [done|]. constructor; [|constructor].
    unfold requestedStage. by rw Hs.
  - unfold settle in Hf. destruct (pending w !! i) as [p|] eqn:Hi; [|done]. injection Hf as <-.
    rw Forall_lookup in Hp. assert (Hpi := Hp i p Hi). cbn in Hpi. subst p.
    assert (Hd : Forall (fun p => p = stage) (delete i (pending w))).
    { apply Forall_delete. by rw Forall_lookup. }
    unfold settled_on.
    match goal with |- context [handle a ?st ?w0] => destruct (handle_page a st w0) as [-> ->] end.
    cbn [unmounted page]. destruct (unmounted w); [done|]. by destruct a.
Qed.

(** The choice of a stage is lost when a request is under way: its answer
    selects the stage that was selected when the request was sent.  Without a
    request under way the choice stands, whatever is answered. *)
Theorem selected_stage_lost (w : StageWeb) stage :
  unmounted w = false ->
  let chosen := userChange (selectStage stage) false w in
  (unmounted chosen = false -> forall i earlier q, pending w !! i = Some earlier ->
     exists w', settle i (Some q) chosen = Some w' /\ selectedStageId (page w') = Some earlier) /\
  (pending w = [] -> forall w', rtc step chosen w' -> selectedStageId (page w') = Some stage).
Proof.
  intros Hu. cbv zeta. unfold userChange, setState. rw Hu. split.
  - cbn [unmounted]. intros Hb i earlier q Hi. unfold settle. cbn [pending page clock timeoutId unmounted]. rw Hi.
    eexists. split; [reflexivity|].
    match goal with |- context [handle ?a ?st ?w0] => destruct (handle_page a st w0) as [-> _] end.
    cbn [unmounted]. by rw Hb.
  - intros Hp. match goal with |- context [rtc step ?w0] => set (chosen := w0) end.
    assert (settled_on stage chosen) as Hs by (split; [done|]; cbn; by rw Hp).
    intros w' Hr. enough (settled_on stage w') as [? _] by done.
    induction Hr as [|w1 w2 w3 Hst _ IH]; [done|]. apply IH. by eapply settled_on_step.
Qed.
End Selection.

(** C2.  The operator graph of a stage is complete: when the sources of no plan
    node share a pipeline, every pipeline has one chain, and from its sink to its
    source the chain has exactly the pipeline's operators, node by node down the
    plan and by falling operator number at each node; and the edges drawn lead
    from each operator of the chain to the next. *)
Theorem computeOperatorGraphs_complete summaries root nodes :
  let operatorMap := computeOperatorMap summaries in
  unambiguous operatorMap root nodes ->
  exists g,
    computeOperatorGraphs (node_size root) operatorMap root = Ok g /\
    updateD3Graph (Some root) (Some summaries) = Ok (flat_map drawPipeline g) /\
    NoDup g.*1 /\
    (forall p, operators_of (map_get p g) =
       flat_map (fun n => rev (arraySort operatorBefore
         (List.filter (fun o => bool_decide (pipelineId o = p))
           (List.filter (fun o => bool_decide (planNodeId o = nodeId n)) summaries)))) nodes) /\
    (forall p c, (p, c) ∈ g ->
       let ids := map operatorNodeId (chain_operators c) in
       omap edge_of (drawPipeline (p, c)) = rev (zip (tail ids) ids)).
Proof.
  cbv zeta. intros Hu.
  destruct (computeOperatorGraphs_ok _ (node_size root) root nodes (le_n _) Hu) as (g & Hg & Hnd & Hget).
  exists g. split; [done|split; [|split; [done|split]]].
  - unfold updateD3Graph. cbn. by rw Hg.
  - intros p. rw Hget. apply flat_map_ext. intros n. unfold node_operators, computeOperatorMap.
    rw groupBy_get. by destruct (List.filter (fun x => bool_decide (planNodeId x = nodeId n)) summaries).
  - intros p c _. pose proof (chain_edges c None ("pipeline-" ++ show_Z p)) as He.
    cbv zeta in He. rw app_nil_r in He. exact He.
Qed.

Definition leaf (type id : string) : PlanNode := mkPlanNode type id None None None None None None None.
Definition example_plan : PlanNode :=
  mkPlanNode "io.OutputNode" "1" (Some (leaf "io.TableScanNode" "2")) None None None None None None.
Definition example_operator (node : string) (pipeline operator : Z) : OperatorStats :=
  {| planNodeId := node; pipelineId := pipeline; operatorId := operator; operatorType := "";
     addInputWall := "1.00s"; getOutputWall := "0.00ns"; finishWall := "0.00ns"; blockedWall := "0.00ns";
     inputPositions := of_Z 10; inputDataSize := "10B"; outputPositions := of_Z 10;
     outputDataSize := "10B"; totalDrivers := 1 |}.

Lemma computeOperatorGraphs_complete_witness :
  let summaries := [example_operator "1" 0 2; example_operator "2" 0 0; example_operator "1" 0 1] in
  exists g, computeOperatorGraphs 2 (computeOperatorMap summaries) example_plan = Ok g /\
            operators_of (map_get 0 g) =
              [example_operator "1" 0 2; example_operator "1" 0 1; example_operator "2" 0 0].
Proof.
  cbv zeta. set (summaries := [_; _; _]).
  destruct (computeOperatorGraphs_complete summaries example_plan [example_plan; leaf "io.TableScanNode" "2"])
    as (g & Hg & _ & _ & Hops & _).
  - apply (unambiguous_node _ example_plan [leaf "io.TableScanNode" "2"] [[leaf "io.TableScanNode" "2"]]).
    + reflexivity.
    + constructor; [|constructor]. apply (unambiguous_node _ _ [] []); [reflexivity| |]; constructor.
    + repeat constructor.
  - exists g. split; [exact Hg|]. rw Hops. reflexivity.
Defined.

(** Every entry of the menu leads to its stage: where a stage's id is the
    query's id, a dot and the id of its plan, choosing an entry shows a stage
    with that id. *)
Theorem menu_entries_found (s : StagePage) q output ids entry :
  query s = Some q -> outputStage q = Some output ->
  Forall (fun st => stageId st = queryId q ++ "." ++ default "" (plan_id st)) (stages_of output) ->
  getAllStageIds [] output = Ok ids -> entry ∈ ids ->
  exists stage operators,
    view (selectStage entry s) = Ok (ShowStage stage ids operators) /\ plan_id stage = Some entry.
Proof.
  intros Hq Ho Hids Hg Hin. unfold view. cbn [query selectStage selectedStageId]. rw Hq Ho Hg. cbn [mbind result_bind default].
  rw findStage_first. destruct (getAllStageIds_spec [] output ids Hg) as (ids' & -> & Hm).
  destruct (List.find _ (stages_of output)) as [stage|] eqn:Hf.
  - eexists _, _. split; [reflexivity|]. apply List.find_some in Hf as [Hf1 Hf2].
    assert (Hp : plan_id stage ∈ map plan_id (stages_of output)).
    { apply list_elem_of_In. by apply in_map. }
    rw Hm in Hp. apply list_elem_of_fmap in Hp as (x & Hp & _). rw Hp.
    rw Forall_forall in Hids. specialize (Hids stage ltac:(by apply list_elem_of_In)).
    rw Hids Hp in Hf2. cbn [default] in Hf2. apply streq_eq in Hf2.
    apply (inj (String.append _)) in Hf2. injection Hf2 as ->. done.
  - exfalso. cbn in Hin. assert (Some entry ∈ map plan_id (stages_of output)) as Hp.
    { rw Hm. by apply list_elem_of_fmap_2. }
    apply list_elem_of_fmap in Hp as (stage & Hp & Hst).
    rw Forall_forall in Hids. specialize (Hids stage Hst). rw -Hp in Hids. cbn in Hids.
    pose proof (List.find_none _ _ Hf stage ltac:(by apply list_elem_of_In)) as Hn.
    cbn beta in Hn. rw Hids in Hn. cbn in Hn. by rw streq_refl in Hn.
Qed.

Definition planned (id : string) : option Plan := Some {| planId := id; planRoot := leaf "io.TableScanNode" id |}.

Definition example_query : QueryAnswer :=
  {| queryId := "q"; queryState := "FINISHED"; finalQueryInfo := true;
     outputStage := Some (mkStage "q.0" (planned "0") None [mkStage "q.1" (planned "1") None []]) |}.

Lemma menu_entries_found_witness :
  exists stage operators,
    view (selectStage "1" {| initialized := true; ended := true; selectedStageId := Some "0";
                             query := Some example_query |}) = Ok (ShowStage stage ["0"; "1"] operators) /\
    plan_id stage = Some "1".
Proof.
  apply (menu_entries_found _ example_query (mkStage "q.0" (planned "0") None [mkStage "q.1" (planned "1") None []])).
  - reflexivity.
  - reflexivity.
  - repeat constructor.
  - reflexivity.
  - right. left.
Defined.
