(* ===== verification/StageMarkup.v ===== *)
(** * The elements of the stage page

    What the render methods of StageDetail.jsx return, the bar charts of the
    dialog of an operator, and what happens to the page when it cannot be drawn. *)

From stdpp Require Import relations.
From S2P Require Import Prelude JsString JsNumber Utils Markup JsMap Timers RefreshLoop StageDetail StageFacts.
Import StageDetail.OperatorSummary.

Module OperatorSummary.
Definition render (operator : OperatorStats) : result Html :=
  blocked ← formatOf formatDuration (parseDuration (blockedWall operator));
  Ok (el "div" []
      [el "div" [cls "highlight-row"]
         [el "div" [cls "header-row"] [txt (operatorType operator)];
          el "div" [] [txt (rateLine (rowInputRate operator) (byteInputRate operator))]];
       el "table" [cls "table"]
         [el "tbody" []
            [el "tr" []
               [el "td" [] [txt "Output"];
                el "td" [] [txt (amountLine (outputPositions operator) (outputDataSize operator))]];
             el "tr" [] [el "td" [] [txt "Drivers"]; el "td" [] [txt (show_Z (totalDrivers operator))]];
             el "tr" [] [el "td" [] [txt "Wall Time"]; el "td" [] [txt (formatDuration (getTotalWallTime operator))]];
             el "tr" [] [el "td" [] [txt "Blocked"]; el "td" [] [txt blocked]];
             el "tr" []
               [el "td" [] [txt "Input"];
                el "td" [] [txt (amountLine (inputPositions operator) (inputDataSize operator))]]]]]).
End OperatorSummary.

Module OperatorDetail.
Import StageDetail.OperatorDetail.

(** OperatorStatistic.render. *)
Definition statistic (s : string * string * (OperatorStats -> option num) * (num -> string)) : Html :=
  let '(name, id, _, _) := s in
  el "div" [cls "row operator-statistic"]
    [el "div" [cls "col-xs-2 italic-uppercase operator-statistic-title"] [txt name];
     el "div" [cls "col-xs-10"] [el "span" [cls "bar-chart"; "id" =: id] []]].

(** OperatorStatistic.componentDidMount: one bar for each of the operators. *)
Definition chart (operators : list OperatorStats)
    (s : string * string * (OperatorStats -> option num) * (num -> string)) : string * list (option num) :=
  let '(_, id, supplier, _) := s in (id, supplier <$> operators).

Definition charts (operator : OperatorStats) (tasks : list Task) : list (string * list (option num)) :=
  chart (getOperatorTasks tasks operator) <$> getInitialStatistics.

Definition renderFigures (operator : OperatorStats) (operatorTasks : list OperatorStats) (blocked : string) : Html :=
  el "div" [cls "row"]
    [el "div" [cls "col-xs-12"]
       [el "div" [cls "modal-header"]
          [el "button" ["type" =: "button"; cls "close"; "data-dismiss" =: "modal"; "aria-label" =: "Close"]
             [el "span" ["aria-hidden" =: "true"] [txt "×"]];
           el "h3" []
             [el "small" [] [txt "Pipeline "; txt (show_Z (pipelineId operator))];
              el "br" [] [];
              txt (operatorType operator)]];
        el "div" [cls "row"]
          [el "div" [cls "col-xs-6"]
             [el "table" [cls "table"]
                [el "tbody" []
                   [el "tr" []
                      [el "td" [] [txt "Input"];
                       el "td" [] [txt (amountLine (inputPositions operator) (inputDataSize operator))]];
                    el "tr" []
                      [el "td" [] [txt "Input Rate"];
                       el "td" [] [txt (rateLine (rowInputRate operator) (byteInputRate operator))]];
                    el "tr" []
                      [el "td" [] [txt "Output"];
                       el "td" [] [txt (amountLine (outputPositions operator) (outputDataSize operator))]];
                    el "tr" []
                      [el "td" [] [txt "Output Rate"];
                       el "td" [] [txt (rateLine (rowOutputRate operator) (byteOutputRate operator))]]]]];
           el "div" [cls "col-xs-6"]
             [el "table" [cls "table"]
                [el "tbody" []
                   [el "tr" []
                      [el "td" [] [txt "Wall Time"];
                       el "td" [] [txt (formatDuration (getTotalWallTime operator))]];
                    el "tr" [] [el "td" [] [txt "Blocked"]; el "td" [] [txt blocked]];
                    el "tr" [] [el "td" [] [txt "Drivers"]; el "td" [] [txt (show_Z (totalDrivers operator))]];
                    el "tr" [] [el "td" [] [txt "Tasks"]; el "td" [] [length_child operatorTasks]]]]]];
        el "div" [cls "row font-white"]
          [el "div" [cls "col-xs-2 italic-uppercase"] [el "strong" [] [txt "Statistic"]];
           el "div" [cls "col-xs-10 italic-uppercase"] [el "strong" [] [txt "Tasks"]]];
        concat (statistic <$> getInitialStatistics);
        el "p" [] [];
        el "p" [] []]].

Definition render (operator : OperatorStats) (tasks : list Task) : result Html :=
  blocked ← formatOf formatDuration (parseDuration (blockedWall operator));
  Ok (renderFigures operator (getOperatorTasks tasks operator) blocked).
End OperatorDetail.

Module StageOperatorGraph.
(** Nothing where the graph is drawn, which is outside of the component. *)
Definition render (stage : StageInfo) : Html :=
  let stageId := stageId stage in
  match plan_id stage, summaries stage with
  | None, _ => el "div" [cls "row error-message"] [el "div" [cls "col-xs-12"] [el "h4" [] [txt "Stage does not have a plan"]]]
  | Some _, (None | Some []) =>
      el "div" [cls "row error-message"]
        [el "div" [cls "col-xs-12"] [el "h4" [] [txt "Operator data not available for "; txt stageId]]]
  | Some _, Some _ => []
  end.
End StageOperatorGraph.

Module StageDetail.
Definition message (label : Html) : Html :=
  el "div" [cls "row error-message"] [el "div" [cls "col-xs-12"] [el "h4" [] [label]]].

Definition stageEntry (stageId : string) : Html :=
  el "li" ["key" =: stageId] [el "a" ["onClick" =>: "this.setState"] [txt stageId]].

(** The stage shown, below the header of its query; [ended] is isQueryEnded. *)
Definition renderStage (header : Html) (stage : StageInfo) (allStages : list string) (ended : bool) : Html :=
  let planId := default "" (plan_id stage) in
  let stageOperatorGraph :=
    if negb ended then
      el "div" [cls "row error-message"]
        [el "div" [cls "col-xs-12"]
           [el "h4" [] [txt "Operator graph will appear automatically when query completes."];
            el "div" [cls "loader"] [txt "Loading..."]]]
    else StageOperatorGraph.render stage in
  el "div" []
    [header;
     el "div" [cls "row"]
       [el "div" [cls "col-xs-12"]
          [el "div" [cls "row"]
             [el "div" [cls "col-xs-2"] [el "h3" [] [txt "Stage "; txt planId]];
              el "div" [cls "col-xs-8"] [];
              el "div" [cls "col-xs-2 stage-dropdown"]
                [el "div" [cls "input-group-btn"]
                   [el "button" ["type" =: "button"; cls "btn btn-default dropdown-toggle selectStage";
                                 "data-toggle" =: "dropdown"; "aria-haspopup" =: "true"; "aria-expanded" =: "false"]
                      [txt "Select Stage ";
                       el "span" [cls "caret"] []];
                    el "ul" [cls "dropdown-menu"] [concat (stageEntry <$> allStages)]]]]]];
     el "hr" [cls "h3-hr"] [];
     el "div" [cls "row"] [el "div" [cls "col-xs-12"] [stageOperatorGraph]]].

(** The page: the view, drawn. *)
Definition render (header : result Html) (s : StagePage) : result Html :=
  v ← view s;
  match v with
  | Message "Loading..." => Ok (message (el "div" [cls "loader"] [txt "Loading..."]))
  | Message text => Ok (message (txt text))
  | ShowStage stage allStages ended =>
      header ← header;
      _ ← member (plan_id stage) id;
      Ok (renderStage header stage allStages ended)
  end.
End StageDetail.

(** ** Drawing the page *)

(** The operators whose boxes are drawn, in the order they are. *)
Definition drawnOperators (calls : list StageDetail.StageOperatorGraph.GraphCall) : list OperatorStats :=
  omap (fun call => match call with
                    | StageDetail.StageOperatorGraph.setOperatorNode _ operator => Some operator
                    | _ => None
                    end) calls.

(** StageOperatorGraph.updateD3Graph, which runs after every update that shows
    the component: the calls on the graph, and the boxes of the operators. *)
Definition drawGraph (stage : StageInfo) : result (list Html) :=
  calls ← StageDetail.StageOperatorGraph.updateD3Graph (planRoot <$> plan stage) (summaries stage);
  mapM_result OperatorSummary.render (drawnOperators calls).

(** The page in a state: its elements, then the graph of a query that is over. *)
Definition drawn (header : StagePage -> result Html) (s : StagePage) : result (Html * list Html) :=
  html ← StageDetail.render (header s) s;
  v ← view s;
  match v with
  | ShowStage stage _ true => boxes ← drawGraph stage; Ok (html, boxes)
  | _ => Ok (html, [])
  end.

Definition stage_rendering (header : StagePage -> result Html) : Rendering StagePage :=
  fun s => match drawn header s with Ok _ => false | Throw _ => true end.

(** ** The elements in the browser *)

Lemma wf_summary operator h : OperatorSummary.render operator = Ok h -> wellFormed "div" h = true.
Proof.
  unfold OperatorSummary.render. destruct (formatOf _ _); [|done]. cbn [mbind result_bind]. intros [= <-]. markup.
Qed.

Lemma wf_statistic s : wellFormed "div" (OperatorDetail.statistic s) = true.
Proof. destruct s as [[[name id] supplier] renderer]. unfold OperatorDetail.statistic. markup. Qed.
#[export] Hint Resolve wf_statistic : markup.

(** The dialog of an operator is well formed and has one element for each of its
    charts, which are drawn into these, a bar for each of the tasks it counts. *)
Theorem operator_detail operator tasks h :
  OperatorDetail.render operator tasks = Ok h ->
  wellFormed "div" h = true /\ NoDup (ids h) /\ ids h = (OperatorDetail.charts operator tasks).*1 /\
  Forall (fun values => length values = length (StageDetail.OperatorDetail.getOperatorTasks tasks operator))
    (OperatorDetail.charts operator tasks).*2.
Proof.
  unfold OperatorDetail.render. destruct (formatOf _ _) as [blocked|]; [|done]. cbn [mbind result_bind]. intros [= <-].
  set (operatorTasks := StageDetail.OperatorDetail.getOperatorTasks tasks operator).
  assert (ids (OperatorDetail.renderFigures operator operatorTasks blocked) =
            ["totalWallTime"; "inputPositions"; "inputDataSize"; "outputPositions"; "outputDataSize"]) as -> by reflexivity.
  split; [unfold OperatorDetail.renderFigures, length_child; markup|]. split; [apply (bool_decide_unpack (NoDup _)); by vm_compute|]. split; [done|].
  repeat (apply Forall_cons_2; [by rw length_fmap|]). apply Forall_nil_2.
Qed.

Lemma wf_stageMessage label : wellFormed "h4" label = true -> wellFormed "div" (StageDetail.message label) = true.
Proof. intros Hl. unfold StageDetail.message. markup. Qed.

Lemma wf_stageEntry stageId : wellFormed "ul" (StageDetail.stageEntry stageId) = true.
Proof. unfold StageDetail.stageEntry. markup. Qed.
#[export] Hint Resolve wf_stageEntry : markup.

Lemma wf_operatorGraph stage : wellFormed "div" (StageOperatorGraph.render stage) = true.
Proof.
  unfold StageOperatorGraph.render. destruct (plan_id stage); [|markup].
  destruct (summaries stage) as [[|? ?]|]; [markup|done|markup].
Qed.
#[export] Hint Resolve wf_operatorGraph : markup.

Lemma wf_renderStage header stage allStages ended :
  wellFormed "div" header = true -> wellFormed "div" (StageDetail.renderStage header stage allStages ended) = true.
Proof. intros Hh. unfold StageDetail.renderStage. destruct ended; cbn [negb]; markup. Qed.

(** The page of a stage, with a header that is well formed, is well formed: a
    message, or the stage below the header with a menu of all stages. *)
Theorem stage_page header s h :
  StageDetail.render header s = Ok h -> (forall x, header = Ok x -> wellFormed "div" x = true) ->
  wellFormed "div" h = true /\
  ((exists text, view s = Ok (Message text) /\ String.concat "" (textContent <$> h) = text) \/
   (exists stage allStages ended x, view s = Ok (ShowStage stage allStages ended) /\ header = Ok x /\
      h = StageDetail.renderStage x stage allStages ended)).
Proof.
  intros Hr Hh. unfold StageDetail.render in Hr. destruct (view s) as [[text|stage allStages ended]|] eqn:Hv; [| |done]; cbn [mbind result_bind] in Hr.
  - assert (h = StageDetail.message (if streq text "Loading..." then el "div" [cls "loader"] [txt text] else txt text)) as ->.
    { unfold streq. destruct (String.eqb_spec text "Loading...") as [->|Hne]; [by injection Hr as <-|].
      repeat (case_match; try (by injection Hr as <-)). }
    split; [apply wf_stageMessage; destruct (streq _ _); markup|]. left. exists text. split; [done|].
    destruct (streq _ _); reflexivity.
  - destruct header as [x|]; [|done]. cbn [mbind result_bind] in Hr. destruct (plan_id stage) eqn:Hp; [|done].
    cbn [mbind result_bind member] in Hr. injection Hr as <-. split; [by apply wf_renderStage, Hh|]. right.
    by eexists _, _, _, _.
Qed.

(** ** A page that cannot be drawn *)

(** Without a plan of every stage the page cannot be drawn. *)
Lemma unplanned_breaks header s q output stage :
  query s = Some q -> outputStage q = Some output -> stage ∈ stages_of output -> plan stage = None ->
  stage_rendering header s = true.
Proof.
  intros Hq Ho Hin Hp. unfold stage_rendering, drawn, StageDetail.render, view. rw Hq Ho.
  destruct (getAllStageIds [] output) as [ids|] eqn:Hg; [|done]. exfalso.
  destruct (getAllStageIds_spec [] output ids Hg) as (ids' & _ & Hm).
  assert (plan_id stage ∈ map plan_id (stages_of output)) as Hs.
  { apply list_elem_of_In. apply in_map. by apply list_elem_of_In. }
  rw Hm in Hs. apply list_elem_of_fmap in Hs as (id & Hs & _). unfold plan_id in Hs. by rw Hp in Hs.
Qed.

Definition unplanned : QueryAnswer :=
  {| queryId := "q"; queryState := "RUNNING"; finalQueryInfo := false;
     outputStage := Some (mkStage "q.0" None None []) |}.

(** The first answer has a stage without a plan: the page is taken away, and
    neither shows nor asks for anything any more, although the query goes on. *)
Lemma refresh_goes_on_witness :
  let loop := stage_loop "?q.0" in
  let rendering := stage_rendering (fun _ => Ok []) in
  exists w' : Page StagePage string, settle 0 (Some unplanned) (mount initialPage) = Some w' /\
    unmounted w' = true /\ stopped (page w') = false /\ nf step w'.
Proof.
  intros loop rendering. set (w := mount initialPage : Page StagePage string).
  assert (Hw : reachable initialPage w) by by apply reach_mount.
  destruct (settle 0 (Some unplanned) w) as [w'|] eqn:Hs; [|done]. exists w'.
  destruct (refresh_goes_on initialPage w Hw) as (_ & _ & _ & H1).
  destruct (H1 eq_refl eq_refl 0%nat "0" unplanned w') as (Hu & Hpage & Hpolls & Hnf); [done|done|done|].
  split; [done|]. split; [done|]. split; [by rw Hpage|]. apply Hnf. rw Hpolls. intros [?|?]; done.
Defined.
