(* ===== verification/QueryDetail.v ===== *)
(** * components/QueryDetail.jsx: the page of one query

    The table of tasks, the figures and histograms of the stages, the stack
    trace of a failed query, and the refresh loop with its rates. *)

From S2P Require Import Prelude JsString JsNumber Utils JsMap Timers RefreshLoop.

(** [computeRate(count, ms)] where [ms] is null: it is not 0, but divides like 0. *)
Definition computeRateOf (count : num) (ms : option num) : num :=
  match ms with Some ms => computeRate count ms | None => mul (div count (of_Z 0)) (of_Z 1000) end.

Record Task := {
  taskId : string;
  self : string;
  nodeId : string;
  taskState : string;
  fullyBlocked : bool;
  elapsedTime : string;
  createTime : string;
  totalScheduledTime : string;
  totalCpuTime : string;
  rawInputPositions : num;
  rawInputDataSize : string;
  queuedDrivers : num;
  runningDrivers : num;
  blockedDrivers : num;
  completedDrivers : num;
  totalBufferedBytes : num
}.

Module TaskList.
Definition removeQueryId (id : string) : string :=
  let pos := index_of "." id in
  if negb (pos =? -1) then substring_from id (pos + 1) else id.

(** The loop over the parts of [taskA]; a part [taskB] does not have reads as
    undefined, which parses to NaN and equals nothing. *)
Fixpoint compareParts (as_ bs : list string) : Z :=
  match as_ with
  | [] => 0
  | a :: as_ =>
      let anum := parseInt a in
      let bnum := match bs with b :: _ => parseInt b | [] => NaN end in
      if negb (eq anum bnum) then (if gt anum bnum then 1 else -1)
      else compareParts as_ (tail bs)
  end.

Definition compareTaskId (taskA taskB : string) : Z :=
  let taskIdArrA := split "." (removeQueryId taskA) in
  let taskIdArrB := split "." (removeQueryId taskB) in
  if (length taskIdArrB <? length taskIdArrA)%nat then 1 else compareParts taskIdArrA taskIdArrB.

Definition formatState (state : string) (fullyBlocked : bool) : string :=
  if fullyBlocked && streq state "RUNNING" then "BLOCKED" else state.

Section Url.
(** The platform's URL constructor. *)
Context {URL : Type} (newURL : string -> result URL) (hostname port : URL -> string).

(** Whether some host has tasks under two ports. *)
Fixpoint multiplePorts (tasks : list Task) (hostToPortNumber : jsmap string string) : result bool :=
  match tasks with
  | [] => Ok false
  | task :: tasks =>
      hostname' ← getHostname URL newURL hostname (self task);
      port' ← getPort URL newURL port (self task);
      match map_get hostname' hostToPortNumber with
      | Some other =>
          if negb (streq other port') then Ok true
          else multiplePorts tasks (map_set hostname' port' hostToPortNumber)
      | None => multiplePorts tasks (map_set hostname' port' hostToPortNumber)
      end
  end.

Definition showPortNumbers (tasks : list Task) : result bool := multiplePorts tasks [].

End Url.
End TaskList.

(** The figures of a stage that has a plan. *)
Record StageFigures := {
  stageState : Utils.Stage;
  stageScheduledTime : string;
  stageBlockedTime : string;
  stageCpuTime : string;
  stageCumulativeMemory : num;
  stageReservation : string;
  stagePeakReservation : string
}.

(** A stage: its number, its figures, its own tasks ([None] when the property is
    missing) and the stages below it. *)
Inductive Stage := mkStage {
  stageId : string;
  figures : option StageFigures;
  tasks : option (list Task);
  subStages : option (list Stage)
}.

Module StageSummary.
Definition getExpandedIcon (expanded : bool) : string :=
  if expanded then "glyphicon-chevron-up" else "glyphicon-chevron-down".

Definition getExpandedStyle (expanded : bool) : list (string * string) :=
  if expanded then [] else [("display", "none")].

Definition toggleExpanded (expanded : bool) : bool := negb expanded.

Definition HISTOGRAM_WIDTH : num := of_Z 175.

(** The elements of an array: [None] is a hole. *)
Notation cells := (list (option num)).

(** [data[bucket] = data[bucket] + 1]: past the end the array grows, with holes,
    and the new element is not a number; a bucket that is no index leaves the
    elements alone. *)
Definition increment (data : cells) (bucket : num) : cells :=
  match to_Z bucket with
  | Some i =>
      if i <? 0 then data
      else
        let n := Z.to_nat i in
        match data !! n with
        | Some cell => <[n := Some (match cell with Some c => add c (of_Z 1) | None => NaN end)]> data
        | None => (data ++ replicate (n - length data) None ++ [Some NaN])%list
        end
  | None => data
  end.

(** How often [for (let i = 0; i < limit; i++)] runs, for a limit up to [fuel]. *)
Fixpoint iterations (fuel : nat) (i : Z) (limit : num) : nat :=
  match fuel with
  | O => 0%nat
  | S fuel => if lt (of_Z i) limit then S (iterations fuel (i + 1) limit) else 0%nat
  end.

(** The number of tasks in each bucket; there are at most 176 buckets. *)
Definition numBuckets (inputData : list num) : num :=
  num_min HISTOGRAM_WIDTH (sqrt (of_Z (Z.of_nat (length inputData)))).
Definition dataMin (inputData : list num) : num := fold_left num_min inputData PInf.
Definition dataMax (inputData : list num) : num := fold_left num_max inputData NInf.
Definition bucketSize (inputData : list num) : num :=
  div (sub (dataMax inputData) (dataMin inputData)) (numBuckets inputData).

Definition histogramData (inputData : list num) : cells :=
  let size := bucketSize inputData in
  if eq size (of_Z 0) then [Some (of_Z (Z.of_nat (length inputData)))]
  else
    fold_left
      (fun data dataPoint => increment data (floor (div (sub dataPoint (dataMin inputData)) size)))
      inputData
      (replicate (iterations 177 0 (add (numBuckets inputData) (of_Z 1))) (Some (of_Z 0))).

(** The labels of the buckets. *)
Definition bucketLabel (numberFormatter : num -> string) (inputData : list num) (i : Z) : string :=
  let size := bucketSize inputData in
  let min := dataMin inputData in
  numberFormatter (add min (mul (of_Z i) size)) ++ "-" ++
  numberFormatter (add min (mul (of_Z (i + 1)) size)).

Definition renderHistogram (inputData : list num) (numberFormatter : num -> string) :
    cells * list string * num :=
  let data := histogramData inputData in
  (data,
   (fun i => bucketLabel numberFormatter inputData (Z.of_nat i)) <$> List.seq 0 (length data),
   div HISTOGRAM_WIDTH (of_Z (Z.of_nat (length data)))).

Definition taskBefore (taskA taskB : Task) : bool :=
  lt (getTaskNumber (taskId taskA)) (getTaskNumber (taskId taskB)).

(** The times the charts of a stage show, by task number.  (Math.min and the
    subtraction convert null to 0.) *)
Definition scheduledTimes (tasks : list Task) : list num :=
  (fun task => nullToNumber (parseDuration (totalScheduledTime task))) <$> arraySort taskBefore tasks.
Definition cpuTimes (tasks : list Task) : list num :=
  (fun task => nullToNumber (parseDuration (totalCpuTime task))) <$> arraySort taskBefore tasks.

(** The counts shown: pending, running, blocked, all; and the buffered bytes. *)
Definition counts (tasks : list Task) : nat * nat * nat * nat :=
  let count p := length (List.filter p tasks) in
  (count (fun task => streq (taskState task) "PLANNED"), count (fun task => streq (taskState task) "RUNNING"),
   count fullyBlocked, length tasks).

Definition buffers (tasks : list Task) : num :=
  fold_left add (totalBufferedBytes <$> tasks) (of_Z 0).
End StageSummary.

(** StageList.getStages: the stages, parents first. *)
Fixpoint getStages (stage : Stage) : list Stage :=
  match subStages stage with
  | None => []
  | Some subStages => stage :: flat_map getStages subStages
  end.

(** QueryDetail.getTasksFromStage. *)
Fixpoint getTasksFromStage (stage : Stage) : list Task :=
  match subStages stage, tasks stage with
  | Some subStages, Some tasks => (tasks ++ flat_map getTasksFromStage subStages)%list
  | _, _ => []
  end.

(** ** Stack traces *)

(** The property [stack]: undefined, null or an array of frames. *)
Inductive Stack := NoStack | NullStack | Frames (frames : list string).

Inductive FailureInfo := mkFailureInfo {
  type : string;
  message : option string;                    (* null without a message *)
  stack : Stack;
  suppressed : list FailureInfo;              (* empty when the property is missing *)
  cause : option FailureInfo
}.

Definition failureInfoToString (t : FailureInfo) : string :=
  match message t with Some m => type t ++ ": " ++ m | None => type t end.

(** The number of equal frames at the ends of two stacks: the loop runs on the
    reversed stacks. *)
Fixpoint commonPrefix (a b : list string) : nat :=
  match a, b with
  | x :: a, y :: b => if streq x y then S (commonPrefix a b) else 0%nat
  | _, _ => 0%nat
  end.

Definition countSharedStackFrames (stack parentStack : list string) : nat :=
  commonPrefix (rev stack) (rev parentStack).

Definition LF : string := String "010" "".
Definition TAB : string := String "009" "".

(** The frames of a failure; a parent without a stack throws. *)
Definition frameLines (frames : list string) (parentStack : Stack) (linePrefix : string) : result string :=
  sharedStackFrames ←
    match parentStack with
    | NullStack => Ok 0%nat
    | NoStack => Throw TypeError
    | Frames parentFrames => Ok (countSharedStackFrames frames parentFrames)
    end;
  Ok (String.concat "" ((fun frame => linePrefix ++ TAB ++ "at " ++ frame ++ LF) <$>
        take (length frames - sharedStackFrames) frames) ++
      (if (sharedStackFrames =? 0)%nat then ""
       else linePrefix ++ TAB ++ "... " ++ show_Z (Z.of_nat sharedStackFrames) ++ " more" ++ LF)).

Fixpoint formatStackTraceHelper (info : FailureInfo) (parentStack : Stack) (prefix linePrefix : string) :
    result string :=
  match info with
  | mkFailureInfo _ _ stack suppressed cause =>
      frames ← match stack with
               | Frames frames => frameLines frames parentStack linePrefix
               | _ => Ok ""
               end;
      suppressedText ←
        (fix each (suppressed : list FailureInfo) : result string :=
           match suppressed with
           | [] => Ok ""
           | s :: suppressed =>
               text ← formatStackTraceHelper s stack "Suppressed: " (linePrefix ++ TAB);
               rest ← each suppressed;
               Ok (text ++ rest)
           end) suppressed;
      causeText ← match cause with
                  | Some cause => formatStackTraceHelper cause stack "Caused by: " linePrefix
                  | None => Ok ""
                  end;
      Ok (linePrefix ++ prefix ++ failureInfoToString info ++ LF ++ frames ++ suppressedText ++ causeText)
  end.

Definition formatStackTrace (info : FailureInfo) : result string :=
  formatStackTraceHelper info (Frames []) "" "".

(** ** The page *)

Record QueryStats := {
  queryScheduledTime : string;
  queryCpuTime : string;
  queryBlockedTime : string;
  queuedTime : string;
  executionTime : string;
  queryElapsedTime : string;
  queryCreateTime : Date;                     (* new Date(createTime) *)
  queryEndTime : option Date;
  processedInputPositions : num;
  processedInputDataSize : string;
  physicalInputPositions : num;
  physicalInputDataSize : string;
  internalNetworkInputPositions : num;
  internalNetworkInputDataSize : string;
  outputPositions : num;
  outputDataSize : string;
  writtenPositions : num;
  logicalWrittenDataSize : string;
  physicalWrittenDataSize : string;
  spilledDataSize : string;
  userMemoryReservation : string;
  peakUserMemoryReservation : string;
  peakRevocableMemoryReservation : string;
  peakTotalMemoryReservation : string;
  cumulativeUserMemory : num;
  driverStats : Utils.QueryStats
}.

Record Session := {
  user : string;
  principal : option string;
  source : option string;
  catalog : option string;
  schema : option string;
  remoteUserAddress : option string;
  clientTags : list string;
  systemProperties : list (string * string);
  catalogProperties : list (string * list (string * string));
  resourceEstimates : list (string * string)
}.

(** What the page shows of a query beside its figures. *)
Record QueryDetails := {
  queryId : string;
  recoveryEnabled : bool;
  scheduled : bool;
  session : Session;
  resourceGroupId : option (list string);
  memoryPool : string;
  warnings : list (string * string);          (* name of the code, message *)
  failureInfo : option FailureInfo;
  errorType : option string;
  errorCode : option (string * string);       (* name and number *)
  queryText : string                          (* query.query *)
}.

(** The answer of v1/query and the time it is handled at. *)
Record QueryInfo := {
  state : string;
  queryStats : QueryStats;
  details : QueryDetails;
  outputStage : option Stage;
  finalQueryInfo : bool;
  nowMillis : num
}.

Inductive TASK_FILTER := ALL | PLANNED | RUNNING | SUSPENDED | FINISHED | FAILED.

Definition taskFilterMatches (filter : TASK_FILTER) (state : string) : bool :=
  match filter with
  | ALL => true
  | PLANNED => streq state "PLANNED"
  | RUNNING => streq state "RUNNING"
  | SUSPENDED => streq state "SUSPENDED"
  | FINISHED => streq state "FINISHED"
  | FAILED => streq state "FAILED" || streq state "ABORTED" || streq state "CANCELED"
  end.

(** [lastSnapshotStages] is written, but the page reads [lastSnapshotStage],
    which is undefined at first ([None]); the stage itself may be undefined. *)
Record QueryPage := {
  query : option QueryInfo;
  lastSnapshotStage : option (option Stage);
  lastSnapshotStages : option (option Stage);
  lastSnapshotTasks : option (option Stage);
  lastScheduledTime : option num;
  lastCpuTime : option num;
  lastRowInput : num;
  lastByteInput : option num;
  scheduledTimeRate : list num;
  cpuTimeRate : list num;
  rowInputRate : list num;
  byteInputRate : list num;
  reservedMemory : list (option num);
  initialized : bool;
  ended : bool;
  lastRefresh : option num;
  lastRender : option num;
  stageRefresh : bool;
  taskRefresh : bool;
  taskFilter : TASK_FILTER
}.

Definition initialPage : QueryPage :=
  {| query := None; lastSnapshotStage := None; lastSnapshotStages := None; lastSnapshotTasks := None;
     lastScheduledTime := Some (of_Z 0); lastCpuTime := Some (of_Z 0); lastRowInput := of_Z 0;
     lastByteInput := Some (of_Z 0); scheduledTimeRate := []; cpuTimeRate := []; rowInputRate := [];
     byteInputRate := []; reservedMemory := []; initialized := false; ended := false;
     lastRefresh := None; lastRender := None; stageRefresh := true; taskRefresh := true;
     taskFilter := ALL |}.

(** The first setState of an answer. *)
Definition withQuery (q : QueryInfo) (s : QueryPage) : QueryPage :=
  let st := queryStats q in
  {| query := Some q;
     lastSnapshotStage := if stageRefresh s then Some (outputStage q) else lastSnapshotStage s;
     lastSnapshotStages := lastSnapshotStages s;
     lastSnapshotTasks := if taskRefresh s then Some (outputStage q) else lastSnapshotTasks s;
     lastScheduledTime := parseDuration (queryScheduledTime st);
     lastCpuTime := parseDuration (queryCpuTime st);
     lastRowInput := processedInputPositions st;
     lastByteInput := parseDataSize (processedInputDataSize st);
     scheduledTimeRate := scheduledTimeRate s; cpuTimeRate := cpuTimeRate s;
     rowInputRate := rowInputRate s; byteInputRate := byteInputRate s;
     reservedMemory := reservedMemory s; initialized := true; ended := finalQueryInfo q;
     lastRefresh := Some (nowMillis q); lastRender := lastRender s; stageRefresh := stageRefresh s;
     taskRefresh := taskRefresh s; taskFilter := taskFilter s |}.

(** The second setState: the rates since [last], the time of the answer before
    ([s] is the state at that time). *)
Definition withRates (q : QueryInfo) (last : num) (s s' : QueryPage) : QueryPage :=
  let st := queryStats q in
  let secs := div (sub (nowMillis q) last) (of_Z 1000) in
  if ge secs (of_Z 0) then
    let millis := mul secs (of_Z 1000) in
    let difference a b := sub (nullToNumber a) (nullToNumber b) in
    {| query := query s'; lastSnapshotStage := lastSnapshotStage s';
       lastSnapshotStages := lastSnapshotStages s'; lastSnapshotTasks := lastSnapshotTasks s';
       lastScheduledTime := lastScheduledTime s'; lastCpuTime := lastCpuTime s';
       lastRowInput := lastRowInput s'; lastByteInput := lastByteInput s';
       scheduledTimeRate :=
         addToHistory (div (difference (parseDuration (queryScheduledTime st)) (lastScheduledTime s)) millis)
           (scheduledTimeRate s');
       cpuTimeRate :=
         addToHistory (div (difference (parseDuration (queryCpuTime st)) (lastCpuTime s)) millis)
           (cpuTimeRate s');
       rowInputRate :=
         addToHistory (div (sub (processedInputPositions st) (lastRowInput s)) secs) (rowInputRate s');
       byteInputRate :=
         addToHistory (div (difference (parseDataSize (processedInputDataSize st)) (lastByteInput s)) secs)
           (byteInputRate s');
       reservedMemory := addToHistory (parseDataSize (userMemoryReservation st)) (reservedMemory s');
       initialized := initialized s'; ended := ended s'; lastRefresh := lastRefresh s';
       lastRender := lastRender s'; stageRefresh := stageRefresh s'; taskRefresh := taskRefresh s';
       taskFilter := taskFilter s' |}
  else s'.

(** The time the rates of an answer are measured since: none once the page had
    ended, nor for a running query without an earlier answer; a query that is over
    gets its rates over all its time. *)
Definition measuredSince (q : QueryInfo) (s : QueryPage) : option num :=
  if ended s then None
  else
    match lastRefresh s with
    | None =>
        if streq (state q) "RUNNING" then None
        else Some (sub (nowMillis q) (nullToNumber (parseDuration (queryElapsedTime (queryStats q)))))
    | Some last => Some last
    end.

Definition onQueryInfo (q : QueryInfo) (s : QueryPage) : QueryPage :=
  let s' := withQuery q s in
  match measuredSince q s with Some last => withRates q last s s' | None => s' end.

#[export] Instance query_loop : RefreshLoop QueryPage unit QueryInfo := {
  capture _ := ();
  on_answer _ q s := onQueryInfo q s;
  on_fail s :=
    {| query := query s; lastSnapshotStage := lastSnapshotStage s;
       lastSnapshotStages := lastSnapshotStages s; lastSnapshotTasks := lastSnapshotTasks s;
       lastScheduledTime := lastScheduledTime s; lastCpuTime := lastCpuTime s;
       lastRowInput := lastRowInput s; lastByteInput := lastByteInput s;
       scheduledTimeRate := scheduledTimeRate s; cpuTimeRate := cpuTimeRate s;
       rowInputRate := rowInputRate s; byteInputRate := byteInputRate s;
       reservedMemory := reservedMemory s; initialized := true; ended := ended s;
       lastRefresh := lastRefresh s; lastRender := lastRender s; stageRefresh := stageRefresh s;
       taskRefresh := taskRefresh s; taskFilter := taskFilter s |};
  stopped s := match query s with None => false | Some _ => ended s end;
  interval := 3000;
  recovers := false;
}.

#[export] Instance query_ends : EndingLoop QueryPage unit QueryInfo (fun q => finalQueryInfo q = true).
Proof.
  split; [|done]. intros [] q s Hq. unfold on_answer, stopped. cbn. unfold onQueryInfo, withRates.
  destruct (measuredSince q s); [|done]. by destruct (ge _ _).
Qed.

(** ** Controls *)

(** The parts of the state the controls of the page change. *)
Definition withControls (stages tasks : option (option Stage)) (stageRefresh taskRefresh : bool)
    (filter : TASK_FILTER) (s : QueryPage) : QueryPage :=
  {| query := query s; lastSnapshotStage := lastSnapshotStage s; lastSnapshotStages := stages;
     lastSnapshotTasks := tasks; lastScheduledTime := lastScheduledTime s; lastCpuTime := lastCpuTime s;
     lastRowInput := lastRowInput s; lastByteInput := lastByteInput s;
     scheduledTimeRate := scheduledTimeRate s; cpuTimeRate := cpuTimeRate s;
     rowInputRate := rowInputRate s; byteInputRate := byteInputRate s;
     reservedMemory := reservedMemory s; initialized := initialized s; ended := ended s;
     lastRefresh := lastRefresh s; lastRender := lastRender s; stageRefresh := stageRefresh;
     taskRefresh := taskRefresh; taskFilter := filter |}.

Definition handleTaskRefreshClick (s : QueryPage) : result QueryPage :=
  if taskRefresh s then
    outputStage ← member (query s) outputStage;
    Ok (withControls (lastSnapshotStages s) (Some outputStage) (stageRefresh s) false (taskFilter s) s)
  else
    Ok (withControls (lastSnapshotStages s) (lastSnapshotTasks s) (stageRefresh s) true (taskFilter s) s).

Definition handleStageRefreshClick (s : QueryPage) : result QueryPage :=
  if stageRefresh s then
    outputStage ← member (query s) outputStage;
    Ok (withControls (Some outputStage) (lastSnapshotTasks s) false (taskRefresh s) (taskFilter s) s)
  else
    Ok (withControls (lastSnapshotStages s) (lastSnapshotTasks s) true (taskRefresh s) (taskFilter s) s).

Definition handleTaskFilterClick (filter : TASK_FILTER) (s : QueryPage) : QueryPage :=
  withControls (lastSnapshotStages s) (lastSnapshotTasks s) (stageRefresh s) (taskRefresh s) filter s.

(** The tasks the table lists; nothing before the first snapshot. *)
Definition listedTasks (s : QueryPage) : option (list Task) :=
  match lastSnapshotTasks s with
  | None => None
  | Some stage =>
      let all := match stage with Some stage => getTasksFromStage stage | None => [] end in
      Some (List.filter (fun task => taskFilterMatches (taskFilter s) (taskState task)) all)
  end.

(** ** Session *)

Definition renderSessionProperties (session : Session) : list string :=
  let system := map (fun '(property, value) => "- " ++ property ++ "=" ++ value) (systemProperties session) in
  let catalogs :=
    flat_map (fun '(catalog, properties) =>
      map (fun '(property, value) => "- " ++ catalog ++ "." ++ property ++ "=" ++ value) properties)
      (catalogProperties session) in
  (system ++ catalogs)%list.

Definition is_upper (c : ascii) : bool :=
  (Ascii.leb "A" c && Ascii.leb c "Z")%bool.

Definition to_lower (c : ascii) : ascii :=
  if is_upper c then ascii_of_nat (nat_of_ascii c + 32) else c.

Fixpoint upperChars (s : string) : list ascii :=
  match s with
  | EmptyString => []
  | String c s => if is_upper c then c :: upperChars s else upperChars s
  end.

(** [s.replace(new RegExp(c), "_" + c.toLowerCase())]: the first occurrence. *)
Fixpoint replaceUpper (c : ascii) (s : string) : string :=
  match s with
  | EmptyString => ""
  | String d s => if Ascii.eqb d c then "_" ++ String (to_lower c) s else String d (replaceUpper c s)
  end.

Definition snakeCased (resource : string) : string :=
  fold_left (fun s c => replaceUpper c s) (upperChars resource) resource.

Definition renderResourceEstimates (session : Session) : list string :=
  map (fun '(resource, value) => "- " ++ snakeCased resource ++ "=" ++ value) (resourceEstimates session).
