(* ===== verification/QueryFacts.v ===== *)
(** * The query page: stack traces, snapshots

    Lemmas and properties of QueryDetail.v. *)

From S2P Require Import Prelude JsString JsNumber Utils JsMap Timers RefreshLoop QueryDetail.

#[local] Arguments streq : simpl never.

(** ** Shared frames *)

Lemma commonPrefix_spec a b :
  let n := commonPrefix a b in
  (n <= length a)%nat /\ (n <= length b)%nat /\ take n a = take n b /\
  (forall x y, a !! n = Some x -> b !! n = Some y -> x <> y).
Proof.
  revert b. induction a as [|x a IH]; intros [|y b]; cbn; try (repeat split; try lia; done).
  destruct (streq_spec x y) as [->|Hne]; cbn.
  - destruct (IH b) as (H1 & H2 & H3 & H4). repeat split; [lia|lia|by f_equal|done].
  - repeat split; [lia|lia|]. by intros ? ? [= ->] [= ->].
Qed.

(** The frames shared are the longest common end of the two stacks. *)
Lemma countSharedStackFrames_spec a b :
  let n := countSharedStackFrames a b in
  (n <= length a)%nat /\ (n <= length b)%nat /\
  drop (length a - n) a = drop (length b - n) b /\
  (forall m, (m <= length a)%nat -> (m <= length b)%nat ->
     drop (length a - m) a = drop (length b - m) b -> (m <= n)%nat).
Proof.
  cbv zeta. unfold countSharedStackFrames.
  destruct (commonPrefix_spec (rev a) (rev b)) as (H1 & H2 & H3 & H4).
  set (n := commonPrefix (rev a) (rev b)) in *. rw !length_rev in H1 H2.
  split; [done|split; [done|split]].
  - rw -!drop_rev //. by rw H3.
  - intros m Hma Hmb Hd. rw -!drop_rev // in Hd. apply (f_equal (@rev string)) in Hd.
    rw !rev_involutive in Hd. destruct (Nat.le_gt_cases m n) as [|Hgt]; [done|exfalso].
    destruct (lookup_lt_is_Some_2 (rev a) n) as [x Hx]; [rw length_rev; lia|].
    destruct (lookup_lt_is_Some_2 (rev b) n) as [y Hy]; [rw length_rev; lia|].
    apply (H4 x y Hx Hy). rw -(lookup_take_lt _ m) // Hd in Hx.
    rw lookup_take_lt // Hy in Hx. by injection Hx.
Qed.

(** ** The text *)

(** Every failure has its frames, as the server sends them. *)
Fixpoint stacked (info : FailureInfo) : bool :=
  match info with
  | mkFailureInfo _ _ stack suppressed cause =>
      match stack with Frames _ => true | _ => false end &&
      forallb stacked suppressed &&
      match cause with Some cause => stacked cause | None => true end
  end.

Section FailureInd.
Context (P : FailureInfo -> Prop)
  (H : forall ty m st sup ca, Forall P sup -> (forall c, ca = Some c -> P c) -> P (mkFailureInfo ty m st sup ca)).

Fixpoint FailureInfo_nested_ind (info : FailureInfo) : P info :=
  match info with
  | mkFailureInfo ty m st sup ca =>
      H ty m st sup ca
        ((fix all (l : list FailureInfo) : Forall P l :=
            match l with
            | [] => Forall_nil_2 P
            | s :: l => Forall_cons_2 P s l (FailureInfo_nested_ind s) (all l)
            end) sup)
        (match ca return forall c, ca = Some c -> P c with
         | Some c' => fun c (E : Some c' = Some c) =>
             match E in _ = o return match o with Some c => P c | None => True end with
             | Logic.eq_refl => FailureInfo_nested_ind c'
             end
         | None => fun c (E : None = Some c) =>
             match E in _ = o return match o with Some c => P c | None => True end with
             | Logic.eq_refl => I
             end
         end)
  end.
End FailureInd.

Definition frameText (linePrefix frame : string) : string := linePrefix ++ TAB ++ "at " ++ frame ++ LF.

Definition moreText (linePrefix : string) (n : nat) : string :=
  if (n =? 0)%nat then "" else linePrefix ++ TAB ++ "... " ++ show_Z (Z.of_nat n) ++ " more" ++ LF.

(** What is printed of a failure below a parent with [parentFrames]. *)
Definition printed (info : FailureInfo) (frames parentFrames : list string) (prefix linePrefix text : string) :
    Prop :=
  let n := countSharedStackFrames frames parentFrames in
  exists texts causeText,
    text = linePrefix ++ prefix ++ failureInfoToString info ++ LF ++
           (String.concat "" (frameText linePrefix <$> take (length frames - n) frames) ++
            moreText linePrefix n) ++ String.concat "" texts ++ causeText /\
    Forall2 (fun s t => formatStackTraceHelper s (Frames frames) "Suppressed: " (linePrefix ++ TAB) = Ok t)
      (suppressed info) texts /\
    match cause info with
    | Some c => formatStackTraceHelper c (Frames frames) "Caused by: " linePrefix = Ok causeText
    | None => causeText = ""
    end.


Lemma helper_printed info frames :
  stacked info = true -> stack info = Frames frames ->
  forall parentFrames prefix linePrefix,
  exists text, formatStackTraceHelper info (Frames parentFrames) prefix linePrefix = Ok text /\
               printed info frames parentFrames prefix linePrefix text.
Proof.
  revert frames. induction info as [ty m st sup ca IHs IHc] using FailureInfo_nested_ind.
  intros frames Hst Hs parentFrames prefix linePrefix. cbn in Hs. subst st. cbn in Hst.
  apply andb_prop in Hst as [Hsup Hca].
  assert (Hget : forall i, stacked i = true -> exists fs, stack i = Frames fs).
  { intros [? ? [| |fs] ? ?]; try done. by exists fs. }
  assert (exists texts, Forall2 (fun s t =>
            formatStackTraceHelper s (Frames frames) "Suppressed: " (linePrefix ++ TAB) = Ok t) sup texts)
    as [texts Ht].
  { clear IHc Hca. induction IHs as [|i sup Hi _ IH]; [by exists []|]. cbn in Hsup.
    apply andb_prop in Hsup as [Hi' Hsup']. destruct (IH Hsup') as [texts Ht].
    destruct (Hget i Hi') as [fs Hfs].
    destruct (Hi fs Hi' Hfs frames "Suppressed: " (linePrefix ++ TAB)) as (t & Ht' & _).
    exists (t :: texts). by constructor. }
  assert (exists causeText, match ca with
            | Some c => formatStackTraceHelper c (Frames frames) "Caused by: " linePrefix = Ok causeText
            | None => causeText = "" end) as [causeText Hcause].
  { destruct ca as [c|]; [|by exists ""]. destruct (Hget c Hca) as [fs Hfs].
    destruct (IHc c eq_refl fs Hca Hfs frames "Caused by: " linePrefix) as (t & Ht' & _). by exists t. }
  eexists. split; [|exists texts, causeText; split; [reflexivity|done]].
  cbn [formatStackTraceHelper]. unfold frameLines. cbn [mbind result_bind].
  set (each := fix each (suppressed : list FailureInfo) : result string := _).
  assert (each sup = Ok (String.concat "" texts)) as ->.
  { clear IHs Hsup. induction Ht as [|i t sup texts Hi _ IH]; [done|]. cbn [each].
    rw Hi. fold each. rw IH. by rw concat_cons. }
  assert (match ca with
          | Some cause => formatStackTraceHelper cause (Frames frames) "Caused by: " linePrefix
          | None => Ok "" end = Ok causeText) as Hc.
  { destruct ca; [done|by subst]. }
  rw Hc. cbn. done.
Qed.

(** C12.  A failure whose parts all carry their frames is printed completely:
    the printing does not throw, and below a parent the frames printed and the
    number of frames left out determine the stack, because the frames left out
    are the end of the parent's stack; no longer end is shared.  A cause with
    frames below a failure without them throws. *)
Theorem formatStackTrace_complete :
  (forall info frames parentFrames prefix linePrefix,
     stacked info = true -> stack info = Frames frames ->
     let n := countSharedStackFrames frames parentFrames in
     (exists text, formatStackTraceHelper info (Frames parentFrames) prefix linePrefix = Ok text /\
                   printed info frames parentFrames prefix linePrefix text) /\
     frames = (take (length frames - n) frames ++ drop (length parentFrames - n) parentFrames)%list /\
     (forall m, (m <= length frames)%nat -> (m <= length parentFrames)%nat ->
        drop (length frames - m) frames = drop (length parentFrames - m) parentFrames -> (m <= n)%nat)) /\
  (forall ty m cause frames,
     stack cause = Frames frames ->
     formatStackTrace (mkFailureInfo ty m NoStack [] (Some cause)) = Throw TypeError).
Proof.
  split.
  - intros info frames parentFrames prefix linePrefix Hst Hs. cbv zeta.
    destruct (countSharedStackFrames_spec frames parentFrames) as (_ & _ & Hd & Hmax).
    split; [by apply helper_printed|]. split; [|done]. by rw -Hd take_drop.
  - intros ty m [? ? st ? ?] frames Hs. cbn in Hs. by subst st.
Qed.
