(* ===== verification/HistogramFacts.v ===== *)
(** * The histograms of a stage count every task

    Lemmas and a property of [renderHistogram] of QueryDetail.v, down to the
    rounding of each quotient. *)

From S2P Require Import Prelude JsString JsNumber QueryDetail.
Import StageSummary.

(** ** The relative error of one rounding *)

(** Away from the smallest doubles a rounding changes a value by less than one
    part in 2^13; an integer of the smallest unit is not changed much either. *)
Lemma round_pos_near p q :
  0 <= p -> 0 < q -> q * 2 ^ 12 <= p \/ q = 1 -> 2 ^ 13 * Z.abs (round_pos p q * q - p) <= p.
Proof.
  intros Hp Hq Hbig. unfold round_pos. set (e := ulp_exp p q). pose proof (ulp_exp_nonneg p q) as He. fold e in He.
  pose proof (pow2_pos e He) as Hu. destruct (Z.eq_dec e 0) as [He0|He0].
  - rw He0 Z.pow_0_r Z.mul_1_r Z.mul_1_r. pose proof (rne_error p q Hq) as Hr. destruct Hbig as [Hbig| ->].
    + lia.
    + lia.
  - pose proof (ulp_exp_full p q Hp Hq ltac:(fold e; lia)) as Hf. fold e in Hf. rw Z.pow_add_r in Hf; [lia|lia|].
    pose proof (rne_error p (q * 2 ^ e) ltac:(nia)) as Hr. rw -Z.mul_assoc (Z.mul_comm (2 ^ e) q).
    assert (2 ^ 52 = 2 ^ 13 * 2 ^ 39) as Hs by reflexivity. rw Hs in Hf. nia.
Qed.

(** ** The number of buckets *)

Lemma scale_pow : scale = 2 ^ 1074.
Proof. Transparent scale. done. Opaque scale. Qed.

(** The root of a number of tasks is at least one. *)
Lemma sqrt_ge_1 n : 1 <= n <= 2 ^ 53 -> exists s, sqrt (Fin (n * scale)) = Fin s /\ scale <= s.
Proof.
  intros Hn. pose proof scale_pos as Hs. unfold sqrt.
  assert ((n * scale <? 0) = false) as -> by (apply Z.ltb_ge; nia). cbv zeta.
  set (N := n * scale * scale). set (e := Z.max 0 (Z.log2 (Z.sqrt N) - 52)).
  set (d := Z.sqrt (N / 4 ^ e)). eexists. split; [reflexivity|].
  assert (He : 0 <= e <= 1074).
  { split; [lia|]. assert (Hl : Z.sqrt N <= 2 ^ 27 * scale).
    { rw -(Z.sqrt_square (2 ^ 27 * scale)); [lia|]. apply Z.sqrt_le_mono.
      assert (2 ^ 54 = 2 ^ 27 * 2 ^ 27) as Hp by reflexivity. assert (2 ^ 53 <= 2 ^ 54) by done.
      unfold N. nia. }
    apply Z.log2_le_mono in Hl. rw scale_pow -Z.pow_add_r // Z.log2_pow2 // in Hl. lia. }
  assert (Hq : scale = scale / 2 ^ e * 2 ^ e).
  { rw scale_pow (pow_split 1074 e); [lia|]. rw Z.div_mul; [|done]. pose proof (pow2_pos e). lia. }
  pose proof (pow2_pos e ltac:(lia)) as Hpe. set (m := scale / 2 ^ e) in *.
  assert (Hd : m <= d).
  { apply Z.sqrt_le_square; [apply Z.div_pos; [unfold N; nia|apply Z.pow_pos_nonneg; lia]|nia|].
    apply Z.div_le_lower_bound; [apply Z.pow_pos_nonneg; lia|]. rw (Z.pow_mul_l 2 2 e). unfold N.
    assert (2 ^ e * 2 ^ e * (m * m) = scale * scale) as -> by (rw Hq; ring). nia. }
  clearbody d. rw {1}Hq. apply Z.mul_le_mono_nonneg_r; [lia|].
  destruct (4 * N ?= ((2 * d + 1) * 2 ^ e) ^ 2); [destruct (Z.even d)|..]; lia.
Qed.

Lemma num_min_fin a b : num_min (Fin a) (Fin b) = Fin (Z.min a b).
Proof.
  transitivity (if lt (Fin b) (Fin a) then Fin b else Fin a); [by destruct a, b|]. rw lt_fin.
  destruct (Z.ltb_spec b a); f_equal; lia.
Qed.

(** The number of buckets before it is rounded up: between 1 and 175. *)
Lemma numBuckets_bounds data :
  1 <= Z.of_nat (length data) <= 2 ^ 53 -> exists b, numBuckets data = Fin b /\ scale <= b <= 175 * scale.
Proof.
  intros Hn. unfold numBuckets, HISTOGRAM_WIDTH. rw (of_Z_small (Z.of_nat (length data))); [lia|].
  destruct (sqrt_ge_1 _ Hn) as (s & -> & Hs). rw of_Z_small; [done|]. rw num_min_fin. eexists. split; [done|].
  pose proof scale_pos. lia.
Qed.

(** ** Minimum, maximum and differences *)

Lemma num_max_fin a b : num_max (Fin a) (Fin b) = Fin (Z.max a b).
Proof.
  transitivity (if lt (Fin a) (Fin b) then Fin b else Fin a); [by destruct a, b|]. rw lt_fin.
  destruct (Z.ltb_spec a b); f_equal; lia.
Qed.

Lemma dataMin_fin k ks : exists m, dataMin (Fin <$> k :: ks) = Fin m /\ m ∈ (k :: ks) /\ Forall (fun x => m <= x) (k :: ks).
Proof.
  unfold dataMin. cbn [fmap list_fmap fold_left]. change (num_min PInf (Fin k)) with (Fin k).
  revert k. induction ks as [|x ks IH]; intros k; cbn [fmap list_fmap fold_left].
  { exists k. split; [done|]. split; [by left|]. by repeat constructor. }
  rw num_min_fin. destruct (IH (Z.min k x)) as (m & -> & Hin & Hall). exists m. split; [done|].
  apply Forall_cons in Hall as [Hm Hall]. split.
  - apply elem_of_cons in Hin as [->|Hin]; [|by do 2 right]. destruct (Z.min_spec k x) as [[_ ->]|[_ ->]]; [by left|by right; left].
  - repeat (constructor; [lia|]). done.
Qed.

Lemma dataMax_fin k ks : exists m, dataMax (Fin <$> k :: ks) = Fin m /\ m ∈ (k :: ks) /\ Forall (fun x => x <= m) (k :: ks).
Proof.
  unfold dataMax. cbn [fmap list_fmap fold_left]. change (num_max NInf (Fin k)) with (Fin k).
  revert k. induction ks as [|x ks IH]; intros k; cbn [fmap list_fmap fold_left].
  { exists k. split; [done|]. split; [by left|]. by repeat constructor. }
  rw num_max_fin. destruct (IH (Z.max k x)) as (m & -> & Hin & Hall). exists m. split; [done|].
  apply Forall_cons in Hall as [Hm Hall]. split.
  - apply elem_of_cons in Hin as [->|Hin]; [|by do 2 right]. destruct (Z.max_spec k x) as [[_ ->]|[_ ->]]; [by right; left|by left].
  - repeat (constructor; [lia|]). done.
Qed.

(** A difference of two durations, rounded. *)
Lemma sub_near x m :
  0 <= m <= x -> x <= 2 ^ 1000 * scale ->
  exists d, sub (Fin x) (Fin m) = Fin d /\ 0 <= d /\ 2 ^ 13 * Z.abs (d - (x - m)) <= x - m.
Proof.
  intros Hm Hx. unfold sub, neg. destruct (Z.eqb_spec m 0) as [->|Hne].
  { exists x. split; [done|]. split; [lia|]. rw Z.sub_0_r Z.sub_diag. cbn. lia. }
  cbn. change (x + - m) with (x - m). assert (Hnn : 0 <= round_pos (x - m) 1) by (apply round_pos_nonneg; lia).
  pose proof (round_pos_near (x - m) 1 ltac:(lia) ltac:(lia) (or_intror eq_refl)) as Hr. rw Z.mul_1_r in Hr.
  rw round_fin; [lia|lia| |by eexists]. rw huge_scale.
  assert (2 ^ 1001 <= 2 ^ 1024) by done. assert (2 ^ 1001 = 2 * 2 ^ 1000) as H1 by reflexivity.
  pose proof scale_pos. lia.
Qed.

(** ** The number of bars *)

Lemma iterations_enough fuel i t :
  0 <= i -> i + Z.of_nat fuel <= 2 ^ 53 -> t <= (i + Z.of_nat fuel) * scale ->
  t <= (i + Z.of_nat (iterations fuel i (Fin t))) * scale.
Proof.
  intros Hi0 Hi53 Hi. revert i Hi0 Hi53 Hi. induction fuel as [|fuel IH]; intros i Hi0 Hi53 Hi; [done|].
  cbn [iterations]. rw of_Z_small; [lia|]. rw lt_fin. destruct (Z.ltb_spec (i * scale) t); [|lia].
  rw Nat2Z.inj_succ. replace (i + Z.succ _) with (i + 1 + Z.of_nat (iterations fuel (i + 1) (Fin t))) by lia.
  apply IH; [lia|lia|]. replace (i + 1 + Z.of_nat fuel) with (i + Z.of_nat (S fuel)) by lia. done.
Qed.

Lemma iterations_fuel fuel i t : (iterations fuel i t <= fuel)%nat.
Proof. revert i. induction fuel as [|fuel IH]; intros i; cbn; [lia|]. destruct (lt _ _); [|lia]. specialize (IH (i + 1)). lia. Qed.

(** The bars that a number of buckets [b] gives. *)
Lemma bars_bound b :
  0 <= b <= 175 * scale ->
  let L := Z.of_nat (iterations 177 0 (add (Fin b) (of_Z 1))) in 4 * b + 3 * scale <= 4 * L * scale.
Proof.
  intros Hb L. pose proof scale_pos as Hs. unfold L. rw of_Z_small; [done|]. rw Z.mul_1_l. cbn [add].
  assert (Hq : scale = 4 * (scale / 2 ^ 2)).
  { rw scale_pow (pow_split 1074 2); [lia|]. rw Z.div_mul; [done|]. lia. }
  set (u := scale / 2 ^ 2) in *.
  assert (Hlo : (b + scale) / u * u <= round_pos (b + scale) 1).
  { apply round_pos_ge; [lia|lia| |pose proof (Z.mul_div_le (b + scale) u); lia].
    apply repr_dyadic; [|lia]. assert (0 <= (b + scale) / u <= 704); [|lia].
    split; [apply Z.div_pos; lia|]. apply Z.div_le_upper_bound; lia. }
  assert (Hhi : round_pos (b + scale) 1 <= 176 * scale).
  { apply round_pos_le; [lia|lia|by apply repr_int|lia]. }
  rw round_fin; [lia|lia| |].
  { pose proof (int_below_huge 176 ltac:(done)). lia. }
  pose proof (iterations_enough 177 0 (round_pos (b + scale) 1) ltac:(lia) ltac:(done) ltac:(lia)) as Hit.
  pose proof (Z.mod_pos_bound (b + scale) u ltac:(lia)). pose proof (Z.div_mod (b + scale) u ltac:(lia)). lia.
Qed.

(** Every index a quotient can give is below the number of bars [L]: the errors
    of the two differences and the two quotients are smaller than the last
    bar. *)
Lemma bucket_bound b D a d z L :
  scale <= b <= 175 * scale -> 2 ^ 20 <= D ->
  2 ^ 13 * Z.abs (a - D) <= D -> 2 ^ 13 * d <= (2 ^ 13 + 1) * D ->
  z = round_pos (a * scale) b -> 4 * b + 3 * scale <= 4 * L * scale ->
  0 < z /\ 2 * d <= (2 * L - 1) * z.
Proof.
  intros Hb HD Ha Hd Hz HL. pose proof scale_pos as Hs. revert HD Ha Hd. eval_pows. intros HD Ha Hd.
  assert (Ha1 : 8191 * D <= 8192 * a) by lia. assert (Hbig : b * 2 ^ 12 <= a * scale) by (eval_pows; nia).
  pose proof (round_pos_near (a * scale) b ltac:(nia) ltac:(lia) (or_introl Hbig)) as Hn. rw -Hz in Hn. clear Hz.
  revert Hn. eval_pows. intros Hn. assert (E1 : 8191 * (a * scale) <= 8192 * (z * b)) by lia.
  assert (Hz : 0 < z) by nia. split; [done|].
  assert (E2 : (4 * b + scale) * z <= 2 * ((2 * L - 1) * scale) * z) by (apply Z.mul_le_mono_nonneg_r; lia).
  assert (E3 : b * z <= 175 * scale * z) by (apply Z.mul_le_mono_nonneg_r; lia).
  assert (E4 : 701 * 8191 * (a * scale) <= 350 * 8192 * ((2 * L - 1) * z * scale)) by lia.
  assert (E5 : 701 * 8191 * a <= 350 * 8192 * ((2 * L - 1) * z)).
  { apply (Z.mul_le_mono_pos_r _ _ scale); lia. }
  set (X := (2 * L - 1) * z) in *. clearbody X. lia.
Qed.

(** ** Counting *)

Definition bars (counts : list nat) : cells := (fun c => Some (of_Z (Z.of_nat c))) <$> counts.

Lemma add_of_Z c : 0 <= c < 2 ^ 53 -> add (of_Z c) (of_Z 1) = of_Z (c + 1).
Proof.
  intros Hc. rw (of_Z_small c); [lia|]. rw (of_Z_small 1); [done|]. unfold of_Z. cbn [add]. f_equal. lia.
Qed.

Lemma increment_bars counts i c :
  counts !! i = Some c -> Z.of_nat c < 2 ^ 53 ->
  increment (bars counts) (Fin (Z.of_nat i * scale)) = bars (alter S i counts).
Proof.
  intros Hi Hc. pose proof scale_pos. unfold increment, to_Z. rw Z.mod_mul; [lia|]. rw Z.eqb_refl Z.div_mul; [lia|].
  destruct (Z.ltb_spec (Z.of_nat i) 0) as [Hneg|_]; [by pose proof (Nat2Z.is_nonneg i); lia|].
  rw Nat2Z.id. unfold bars. rw list_lookup_fmap Hi. cbn [fmap option_fmap option_map].
  rw add_of_Z; [lia|]. apply list_eq. intros j. rw list_lookup_fmap. destruct (decide (i = j)) as [<-|Hne].
  - rw list_lookup_insert_eq; [rw length_fmap; by eapply lookup_lt_Some|]. rw list_lookup_alter_eq Hi. cbn.
    do 3 f_equal. lia.
  - rw list_lookup_insert_ne // list_lookup_alter_ne //. by rw list_lookup_fmap.
Qed.

(** How many of the indexes [ids] are [i]. *)
Definition count (i : nat) (ids : list nat) : nat := length (List.filter (Nat.eqb i) ids).

Lemma sum_alter i counts c :
  counts !! i = Some c -> sum_list (alter S i counts) = S (sum_list counts).
Proof.
  revert i. induction counts as [|x counts IH]; intros [|i] Hi; try done; cbn in *. by rw (IH i Hi) Nat.add_succ_r.
Qed.

Lemma increments ids counts :
  Forall (fun i => (i < length counts)%nat) ids ->
  Forall (fun c => Z.of_nat (c + length ids) <= 2 ^ 53) counts ->
  exists counts',
    fold_left increment ((fun i => Fin (Z.of_nat i * scale)) <$> ids) (bars counts) = bars counts' /\
    length counts' = length counts /\ sum_list counts' = (sum_list counts + length ids)%nat /\
    forall i c, counts !! i = Some c -> counts' !! i = Some (c + count i ids)%nat.
Proof.
  revert counts. induction ids as [|j ids IH]; intros counts Hlt Hc; cbn [fmap list_fmap fold_left length].
  { exists counts. split; [done|]. split; [done|]. split; [lia|]. intros i c ->. by rw Nat.add_0_r. }
  apply Forall_cons in Hlt as [Hj Hlt]. apply lookup_lt_is_Some in Hj as [cj Hj].
  pose proof (Forall_lookup_1 _ _ _ _ Hc Hj) as Hcj. cbn [length] in Hcj. rw (increment_bars counts j cj Hj); [lia|].
  destruct (IH (alter S j counts)) as (counts' & -> & Hlen & Hsum & Hat).
  - by rw length_alter.
  - apply Forall_lookup. intros i c Hi. rw list_lookup_alter in Hi.
    destruct (decide (j = i)) as [<-|Hne]; [rw Hj in Hi; injection Hi as <-; lia|].
    pose proof (Forall_lookup_1 _ _ _ _ Hc Hi) as Hci. cbn [length] in Hci. lia.
  - exists counts'. split; [done|]. rw Hlen length_alter Hsum (sum_alter j counts cj Hj). split; [done|].
    split; [lia|]. intros i c Hi. unfold count. cbn [List.filter]. destruct (Nat.eqb_spec i j) as [->|Hne].
    + rw (Hat j (S c)); [by rw list_lookup_alter_eq Hi|]. f_equal. unfold count. cbn [length]. lia.
    + rw (Hat i c) //. by rw list_lookup_alter_ne.
Qed.

Lemma fold_left_fmap {A B C} (f : A -> B -> A) (g : C -> B) l a :
  fold_left (fun a c => f a (g c)) l a = fold_left f (g <$> l) a.
Proof. revert a. induction l as [|x l IH]; intros a; [done|]. apply IH. Qed.

(** ** The index of a value *)

Definition indexOf (m z x : Z) : nat :=
  match floor (div (sub (Fin x) (Fin m)) (Fin z)) with Fin r => Z.to_nat (r / scale) | _ => 0%nat end.

Lemma indexOf_spec m z x d L :
  sub (Fin x) (Fin m) = Fin d -> 0 <= d -> 0 < z -> 1 <= L <= 178 -> 2 * d <= (2 * L - 1) * z ->
  floor (div (sub (Fin x) (Fin m)) (Fin z)) = Fin (Z.of_nat (indexOf m z x) * scale) /\
  Z.of_nat (indexOf m z x) < L.
Proof.
  intros Hd Hd0 Hz HL Hb. unfold indexOf. rw Hd. pose proof scale_pos as Hs.
  assert (Hq : exists r, div (Fin d) (Fin z) = Fin r /\ 0 <= r <= (2 * L - 1) * (scale / 2 ^ 1)).
  { unfold div. cbn [fin_val sign_neg]. destruct (Z.ltb_spec d 0); [lia|]. destruct (Z.ltb_spec z 0); [lia|].
    destruct (Z.eqb_spec z 0); [lia|]. assert (Hh : scale = 2 * (scale / 2 ^ 1)).
    { rw scale_pow (pow_split 1074 1); [lia|]. rw Z.div_mul; [done|]. lia. }
    set (h := scale / 2 ^ 1) in *. destruct (Z.eqb_spec d 0) as [->|Hne]; [exists 0; split; [done|nia]|].
    rw Z.sgn_pos; [lia|]. rw Z.abs_eq; [lia|]. rw Z.mul_1_r.
    assert (Hle : round_pos (d * scale) z <= (2 * L - 1) * h).
    { apply round_pos_le; [nia|lia|apply repr_dyadic; lia|]. rw {1}Hh. nia. }
    pose proof (round_pos_nonneg (d * scale) z ltac:(nia) Hz). eexists. split; [|split; [eassumption|exact Hle]].
    apply round_fin; [nia|lia|]. pose proof (int_below_huge 178 ltac:(done)). nia. }
  destruct Hq as (r & -> & Hr0 & Hr). cbn [floor]. rw Z.div_mul; [lia|]. rw Z2Nat.id; [by apply Z.div_pos|].
  split; [done|]. apply Z.div_lt_upper_bound; [lia|].
  assert (Hh : 2 * (scale / 2 ^ 1) <= scale) by apply (Z.mul_div_le scale (2 ^ 1) ltac:(done)). nia.
Qed.

Lemma count_indexOf m z i ks :
  Z.of_nat i <= 2 ^ 20 ->
  Forall (fun x => floor (div (sub (Fin x) (Fin m)) (Fin z)) = Fin (Z.of_nat (indexOf m z x) * scale)) ks ->
  count i (indexOf m z <$> ks) =
    length (List.filter (fun x => bool_decide (floor (div (sub (Fin x) (Fin m)) (Fin z)) = of_Z (Z.of_nat i))) ks).
Proof.
  intros Hi Hks. pose proof scale_pos. unfold count. rw (of_Z_small (Z.of_nat i)); [lia|]. induction Hks as [|x ks Hx Hks IH]; [done|].
  cbn [fmap list_fmap List.filter]. rw Hx.
  destruct (Nat.eqb_spec i (indexOf m z x)) as [->|Hne].
  - rw bool_decide_eq_true_2 //. cbn [length]. by rw IH.
  - rw bool_decide_eq_false_2 //. intros [= Heq]. apply Hne. nia.
Qed.

(** ** The histogram *)

Section Histogram.
Variable ks : list Z.
Hypothesis Hrange : forall k, k ∈ ks -> 0 <= k <= 2 ^ 1000 * scale.
Hypothesis Hapart : forall x y, x ∈ ks -> y ∈ ks -> x < y -> 2 ^ 20 <= y - x.
Hypothesis Hlength : Z.of_nat (length ks) <= 2 ^ 53.

(** The quotient of a range [D] by the number of buckets, rounded. *)
Lemma bucketSize_cases m M a b :
  dataMin (Fin <$> ks) = Fin m -> dataMax (Fin <$> ks) = Fin M -> sub (Fin M) (Fin m) = Fin a -> 0 <= a ->
  a <= 2 ^ 1001 * scale -> numBuckets (Fin <$> ks) = Fin b -> scale <= b <= 175 * scale ->
  bucketSize (Fin <$> ks) = if a =? 0 then Fin 0 else Fin (round_pos (a * scale) b).
Proof.
  intros Hm HM Ha Ha0 Hau Hb Hbb. pose proof scale_pos as Hs. unfold bucketSize. rw Hm HM Ha Hb. unfold div.
  cbn [fin_val sign_neg]. destruct (Z.ltb_spec a 0); [lia|]. destruct (Z.ltb_spec b 0); [lia|].
  destruct (Z.eqb_spec b 0); [lia|]. destruct (Z.eqb_spec a 0); [done|]. rw Z.sgn_pos; [lia|].
  rw Z.abs_eq; [lia|]. rw Z.mul_1_r. apply round_fin; [nia|lia|].
  apply Z.le_lt_trans with (2 ^ 1001 * scale).
  - apply round_pos_le; [nia|lia| |nia]. exists (2 ^ 0), (1001 + 1074). split; [lia|]. split; [done|].
    rw scale_pow Z.pow_add_r // Z.mul_1_l.
  - rw huge_scale. assert (2 ^ 1001 < 2 ^ 1024) by done. nia.
Qed.

(** All values are equal, or the index of every value is that of a bar. *)
Lemma bars_of_values :
  ks <> [] ->
  bucketSize (Fin <$> ks) = Fin 0 \/
  exists m z, dataMin (Fin <$> ks) = Fin m /\ bucketSize (Fin <$> ks) = Fin z /\ 0 < z /\
    let L := iterations 177 0 (add (numBuckets (Fin <$> ks)) (of_Z 1)) in
    (L <= 177)%nat /\
    Forall (fun x => floor (div (sub (Fin x) (Fin m)) (Fin z)) = Fin (Z.of_nat (indexOf m z x) * scale) /\
                     (indexOf m z x < L)%nat) ks.
Proof.
  intros Hne.
  assert (exists m, dataMin (Fin <$> ks) = Fin m /\ m ∈ ks /\ Forall (fun x => m <= x) ks) as (m & Hm & Hmin & Hmall).
  { clear -Hne. destruct ks as [|k ks']; [done|]. apply dataMin_fin. }
  assert (exists M, dataMax (Fin <$> ks) = Fin M /\ M ∈ ks /\ Forall (fun x => x <= M) ks) as (M & HM & HMin & HMall).
  { clear -Hne. destruct ks as [|k ks']; [done|]. apply dataMax_fin. }
  destruct (numBuckets_bounds (Fin <$> ks)) as (b & Hb & Hbb).
  { rw length_fmap. destruct (length ks) eqn:Hn; [by apply nil_length_inv in Hn|]. lia. }
  pose proof scale_pos as Hs. rw Forall_forall in Hmall. rw Forall_forall in HMall.
  pose proof (Hmall M HMin) as HmM. pose proof (Hrange m Hmin) as Hmr. pose proof (Hrange M HMin) as HMr.
  destruct (sub_near M m) as (a & Ha & Ha0 & Hnear); [lia|lia|].
  assert (H1001 : 2 ^ 1001 = 2 * 2 ^ 1000) by done.
  assert (Hau : a <= 2 ^ 1001 * scale) by lia.
  rw (bucketSize_cases m M a b Hm HM Ha Ha0 Hau Hb Hbb). destruct (Z.eqb_spec a 0) as [->|Hane]; [by left|right].
  exists m, (round_pos (a * scale) b). split; [done|]. split; [done|]. rw Hb.
  pose proof (bars_bound b ltac:(lia)) as HL. cbv zeta in HL. set (L := iterations 177 0 (add (Fin b) (of_Z 1))) in *.
  assert (HD : 2 ^ 20 <= M - m) by (apply Hapart; [done|done|lia]).
  assert (HL177 : (L <= 177)%nat) by apply iterations_fuel.
  assert (HLr : 1 <= Z.of_nat L <= 178) by nia.
  assert (Hb0 : forall d, 2 ^ 13 * d <= (2 ^ 13 + 1) * (M - m) ->
    0 < round_pos (a * scale) b /\ 2 * d <= (2 * Z.of_nat L - 1) * round_pos (a * scale) b).
  { intros d Hd. exact (bucket_bound b (M - m) a d _ (Z.of_nat L) Hbb HD Hnear Hd eq_refl HL). }
  split; [by apply (Hb0 0); lia|]. split; [done|]. apply Forall_forall. intros x Hx.
  pose proof (Hmall x Hx) as Hmx. pose proof (HMall x Hx) as HxM. pose proof (Hrange x Hx) as Hxr.
  destruct (sub_near x m) as (d & Hd & Hd0 & Hdn); [lia|lia|].
  destruct (Hb0 d) as [Hz Hdz]; [lia|].
  destruct (indexOf_spec m (round_pos (a * scale) b) x d (Z.of_nat L) Hd Hd0 Hz HLr Hdz) as [H1 H2].
  split; [exact H1|lia].
Qed.
(** C11.  The histogram of a stage counts every task once.  For finite values
    that are not negative and that differ by 2^-1054 at least where they differ,
    as durations do, the bars add up to the number of tasks, none of them is a
    hole or NaN, there are at most 177 of them, and the i-th counts the tasks
    whose rounded quotient has the integer part i: however the differences, the
    root and the two quotients are rounded, no index lies behind the last bar. *)
Theorem histogram_counts :
  exists counts,
    histogramData (Fin <$> ks) = (fun c => Some (of_Z (Z.of_nat c))) <$> counts /\
    sum_list counts = length ks /\ (length counts <= 177)%nat /\
    (eq (bucketSize (Fin <$> ks)) (of_Z 0) = false -> forall i c, counts !! i = Some c ->
       c = length (List.filter (fun k =>
             bool_decide (floor (div (sub (Fin k) (dataMin (Fin <$> ks))) (bucketSize (Fin <$> ks))) =
                          of_Z (Z.of_nat i))) ks)).
Proof.
  destruct (decide (ks = [])) as [Hnil|Hne].
  { exists [0%nat]. rw Hnil. split; [by vm_compute|]. split; [done|]. split; [cbn; lia|].
    intros _ [|i] c; [by intros [= <-]|done]. }
  unfold histogramData. destruct (bars_of_values Hne) as [->|(m & z & Hm & -> & Hz & HL & Hall)].
  { exists [length ks]. rw length_fmap. rw of_Z_small; [done|]. rw Z.mul_0_l. cbn.
    split; [done|]. split; [lia|]. split; [lia|done]. }
  rw Hm. assert (Heq : eq (Fin z) (of_Z 0) = false).
  { rw of_Z_small; [done|]. rw eq_fin. apply Z.eqb_neq. lia. }
  rw Heq. set (L := iterations 177 0 (add (numBuckets (Fin <$> ks)) (of_Z 1))) in *.
  apply Forall_and in Hall as [Hidx Hlt].
  destruct (increments (indexOf m z <$> ks) (replicate L 0%nat)) as (counts & Hfold & Hlen & Hsum & Hat).
  - rw length_replicate. by apply Forall_fmap.
  - apply Forall_replicate. rw length_fmap. exact Hlength.
  - exists counts. rw Hlen length_replicate. split; [|split; [|split; [done|]]].
    + change (replicate L (Some (of_Z 0))) with (replicate L ((fun c => Some (of_Z (Z.of_nat c))) 0%nat)).
      rw -fmap_replicate. change (fmap _ counts) with (bars counts). rw -Hfold fold_left_fmap. f_equal.
      rw -!list_fmap_compose. apply list_fmap_ext. intros k x Hx. cbn. by apply (Forall_lookup_1 _ _ _ _ Hidx Hx).
    + rw Hsum length_fmap. rw sum_list_replicate. lia.
    + intros _ i c Hi. assert (HiL : (i < L)%nat) by (rw -(length_replicate L 0%nat) -Hlen; by eapply lookup_lt_Some).
      rw (Hat i 0%nat) in Hi; [by apply lookup_replicate_2|]. injection Hi as <-. cbn [plus].
      apply count_indexOf; [lia|exact Hidx].
Qed.
End Histogram.

Lemma histogram_counts_witness :
  exists counts,
    histogramData (Fin <$> [0; scale; 4 * scale; 4 * scale]) = (fun c => Some (of_Z (Z.of_nat c))) <$> counts /\
    sum_list counts = 4%nat.
Proof.
  destruct (histogram_counts [0; scale; 4 * scale; 4 * scale]) as (counts & Hc & Hs & _).
  - intros k Hk. pose proof scale_pos. assert (4 <= 2 ^ 1000) by done.
    repeat (apply elem_of_cons in Hk as [->|Hk]; [nia|]). by apply elem_of_nil in Hk.
  - intros x y Hx Hy Hlt. assert (2 ^ 20 <= scale) by (rw scale_pow; by apply Z.pow_le_mono_r).
    repeat (apply elem_of_cons in Hx as [->|Hx]; [repeat (apply elem_of_cons in Hy as [->|Hy]; [lia|]); by apply elem_of_nil in Hy|]).
    by apply elem_of_nil in Hx.
  - by vm_compute.
  - exists counts. by split.
Defined.
