(* ===== verification/LivePlan.v ===== *)
(** * components/LivePlan.jsx: the plan of a running query

    The stages of the query are flattened into a map, and each is drawn into a
    graph that lives as long as the page.  dagre-d3's graph is an interface: the
    labels of its nodes and edges, and the cluster of a node. *)

From S2P Require Import Prelude JsString JsNumber Utils JsMap Timers RefreshLoop.

(** ** The answer of the server *)

(** The plan as parsed from its JSON text. *)
Inductive JsonNode := mkJsonNode {
  json_id : string;
  json_name : string;
  json_identifier : string;
  json_details : string;
  json_children : list JsonNode;
  json_remoteSources : list string
}.

Record StageStats := {
  totalCpuTime : string;
  bufferedDataSize : string;
  fullyBlocked : bool;
  totalBlockedTime : string;
  userMemoryReservation : string;
  queuedDrivers : Z;
  runningDrivers : Z;
  completedDrivers : Z;
  rawInputDataSize : string;
  rawInputPositions : num;
  outputDataSize : string;
  outputPositions : num
}.

Record Plan := {
  plan_id : string;
  plan_root_id : string;
  plan_distribution : string;
  plan_jsonRepresentation : JsonNode;
  plan_feederCTE : option string;
  plan_feederCTEParentId : option string
}.

(** A stage of a query whose plan was pruned has no plan. *)
Inductive StageInfo := mkStageInfo {
  info_stageId : string;
  info_stageStats : StageStats;
  info_state : string;
  info_plan : option Plan;
  info_subStages : list StageInfo
}.

(** ** Flattening *)

Record PlanNodeProps := {
  id : string;
  name : string;
  identifier : string;
  details : string;
  sources : list string;
  remoteSources : list string
}.

Record StageNodeInfo := {
  stageId : string;
  planId : string;                     (* id *)
  root : string;
  distribution : string;
  stageStats : StageStats;
  state : string;
  nodes : jsmap string PlanNodeProps;
  feederCTE : option string;
  parentFeederId : option string
}.

Fixpoint flattenNode (node : JsonNode) (result : jsmap string PlanNodeProps) : jsmap string PlanNodeProps :=
  match node with
  | mkJsonNode id name identifier details children remoteSources =>
      fold_left (fun result child => flattenNode child result) children
        (map_set id
           {| id := id; name := name; identifier := identifier; details := details;
              sources := map json_id children; remoteSources := remoteSources |} result)
  end.

(** The stages below come first; a stage without a plan throws. *)
Fixpoint flattenStage (stageInfo : StageInfo) (result : jsmap string StageNodeInfo) :
    Prelude.result (jsmap string StageNodeInfo) :=
  match stageInfo with
  | mkStageInfo stageId stageStats state plan subStages =>
      result ← (fix each (stages : list StageInfo) (result : jsmap string StageNodeInfo) :=
                  match stages with
                  | [] => Ok result
                  | stage :: stages => result ← flattenStage stage result; each stages result
                  end) subStages result;
      plan ← member plan Datatypes.id;
      Ok (map_set (plan_id plan)
        {| stageId := stageId; planId := plan_id plan; root := plan_root_id plan;
           distribution := plan_distribution plan; stageStats := stageStats; state := state;
           nodes := flattenNode (plan_jsonRepresentation plan) []; feederCTE := plan_feederCTE plan;
           parentFeederId := plan_feederCTEParentId plan |} result)
  end.

(** A query without an output stage throws. *)
Definition getStages (outputStage : option StageInfo) : result (jsmap string StageNodeInfo) :=
  stage ← member outputStage Datatypes.id; flattenStage stage [].

(** The lines of the statistics of a stage. *)
Definition renderStatistics (stage : StageNodeInfo) : list string :=
  let stats := stageStats stage in
  ["Stage " ++ planId stage; state stage;
   "CPU: " ++ totalCpuTime stats;
   "Buffered: " ++ bufferedDataSize stats;
   "Blocked: " ++ totalBlockedTime stats;
   "Memory: " ++ userMemoryReservation stats;
   "Splits: Q:" ++ show_Z (queuedDrivers stats) ++ ", R:" ++ show_Z (runningDrivers stats) ++ ", F:" ++
     show_Z (completedDrivers stats);
   "Input: " ++ rawInputDataSize stats ++ " / " ++ formatRows (rawInputPositions stats)].

(** ** The graph *)

Inductive Label :=
  | ClusterLabel (color : string)
  | StatisticsLabel (lines : list string)
  | PlanLabel (title : string) (text : string)
  | ExchangeLabel.

Inductive EdgeLabel :=
  | HiddenEdge
  | PlanEdge
  | RemoteEdge (text : string).

(** graphlib: [node] and [edge] give the label, [None] when there is none. *)
Class Graphlib (G : Type) := {
  setNode : string -> Label -> G -> G;
  setEdge : string -> string -> EdgeLabel -> G -> G;
  setParent : string -> string -> G -> G;
  node : string -> G -> option Label;
  edge : string -> string -> G -> option EdgeLabel
}.

Class GraphlibLaws (G : Type) `{Graphlib G} : Prop := {
  node_setNode v w l (g : G) : node w (setNode v l g) = if decide (v = w) then Some l else node w g;
  node_setEdge v w u l (g : G) : node u (setEdge v w l g) = node u g;
  node_setParent v w u (g : G) : node u (setParent v w g) = node u g;
  edge_setNode v u w l (g : G) : edge u w (setNode v l g) = edge u w g;
  edge_setEdge v w v' w' l (g : G) :
    edge v' w' (setEdge v w l g) = if decide (v = v' /\ w = w') then Some l else edge v' w' g;
  edge_setParent v u u' w (g : G) : edge u' w (setParent v u g) = edge u' w g
}.

(** The state kept with the graph: which CTE a stage feeds, and the feeder of a
    stage that consumes one.  They are never emptied. *)
Record Feeders := {
  feederInfo : jsmap (option string) string;
  consumerFeederMap : jsmap string (option string)
}.

Definition noFeeders : Feeders := {| feederInfo := []; consumerFeederMap := [] |}.

Definition nodeKey (id : string) : string := "node-" ++ id.
Definition stageRoot (id : string) : string := "stage-" ++ id ++ "-root".

Section Draw.
Context {G : Type} `{Graphlib G}.
Implicit Types (g : G) (stage : StageNodeInfo).

Definition stageColor stage : string :=
  getStageStateColor
    {| stage_state := state stage; stage_fullyBlocked := Some (fullyBlocked (stageStats stage)) |}.

(** [x == undefined] for an optional string is [None]. *)
Definition isConsumer stage : bool :=
  match parentFeederId stage, feederCTE stage with Some _, None => true | _, _ => false end.

Definition noteFeeders stage (f : Feeders) : Feeders :=
  let f :=
    match feederCTE stage with
    | Some cte =>
        {| feederInfo := map_set (parentFeederId stage) cte (feederInfo f);
           consumerFeederMap := consumerFeederMap f |}
    | None => f
    end in
  if isConsumer stage then
    {| feederInfo := feederInfo f;
       consumerFeederMap :=
         map_set (planId stage) (map_get (parentFeederId stage) (feederInfo f)) (consumerFeederMap f) |}
  else f.

(** The cluster of a stage and the node of its statistics; a consumer has none. *)
Definition drawStage stage g : G :=
  if isConsumer stage then g
  else
    let clusterId := stageId stage in
    let stageRootNodeId := stageRoot (planId stage) in
    let g := setNode clusterId (ClusterLabel (stageColor stage)) g in
    let g := setNode stageRootNodeId (StatisticsLabel (renderStatistics stage)) g in
    let g := setParent stageRootNodeId clusterId g in
    setEdge (nodeKey (root stage)) stageRootNodeId HiddenEdge g.

Definition drawRemoteSource (f : Feeders) (allStages : jsmap string StageNodeInfo) (nodeId : string)
    g (sourceId : string) : G :=
  match map_get sourceId allStages with
  | None => g
  | Some source =>
      let text := outputDataSize (stageStats source) ++ " / " ++
                  formatRows (outputPositions (stageStats source)) in
      let from :=
        match map_get sourceId (consumerFeederMap f) with
        | Some feeder => default "undefined" feeder
        | None => sourceId
        end in
      setEdge (stageRoot from) nodeId (RemoteEdge text) g
  end.

(** A plan node is drawn once: never again when the graph has a label for it. *)
Definition drawNode (clusterId : string) (f : Feeders) (allStages : jsmap string StageNodeInfo) g
    (n : PlanNodeProps) : G :=
  let nodeId := nodeKey (id n) in
  match node nodeId g with
  | Some _ => g
  | None =>
      let g := setNode nodeId (PlanLabel (name n) (default "" (truncateString (Some (identifier n)) 27))) g in
      let g := setParent nodeId clusterId g in
      let g := fold_left (fun g source => setEdge (nodeKey source) nodeId PlanEdge g) (sources n) g in
      match remoteSources n with
      | [] => g
      | _ =>
          fold_left (drawRemoteSource f allStages nodeId) (remoteSources n) (setNode nodeId ExchangeLabel g)
      end
  end.

Definition updateD3Stage (allStages : jsmap string StageNodeInfo) (fg : Feeders * G) stage : Feeders * G :=
  let f := noteFeeders stage fg.1 in
  (f, fold_left (drawNode (stageId stage) f allStages) (nodes stage).*2 (drawStage stage fg.2)).

Definition updateD3Graph (outputStage : option StageInfo) (fg : Feeders * G) : result (Feeders * G) :=
  stages ← getStages outputStage;
  Ok (fold_left (updateD3Stage stages) stages.*2 fg).
End Draw.

(** ** The page *)

Record LiveAnswer := { outputStage : option StageInfo; finalQueryInfo : bool }.

Record LivePage := { initialized : bool; ended : bool; query : option LiveAnswer }.

Definition initialPage : LivePage := {| initialized := false; ended := false; query := None |}.

#[export] Instance live_loop : RefreshLoop LivePage unit LiveAnswer := {
  capture _ := ();
  on_answer _ q _ := {| initialized := true; ended := finalQueryInfo q; query := Some q |};
  on_fail s := {| initialized := true; ended := ended s; query := query s |};
  stopped s := match query s with None => false | Some _ => ended s end;
  interval := 1000;
  recovers := true;
}.

#[export] Instance live_ends : EndingLoop LivePage unit LiveAnswer (fun q => finalQueryInfo q = true).
Proof. by split. Qed.

(** What stands in place of the plan, and the note above it. *)
Definition messages (s : LivePage) : option string * option string :=
  match query s with
  | Some q =>
      if initialized s then
        (None,
         match outputStage q with
         | None => Some "Live plan graph will appear automatically when query starts running."
         | Some _ => None
         end)
      else (Some "Loading...", None)
  | None => (Some (if initialized s then "Query not found" else "Loading..."), None)
  end.
