(* ===== verification/LiveFacts.v ===== *)
(** * The live plan: what a drawing changes

    Lemmas and the property of LivePlan.v, for any graph that satisfies the laws
    of graphlib, and a graph that does. *)

From S2P Require Import Prelude JsString JsNumber Utils JsMap Timers RefreshLoop LivePlan.

#[export] Instance nodeKey_inj : Inj (=) (=) nodeKey.
Proof. intros a b Hab. by apply (inj (String.append "node-")) in Hab. Qed.

Lemma append_inj_r (a b c : string) : a ++ c = b ++ c -> a = b.
Proof.
  revert b. induction a as [|x a IH]; intros [|y b] Hab; [done|..].
  - apply (f_equal String.length) in Hab. cbn in Hab. rw length_append in Hab. lia.
  - apply (f_equal String.length) in Hab. cbn in Hab. rw length_append in Hab. lia.
  - cbn in Hab. injection Hab as -> Hab. f_equal. by apply IH.
Qed.

#[export] Instance stageRoot_inj : Inj (=) (=) stageRoot.
Proof. intros a b Hab. apply (inj (String.append "stage-")) in Hab. by apply append_inj_r in Hab. Qed.

Lemma nodeKey_stageRoot a b : nodeKey a <> stageRoot b.
Proof. discriminate. Qed.

Section Laws.
Context {G : Type} `{GraphlibLaws G}.
Implicit Types (g : G) (stage : StageNodeInfo) (f : Feeders).
Notation labelled k g := (node k g <> None).

(** ** Frames: what a step leaves alone *)

Lemma edges_fold {A} (from : A -> string) (label : A -> EdgeLabel) to (l : list A) g :
  let g' := fold_left (fun g a => setEdge (from a) to (label a) g) l g in
  (forall k, node k g' = node k g) /\ (forall v w, w <> to -> edge v w g' = edge v w g).
Proof.
  revert g. induction l as [|a l IH]; intros g; [done|]. cbn.
  destruct (IH (setEdge (from a) to (label a) g)) as [H1 H2]. split.
  - intros k. by rw H1 node_setEdge.
  - intros v w Hw. rw H2 // edge_setEdge decide_False //. by intros [_ ?].
Qed.

(** The feeding stage and the label of an edge from another stage. *)
Definition remoteFrom f (r : string) : string :=
  match map_get r (consumerFeederMap f) with Some feeder => default "undefined" feeder | None => r end.
Definition amounts (source : StageNodeInfo) : string :=
  outputDataSize (stageStats source) ++ " / " ++ formatRows (outputPositions (stageStats source)).

Lemma drawRemoteSource_some f all to g r source :
  map_get r all = Some source ->
  drawRemoteSource f all to g r = setEdge (stageRoot (remoteFrom f r)) to (RemoteEdge (amounts source)) g.
Proof. intros Hr. unfold drawRemoteSource. by rw Hr. Qed.

Lemma drawRemoteSource_frame f all to g r :
  let g' := drawRemoteSource f all to g r in
  (forall k, node k g' = node k g) /\ (forall v w, w <> to -> edge v w g' = edge v w g) /\
  (forall v, v <> stageRoot (remoteFrom f r) -> edge v to g' = edge v to g).
Proof.
  unfold drawRemoteSource. destruct (map_get r all); [|done]. cbn. split; [|split].
  - intros k. by rw node_setEdge.
  - intros v w Hw. rw edge_setEdge decide_False //. by intros [_ ?].
  - intros v Hv. rw edge_setEdge decide_False //. by intros [? _].
Qed.

Lemma remotes_frame f all to rs g :
  let g' := fold_left (drawRemoteSource f all to) rs g in
  (forall k, node k g' = node k g) /\ (forall v w, w <> to -> edge v w g' = edge v w g) /\
  (forall v, (forall r, r ∈ rs -> v <> stageRoot (remoteFrom f r)) -> edge v to g' = edge v to g).
Proof.
  revert g. induction rs as [|r rs IH]; intros g; [done|]. cbn.
  destruct (IH (drawRemoteSource f all to g r)) as (H1 & H2 & H3).
  destruct (drawRemoteSource_frame f all to g r) as (H4 & H5 & H6). split; [|split].
  - intros k. by rw H1 H4.
  - intros v w Hw. by rw H2 // H5.
  - intros v Hv. rw H3; [intros r' Hr'; apply Hv; by right|]. apply H6. apply Hv. by left.
Qed.

(** Drawing a plan node changes the label of that node only, and edges into it;
    nothing if it is labelled; afterwards it is. *)
Lemma drawNode_frame cluster f all g n :
  let g' := drawNode cluster f all g n in
  labelled (nodeKey (id n)) g' /\
  (forall k, k <> nodeKey (id n) -> node k g' = node k g) /\
  (forall v w, w <> nodeKey (id n) -> edge v w g' = edge v w g) /\
  (labelled (nodeKey (id n)) g -> g' = g).
Proof.
  unfold drawNode. destruct (node (nodeKey (id n)) g) as [l|] eqn:Hl; [by rw Hl|]. cbv zeta.
  set (g1 := setNode (nodeKey (id n)) _ g). set (g2 := setParent _ cluster g1).
  destruct (edges_fold nodeKey (fun _ => PlanEdge) (nodeKey (id n)) (sources n) g2) as [He1 He2].
  set (g3 := fold_left _ (sources n) g2) in *.
  assert (Hn : forall k, node k g3 = if decide (nodeKey (id n) = k) then node k g3 else node k g).
  { intros k. destruct (decide _) as [|Hk]; [done|]. rw He1. unfold g2. rw node_setParent.
    unfold g1. by rw node_setNode decide_False. }
  assert (He : forall v w, w <> nodeKey (id n) -> edge v w g3 = edge v w g).
  { intros v w Hw. rw He2 //. unfold g2. rw edge_setParent. unfold g1. by rw edge_setNode. }
  assert (Hs : labelled (nodeKey (id n)) g3).
  { rw He1. unfold g2. rw node_setParent. unfold g1. by rw node_setNode decide_True. }
  destruct (remoteSources n) as [|r rs]; (split; [|split; [|split; [|done]]]).
  - done.
  - intros k Hk. by rw Hn decide_False //.
  - done.
  - pose proof (proj1 (remotes_frame f all (nodeKey (id n)) (r :: rs) (setNode (nodeKey (id n)) ExchangeLabel g3)))
      as ->. by rw node_setNode decide_True.
  - intros k Hk.
    pose proof (proj1 (remotes_frame f all (nodeKey (id n)) (r :: rs) (setNode (nodeKey (id n)) ExchangeLabel g3)))
      as ->. by rw node_setNode decide_False // Hn decide_False.
  - intros v w Hw.
    pose proof (proj1 (proj2 (remotes_frame f all (nodeKey (id n)) (r :: rs)
      (setNode (nodeKey (id n)) ExchangeLabel g3)))) as Hr. rw Hr // edge_setNode. by apply He.
Qed.

(** The known stages among the remote sources of a plan node. *)
Definition known (all : jsmap string StageNodeInfo) (rs : list string) : list (string * StageNodeInfo) :=
  omap (fun r => (fun source => (r, source)) <$> map_get r all) rs.

(** The edges into a plan node: one from the stage each remote source is read
    from, with the amounts of the last source that is read from there, and one
    from each node below. *)
Definition incoming f (all : jsmap string StageNodeInfo) (n : PlanNodeProps) (v : string) : option EdgeLabel :=
  match List.find (fun p => streq v (stageRoot (remoteFrom f p.1))) (rev (known all (remoteSources n))) with
  | Some p => Some (RemoteEdge (amounts p.2))
  | None => if decide (v ∈ nodeKey <$> sources n) then Some PlanEdge else None
  end.

(** An exchange is a circle without a text. *)
Definition nodeLabel (n : PlanNodeProps) : Label :=
  match remoteSources n with
  | [] => PlanLabel (name n) (default "" (truncateString (Some (identifier n)) 27))
  | _ => ExchangeLabel
  end.

Lemma sources_edge to ss g v :
  edge v to (fold_left (fun g source => setEdge (nodeKey source) to PlanEdge g) ss g) =
  if decide (v ∈ nodeKey <$> ss) then Some PlanEdge else edge v to g.
Proof.
  induction ss as [|x ss IH] using rev_ind; [by cbn; case_decide as Hd; [apply elem_of_nil in Hd|]|].
  rw fold_left_app fmap_app. cbn [fold_left]. rw edge_setEdge IH. destruct (decide (nodeKey x = v /\ to = to)) as [[<- _]|Hne].
  - rw decide_True //. apply elem_of_app. right. by left.
  - apply decide_ext. rw elem_of_app. split; [by left|]. intros [?|Hv%list_elem_of_singleton]; [done|].
    by destruct Hne.
Qed.

Lemma remotes_edge f all to rs g v :
  edge v to (fold_left (drawRemoteSource f all to) rs g) =
  match List.find (fun p => streq v (stageRoot (remoteFrom f p.1))) (rev (known all rs)) with
  | Some p => Some (RemoteEdge (amounts p.2))
  | None => edge v to g
  end.
Proof.
  induction rs as [|r rs IH] using rev_ind; [done|].
  rw fold_left_app. cbn [fold_left]. unfold known. rw omap_app rev_app_distr. cbn [omap list_omap].
  destruct (map_get r all) as [source|] eqn:Hr; cbn [fmap option_fmap option_map rev app List.find fst snd].
  - rw (drawRemoteSource_some f all to _ r source Hr) edge_setEdge.
    destruct (streq v (stageRoot (remoteFrom f r))) eqn:Hs.
    + apply streq_eq in Hs as ->. by rw decide_True.
    + rw decide_False; [|exact IH]. intros [<- _]. by rw streq_refl in Hs.
  - unfold drawRemoteSource. rw Hr. exact IH.
Qed.

(** A plan node drawn for the first time. *)
Lemma drawNode_new cluster f all g n :
  node (nodeKey (id n)) g = None -> (forall v, edge v (nodeKey (id n)) g = None) ->
  let g' := drawNode cluster f all g n in
  node (nodeKey (id n)) g' = Some (nodeLabel n) /\
  forall v, edge v (nodeKey (id n)) g' = incoming f all n v.
Proof.
  intros Hl He. unfold drawNode, nodeLabel, incoming. rw Hl. cbv zeta. set (to := nodeKey (id n)) in *.
  set (label := PlanLabel _ _). set (g2 := setParent to cluster (setNode to label g)).
  assert (Hn2 : node to g2 = Some label) by (unfold g2; by rw node_setParent node_setNode decide_True).
  assert (He2 : forall v, edge v to g2 = None) by (intros v; unfold g2; by rw edge_setParent edge_setNode).
  pose proof (fun v => sources_edge to (sources n) g2 v) as He3.
  destruct (edges_fold nodeKey (fun _ => PlanEdge) to (sources n) g2) as [Hn3 _].
  set (g3 := fold_left _ (sources n) g2) in *. destruct (remoteSources n) as [|r rs].
  - cbn [known omap list_omap rev List.find]. split; [by rw Hn3|]. intros v. by rw He3 He2.
  - split.
    + rw (proj1 (remotes_frame f all to (r :: rs) (setNode to ExchangeLabel g3))).
      by rw node_setNode decide_True.
    + intros v. rw remotes_edge edge_setNode He3 He2. done.
Qed.

(** ** One stage *)

(** The plan node [w] and its edges are the same in both graphs. *)
Definition same (w : string) (g g' : G) : Prop :=
  node (nodeKey w) g' = node (nodeKey w) g /\ forall v, edge v (nodeKey w) g' = edge v (nodeKey w) g.

Definition keeps (g g' : G) : Prop := forall w, labelled (nodeKey w) g -> same w g g'.

Lemma same_trans w g1 g2 g3 : same w g1 g2 -> same w g2 g3 -> same w g1 g3.
Proof. intros [H1 H2] [H3 H4]. split; [by rw H3|]. intros v. by rw H4. Qed.

Lemma keeps_trans g1 g2 g3 : keeps g1 g2 -> keeps g2 g3 -> keeps g1 g3.
Proof.
  intros H12 H23 w Hw. pose proof (H12 w Hw) as Hs. eapply same_trans; [exact Hs|]. apply H23. by rw (proj1 Hs).
Qed.

Lemma drawNode_same cluster f all g n w : w <> id n -> same w g (drawNode cluster f all g n).
Proof.
  intros Hne. destruct (drawNode_frame cluster f all g n) as (H1 & H2 & H3 & H4).
  assert (nodeKey w <> nodeKey (id n)) by by intros ?%(inj nodeKey).
  split; [by apply H2|]. intros v. by apply H3.
Qed.

Lemma drawNode_keeps cluster f all g n : keeps g (drawNode cluster f all g n).
Proof.
  intros w Hw. destruct (decide (w = id n)) as [->|Hne]; [|by apply drawNode_same].
  destruct (drawNode_frame cluster f all g n) as (_ & _ & _ & H4). by rw H4.
Qed.

Lemma drawNodes_ok cluster f all ns g :
  let g' := fold_left (drawNode cluster f all) ns g in
  keeps g g' /\
  (forall w, w ∉ id <$> ns -> same w g g') /\
  (forall k, (forall w, k <> nodeKey w) -> node k g' = node k g).
Proof.
  revert g. induction ns as [|n ns IH]; intros g; cbv zeta; cbn [fold_left]; [done|].
  destruct (IH (drawNode cluster f all g n)) as (I1 & I2 & I3). split; [|split].
  - eapply keeps_trans; [apply drawNode_keeps|done].
  - intros w Hw. rw fmap_cons not_elem_of_cons in Hw. destruct Hw as [Hw1 Hw2].
    eapply same_trans; [by apply drawNode_same|by apply I2].
  - intros k Hk. rw I3 //. by apply drawNode_frame.
Qed.

(** No cluster has the key of a plan node or of a stage's statistics. *)
Definition own_cluster stage : Prop :=
  forall x, stageId stage <> nodeKey x /\ stageId stage <> stageRoot x.

Lemma drawStage_ok stage g :
  own_cluster stage ->
  let g' := drawStage stage g in
  (forall w, same w g g') /\
  (forall x, x <> planId stage -> node (stageRoot x) g' = node (stageRoot x) g) /\
  (isConsumer stage = false ->
   node (stageRoot (planId stage)) g' = Some (StatisticsLabel (renderStatistics stage))).
Proof.
  intros Hc. unfold drawStage. destruct (isConsumer stage); [done|]. cbv zeta. split; [|split].
  - intros w. split.
    + rw node_setEdge node_setParent !node_setNode. rw !decide_False //. apply Hc.
    + intros v. rw edge_setEdge decide_False; [by intros [_ ?]|].
      by rw edge_setParent !edge_setNode.
  - intros x Hx. rw node_setEdge node_setParent !node_setNode. rw !decide_False //.
    + intros Heq%(inj stageRoot). congruence.
    + apply Hc.
  - intros _. rw node_setEdge node_setParent !node_setNode. by rw decide_True.
Qed.

(** ** All stages *)

(** The plan nodes of a list of stages. *)
Definition plan_nodes (stages : list StageNodeInfo) : list PlanNodeProps :=
  flat_map (fun stage => (nodes stage).*2) stages.

Lemma stages_ok all stages fg :
  Forall own_cluster stages ->
  let g' := (fold_left (updateD3Stage all) stages fg).2 in
  keeps fg.2 g' /\ forall w, w ∉ id <$> plan_nodes stages -> same w fg.2 g'.
Proof.
  revert fg. induction stages as [|stage stages IH]; intros fg Hown; cbv zeta; [done|].
  apply Forall_cons in Hown as [Ho1 Ho2]. cbn [fold_left].
  destruct (IH (updateD3Stage all fg stage) Ho2) as [I1 I2].
  destruct (drawStage_ok stage fg.2 Ho1) as (S1 & _).
  destruct (drawNodes_ok (stageId stage) (noteFeeders stage fg.1) all (nodes stage).*2 (drawStage stage fg.2))
    as (D1 & D2 & _). split.
  - eapply keeps_trans; [|exact I1]. eapply keeps_trans; [|exact D1]. intros w _. apply S1.
  - intros w Hw. cbn [plan_nodes flat_map] in Hw. rw fmap_app not_elem_of_app in Hw. destruct Hw as [Hw1 Hw2].
    eapply same_trans; [|by apply I2]. eapply same_trans; [apply S1|by apply D2].
Qed.

(** The statistics are drawn again each time. *)
Lemma stages_statistics all stages fg :
  Forall own_cluster stages -> NoDup (planId <$> stages) ->
  let g' := (fold_left (updateD3Stage all) stages fg).2 in
  (forall stage, stage ∈ stages -> isConsumer stage = false ->
     node (stageRoot (planId stage)) g' = Some (StatisticsLabel (renderStatistics stage))) /\
  (forall x, x ∉ planId <$> stages -> node (stageRoot x) g' = node (stageRoot x) fg.2).
Proof.
  revert fg. induction stages as [|stage stages IH]; intros fg Hown Hids; cbv zeta.
  { by split; [intros s ?%elem_of_nil|]. }
  apply Forall_cons in Hown as [Ho1 Ho2]. cbn in Hids. apply NoDup_cons in Hids as [Hi1 Hi2].
  cbn [fold_left]. destruct (IH (updateD3Stage all fg stage) Ho2 Hi2) as [I1 I2].
  destruct (drawStage_ok stage fg.2 Ho1) as (_ & S2 & S3).
  assert (Hroots : forall x, node (stageRoot x) (updateD3Stage all fg stage).2 =
                             node (stageRoot x) (drawStage stage fg.2)).
  { intros x. unfold updateD3Stage. cbn. apply drawNodes_ok. intros w. by apply not_eq_sym, nodeKey_stageRoot. }
  split.
  - intros st [->|Hst]%elem_of_cons Hc; [|by apply I1]. rw I2 // Hroots. by apply S3.
  - intros x Hx. cbn in Hx. rw not_elem_of_cons in Hx. destruct Hx as [Hx1 Hx2].
    rw I2 // Hroots. by apply S2.
Qed.

(** What the stages drawn so far have noted about feeders. *)
Definition feedersAt (stages : list StageNodeInfo) f : Feeders :=
  fold_left (fun f stage => noteFeeders stage f) stages f.

Lemma stages_feeders all stages fg :
  (fold_left (updateD3Stage all) stages fg).1 = feedersAt stages fg.1.
Proof. revert fg. induction stages as [|stage stages IH]; intros fg; [done|]. cbn. by rw IH. Qed.

(** A plan node that is not in the graph is drawn by the first stage that has it. *)
Lemma stages_new all before stage after nb n na fg :
  Forall own_cluster (before ++ stage :: after) -> (nodes stage).*2 = (nb ++ n :: na)%list ->
  node (nodeKey (id n)) fg.2 = None -> (forall v, edge v (nodeKey (id n)) fg.2 = None) ->
  id n ∉ id <$> (plan_nodes before ++ nb)%list ->
  let g' := (fold_left (updateD3Stage all) (before ++ stage :: after) fg).2 in
  node (nodeKey (id n)) g' = Some (nodeLabel n) /\
  forall v, edge v (nodeKey (id n)) g' = incoming (feedersAt (before ++ [stage]) fg.1) all n v.
Proof.
  intros Hown Hns Hl He Hn. apply Forall_app in Hown as [Hb Hown]. apply Forall_cons in Hown as [Hs Ha].
  rw fmap_app not_elem_of_app in Hn. destruct Hn as [Hn1 Hn2]. cbv zeta. rw fold_left_app. cbn [fold_left].
  set (fg1 := fold_left (updateD3Stage all) before fg).
  set (f := noteFeeders stage fg1.1).
  assert (feedersAt (before ++ [stage]) fg.1 = f) as ->.
  { unfold feedersAt. rw fold_left_app. cbn. unfold f, fg1. by rw stages_feeders. }
  set (g2 := fold_left (drawNode (stageId stage) f all) nb (drawStage stage fg1.2)).
  assert (same (id n) fg.2 g2) as [Hl2 He2].
  { eapply same_trans; [apply stages_ok; [exact Hb|exact Hn1]|].
    eapply same_trans; [by apply drawStage_ok|by apply drawNodes_ok]. }
  destruct (drawNode_new (stageId stage) f all g2 n) as [N1 N2].
  { by rw Hl2. } { intros v. by rw He2. }
  enough (same (id n) (drawNode (stageId stage) f all g2 n)
            (fold_left (updateD3Stage all) after (updateD3Stage all fg1 stage)).2) as [K1 K2].
  { split; [by rw K1|]. intros v. by rw K2. }
  assert (keeps (drawNode (stageId stage) f all g2 n) (updateD3Stage all fg1 stage).2) as Hk.
  { unfold updateD3Stage. cbn [snd]. rw Hns fold_left_app. cbn [fold_left]. apply drawNodes_ok. }
  eapply keeps_trans; [exact Hk|by apply stages_ok|by rw N1].
Qed.

(** ** Where a consumer of a CTE is read from *)

(** The last of the [earlier] stages that feeds the CTE the stage consumes. *)
Definition feederOf (earlier : list StageNodeInfo) stage : option string :=
  last (omap (fun s => if decide (parentFeederId s = parentFeederId stage) then feederCTE s else None) earlier).

Definition origin (earlier : list StageNodeInfo) stage : string :=
  if isConsumer stage then default "undefined" (feederOf earlier stage) else planId stage.

Lemma feederInfo_at earlier stage :
  map_get (parentFeederId stage) (feederInfo (feedersAt earlier noFeeders)) = feederOf earlier stage.
Proof.
  unfold feederOf. induction earlier as [|s earlier IH] using rev_ind; [done|].
  unfold feedersAt. rw fold_left_app omap_app. cbn [fold_left omap list_omap]. fold (feedersAt earlier noFeeders).
  assert (feederInfo (noteFeeders s (feedersAt earlier noFeeders)) =
    match feederCTE s with
    | Some cte => map_set (parentFeederId s) cte (feederInfo (feedersAt earlier noFeeders))
    | None => feederInfo (feedersAt earlier noFeeders)
    end) as ->.
  { unfold noteFeeders. destruct (feederCTE s), (isConsumer s); done. }
  destruct (feederCTE s) as [cte|].
  - rw map_get_set. destruct (decide (parentFeederId s = parentFeederId stage)) as [Heq|Hne].
    + by rw last_snoc.
    + by rw app_nil_r.
  - rw IH. destruct (decide _); by rw app_nil_r.
Qed.

Lemma consumerFeederMap_at stages f x :
  x ∉ planId <$> stages -> map_get x (consumerFeederMap (feedersAt stages f)) = map_get x (consumerFeederMap f).
Proof.
  induction stages as [|s stages IH] using rev_ind; [done|]. intros Hx. rw fmap_app not_elem_of_app in Hx.
  destruct Hx as [Hx1 Hx2]. unfold feedersAt. rw fold_left_app. cbn [fold_left]. fold (feedersAt stages f).
  rw -IH //. unfold noteFeeders. destruct (isConsumer s); [|by destruct (feederCTE s)]. cbn.
  destruct (feederCTE s); cbn; rw map_get_set decide_False //; intros <-; apply Hx2; by left.
Qed.

Lemma remoteFrom_origin earlier stage later :
  NoDup (planId <$> (earlier ++ stage :: later)%list) ->
  remoteFrom (feedersAt (earlier ++ stage :: later) noFeeders) (planId stage) = origin earlier stage.
Proof.
  rw fmap_app fmap_cons. intros (_ & Hd & Hnd)%NoDup_app. apply NoDup_cons in Hnd as [Hl _].
  assert (He : planId stage ∉ planId <$> earlier) by (intros He; apply (Hd _ He); by left).
  unfold remoteFrom, origin. rw (cons_middle stage) app_assoc. unfold feedersAt at 1. rw fold_left_app.
  fold (feedersAt (earlier ++ [stage]) noFeeders). fold (feedersAt later (feedersAt (earlier ++ [stage]) noFeeders)).
  rw consumerFeederMap_at //. unfold feedersAt at 1. rw fold_left_app. cbn [fold_left].
  fold (feedersAt earlier noFeeders). unfold noteFeeders at 1.
  assert (feederInfo (match feederCTE stage with
    | Some cte => {| feederInfo := map_set (parentFeederId stage) cte (feederInfo (feedersAt earlier noFeeders));
                     consumerFeederMap := consumerFeederMap (feedersAt earlier noFeeders) |}
    | None => feedersAt earlier noFeeders end) = feederInfo (feedersAt earlier noFeeders) \/ isConsumer stage = false).
  { unfold isConsumer. destruct (feederCTE stage); [right; by destruct (parentFeederId stage)|by left]. }
  destruct (isConsumer stage).
  - destruct H1 as [H1|?]; [|done]. cbn [consumerFeederMap]. rw H1 map_get_set decide_True //.
    by rw feederInfo_at.
  - pose proof (consumerFeederMap_at earlier noFeeders (planId stage) He) as Hm.
    destruct (feederCTE stage); cbn [consumerFeederMap]; by rw Hm.
Qed.
End Laws.

(** ** Flattening *)

Section StageInfoInd.
Context (P : StageInfo -> Prop)
  (Hstep : forall s, Forall P (info_subStages s) -> P s).

Fixpoint StageInfo_nested_ind (s : StageInfo) : P s :=
  Hstep s ((fix all (l : list StageInfo) : Forall P l :=
              match l with
              | [] => Forall_nil_2 P
              | s :: l => Forall_cons_2 P s l (StageInfo_nested_ind s) (all l)
              end) (info_subStages s)).
End StageInfoInd.

(** The stages of a query, parents first. *)
Fixpoint stages_of (s : StageInfo) : list StageInfo := s :: flat_map stages_of (info_subStages s).

(** The map has each stage under the id of its plan. *)
Definition keyed (stages : jsmap string StageNodeInfo) : Prop :=
  NoDup stages.*1 /\ forall k stage, (k, stage) ∈ stages -> planId stage = k.

Lemma map_set_elem {K V} `{EqDecision K} (k : K) (v : V) (m : jsmap K V) k' v' :
  (k', v') ∈ map_set k v m -> (k', v') = (k, v) \/ (k', v') ∈ m.
Proof.
  induction m as [|[k0 v0] m IH]; cbn.
  - intros ?%list_elem_of_singleton. by left.
  - destruct (decide (k0 = k)).
    + intros [?|?]%elem_of_cons; [by left|right; by right].
    + intros [[= -> ->]|Hin]%elem_of_cons; [right; by left|]. destruct (IH Hin); [by left|right; by right].
Qed.

(** The stages are flattened exactly when all of them have a plan. *)
Lemma flattenStage_ok s m :
  keyed m ->
  match flattenStage s m with
  | Ok m' => keyed m' /\ Forall (fun s => is_Some (info_plan s)) (stages_of s)
  | Throw _ => exists s', s' ∈ stages_of s /\ info_plan s' = None
  end.
Proof.
  revert m. induction s as [s IH] using StageInfo_nested_ind. intros m Hm. destruct s as [sid stats st plan subs].
  cbn [flattenStage stages_of info_subStages] in *. match goal with |- context [mbind _ (?f subs m)] => set (each := f) end.
  assert (match each subs m with
          | Ok m' => keyed m' /\ Forall (fun s => is_Some (info_plan s)) (flat_map stages_of subs)
          | Throw _ => exists s', s' ∈ flat_map stages_of subs /\ info_plan s' = None
          end) as Heach.
  { revert m Hm. induction IH as [|s subs Hs _ IHs]; intros m Hm; [done|]. cbn [each flat_map].
    pose proof (Hs m Hm) as Hf. destruct (flattenStage s m) as [m1|]; cbn [mbind result_bind].
    - destruct Hf as [Hm1 Hp]. pose proof (IHs m1 Hm1) as Hr. destruct (each subs m1).
      + split; [apply Hr|]. apply Forall_app. by split; [|apply Hr].
      + destruct Hr as (s' & Hin & Hn). exists s'. split; [apply elem_of_app; by right|done].
    - destruct Hf as (s' & Hin & Hn). exists s'. split; [apply elem_of_app; by left|done]. }
  destruct (each subs m) as [m1|]; cbn [mbind result_bind].
  - destruct Heach as [[Hnd Hk] Hp]. destruct plan as [plan|]; cbn [member mbind result_bind].
    + split; [|by constructor; [by eexists|]]. split; [by apply map_keys_nodup|].
      intros k stage [[= -> ->]|Hin]%map_set_elem; [done|]. by apply Hk.
    + eexists. split; [by left|done].
  - destruct Heach as (s' & Hin & Hn). exists s'. split; [by right|done].
Qed.

Lemma keyed_planIds stages : keyed stages -> planId <$> stages.*2 = stages.*1.
Proof.
  intros [_ Hk]. induction stages as [|[k stage] stages IH]; [done|]. cbn. f_equal.
  - apply (Hk k stage). by left.
  - apply IH. intros k' s' Hin. apply Hk. by right.
Qed.

(** What cannot be flattened: no output stage, or a stage without a plan. *)
Definition undrawable (outputStage : option StageInfo) : Prop :=
  match outputStage with
  | None => True
  | Some output => exists s, s ∈ stages_of output /\ info_plan s = None
  end.

Lemma getStages_ok outputStage :
  match getStages outputStage with
  | Ok stages => keyed stages /\ ~ undrawable outputStage
  | Throw _ => undrawable outputStage
  end.
Proof.
  unfold getStages. destruct outputStage as [output|]; [|done]. cbn [member mbind result_bind Datatypes.id].
  pose proof (flattenStage_ok output []) as Hf. destruct (flattenStage output []) as [stages|].
  - destruct Hf as [Hk Hp]; [split; [constructor|by intros ? ? ?%elem_of_nil]|]. split; [done|].
    intros (s & Hin & Hn). rw Forall_forall in Hp. destruct (Hp s Hin) as [p Hs]. by rw Hn in Hs.
  - apply Hf. split; [constructor|by intros ? ? ?%elem_of_nil].
Qed.

(** ** The property *)


(** ** A graph *)

Module RefGraph.
Record t := { labels : jsmap string Label; edges : jsmap (string * string) EdgeLabel }.

#[export] Instance graph : Graphlib t := {
  setNode v l g := {| labels := map_set v l (labels g); edges := edges g |};
  setEdge v w l g := {| labels := labels g; edges := map_set (v, w) l (edges g) |};
  setParent _ _ g := g;
  node v g := map_get v (labels g);
  edge v w g := map_get (v, w) (edges g);
}.

#[export] Instance graph_laws : GraphlibLaws t.
Proof.
  split; try done; intros; cbn; rw map_get_set; [done|].
  destruct (decide (v = v' /\ w = w')) as [[-> ->]|Hne]; [by rw decide_True|].
  rw decide_False //. intros [= -> ->]. by apply Hne.
Qed.
End RefGraph.
Import RefGraph.

Definition emptyGraph : Feeders * t := (noFeeders, {| labels := []; edges := [] |}).

Definition example_stats (output : string) : StageStats :=
  {| totalCpuTime := "1.00s"; bufferedDataSize := "0B"; fullyBlocked := false;
     totalBlockedTime := "0.00ns"; userMemoryReservation := "0B"; queuedDrivers := 0;
     runningDrivers := 1; completedDrivers := 0; rawInputDataSize := "0B"; rawInputPositions := of_Z 0;
     outputDataSize := output; outputPositions := of_Z 1 |}.

Definition example_stage (number output : string) (cte parent : option string) (plan : JsonNode)
    (subs : list StageInfo) : StageInfo :=
  mkStageInfo ("q." ++ number) (example_stats output) "RUNNING"
    (Some {| plan_id := number; plan_root_id := json_id plan; plan_distribution := "SINGLE";
             plan_jsonRepresentation := plan; plan_feederCTE := cte; plan_feederCTEParentId := parent |}) subs.

(** A stage that reads two: the stage 1, which feeds the CTE "c" under its own
    number, and the stage 2, which consumes it; [output] was sent so far. *)
Definition example_query (output : string) : StageInfo :=
  example_stage "0" "0B" None None (mkJsonNode "7" "Remote" "" "" [] ["1"; "2"])
    [example_stage "1" output (Some "1") (Some "c") (mkJsonNode "9" "TableScan" "" "" [] []) [];
     example_stage "2" "5B" None (Some "c") (mkJsonNode "11" "CTE" "" "" [] []) []].

Definition draw (output : string) (fg : Feeders * t) : Feeders * t :=
  match updateD3Graph (Some (example_query output)) fg with Ok fg => fg | Throw _ => fg end.

Definition stages_sent (output : string) : jsmap string StageNodeInfo :=
  match getStages (Some (example_query output)) with Ok stages => stages | Throw _ => [] end.

