(* ===== verification/LiveMarkup.v ===== *)
(** * The elements of the live plan page, and its canvas

    What the render methods of LivePlan.jsx return, and what becomes of the graph
    after each update of the page: the canvas is looked up once, at the first.
    When the page cannot be drawn it is taken away, but goes on polling. *)

From stdpp Require Import relations.
From S2P Require Import Prelude JsString JsNumber Utils Markup JsMap Timers RefreshLoop LivePlan LiveFacts.

(** ** Labels of the graph *)

Module StageStatistics.
Definition render (stage : StageNodeInfo) : Html :=
  let stats := stageStats stage in
  let blocked :=
    el "div" (if fullyBlocked stats then [style [("color", "#ff0000")]] else [])
      [txt "Blocked: "; txt (totalBlockedTime stats); txt " "] in
  el "div" []
    [el "div" []
       [el "h3" [cls "margin-top: 0"] [txt "Stage "; txt (planId stage)];
        txt (state stage);
        el "hr" [] [];
        txt "CPU: ";
        txt (totalCpuTime stats);
        el "br" [] [];
        txt "Buffered: ";
        txt (bufferedDataSize stats);
        el "br" [] [];
        blocked;
        txt "Memory: ";
        txt (userMemoryReservation stats);
        el "br" [] [];
        txt "Splits: ";
        txt ("Q:" ++ show_Z (queuedDrivers stats) ++ ", R:" ++ show_Z (runningDrivers stats) ++ ", F:" ++
             show_Z (completedDrivers stats));
        el "hr" [] [];
        txt "Input: ";
        txt (rawInputDataSize stats ++ " / " ++ formatRows (rawInputPositions stats))]].
End StageStatistics.

Module PlanNode.
Definition render (props : PlanNodeProps) : Html :=
  el "div" [style [("color", "#000"); ("fontFamily", "Consolas")]; "data-toggle" =: "tooltip";
            "data-placement" =: "bottom"; "data-container" =: "body"; "data-html" =: "true";
            "title" =: "<h4>" ++ name props ++ "</h4>" ++ identifier props]
    [el "strong" [] [txt (name props)];
     el "div" [] [opt (truncateString (Some (identifier props)) 27)]].
End PlanNode.

(** ** The page *)

Definition message (label : Html) : Html :=
  el "div" [cls "row error-message"] [el "div" [cls "col-xs-12"] [el "h4" [] [label]]].

Definition loadingMessage : Html :=
  el "div" [cls "row error-message"]
    [el "div" [cls "col-xs-12"]
       [el "h4" [] [txt "Live plan graph will appear automatically when query starts running."];
        el "div" [cls "loader"] [txt "Loading..."]]].

(** The header is there unless the page is embedded. *)
Definition renderPlan (queryHeader : Html) (q : LiveAnswer) (s : LivePage) : Html :=
  let loadingMessage := match outputStage q with None => loadingMessage | Some _ => [] end in
  el "div" []
    [queryHeader;
     el "div" [cls "row"]
       [el "div" [cls "col-xs-12"]
          [loadingMessage;
           el "div" ["id" =: "live-plan"; cls "graph-container"]
             [el "div" [cls "pull-right"]
                [txt (if ended s then "Scroll to zoom." else "Zoom disabled while query is running.");
                 txt " Click stage to view additional statistics"];
              el "svg" ["id" =: "plan-canvas"] []]]]].

Definition render (queryHeader : result Html) (s : LivePage) : result Html :=
  match query s with
  | Some q =>
      if initialized s then header ← queryHeader; Ok (renderPlan header q s)
      else Ok (message (el "div" [cls "loader"] [txt "Loading..."]))
  | None =>
      Ok (message (if initialized s then txt "Query not found" else el "div" [cls "loader"] [txt "Loading..."]))
  end.

(** ** Drawing the page *)

Section Drawn.
(** The header of the query, which throws for some failed queries. *)
Context (queryHeader : LivePage -> result Html).

(** What the page draws in a state, without the canvas: the elements, and the
    stages of the query it shows. *)
Definition drawn (s : LivePage) : result (option (jsmap string StageNodeInfo)) :=
  _ ← render (queryHeader s) s;
  match query s with
  | None => Ok None
  | Some q => stages ← getStages (outputStage q); Ok (Some stages)
  end.

Definition live_rendering : Rendering LivePage := fun s => match drawn s with Ok _ => false | Throw _ => true end.
#[local] Instance rendering : Rendering LivePage := live_rendering.

(** The page after an answer, whatever it was before. *)
Definition shows (q : LiveAnswer) : LivePage := on_answer () q initialPage.

Lemma shows_breaks q :
  live_rendering (shows q) = true <-> undrawable (outputStage q) \/ exists e, queryHeader (shows q) = Throw e.
Proof.
  unfold live_rendering, drawn, render, shows. cbn. pose proof (getStages_ok (outputStage q)) as Hs.
  destruct (queryHeader _) as [header|e]; cbn; [|split; [intros _; right; by eexists|done]].
  destruct (getStages (outputStage q)) as [stages|]; cbn; [|by split; [left|]].
  destruct Hs as [_ Hs]. split; [done|]. intros [?|[e He]]; done.
Qed.

(** C35.  A live plan that was taken away goes on polling.  Where the handler of an
    answer throws, because there is no output stage yet, a stage has no plan or
    the header cannot be drawn, the handler of failures arms the timer all the
    same; from then on no answer changes the page, so that unless that answer was
    the final one the page polls the server for good, whatever is answered. *)
Theorem live_plan_polls_on i q (w w1 : Page LivePage unit) :
  unmounted w = false -> settle i (Some q) w = Some w1 ->
  undrawable (outputStage q) \/ (exists e, queryHeader (shows q) = Throw e) ->
  unmounted w1 = true /\ page w1 = shows q /\
  (finalQueryInfo q = true -> stopped (page w1) = true) /\
  (finalQueryInfo q = false -> forall w2, rtc step w1 w2 ->
     page w2 = shows q /\ unmounted w2 = true /\ (pending w2 <> [] \/ armed (clock w2) <> [])).
Proof.
  intros Hu Hs Hb%shows_breaks. destruct (pending w !! i) as [[]|] eqn:Hi; [|unfold settle in Hs; by rw Hi in Hs].
  destruct (settle_rescued i () q w w1) as (Hpage & Hu1 & Hp1); [done..|].
  change (on_answer () q (page w)) with (shows q) in Hpage.
  split; [done|]. split; [done|]. rw Hpage. split; [by intros ?|]. intros Hf w2 Hr.
  rw Hpage in Hp1. destruct (unmounted_polls w1 w2) as (Hpage2 & Hu2 & Hp2); [done|by rw Hpage|by apply Hp1|done|].
  by rw Hpage2 Hpage.
Qed.
End Drawn.

(** *** Examples *)

Definition noHeader (_ : LivePage) : result Html := Ok [].

Section Queued.
#[local] Instance drawn_without_header : Rendering LivePage := live_rendering noHeader.

(** The page of a query that has no stages yet, as after its first answer. *)
Definition queuedAnswer : LiveAnswer := {| outputStage := None; finalQueryInfo := false |}.

Definition mounted : Page LivePage unit := mount initialPage.
Definition queuedPage : Page LivePage unit := default mounted (settle 0 (Some queuedAnswer) mounted).

(** The query ends, but the page polls on. *)
Lemma live_plan_polls_on_witness :
  settle 0 (Some queuedAnswer) mounted = Some queuedPage /\
  forall w2, rtc step queuedPage w2 -> page w2 = shows queuedAnswer /\ (pending w2 <> [] \/ armed (clock w2) <> []).
Proof.
  split; [reflexivity|].
  destruct (live_plan_polls_on noHeader 0 queuedAnswer mounted queuedPage) as (_ & _ & _ & H1);
    [reflexivity|reflexivity|by left|].
  intros w2 Hr. destruct (H1 eq_refl w2 Hr) as (H2 & _ & H3). by split.
Defined.

(** Two requests are under way, and the first answer is final. *)
Definition ended_page : Page LivePage unit :=
  default mounted
    (settle 0 (Some {| outputStage := None; finalQueryInfo := true |}) (userChange (fun s => s) true mounted)).

End Queued.

(** ** The canvas *)

Section Canvas.
Context {G : Type} `{Graphlib G}.
(** The header of the query, which throws for some failed queries. *)
Context (queryHeader : LivePage -> result Html).
(** dagre-d3's renderer, on a graph and a group that was found or not: it may
    throw, for instance on a node without a label.  What it notes in the labels
    of the graph is left out. *)
Context (dagre : bool -> G -> result unit).

(** [svg] is null, or a selection of the canvas, whose first group was made with
    it, or of nothing; [shown] is the graph that was drawn into that group.  A
    component whose update throws is removed with the whole page. *)
Record Canvas := {
  page : LivePage;
  svg : option bool;
  graph : Feeders * G;
  shown : option G;
  unmounted : bool
}.

Definition initialCanvas (g : G) : Canvas :=
  {| page := initialPage; svg := None; graph := (noFeeders, g); shown := None; unmounted := false |}.

Definition html (c : Canvas) : result Html := render (queryHeader (page c)) (page c).

(** [initializeSvg("#plan-canvas")] on the elements of the page: without the
    element the selection is empty, and no group is appended. *)
Definition initializeSvg (h : Html) : bool := bool_decide ("plan-canvas" ∈ ids h).

(** updateD3Graph once there is a selection.  [d3.select("#plan-canvas g")] is the
    group the selection was given; the size is read off the element "live-plan",
    without which this throws. *)
Definition redraw (h : Html) (c : Canvas) : result Canvas :=
  match query (page c) with
  | None => Ok c
  | Some q =>
      graph ← updateD3Graph (outputStage q) (graph c);
      let inner := default false (svg c) && initializeSvg h in
      _ ← dagre inner graph.2;
      _ ← member (byId "live-plan" h) (fun _ => tt);
      Ok {| page := page c; svg := svg c; graph := graph; shown := if inner then Some graph.2 else shown c;
            unmounted := unmounted c |}
  end.

(** componentDidUpdate: the first one only sets the selection, and is followed by
    another for that. *)
Definition componentDidUpdate (h : Html) (c : Canvas) : result Canvas :=
  match svg c with
  | None =>
      redraw h {| page := page c; svg := Some (initializeSvg h); graph := graph c; shown := shown c;
                  unmounted := unmounted c |}
  | Some _ => redraw h c
  end.

Definition update (c : Canvas) : result Canvas := h ← html c; componentDidUpdate h c.

(** A request of the page is answered, or fails. *)
Definition onSettled (r : option LiveAnswer) (c : Canvas) : Canvas :=
  if unmounted c then c
  else
    let c :=
      {| page := match r with Some q => on_answer () q (page c) | None => on_fail (page c) end;
         svg := svg c; graph := graph c; shown := shown c; unmounted := unmounted c |} in
    match update c with
    | Ok c => c
    | Throw _ => {| page := page c; svg := svg c; graph := graph c; shown := None; unmounted := true |}
    end.

Definition settle (rs : list (option LiveAnswer)) (c : Canvas) : Canvas :=
  fold_left (fun c r => onSettled r c) rs c.

End Canvas.
Arguments Canvas : clear implicits.

(** ** The page in the browser *)

Lemma wf_message label : wellFormed "h4" label = true -> wellFormed "div" (message label) = true.
Proof. intros Hl. unfold message. markup. Qed.
#[export] Hint Resolve wf_message : markup.

Lemma live_page header s h :
  render header s = Ok h -> (forall x, header = Ok x -> wellFormed "div" x = true) -> wellFormed "div" h = true.
Proof.
  intros Hr Hh. unfold render in Hr. destruct (query s) as [q|].
  - destruct (initialized s); [|injection Hr as <-; apply wf_message; markup].
    destruct header as [header|]; [|done]. injection Hr as <-. specialize (Hh header eq_refl).
    unfold renderPlan, loadingMessage. destruct (outputStage q); markup.
  - injection Hr as <-. apply wf_message. destruct (initialized s); markup.
Qed.

(** The labels are drawn as HTML. *)
Lemma live_labels stage props :
  wellFormed "div" (StageStatistics.render stage) = true /\ wellFormed "div" (PlanNode.render props) = true.
Proof. unfold StageStatistics.render, PlanNode.render. split; [destruct (fullyBlocked _)|]; markup. Qed.

(** The plan's elements are on the page exactly while it shows a query. *)
Lemma plan_elements header s h id :
  render header s = Ok h -> id ∈ ["live-plan"; "plan-canvas"] -> (forall x, header = Ok x -> id ∉ ids x) ->
  id ∈ ids h <-> is_Some (query s) /\ initialized s = true.
Proof.
  intros Hr Hid Hh. unfold render, message in Hr. destruct (query s) as [q|].
  - destruct (initialized s).
    + destruct header as [header|]; [|done]. injection Hr as <-.
      split; [intros _; split; [by eexists|done]|intros _].
      assert (ids (renderPlan header q s) = (ids header ++ ["live-plan"; "plan-canvas"])%list) as ->.
      { unfold renderPlan, loadingMessage, ids. destruct (outputStage q); by attributes. }
      apply elem_of_app. by right.
    + injection Hr as <-. split; [intros H; inversion H|by intros [_ ?]].
  - injection Hr as <-. split; [|by intros [[? ?] ?]]. destruct (initialized s); intros H; inversion H.
Qed.

Section Settled.
Context {G : Type} `{Graphlib G} (queryHeader : LivePage -> result Html) (dagre : bool -> G -> result unit).
Context (header_ids : forall s x id, queryHeader s = Ok x -> id ∈ ["live-plan"; "plan-canvas"] -> id ∉ ids x).
Implicit Types c : Canvas G.

(** The query that is shown after the requests [rs], and the graph, as long as
    the page is there: every update draws the query into it again. *)
Definition drawAgain (shown : option LiveAnswer * (Feeders * G)) (r : option LiveAnswer) : option LiveAnswer * (Feeders * G) :=
  let query := match r with Some q => Some q | None => shown.1 end in
  (query,
   match query with
   | Some q => match updateD3Graph (outputStage q) shown.2 with Ok graph => graph | Throw _ => shown.2 end
   | None => shown.2
   end).

Definition drawnAfter (g : G) (rs : list (option LiveAnswer)) : option LiveAnswer * (Feeders * G) :=
  fold_left drawAgain rs (None, (noFeeders, g)).

(** Whether the canvas was found, at the first update. *)
Definition canvasFound (rs : list (option LiveAnswer)) : bool :=
  match head rs with Some (Some _) => true | _ => false end.

(** dagre-d3 does not draw the graph it is given after the requests [rs]. *)
Definition undrawn g rs : Prop :=
  is_Some (drawnAfter g rs).1 /\ exists e, dagre (canvasFound rs) (drawnAfter g rs).2.2 = Throw e.

(** What the page knows after the requests [rs], all answers that can be drawn. *)
Definition settled g (rs : list (option LiveAnswer)) c : Prop :=
  unmounted c = false /\ initialized (page c) = negb (bool_decide (rs = [])) /\
  drawnAfter g rs = (query (page c), graph c) /\ live_rendering queryHeader (page c) = false /\
  svg c = (if rs is [] then None else Some (canvasFound rs)) /\
  shown c = if canvasFound rs then Some (graph c).2 else None.

Lemma canvas_found s h :
  render (queryHeader s) s = Ok h -> initialized s = true ->
  initializeSvg h = bool_decide (is_Some (query s)) /\ (is_Some (query s) -> is_Some (byId "live-plan" h)).
Proof.
  intros Hr Hi.
  assert (Hin : forall id, id ∈ ["live-plan"; "plan-canvas"] -> id ∈ ids h <-> is_Some (query s)).
  { intros id Hid. rw (plan_elements _ s h id Hr Hid); [intros x Hx; by apply (header_ids s)|]. rw Hi. tauto. }
  split; [apply bool_decide_ext, Hin; right; by left|]. rw byId_found. apply Hin. by left.
Qed.

(** An update of a page that was answered: it throws where the page or its graph
    cannot be drawn, and else the graph is drawn, into the canvas if it was found. *)
Lemma update_spec c :
  initialized (page c) = true ->
  let found := default (bool_decide (is_Some (query (page c)))) (svg c) in
  let again := (drawAgain (query (page c), graph c) None).2 in
  let undrawn := is_Some (query (page c)) /\ exists e, dagre found again.2 = Throw e in
  match update queryHeader dagre c with
  | Ok c' =>
      live_rendering queryHeader (page c) = false /\ ~ undrawn /\
      page c' = page c /\ unmounted c' = unmounted c /\ svg c' = Some found /\ graph c' = again /\
      shown c' = if bool_decide (is_Some (query (page c))) && found then Some again.2 else shown c
  | Throw _ => live_rendering queryHeader (page c) = true \/ undrawn
  end.
Proof.
  intros Hi. cbv zeta. unfold update, html, live_rendering, drawn.
  destruct (render (queryHeader (page c)) (page c)) as [h|] eqn:Hr; cbn [mbind result_bind]; [|by left].
  destruct (canvas_found (page c) h Hr Hi) as [Hc Hl].
  set (found := default _ (svg c)).
  set (c2 := {| page := page c; svg := Some found; graph := graph c; shown := shown c; unmounted := unmounted c |}).
  assert (componentDidUpdate dagre h c = redraw dagre h c2) as ->.
  { unfold componentDidUpdate, c2, found. destruct c as [? [?|] ? ? ?]; cbn in *; [done|]. by rw Hc. }
  unfold redraw, drawAgain. cbn [query page c2 fst snd]. destruct (query (page c)) as [q|] eqn:Hq.
  2: { split; [done|]. split; [by intros [[? ?] _]|]. done. }
  cbn [fst snd graph c2 svg default]. unfold updateD3Graph. destruct (getStages (outputStage q)) as [stages|]; cbn [mbind result_bind]; [|by left].
  rw Hc. rw bool_decide_eq_true_2 // andb_true_r andb_true_l.
  change (Datatypes.id found) with found.
  destruct (dagre found _) as [[]|e] eqn:Hd; cbn [mbind result_bind]; [|right; split; [done|by exists e]].
  destruct (Hl ltac:(by eexists)) as [n ->]. cbn [member mbind result_bind page svg shown graph unmounted].
  split; [done|]. split; [by intros [_ [e He]]|]. done.
Qed.

Lemma found_after (rs : list (option LiveAnswer)) r (query : option LiveAnswer) :
  (rs = [] -> query = r) ->
  default (bool_decide (is_Some query)) (if rs is [] then None else Some (canvasFound rs)) = canvasFound (rs ++ [r]).
Proof. intros Hq. destruct rs; [|done]. rw Hq //. by destruct r. Qed.

Lemma found_more rs r : rs <> [] -> canvasFound (rs ++ [r]) = canvasFound rs.
Proof. by destruct rs. Qed.

(** A query is shown for good. *)
Lemma found_shown g rs : canvasFound rs = true -> is_Some (drawnAfter g rs).1.
Proof.
  induction rs as [|r rs IH] using rev_ind; [done|]. unfold drawnAfter in *. rw fold_left_app. cbn.
  destruct r as [q|]; [done|]. destruct (decide (rs = [])) as [->|Hne]; [done|]. by rw found_more.
Qed.

(** A request more of a page that is there. *)
Lemma settle_step g rs r c :
  settled g rs c ->
  let c' := onSettled queryHeader dagre r c in
  let lost := (exists q, r = Some q /\ live_rendering queryHeader (shows q) = true) \/ undrawn g (rs ++ [r]) in
  (settled g (rs ++ [r]) c' /\ ~ lost) \/ (unmounted c' = true /\ lost).
Proof.
  intros (Hu & Hi & Hg & Hb & Hs & Hsh). cbv zeta. unfold onSettled. rw Hu.
  set (c1 := {| page := match r with Some q => on_answer () q (page c) | None => on_fail (page c) end |}).
  assert (Hi1 : initialized (page c1) = true) by by destruct r.
  assert (Hq1 : query (page c1) = match r with Some q => Some q | None => query (page c) end) by by destruct r.
  assert (Hb1 : live_rendering queryHeader (page c1) = true <->
                exists q, r = Some q /\ live_rendering queryHeader (shows q) = true).
  { destruct r as [q|]; [split; [by exists q|by intros (? & [= <-] & ?)]|].
    enough (live_rendering queryHeader (page c1) = false) as -> by by split; [|intros (? & ? & _)].
    destruct (query (page c)) as [q|] eqn:Hqc.
    - rw -Hb. f_equal. assert (initialized (page c) = true) as Hic.
      { rw Hi. by destruct rs. }
      subst c1. cbn [page on_fail live_loop]. clear -Hic. destruct (page c) as [i e qq]. cbn in *. by rw Hic.
    - unfold live_rendering, drawn, render. by rw Hq1 Hi1. }
  assert (Hafter : drawnAfter g (rs ++ [r]) = (query (page c1), (drawAgain (query (page c1), graph c1) None).2)).
  { unfold drawnAfter in *. rw fold_left_app Hg Hq1. by destruct r. }
  assert (Hfound : default (bool_decide (is_Some (query (page c1)))) (svg c1) = canvasFound (rs ++ [r])).
  { change (svg c1) with (svg c). rw Hs. apply found_after. intros ->. rw Hq1. cbn in Hg.
    injection Hg as Hqc _. rw -Hqc. by destruct r. }
  pose proof (update_spec c1 Hi1) as Hup. cbv zeta in Hup. rw Hfound in Hup. rw -Hb1.
  unfold undrawn. rw Hafter. cbn [fst snd].
  destruct (update queryHeader dagre c1) as [c'|]; [left|right; split; [done|exact Hup]].
  destruct Hup as (H1 & H2 & H3 & H4 & H5 & H6 & H7). split; [|rw H1; by intros [?|?]].
  unfold settled. rw H3 H4 H5 H6 H7 Hi1 Hafter H1. split; [done|]. split; [by destruct rs|]. split; [done|]. split; [done|].
  split; [by destruct rs|]. change (shown c1) with (shown c). rw Hsh.
  pose proof (found_shown g (rs ++ [r])) as Hfs. rw Hafter in Hfs. cbn [fst] in Hfs.
  destruct (decide (rs = [])) as [->|Hne].
  - destruct (canvasFound ([] ++ [r])); [|by rw andb_false_r]. by rw bool_decide_eq_true_2; [apply Hfs|].
  - rw found_more // in Hfs. rw found_more //. destruct (canvasFound rs); [|by rw andb_false_r].
    by rw bool_decide_eq_true_2; [apply Hfs|].
Qed.

Lemma prefix_snoc_iff {A} (l1 l2 : list A) x : l1 `prefix_of` (l2 ++ [x])%list <-> l1 `prefix_of` l2 \/ l1 = (l2 ++ [x])%list.
Proof.
  split; [|intros [?| ->]; [by apply prefix_app_r|done]].
  intros [k Hk]. destruct k as [|y k _] using rev_ind; [right; by rw app_nil_r in Hk|].
  rw app_assoc in Hk. apply app_inj_tail in Hk as [-> _]. left. by exists k.
Qed.

Lemma settled_or_lost g rs :
  let c := settle queryHeader dagre rs (initialCanvas g) in
  let lost :=
    (exists q, Some q ∈ rs /\ live_rendering queryHeader (shows q) = true) \/
    exists before, before `prefix_of` rs /\ undrawn g before in
  (~ lost /\ settled g rs c) \/ (lost /\ unmounted c = true).
Proof.
  cbv zeta. unfold settle. induction rs as [|r rs IH] using rev_ind.
  - left. split; [|done]. intros [(q & Hq & _)|(before & ->%prefix_nil_inv & [] & _)]; [inversion Hq|done].
  - rw fold_left_app. cbn [fold_left]. revert IH.
    generalize (fold_left (fun c r => onSettled queryHeader dagre r c) rs (initialCanvas g)). intros c IH.
    setoid_rewrite prefix_snoc_iff. setoid_rewrite elem_of_app. setoid_rewrite list_elem_of_singleton.
    destruct IH as [[Hp Hset]|[Hlost Hu]].
    + pose proof (settle_step g rs r c Hset) as Hstep. cbv zeta in Hstep. set_unfold. naive_solver.
    + right. unfold onSettled. rw Hu. split; [|done]. naive_solver.
Qed.

(** C38.  The canvas of the live plan is looked up once, at the first update of the
    page, when it is there only if the first request was answered.  So whatever
    requests follow, the plan is drawn, as it is after the last answer, exactly if
    the first request was answered; if that failed, the page shows its empty canvas
    for good.  An answer without an output stage, with a stage that has no plan, or
    with a query whose header cannot be drawn takes the page away, and so does a
    graph that dagre-d3 does not draw; nothing else does. *)
Theorem plan_canvas g rs :
  let c := settle queryHeader dagre rs (initialCanvas g) in
  (unmounted c = true <->
     (exists q, Some q ∈ rs /\ (undrawable (outputStage q) \/ exists e, queryHeader (shows q) = Throw e)) \/
     exists before, before `prefix_of` rs /\ undrawn g before) /\
  (unmounted c = false -> shown c = if canvasFound rs then Some (drawnAfter g rs).2.2 else None).
Proof.
  cbv zeta. setoid_rewrite <- shows_breaks. destruct (settled_or_lost g rs) as [[Hp Hset]|[Hlost Hu]].
  - destruct Hset as (Hu & _ & Hg & _ & _ & Hs). rw Hu Hg. by split.
  - rw Hu. by split.
Qed.

End Settled.

(** ** A page whose first request fails *)

Import LiveFacts.RefGraph.

Definition exampleAnswer : LiveAnswer :=
  {| outputStage := Some (LiveFacts.example_query "10B"); finalQueryInfo := false |}.

Definition exampleCanvas (rs : list (option LiveAnswer)) : Canvas LiveFacts.RefGraph.t :=
  settle noHeader (fun _ _ => Ok tt) rs (initialCanvas LiveFacts.emptyGraph.2).

Lemma noHeader_ids s x id : noHeader s = Ok x -> id ∈ ["live-plan"; "plan-canvas"] -> id ∉ ids x.
Proof. intros [= <-] _ Hin. inversion Hin. Qed.

(** The first request fails, the second is answered: the page has the query, and
    the graph is made, but not shown. *)
Lemma plan_canvas_witness :
  shown (exampleCanvas [None; Some exampleAnswer]) = None /\
  query (page (exampleCanvas [None; Some exampleAnswer])) = Some exampleAnswer /\
  is_Some (shown (exampleCanvas [Some exampleAnswer])).
Proof.
  destruct (plan_canvas noHeader (fun _ _ => Ok tt) noHeader_ids LiveFacts.emptyGraph.2 [None; Some exampleAnswer]) as [_ H1].
  split; [apply H1; vm_compute; reflexivity|]. split; [vm_compute; reflexivity|].
  destruct (plan_canvas noHeader (fun _ _ => Ok tt) noHeader_ids LiveFacts.emptyGraph.2 [Some exampleAnswer]) as [_ H2].
  exists (LiveMarkup.graph (exampleCanvas [Some exampleAnswer])).2. apply H2. vm_compute. reflexivity.
Defined.
