(* ===== verification/JsRegex.v ===== *)
(** * Regular expressions

    The operators the console's patterns use, with their language and a matcher
    by derivatives; captured groups are modelled where they are read. *)

From S2P Require Import Prelude JsString.

Inductive regex :=
  | Nothing
  | Empty
  | Class (p : ascii -> bool)
  | Seq (r s : regex)
  | Star (r : regex).

(** [c], [r+], [r?]-free patterns of a few characters. *)
Definition Char (c : ascii) : regex := Class (Ascii.eqb c).
Definition Plus (r : regex) : regex := Seq r (Star r).

(** The pattern '.': anything but a line terminator. *)
Definition is_newline (c : ascii) : bool := Ascii.eqb c "010" || Ascii.eqb c "013".
Definition Dot : regex := Class (fun c => negb (is_newline c)).
Definition AnyString : regex := Star (Class (fun _ => true)).

(** A pattern without anchors matches a text that has a match inside. *)
Definition inside (r : regex) : regex := Seq AnyString (Seq r AnyString).

Inductive lang : regex -> string -> Prop :=
  | lang_empty : lang Empty ""
  | lang_class p c : p c = true -> lang (Class p) (String c "")
  | lang_seq r s x y : lang r x -> lang s y -> lang (Seq r s) (x ++ y)
  | lang_star_nil r : lang (Star r) ""
  | lang_star_cons r x y : lang r x -> lang (Star r) y -> lang (Star r) (x ++ y).

(** ** The matcher *)

Fixpoint nullable (r : regex) : bool :=
  match r with
  | Nothing | Class _ => false
  | Empty | Star _ => true
  | Seq r s => nullable r && nullable s
  end.

(** Derivatives; sums arise from a nullable first part. *)
Fixpoint deriv (c : ascii) (r : regex) : list regex :=
  match r with
  | Nothing | Empty => []
  | Class p => if p c then [Empty] else []
  | Seq r s => (map (fun r' => Seq r' s) (deriv c r) ++ if nullable r then deriv c s else [])%list
  | Star r => map (fun r' => Seq r' (Star r)) (deriv c r)
  end.

Fixpoint matches_any (rs : list regex) (s : string) : bool :=
  match s with
  | EmptyString => existsb nullable rs
  | String c s => matches_any (flat_map (deriv c) rs) s
  end.

Definition matches (r : regex) (s : string) : bool := matches_any [r] s.

Definition test (r : regex) (s : string) : bool := matches (inside r) s.

(** ** Correctness *)

Lemma append_nil (x y : string) : x ++ y = "" <-> x = "" /\ y = "".
Proof. destruct x, y; cbn; split; try done; by intros [? ?]. Qed.

Lemma nullable_spec r : nullable r = true <-> lang r "".
Proof.
  induction r as [| |p|r IHr s IHs|r IHr]; cbn.
  - split; [done|]. intros H. inversion H.
  - split; [intros _; constructor|done].
  - split; [done|]. intros H. inversion H.
  - rw andb_true_iff IHr IHs. split.
    + intros [H1 H2]. apply (lang_seq r s "" "" H1 H2).
    + intros H. inversion H as [| |? ? x y H1 H2 [E1 E2] E3| |]; subst. apply append_nil in E3 as [-> ->]. done.
  - split; [intros _; constructor|done].
Qed.

Lemma star_first r c s :
  lang (Star r) (String c s) ->
  exists x y, s = x ++ y /\ lang r (String c x) /\ lang (Star r) y.
Proof.
  intros H. remember (Star r) as R eqn:ER. remember (String c s) as S eqn:ES.
  revert c s ES. induction H as [| | |r'|r' x y H1 _ H2 IH]; try done; intros c s ES; injection ER as ->.
  destruct x as [|d x]; [by apply IH|]. cbn in ES. injection ES as -> <-. by exists x, y.
Qed.

Lemma deriv_spec c r s : (exists r', r' ∈ deriv c r /\ lang r' s) <-> lang r (String c s).
Proof.
  revert s. induction r as [| |p|r IHr t IHt|r IHr]; intros s; cbn.
  - split; [by intros (? & ?%elem_of_nil & _)|]. intros H. inversion H.
  - split; [by intros (? & ?%elem_of_nil & _)|]. intros H. inversion H.
  - split.
    + destruct (p c) eqn:Hp; [|by intros (? & ?%elem_of_nil & _)].
      intros (r' & ->%list_elem_of_singleton & H). inversion H. by constructor.
    + intros H. inversion H as [|? ? Hp E| | |]; subst. rw Hp. exists Empty. split; [left|constructor].
  - split.
    + intros (r' & [Hin|Hin]%elem_of_app & H).
      * apply list_elem_of_fmap in Hin as (r1 & -> & Hin).
        inversion H as [| |? ? x y H1 H2 E1 E2| |]; subst.
        apply (lang_seq r t (String c x) y); [|done]. apply IHr. by exists r1.
      * destruct (nullable r) eqn:Hn; [|by apply elem_of_nil in Hin].
        apply (lang_seq r t "" (String c s)); [by apply nullable_spec|]. apply IHt. by exists r'.
    + intros H. inversion H as [| |? ? x y H1 H2 E1 E2| |]; subst. destruct x as [|d x]; cbn in E2.
      * subst y. apply nullable_spec in H1. apply IHt in H2 as (r' & Hin & H2). exists r'.
        rw H1. split; [apply elem_of_app; by right|done].
      * injection E2 as -> <-. apply IHr in H1 as (r' & Hin & H1). exists (Seq r' t).
        split; [|by constructor]. apply elem_of_app. left. by apply (list_elem_of_fmap_2 (fun r' => Seq r' t)).
  - split.
    + intros (r' & Hin & H). apply list_elem_of_fmap in Hin as (r1 & -> & Hin).
      inversion H as [| |? ? x y H1 H2 E1 E2| |]; subst.
      apply (lang_star_cons r (String c x) y); [|done]. apply IHr. by exists r1.
    + intros (x & y & -> & H1 & H2)%star_first. apply IHr in H1 as (r' & Hin & H1).
      exists (Seq r' (Star r)). split; [|by constructor]. by apply (list_elem_of_fmap_2 (fun r' => Seq r' (Star r))).
Qed.

Lemma matches_any_spec rs s : matches_any rs s = true <-> exists r, r ∈ rs /\ lang r s.
Proof.
  revert rs. induction s as [|c s IH]; intros rs; cbn.
  - rw List.existsb_exists. setoid_rewrite nullable_spec. setoid_rewrite list_elem_of_In. done.
  - rw IH. split.
    + intros (r' & Hin & H). apply list_elem_of_In in Hin. apply in_flat_map in Hin as (r & Hr & Hin).
      exists r. split; [by apply list_elem_of_In|]. apply deriv_spec. exists r'.
      split; [by apply list_elem_of_In|done].
    + intros (r & Hr & (r' & Hin & H)%deriv_spec). exists r'. split; [|done].
      apply list_elem_of_In. apply in_flat_map. exists r. by split; apply list_elem_of_In.
Qed.

Lemma matches_spec r s : matches r s = true <-> lang r s.
Proof.
  unfold matches. rw matches_any_spec. split.
  - by intros (r' & ->%list_elem_of_singleton & H).
  - intros H. exists r. by split; [left|].
Qed.

(** ** Languages *)

Lemma lang_class_inv p s : lang (Class p) s <-> exists c, s = String c "" /\ p c = true.
Proof.
  split.
  - intros H. inversion H; subst. eauto.
  - intros (c & -> & Hp). by constructor.
Qed.

Lemma lang_seq_inv r t s : lang (Seq r t) s <-> exists x y, s = x ++ y /\ lang r x /\ lang t y.
Proof.
  split.
  - intros H. inversion H; subst. eauto.
  - intros (x & y & -> & H1 & H2). by constructor.
Qed.

Lemma lang_star_class p s : lang (Star (Class p)) s <-> all_chars p s = true.
Proof.
  split.
  - intros H. remember (Star (Class p)) as R eqn:ER. induction H as [| | |r|r x y H1 _ H2 IH]; try done.
    injection ER as ->. apply lang_class_inv in H1 as (c & -> & Hp). cbn. rw Hp. by apply IH.
  - induction s as [|c s IH]; [constructor|]. cbn. intros [Hp Hs]%andb_prop.
    apply (lang_star_cons (Class p) (String c "") s); [by constructor|by apply IH].
Qed.

Lemma any_string s : lang AnyString s.
Proof. apply lang_star_class. by induction s. Qed.

Lemma test_spec r s : test r s = true <-> exists x y z, s = x ++ y ++ z /\ lang r y.
Proof.
  unfold test, inside. rw matches_spec lang_seq_inv. setoid_rewrite lang_seq_inv. split.
  - intros (x & ? & -> & _ & y & z & -> & Hr & _). eauto.
  - intros (x & y & z & -> & Hr). exists x, (y ++ z). split; [done|split; [apply any_string|]].
    exists y, z. split; [done|split; [done|apply any_string]].
Qed.
