(* ===== verification/WorkerThreads.v ===== *)
(** * components/WorkerThreadList.jsx: the threads of a worker by group

    A snapshot of the threads is sorted into groups by the names of the threads;
    the group "All Threads" is the very array of the server's answer. *)

From S2P Require Import Prelude JsString JsRegex.

Record StackLine := { className : string; method : string; file : option string; line : string }.

#[export] Instance stackLine_eq_dec : EqDecision StackLine.
Proof. solve_decision. Defined.

Record Thread := {
  name : string;
  state : string;
  thread_id : Z;
  lockOwnerId : option string;
  stackTrace : list StackLine
}.

#[export] Instance thread_eq_dec : EqDecision Thread.
Proof. solve_decision. Defined.

Definition ALL_THREADS := "All Threads".
Definition QUERY_THREADS := "Running Queries".
Definition ALL_THREAD_STATE := "ALL".
Definition THREAD_STATES : list string :=
  [ALL_THREAD_STATE; "RUNNABLE"; "BLOCKED"; "WAITING"; "TIMED_WAITING"; "NEW"; "TERMINATED"].

Definition digits : regex := Star (Class is_digit).

(** /([0-9])*_([0-9])*_([0-9])*_.*?\.([0-9])*\.([0-9])*-([0-9])*-([0-9])*/ *)
Definition QUERY_THREAD_REGEX : regex :=
  fold_right Seq Empty
    [digits; Char "_"; digits; Char "_"; digits; Char "_"; Star Dot; Char "."; digits; Char "."; digits;
     Char "-"; digits; Char "-"; digits].

(** /(.*?)-[0-9]+/ from one start: the shortest text before a dash and a digit. *)
Fixpoint groupFrom (s : string) : option string :=
  match s with
  | EmptyString => None
  | String c r =>
      if Ascii.eqb c "-" && match r with String d _ => is_digit d | EmptyString => false end then Some ""
      else if is_newline c then None
      else match groupFrom r with Some g => Some (String c g) | None => None end
  end.

(** exec: the first start that matches. *)
Fixpoint execGroup (s : string) : option string :=
  match groupFrom s with
  | Some g => Some g
  | None => match s with EmptyString => None | String _ r => execGroup r end
  end.

Definition threadGroup (thread : Thread) : string := default (name thread) (execGroup (name thread)).

(** The properties every object inherits: [result[group]] is then not an array. *)
Definition inherited : list string :=
  ["constructor"; "__defineGetter__"; "__defineSetter__"; "hasOwnProperty"; "__lookupGetter__";
   "__lookupSetter__"; "isPrototypeOf"; "propertyIsEnumerable"; "toString"; "valueOf"; "__proto__";
   "toLocaleString"].

Notation groups := (gmap string (list Thread)).

(** [result[QUERY_THREADS].push(thread)]: nothing has created that array, unless
    a group of threads has its name. *)
Definition pushQueryThread (thread : Thread) (result : groups) : Prelude.result groups :=
  if test QUERY_THREAD_REGEX (name thread) then
    match result !! QUERY_THREADS with
    | Some ts => Ok (<[QUERY_THREADS := (ts ++ [thread])%list]> result)
    | None => Throw TypeError
    end
  else Ok result.

(** The loop over [rest], what is left of the array [threads]; a thread of a
    group "All Threads" is appended to the array itself, so that the loop may
    not end: [None] when the fuel is used up. *)
Fixpoint processLoop (fuel : nat) (rest threads : list Thread) (result : groups) :
    option (Prelude.result (list Thread * groups)) :=
  match rest with
  | [] => Some (Ok (threads, result))
  | thread :: rest =>
      match fuel with
      | O => None
      | S fuel =>
          match pushQueryThread thread result with
          | Throw e => Some (Throw e)
          | Ok result =>
              let group := threadGroup thread in
              if streq group ALL_THREADS then
                processLoop fuel (rest ++ [thread]) (threads ++ [thread]) result
              else
                match result !! group with
                | Some ts => processLoop fuel rest threads (<[group := (ts ++ [thread])%list]> result)
                | None =>
                    if bool_decide (group ∈ inherited) then Some (Throw TypeError)
                    else processLoop fuel rest threads (<[group := [thread]]> result)
                end
          end
      end
  end.

(** The groups as an object: "All Threads" and the others. *)
Definition processThreads (fuel : nat) (threads : list Thread) : option (Prelude.result groups) :=
  match processLoop fuel threads threads ∅ with
  | Some (Ok (threads, result)) => Some (Ok (<[ALL_THREADS := threads]> result))
  | Some (Throw e) => Some (Throw e)
  | None => None
  end.

(** ** The page *)

Record ThreadPage := {
  threads : option groups;
  initialized : bool;
  selectedGroup : string;
  selectedThreadState : string
}.

Definition initialPage : ThreadPage :=
  {| threads := None; initialized := false; selectedGroup := ALL_THREADS;
     selectedThreadState := ALL_THREAD_STATE |}.

(** The answer to captureSnapshot: when processThreads throws, setState is not
    reached. *)
Definition onThreads (processed : Prelude.result groups) (s : ThreadPage) : ThreadPage :=
  match processed with
  | Ok result =>
      {| threads := Some result; initialized := true; selectedGroup := selectedGroup s;
         selectedThreadState := selectedThreadState s |}
  | Throw _ => s
  end.

Definition onFailure (s : ThreadPage) : ThreadPage :=
  {| threads := threads s; initialized := true; selectedGroup := selectedGroup s;
     selectedThreadState := selectedThreadState s |}.

Definition handleGroupClick (group : string) (s : ThreadPage) : ThreadPage :=
  {| threads := threads s; initialized := initialized s; selectedGroup := group;
     selectedThreadState := selectedThreadState s |}.

Definition handleThreadStateClick (state : string) (s : ThreadPage) : ThreadPage :=
  {| threads := threads s; initialized := initialized s; selectedGroup := selectedGroup s;
     selectedThreadState := state |}.

Definition handleNewSnapshotClick (s : ThreadPage) : ThreadPage :=
  {| threads := threads s; initialized := false; selectedGroup := selectedGroup s;
     selectedThreadState := selectedThreadState s |}.

(** A group the snapshot does not have throws. *)
Definition filterThreads (group state_ : string) (s : ThreadPage) : Prelude.result (list Thread) :=
  result ← member (threads s) id;
  ts ← member (result !! group) id;
  Ok (List.filter (fun t => streq (state t) state_ || streq state_ ALL_THREAD_STATE) ts).

Inductive View :=
  | Button                              (* no snapshot yet *)
  | Message (text : string)
  | Listing (threads : list Thread).

Definition view (s : ThreadPage) : Prelude.result View :=
  match threads s with
  | None => Ok (if initialized s then Message "Thread snapshot could not be loaded" else Button)
  | Some _ =>
      filtered ← filterThreads (selectedGroup s) (selectedThreadState s) s;
      Ok (match filtered with
          | [] =>
              if streq (selectedThreadState s) ALL_THREAD_STATE then
                Message ("No threads in group '" ++ selectedGroup s ++ "'")
              else if streq (selectedGroup s) ALL_THREADS then
                Message ("No threads with state " ++ selectedThreadState s)
              else
                Message ("No threads in group '" ++ selectedGroup s ++ "' with state " ++ selectedThreadState s)
          | _ => Listing filtered
          end)
  end.

(** ** Facts *)

#[local] Arguments streq : simpl never.
#[local] Arguments test : simpl never.

Definition of_group (g : string) (ts : list Thread) : list Thread :=
  List.filter (fun t => streq (threadGroup t) g) ts.

(** A thread the loop can place. *)
Definition ordinary (t : Thread) : Prop :=
  test QUERY_THREAD_REGEX (name t) = false /\ threadGroup t <> ALL_THREADS /\ threadGroup t ∉ inherited.

(** [result] has the threads [ts] by group. *)
Definition grouped (ts : list Thread) (result : groups) : Prop :=
  forall g, result !! g = match of_group g ts with [] => None | l => Some l end.

Lemma of_group_app g ts ts' : of_group g (ts ++ ts') = (of_group g ts ++ of_group g ts')%list.
Proof. apply List.filter_app. Qed.

Lemma grouped_insert ts result t :
  grouped ts result ->
  grouped (ts ++ [t]) (<[threadGroup t := (default [] (result !! threadGroup t) ++ [t])%list]> result).
Proof.
  intros Hg g. rw of_group_app. cbn. destruct (streq_spec (threadGroup t) g) as [<-|Hne].
  - rw lookup_insert_eq Hg. by destruct (of_group (threadGroup t) ts).
  - rw lookup_insert_ne // app_nil_r. apply Hg.
Qed.

Lemma processLoop_ordinary fuel rest all done_ result :
  (length rest <= fuel)%nat -> Forall ordinary rest -> grouped done_ result ->
  exists result', processLoop fuel rest all result = Some (Ok (all, result')) /\
                  grouped (done_ ++ rest) result'.
Proof.
  revert fuel done_ result. induction rest as [|t rest IH]; intros fuel done_ result Hf Ho Hg.
  - exists result. rw app_nil_r. by destruct fuel.
  - apply Forall_cons in Ho as [(Hq & Ha & Hi) Ho]. destruct fuel as [|fuel]; [cbn in Hf; lia|]. cbn in Hf.
    cbn [processLoop]. unfold pushQueryThread. rw Hq. destruct (streq_spec (threadGroup t) ALL_THREADS); [done|].
    pose proof (grouped_insert done_ result t Hg) as Hins.
    destruct (IH fuel (done_ ++ [t])%list _ ltac:(lia) Ho Hins) as (result' & Hr & Hg').
    exists result'. rw -app_assoc in Hg'. split; [|exact Hg']. rw -Hr.
    destruct (result !! threadGroup t); [done|]. by rw bool_decide_eq_false_2.
Qed.

(** The loop over threads that can be placed, and what comes next. *)
Lemma processLoop_app fuel pre rest all done_ result :
  Forall ordinary pre -> grouped done_ result ->
  exists result', grouped (done_ ++ pre) result' /\
    processLoop (length pre + fuel) (pre ++ rest) all result = processLoop fuel rest all result'.
Proof.
  revert done_ result. induction pre as [|t pre IH]; intros done_ result Ho Hg.
  - exists result. by rw app_nil_r.
  - apply Forall_cons in Ho as [(Hq & Ha & Hi) Ho].
    pose proof (grouped_insert done_ result t Hg) as Hins.
    destruct (IH (done_ ++ [t])%list _ Ho Hins) as (result' & Hg' & Hr).
    exists result'. rw -app_assoc in Hg'. split; [exact Hg'|].
    cbn [length app Nat.add processLoop]. unfold pushQueryThread. rw Hq.
    destruct (streq_spec (threadGroup t) ALL_THREADS); [done|]. rw -Hr.
    destruct (result !! threadGroup t); [done|]. by rw bool_decide_eq_false_2.
Qed.

Lemma grouped_nil : grouped [] ∅.
Proof. intros g. apply lookup_empty. Qed.

(** The thread snapshot of a worker that runs a query cannot be shown:
    processThreads throws at the first thread of a query, because it appends to a
    list nobody has created.  On a worker without such threads every thread is in
    the group its name gives and in "All Threads", in the order of the snapshot,
    and no group is empty. *)
Theorem processThreads_groups :
  (forall threads fuel,
     Forall ordinary threads -> (length threads <= fuel)%nat ->
     exists result, processThreads fuel threads = Some (Ok result) /\
       result !! ALL_THREADS = Some threads /\
       forall g, g <> ALL_THREADS ->
         result !! g = match of_group g threads with [] => None | ts => Some ts end) /\
  (forall pre t post fuel s,
     Forall ordinary pre -> of_group QUERY_THREADS pre = [] ->
     test QUERY_THREAD_REGEX (name t) = true ->
     processThreads (length pre + S fuel) (pre ++ t :: post) = Some (Throw TypeError) /\
     onThreads (Throw TypeError) s = s).
Proof.
  split.
  - intros threads fuel Ho Hf. unfold processThreads.
    destruct (processLoop_ordinary fuel threads threads [] ∅ Hf Ho grouped_nil) as (result & -> & Hg).
    eexists. split; [reflexivity|split]; [by rw lookup_insert_eq|].
    intros g Hne. by rw lookup_insert_ne.
  - intros pre t post fuel s Ho Hq Ht. split; [|done]. unfold processThreads.
    destruct (processLoop_app (S fuel) pre (t :: post) (pre ++ t :: post) [] ∅ Ho grouped_nil)
      as (result & Hg & ->).
    cbn [processLoop]. unfold pushQueryThread. by rw Ht (Hg QUERY_THREADS) Hq.
Qed.

(** A thread of a query, and one of a pool. *)
Example query_thread :
  test QUERY_THREAD_REGEX "20210101_120000_00001_abcde.1.0-3-77" = true /\
  test QUERY_THREAD_REGEX "http-worker-25" = false /\
  threadGroup {| name := "http-worker-25"; state := "WAITING"; thread_id := 1; lockOwnerId := None; stackTrace := [] |} = "http-worker".
Proof. by repeat split; vm_compute. Qed.
