(* ===== verification/ThreadMarkup.v ===== *)
(** * The elements of the thread snapshot

    What the render methods of WorkerThreadList.jsx return, and what its copy
    buttons copy. *)

From S2P Require Import Prelude JsString Markup JsRegex WorkerThreads.

(** [threadId + index] is the sum of two numbers. *)
Definition renderStackLine (threadId : Z) (index : nat) (stackLine : StackLine) : Html :=
  el "div" ["key" =: show_Z (threadId + Z.of_nat index)]
    [txt (nbsp ++ nbsp ++ "at ");
     txt (className stackLine);
     txt ".";
     txt (method stackLine);
     txt "(";
     el "span" [cls "font-light"] [opt (file stackLine); txt ":"; txt (line stackLine)];
     txt ")"].

Definition renderThread (threadInfo : Thread) : Html :=
  el "div" ["key" =: show_Z (thread_id threadInfo)]
    [el "span" [cls "font-white"]
       [txt (name threadInfo);
        txt " ";
        txt (state threadInfo);
        txt " #";
        txt (show_Z (thread_id threadInfo));
        txt " ";
        opt (lockOwnerId threadInfo)];
     el "a" [cls "copy-button"; "data-clipboard-target" =: "#stack-trace-" ++ show_Z (thread_id threadInfo);
             "data-toggle" =: "tooltip"; "data-placement" =: "right"; "title" =: "Copy to clipboard"]
       [el "span" [cls "glyphicon glyphicon-copy"; "alt" =: "Copy to clipboard"] []];
     el "br" [] [];
     el "span" [cls "stack-traces"; "id" =: "stack-trace-" ++ show_Z (thread_id threadInfo)]
       (imap (renderStackLine (thread_id threadInfo)) (stackTrace threadInfo));
     el "div" [] [txt nbsp]].

Definition renderGroupListItem (s : ThreadPage) (group : string) : result Html :=
  ofGroup ← filterThreads group (selectedThreadState s) s;
  Ok (el "li" ["key" =: group]
      [el "a" ["href" =: "#"; cls (if streq (selectedGroup s) group then "selected" else "");
               "onClick" =>: "this.handleGroupClick.bind(this, group)"]
         [txt group;
          txt " (";
          length_child ofGroup;
          txt ")"]]).

Definition renderThreadStateListItem (s : ThreadPage) (threadState : string) : result Html :=
  ofState ← filterThreads (selectedGroup s) threadState s;
  Ok (el "li" ["key" =: threadState]
      [el "a" ["href" =: "#"; cls (if streq (selectedThreadState s) threadState then "selected" else "");
               "onClick" =>: "this.handleThreadStateClick.bind(this, threadState)"]
         [txt threadState;
          txt " (";
          length_child ofState;
          txt ")"]]).

Definition message (text : string) : Html :=
  el "div" [cls "row error-message"] [el "div" [cls "col-xs-12"] [el "h4" [] [txt text]]].

Definition capture : Html :=
  el "div" [cls "row error-message"]
    [el "div" [cls "col-xs-12"]
       [el "button" [cls "btn btn-info live-button"; "onClick" =>: "this.handleNewSnapshotClick"]
          [txt "Capture Snapshot"]]].

Definition renderToolbar (s : ThreadPage) (snapshotTime : string) (groupItems stateItems : list Html) : Html :=
  el "div" [cls "col-xs-9"]
    [el "table" [cls "header-inline-links"]
       [el "tbody" []
          [el "tr" []
             [el "td" [] [el "small" [] [txt "Snapshot at "; txt snapshotTime]; txt (nbsp ++ nbsp)];
              el "td" []
                [el "button" [cls "btn btn-info live-button"; "onClick" =>: "this.handleNewSnapshotClick"]
                   [txt "New Snapshot"];
                 txt (nbsp ++ nbsp ++ " " ++ nbsp ++ nbsp)];
              el "td" []
                [el "div" [cls "input-group-btn text-right"]
                   [el "button" ["type" =: "button"; cls "btn btn-default dropdown-toggle pull-right text-right";
                                 "data-toggle" =: "dropdown"; "aria-haspopup" =: "true"; "aria-expanded" =: "false"]
                      [el "strong" [] [txt "Group:"];
                       txt " ";
                       txt (selectedGroup s);
                       txt " ";
                       el "span" [cls "caret"] []];
                    el "ul" [cls "dropdown-menu"] groupItems]];
              el "td" []
                [el "div" [cls "input-group-btn text-right"]
                   [el "button" ["type" =: "button"; cls "btn btn-default dropdown-toggle pull-right text-right";
                                 "data-toggle" =: "dropdown"; "aria-haspopup" =: "true"; "aria-expanded" =: "false"]
                      [el "strong" [] [txt "State:"];
                       txt " ";
                       txt (selectedThreadState s);
                       txt " ";
                       el "span" [cls "caret"] []];
                    el "ul" [cls "dropdown-menu"] stateItems]]]]]].

Definition renderPage (toolbar display : Html) : Html :=
  el "div" []
    [el "div" [cls "row"]
       [el "div" [cls "col-xs-3"]
          [el "h3" []
             [txt "Thread Snapshot";
              el "a" [cls "btn copy-button"; "data-clipboard-target" =: "#stack-traces";
                      "data-toggle" =: "tooltip"; "data-placement" =: "right"; "title" =: "Copy to clipboard"]
                [el "span" [cls "glyphicon glyphicon-copy"; "alt" =: "Copy to clipboard"] []];
              txt nbsp]];
        toolbar];
     el "div" [cls "row"] [el "div" [cls "col-xs-12"] [el "hr" [cls "h3-hr"] []; display]]].

Definition renderThreads (displayedThreads : Html) : Html :=
  el "div" ["id" =: "stack-traces"] [displayedThreads].

(** [groups] is [Object.keys(threads)], in the order the object keeps them, and
    [snapshotTime] the time the snapshot was taken. *)
Definition render (groups : list string) (snapshotTime : string) (s : ThreadPage) : result Html :=
  match threads s with
  | None =>
      Ok (renderPage [] (if initialized s then message "Thread snapshot could not be loaded" else capture))
  | Some _ =>
      groupItems ← mapM_result (renderGroupListItem s) groups;
      stateItems ← mapM_result (renderThreadStateListItem s) THREAD_STATES;
      v ← view s;
      let displayedThreads :=
        match v with
        | Button => capture
        | Message text => message text
        | Listing threads => el "pre" [] (renderThread <$> threads)
        end in
      Ok (renderPage (renderToolbar s snapshotTime groupItems stateItems) (renderThreads displayedThreads))
  end.

(** ** The elements in the browser *)

Lemma wf_renderStackLine threadId index l : wellFormed "span" (renderStackLine threadId index l) = true.
Proof. unfold renderStackLine. markup. Qed.

Lemma wf_renderThread t : wellFormed "pre" (renderThread t) = true.
Proof.
  unfold renderThread. markup. apply Forall_forall. intros h Hin.
  apply elem_of_lookup_imap in Hin as (i & l & -> & _). apply wf_renderStackLine.
Qed.

Lemma wf_threadMessage text : wellFormed "div" (message text) = true.
Proof. unfold message. markup. Qed.
Lemma wf_capture : wellFormed "div" capture = true.
Proof. unfold capture. markup. Qed.
#[export] Hint Resolve wf_renderThread wf_threadMessage wf_capture : markup.

Lemma item_groups s groups items :
  mapM_result (renderGroupListItem s) groups = Ok items ->
  Forall (fun h => wellFormed "ul" h = true /\ ids h = [] /\ copyTargets h = []) items.
Proof.
  intros Hm%mapM_result_spec. eapply Forall2_Forall_r; [exact Hm|]. apply Forall_true. intros g h. unfold renderGroupListItem.
  destruct (filterThreads _ _ _) as [ofGroup|]; [|done]. cbn [mbind result_bind]. intros [= <-].
  split; [unfold length_child; markup|by split].
Qed.

Lemma state_items s states items :
  mapM_result (renderThreadStateListItem s) states = Ok items ->
  Forall (fun h => wellFormed "ul" h = true /\ ids h = [] /\ copyTargets h = []) items.
Proof.
  intros Hm%mapM_result_spec. eapply Forall2_Forall_r; [exact Hm|]. apply Forall_true. intros g h.
  unfold renderThreadStateListItem.
  destruct (filterThreads _ _ _) as [ofState|]; [|done]. cbn [mbind result_bind]. intros [= <-].
  split; [unfold length_child; markup|by split].
Qed.

Lemma items_lookups (items : list Html) :
  Forall (fun h => wellFormed "ul" h = true /\ ids h = [] /\ copyTargets h = []) items ->
  Forall (fun h => wellFormed "ul" h = true) items /\
  flat_map (attributesOf "id") items = [] /\ flat_map (attributesOf "data-clipboard-target") items = [].
Proof.
  induction 1 as [|h items (Hw & Hi & Hc) _ (IHw & IHi & IHc)]; [done|]. cbn [flat_map].
  unfold ids, copyTargets in *. rw Hi Hc IHi IHc. split; [by constructor|done].
Qed.

Definition stackId (t : Thread) : string := "stack-trace-" ++ show_Z (thread_id t).

(** The text of a stack trace, its lines one after the other. *)
Definition lineText (l : StackLine) : string :=
  nbsp ++ nbsp ++ "at " ++ className l ++ "." ++ method l ++ "(" ++ default "" (file l) ++ ":" ++ line l ++ ")".
Definition traceText (t : Thread) : string := String.concat "" (lineText <$> stackTrace t).

Lemma textContent_line threadId index l : textContent <$> renderStackLine threadId index l = [lineText l].
Proof.
  unfold renderStackLine, lineText. cbn. destruct (file l); cbn; by rw ?append_nil_r ?append_assoc.
Qed.

Lemma lines_text (f : nat -> StackLine -> Html) ls :
  (forall i l, textContent <$> f i l = [lineText l]) -> textContent <$> concat (imap f ls) = lineText <$> ls.
Proof.
  intros Hf. revert f Hf. induction ls as [|l ls IH]; intros f Hf; [done|].
  cbn. rw fmap_app Hf. apply (f_equal (cons _)). apply (IH (fun i => f (S i))). intros. apply Hf.
Qed.

Lemma renderThread_stack t :
  ids (renderThread t) = [stackId t] /\ copyTargets (renderThread t) = ["#" ++ stackId t] /\
  textContent <$> byId (stackId t) (renderThread t) = Some (traceText t).
Proof.
  set (lines := imap (renderStackLine (thread_id t)) (stackTrace t)).
  assert (forall name, name ∈ ["id"; "data-clipboard-target"] -> flat_map (attributesOf name) lines = []) as Hlines.
  { intros name Hn. assert (Forall (fun h => attributesOf name h = []) lines) as Hall.
    { apply Forall_forall. intros h (i & l & -> & _)%elem_of_lookup_imap.
      repeat (apply elem_of_cons in Hn as [->|Hn]; [unfold renderStackLine; by attributes|]). inversion Hn. }
    induction Hall as [|h hs Hh _ IH]; [done|]. cbn [flat_map]. by rw Hh IH. }
  unfold ids, copyTargets, renderThread. fold lines. split; [|split].
  - unfold br. attributes. rw Hlines; [by left|]. by destruct (lockOwnerId t).
  - unfold br. attributes. rw Hlines; [by right; left|]. by destruct (lockOwnerId t).
  - unfold br. rw byId_el. cbn [attribute List.find]. rw byId_cons. rw (byId_absent _ (el "span" [cls "font-white"] _)).
    { unfold ids. attributes. apply not_elem_of_nil. }
    cbn. unfold stackId, streq. rw String.eqb_refl. cbn. f_equal. unfold traceText. f_equal.
    subst lines. apply lines_text. intros. apply textContent_line.
Qed.

(** C21.  The page of the threads is well formed, and while it lists threads, no two
    of which have the same number, each of their copy buttons copies the stack trace
    of its own thread.  The button at the top, which is always there, copies
    nothing before there is a snapshot. *)
Theorem thread_page groups time s h :
  render groups time s = Ok h ->
  wellFormed "div" h = true /\
  (threads s = None -> copied "#stack-traces" h = None) /\
  (forall result ts, threads s = Some result -> view s = Ok (Listing ts) ->
     NoDup (stackId <$> ts) ->
     copyTargets h = "#stack-traces" :: ((fun t => "#" ++ stackId t) <$> ts) /\ NoDup (ids h) /\
     is_Some (copied "#stack-traces" h) /\
     Forall (fun t => copied ("#" ++ stackId t) h = Some (traceText t)) ts).
Proof.
  unfold render. destruct (threads s) as [result|] eqn:Ht.
  2:{ intros [= <-]. split; [unfold renderPage; destruct (initialized s); markup|]. split; [|done].
      by destruct (initialized s). }
  destruct (mapM_result _ groups) as [gi|] eqn:Hg; [|done]. cbn [mbind result_bind].
  destruct (mapM_result _ THREAD_STATES) as [si|] eqn:Hs; [|done]. cbn [mbind result_bind].
  destruct (view s) as [v|] eqn:Hv; [|done]. cbn [mbind result_bind]. intros [= <-].
  apply item_groups, items_lookups in Hg as (Hgw & Hgi & Hgc). apply state_items, items_lookups in Hs as (Hsw & Hsi & Hsc).
  split; [|split; [done|]].
  - unfold renderPage, renderToolbar, renderThreads. destruct v; markup.
  - intros result' ts _ [= ->] Hd.
    set (listing := el "pre" [] (renderThread <$> ts)).
    set (toolbar := renderToolbar s time gi si).
    assert (ids toolbar = [] /\ copyTargets toolbar = []) as [Hti Htc].
    { unfold ids, copyTargets, toolbar, renderToolbar. split; collects; rw ?Hgi ?Hsi ?Hgc ?Hsc; done. }
    assert (ids listing = stackId <$> ts /\ copyTargets listing = (fun t => "#" ++ stackId t) <$> ts) as [Hli Hlc].
    { unfold ids, copyTargets, listing. attributes. split; [apply ids_map; intros; apply renderThread_stack|].
      clear. induction ts as [|t ts IH]; [done|]. cbn [flat_map fmap list_fmap]. rw -IH.
      destruct (renderThread_stack t) as (_ & Hc & _). unfold copyTargets in Hc. by rw Hc. }
    assert (ids (renderPage toolbar (renderThreads listing)) = "stack-traces" :: (stackId <$> ts)) as Hids.
    { unfold ids, renderPage, renderThreads in *. attributes. by rw Hti Hli. }
    split; [unfold copyTargets, renderPage, renderThreads in *; attributes; by rw Htc Hlc|].
    rw Hids. split; [apply NoDup_cons; split; [|done]|split].
    + intros (t & He & _)%list_elem_of_fmap. done.
    + assert (is_Some (byId "stack-traces" (renderPage toolbar (renderThreads listing)))) as [n Hn].
      { apply byId_found. rw Hids. by left. }
      cbn [copied]. rw Hn. by eexists.
    + apply Forall_forall. intros t Hin. cbn [copied append]. change (stackId t) with (stackId t).
      destruct (renderThread_stack t) as (_ & _ & Htext). rw -Htext. f_equal.
      unfold renderPage. rw byId_into; [done|]. rw byId_skip.
      { unfold ids in *. attributes. rw Hti. apply not_elem_of_nil. }
      rw byId_one byId_into; [done|]. rw byId_one byId_into; [done|]. rw byId_skip; [apply not_elem_of_nil|].
      rw byId_one /renderThreads byId_into; [done|]. rw byId_one /listing byId_into; [done|].
      apply byId_map; [intros; apply renderThread_stack|done..].
Qed.

(** ** A snapshot *)

Definition exampleThread (n : Z) : Thread :=
  {| name := "main"; state := "RUNNABLE"; thread_id := n; lockOwnerId := None;
     stackTrace := [{| className := "C"; method := "m"; file := Some "C.java"; line := "7" |}] |}.

Definition exampleSnapshot : ThreadPage :=
  {| threads := Some {[ALL_THREADS := [exampleThread 1; exampleThread 2]]}; initialized := true;
     selectedGroup := ALL_THREADS; selectedThreadState := ALL_THREAD_STATE |}.

Definition snapshotHtml : Html := resultOr [] (render [ALL_THREADS] "12:00" exampleSnapshot).

Lemma thread_page_witness :
  Forall (fun t => copied ("#" ++ stackId t) snapshotHtml = Some (traceText t)) [exampleThread 1; exampleThread 2].
Proof.
  destruct (thread_page [ALL_THREADS] "12:00" exampleSnapshot snapshotHtml) as (_ & _ & H).
  - vm_compute. reflexivity.
  - destruct (H {[ALL_THREADS := [exampleThread 1; exampleThread 2]]} [exampleThread 1; exampleThread 2]) as (_ & _ & _ & Hc).
    + reflexivity.
    + vm_compute. reflexivity.
    + apply (bool_decide_unpack (NoDup [stackId (exampleThread 1); stackId (exampleThread 2)])). vm_compute. exact I.
    + exact Hc.
Defined.
