(* ===== verification/AddCatalog.v ===== *)
(** * queryeditor/components/AddCatalog.jsx: the form of a new catalog

    The form edits the property objects of the chosen connector in place, and
    these belong to the connector store: the objects are in a store of their own,
    referred to by place, and both the connectors and the form hold places. *)

From S2P Require Import Prelude JsString JsRegex JsMap.

(** A property of a connector, or one the user added; an absent text is [None],
    an absent mark is false. *)
Record Property := {
  name : option string;
  value : option string;
  type : option string;
  required : bool;
  description : option string;
  readOnly : bool
}.

#[export] Instance property_eq_dec : EqDecision Property.
Proof. solve_decision. Defined.

Definition place := nat.

(** A connector of the store: its links, and the fields of
    [connectorWithProperties]. *)
Record Connector := {
  docLink : string;
  configLink : string;
  connector : string;                    (* connectorName *)
  connectorLabel : string;
  propertiesEnabled : bool;
  catalogConfigFilesEnabled : bool;
  globalConfigFilesEnabled : bool;
  properties : list place
}.

Record Errors := {
  catalogNameError : option string;
  connectorNameError : option string;
  catalogPropertiesErrors : list string;
  catalogConfigErrors : list string;
  globalConfigErrors : list string;
  submissionError : option string;
  submissionSuccess : option string
}.

Definition getInitialErrors : Errors :=
  {| catalogNameError := None; connectorNameError := None; catalogPropertiesErrors := [];
     catalogConfigErrors := []; globalConfigErrors := []; submissionError := None;
     submissionSuccess := None |}.

(** The form; a configuration file is its name, [None] before one is chosen. *)
Record Form := {
  objects : list Property;               (* the property objects of the page *)
  supportedConnectors : list Connector;
  catalogName : string;
  connectorName : string;
  selectedConnector : option Connector;
  catalogProperties : list place;
  catalogConfigProperties : list (option string);
  globalConfigProperties : list (option string);
  errors : Errors
}.

(** The store and its objects stay when the form is made or reset. *)
Definition getInitialState (objects : list Property) (connectors : list Connector) : Form :=
  {| objects := objects; supportedConnectors := connectors; catalogName := ""; connectorName := "";
     selectedConnector := None; catalogProperties := []; catalogConfigProperties := [];
     globalConfigProperties := []; errors := getInitialErrors |}.

Definition handleReset (s : Form) : Form := getInitialState (objects s) (supportedConnectors s).

(** ** Validation *)

(** Letters, then letters, digits and underscores, then letters and digits: at
    least two characters. *)
Definition is_alnum (c : ascii) : bool := is_alpha c || is_digit c.
Definition is_word (c : ascii) : bool := is_alnum c || Ascii.eqb c "_".
Definition CATALOG_NAME : regex :=
  Seq (Plus (Class is_alpha)) (Seq (Star (Class is_word)) (Plus (Class is_alnum))).

Definition EMPTY_NAME := "Catalog Name cannot be empty".
Definition BAD_NAME :=
  "Catalog name must contain only alphanumeric and/or underscore(s). Must start with alphabet and end with alphanumeric character".
Definition NO_CONNECTOR := "Select a connector".
Definition EMPTY_PROPERTY := "Property name and value cannot be empty".
Definition NO_CATALOG_FILE := "Specify catalog configuration file!!".
Definition NO_GLOBAL_FILE := "Specify Global configuration file!!".

Definition nameError (catalogName : string) : option string :=
  if streq catalogName "" then Some EMPTY_NAME
  else if negb (matches CATALOG_NAME catalogName) then Some BAD_NAME
  else None.

Definition connectorError (connectorName : string) : option string :=
  if streq (trim connectorName) "" || streq connectorName "placeholder" then Some NO_CONNECTOR else None.

Definition uploaded (files : list (option string)) (file : string) : bool :=
  bool_decide (Some file ∈ files).

(** The error of one property, "" without one: the names in a property of files
    are compared as they stand between the commas. *)
Definition propertyError (s : Form) (entry : Property) : result string :=
  let name := trim <$> name entry in
  let value := trim <$> value entry in
  if bool_decide (name = Some "") || bool_decide (value = Some "") then Ok EMPTY_PROPERTY
  else if bool_decide (type entry = Some "files") then
    files ← member value (split ",");
    let missedFiles :=
      List.filter (fun file => negb (uploaded (catalogConfigProperties s) file) &&
                               negb (uploaded (globalConfigProperties s) file)) files in
    Ok (match missedFiles with
        | [] => ""
        | _ => "Following files needs to be uploaded: [" ++ join "," missedFiles ++ "]"
        end)
  else Ok "".

(** The object at a place; the form only holds places of objects. *)
Definition object_at (s : Form) (p : place) : result Property := member (objects s !! p) id.

Definition fileError (message : string) (entry : option string) : string :=
  match entry with None => message | Some _ => "" end.

Definition handleValidation (s : Form) : result (Form * bool) :=
  let catalogName := trim (catalogName s) in
  entries ← mapM_result (object_at s) (catalogProperties s);
  propertyErrors ← mapM_result (propertyError s) entries;
  let errors :=
    {| catalogNameError := nameError catalogName;
       connectorNameError := connectorError (connectorName s);
       catalogPropertiesErrors := propertyErrors;
       catalogConfigErrors := fileError NO_CATALOG_FILE <$> catalogConfigProperties s;
       globalConfigErrors := fileError NO_GLOBAL_FILE <$> globalConfigProperties s;
       submissionError := None; submissionSuccess := None |} in
  let error :=
    match catalogNameError errors with Some _ => true | None => false end ||
    match connectorNameError errors with Some _ => true | None => false end ||
    existsb (fun e => negb (streq e ""))
      (catalogPropertiesErrors errors ++ catalogConfigErrors errors ++ globalConfigErrors errors) in
  Ok ({| objects := objects s; supportedConnectors := supportedConnectors s; catalogName := catalogName;
         connectorName := connectorName s; selectedConnector := selectedConnector s;
         catalogProperties := catalogProperties s; catalogConfigProperties := catalogConfigProperties s;
         globalConfigProperties := globalConfigProperties s; errors := errors |}, negb error).

(** ** Handlers *)

Definition withErrors (e : Errors) (s : Form) : Form :=
  {| objects := objects s; supportedConnectors := supportedConnectors s; catalogName := catalogName s;
     connectorName := connectorName s; selectedConnector := selectedConnector s;
     catalogProperties := catalogProperties s; catalogConfigProperties := catalogConfigProperties s;
     globalConfigProperties := globalConfigProperties s; errors := e |}.

(** The errors with those of the properties replaced. *)
Definition propertiesErrors (l : list string) (e : Errors) : Errors :=
  {| catalogNameError := catalogNameError e; connectorNameError := connectorNameError e;
     catalogPropertiesErrors := l; catalogConfigErrors := catalogConfigErrors e;
     globalConfigErrors := globalConfigErrors e; submissionError := submissionError e;
     submissionSuccess := submissionSuccess e |}.

Definition to_lower (c : ascii) : ascii :=
  if Ascii.leb "A" c && Ascii.leb c "Z" then ascii_of_nat (nat_of_ascii c + 32) else c.
Fixpoint toLowerCase (s : string) : string :=
  match s with EmptyString => "" | String c s => String (to_lower c) (toLowerCase s) end.

Definition changeCatalogName (text : string) (s : Form) : Form :=
  let name := toLowerCase (trim text) in
  let e := errors s in
  {| objects := objects s; supportedConnectors := supportedConnectors s; catalogName := name;
     connectorName := connectorName s; selectedConnector := selectedConnector s;
     catalogProperties := catalogProperties s; catalogConfigProperties := catalogConfigProperties s;
     globalConfigProperties := globalConfigProperties s;
     errors :=
       if negb (streq name "") && negb (bool_decide (catalogNameError e = Some "")) then
         {| catalogNameError := Some ""; connectorNameError := connectorNameError e;
            catalogPropertiesErrors := catalogPropertiesErrors e; catalogConfigErrors := catalogConfigErrors e;
            globalConfigErrors := globalConfigErrors e; submissionError := submissionError e;
            submissionSuccess := submissionSuccess e |}
       else e |}.

(** The properties of the form become those of the connector: the same objects. *)
Definition takeConnector (name : string) (s : Form) (c : Connector) : Form :=
  if streq (connector c) name then
    let taken := if propertiesEnabled c then properties c else [] in
    {| objects := objects s; supportedConnectors := supportedConnectors s; catalogName := catalogName s;
       connectorName := connectorName s; selectedConnector := Some c;
       catalogProperties := (catalogProperties s ++ taken)%list;
       catalogConfigProperties := catalogConfigProperties s;
       globalConfigProperties := globalConfigProperties s;
       errors := propertiesErrors ((fun _ => "") <$> taken) (errors s) |}
  else s.

Definition changeConnector (name : string) (s : Form) : Form :=
  let e := errors s in
  let e :=
    if negb (streq name "") && negb (streq name "placeholder") &&
       match connectorNameError e with Some m => negb (streq m "") | None => false end
    then
      {| catalogNameError := catalogNameError e; connectorNameError := Some "";
         catalogPropertiesErrors := catalogPropertiesErrors e; catalogConfigErrors := catalogConfigErrors e;
         globalConfigErrors := globalConfigErrors e; submissionError := submissionError e;
         submissionSuccess := submissionSuccess e |}
    else e in
  fold_left (takeConnector name) (supportedConnectors s)
    {| objects := objects s; supportedConnectors := supportedConnectors s; catalogName := catalogName s;
       connectorName := name; selectedConnector := selectedConnector s; catalogProperties := [];
       catalogConfigProperties := catalogConfigProperties s;
       globalConfigProperties := globalConfigProperties s; errors := e |}.

Definition withProperties (objects : list Property) (ps : list place) (es : list string) (s : Form) : Form :=
  {| objects := objects; supportedConnectors := supportedConnectors s; catalogName := catalogName s;
     connectorName := connectorName s; selectedConnector := selectedConnector s; catalogProperties := ps;
     catalogConfigProperties := catalogConfigProperties s;
     globalConfigProperties := globalConfigProperties s;
     errors := propertiesErrors es (errors s) |}.

(** A new object, of the form alone. *)
Definition addProperty (s : Form) : Form :=
  withProperties (objects s ++ [{| name := Some ""; value := Some ""; type := None; required := false;
                      description := None; readOnly := false |}])
    (catalogProperties s ++ [length (objects s)]) (catalogPropertiesErrors (errors s) ++ [""]) s.

Inductive Field := NAME | VALUE.

(** The object itself is changed. *)
Definition handlePropertyChange (id : nat) (field : Field) (text : string) (s : Form) : result Form :=
  p ← member (catalogProperties s !! id) Datatypes.id;
  entry ← object_at s p;
  let entry :=
    match field with
    | NAME => {| name := Some text; value := value entry; type := type entry; required := required entry;
                 description := description entry; readOnly := readOnly entry |}
    | VALUE => {| name := name entry; value := Some text; type := type entry; required := required entry;
                  description := description entry; readOnly := readOnly entry |}
    end in
  let es := catalogPropertiesErrors (errors s) in
  Ok (withProperties (<[p := entry]> (objects s)) (catalogProperties s)
        (if negb (streq text "") then <[id := ""]> es else es) s).

(** A required property is removed only when the user confirms. *)
Definition removeProperty (idx : nat) (confirm : bool) (s : Form) : result Form :=
  match catalogProperties s !! idx with
  | None => Ok s
  | Some p =>
      entry ← object_at s p;
      if required entry && negb confirm then Ok s
      else Ok (withProperties (objects s) (delete idx (catalogProperties s))
                 (delete idx (catalogPropertiesErrors (errors s))) s)
  end.

Inductive FileKind := CATALOG_FILE | GLOBAL_FILE.

Definition filesOf (kind : FileKind) (s : Form) : list (option string) :=
  match kind with CATALOG_FILE => catalogConfigProperties s | GLOBAL_FILE => globalConfigProperties s end.

Definition fileErrorsOf (kind : FileKind) (s : Form) : list string :=
  match kind with
  | CATALOG_FILE => catalogConfigErrors (errors s)
  | GLOBAL_FILE => globalConfigErrors (errors s)
  end.

Definition withFiles (kind : FileKind) (files : list (option string)) (es : list string) (s : Form) : Form :=
  let e := errors s in
  let e :=
    {| catalogNameError := catalogNameError e; connectorNameError := connectorNameError e;
       catalogPropertiesErrors := catalogPropertiesErrors e;
       catalogConfigErrors := match kind with CATALOG_FILE => es | GLOBAL_FILE => catalogConfigErrors e end;
       globalConfigErrors := match kind with GLOBAL_FILE => es | CATALOG_FILE => globalConfigErrors e end;
       submissionError := submissionError e; submissionSuccess := submissionSuccess e |} in
  {| objects := objects s; supportedConnectors := supportedConnectors s; catalogName := catalogName s;
     connectorName := connectorName s; selectedConnector := selectedConnector s;
     catalogProperties := catalogProperties s;
     catalogConfigProperties :=
       match kind with CATALOG_FILE => files | GLOBAL_FILE => catalogConfigProperties s end;
     globalConfigProperties :=
       match kind with GLOBAL_FILE => files | CATALOG_FILE => globalConfigProperties s end;
     errors := e |}.

Definition addConfiguration (kind : FileKind) (s : Form) : Form :=
  withFiles kind (filesOf kind s ++ [None]) (fileErrorsOf kind s ++ [""]) s.

(** [files.splice(e.target.dataset.id, 1)]: without the attribute the first file
    is removed.  The errors keep their places. *)
Definition removeConfiguration (kind : FileKind) (id : option nat) (s : Form) : Form :=
  withFiles kind (delete (default 0%nat id) (filesOf kind s)) (fileErrorsOf kind s) s.

(** [l[i] = x]: past the end the array grows, with [d] for what is undefined. *)
Definition setIndex {A} (d : A) (i : nat) (x : A) (l : list A) : list A :=
  if (i <? length l)%nat then <[i := x]> l else (l ++ replicate (i - length l) d ++ [x])%list.

(** A file is chosen, or the choice is cancelled. *)
Definition handleConfigFileChange (kind : FileKind) (id : nat) (file : option string) (s : Form) : Form :=
  let es := fileErrorsOf kind s in
  withFiles kind (setIndex None id file (filesOf kind s))
    (match file with Some _ => <[id := ""]> es | None => setIndex "" id "" es end) s.

(** ** Submission *)

Record Request := {
  request_catalog : string;
  request_connector : string;
  request_properties : jsmap string (option string);
  catalogFiles : list string;
  globalFiles : list string
}.

(** The request of a form that is valid: the names and values as they were typed;
    of two properties of one name the last counts. *)
Definition formData (s : Form) (entries : list Property) : Request :=
  {| request_catalog := catalogName s;
     request_connector := connectorName s;
     request_properties :=
       fold_left (fun props row => map_set (default "undefined" (name row)) (value row) props) entries [];
     catalogFiles := omap id (catalogConfigProperties s);
     globalFiles := omap id (globalConfigProperties s) |}.

Definition handleSubmit (s : Form) : result (Form * option Request) :=
  '(s, valid) ← handleValidation s;
  if valid : bool then
    entries ← mapM_result (object_at s) (catalogProperties s);
    Ok (s, Some (formData s entries))
  else Ok (s, None).

(** The answer to the request: its result and message, and whether the page is
    told to refresh and close. *)
Definition NOT_FOUND := "Not Found (code: 404)".
Definition UNAVAILABLE :=
  "Error while adding catalog: service is not available. probably because 'catalog.dynamic-enabled' in the config.properties is set to false.".

Definition onAdded (success : bool) (message : string) (s : Form) : Form * bool :=
  let e := errors s in
  let set (err ok : option string) :=
    withErrors
      {| catalogNameError := catalogNameError e; connectorNameError := connectorNameError e;
         catalogPropertiesErrors := catalogPropertiesErrors e; catalogConfigErrors := catalogConfigErrors e;
         globalConfigErrors := globalConfigErrors e; submissionError := err; submissionSuccess := ok |} s in
  if success then
    (set (submissionError e) (Some ("Add catalog successful; Server message: " ++ message)), true)
  else if contains_str NOT_FOUND message then (set (Some UNAVAILABLE) (submissionSuccess e), false)
  else
    (set (Some ("Error while adding catalog: " ++ default "" (head (split "010" message))))
       (submissionSuccess e), false).
