(* ===== verification/AddCatalogFacts.v ===== *)
(** * The form of a new catalog: validation, shared objects

    Lemmas and properties of AddCatalog.v. *)

From S2P Require Import Prelude JsString JsRegex JsMap AddCatalog.

#[local] Arguments streq : simpl never.
#[local] Arguments matches : simpl never.

(** ** Names *)

(** A letter, then any letters, digits and underscores, then a letter or digit. *)
Definition valid_name (n : string) : Prop :=
  exists c m d, n = String c (m ++ String d "") /\ is_alpha c = true /\ is_alnum d = true /\
                all_chars is_word m = true.

Lemma alpha_word c : is_alpha c = true -> is_word c = true.
Proof. unfold is_word, is_alnum. by intros ->. Qed.

Lemma alnum_word c : is_alnum c = true -> is_word c = true.
Proof. unfold is_word. by intros ->. Qed.

Lemma plus_class_inv p s :
  lang (Plus (Class p)) s <-> exists c t, s = String c t /\ p c = true /\ all_chars p t = true.
Proof.
  unfold Plus. rw lang_seq_inv. split.
  - intros (x & y & -> & (c & -> & Hc)%lang_class_inv & Hy%lang_star_class). by exists c, y.
  - intros (c & t & -> & Hc & Ht). exists (String c ""), t.
    split; [done|split; [by apply lang_class_inv; exists c|by apply lang_star_class]].
Qed.

Lemma snoc_string c t : exists m d, String c t = m ++ String d "".
Proof.
  revert c. induction t as [|e t IH]; intros c; [by exists "", c|].
  destruct (IH e) as (m & d & ->). by exists (String c m), d.
Qed.

Lemma catalog_name_spec n : matches CATALOG_NAME n = true <-> valid_name n.
Proof.
  rw matches_spec. unfold CATALOG_NAME. rw lang_seq_inv. split.
  - intros (x & y & -> & (c & t & -> & Hc & Ht)%plus_class_inv & Hy).
    apply lang_seq_inv in Hy as (y1 & y2 & -> & Hy1%lang_star_class & (e & u & -> & He & Hu)%plus_class_inv).
    destruct (snoc_string e u) as (m & d & Hmd). exists c, (t ++ y1 ++ m), d.
    rw Hmd -!append_assoc. cbn. rw !append_assoc. split; [done|split; [done|]].
    assert (Hall : all_chars is_alnum (m ++ String d "") = true) by (rw -Hmd; cbn; by rw He Hu).
    rw all_chars_app in Hall. apply andb_prop in Hall as [Hm Hd]. cbn in Hd. rw andb_true_r in Hd.
    split; [done|]. rw !all_chars_app. rw Hy1 (all_chars_impl _ _ _ alpha_word Ht).
    by rw (all_chars_impl _ _ _ alnum_word Hm).
  - intros (c & m & d & -> & Hc & Hd & Hm). exists (String c ""), (m ++ String d "").
    split; [done|split; [apply plus_class_inv; by exists c, ""|]].
    apply lang_seq_inv. exists m, (String d "").
    split; [done|split; [by apply lang_star_class|apply plus_class_inv; by exists d, ""]].
Qed.

(** ** Properties *)

(** What validation wants of a property: a name and a value, and of files that
    each was uploaded under exactly the name given. *)
Definition acceptable (s : Form) (e : Property) : Prop :=
  trim <$> name e <> Some "" /\ trim <$> value e <> Some "" /\
  (type e = Some "files" -> forall v file, value e = Some v -> file ∈ split "," (trim v) ->
     Some file ∈ catalogConfigProperties s \/ Some file ∈ globalConfigProperties s).

Lemma join_missing files : files <> [] ->
  "Following files needs to be uploaded: [" ++ join "," files ++ "]" <> "".
Proof. done. Qed.

Lemma propertyError_spec s e m : propertyError s e = Ok m -> (m = "") <-> acceptable s e.
Proof.
  unfold propertyError, acceptable. repeat case_bool_decide; cbn [orb]; try (intros [= <-]; split; [done|tauto]).
  { destruct (value e) as [v|]; [|done]. cbn. intros [= <-].
    match goal with |- context [List.filter ?p ?l] => set (missed := List.filter p l) end.
    assert (Hm : missed = [] <-> forall file, file ∈ split "," (trim v) ->
              Some file ∈ catalogConfigProperties s \/ Some file ∈ globalConfigProperties s).
    { unfold missed. induction (split "," (trim v)) as [|f fs IH]; cbn.
      - split; [by intros _ file ?%elem_of_nil|done].
      - unfold uploaded at 1 2. destruct (decide (Some f ∈ catalogConfigProperties s)) as [Hc|Hc];
          [|destruct (decide (Some f ∈ globalConfigProperties s)) as [Hg|Hg]].
        + rw bool_decide_eq_true_2 //. cbn. rw IH. split.
          * intros Hall file [->|Hin]%elem_of_cons; [by left|by apply Hall].
          * intros Hall file Hin. apply Hall. by right.
        + rw (bool_decide_eq_false_2 (Some f ∈ catalogConfigProperties s)) //.
          rw bool_decide_eq_true_2 //. cbn. rw IH. split.
          * intros Hall file [->|Hin]%elem_of_cons; [by right|by apply Hall].
          * intros Hall file Hin. apply Hall. by right.
        + rw !bool_decide_eq_false_2 //. cbn. split; [done|]. intros Hall.
          destruct (Hall f ltac:(left)); done. }
    destruct missed as [|f fs] eqn:Hmi.
    + split; [|done]. intros _. split; [done|split; [done|]]. intros _ v' file [= <-]. by apply Hm.
    + split; [by intros ?%join_missing|]. intros (_ & _ & Hall).
      assert (f :: fs = []) by (apply Hm; intros file; by apply Hall). done. }
Qed.

Lemma existsb_errors (l : list string) :
  existsb (fun e => negb (streq e "")) l = false <-> forall e, e ∈ l -> e = "".
Proof.
  induction l as [|x l IH]; cbn; [split; [by intros _ e ?%elem_of_nil|done]|].
  destruct (streq_spec x "") as [->|Hne]; cbn.
  - rw IH. split; [intros Hall e [->|Hin]%elem_of_cons; [done|by apply Hall]|].
    intros Hall e Hin. apply Hall. by right.
  - split; [done|]. intros Hall. destruct Hne. apply Hall. by left.
Qed.

Lemma file_errors message (l : list (option string)) :
  message <> "" -> (forall e, e ∈ fileError message <$> l -> e = "") <-> None ∉ l.
Proof.
  intros Hm. split.
  - intros Hall Hin. apply Hm. apply (Hall (fileError message None)). by apply list_elem_of_fmap_2.
  - intros Hn e (x & -> & Hx)%list_elem_of_fmap. by destruct x.
Qed.

Lemma nameError_spec n :
  match nameError n with Some _ => true | None => false end = false <-> valid_name n.
Proof.
  unfold nameError. rw -catalog_name_spec. destruct (streq_spec n "") as [->|Hne].
  - split; [done|]. intros Hm. by vm_compute in Hm.
  - by destruct (matches _ _).
Qed.

Lemma connectorError_spec n :
  match connectorError n with Some _ => true | None => false end = false <->
  trim n <> "" /\ n <> "placeholder".
Proof.
  unfold connectorError. destruct (streq_spec (trim n) ""); cbn [orb];
    [|destruct (streq_spec n "placeholder")]; [split; [done|by intros [? ?]]..|tauto].
Qed.

(** The errors of the properties, one each. *)
Definition errors_at (s : Form) (ps : list place) (es : list string) : Prop :=
  Forall2 (fun p m => exists e, objects s !! p = Some e /\ ((m = "") <-> acceptable s e)) ps es.

Lemma errors_at_mapM s ps entries es :
  Forall2 (fun p e => object_at s p = Ok e) ps entries ->
  Forall2 (fun e m => propertyError s e = Ok m) entries es -> errors_at s ps es.
Proof.
  intros He. revert es. induction He as [|p e ps entries Hp _ IH]; intros es Hes.
  - inversion Hes. constructor.
  - inversion Hes as [|? m ? ms Hm Hms]; subst. constructor; [|by apply IH].
    exists e. unfold object_at in Hp. destruct (objects s !! p); [|done]. injection Hp as ->.
    split; [done|by apply propertyError_spec].
Qed.

Lemma errors_at_none s ps es :
  errors_at s ps es ->
  (forall m, m ∈ es -> m = "") <-> (forall p e, p ∈ ps -> objects s !! p = Some e -> acceptable s e).
Proof.
  intros Hf. induction Hf as [|p m ps ms (e & Hp & Hm) _ IH].
  { split; [by intros _ ? ? ?%elem_of_nil|by intros _ ? ?%elem_of_nil]. }
  split.
  - intros Hall p' e' [->|Hin]%elem_of_cons Hp'.
    + rw Hp in Hp'. injection Hp' as <-. apply Hm. apply Hall. by left.
    + apply (proj1 IH) with p'; [|done|done]. intros x Hx. apply Hall. by right.
  - intros Hall x [->|Hin]%elem_of_cons.
    + apply Hm. apply (Hall p); [by left|done].
    + apply (proj2 IH); [|done]. intros p' e' Hin'. apply Hall. by right.
Qed.

Lemma chosen_files (l : list (option string)) : None ∉ l -> Some <$> omap id l = l.
Proof.
  induction l as [|[x|] l IH]; intros Hn; [done| |by destruct Hn; left].
  cbn. f_equal. apply IH. intros Hin. apply Hn. by right.
Qed.

(** C13.  The form is submitted exactly when it is right: validation succeeds if
    and only if the trimmed name is a letter followed by letters, digits and
    underscores and ended by a letter or digit, a connector is chosen, every
    property has a name and a value and every file it names was uploaded, and no
    row of files is empty; the errors stand at the properties that are wrong;
    and a form that fails sends nothing. *)
Theorem validation_correct s s' valid :
  handleValidation s = Ok (s', valid) ->
  ((valid = true) <->
     valid_name (trim (catalogName s)) /\ trim (connectorName s) <> "" /\ connectorName s <> "placeholder" /\
     (forall p e, p ∈ catalogProperties s -> objects s !! p = Some e -> acceptable s e) /\
     None ∉ catalogConfigProperties s /\ None ∉ globalConfigProperties s) /\
  errors_at s (catalogProperties s) (catalogPropertiesErrors (errors s')) /\
  (valid = false -> handleSubmit s = Ok (s', None)) /\
  (valid = true -> exists request,
     handleSubmit s = Ok (s', Some request) /\ request_catalog request = trim (catalogName s) /\
     (Some <$> catalogFiles request) = catalogConfigProperties s).
Proof.
  intros Hv. assert (Hv' := Hv). unfold handleValidation in Hv.
  destruct (mapM_result (object_at s) (catalogProperties s)) as [entries|] eqn:He; [|done]. cbn in Hv.
  destruct (mapM_result (propertyError s) entries) as [es|] eqn:Hes; [|done]. cbn in Hv.
  injection Hv as <- <-. cbn [errors catalogPropertiesErrors].
  assert (Hentries := He). rw mapM_result_spec in He. rw mapM_result_spec in Hes.
  pose proof (errors_at_mapM s _ _ _ He Hes) as Hf.
  match goal with |- ((negb ?b = true) <-> ?P) /\ _ => assert (Hiff : negb b = true <-> P) end.
  { rw negb_true_iff !orb_false_iff existsb_errors. cbn [catalogConfigErrors globalConfigErrors].
    rw all_app !file_errors // nameError_spec connectorError_spec (errors_at_none s _ _ Hf). tauto. }
  split; [exact Hiff|split; [exact Hf|]]. unfold handleSubmit. rw Hv'. cbn [mbind result_bind].
  split; [by intros ->|]. intros Ht. rw Ht.
  match goal with |- context [mapM_result (object_at ?f) ?l] =>
    change (mapM_result (object_at f) l) with (mapM_result (object_at s) (catalogProperties s)) end.
  rw Hentries. cbn. eexists. split; [reflexivity|split; [reflexivity|]].
  cbn. apply chosen_files. apply Hiff in Ht. tauto.
Qed.

Definition example_connector : Connector :=
  {| docLink := "hive.html"; configLink := "hive.html#configuration"; connector := "hive"; connectorLabel := "Hive";
     propertiesEnabled := true; catalogConfigFilesEnabled := true; globalConfigFilesEnabled := true;
     properties := [0%nat; 1%nat] |}.

Definition example_form : Form :=
  {| objects :=
       [{| name := Some "hive.metastore.uri"; value := Some "thrift://host"; type := None; required := true;
           description := Some "Address of the metastore"; readOnly := false |};
        {| name := Some "hive.config.resources"; value := Some "core-site.xml"; type := Some "files";
           required := false; description := None; readOnly := false |}];
     supportedConnectors := [example_connector]; catalogName := " hive_1 "; connectorName := "hive";
     selectedConnector := Some example_connector; catalogProperties := [0%nat; 1%nat];
     catalogConfigProperties := [Some "core-site.xml"]; globalConfigProperties := [];
     errors := getInitialErrors |}.

Lemma validation_correct_witness :
  exists s', handleValidation example_form = Ok (s', true) /\ valid_name "hive_1" /\
    errors_at example_form [0%nat; 1%nat] (catalogPropertiesErrors (errors s')).
Proof.
  destruct (handleValidation example_form) as [[s' valid]|] eqn:Hv; [|vm_compute in Hv; discriminate].
  destruct (validation_correct example_form s' valid Hv) as (Hiff & Hf & _ & _).
  assert (valid = true) as -> by (vm_compute in Hv; congruence).
  exists s'. split; [reflexivity|split; [|exact Hf]]. apply (proj1 Hiff). reflexivity.
Defined.

(** ** Shared objects *)

Lemma takeConnector_only name s cs c :
  NoDup (connector <$> cs) -> c ∈ cs -> connector c = name -> propertiesEnabled c = true ->
  catalogProperties s = [] ->
  catalogProperties (fold_left (takeConnector name) cs s) = properties c /\
  objects (fold_left (takeConnector name) cs s) = objects s /\
  supportedConnectors (fold_left (takeConnector name) cs s) = supportedConnectors s.
Proof.
  intros Hnd Hin Hname Hen. revert s.
  assert (Hskip : forall cs s, name ∉ connector <$> cs -> fold_left (takeConnector name) cs s = s).
  { clear. induction cs as [|c cs IH]; intros s Hn; [done|]. cbn in Hn. rw not_elem_of_cons in Hn.
    destruct Hn as [Hn Hn']. cbn. unfold takeConnector at 2.
    destruct (streq_spec (connector c) name) as [Heq|]; [congruence|]. by apply IH. }
  induction cs as [|d cs IH]; intros s Hp; [by apply elem_of_nil in Hin|]. cbn in Hnd.
  apply NoDup_cons in Hnd as [Hd Hnd]. cbn [fold_left]. apply elem_of_cons in Hin as [<-|Hin].
  - rw Hskip; [by rw -Hname|]. unfold takeConnector. rw Hname streq_refl Hen. cbn. by rw Hp.
  - assert (takeConnector name s d = s) as ->; [|by apply IH]. unfold takeConnector.
    destruct (streq_spec (connector d) name) as [Heq|]; [|done]. exfalso. apply Hd. rw Heq -Hname.
    by apply list_elem_of_fmap_2.
Qed.

Lemma changeConnector_only name s c :
  NoDup (connector <$> supportedConnectors s) -> c ∈ supportedConnectors s -> connector c = name ->
  propertiesEnabled c = true ->
  catalogProperties (changeConnector name s) = properties c /\
  objects (changeConnector name s) = objects s /\
  supportedConnectors (changeConnector name s) = supportedConnectors s.
Proof.
  intros Hnd Hin Hname Hen. unfold changeConnector.
  match goal with |- context [fold_left _ ?cs ?f0] =>
    exact (takeConnector_only name f0 cs c Hnd Hin Hname Hen eq_refl) end.
Qed.

Lemma changeConnector_store name f :
  objects (changeConnector name f) = objects f /\
  supportedConnectors (changeConnector name f) = supportedConnectors f.
Proof.
  assert (forall cs f0, objects (fold_left (takeConnector name) cs f0) = objects f0 /\
            supportedConnectors (fold_left (takeConnector name) cs f0) = supportedConnectors f0) as H.
  { induction cs as [|d cs IH]; intros f0; [done|]. cbn.
    destruct (IH (takeConnector name f0 d)) as [-> ->]. unfold takeConnector. by destruct (streq _ _). }
  unfold changeConnector. match goal with |- context [fold_left _ ?cs ?f0] => exact (H cs f0) end.
Qed.

(** What is typed into a property of a connector stays in the connector:
    the form holds the connector's own objects, so that after any other choices
    of connectors and a reset of the form, choosing the connector again shows the
    edited value in place of the default, while a property the user had added is
    gone. *)
Theorem edits_survive_reset s c i p e text s2 :
  NoDup (connector <$> supportedConnectors s) -> c ∈ supportedConnectors s -> propertiesEnabled c = true ->
  properties c !! i = Some p -> objects s !! p = Some e ->
  handlePropertyChange i VALUE text (changeConnector (connector c) s) = Ok s2 ->
  forall others,
    let s3 := handleReset (fold_left (fun s name => changeConnector name s) others (addProperty s2)) in
    let s4 := changeConnector (connector c) s3 in
    catalogProperties s3 = [] /\ catalogProperties s4 = properties c /\
    exists e', objects s4 !! p = Some e' /\ value e' = Some text /\ name e' = name e.
Proof.
  intros Hnd Hin Hen Hi Hp Hc others.
  destruct (changeConnector_only (connector c) s c Hnd Hin eq_refl Hen) as (H1 & H2 & H3).
  unfold handlePropertyChange in Hc. rw H1 Hi in Hc. cbn in Hc. unfold object_at in Hc. rw H2 Hp in Hc.
  cbn in Hc. injection Hc as <-.
  set (s2 := withProperties _ _ _ _).
  assert (Hs2 : exists e', objects s2 !! p = Some e' /\ value e' = Some text /\ name e' = name e).
  { eexists. cbn. rw list_lookup_insert_eq; [by apply lookup_lt_Some in Hp|]. by split; [reflexivity|]. }
  assert (Hsup : supportedConnectors s2 = supportedConnectors s) by (cbn; exact H3).
  clearbody s2.
  assert (Hfold : forall names f, supportedConnectors f = supportedConnectors s ->
            let g := fold_left (fun s name => changeConnector name s) names f in
            objects g = objects f /\ supportedConnectors g = supportedConnectors s).
  { assert (Hone : forall name f, objects (changeConnector name f) = objects f /\
              supportedConnectors (changeConnector name f) = supportedConnectors f).
    { intros name f. apply changeConnector_store. }
    induction names as [|n names IH]; intros f Hf; [done|]. cbn. destruct (Hone n f) as [Ho Hs].
    destruct (IH (changeConnector n f)) as [IH1 IH2]; [congruence|]. split; [congruence|done]. }
  cbv zeta. set (f := fold_left _ others _).
  destruct (Hfold others (addProperty s2)) as [Hf1 Hf2]; [exact Hsup|]. fold f in Hf1, Hf2.
  split; [done|].
  destruct (changeConnector_only (connector c) (handleReset f) c) as (G1 & G2 & _);
    [by cbn; rw Hf2|by cbn; rw Hf2|done|done|]. split; [done|]. rw G2. cbn. rw Hf1. cbn.
  destruct Hs2 as (e' & He' & Hv). exists e'. split; [|done]. by apply lookup_app_l_Some.
Qed.

Lemma edits_survive_reset_witness :
  exists s2,
    handlePropertyChange 0 VALUE "thrift://other" (changeConnector "hive" example_form) = Ok s2 /\
    let s4 := changeConnector "hive" (handleReset (changeConnector "placeholder" (addProperty s2))) in
    catalogProperties s4 = [0%nat; 1%nat] /\
    exists e', objects s4 !! 0%nat = Some e' /\ value e' = Some "thrift://other".
Proof.
  eexists. split; [vm_compute; reflexivity|].
  match goal with |- let s4 := changeConnector _ (handleReset (changeConnector _ (addProperty ?s2))) in _ =>
    destruct (edits_survive_reset example_form example_connector 0 0%nat
      {| name := Some "hive.metastore.uri"; value := Some "thrift://host"; type := None; required := true;
         description := Some "Address of the metastore"; readOnly := false |}
      "thrift://other" s2) with (others := ["placeholder"]) as (_ & H1 & e' & H2 & H3 & _) end.
  - repeat constructor; by intros ?%elem_of_nil.
  - left.
  - reflexivity.
  - reflexivity.
  - reflexivity.
  - vm_compute; reflexivity.
  - split; [exact H1|]. exists e'. by split.
Defined.
