(* ===== verification/AddCatalogMarkup.v ===== *)
(** * The elements of the form of a new catalog

    What the render method of AddCatalog.jsx returns, and what the rows of
    configuration files do: the buttons of a row, and the file inputs, whose
    content only the browser has. *)

From S2P Require Import Prelude JsString Markup JsRegex JsMap AddCatalog AddCatalogFacts.

(** ** The tree

    The elements of react-bootstrap keep their names: a Button is a button with
    the attributes and children given, a FormFileInput an input of type file. *)

(** [value={value}], which may be undefined, and a boolean attribute. *)
Definition given (value : option string) : list (string * Value) :=
  match value with Some v => ["value" =: v] | None => [] end.
Definition mark (readOnly : bool) : string * Value := "readOnly" =: (if readOnly then "true" else "false").

(** [{errors[idx] != "" && <span>...</span>}] *)
Definition errorSpan (errors : list string) (idx : nat) : Html :=
  when (negb (bool_decide (errors !! idx = Some "")))
    (el "span" [cls "hetu-form-error-span"] [opt (errors !! idx)]).

Definition documentation (s : Form) : Html :=
  match selectedConnector s with
  | None =>
  el "i" [cls "fa fa-info-circle fa-form-label";
          "title" =: "Select a Data source type(Connector) and click here for more details of selected Data source type(Connector)"] []
  | Some c =>
  el "a" ["href" =: docLink c; cls "alert-link"; "target" =: "_blank"]
    [el "i" [cls "fa fa-info-circle fa-form-label"; "title" =: "Click for more details of current connector"] []]
  end.

Definition connectorOption (c : Connector) : Html :=
  el "option" ["key" =: connector c; "value" =: connector c] [txt (connectorLabel c)].

Definition describe (description : option string) : Html :=
  match description with
  | Some text =>
      if streq text "" then el "div" [style [("minWidth", "27px")]] []
      else el "Col" [style [("flexDirection", "column")]]
             [el "i" [cls "fa fa-info-circle fa-form-label"; "title" =: text] []]
  | None => el "div" [style [("minWidth", "27px")]] []
  end.

Definition propertyRow (s : Form) (idx : nat) (key : Property) : Html :=
  el "div" ["key" =: show_nat idx]
    [el "Row" [style [("display", "flex"); ("alignItems", "center")]; "key" =: "row-" ++ show_nat idx]
       [el "Col" [style [("flexDirection", "column"); ("marginRight", "10px"); ("width", "70%")]]
          [el "FormControl" (["name" =: "name"; "type" =: "text"; "data-id" =: show_nat idx; "placeholder" =: "property name"] ++
                            given (name key) ++ [mark (readOnly key); "onChange" =>: "handlePropertyChange"]) []];
        el "Col" [style [("flexDirection", "column"); ("width", "100%")]]
          [el "FormControl" (["name" =: "value"; "type" =: "text"; "data-id" =: show_nat idx; "placeholder" =: "property value"] ++
                            given (value key) ++ [mark (readOnly key); "onChange" =>: "handlePropertyChange"]) []];
        describe (description key);
        el "Col" [style [("flexDirection", "column")]]
          [el "Button" [cls "hetu-form-label-minus"; "data-id" =: show_nat idx;
                        "onClick" =>: "removeProperty " ++ show_nat idx]
             [el "i" [cls "material-icons"; "title" =: "Remove property"] [txt "remove"]]]];
     errorSpan (catalogPropertiesErrors (errors s)) idx].

(** The section of the properties, with its rows. *)
Definition propertiesPart (s : Form) (c : Connector) (rows : list Html) : Html :=
  el "div" []
    [el "Row" [style [("display", "flex"); ("alignItems", "center")]]
       [el "Col" [style [("flexDirection", "column")]]
          [el "FormLabel" [cls "hetu-form-label"] [txt "Catalog Properties"];
           el "a" ["href" =: configLink c; cls "alert-link"; "target" =: "_blank"]
             [el "i" [cls "fa fa-info-circle fa-form-label";
                      "title" =: "Click for more details of " ++ connectorName s ++ "'s configurations details"] []]];
        el "Col" [style [("flexDirection", "column")]]
          [el "Button" [cls "hetu-form-label-plus"; "onClick" =>: "addProperty"]
             [el "i" [cls "material-icons"; "title" =: "Add property"] [txt "add"]]]];
     concat rows].

(** What the two sections of files differ in. *)
Definition filesLabel (kind : FileKind) : string :=
  match kind with CATALOG_FILE => "Catalog Configuration Files" | GLOBAL_FILE => "Global Configuration Files" end.
Definition filesInfo (kind : FileKind) : string :=
  match kind with
  | CATALOG_FILE => "Catalog configuration files are private to catalog"
  | GLOBAL_FILE => "Global configuration files are shared between other connectors and only need to upload once."
  end.
Definition addButton (kind : FileKind) : string :=
  match kind with CATALOG_FILE => "add-catalogconf" | GLOBAL_FILE => "add-globalconf" end.
Definition addMethod (kind : FileKind) : string :=
  match kind with CATALOG_FILE => "addConfiguration" | GLOBAL_FILE => "addGlobalConfiguration" end.
Definition addTitle (kind : FileKind) : string :=
  match kind with CATALOG_FILE => "Add catalog file" | GLOBAL_FILE => "Add global file" end.
Definition inputName (kind : FileKind) : string :=
  match kind with CATALOG_FILE => "configfile" | GLOBAL_FILE => "global-configfile" end.
Definition removeButton (kind : FileKind) : string :=
  match kind with CATALOG_FILE => "remove-conf" | GLOBAL_FILE => "remove-globalconf" end.
Definition removeMethod (kind : FileKind) : string :=
  match kind with CATALOG_FILE => "removeConfiguration" | GLOBAL_FILE => "removeGlobalConfiguration" end.
Definition filesEnabled (kind : FileKind) (c : Connector) : bool :=
  match kind with CATALOG_FILE => catalogConfigFilesEnabled c | GLOBAL_FILE => globalConfigFilesEnabled c end.

Definition fileRow (kind : FileKind) (s : Form) (idx : nat) : Html :=
  el "div" ["key" =: show_nat idx]
    [el "Row" [style [("display", "flex"); ("alignItems", "center")]; "key" =: show_nat idx]
       [el "Col" [style [("flexDirection", "column")]]
          [el "FormFileInput" ["name" =: inputName kind; "key" =: "{idx}"; "data-id" =: show_nat idx;
                               "onChange" =>: "handleConfigFileChange"] []];
        el "Col" [style [("flexDirection", "column")]]
          [el "Button" ["name" =: removeButton kind; cls "hetu-form-label-minus"; "data-id" =: show_nat idx;
                        "onClick" =>: removeMethod kind]
             [el "i" [cls "material-icons"; "title" =: "Remove file"] [txt "remove"]]];
        match kind with
        | CATALOG_FILE => []
        | GLOBAL_FILE => el "Col" [style [("flexDirection", "column")]] []
        end];
     errorSpan (fileErrorsOf kind s) idx].

Definition filesPart (kind : FileKind) (s : Form) : Html :=
  let rows := fileRow kind s <$> seq 0 (length (filesOf kind s)) in
  el "div" []
    [el "Row" [style [("display", "flex"); ("alignItems", "center")]]
       [el "Col" [style [("flexDirection", "column")]]
          [el "FormLabel" [cls "hetu-form-label"] [txt (filesLabel kind)];
           el "i" [cls "fa fa-info-circle fa-form-label";
                   "title" =: filesInfo kind] []];
        el "Col" [style [("flexDirection", "column")]]
          [el "Button" ["name" =: addButton kind; cls "hetu-form-label-plus"; "onClick" =>: addMethod kind]
             [el "i" [cls "material-icons"; "title" =: addTitle kind] [txt "add"]]]];
     concat rows].

(** A section of files is there if the selected connector has it. *)
Definition hasFiles (kind : FileKind) (s : Form) : bool :=
  match selectedConnector s with Some c => filesEnabled kind c | None => false end.

Definition newline : string := String "010" "".
Definition NAME_RULES : string :=
  "1.Name is case insensitive" ++ newline ++ "2.Should be alphanumeric" ++ newline ++
  "3.Can contain special character underscore." ++ newline ++ "4.Max length: 100 characters".

Definition renderForm (s : Form) (propertiesPart : Html) : Html :=
  el "div" []
    [el "div" [cls "hetu-form-body";
               style [("position", "relative"); ("paddingLeft", "20px"); ("paddingRight", "20px"); ("overflowY", "auto")]]
       [el "div" [style [("paddingLeft", "20px"); ("paddingRight", "20px"); ("paddingBottom", "10px")]]
          [el "span" [cls "hetu-form-submit-success"] [opt (submissionSuccess (errors s))];
           el "span" [cls "hetu-form-submit-error"] [opt (submissionError (errors s))]];
        el "Form" []
          [el "FormGroup" []
             [el "Row" []
                [el "Col" [style [("display", "flex"); ("alignItems", "center")]]
                   [el "FormLabel" [cls "hetu-form-label"] [txt "Data Source Type"];
                    documentation s];
                 el "Col" []
                   [el "div" [style [("display", "block")]]
                      [el "Form.Control" ["as" =: "select"; "size" =: "lg"; "name" =: "connectorName";
                                          "defaultValue" =: "placeholder"; "onChange" =>: "handleChange"]
                         [el "option" ["key" =: "placeholder"; "value" =: "placeholder";
                                       "disabled" =: "true"]
                            [txt "Select a data source type"];
                          concat (connectorOption <$> supportedConnectors s)];
                       el "span" [cls "hetu-form-error-span"] [opt (connectorNameError (errors s))]]]];
              el "Row" []
                [el "Col" [style [("display", "flex"); ("alignItems", "center")]]
                   [el "FormLabel" [cls "hetu-form-label"] [txt "Catalog Name"];
                    el "i" [cls "fa fa-info-circle fa-form-label";
                            "title" =: NAME_RULES] []];
                 el "Col" []
                   [el "div" [style [("display", "block")]]
                      [el "FormControl" ["name" =: "catalogName"; "type" =: "text"; "maxLength" =: "100";
                                         style [("flexDirection", "column")]; "onChange" =>: "handleChange";
                                         "placeholder" =: "Catalog Name"; "value" =: catalogName s] [];
                       el "span" [cls "hetu-form-error-span"] [opt (catalogNameError (errors s))]]]];
              propertiesPart;
              when (hasFiles CATALOG_FILE s) (filesPart CATALOG_FILE s);
              when (hasFiles GLOBAL_FILE s) (filesPart GLOBAL_FILE s)]]];
     el "div" [cls "catalog-btn-part"]
       [el "Button" ["onClick" =>: "handleSubmit"; cls "btn btn-success btn-lg active"] [txt "Submit"];
        el "Button" ["onClick" =>: "handleClose"; cls "btn btn-lg"] [txt "Close"]]].

Definition render (s : Form) : result Html :=
  entries ← mapM_result (object_at s) (catalogProperties s);
  Ok (renderForm s
        match selectedConnector s with
        | Some c => when (propertiesEnabled c) (propertiesPart s c (imap (propertyRow s) entries))
        | None => []
        end).

(** ** Rows of files

    The state has the chosen files; what a row shows is the browser's, in the
    row's input.  React keeps the inputs of the first rows, whichever row is
    removed from the state. *)

(** [e.target.dataset.id] *)
Definition dataset (target : Node) : option nat := indexIn "data-id" target.

Record FilesPage := { form : Form; shown : FileKind -> list (option string) }.

#[export] Instance filekind_eq_dec : EqDecision FileKind.
Proof. solve_decision. Defined.

Definition inputsAfter (kind : FileKind) (s : Form) (inputs : list (option string)) : list (option string) :=
  let rows := length (filesOf kind s) in
  if hasFiles kind s then (take rows inputs ++ replicate (rows - length inputs) None)%list else [].

Definition update (s : Form) (p : FilesPage) : FilesPage :=
  {| form := s; shown := fun kind => inputsAfter kind s (shown p kind) |}.

(** A click on a button of the sections of files. *)
Definition click (kind : FileKind) (call : string) (target : Node) (p : FilesPage) : FilesPage :=
  if streq call (removeMethod kind) then update (removeConfiguration kind (dataset target) (form p)) p
  else if streq call (addMethod kind) then update (addConfiguration kind (form p)) p
  else p.

(** A file is chosen in the input of a row, or the choice is cancelled. *)
Definition choose (kind : FileKind) (i : nat) (file : option string) (p : FilesPage) : FilesPage :=
  update (handleConfigFileChange kind i file (form p))
    {| form := form p; shown := fun k => if decide (k = kind) then <[i := file]> (shown p k) else shown p k |}.

(** What the rows show is what the form will submit. *)
Definition inStep (kind : FileKind) (p : FilesPage) : Prop :=
  hasFiles kind (form p) = true /\ shown p kind = filesOf kind (form p).

(** ** Facts *)

(** The buttons of a row of files: either the button itself is clicked, which has
    the number of the row, or the icon in it, which has not. *)
Lemma row_triggers kind s i :
  (fun '(call, target) => (call, dataset target)) <$> triggers "onClick" (fileRow kind s i) =
  [(removeMethod kind, Some i); (removeMethod kind, None)].
Proof.
  unfold fileRow, errorSpan. set (e := fileErrorsOf kind s !! i).
  destruct kind; destruct (bool_decide (e = Some "")), e as [m|]; cbn -[show_nat read_digits]; by rw read_show.
Qed.

Lemma row_trigger kind s i call target :
  (call, target) ∈ triggers "onClick" (fileRow kind s i) ->
  call = removeMethod kind /\ (dataset target = Some i \/ dataset target = None).
Proof.
  intros Hin. apply (list_elem_of_fmap_2 (fun '(call, target) => (call, dataset target))) in Hin.
  rw row_triggers in Hin. apply elem_of_cons in Hin as [[= -> ->]|Hin%list_elem_of_singleton]; [by split; [|left]|].
  injection Hin as -> ->. by split; [|right].
Qed.

Lemma withFiles_files kind files es s :
  filesOf kind (withFiles kind files es s) = files /\ hasFiles kind (withFiles kind files es s) = hasFiles kind s.
Proof. by destruct kind. Qed.

Lemma update_shown kind files es s p :
  hasFiles kind s = true ->
  let p' := update (withFiles kind files es s) p in
  filesOf kind (form p') = files /\ hasFiles kind (form p') = true /\
  shown p' kind = (take (length files) (shown p kind) ++ replicate (length files - length (shown p kind)) None)%list.
Proof.
  intros Hh. cbv zeta. unfold update, inputsAfter. cbn [form shown].
  destruct (withFiles_files kind files es s) as [-> ->]. by rw Hh.
Qed.

Lemma add_in_step kind p : inStep kind p -> inStep kind (update (addConfiguration kind (form p)) p).
Proof.
  intros [Hh Hs]. unfold addConfiguration.
  destruct (update_shown kind (filesOf kind (form p) ++ [None]) (fileErrorsOf kind (form p) ++ [""]) (form p) p Hh)
    as (Hf & Hh' & Hs').
  split; [done|]. rw Hs' Hf Hs length_app Nat.add_comm. cbn [length].
  rw take_ge; [lia|]. f_equal. by replace (1 + length (filesOf kind (form p)) - length (filesOf kind (form p)))%nat with 1%nat by lia.
Qed.

Lemma choose_in_step kind i file p :
  inStep kind p -> (i < length (filesOf kind (form p)))%nat -> inStep kind (choose kind i file p).
Proof.
  intros [Hh Hs] Hi. unfold choose, handleConfigFileChange.
  set (p1 := {| form := form p; shown := _ |}).
  match goal with |- context [withFiles kind ?files ?es ?s] => destruct (update_shown kind files es s p1 Hh) as (Hf & Hh' & Hs') end.
  split; [done|]. rw Hs' Hf. subst p1. cbn [shown]. unfold setIndex. rw decide_True // Hs.
  apply Nat.ltb_lt in Hi as ->. rw length_insert take_ge; [by rw length_insert|]. rw Nat.sub_diag. apply app_nil_r.
Qed.

(** Without repetitions, leaving out one element leaves the list without its last
    if it was the last. *)
Lemma delete_is_take {A} (l : list A) d :
  NoDup l -> (d < length l)%nat -> delete d l = take (length l - 1) l <-> d = (length l - 1)%nat.
Proof.
  intros Hd Hl. split.
  - intros E. destruct (decide (d = (length l - 1)%nat)) as [|Hne]; [done|]. exfalso.
    assert (is_Some (l !! d)) as [x Hx] by (by apply lookup_lt_is_Some).
    assert (delete d l !! d = Some x) as H1 by (rw E lookup_take_lt //; lia).
    rw list_lookup_delete_ge in H1; [done|].
    by pose proof (proj1 (NoDup_alt l) Hd _ _ _ Hx H1) as ?%Nat.neq_succ_diag_r.
  - intros ->. rw delete_take_drop drop_ge; [lia|]. by rw app_nil_r.
Qed.

(** C31.  As long as rows of files are only added and files chosen in them, the
    rows show the files the form will submit.  A click on the button of row [i]
    removes file [i] from the form if it falls on the button, but the first file
    if it falls on the icon that fills it; and the row that disappears is the last
    in either case.  So after a removal the rows show what the form will submit
    only if the file removed was the last one. *)
Theorem files_in_step kind p :
  inStep kind p ->
  let files := filesOf kind (form p) in
  (forall target, inStep kind (click kind (addMethod kind) target p)) /\
  (forall i file, (i < length files)%nat -> inStep kind (choose kind i file p)) /\
  (forall i call target, (i < length files)%nat -> (call, target) ∈ triggers "onClick" (fileRow kind (form p) i) ->
     let p' := click kind call target p in
     (dataset target = Some i \/ dataset target = None) /\
     filesOf kind (form p') = delete (default 0%nat (dataset target)) files /\
     shown p' kind = take (length files - 1) (shown p kind) /\
     (NoDup files -> inStep kind p' <-> default 0%nat (dataset target) = (length files - 1)%nat)).
Proof.
  intros Hin. pose proof Hin as [Hh Hs]. cbv zeta. split; [|split].
  - intros target. unfold click. rw streq_refl. assert (streq (addMethod kind) (removeMethod kind) = false) as -> by (by destruct kind).
    by apply add_in_step.
  - intros i file Hi. by apply choose_in_step.
  - intros i call target Hi [-> Hd]%row_trigger. split; [done|]. unfold click. rw streq_refl.
    assert (default 0%nat (dataset target) < length (filesOf kind (form p)))%nat as Hlt by (destruct Hd as [-> | ->]; cbn; lia).
    unfold removeConfiguration.
    match goal with |- context [withFiles kind ?files ?es ?s] =>
      destruct (update_shown kind files es s p Hh) as (Hf & Hh' & Hs') end.
    rw Hf. rw Hs length_delete in Hs'; [by apply lookup_lt_is_Some|]. rw (_ : _ - 1 - _ = 0)%nat in Hs'; [lia|].
    rw app_nil_r in Hs'. split; [done|]. split; [by rw Hs' Hs|]. intros Hnd. rw -(delete_is_take _ _ Hnd Hlt).
    unfold inStep. rw Hf Hs' Hh'. split; [by intros [_ ->]|by intros ->].
Qed.

(** A form with two files; the icon of the second row is clicked. *)
Definition two_files : Form :=
  withFiles CATALOG_FILE [Some "core-site.xml"; Some "hdfs-site.xml"] [""; ""] example_form.

Definition two_rows : FilesPage :=
  {| form := two_files;
     shown := fun kind => match kind with CATALOG_FILE => filesOf CATALOG_FILE two_files | GLOBAL_FILE => [] end |}.

Definition icon : Node := Element "i" [cls "material-icons"; "title" =: "Remove file"] [Text "remove"].

Lemma files_in_step_witness :
  let p := click CATALOG_FILE "removeConfiguration" icon two_rows in
  filesOf CATALOG_FILE (form p) = [Some "hdfs-site.xml"] /\ shown p CATALOG_FILE = [Some "core-site.xml"] /\
  ~ inStep CATALOG_FILE p.
Proof.
  assert (inStep CATALOG_FILE two_rows) as Hin by (split; reflexivity).
  destruct (files_in_step CATALOG_FILE two_rows Hin) as (_ & _ & H).
  destruct (H 1%nat "removeConfiguration" icon) as (_ & Hf & Hs & Hi).
  - vm_compute. lia.
  - right. left.
  - split; [exact Hf|]. split; [exact Hs|]. intros Hstep.
    apply Hi in Hstep; [vm_compute in Hstep; discriminate|].
    repeat constructor; intros Hx; apply list_elem_of_singleton in Hx || inversion Hx; discriminate.
Defined.

(** ** The whole form *)

(** The buttons that remove a property carry its number in their handler, so that
    it does not matter what the click falls on. *)
Lemma property_triggers s i e :
  (fun '(call, _) => call) <$> triggers "onClick" (propertyRow s i e) =
  ["removeProperty " ++ show_nat i; "removeProperty " ++ show_nat i].
Proof.
  unfold propertyRow, errorSpan, describe, given. set (m := catalogPropertiesErrors (errors s) !! i).
  destruct (bool_decide (m = Some "")), m as [t|], (AddCatalog.description e) as [d|]; try (destruct (streq d ""));
    destruct (name e), (value e); reflexivity.
Qed.

Lemma wf_propertyRow s i e : wellFormed "div" (propertyRow s i e) = true.
Proof. unfold propertyRow, errorSpan, describe. destruct (AddCatalog.description e) as [d|]; [destruct (streq d "")|]; markup. Qed.

Lemma wf_fileRow kind s i : wellFormed "div" (fileRow kind s i) = true.
Proof. unfold fileRow, errorSpan. destruct kind; markup. Qed.

Lemma wf_filesPart kind s : wellFormed "FormGroup" (filesPart kind s) = true.
Proof.
  unfold filesPart. markup. apply wf_map. intros. apply wf_fileRow.
Qed.

Lemma form_page s h : render s = Ok h -> wellFormed "div" h = true.
Proof.
  unfold render. destruct (mapM_result _ _) as [entries|]; [|done]. cbn [mbind result_bind]. intros [= <-].
  assert (wellFormed "FormGroup" match selectedConnector s with
          | Some c => when (propertiesEnabled c) (propertiesPart s c (imap (propertyRow s) entries)) | None => [] end = true) as Hp.
  { destruct (selectedConnector s) as [c|]; [|done]. unfold propertiesPart. markup.
    apply Forall_forall. intros h (i & e & -> & _)%elem_of_lookup_imap. apply wf_propertyRow. }
  unfold renderForm, documentation, connectorOption. revert Hp. generalize (match selectedConnector s with
          | Some c => when (propertiesEnabled c) (propertiesPart s c (imap (propertyRow s) entries)) | None => [] end).
  intros part Hp. markup.
  - destruct (selectedConnector s); markup.
  - apply wf_map. intros c. markup.
  - apply wf_filesPart.
  - apply wf_filesPart.
Qed.
