(* ===== verification/QueryEditor.v ===== *)
(** * queryeditor/components/QueryEditor.jsx: the editor of queries

    The page around the Ace editor: the completions asked for while typing, the
    catalog and schema a query runs in, running, and the dialog of errors.  The
    context is one object the page hands to the query store and goes on
    assigning to, so contexts are kept by place and the store holds a place. *)

From S2P Require Import Prelude JsString Http SchemaActions Timers RunStore Stores.

Record Context := { catalog : string; schema : string }.

#[export] Instance context_eq_dec : EqDecision Context.
Proof. solve_decision. Defined.

Abbreviation place := nat (only parsing).

(** What the component keeps; [lastPollingError] is undefined at first. *)
Record Editor := {
  lastSubmissionResult : string;
  lastPollingError : option string;
  detailsShown : bool;                   (* errorDialogDetailsDisplay is "block" *)
  errorDialog : bool;
  model : list Catalog;
  currentContext : place;
  buttonState : bool;                    (* the buttons are disabled *)
  catalogs : list string;
  schemas : list string;
  query : string;
  completers : list string               (* the names the one completer offers *)
}.

Definition initialQuery : string := "select * from system.information_schema.tables;".

Definition constructor (context : place) : Editor :=
  {| lastSubmissionResult := ""; lastPollingError := None; detailsShown := false; errorDialog := false;
     model := []; currentContext := context; buttonState := false; catalogs := []; schemas := [];
     query := initialQuery; completers := [] |}.

Definition setText (q : string) (e : Editor) : Editor :=
  {| lastSubmissionResult := lastSubmissionResult e; lastPollingError := lastPollingError e;
     detailsShown := detailsShown e; errorDialog := errorDialog e; model := model e;
     currentContext := currentContext e; buttonState := buttonState e; catalogs := catalogs e;
     schemas := schemas e; query := q; completers := completers e |}.

Definition setCompletion (cs ss names : list string) (e : Editor) : Editor :=
  {| lastSubmissionResult := lastSubmissionResult e; lastPollingError := lastPollingError e;
     detailsShown := detailsShown e; errorDialog := errorDialog e; model := model e;
     currentContext := currentContext e; buttonState := buttonState e; catalogs := cs;
     schemas := ss; query := query e; completers := names |}.

Definition setContext (p : place) (e : Editor) : Editor :=
  {| lastSubmissionResult := lastSubmissionResult e; lastPollingError := lastPollingError e;
     detailsShown := detailsShown e; errorDialog := errorDialog e; model := model e;
     currentContext := p; buttonState := buttonState e; catalogs := catalogs e;
     schemas := schemas e; query := query e; completers := completers e |}.

Definition toggleButton (e : Editor) : Editor :=
  {| lastSubmissionResult := lastSubmissionResult e; lastPollingError := lastPollingError e;
     detailsShown := detailsShown e; errorDialog := errorDialog e; model := model e;
     currentContext := currentContext e; buttonState := negb (buttonState e); catalogs := catalogs e;
     schemas := schemas e; query := query e; completers := completers e |}.

Definition setErrors (result : string) (polling : option string) (shown dialog : bool) (e : Editor) : Editor :=
  {| lastSubmissionResult := result; lastPollingError := polling; detailsShown := shown;
     errorDialog := dialog; model := model e; currentContext := currentContext e;
     buttonState := buttonState e; catalogs := catalogs e; schemas := schemas e; query := query e;
     completers := completers e |}.

Definition setModel (m : list Catalog) (e : Editor) : Editor :=
  {| lastSubmissionResult := lastSubmissionResult e; lastPollingError := lastPollingError e;
     detailsShown := detailsShown e; errorDialog := errorDialog e; model := m;
     currentContext := currentContext e; buttonState := buttonState e; catalogs := catalogs e;
     schemas := schemas e; query := query e; completers := completers e |}.

(** The page, the query store's two fields, the model of the schema store and
    what was sent to be run. *)
Record World := {
  contexts : list Context;
  editor : Editor;
  selectedQuery : option string;         (* None is null or undefined *)
  sessionContext : option place;
  storeModel : list Catalog;
  results : Stores.ResultsPreviewStore.t;
  timers : Timers;
  submitted : list (string * option Context)    (* the context, where one is sent *)
}.

Definition withEditor (e : Editor) (w : World) : World :=
  {| contexts := contexts w; editor := e; selectedQuery := selectedQuery w;
     sessionContext := sessionContext w; storeModel := storeModel w; results := results w;
     timers := timers w; submitted := submitted w |}.

(** [o = {catalog, schema}], and assignments to the object at a place. *)
Definition newContext (c : Context) (w : World) : place * World :=
  (length (contexts w),
   {| contexts := (contexts w ++ [c])%list; editor := editor w; selectedQuery := selectedQuery w;
      sessionContext := sessionContext w; storeModel := storeModel w; results := results w;
      timers := timers w; submitted := submitted w |}).

Definition assignContext (p : place) (f : Context -> Context) (w : World) : World :=
  {| contexts := alter f p (contexts w); editor := editor w; selectedQuery := selectedQuery w;
     sessionContext := sessionContext w; storeModel := storeModel w; results := results w;
     timers := timers w; submitted := submitted w |}.

Definition contextAt (w : World) (p : place) : Context := default {| catalog := ""; schema := "" |} (contexts w !! p).

(** The context shown. *)
Definition context (w : World) : Context := contextAt w (currentContext (editor w)).

Definition mount (storeModel : list Catalog) (results : Stores.ResultsPreviewStore.t) : World :=
  {| contexts := [{| catalog := "system"; schema := "runtime" |}]; editor := constructor 0%nat;
     selectedQuery := None; sessionContext := None; storeModel := storeModel; results := results;
     timers := no_timers; submitted := [] |}.

(** ** Completion *)

(** [s.replace(/[\r\n]/g, "")] *)
Fixpoint removeBreaks (s : string) : string :=
  match s with
  | EmptyString => ""
  | String c s =>
      if Ascii.eqb c "013" || Ascii.eqb c "010" then removeBreaks s else String c (removeBreaks s)
  end.

(** What follows the last semicolon and the last space. *)
Definition lastWord (newValue : string) : string :=
  let value := substring newValue (last_index_of ";" newValue + 1) (strlen newValue) in
  removeBreaks (substring value (last_index_of " " value + 1) (strlen value)).

(** The catalog and the schema in front of what is being typed. *)
Definition completionContext (newValue : string) : string * string :=
  let value := lastWord newValue in
  let index := index_of "." value in
  if negb (index =? -1) then
    let catalog := substring value 0 index in
    let value := substring value (index + 1) (strlen value) in
    let next_index := index_of "." value in
    (catalog, if negb (next_index =? -1) then substring value 0 next_index else "")
  else ("", "").

(** The request a change of the text sends, with what its answer is for. *)
Inductive Ask :=
  | AskCurrent (catalog schema : string)     (* the tables of the current context *)
  | AskSchemas (catalog : string)
  | AskTables (catalog schema : string).

Definition request (a : Ask) : Request :=
  match a with
  | AskCurrent c s => fetchTable c s
  | AskSchemas c => fetchOnlySchema c
  | AskTables c s => fetchTable c s
  end.

Definition includes (l : list string) (s : string) : bool := existsb (streq s) l.

Definition ask (current : Context) (e : Editor) (newValue : string) : option Ask :=
  let '(c, s) := completionContext newValue in
  if streq c "" then Some (AskCurrent (catalog current) (schema current))
  else if streq s "" then
    if includes (catalogs e) c then Some (AskSchemas c) else None
  else if includes (catalogs e) c && includes (schemas e) s then Some (AskTables c s) else None.

Definition onChange (newValue : string) (w : World) : World * option Ask :=
  (withEditor (setText newValue (editor w)) w, ask (context w) (editor w) newValue).

Definition sql : list string := split "|"
  ("select|insert|update|delete|from|where|and|or|group|by|order|limit|offset|having|as|case|" ++
   "when|else|end|type|left|right|join|on|outer|desc|asc|union|create|table|primary|key|if|" ++
   "foreign|not|references|default|null|inner|cross|natural|database|drop|grant|" ++
   "avg|count|first|last|max|min|sum|ucase|lcase|mid|len|round|rank|now|format|coalesce|ifnull|isnull|nvl|" ++
   "money|real|number|integer|true|false").

Inductive StateType := emptyCatalog | emptySchema | emptyNeither.

Definition addCompleters (data : list string) (state : StateType) (table_data : list string) (e : Editor) :
    Editor :=
  let data_complete := (data ++ match state with emptyCatalog => sql | _ => [] end)%list in
  let data_complete :=
    fold_left (fun data_complete val =>
      if includes data_complete val then data_complete else (data_complete ++ [val])%list)
      table_data data_complete in
  setCompletion (catalogs e) (match state with emptySchema => data | _ => schemas e end) data_complete e.

(** The names an answer carries: of tables, or the schemas of a catalog. *)
Definition answered (a : Ask) (names : list string) (e : Editor) : Editor :=
  match a with
  | AskCurrent _ _ => addCompleters (catalogs e) emptyCatalog names e
  | AskSchemas _ => addCompleters names emptySchema [] e
  | AskTables _ _ => addCompleters names emptyNeither [] e
  end.

(** The answer of fetchCatalogs, when the editor was loaded. *)
Definition onload (data : list string) (e : Editor) : Editor :=
  setCompletion data (schemas e) (completers e) e.

(** ** The context *)

Section Handlers.
Context `{FindByName}.

Definition findCatalog (m : list Catalog) (name : string) : option Catalog :=
  i ← find_pos (c_name <$> m) name; m !! i.

Definition firstSchema (c : Catalog) : string :=
  match c_children c with [] => "" | s :: _ => s_name s end.

Definition pickCatalog (newCatalog : string) (w : World) : World :=
  if streq newCatalog "" then w
  else
    match findCatalog (storeModel w) newCatalog with
    | None => w
    | Some c =>
        let '(p, w) := newContext {| catalog := newCatalog; schema := firstSchema c |} w in
        withEditor (setContext p (editor w)) w
    end.

Definition pickSchema (newSchema : string) (w : World) : World :=
  let newSchema :=
    match findCatalog (model (editor w)) (catalog (context w)) with
    | None => ""
    | Some c =>
        match find_pos (s_name <$> c_children c) newSchema with
        | None => firstSchema c
        | Some _ => newSchema
        end
    end in
  assignContext (currentContext (editor w)) (fun c => {| catalog := catalog c; schema := newSchema |}) w.

Definition schemaContextHandler (w : World) : World := withEditor (setModel (storeModel w) (editor w)) w.

(** The schema store takes a new model and tells the page. *)
Definition updateSchemas (m : list Catalog) (w : World) : World :=
  schemaContextHandler
    {| contexts := contexts w; editor := editor w; selectedQuery := selectedQuery w;
       sessionContext := sessionContext w; storeModel := m; results := results w; timers := timers w;
       submitted := submitted w |}.
End Handlers.

(** ** Selecting and running *)

(** [selectedQuery.trim().charAt(selectedQuery.trim().length - 1)] *)
Fixpoint lastChar (s : string) : option ascii :=
  match s with
  | EmptyString => None
  | String c EmptyString => Some c
  | String _ s => lastChar s
  end.

Definition terminated (q : string) : string :=
  if (0 <? strlen q) && negb (bool_decide (lastChar (trim q) = Some ";"%char)) then q ++ ";" else q.

(** The listener of the query store: it runs after every action the store
    handles, not only after a selection.  Ace reports the new text through
    [onChange], which sets the same text again. *)
Definition _selectQuery (w : World) : World :=
  let w :=
    match selectedQuery w with
    | Some q => withEditor (setText (terminated q) (editor w)) w
    | None => w
    end in
  match sessionContext w with
  | Some p =>
      let w := assignContext (currentContext (editor w))
                 (fun c => {| catalog := catalog (contextAt w p); schema := schema c |}) w in
      assignContext (currentContext (editor w))
        (fun c => {| catalog := catalog c; schema := schema (contextAt w p) |}) w
  | None => w
  end.

(** QueryActions.selectQuery: the store takes both fields, then tells the page. *)
Definition selectQuery (q : option string) (p : option place) (w : World) : World :=
  _selectQuery
    {| contexts := contexts w; editor := editor w; selectedQuery := q; sessionContext := p;
       storeModel := storeModel w; results := results w; timers := timers w; submitted := submitted w |}.

(** RunActions.execute: the body of the request is written at once. *)
Definition execute (q : string) (p : option place) (w : World) : World :=
  {| contexts := contexts w; editor := editor w; selectedQuery := selectedQuery w;
     sessionContext := sessionContext w; storeModel := storeModel w; results := results w;
     timers := timers w; submitted := (submitted w ++ [(q, contextAt w <$> p)])%list |}.

Definition clearResultsPreview (w : World) : World :=
  {| contexts := contexts w; editor := editor w; selectedQuery := selectedQuery w;
     sessionContext := sessionContext w; storeModel := storeModel w;
     results := Stores.ResultsPreviewStore.onClearPreview (results w); timers := timers w;
     submitted := submitted w |}.

Definition withTimers (t : Timers) (w : World) : World :=
  {| contexts := contexts w; editor := editor w; selectedQuery := selectedQuery w;
     sessionContext := sessionContext w; storeModel := storeModel w; results := results w;
     timers := t; submitted := submitted w |}.

Definition handleRun (w : World) : World :=
  let q := query (editor w) in
  if streq q "" || streq (trim q) "" then w
  else
    let w := withEditor (toggleButton (editor w)) w in
    let w := clearResultsPreview w in
    let p := currentContext (editor w) in
    let w := selectQuery (Some q) (Some p) w in
    let w := execute q (Some p) w in
    withTimers (setTimeout 1000 (timers w)).2 w.

(** The run of a saved query (MySavedQueries.jsx): its text is put into the
    editor and submitted without a context; the button has no part in it. *)
Definition _runQuery (queryText : string) (w : World) : World :=
  execute queryText None (selectQuery (Some queryText) None w).

(** "Use as default" in the menu of a schema (SchemaTree.jsx): the store takes the
    new object, then tells the page, which also selects the query again. *)
Definition setSessionContext (c : Context) (w : World) : World :=
  let '(p, w) := newContext c w in
  _selectQuery
    {| contexts := contexts w; editor := editor w; selectedQuery := selectedQuery w; sessionContext := Some p;
       storeModel := storeModel w; results := results w; timers := timers w; submitted := submitted w |}.

(** The timer of a run fires. *)
Definition buttonTimer (id : nat) (w : World) : option World :=
  if existsb (fun t => (t.1 =? id)%nat) (armed (timers w)) then
    let w := withTimers (fire id (timers w)) w in
    Some (withEditor (toggleButton (editor w)) w)
  else None.

(** ** Errors *)

Definition errorHandler (s : CnxnMonitorStore.t) (e : Editor) : Editor :=
  if errorDialog e then e
  else
    let result := CnxnMonitorStore.lastSubmissionResult s in
    let polling := CnxnMonitorStore.lastPollingError s in
    setErrors result (Some polling) (detailsShown e) (negb (streq result "") || negb (streq polling "")) e.

(** [CnxnMonitorActions.clear()] first tells the page, whose dialog is still
    open, so that the listener changes nothing. *)
Definition closeErrorDialog (s : CnxnMonitorStore.t) (e : Editor) : CnxnMonitorStore.t * Editor :=
  let s := CnxnMonitorStore.onClear s in
  let e := errorHandler s e in
  (s, setErrors "" (Some "") false false e).

Definition errorCollapseToggle (e : Editor) : Editor :=
  setErrors (lastSubmissionResult e) (lastPollingError e) (negb (detailsShown e)) (errorDialog e) e.

(** [substr(0, delim)] *)
Definition getBriefErrorMessage (e : Editor) : string :=
  let message := if streq (lastSubmissionResult e) "" then default "undefined" (lastPollingError e)
                 else lastSubmissionResult e in
  let delim := index_of ";" message in
  if delim >? -1 then substring message 0 delim else message.

(** The header and the text of the dialog; an undefined text shows nothing. *)
Definition renderErrorInfo (e : Editor) : option (string * option string) :=
  if streq (lastSubmissionResult e) "" && bool_decide (lastPollingError e = Some "") then None
  else if negb (streq (lastSubmissionResult e) "")
  then Some ("Query submission Error", Some (lastSubmissionResult e))
  else Some ("Polling Error", lastPollingError e).

(** The options of the catalog menu, and who sees the button that kills. *)
Definition catalogOptions (e : Editor) : list string :=
  c_name <$> List.filter (fun c => match c_children c with [] => false | _ => true end) (model e).

Definition schemaOptions `{FindByName} (w : World) : list string :=
  match findCatalog (model (editor w)) (catalog (context w)) with
  | Some c => s_name <$> c_children c
  | None => []
  end.

Definition isAdminLogin (users : list string) (loginUser : string) : bool :=
  fold_left (fun isAdminLogin user => if streq user loginUser then true else isAdminLogin) users false.
