(* ===== verification/QueryEditorFacts.v ===== *)
(** * The query editor: completion, runs, the shared context

    Lemmas and properties of QueryEditor.v. *)

From S2P Require Import Prelude JsString Http SchemaActions Timers RunStore Stores QueryEditor.

#[local] Arguments streq : simpl never.

(** ** The word being typed *)

Definition afterLast (c : ascii) (s : string) : string := substring s (last_index_of c s + 1) (strlen s).

(** What stands behind a character. *)
Lemma substring_behind c a b : substring (a ++ String c b) (strlen a + 1) (strlen (a ++ String c b)) = b.
Proof.
  replace (strlen a + 1) with (strlen (a ++ String c "")) by str_lia.
  replace (a ++ String c b) with ((a ++ String c "") ++ b) by by rw append_assoc.
  apply substring_from_app.
Qed.

Lemma afterLast_none c s : no_char c s = true -> afterLast c s = s.
Proof. intros Hs. unfold afterLast. rw last_index_of_none //. exact (substring_from_app "" s). Qed.

Lemma afterLast_found c a b : no_char c b = true -> afterLast c (a ++ String c b) = b.
Proof.
  intros Hb. unfold afterLast. rw last_index_of_found //. apply substring_behind.
Qed.

(** The last [c] of a text, if it has one. *)
Lemma last_split c s : no_char c s = true \/ exists a b, s = a ++ String c b /\ no_char c b = true.
Proof.
  induction s as [|d s IH]; [by left|]. destruct IH as [Hs|(a & b & -> & Hb)].
  - destruct (Ascii.eqb_spec c d) as [->|Hd]; [right; by exists "", s|]. left. cbn.
    by rw Hs (proj2 (Ascii.eqb_neq d c) (not_eq_sym Hd)).
  - right. by exists (String d a), b.
Qed.

(** Where a word can start. *)
Inductive word_start : string -> Prop :=
  | start_text : word_start ""
  | start_statement before : word_start (before ++ ";")
  | start_space before : word_start (before ++ " ").

Lemma lastWord_spec before word :
  word_start before -> no_char ";" word = true -> no_char " " word = true ->
  lastWord (before ++ word) = removeBreaks word.
Proof.
  intros Hb Hs Hp. unfold lastWord.
  change (substring (before ++ word) (last_index_of ";" (before ++ word) + 1) (strlen (before ++ word)))
    with (afterLast ";" (before ++ word)).
  set (value := afterLast ";" (before ++ word)).
  change (substring value (last_index_of " " value + 1) (strlen value)) with (afterLast " " value).
  f_equal. subst value. destruct Hb as [|before|before]; rw ?append_assoc.
  - by rw !afterLast_none.
  - change (";" ++ word) with (String ";" word). by rw afterLast_found // afterLast_none.
  - change (" " ++ word) with (String " " word). destruct (last_split ";" before) as [Hn|(a & b & -> & Hn)].
    + rw (afterLast_none ";"); [|by rw afterLast_found]. by rw no_char_app Hn.
    + rw append_assoc. change (String ";" b ++ String " " word) with (String ";" (b ++ String " " word)).
      rw afterLast_found; [by rw no_char_app Hn|]. by rw afterLast_found.
Qed.

Lemma streq_ne s t : s <> t -> streq s t = false.
Proof. by destruct (streq_spec s t). Qed.

(** ** What is asked *)

Lemma strlen_found s : negb (strlen s =? -1) = true.
Proof. apply negb_true_iff, Z.eqb_neq. str_lia. Qed.

Lemma context_plain text : no_char "." (lastWord text) = true -> completionContext text = ("", "").
Proof. intros Hd. unfold completionContext. by rw index_of_none. Qed.

(** The word in front of a dot, and behind it. *)
Lemma context_dotted text c p :
  lastWord text = c ++ "." ++ p -> no_char "." c = true ->
  completionContext text =
    (c, if negb (index_of "." p =? -1) then substring p 0 (index_of "." p) else "").
Proof.
  intros Hw Hc. unfold completionContext. rw Hw.
  change (c ++ "." ++ p) with (c ++ String "." p). rw index_of_found //.
  rw strlen_found. cbv zeta. f_equal; [apply substring_head|].
  by rw substring_behind.
Qed.

Lemma context_two text c s r :
  lastWord text = c ++ "." ++ s ++ "." ++ r -> no_char "." c = true -> no_char "." s = true ->
  completionContext text = (c, s).
Proof.
  intros Hw Hc Hs. rw (context_dotted _ _ _ Hw Hc). change (s ++ "." ++ r) with (s ++ String "." r).
  rw index_of_found // strlen_found. by rw substring_head.
Qed.

Lemma context_one text c p :
  lastWord text = c ++ "." ++ p -> no_char "." c = true -> no_char "." p = true ->
  completionContext text = (c, "").
Proof. intros Hw Hc Hp. by rw (context_dotted _ _ _ Hw Hc) index_of_none. Qed.

(** ** What is offered *)

Lemma includes_spec l s : includes l s = true <-> s ∈ l.
Proof.
  unfold includes. rw existsb_exists. split.
  - intros (x & Hx & ->%streq_eq). by apply list_elem_of_In.
  - intros Hs. exists s. split; [by apply list_elem_of_In|apply streq_refl].
Qed.

Lemma elem_of_merged tables data x :
  x ∈ fold_left (fun acc val => if includes acc val then acc else (acc ++ [val])%list) tables data <->
  x ∈ data \/ x ∈ tables.
Proof.
  revert data. induction tables as [|t tables IH]; intros data; cbn; [rw elem_of_nil; tauto|].
  rw IH elem_of_cons. destruct (includes data t) eqn:Ht.
  - apply includes_spec in Ht. split; [tauto|]. intros [?|[->|?]]; tauto.
  - rw elem_of_snoc. tauto.
Qed.

(** C25.  Completion looks at the word being typed: the text behind the last
    semicolon and the last space, line breaks left out.  Without a dot the
    tables of the current context are asked for and offered with the catalogs
    and the keywords; behind a known catalog its schemas, and behind a known
    catalog and schema their tables, and nothing else is offered; behind an
    unknown name nothing is asked.  A line break does not end a word. *)
Theorem completion_context w before word :
  word_start before -> no_char ";" word = true -> no_char " " word = true ->
  let typed := removeBreaks word in
  let asked := (onChange (before ++ word) w).2 in
  let e := editor w in
  (no_char "." typed = true -> asked = Some (AskCurrent (catalog (context w)) (schema (context w)))) /\
  (forall c p, typed = c ++ "." ++ p -> c <> "" -> no_char "." c = true -> no_char "." p = true ->
     asked = if includes (catalogs e) c then Some (AskSchemas c) else None) /\
  (forall c s r, typed = c ++ "." ++ s ++ "." ++ r -> c <> "" -> s <> "" ->
     no_char "." c = true -> no_char "." s = true ->
     asked = if includes (catalogs e) c && includes (schemas e) s then Some (AskTables c s) else None) /\
  (forall names c s x, x ∈ completers (answered (AskCurrent c s) names e) <->
     x ∈ catalogs e \/ x ∈ sql \/ x ∈ names) /\
  (forall names c s, completers (answered (AskSchemas c) names e) = names /\
     completers (answered (AskTables c s) names e) = names).
Proof.
  intros Hb Hs Hp. cbv zeta. cbn [onChange snd]. pose proof (lastWord_spec _ _ Hb Hs Hp) as Hw.
  unfold ask. rw -Hw. split; [|split; [|split; [|split]]].
  - intros Hd. by rw (context_plain _ Hd).
  - intros c p Hd Hc Hc1 Hp1. by rw (context_one _ _ _ Hd Hc1 Hp1) (streq_ne _ _ Hc).
  - intros c s r Hd Hc Hs0 Hc1 Hs1. by rw (context_two _ _ _ _ Hd Hc1 Hs1) (streq_ne _ _ Hc) (streq_ne _ _ Hs0).
  - intros names c s x. cbn. rw elem_of_merged elem_of_app. tauto.
  - intros names c s. cbn. by rw !app_nil_r.
Qed.

(** ** The text of a selected query *)

Lemma lastChar_snoc a c : lastChar (a ++ String c "") = Some c.
Proof.
  induction a as [|d a IH]; [done|]. cbn. rw IH. by destruct a.
Qed.

Lemma trim_end_snoc a c : is_space c = false -> trim_end (a ++ String c "") = a ++ String c "".
Proof.
  intros Hc. induction a as [|d a IH]; cbn.
  - by rw Hc.
  - rw IH (streq_ne (a ++ String c "") ""); [by destruct a|]. by rw andb_false_r.
Qed.

Lemma trim_start_snoc a c :
  is_space c = false -> exists b, trim_start (a ++ String c "") = b ++ String c "".
Proof.
  intros Hc. induction a as [|d a IH]; cbn.
  - exists "". unfold trim_start. cbn. by rw Hc.
  - unfold trim_start in *. cbn. destruct (is_space d); [|by exists (String d a)].
    destruct (span is_space (a ++ String c "")). exact IH.
Qed.

(** The text ends in a semicolon, white space aside, and is the query or the
    query with one semicolon more. *)
Lemma terminated_spec q :
  q <> "" -> lastChar (trim (terminated q)) = Some ";"%char /\ (terminated q = q \/ terminated q = q ++ ";").
Proof.
  intros Hq. unfold terminated. assert ((0 <? strlen q) = true) as ->.
  { destruct q; [done|]. apply Z.ltb_lt. str_lia. }
  case_bool_decide as Hl; cbn [negb andb]; [by split; [|left]|]. split; [|by right].
  unfold trim. destruct (trim_start_snoc q ";" eq_refl) as (b & Hb).
  change ";" with (String ";" "") at 1. rw Hb trim_end_snoc //. apply lastChar_snoc.
Qed.

(** ** Runs *)

(** What can happen to the page; the run button only reacts when enabled. *)
Inductive step `{FindByName} (w : World) : World -> Prop :=
  | step_type text : step w (onChange text w).1
  | step_answer a names : step w (withEditor (answered a names (editor w)) w)
  | step_load names : step w (withEditor (onload names (editor w)) w)
  | step_catalog name : step w (pickCatalog name w)
  | step_schema name : step w (pickSchema name w)
  | step_model m : step w (updateSchemas m w)
  | step_select q c : step w (let '(p, w) := newContext c w in selectQuery q (Some p) w)
  | step_select_plain q : step w (selectQuery q None w)
  | step_store : step w (_selectQuery w)
  | step_session c : step w (setSessionContext c w)
  | step_saved queryText : step w (_runQuery queryText w)
  | step_error s : step w (withEditor (errorHandler s (editor w)) w)
  | step_close s : step w (withEditor (closeErrorDialog s (editor w)).2 w)
  | step_details : step w (withEditor (errorCollapseToggle (editor w)) w)
  | step_run : buttonState (editor w) = false -> step w (handleRun w)
  | step_timer id w' : buttonTimer id w = Some w' -> step w w'.

Inductive reachable `{FindByName} (m : list Catalog) (r : Stores.ResultsPreviewStore.t) : World -> Prop :=
  | reach_mount : reachable m r (mount m r)
  | reach_step w w' : reachable m r w -> step w w' -> reachable m r w'.

(** The button is disabled exactly while a timer is armed, of which there is
    one; the queries submitted with a context, those of the editor, are not
    blank. *)
Definition button_ok (w : World) : Prop :=
  armed (timers w) = [] /\ buttonState (editor w) = false \/
  (exists id, armed (timers w) = [(id, 1000)]) /\ buttonState (editor w) = true.

Record editor_ok (w : World) : Prop := {
  ok_button : button_ok w;
  ok_submitted : Forall (fun r => r.2 <> None -> trim r.1 <> "") (submitted w);
  ok_context : (currentContext (editor w) < length (contexts w))%nat
}.

(** A step that leaves the button, the timers and the submitted queries alone. *)
Definition same_runs (w w' : World) : Prop :=
  timers w' = timers w /\ buttonState (editor w') = buttonState (editor w) /\ submitted w' = submitted w /\
  (length (contexts w) <= length (contexts w'))%nat.

Lemma same_runs_ok w w' :
  same_runs w w' -> (currentContext (editor w') < length (contexts w'))%nat -> editor_ok w -> editor_ok w'.
Proof.
  intros (Ht & Hb & Hs & _) Hc [H1 H2 _]. split; [|by rw Hs|done]. unfold button_ok in *. by rw Ht Hb.
Qed.

Lemma selectQuery_same w :
  same_runs w (_selectQuery w) /\ currentContext (editor (_selectQuery w)) = currentContext (editor w) /\
  length (contexts (_selectQuery w)) = length (contexts w).
Proof.
  unfold _selectQuery, same_runs. destruct (selectedQuery w), (sessionContext w) eqn:Hp; cbn; rw ?Hp; cbn;
    by rw ?length_alter.
Qed.

(** Assigning an object to itself, as the page does after a run. *)
Definition copyInto (p p' : place) (l : list Context) : list Context :=
  let at_ l := default {| catalog := ""; schema := "" |} (l !! p') in
  let l := alter (fun c => {| catalog := catalog (at_ l); schema := schema c |}) p l in
  alter (fun c => {| catalog := catalog c; schema := schema (at_ l) |}) p l.

Lemma copyInto_self p l : copyInto p p l = l.
Proof.
  unfold copyInto. apply list_eq. intros i. destruct (decide (i = p)) as [->|Hi].
  - rw !list_lookup_alter_eq. by destruct (l !! p) as [[c s]|].
  - by rw !list_lookup_alter_ne.
Qed.

Lemma copyInto_other p p' l :
  (p < length l)%nat -> p <> p' -> copyInto p p' l !! p = Some (default {| catalog := ""; schema := "" |} (l !! p')).
Proof.
  intros Hp Hne. destruct (lookup_lt_is_Some_2 l p Hp) as [x Hx]. unfold copyInto.
  rw !list_lookup_alter_eq list_lookup_alter_ne // Hx. by destruct (default _ (l !! p')).
Qed.

(** A run of a query that is not blank. *)
Lemma handleRun_spec w :
  trim (query (editor w)) <> "" ->
  let w' := handleRun w in
  query (editor w') = terminated (query (editor w)) /\ contexts w' = contexts w /\
  submitted w' = (submitted w ++ [(query (editor w), Some (context w))])%list /\
  buttonState (editor w') = negb (buttonState (editor w)) /\
  armed (timers w') = ((next_id (timers w), 1000) :: armed (timers w))%list /\
  currentContext (editor w') = currentContext (editor w) /\ model (editor w') = model (editor w) /\
  storeModel w' = storeModel w /\
  sessionContext w' = Some (currentContext (editor w)) /\ selectedQuery w' = Some (query (editor w)).
Proof.
  intros Hq. cbv zeta. assert (query (editor w) <> "") as Hne by by (intros He; apply Hq; rw He).
  unfold handleRun. rw (streq_ne _ _ Hne) (streq_ne _ _ Hq). cbn [orb].
  pose proof (copyInto_self (currentContext (editor w)) (contexts w)) as Hself. unfold copyInto in Hself.
  cbn. unfold context, contextAt in *. cbn in *. rw Hself. done.
Qed.

(** A schema picked in the menu. *)
Definition pickedSchema `{FindByName} (m : list Catalog) (current : Context) (name : string) : string :=
  match findCatalog m (catalog current) with
  | None => ""
  | Some c =>
      match find_pos (s_name <$> c_children c) name with None => firstSchema c | Some _ => name end
  end.

Section Steps.
Context `{FindByName}.

(** The events that only change what is typed, shown or offered. *)
Lemma quiet_ok w e :
  editor_ok w -> buttonState e = buttonState (editor w) -> currentContext e = currentContext (editor w) ->
  editor_ok (withEditor e w).
Proof.
  intros Hok Hb Hc. apply (same_runs_ok w); [by split|cbn; rw Hc; apply Hok|done].
Qed.

Lemma select_ok w : editor_ok w -> editor_ok (_selectQuery w).
Proof.
  intros Hok. destruct (selectQuery_same w) as (Hsame & Hcur & Hlen).
  apply (same_runs_ok w); [done|rw Hcur Hlen; apply Hok|done].
Qed.

Lemma new_ok w c q : editor_ok w -> editor_ok (let '(p, w) := newContext c w in selectQuery q (Some p) w).
Proof.
  intros Hok. apply select_ok, (same_runs_ok w); [|cbn; rw length_app; pose proof (ok_context w Hok); lia|done].
  split; [done|split; [done|split; [done|cbn; rw length_app; lia]]].
Qed.

Lemma session_ok w c : editor_ok w -> editor_ok (setSessionContext c w).
Proof.
  intros Hok. unfold setSessionContext. cbn [newContext]. apply select_ok, (same_runs_ok w); [|cbn; rw length_app|done].
  - split; [done|split; [done|split; [done|cbn; rw length_app; lia]]].
  - pose proof (ok_context w Hok). lia.
Qed.

(** The run of a saved query leaves the button alone. *)
Lemma runQuery_spec w queryText :
  let w' := _runQuery queryText w in
  submitted w' = (submitted w ++ [(queryText, None)])%list /\ timers w' = timers w /\
  buttonState (editor w') = buttonState (editor w) /\ query (editor w') = terminated queryText /\
  contexts w' = contexts w /\ currentContext (editor w') = currentContext (editor w).
Proof. done. Qed.

Lemma saved_ok w queryText : editor_ok w -> editor_ok (_runQuery queryText w).
Proof.
  intros [Hb Hs Hc]. destruct (runQuery_spec w queryText) as (Hsub & Ht & Hbut & _ & Hctx & Hcur).
  split; [unfold button_ok; by rw Ht Hbut|rw Hsub; apply Forall_app; by split; [|constructor]|by rw Hcur Hctx].
Qed.

Lemma run_ok w : buttonState (editor w) = false -> editor_ok w -> editor_ok (handleRun w).
Proof.
  intros Hd Hok. destruct (decide (trim (query (editor w)) = "")) as [Hq|Hq].
  { unfold handleRun. rw Hq. by rw orb_true_r. }
  destruct (handleRun_spec w Hq) as (_ & Hctx & Hsub & Hbut & Ht & Hcur & _). destruct Hok as [Hb Hs Hc].
  split; [|rw Hsub; apply Forall_app; by split; [|constructor]|by rw Hcur Hctx].
  right. rw Hbut Hd. destruct Hb as [[Ha _]|[_ Hb]]; [|congruence]. split; [|done].
  exists (next_id (timers w)). by rw Ht Ha.
Qed.

Lemma timer_ok w w' i : buttonTimer i w = Some w' -> editor_ok w -> editor_ok w'.
Proof.
  unfold buttonTimer. destruct (existsb _ _) eqn:He; [|done]. intros [= <-] [Hb Hs Hc].
  split; [|done|done]. left. destruct Hb as [[Ha _]|[[j Ha] Hb]]; [by rw Ha in He|].
  rw Ha in He. cbn in He. rw orb_false_r in He. cbn. rw Ha Hb. cbn. by rw He.
Qed.

Lemma step_ok w w' : step w w' -> editor_ok w -> editor_ok w'.
Proof.
  intros Hst Hok. destruct Hst as [t|a ns|ns|n|n|m|q c|q| |c|q|s|s| |Hd|i w' Ht].
  - by apply quiet_ok.
  - by apply quiet_ok; [|destruct a|destruct a].
  - by apply quiet_ok.
  - unfold pickCatalog. destruct (streq n ""); [done|]. destruct (findCatalog _ _) as [c|]; [|done].
    apply (same_runs_ok w); [|cbn; rw length_app; cbn; lia|done].
    split; [done|split; [done|split; [done|cbn; rw length_app; lia]]].
  - apply (same_runs_ok w); [|cbn; rw length_alter; apply Hok|done].
    split; [done|split; [done|split; [done|cbn; by rw length_alter]]].
  - apply (same_runs_ok w); [done|apply Hok|done].
  - by apply new_ok.
  - by apply select_ok, (same_runs_ok w); [|apply Hok|].
  - by apply select_ok.
  - by apply session_ok.
  - by apply saved_ok.
  - unfold errorHandler. by apply quiet_ok; [|destruct (errorDialog (editor w))|destruct (errorDialog (editor w))].
  - unfold closeErrorDialog, errorHandler.
    by apply quiet_ok; [|destruct (errorDialog (editor w))|destruct (errorDialog (editor w))].
  - by apply quiet_ok.
  - by apply run_ok.
  - by eapply timer_ok.
Qed.

Lemma reachable_editor_ok m r w : reachable m r w -> editor_ok w.
Proof.
  induction 1 as [|w w' _ IH Hst]; [|by eapply step_ok].
  split; [by left|constructor|cbn; lia].
Qed.
End Steps.

(** ** Properties *)

(** C24.  The run button.  In every reachable state of the page it is disabled
    exactly while the one-second timer of a press is armed, at most one is, and
    firing it enables the button again, whether or not the query has come to an
    end: a press is followed by the next after a second at the earliest, but their
    runs may overlap.  A press submits the text as it stands, which is never
    blank, in the context shown, ends the text in the editor with a semicolon and
    keeps the context.  The run of a saved query submits its text at any time,
    without a context, and leaves the button, its timer and the context shown
    alone. *)
Theorem editor_runs `{FindByName} m r w :
  reachable m r w ->
  (buttonState (editor w) = true <-> armed (timers w) <> []) /\ (length (armed (timers w)) <= 1)%nat /\
  Forall (fun run => run.2 <> None -> trim run.1 <> "") (submitted w) /\
  (forall id d, (id, d) ∈ armed (timers w) -> d = 1000 /\
     exists w', buttonTimer id w = Some w' /\ buttonState (editor w') = false) /\
  (buttonState (editor w) = false -> trim (query (editor w)) <> "" ->
   let w' := handleRun w in
   submitted w' = (submitted w ++ [(query (editor w), Some (context w))])%list /\
   context w' = context w /\ buttonState (editor w') = true /\
   query (editor w') = terminated (query (editor w)) /\
   lastChar (trim (query (editor w'))) = Some ";"%char) /\
  (forall queryText,
   let w' := _runQuery queryText w in
   submitted w' = (submitted w ++ [(queryText, None)])%list /\ context w' = context w /\
   buttonState (editor w') = buttonState (editor w) /\ timers w' = timers w /\
   query (editor w') = terminated queryText).
Proof.
  intros Hr%reachable_editor_ok. assert (Hok := Hr). destruct Hr as [Hb Hs _]. split; [|split; [|split; [done|split; [|split]]]].
  - destruct Hb as [[-> ->]|[[i ->] ->]]; split; done.
  - destruct Hb as [[-> _]|[[i ->] _]]; cbn; lia.
  - intros i d Hin. destruct Hb as [[Ha _]|[[j Ha] Hb]]; rw Ha in Hin; [by apply elem_of_nil in Hin|].
    apply list_elem_of_singleton in Hin as [= -> ->]. split; [done|]. unfold buttonTimer. rw Ha. cbn.
    rw Nat.eqb_refl. eexists. split; [done|]. cbn. by rw Hb.
  - intros Hd Hq. destruct (handleRun_spec w Hq) as (Hqu & Hctx & Hsub & Hbut & _ & Hcur & _). cbv zeta.
    split; [done|]. split; [|split; [by rw Hbut Hd|split; [done|]]].
    + unfold context, contextAt. by rw Hctx Hcur.
    + rw Hqu. apply terminated_spec. intros He. apply Hq. by rw He.
  - intros queryText. cbv zeta. destruct (runQuery_spec w queryText) as (? & ? & ? & ? & Hctx & Hcur).
    split; [done|]. split; [|by repeat split]. unfold context, contextAt. by rw Hctx Hcur.
Qed.

(** A saved query is run within the second of a press. *)
Lemma editor_runs_witness :
  let e := FindRef.find_ref in
  let w := handleRun (onChange "select 1" (mount [] Stores.ResultsPreviewStore.constructor)).1 in
  armed (timers w) = [(1%nat, 1000)] /\
  (buttonState (editor w) = true <-> armed (timers w) <> []) /\
  submitted (_runQuery "show tables" w) =
    [("select 1", Some {| catalog := "system"; schema := "runtime" |}); ("show tables", None)].
Proof.
  intros e w. split; [reflexivity|].
  destruct (@editor_runs e [] Stores.ResultsPreviewStore.constructor w) as (H1 & _ & _ & _ & _ & H2).
  - apply (reach_step _ _ (onChange "select 1" (mount [] Stores.ResultsPreviewStore.constructor)).1).
    + eapply reach_step; [apply reach_mount|apply step_type].
    + by apply step_run.
  - split; [exact H1|]. destruct (H2 "show tables") as [H3 _]. rw H3. reflexivity.
Defined.

Lemma completion_context_witness :
  let w := mount [] Stores.ResultsPreviewStore.constructor in
  let w := withEditor (onload ["hive"] (editor w)) w in
  (onChange ("select * from " ++ "hive.d") w).2 = Some (AskSchemas "hive").
Proof.
  intros m w.
  destruct (completion_context w "select * from " "hive.d" (start_space "select * from") eq_refl eq_refl)
    as (_ & Hone & _).
  by apply (Hone "hive" "d").
Defined.

(** The query store and the page share the context of a run: after a run,
    whatever is typed, the next event of the query store (a saved query that is
    added or deleted, say) puts the text that was run back into the editor; a
    schema picked after the run stays, since it is assigned to the shared
    object, while a catalog picked after it is lost, since it makes a new
    object, and the context of the run returns. *)
Theorem edits_overwritten `{FindByName} w text :
  trim (query (editor w)) <> "" -> (currentContext (editor w) < length (contexts w))%nat ->
  let typed := (onChange text (handleRun w)).1 in
  query (editor typed) = text /\ context typed = context w /\
  query (editor (_selectQuery typed)) = terminated (query (editor w)) /\
  (forall s, let picked := pickSchema s typed in
     context picked = {| catalog := catalog (context w);
                         schema := pickedSchema (model (editor w)) (context w) s |} /\
     query (editor (_selectQuery picked)) = terminated (query (editor w)) /\
     context (_selectQuery picked) = context picked) /\
  (forall c cat, c <> "" -> findCatalog (storeModel w) c = Some cat ->
     let picked := pickCatalog c typed in
     context picked = {| catalog := c; schema := firstSchema cat |} /\
     query (editor (_selectQuery picked)) = terminated (query (editor w)) /\
     context (_selectQuery picked) = context w).
Proof.
  intros Hq Hc. destruct (handleRun_spec w Hq) as (_ & Hctx & _ & _ & _ & Hcur & Hmod & Hst & Hses & Hsel).
  cbv zeta. cbn [onChange fst]. set (w1 := handleRun w) in *. clearbody w1.
  assert (context w1 = context w) as Hcw by by (unfold context, contextAt; rw Hctx Hcur).
  split; [done|]. split; [done|]. split; [by unfold _selectQuery; cbn; rw Hsel Hses|]. split.
  - intros s. unfold pickedSchema. rw -Hmod -Hcw. unfold pickSchema. cbn [editor withEditor setText model].
    change (context (withEditor (setText text (editor w1)) w1)) with (context w1).
    set (picked := match findCatalog _ _ with Some _ => _ | None => _ end). clearbody picked.
    unfold _selectQuery. cbn. rw Hsel Hses Hcur. cbn. unfold context, contextAt. cbn. rw Hctx Hcur.
    destruct (lookup_lt_is_Some_2 _ _ Hc) as [x Hx].
    split; [rw !list_lookup_alter_eq Hx; done|split; [done|]].
    fold (copyInto (currentContext (editor w)) (currentContext (editor w))
            (alter (fun c => {| catalog := catalog c; schema := picked |}) (currentContext (editor w)) (contexts w))).
    by rw copyInto_self.
  - intros c cat Hne Hf. unfold pickCatalog. rw (streq_ne _ _ Hne). cbn [storeModel withEditor]. rw Hst Hf.
    unfold _selectQuery. cbn. rw Hsel Hses. cbn. unfold context, contextAt. cbn. rw Hctx.
    rw list_lookup_middle //. split; [done|split; [done|]].
    fold (copyInto (length (contexts w)) (currentContext (editor w)) (contexts w ++ [{| catalog := c; schema := firstSchema cat |}])%list).
    rw copyInto_other; [rw length_app; cbn; lia|lia|]. cbn. by rw lookup_app_l.
Qed.

Lemma edits_overwritten_witness :
  let e := FindRef.find_ref in
  let hive := {| c_name := "hive"; c_fqn := ""; c_children := [newSchema "hive" "default"] |} in
  let w := (onChange "select 1" (mount [hive] Stores.ResultsPreviewStore.constructor)).1 in
  let picked := @pickCatalog e "hive" (onChange "select 2" (handleRun w)).1 in
  context picked = {| catalog := "hive"; schema := "default" |} /\
  query (editor (_selectQuery picked)) = "select 1;" /\
  context (_selectQuery picked) = {| catalog := "system"; schema := "runtime" |}.
Proof.
  intros e hive w picked.
  assert (H1 : trim (query (editor w)) <> "") by done.
  assert (H2 : (currentContext (editor w) < length (contexts w))%nat) by (cbn; lia).
  destruct (@edits_overwritten e w "select 2" H1 H2) as (_ & _ & _ & _ & Hpick).
  exact (Hpick "hive" hive ltac:(done) eq_refl).
Defined.
