(* ===== verification/AuditLog.v ===== *)
(** * components/AuditLog.jsx: the audit log

    The filters of the log are typed in or chosen, and after a pause the log is
    asked for if they changed since the last request.  The page has three ways
    of running [refreshData] later: the refresh timer, lodash's [debounce] of
    the search (one waiting call at most) and its [defer]. *)

From stdpp Require Import relations.
From S2P Require Import Prelude JsString JsNumber Http Timers.

(** The five filters; [flag] keeps those of the last request. *)
Record Filters := {
  searchStringUser : string;
  searchStringBeginTime : string;
  searchStringEndTime : string;
  searchStringLogLevel : string;
  searchStringType : string
}.

#[export] Instance filters_eq_dec : EqDecision Filters.
Proof. solve_decision. Defined.

(** The state of the component; the log is [{}], here [None], at first. *)
Record LogPage := {
  user : string;
  auditlog : option (list string);
  total : Z;
  filters : Filters;
  searchStringDate : string;
  currentPage : Z;
  pageSize : Z;
  tableWidth : num;
  tableHeight : num;
  dateRangePickerPattern : string;
  flag : Filters
}.

Definition initialFilters : Filters :=
  {| searchStringUser := ""; searchStringBeginTime := ""; searchStringEndTime := "";
     searchStringLogLevel := "INFO"; searchStringType := "Sql" |}.

Definition initialFlag : Filters :=
  {| searchStringUser := ""; searchStringBeginTime := ""; searchStringEndTime := "";
     searchStringLogLevel := ""; searchStringType := "" |}.

Definition initialPage : LogPage :=
  {| user := ""; auditlog := None; total := 0; filters := initialFilters; searchStringDate := "";
     currentPage := 1; pageSize := 10; tableWidth := of_Z 400; tableHeight := of_Z 400;
     dateRangePickerPattern := ""; flag := initialFlag |}.

Definition withUser (u : string) (s : LogPage) : LogPage :=
  {| user := u; auditlog := auditlog s; total := total s; filters := filters s;
     searchStringDate := searchStringDate s; currentPage := currentPage s; pageSize := pageSize s;
     tableWidth := tableWidth s; tableHeight := tableHeight s;
     dateRangePickerPattern := dateRangePickerPattern s; flag := flag s |}.

Definition withPattern (pattern : string) (s : LogPage) : LogPage :=
  {| user := user s; auditlog := auditlog s; total := total s; filters := filters s;
     searchStringDate := searchStringDate s; currentPage := currentPage s; pageSize := pageSize s;
     tableWidth := tableWidth s; tableHeight := tableHeight s; dateRangePickerPattern := pattern;
     flag := flag s |}.

Definition withLog (data : list string) (s : LogPage) : LogPage :=
  {| user := user s; auditlog := Some data; total := Z.of_nat (length data); filters := filters s;
     searchStringDate := searchStringDate s; currentPage := currentPage s; pageSize := pageSize s;
     tableWidth := tableWidth s; tableHeight := tableHeight s;
     dateRangePickerPattern := dateRangePickerPattern s; flag := flag s |}.

Definition withFlag (f : Filters) (s : LogPage) : LogPage :=
  {| user := user s; auditlog := auditlog s; total := total s; filters := filters s;
     searchStringDate := searchStringDate s; currentPage := currentPage s; pageSize := pageSize s;
     tableWidth := tableWidth s; tableHeight := tableHeight s;
     dateRangePickerPattern := dateRangePickerPattern s; flag := f |}.

Definition withSearch (f : Filters) (date : string) (page : Z) (s : LogPage) : LogPage :=
  {| user := user s; auditlog := auditlog s; total := total s; filters := f; searchStringDate := date;
     currentPage := page; pageSize := pageSize s; tableWidth := tableWidth s;
     tableHeight := tableHeight s; dateRangePickerPattern := dateRangePickerPattern s; flag := flag s |}.

Definition withPaging (page size : Z) (s : LogPage) : LogPage :=
  {| user := user s; auditlog := auditlog s; total := total s; filters := filters s;
     searchStringDate := searchStringDate s; currentPage := page; pageSize := size;
     tableWidth := tableWidth s; tableHeight := tableHeight s;
     dateRangePickerPattern := dateRangePickerPattern s; flag := flag s |}.

Definition withSize (width height : num) (s : LogPage) : LogPage :=
  {| user := user s; auditlog := auditlog s; total := total s; filters := filters s;
     searchStringDate := searchStringDate s; currentPage := currentPage s; pageSize := pageSize s;
     tableWidth := width; tableHeight := height;
     dateRangePickerPattern := dateRangePickerPattern s; flag := flag s |}.

(** The page with what is under way: the log requests sent and not answered,
    the two requests of componentDidMount, the refresh timer, the waiting call
    of [debounceSearch], the deferred calls of [refreshData] and the zero
    timeouts of the date picker. *)
Record World := {
  page : LogPage;
  pending : list Filters;
  startup : nat;
  clock : Timers;
  timeoutId : option nat;
  debounced : bool;
  deferred : nat;
  pickerDue : nat
}.

Definition withPage (s : LogPage) (w : World) : World :=
  {| page := s; pending := pending w; startup := startup w; clock := clock w; timeoutId := timeoutId w;
     debounced := debounced w; deferred := deferred w; pickerDue := pickerDue w |}.

(** [this.state.query] is never set, so the timer is always armed. *)
Definition resetTimer (w : World) : World :=
  let '(id, t) := rearm (timeoutId w) 1000 (clock w) in
  {| page := page w; pending := pending w; startup := startup w; clock := t; timeoutId := id;
     debounced := debounced w; deferred := deferred w; pickerDue := pickerDue w |}.

Definition request (f : Filters) : Request :=
  AuditLogActions.getAuditLog (searchStringUser f) (searchStringBeginTime f) (searchStringEndTime f)
    (searchStringLogLevel f) (searchStringType f).

Definition refreshData (w : World) : World :=
  let f := filters (page w) in
  {| page := withFlag f (page w);
     pending := if bool_decide (flag (page w) = f) then pending w else (pending w ++ [f])%list;
     startup := startup w; clock := clock w; timeoutId := timeoutId w; debounced := debounced w;
     deferred := deferred w; pickerDue := pickerDue w |}.

Definition refreshLoop (w : World) : World :=
  refreshData
    {| page := page w; pending := pending w; startup := startup w;
       clock := clearTimeout (timeoutId w) (clock w); timeoutId := timeoutId w;
       debounced := debounced w; deferred := deferred w; pickerDue := pickerDue w |}.

(** Arming of the later calls. *)
Definition debounceSearch (w : World) : World :=
  {| page := page w; pending := pending w; startup := startup w; clock := clock w;
     timeoutId := timeoutId w; debounced := true; deferred := deferred w; pickerDue := pickerDue w |}.

Definition deferRefresh (w : World) : World :=
  {| page := page w; pending := pending w; startup := startup w; clock := clock w;
     timeoutId := timeoutId w; debounced := debounced w; deferred := S (deferred w);
     pickerDue := pickerDue w |}.

Definition pickerTimeout (w : World) : World :=
  {| page := page w; pending := pending w; startup := startup w; clock := clock w;
     timeoutId := timeoutId w; debounced := debounced w; deferred := deferred w;
     pickerDue := S (pickerDue w) |}.

(** The measures of the window; [0.3 * (h + 50)] is rounded as the engine does. *)
Definition update (clientHeight clientWidth : num) (s : LogPage) : LogPage :=
  let newWidth := sub (sub (sub clientWidth (of_Z 75)) (of_Z 270)) (of_Z 10) in
  let newWidth := if gt (of_Z 400) newWidth then of_Z 400 else newWidth in
  let newHeight := sub clientHeight
    (add (add (add (add (mul (of_decimal 3 1) (add clientHeight (of_Z 50))) (of_Z 40)) (of_Z 57))
      (of_Z 46)) (of_Z 6)) in
  let newHeight := if gt (of_Z 400) newHeight then of_Z 400 else newHeight in
  withSize newWidth newHeight s.

(** [componentDidMount]: the two requests, then the first refresh. *)
Definition mount (clientHeight clientWidth : num) : World :=
  let w := refreshLoop
    {| page := initialPage; pending := []; startup := 2; clock := no_timers; timeoutId := None;
       debounced := false; deferred := 0; pickerDue := 0 |} in
  withPage (update clientHeight clientWidth (page w)) w.

(** ** What the user does *)

Inductive Field := FUser | FDate | FLogLevel | FAuditType | FOther.

(** An unknown name changes nothing but searches all the same. *)
Definition handleSearchStringChange (field : Field) (value : string) (w : World) : World :=
  let s := page w in
  let f := filters s in
  let s :=
    match field with
    | FUser => withSearch
        {| searchStringUser := value; searchStringBeginTime := searchStringBeginTime f;
           searchStringEndTime := searchStringEndTime f; searchStringLogLevel := searchStringLogLevel f;
           searchStringType := searchStringType f |} (searchStringDate s) 1 s
    | FDate => withSearch f value 1 s
    | FLogLevel => withSearch
        {| searchStringUser := searchStringUser f; searchStringBeginTime := searchStringBeginTime f;
           searchStringEndTime := searchStringEndTime f; searchStringLogLevel := value;
           searchStringType := searchStringType f |} (searchStringDate s) 1 s
    | FAuditType => withSearch
        {| searchStringUser := searchStringUser f; searchStringBeginTime := searchStringBeginTime f;
           searchStringEndTime := searchStringEndTime f; searchStringLogLevel := searchStringLogLevel f;
           searchStringType := value |} (searchStringDate s) 1 s
    | FOther => s
    end in
  debounceSearch (withPage s w).

Definition withTimes (begin_ end_ : string) (f : Filters) : Filters :=
  {| searchStringUser := searchStringUser f; searchStringBeginTime := begin_;
     searchStringEndTime := end_; searchStringLogLevel := searchStringLogLevel f;
     searchStringType := searchStringType f |}.

(** The date picker's events; the two dates come formatted by its locale.  The
    page number stays.  Every focus of the field attaches the handlers again, so
    that one event of the picker may run one of these several times. *)
Definition applyDates (start_ end_ : string) (w : World) : World :=
  let s := page w in
  pickerTimeout (withPage (withSearch (withTimes start_ end_ (filters s)) (start_ ++ " ~ " ++ end_)
    (currentPage s) s) w).

Definition cancelDates (w : World) : World :=
  let s := page w in
  pickerTimeout (withPage (withSearch (withTimes "" "" (filters s)) "" (currentPage s) s) w).

Definition hideDates (start_ end_ : string) (w : World) : World :=
  let s := page w in
  let f := if streq (searchStringDate s) "" then withTimes "" "" (filters s)
           else withTimes start_ end_ (filters s) in
  pickerTimeout (withPage (withSearch f (searchStringDate s) (currentPage s) s) w).

Definition onPageChange (current : Z) (w : World) : World :=
  deferRefresh (withPage (withPaging current (pageSize (page w)) (page w)) w).

Definition onPageSizeChange (size : Z) (w : World) : World :=
  deferRefresh (withPage (withPaging (currentPage (page w)) size (page w)) w).

Definition onResize (clientHeight clientWidth : num) (w : World) : World :=
  withPage (update clientHeight clientWidth (page w)) w.

(** ** What happens by itself *)

(** The i-th pending request is answered, or fails: only an answer goes on. *)
Definition settle (i : nat) (answer : option (list string)) (w : World) : option World :=
  _ ← pending w !! i;
  let w := {| page := page w; pending := delete i (pending w); startup := startup w; clock := clock w;
              timeoutId := timeoutId w; debounced := debounced w; deferred := deferred w;
              pickerDue := pickerDue w |} in
  Some (match answer with
        | Some data => resetTimer (withPage (withLog data (page w)) w)
        | None => w
        end).

Definition fireTimer (id : nat) (w : World) : option World :=
  if existsb (fun p => (p.1 =? id)%nat) (armed (clock w)) then
    Some (refreshLoop {| page := page w; pending := pending w; startup := startup w;
                         clock := fire id (clock w); timeoutId := timeoutId w; debounced := debounced w;
                         deferred := deferred w; pickerDue := pickerDue w |})
  else None.

(** One of the requests of the start, for the pattern or the user, settles. *)
Definition settleStart (change : LogPage -> LogPage) (w : World) : option World :=
  match startup w with
  | O => None
  | S n => Some (resetTimer {| page := change (page w); pending := pending w; startup := n;
                               clock := clock w; timeoutId := timeoutId w; debounced := debounced w;
                               deferred := deferred w; pickerDue := pickerDue w |})
  end.

Definition onPattern (pattern : option string) : LogPage -> LogPage :=
  match pattern with Some p => withPattern p | None => fun s => s end.
Definition onUser (u : option string) : LogPage -> LogPage :=
  match u with Some u => withUser u | None => fun s => s end.

(** The wait of [debounceSearch] is over: its body defers the refresh. *)
Definition debounceEnds (w : World) : option World :=
  if debounced w then
    Some {| page := page w; pending := pending w; startup := startup w; clock := clock w;
            timeoutId := timeoutId w; debounced := false; deferred := S (deferred w);
            pickerDue := pickerDue w |}
  else None.

Definition runDeferred (w : World) : option World :=
  match deferred w with
  | O => None
  | S n => Some (refreshData {| page := page w; pending := pending w; startup := startup w;
                                clock := clock w; timeoutId := timeoutId w; debounced := debounced w;
                                deferred := n; pickerDue := pickerDue w |})
  end.

Definition pickerEnds (w : World) : option World :=
  match pickerDue w with
  | O => None
  | S n => Some (debounceSearch {| page := page w; pending := pending w; startup := startup w;
                                   clock := clock w; timeoutId := timeoutId w;
                                   debounced := debounced w; deferred := deferred w; pickerDue := n |})
  end.

(** ** Downloads, dates and rows *)

(** [handleDownload] is bound but no element calls it. *)
Definition handleDownload (s : LogPage) : option Request :=
  let f := filters s in
  if negb (streq (searchStringUser f) "") && negb (streq (searchStringBeginTime f) "") &&
     negb (streq (searchStringEndTime f) "")
  then Some (AuditLogActions.downloadAuditLog (searchStringUser f) (searchStringBeginTime f)
               (searchStringEndTime f) (searchStringLogLevel f) (searchStringType f))
  else None.

(** The address of the download link. *)
Definition downloadString (f : Filters) : string :=
  join "&&" ["user=" ++ searchStringUser f; "beginTime=" ++ searchStringBeginTime f;
             "endTime=" ++ searchStringEndTime f; "level=" ++ searchStringLogLevel f;
             "type=" ++ searchStringType f].
Definition downloadHref (f : Filters) : string := "../v1/audit/download?" ++ downloadString f.

(** The dates the picker starts with, of the local calendar day
    (year, month from 0, day) of now and of 24 hours later. *)
Definition dateText (timePicker : bool) (day : Z * Z * Z) : string :=
  let '(y, m, d) := day in
  show_Z y ++ "/" ++ show_Z (m + 1) ++ "/" ++ show_Z d ++ (if timePicker then ".00" else "").

Definition pickerOptions (calendar : Z -> Z * Z * Z) (now : Z) (s : LogPage) : bool * string * string :=
  let flag := negb (streq (dateRangePickerPattern s) "YYYY-MM-DD") in
  let todayText := dateText flag (calendar now) in
  let tomorrowText := dateText flag (calendar (now + 24 * 60 * 60 * 1000)) in
  let f := filters s in
  (flag,
   if streq (searchStringBeginTime f) "" then todayText else searchStringBeginTime f,
   if streq (searchStringEndTime f) "" then tomorrowText else searchStringEndTime f).

(** The rows of the page: always [pageSize] many, empty past the end. *)
Definition renderAuditLog (obj : list string) (currentPage : Z) (pageSize : nat) : list (option string) :=
  let showIndex := (currentPage - 1) * Z.of_nat pageSize in
  (fun k => let i := showIndex + Z.of_nat k in if i <? 0 then None else obj !! Z.to_nat i)
    <$> seq 0 pageSize.

(** What the field of the user name shows. *)
Definition userShown (s : LogPage) : string :=
  if streq (user s) "admin" then searchStringUser (filters s) else user s.
