(* ===== verification/AuditLogFacts.v ===== *)
(** * The audit log: it comes to rest, and with which log

    Lemmas and properties of AuditLog.v. *)

From stdpp Require Import relations.
From S2P Require Import Prelude JsString JsNumber Http Timers AuditLog.

(** ** Steps *)

(** What runs by itself, without an answer of the log. *)
Inductive scheduled (w w' : World) : Prop :=
  | sch_timer id : fireTimer id w = Some w' -> scheduled w w'
  | sch_pattern p : settleStart (onPattern p) w = Some w' -> scheduled w w'
  | sch_user u : settleStart (onUser u) w = Some w' -> scheduled w w'
  | sch_debounce : debounceEnds w = Some w' -> scheduled w w'
  | sch_deferred : runDeferred w = Some w' -> scheduled w w'
  | sch_picker : pickerEnds w = Some w' -> scheduled w w'.

Inductive internal (w w' : World) : Prop :=
  | int_scheduled : scheduled w w' -> internal w w'
  | int_settle i answer : settle i answer w = Some w' -> internal w w'.

(** The answers come in order and the server answers by the filters alone. *)
Inductive orderly (server : Filters -> list string) (w w' : World) : Prop :=
  | ord_scheduled : scheduled w w' -> orderly server w w'
  | ord_answer f fs : pending w = f :: fs -> settle 0 (Some (server f)) w = Some w' -> orderly server w w'.

Inductive user_step (w : World) : World -> Prop :=
  | usr_change field value : user_step w (handleSearchStringChange field value w)
  | usr_apply b e : user_step w (applyDates b e w)
  | usr_cancel : user_step w (cancelDates w)
  | usr_hide b e : user_step w (hideDates b e w)
  | usr_page n : user_step w (onPageChange n w)
  | usr_size n : user_step w (onPageSizeChange n w)
  | usr_resize ht wd : user_step w (onResize ht wd w).

Inductive reachable (step : World -> World -> Prop) : World -> Prop :=
  | reach_mount ht wd : reachable step (mount ht wd)
  | reach_step w w' : reachable step w -> step w w' -> reachable step w'
  | reach_user w w' : reachable step w -> user_step w w' -> reachable step w'.

Lemma orderly_internal server w w' : orderly server w w' -> internal w w'.
Proof. intros [Hs|f fs _ Hs]; [by apply int_scheduled|by eapply int_settle]. Qed.

Lemma reachable_mono (R R' : World -> World -> Prop) w :
  (forall w w', R w w' -> R' w w') -> reachable R w -> reachable R' w.
Proof. intros HR. induction 1; [apply reach_mount|eapply reach_step; eauto|eapply reach_user; eauto]. Qed.

(** ** Coming to rest *)

Definition dirty (w : World) : nat :=
  if bool_decide (flag (page w) = filters (page w)) then 0%nat else 1%nat.

(** A request outweighs the timer its answer arms, and changed filters outweigh
    the request they will send. *)
Definition work (w : World) : nat :=
  (3 * dirty w + 2 * length (pending w) + length (armed (clock w)) + 2 * startup w +
   (if debounced w then 2 else 0) + deferred w + 3 * pickerDue w)%nat.

Lemma work_refreshData w : (work (refreshData w) <= work w)%nat.
Proof.
  unfold work, dirty, refreshData. cbn. rw (bool_decide_eq_true_2 (filters (page w) = filters (page w))) //.
  case_bool_decide; rw ?length_app; cbn; lia.
Qed.

Lemma work_resetTimer w : (work (resetTimer w) <= S (work w))%nat.
Proof.
  pose proof (rearm_length (timeoutId w) 1000 (clock w)) as Hr. unfold work, dirty, resetTimer.
  destruct (rearm (timeoutId w) 1000 (clock w)) as [id t]. cbn in *. lia.
Qed.

Lemma work_refreshLoop w : (work (refreshLoop w) <= work w)%nat.
Proof.
  unfold refreshLoop. etrans; [apply work_refreshData|].
  pose proof (clear_length (timeoutId w) (clock w)). unfold work, dirty. cbn. lia.
Qed.

Lemma internal_work w w' : internal w w' -> (work w' < work w)%nat.
Proof.
  intros [[id Hs|p Hs|u Hs|Hs|Hs|Hs]|i answer Hs].
  - unfold fireTimer in Hs. destruct (existsb _ _) eqn:He; [|done]. injection Hs as <-.
    apply fire_length in He. eapply Nat.le_lt_trans; [apply work_refreshLoop|]. unfold work, dirty. cbn in *. lia.
  - unfold settleStart in Hs. destruct (startup w) as [|n] eqn:Hn; [done|]. injection Hs as <-.
    eapply Nat.le_lt_trans; [apply work_resetTimer|]. unfold work, dirty. rw Hn. destruct p; cbn; lia.
  - unfold settleStart in Hs. destruct (startup w) as [|n] eqn:Hn; [done|]. injection Hs as <-.
    eapply Nat.le_lt_trans; [apply work_resetTimer|]. unfold work, dirty. rw Hn. destruct u; cbn; lia.
  - unfold debounceEnds in Hs. destruct (debounced w) eqn:Hd; [|done]. injection Hs as <-.
    unfold work, dirty. rw Hd. cbn. lia.
  - unfold runDeferred in Hs. destruct (deferred w) as [|n] eqn:Hd; [done|]. injection Hs as <-.
    eapply Nat.le_lt_trans; [apply work_refreshData|]. unfold work, dirty. rw Hd. cbn. lia.
  - unfold pickerEnds in Hs. destruct (pickerDue w) as [|n] eqn:Hd; [done|]. injection Hs as <-.
    unfold work, dirty, debounceSearch. rw Hd. cbn. destruct (debounced w); lia.
  - unfold settle in Hs. destruct (pending w !! i) as [f|] eqn:Hi; [|done]. injection Hs as <-.
    apply lookup_lt_Some in Hi as Hlt. pose proof (length_delete (pending w) i ltac:(by eexists)) as Hl.
    destruct answer as [data|].
    + eapply Nat.le_lt_trans; [apply work_resetTimer|]. unfold work, dirty. cbn. lia.
    + unfold work, dirty. cbn. lia.
Qed.

(** Filters that changed since the last request will be looked at. *)
Definition due_ok (w : World) : Prop :=
  flag (page w) = filters (page w) \/ debounced w = true \/ deferred w <> O \/ pickerDue w <> O.

Lemma due_resetTimer w : due_ok w -> due_ok (resetTimer w).
Proof. unfold resetTimer. by destruct (rearm _ _ _). Qed.

Lemma due_settleStart change w w' :
  (forall s, flag (change s) = flag s /\ filters (change s) = filters s) ->
  settleStart change w = Some w' -> due_ok w -> due_ok w'.
Proof.
  unfold settleStart. intros Hc. destruct (startup w); [done|]. intros [= <-] Hd. apply due_resetTimer.
  unfold due_ok. cbn. destruct (Hc (page w)) as [-> ->]. exact Hd.
Qed.

Lemma due_internal w w' : internal w w' -> due_ok w -> due_ok w'.
Proof.
  intros [[id Hs|p Hs|u Hs|Hs|Hs|Hs]|i answer Hs] Hd.
  - unfold fireTimer in Hs. destruct (existsb _ _); [|done]. injection Hs as <-. by left.
  - eapply due_settleStart; [|done|done]. by destruct p.
  - eapply due_settleStart; [|done|done]. by destruct u.
  - unfold debounceEnds in Hs. destruct (debounced w); [|done]. injection Hs as <-. by right; right; left.
  - unfold runDeferred in Hs. destruct (deferred w); [done|]. injection Hs as <-. by left.
  - unfold pickerEnds in Hs. destruct (pickerDue w); [done|]. injection Hs as <-. by right; left.
  - unfold settle in Hs. destruct (pending w !! i); [|done]. injection Hs as <-.
    destruct answer; [by apply due_resetTimer|done].
Qed.

Lemma due_user w w' : user_step w w' -> due_ok w -> due_ok w'.
Proof.
  intros [field v|b e| |b e|n|n|ht wd] Hd; unfold due_ok in *; cbn; [by auto..|exact Hd].
Qed.

Lemma reachable_due w : reachable internal w -> due_ok w.
Proof.
  induction 1 as [ht wd|w w' _ IH Hs|w w' _ IH Hs]; [by left|by eapply due_internal|by eapply due_user].
Qed.

(** Nothing is under way. *)
Record at_rest (w : World) : Prop := {
  rest_pending : pending w = [];
  rest_armed : armed (clock w) = [];
  rest_startup : startup w = O;
  rest_debounced : debounced w = false;
  rest_deferred : deferred w = O;
  rest_picker : pickerDue w = O
}.

Lemma nf_at_rest w : nf internal w <-> at_rest w.
Proof.
  split.
  - intros Hnf. split.
    + destruct (pending w) as [|f fs] eqn:Hp; [done|]. exfalso. apply Hnf. unfold red.
      eexists. apply (int_settle _ _ 0%nat None). unfold settle. by rw Hp.
    + destruct (armed (clock w)) as [|[i d] l] eqn:Ha; [done|]. exfalso. apply Hnf. unfold red.
      eexists. apply int_scheduled, (sch_timer _ _ i). unfold fireTimer. rw Ha. cbn. by rw Nat.eqb_refl.
    + destruct (startup w) as [|n] eqn:Hn; [done|]. exfalso. apply Hnf. unfold red.
      eexists. apply int_scheduled, (sch_pattern _ _ None). unfold settleStart. by rw Hn.
    + destruct (debounced w) eqn:Hd; [|done]. exfalso. apply Hnf. unfold red.
      eexists. apply int_scheduled, sch_debounce. unfold debounceEnds. by rw Hd.
    + destruct (deferred w) as [|n] eqn:Hn; [done|]. exfalso. apply Hnf. unfold red.
      eexists. apply int_scheduled, sch_deferred. unfold runDeferred. by rw Hn.
    + destruct (pickerDue w) as [|n] eqn:Hn; [done|]. exfalso. apply Hnf. unfold red.
      eexists. apply int_scheduled, sch_picker. unfold pickerEnds. by rw Hn.
  - intros [Hp Ha Hst Hd Hde Hpi] [w' [[id Hs|p Hs|u Hs|Hs|Hs|Hs]|i answer Hs]].
    + unfold fireTimer in Hs. by rw Ha in Hs.
    + unfold settleStart in Hs. by rw Hst in Hs.
    + unfold settleStart in Hs. by rw Hst in Hs.
    + unfold debounceEnds in Hs. by rw Hd in Hs.
    + unfold runDeferred in Hs. by rw Hde in Hs.
    + unfold pickerEnds in Hs. by rw Hpi in Hs.
    + unfold settle in Hs. by rw Hp in Hs.
Qed.

(** ** Which log is shown *)

Section Orderly.
Variable server : Filters -> list string.

(** The request sent last is for [flag]; once it is answered, so is the log. *)
Definition log_ok (w : World) : Prop :=
  match last (pending w) with
  | Some f => f = flag (page w)
  | None => auditlog (page w) = Some (server (flag (page w))) /\
            total (page w) = Z.of_nat (length (server (flag (page w))))
  end.

Lemma log_refreshData w : log_ok w -> log_ok (refreshData w).
Proof.
  unfold log_ok, refreshData. cbn. case_bool_decide as Hf; cbn.
  - rw Hf. done.
  - by rw last_snoc.
Qed.

Lemma log_resetTimer w : log_ok w -> log_ok (resetTimer w).
Proof. unfold resetTimer. by destruct (rearm _ _ _). Qed.

Lemma log_settleStart change w w' :
  (forall s, flag (change s) = flag s /\ auditlog (change s) = auditlog s /\ total (change s) = total s) ->
  settleStart change w = Some w' -> log_ok w -> log_ok w'.
Proof.
  unfold settleStart. intros Hc. destruct (startup w); [done|]. intros [= <-] Hl. apply log_resetTimer.
  unfold log_ok in *. cbn. destruct (Hc (page w)) as (-> & -> & ->). exact Hl.
Qed.

Lemma log_orderly w w' : orderly server w w' -> log_ok w -> log_ok w'.
Proof.
  intros [[id Hs|p Hs|u Hs|Hs|Hs|Hs]|f fs Hp Hs] Hl.
  - unfold fireTimer in Hs. destruct (existsb _ _); [|done]. injection Hs as <-.
    unfold refreshLoop. by apply log_refreshData.
  - eapply log_settleStart; [|done|done]. by destruct p.
  - eapply log_settleStart; [|done|done]. by destruct u.
  - unfold debounceEnds in Hs. destruct (debounced w); [|done]. by injection Hs as <-.
  - unfold runDeferred in Hs. destruct (deferred w); [done|]. injection Hs as <-. by apply log_refreshData.
  - unfold pickerEnds in Hs. destruct (pickerDue w); [done|]. by injection Hs as <-.
  - unfold settle in Hs. rw Hp in Hs. injection Hs as <-. apply log_resetTimer.
    unfold log_ok in *. rw Hp in Hl. cbn. destruct fs as [|g fs]; cbn in *; [by subst f|].
    destruct (last (g :: fs)) eqn:Hg; [done|]. by apply last_None in Hg.
Qed.

Lemma log_user w w' : user_step w w' -> log_ok w -> log_ok w'.
Proof. intros [[] v|b e| |b e|n|n|ht wd] Hl; exact Hl. Qed.

Lemma reachable_log w : reachable (orderly server) w -> log_ok w.
Proof.
  induction 1 as [ht wd|w w' _ IH Hs|w w' _ IH Hs]; [done|by eapply log_orderly|by eapply log_user].
Qed.
End Orderly.

(** ** Properties *)

(** C22.  The page comes to rest: from any state, whatever is answered or
    fails, the requests, timers and deferred calls run out after finitely many
    steps.  In a reachable state at rest the filters shown are those of the
    request sent last, and refreshing once more sends nothing: the log is
    followed only while the filters change. *)
Theorem log_settles w :
  Acc (flip internal) w /\
  (reachable internal w -> nf internal w ->
     at_rest w /\ flag (page w) = filters (page w) /\ refreshData w = w /\
     forall n, pending (refreshLoop (onPageChange n w)) = []).
Proof.
  split; [apply (measure_terminates _ work), internal_work|]. intros Hr Hnf.
  pose proof (reachable_due w Hr) as Hd. apply nf_at_rest in Hnf. assert (Hrest := Hnf).
  destruct Hnf as [Hp _ _ Hb Hde Hpi]. split; [done|].
  assert (flag (page w) = filters (page w)) as Hf by (destruct Hd as [?|[?|[?|?]]]; [done|congruence..]).
  split; [done|]. split.
  - unfold refreshData. rw bool_decide_eq_true_2 //. destruct w as [[]]. cbn in Hf. by subst.
  - intros n. unfold refreshLoop, refreshData. cbn. by rw bool_decide_eq_true_2.
Qed.

(** From a state without requests whose filters were asked for, the page comes
    to rest with the same filters and the same log. *)
Lemma quiet_rest w :
  reachable internal w -> pending w = [] -> flag (page w) = filters (page w) ->
  exists w', reachable internal w' /\ nf internal w' /\ filters (page w') = filters (page w) /\
             auditlog (page w') = auditlog (page w).
Proof.
  remember (work w) as n eqn:Hn. revert w Hn. induction n as [n IH] using lt_wf_ind. intros w -> Hr Hp Hf.
  assert (Hgo : forall w', internal w w' -> pending w' = [] -> flag (page w') = filters (page w') ->
    filters (page w') = filters (page w) -> auditlog (page w') = auditlog (page w) ->
    exists w'', reachable internal w'' /\ nf internal w'' /\ filters (page w'') = filters (page w) /\
                auditlog (page w'') = auditlog (page w)).
  { intros w' Hst Hp' Hf' <- <-. apply (IH (work w')); [by apply internal_work|done| |done|done].
    by eapply reach_step. }
  destruct (armed (clock w)) as [|[i d] l] eqn:Ha.
  2: { eapply Hgo; [apply int_scheduled, (sch_timer _ _ i); unfold fireTimer; rw Ha; cbn; rw Nat.eqb_refl; reflexivity|..];
       unfold refreshLoop, refreshData; cbn; try done. by rw bool_decide_eq_true_2. }
  destruct (startup w) as [|k] eqn:Hk.
  2: { eapply Hgo; [apply int_scheduled, (sch_pattern _ _ None); unfold settleStart; rw Hk; reflexivity|..];
       by unfold resetTimer; destruct (rearm _ _ _). }
  destruct (debounced w) eqn:Hd.
  { eapply Hgo; [apply int_scheduled, sch_debounce; unfold debounceEnds; rw Hd; reflexivity|..]; done. }
  destruct (deferred w) as [|k] eqn:Hde.
  2: { eapply Hgo; [apply int_scheduled, sch_deferred; unfold runDeferred; rw Hde; reflexivity|..];
       unfold refreshData; cbn; try done. by rw bool_decide_eq_true_2. }
  destruct (pickerDue w) as [|k] eqn:Hpi.
  2: { eapply Hgo; [apply int_scheduled, sch_picker; unfold pickerEnds; rw Hpi; reflexivity|..]; done. }
  exists w. split; [done|]. split; [by apply nf_at_rest|done].
Qed.

(** The first request has failed, or was answered. *)
Lemma first_settled (ht wd : num) answer :
  exists w, reachable internal w /\ pending w = [] /\ flag (page w) = filters (page w) /\
            filters (page w) = initialFilters /\ auditlog (page w) = answer.
Proof.
  eexists. split; [eapply reach_step; [apply (reach_mount _ ht wd)|by apply (int_settle _ _ 0%nat answer)]|].
  by destruct answer.
Qed.

Lemma log_settles_witness :
  exists w, reachable internal w /\ nf internal w /\ refreshData w = w.
Proof.
  destruct (first_settled (of_Z 800) (of_Z 1200) None) as (w & Hr & Hp & Hf & _).
  destruct (quiet_rest w Hr Hp Hf) as (w' & Hr' & Hnf & _).
  exists w'. split; [done|split; [done|]]. by apply (log_settles w').
Defined.

(** The filters with another user. *)
Definition forUser (u : string) : Filters :=
  {| searchStringUser := u; searchStringBeginTime := ""; searchStringEndTime := "";
     searchStringLogLevel := "INFO"; searchStringType := "Sql" |}.

(** The user types a name and the search goes out while the first request is
    under way. *)
Lemma two_requests (ht wd : num) u : u <> "" ->
  exists w, reachable internal w /\ pending w = [initialFilters; forUser u] /\
            filters (page w) = forUser u /\ flag (page w) = forUser u /\ auditlog (page w) = None.
Proof.
  intros Hu. eexists. split.
  - eapply reach_step; [eapply reach_step;
      [eapply reach_user; [apply (reach_mount _ ht wd)|apply (usr_change _ FUser u)]|
       by apply int_scheduled, sch_debounce]|by apply int_scheduled, sch_deferred].
  - assert (bool_decide (initialFilters = forUser u) = false) as Hb.
    { apply bool_decide_eq_false_2. intros [= He]. by apply Hu. }
    unfold initialFilters, forUser in Hb. cbn. unfold refreshData. cbn. by rw Hb.
Qed.

(** C23.  The log at rest.  When the requests are answered in the order they
    were sent and none fails, the log shown at rest is the server's answer for
    the filters shown.  But an answer that overtakes a later request's stays:
    the page can come to rest with one user's name in the filters and the log
    of the first request below; and a failed request is not sent again: the
    page can come to rest with filters and no log at all. *)
Theorem log_current server :
  (forall w, reachable (orderly server) w -> nf internal w ->
     auditlog (page w) = Some (server (filters (page w))) /\
     total (page w) = Z.of_nat (length (server (filters (page w))))) /\
  (forall (ht wd : num) u, u <> "" -> exists w,
     reachable internal w /\ nf internal w /\ filters (page w) = forUser u /\
     auditlog (page w) = Some (server initialFilters)) /\
  (forall ht wd : num, exists w,
     reachable internal w /\ nf internal w /\ auditlog (page w) = None).
Proof.
  split; [|split].
  - intros w Hr Hnf. pose proof (reachable_log server w Hr) as Hl.
    apply (reachable_mono _ internal) in Hr; [|apply orderly_internal].
    pose proof (reachable_due w Hr) as Hd. apply nf_at_rest in Hnf as [Hp _ _ Hb Hde Hpi].
    unfold log_ok in Hl. rw Hp in Hl. cbn in Hl.
    destruct Hd as [<-|[?|[?|?]]]; [done|congruence..].
  - intros ht wd u Hu. destruct (two_requests ht wd u Hu) as (w & Hr & Hp & Hf & Hfl & _).
    assert (exists w', reachable internal w' /\ pending w' = [] /\ flag (page w') = filters (page w') /\
              filters (page w') = forUser u /\ auditlog (page w') = Some (server initialFilters))
      as (w' & Hr' & Hp' & Hf' & Hu' & Hl').
    { eexists. split.
      - eapply reach_step; [eapply reach_step; [exact Hr|
          apply (int_settle _ _ 1%nat (Some (server (forUser u)))); unfold settle; rw Hp; reflexivity]|].
        apply (int_settle _ _ 0%nat (Some (server initialFilters))). unfold settle. cbn. reflexivity.
      - cbn. by rw Hf Hfl. }
    destruct (quiet_rest w' Hr' Hp' Hf') as (w'' & Hr'' & Hnf & Hu'' & Hl'').
    exists w''. by rw Hu'' Hl''.
  - intros ht wd. destruct (first_settled ht wd None) as (w & Hr & Hp & Hf & _ & Hl).
    destruct (quiet_rest w Hr Hp Hf) as (w' & Hr' & Hnf & _ & Hl'). exists w'. by rw Hl'.
Qed.

(** ** Rows *)

Lemma renderAuditLog_page (obj : list string) p size :
  renderAuditLog obj (Z.of_nat p + 1) size = (fun i => obj !! i) <$> seq (p * size) size.
Proof.
  unfold renderAuditLog. rw -{1}(Nat.add_0_r (p * size)) -fmap_add_seq -list_fmap_compose.
  apply list_fmap_ext. intros k i _. cbn. replace (Z.of_nat p + 1 - 1) with (Z.of_nat p) by lia.
  replace (Z.of_nat p * Z.of_nat size + Z.of_nat i) with (Z.of_nat (p * size + i)) by (rw Nat2Z.inj_add Nat2Z.inj_mul; done).
  rw (proj2 (Z.ltb_ge _ 0) (Nat2Z.is_nonneg _)). by rw Nat2Z.id.
Qed.

Lemma rows_below {A} (l : list A) n : omap id ((fun i => l !! i) <$> seq 0 n) = take n l.
Proof.
  revert n. induction l as [|x l IH]; intros n.
  - rw take_nil. generalize 0%nat. induction n as [|n IHn]; intros k; [done|]. cbn. apply IHn.
  - destruct n as [|n]; [done|]. cbn. f_equal. rw -(fmap_S_seq 0 n) -list_fmap_compose. apply IH.
Qed.

(** The pages of a log show each line once, in order; a page past the end shows
    empty rows. *)
Lemma pages_cover (obj : list string) size n :
  (length obj <= n * size)%nat ->
  omap id (flat_map (fun p => renderAuditLog obj (Z.of_nat p + 1) size) (seq 0 n)) = obj.
Proof.
  intros Hn. rw -{2}(take_ge obj (n * size)) // -rows_below. f_equal. clear Hn.
  induction n as [|n IH]; [done|]. rw seq_S flat_map_app IH. cbn [flat_map plus].
  rw app_nil_r renderAuditLog_page -fmap_app. f_equal.
  replace (S n * size)%nat with (n * size + size)%nat by lia. by rw seq_app.
Qed.
