(* ===== verification/Overview.v ===== *)
(** * overview: the charts of the cluster and the tables of its nodes

    EchartPart.jsx, OverviewMain.jsx and NodesMain.jsx listen to the overview
    store, which two requests a second feed: one about the cluster, one about the
    memory of its nodes.  The charts take a sample whenever the number of answers
    is even. *)

From S2P Require Import Prelude JsString Stores JsNumber Utils.

(** The answer about the cluster. *)
Record LineData := {
  systemCpuLoad : num;
  processCpuLoad : num;
  totalMemory : num;
  reservedMemory : num;
  runningQueries : num;
  queuedQueries : num;
  blockedQueries : num;
  activeWorkers : num;
  runningDrivers : num;
  totalCpuTimeSecs : num;
  totalInputBytes : num
}.

Record Pool := { freeBytes : num; reservedBytes : num }.

(** The memory of one node; a pool may be missing. *)
Record NodeMemory := {
  n_id : string;
  n_role : string;
  n_state : string;
  availableProcessors : num;
  totalNodeMemory : string;
  general : option Pool;
  reserved : option Pool
}.

(** An object from node names to their memory, in the order of its keys. *)
Definition MemoryData := list (string * NodeMemory).

Definition Store := Stores.OverviewStore.t LineData MemoryData.

(** ** Dates of the samples (vendor/jquery/date.js) *)

(** The local calendar fields of a Date, month from 0. *)
Record DateFields := {
  fullYear : Z; month : Z; date : Z; hours : Z; minutes : Z; seconds : Z
}.

(** [("00" + n).substr(("" + n).length)] *)
Definition twoPlaces (n : Z) : string := drop_str (String.length (show_Z n)) ("00" ++ show_Z n).

(** [format('yyyy-MM-dd hh:mm:ss')]: each letter group is replaced in turn, and
    the digits put in for it match no later group. *)
Definition formatSample (d : DateFields) : string :=
  show_Z (fullYear d) ++ "-" ++ twoPlaces (month d + 1) ++ "-" ++ twoPlaces (date d) ++ " " ++
  twoPlaces (hours d) ++ ":" ++ twoPlaces (minutes d) ++ ":" ++ twoPlaces (seconds d).

(** ** EchartPart.jsx *)

(** A point of a chart: its time and a number, or digits with a fixed number of
    places. *)
Inductive Value := Num (n : num) | Digits (s : string).
Definition Point := (string * Value)%type.

Definition itemList : list (string * string) :=
  [("Avg Cluster CPU Usage", "cpuLoad"); ("Used Query Memory", "checkOne"); ("Running Queries", "checkTwo");
   ("Queued Queries", "checkThree"); ("Blocked Queries", "checkFour"); ("Active Workers", "checkFive");
   ("Avg Running Tasks", "checkSix"); ("Avg CPU cycles per worker", "checkSeven");
   ("Input Total Bytes", "checkEight")].

(** The entries selected at first; the last has another title than in the menu. *)
Definition initialSelection : list (string * string) :=
  [("Avg Cluster CPU Usage", "cpuLoad"); ("Used Query Memory", "checkOne"); ("Running Queries", "checkTwo");
   ("Queued Queries", "checkThree"); ("Blocked Queries", "checkFour"); ("Active Workers", "checkFive");
   ("Avg Running Tasks", "checkSix"); ("Avg CPU cycles per worker", "checkSeven");
   ("total Input Bytes", "checkEight")].

(** The charts, [chartCpu] first, and the values the next sample is compared
    with. *)
Record Charts := {
  checkStatus : gmap string bool;
  selectedItemList : list (string * string);
  step : Z;
  charts : list (list Point);
  lastWorker : option num;
  lastRefresh : option num;
  memoryInit : bool
}.

Definition initialCharts : Charts :=
  {| checkStatus := list_to_map ((fun item => (item.2, true)) <$> itemList);
     selectedItemList := initialSelection; step := 10; charts := replicate 9 []; lastWorker := None;
     lastRefresh := None; memoryInit := false |}.

Section Echart.
(** The local calendar, from the milliseconds of the clock. *)
Variable calendar : Z -> DateFields.

Definition label (time : Z) : string := formatSample (calendar time).

(** Half an hour of zeros, a second apart, oldest first; the clock is read for
    every point. *)
Definition axis (reading : nat -> Z) : list Point :=
  rev ((fun i => (label (reading i - 1000 * Z.of_nat i), Num (of_Z 0))) <$> seq 0 (30 * 60)).

Definition setXAxis (reading : nat -> Z) (s : Charts) : Charts :=
  {| checkStatus := checkStatus s; selectedItemList := selectedItemList s; step := step s;
     charts := replicate 9 (axis reading); lastWorker := lastWorker s; lastRefresh := lastRefresh s;
     memoryInit := memoryInit s |}.

(** [delete]: without the first point. *)
Definition dropFirst (arr : list Point) : list Point := tail arr.

(** The CPU time per worker and second since the last sample. *)
Definition workerRate (now : num) (data : LineData) (s : Charts) : num :=
  let secondsSinceLastRefresh :=
    match lastRefresh s with
    | Some last => if truthy last then div (sub now last) (of_Z 1000) else of_Z 1
    | None => of_Z 1
    end in
  let secondsSinceLastRefresh :=
    if lt secondsSinceLastRefresh (of_Z 1) then of_Z 1 else secondsSinceLastRefresh in
  match lastWorker s with
  | Some last =>
      if truthy last
      then div (div (sub (totalCpuTimeSecs data) last) (activeWorkers data)) secondsSinceLastRefresh
      else of_Z 0
  | None => of_Z 0
  end.

(** The nine values of a sample. *)
Definition sampleOf (now : num) (data : LineData) (s : Charts) : list Value :=
  [Digits (to_fixed (mul (systemCpuLoad data) (of_Z 100)) 4); Num (reservedMemory data);
   Num (runningQueries data); Num (queuedQueries data); Num (blockedQueries data);
   Num (activeWorkers data); Num (runningDrivers data); Num (workerRate now data s);
   Num (totalInputBytes data)].

(** The point a sample has for each chart.  The clock is read for the rate, and
    then again for the time of every point. *)
Definition samplePoints (clock : nat -> Z) (data : LineData) (s : Charts) : list Point :=
  imap (fun k v => (label (clock (S k)), v)) (sampleOf (of_Z (clock 0%nat)) data s).

(** [chart: [...this.delete(chart), [time, value]]] for every chart. *)
Definition extend (sample : list Point) (cs : list (list Point)) : list (list Point) :=
  zip_with (fun c p => (dropFirst c ++ [p])%list) cs sample.

(** The listener; [clock] gives its readings of the clock.  Without an answer about
    the cluster it throws once the count is even, when the first point of the
    first chart is already gone.  The result says whether it threw. *)
Definition onChange (clock : nat -> Z) (store : Store) (s : Charts) : Charts * bool :=
  if Z.rem (Stores.OverviewStore.requestNum store) 2 =? 0 then
    let init := memoryInit s || bool_decide (is_Some (Stores.OverviewStore.memoryData store)) in
    match Stores.OverviewStore.lineData store with
    | Some data =>
        ({| checkStatus := checkStatus s; selectedItemList := selectedItemList s; step := step s;
            charts := extend (samplePoints clock data s) (charts s);
            lastWorker := Some (totalCpuTimeSecs data); lastRefresh := Some (of_Z (clock 0%nat));
            memoryInit := init |}, false)
    | None =>
        ({| checkStatus := checkStatus s; selectedItemList := selectedItemList s; step := step s;
            charts := alter dropFirst 0%nat (charts s); lastWorker := lastWorker s;
            lastRefresh := lastRefresh s; memoryInit := init |}, true)
    end
  else (s, false).

(** What a chart draws of its points. *)
Definition shown (s : Charts) (chart : list Point) : list Point :=
  if step s =? 10 then drop 1200 chart else if step s =? 20 then drop 600 chart else chart.

(** The choice of the last 10, 20 or 30 minutes, and the ticks of the axis. *)
Definition selected (selectedIndex : nat) (s : Charts) : Charts :=
  {| checkStatus := checkStatus s; selectedItemList := selectedItemList s;
     step := match selectedIndex with 0%nat => 10 | 1%nat => 20 | _ => 30 end;
     charts := charts s; lastWorker := lastWorker s; lastRefresh := lastRefresh s;
     memoryInit := memoryInit s |}.

Definition axisInterval (s : Charts) : num := div (mul (of_Z (60 * 1000)) (of_Z (step s))) (of_Z 10).

(** The label of a tick of the time axis. *)
Definition timeTick (value : Z) (index : nat) : string :=
  if Nat.eqb (index mod 2) 1 then "" else slice (label value) 11 16.
End Echart.

(** The menu of charts: exactly the selected ones are shown. *)
Definition changeList (selection : list (string * string)) (s : Charts) : Charts :=
  let off := fold_left (fun m item => <[item.2 := false]> m) itemList (checkStatus s) in
  let on := fold_left (fun m item => <[item.2 := true]> m) selection off in
  {| checkStatus := on; selectedItemList := selection; step := step s; charts := charts s;
     lastWorker := lastWorker s; lastRefresh := lastRefresh s; memoryInit := memoryInit s |}.

Definition changeState (name : string) (s : Charts) : Charts :=
  {| checkStatus := <[name := negb (default false (checkStatus s !! name))]> (checkStatus s);
     selectedItemList := selectedItemList s; step := step s; charts := charts s;
     lastWorker := lastWorker s; lastRefresh := lastRefresh s; memoryInit := memoryInit s |}.

Definition chartVisible (s : Charts) (name : string) : bool := default false (checkStatus s !! name).

(** The labels of the value axis; odd ticks are empty. *)
Definition valueTick (unit : string) (value : num) (index : nat) : string :=
  if Nat.eqb (index mod 2) 1 then ""
  else if streq unit "quantity" then formatCount value
  else if streq unit "bytes" then formatDataSizeBytes value
  else to_string value.

(** ** OverviewMain.jsx and NodesMain.jsx *)

(** [Number(totalNodeMemory.slice(0, -1))] *)
Definition nodeTotal (n : NodeMemory) : num := number_of_string (slice (totalNodeMemory n) 0 (-1)).

(** Both tables add the free bytes of the pools, in this order, starting at 0
    once there is a general pool; without one all memory counts as free. *)
Definition nodeFree (n : NodeMemory) : num :=
  match general n with
  | None => nodeTotal n
  | Some g =>
      let free := add (of_Z 0) (freeBytes g) in
      match reserved n with Some r => add free (freeBytes r) | None => free end
  end.

Definition nodeUsed (n : NodeMemory) : num :=
  match general n with
  | None => of_Z 0
  | Some g =>
      let used := add (of_Z 0) (reservedBytes g) in
      match reserved n with Some r => add used (reservedBytes r) | None => used end
  end.

(** A row of the overview: the key holds the node's name and, in brackets, its
    address. *)
Record OverviewRow := { o_id : string; o_ip : string; o_count : num; o_memory : num; o_free : num }.

Definition overviewRow (entry : string * NodeMemory) : OverviewRow :=
  let '(key, n) := entry in
  {| o_id := slice key 0 (index_of " " key); o_ip := slice key (index_of "[" key + 1) (index_of "]" key);
     o_count := availableProcessors n; o_memory := nodeTotal n; o_free := nodeFree n |}.

(** The summary; the loads are the number 0 before the first answer, here
    [None]. *)
Record Overview := {
  totalNodes : option nat;
  o_totalMemory : num;
  memoryUsed : num;
  o_processCpuLoad : option string;
  o_systemCpuLoad : option string;
  tableData : list OverviewRow
}.

Definition initialOverview : Overview :=
  {| totalNodes := Some 0%nat; o_totalMemory := of_Z 0; memoryUsed := of_Z 0; o_processCpuLoad := None;
     o_systemCpuLoad := None; tableData := [] |}.

Definition percent (load : num) : string := to_fixed (mul load (of_Z 100)) 2 ++ "%".

(** The test for [undefined] always holds, because an answer that is missing is
    null, so that without one about the cluster this throws. *)
Definition overviewOnChange (store : Store) (_ : Overview) : result Overview :=
  let table := overviewRow <$> default [] (Stores.OverviewStore.memoryData store) in
  line ← member (Stores.OverviewStore.lineData store) id;
  Ok {| totalNodes := length <$> Stores.OverviewStore.memoryData store;
        o_totalMemory := totalMemory line; memoryUsed := reservedMemory line;
        o_processCpuLoad := Some (percent (processCpuLoad line));
        o_systemCpuLoad := Some (percent (systemCpuLoad line)); tableData := table |}.

Record NodeRow := {
  r_id : string; r_ip : string; r_role : string; r_count : num;
  r_memory : num; r_free : num; r_used : num; r_state : string
}.

Definition nodeRow (entry : string * NodeMemory) : NodeRow :=
  let '(key, n) := entry in
  {| r_id := n_id n; r_ip := key; r_role := n_role n; r_count := availableProcessors n;
     r_memory := nodeTotal n; r_free := nodeFree n; r_used := nodeUsed n; r_state := n_state n |}.

Definition nodesOnChange (store : Store) : list NodeRow :=
  nodeRow <$> default [] (Stores.OverviewStore.memoryData store).

(** ** The dashboard

    An answer changes the store, which tells the charts first and the summary
    after them; an exception of the charts keeps it from the summary. *)

Inductive Answer := Cluster (data : LineData) | Memory (data : MemoryData).

Record Dashboard := { store : Store; echart : Charts; overview : Overview }.

Definition received (a : Answer) (s : Store) : Store :=
  match a with
  | Cluster d => Stores.OverviewStore.getData s (Ok d)
  | Memory d => Stores.OverviewStore.getMemoryData s (Ok d)
  end.

(** The new dashboard, and whether a listener threw. *)
Definition answer (calendar : Z -> DateFields) (now : nat -> Z) (a : Answer) (w : Dashboard) : Dashboard * bool :=
  let st := received a (store w) in
  let '(c, threw) := onChange calendar now st (echart w) in
  if threw then ({| store := st; echart := c; overview := overview w |}, true)
  else
    match overviewOnChange st (overview w) with
    | Throw _ => ({| store := st; echart := c; overview := overview w |}, true)
    | Ok o => ({| store := st; echart := c; overview := o |}, false)
    end.

(** A sequence of answers with the times they arrive at. *)
Fixpoint answers (calendar : Z -> DateFields) (log : list ((nat -> Z) * Answer)) (w : Dashboard) : Dashboard * bool :=
  match log with
  | [] => (w, false)
  | (now, a) :: log =>
      let '(w, threw) := answer calendar now a w in
      let '(w, threw') := answers calendar log w in (w, threw || threw')
  end.

Definition mountDashboard (calendar : Z -> DateFields) (reading : nat -> Z) : Dashboard :=
  {| store := Stores.OverviewStore.constructor; echart := setXAxis calendar reading initialCharts;
     overview := initialOverview |}.
