(* ===== verification/OverviewFacts.v ===== *)
(** * The dashboard: sliding windows, missing answers

    Lemmas and properties of Overview.v. *)

From S2P Require Import Prelude JsString Stores JsNumber Utils Overview.

(** ** Sliding windows *)

(** The last [length init] points of [init] followed by the new ones. *)
Definition window (init new : list Point) : list Point := drop (length new) (init ++ new)%list.

Lemma tail_drop {A} (l : list A) n : tail (drop n l) = drop (S n) l.
Proof. revert n. induction l as [|x l IH]; intros [|n]; try done. apply (IH n). Qed.

Lemma window_length init new : length (window init new) = length init.
Proof. unfold window. rw length_drop length_app. lia. Qed.

Lemma window_snoc init new p :
  init <> [] -> (dropFirst (window init new) ++ [p])%list = window init (new ++ [p])%list.
Proof.
  intros Hi. assert (length init <> 0)%nat by by destruct init. unfold window, dropFirst.
  rw tail_drop length_app. cbn [length]. rw Nat.add_1_r (app_assoc init).
  rw (drop_app_le (init ++ new) [p]); [|done]. rw length_app. lia.
Qed.

(** The samples taken while the answers of [log] arrive. *)
Definition sampleAt (calendar : Z -> DateFields) (now : nat -> Z) (a : Answer) (w : Dashboard) :
    list (list Point) :=
  let st := received a (store w) in
  if Z.rem (Stores.OverviewStore.requestNum st) 2 =? 0 then
    match Stores.OverviewStore.lineData st with
    | Some data => [samplePoints calendar now data (echart w)]
    | None => []
    end
  else [].

Fixpoint samples (calendar : Z -> DateFields) (log : list ((nat -> Z) * Answer)) (w : Dashboard) :
    list (list Point) :=
  match log with
  | [] => []
  | (now, a) :: log => (sampleAt calendar now a w ++ samples calendar log (answer calendar now a w).1)%list
  end.

(** The points of chart [k]; a sample has one for each of the nine. *)
Definition points (k : nat) (ss : list (list Point)) : list Point :=
  omap (fun s => s !! k) ss.

Lemma points_app k ss ss' : points k (ss ++ ss') = (points k ss ++ points k ss')%list.
Proof. apply omap_app. Qed.

Section Windows.
Variables (calendar : Z -> DateFields) (init : list Point).
Hypothesis Hinit : init <> [].

(** Every chart is the window of the samples taken so far. *)
Definition windows (ss : list (list Point)) (cs : list (list Point)) : Prop :=
  length cs = 9%nat /\ forall k c, cs !! k = Some c -> c = window init (points k ss).

Lemma extend_windows ss cs sample :
  length sample = 9%nat -> windows ss cs -> windows (ss ++ [sample]) (extend sample cs).
Proof.
  intros Hv [Hl Hw]. unfold extend. split; [rw length_zip_with; lia|]. intros k c Hc.
  apply lookup_zip_with_Some in Hc as (old & p & -> & Ho & Hk). rw (Hw k old Ho) points_app.
  assert (points k [sample] = [p]) as -> by (unfold points; cbn; by rw Hk).
  by apply window_snoc.
Qed.

Lemma onChange_windows now st s ss :
  Stores.OverviewStore.lineData st <> None -> windows ss (charts s) ->
  (onChange calendar now st s).2 = false /\
  step (onChange calendar now st s).1 = step s /\
  windows (ss ++ (if Z.rem (Stores.OverviewStore.requestNum st) 2 =? 0 then
            match Stores.OverviewStore.lineData st with
            | Some data => [samplePoints calendar now data s]
            | None => []
            end else [])) (charts (onChange calendar now st s).1).
Proof.
  intros Hd Hw. unfold onChange. destruct (Z.rem _ 2 =? 0); [|by rw app_nil_r].
  destruct (Stores.OverviewStore.lineData st) as [data|]; [|done]. split; [done|split; [done|]].
  by apply extend_windows.
Qed.
End Windows.

(** ** Answers *)

Lemma received_line a st :
  Stores.OverviewStore.lineData st <> None -> Stores.OverviewStore.lineData (received a st) <> None.
Proof. by destruct a. Qed.

Lemma received_count a st :
  Stores.OverviewStore.requestNum (received a st) = Stores.OverviewStore.requestNum st + 1.
Proof. by destruct a. Qed.

(** An answer about the cluster is there, or comes first. *)
Definition ready (log : list ((nat -> Z) * Answer)) (w : Dashboard) : Prop :=
  match log with
  | [] => True
  | (_, a) :: _ => Stores.OverviewStore.lineData (received a (store w)) <> None
  end.

Section Run.
Variables (calendar : Z -> DateFields) (init : list Point).
Hypothesis Hinit : init <> [].

Lemma answer_ok now a w ss :
  Stores.OverviewStore.lineData (received a (store w)) <> None -> windows init ss (charts (echart w)) ->
  (answer calendar now a w).2 = false /\
  store (answer calendar now a w).1 = received a (store w) /\
  windows init (ss ++ sampleAt calendar now a w) (charts (echart (answer calendar now a w).1)).
Proof.
  intros Hd Hw. destruct (onChange_windows calendar init Hinit now _ _ ss Hd Hw) as (Ht & _ & Hw').
  unfold answer, sampleAt. destruct (onChange calendar now (received a (store w)) (echart w)) as [c threw].
  cbn in Ht, Hw'. subst threw. unfold overviewOnChange.
  destruct (Stores.OverviewStore.lineData (received a (store w))) as [data|] eqn:Hl; [|done].
  done.
Qed.

Lemma answers_ok log w ss :
  ready log w -> windows init ss (charts (echart w)) ->
  (answers calendar log w).2 = false /\
  windows init (ss ++ samples calendar log w) (charts (echart (answers calendar log w).1)).
Proof.
  revert w ss. induction log as [|[now a] log IH]; intros w ss Hr Hw; [by rw app_nil_r|].
  cbn in Hr. destruct (answer_ok now a w ss Hr Hw) as (Ht & Hst & Hw'). cbn [answers samples].
  destruct (answer calendar now a w) as [w' threw]. cbn in Ht, Hst, Hw'. subst threw.
  destruct (IH w' (ss ++ sampleAt calendar now a w)%list) as [Ht' Hw'']; [|done|].
  { destruct log as [|[t b] log]; [done|]. cbn. rw Hst. by apply received_line. }
  destruct (answers calendar log w') as [w'' threw]. cbn in *. split; [done|]. by rw app_assoc.
Qed.

(** A sample for every second answer. *)
Lemma samples_count log w n :
  ready log w -> Stores.OverviewStore.requestNum (store w) = Z.of_nat n ->
  Z.of_nat (length (samples calendar log w)) = (Z.of_nat n + Z.of_nat (length log)) / 2 - Z.of_nat n / 2.
Proof.
  revert w n. induction log as [|[now a] log IH]; intros w n Hr Hn.
  { cbn [samples length]. rw Z.add_0_r. lia. }
  cbn in Hr. assert (Hst : store (answer calendar now a w).1 = received a (store w)).
  { unfold answer. destruct (onChange _ _ _ _) as [c []]; [done|]. by destruct (overviewOnChange _ _). }
  cbn [samples]. rw length_app Nat2Z.inj_add (IH _ (S n)).
  - destruct log as [|[t b] log]; [done|]. cbn. rw Hst. by apply received_line.
  - rw Hst received_count Hn. lia.
  - unfold sampleAt. rw received_count Hn.
    destruct (Stores.OverviewStore.lineData (received a (store w))); [|done]. cbn [length].
    destruct (Z.eqb_spec (Z.rem (Z.of_nat n + 1) 2) 0) as [He|He]; cbn [length];
      (rw Z.rem_mod_nonneg in He; [lia|lia|]); Z.div_mod_to_equations; lia.
Qed.
End Run.

(** ** The property *)

Lemma axis_length calendar reading : length (axis calendar reading) = 1800%nat.
Proof. unfold axis. by rw length_rev length_fmap length_seq. Qed.

Lemma shown_length s c : length c = 1800%nat ->
  forall i, length (shown (selected i s) c) = (600 * S (Nat.min i 2))%nat /\
            exists older, c = (older ++ shown (selected i s) c)%list.
Proof.
  intros Hc i. destruct i as [|[|i]].
  - change (shown (selected 0 s) c) with (drop 1200 c). rw length_drop Hc. split; [done|].
    exists (take 1200 c). by rw take_drop.
  - change (shown (selected 1 s) c) with (drop 600 c). rw length_drop Hc. split; [done|].
    exists (take 600 c). by rw take_drop.
  - change (shown (selected (S (S i)) s) c) with c. rw Nat.min_r; [lia|]. split; [done|]. by exists [].
Qed.

(** The charts are sliding windows.  When the first answer is the one about
    the cluster, no listener ever throws, whatever is answered later; a sample
    is taken with every second answer; each of the nine charts holds exactly
    1800 points, the last of the half hour of zeros it starts with followed by
    its samples in order; and choosing the last 10, 20 or 30 minutes shows the
    newest 600, 1200 or 1800 of them.  When the first answer is the one about the
    memory, the summary throws and stays as it was; after two of them the first
    chart has lost a point. *)
Theorem charts_window calendar reading now :
  let w0 := mountDashboard calendar reading in
  (forall d log,
     let log := ((now, Cluster d) :: log)%list in
     let w := (answers calendar log w0).1 in
     let ss := samples calendar log w0 in
     (answers calendar log w0).2 = false /\
     Z.of_nat (length ss) = Z.of_nat (length log) / 2 /\
     length (charts (echart w)) = 9%nat /\
     forall k c, charts (echart w) !! k = Some c ->
       c = window (axis calendar reading) (points k ss) /\ length c = 1800%nat /\
       forall i, length (shown (selected i (echart w)) c) = (600 * S (Nat.min i 2))%nat /\
                 exists older, c = (older ++ shown (selected i (echart w)) c)%list) /\
  (forall m m' now',
     let w1 := (answer calendar now (Memory m) w0).1 in
     (answer calendar now (Memory m) w0).2 = true /\ overview w1 = overview w0 /\
     exists c, charts (echart (answer calendar now' (Memory m') w1).1) !! 0%nat = Some c /\
               length c = 1799%nat).
Proof.
  cbv zeta. assert (Hne : axis calendar reading <> []).
  { intros He. pose proof (axis_length calendar reading) as Hl. by rw He in Hl. }
  split.
  - intros d log. set (full := ((now, Cluster d) :: log)%list). set (w0 := mountDashboard calendar reading).
    assert (Hw0 : windows (axis calendar reading) [] (charts (echart w0))).
    { split; [done|]. intros k c Hc. apply lookup_replicate in Hc as [-> _]. change (points k []) with (@nil Point). unfold window. by rw app_nil_r. }
    assert (Hr : ready full w0) by done.
    destruct (answers_ok calendar _ Hne full w0 [] Hr Hw0) as (Ht & Hl & Hw).
    split; [done|]. split; [|split; [done|]].
    + rw (samples_count calendar full w0 0) //. change (Z.of_nat 0 / 2) with 0. by rw Z.sub_0_r.
    + intros k c Hc. rw (Hw k c Hc). split; [done|].
      assert (Hlen : length (window (axis calendar reading) (points k ([] ++ samples calendar full w0)))
        = 1800%nat) by by rw window_length axis_length.
      split; [done|]. by apply shown_length.
  - intros m m' now'. split; [done|split; [done|]]. eexists. split; [reflexivity|].
    unfold dropFirst. rw -(skipn_O (axis calendar reading)) tail_drop length_drop axis_length. done.
Qed.

(** ** The menu of charts *)

Lemma switch_all (b : bool) (items : list (string * string)) (m : gmap string bool) name :
  fold_left (fun m item => <[item.2 := b]> m) items m !! name =
    if bool_decide (name ∈ items.*2) then Some b else m !! name.
Proof.
  revert m. induction items as [|item items IH]; intros m; cbn [fold_left]; [done|].
  rw IH fmap_cons. destruct (decide (name ∈ items.*2)) as [Hi|Hi].
  - rw !bool_decide_eq_true_2 //. by right.
  - rw (bool_decide_eq_false_2 (name ∈ items.*2)) //. destruct (decide (name = item.2)) as [->|Hn].
    + rw lookup_insert_eq bool_decide_eq_true_2 //. by left.
    + rw lookup_insert_ne //. rw bool_decide_eq_false_2 //. by intros [?|?]%elem_of_cons.
Qed.

(** The charts of the menu that are shown are the selected ones. *)
Lemma changeList_visible selection s name :
  name ∈ itemList.*2 ->
  chartVisible (changeList selection s) name = bool_decide (name ∈ selection.*2).
Proof.
  intros Hn. unfold chartVisible, changeList. cbn [checkStatus]. rw !switch_all (bool_decide_eq_true_2 _ Hn).
  by case_bool_decide.
Qed.
