(* ===== verification/RunTables.v ===== *)
(** * RunsTable.jsx, CollectionTable.jsx, MySavedQueries.jsx

    The tables of the query editor's tabs: the cells of a run, the button that
    collects its query, the pages of the collection and the saved queries. *)

From S2P Require Import Prelude JsString Http JsNumber RunStore.

(** ** RunsTable.jsx *)

Record SessionContext := { catalog : string; schema : string; properties : list (string * string) }.

Record QueryStats := { elapsedTime : string; progressPercentage : option num }.

(** A run has no context before it is executed. *)
Record Run := {
  uuid : string;
  user : string;
  state : string;
  query : string;
  sessionContext : option SessionContext;
  infoUri : option string;
  queryStarted : string;
  queryStats : option QueryStats;
  output : option (option string);       (* the output, and its location *)
  error : option string                  (* error.message *)
}.

(** The rows show the newest run, the last of the store's, on top; [None] is
    what a row past the end would show. *)
Definition descIndex (runs : list Run) (rowIndex : nat) : Z :=
  Z.of_nat (length runs) - Z.of_nat rowIndex - 1.

Definition runAt (runs : list Run) (rowIndex : nat) : option Run :=
  let i := descIndex runs rowIndex in if i <? 0 then None else runs !! Z.to_nat i.

Definition getProgressFromStats (stats : option QueryStats) : num :=
  match stats with
  | Some s => match progressPercentage s with
              | Some p => if truthy p then p else of_Z 0
              | None => of_Z 0
              end
  | None => of_Z 0
  end.

(** ProgressBar.jsx: the width of the bar and its text. *)
Definition progressText (progress : num) : string := to_string (math_round progress) ++ "%".

(** [indexOf(p) == 0] *)
Definition starts_with (p s : string) : bool := streq (substring s 0 (strlen p)) p.

Inductive OutputCell :=
  | Download (location query : string) (context : option SessionContext)
  | TableLink (location : string)
  | Progress (progress : num) (kill : option string)
  | QueryError (message : string)
  | Nothing.

Definition isAddress (location : string) : bool :=
  starts_with "/" location || contains_str "http" location || starts_with ".." location.

Definition outputCell (currentUser : option string) (run : Run) : OutputCell :=
  let killable := bool_decide (currentUser = Some (user run)) in
  let failed := streq (state run) RunStateConstants.FAILED in
  let location := default "" (default None (output run)) in
  if negb (streq location "") && negb failed then
    if isAddress location then Download location (query run) (sessionContext run) else TableLink location
  else if streq (state run) "RUNNING" || streq (state run) RunStateConstants.QUEUED ||
          streq (state run) RunStateConstants.RESCHEDULING || streq (state run) RunStateConstants.RESUMING
  then Progress (getProgressFromStats (queryStats run)) (if killable then Some (uuid run) else None)
  else if failed then QueryError (default "Unknown" (error run))
  else Nothing.

(** The class and the text of the status label. *)
Definition statusLabel (run : Run) : string * string :=
  if streq (state run) RunStateConstants.FAILED then ("label-danger", "FAILED")
  else if streq (state run) RunStateConstants.FINISHED then ("label-success", state run)
  else if streq (state run) RunStateConstants.QUEUED then ("label-default", state run)
  else ("label-info", state run).

Definition statusLink (run : Run) : string :=
  match infoUri run with Some uri => if streq uri "" then "#" else uri | None => "#" end.

(** The tooltip and the text of the context. *)
Definition contextTitle (c : SessionContext) : string :=
  fold_left (fun title '(key, value) => title ++ "  " ++ key ++ " = " ++ value) (properties c)
    ("Catalog: " ++ catalog c ++ String "010" "" ++ "Schema: " ++ schema c ++ String "010" "" ++
     "Properties: " ++ String "010" "").
Definition contextText (c : SessionContext) : string := catalog c ++ "." ++ schema c.

(** The component; a hole of [isCollected] is [None]. *)
Record RunsTable := {
  currentErrorMessage : option string;
  showModal : bool;
  runs : list Run;
  isCollected : list (option Z)
}.

Definition initialRuns (rs : list Run) : RunsTable :=
  {| currentErrorMessage := None; showModal := false; runs := rs; isCollected := [] |}.

(** The store's runs, when it or the user store changes. *)
Definition onRuns (rs : list Run) (s : RunsTable) : RunsTable :=
  {| currentErrorMessage := currentErrorMessage s; showModal := showModal s; runs := rs;
     isCollected := isCollected s |}.

Definition toggleModal (msg : option string) (s : RunsTable) : RunsTable :=
  {| currentErrorMessage := if showModal s then None else msg; showModal := negb (showModal s);
     runs := runs s; isCollected := isCollected s |}.

(** [rowGetter], which runs for every cell that is drawn. *)
Definition rowGetter (rowIndex : nat) (s : RunsTable) : RunsTable * option Run :=
  ({| currentErrorMessage := currentErrorMessage s; showModal := showModal s; runs := runs s;
      isCollected := (isCollected s ++ [Some 0])%list |}, runAt (runs s) rowIndex).

(** [xs[i] = v] with the holes it leaves. *)
Definition assignAt (i : nat) (v : Z) (l : list (option Z)) : list (option Z) :=
  if (i <? length l)%nat then <[i := Some v]> l
  else (l ++ replicate (i - length l) None ++ [Some v])%list.

Inductive Effect := Alert (message : string) | Send (request : Request).

(** The button of the run at [rowIndex] (its index in the list of runs), in the
    context the run was drawn with. *)
Definition handleCollection (metaStoreType : string) (rowIndex : nat) (queryText : string)
    (context : SessionContext) (s : RunsTable) : RunsTable * Effect :=
  let encoded := encodeURIComponent queryText in
  if 10000 <? strlen encoded
  then (s, Alert "Error! Your SQL statement is too long! Please shorten it!")
  else if negb (streq metaStoreType "jdbc")
  then (s, Alert "Collection failed! Only hetu-metastore storage type configured as JDBC is supported!")
  else
    let put v := {| currentErrorMessage := currentErrorMessage s; showModal := showModal s;
                    runs := runs s; isCollected := assignAt rowIndex v (isCollected s) |} in
    if bool_decide (isCollected s !! rowIndex = Some (Some 0))
    then (put 1, Send (CollectionActions.addToCollection encoded (catalog context) (schema context)))
    else (put 0, Send (CollectionActions.deleteCollection encoded (catalog context) (schema context))).

(** ** CollectionTable.jsx *)

Record Collected := { c_query : string; c_catalog : string; c_schemata : string }.

Record CollectionTable := {
  pageSize : Z;
  total : Z;
  currentPage : Z;
  allCollection : option (list Collected);   (* null without a collection *)
  metaStoreType : string
}.

Definition initialCollection : CollectionTable :=
  {| pageSize := 10; total := 0; currentPage := 1; allCollection := Some []; metaStoreType := "" |}.

(** The request of [refreshData]. *)
Definition refreshRequest (s : CollectionTable) : string :=
  "../v1/myCollection/collection/query?" ++ "pageSize=" ++ show_Z (pageSize s) ++ "&&" ++ "pageNum=" ++
  show_Z (currentPage s).

Definition onCollection (queries : option (list Collected)) (n : Z) (s : CollectionTable) : CollectionTable :=
  {| pageSize := pageSize s; total := n; currentPage := currentPage s; allCollection := queries;
     metaStoreType := metaStoreType s |}.

(** The page and its size are assigned, and the refresh is deferred. *)
Definition onPageChange (current : Z) (s : CollectionTable) : CollectionTable :=
  {| pageSize := pageSize s; total := total s; currentPage := current; allCollection := allCollection s;
     metaStoreType := metaStoreType s |}.

Definition onPageSizeChange (size : Z) (s : CollectionTable) : CollectionTable :=
  {| pageSize := size; total := total s; currentPage := currentPage s; allCollection := allCollection s;
     metaStoreType := metaStoreType s |}.

Definition onMetaStoreType (type : string) (s : CollectionTable) : CollectionTable * list Effect :=
  ({| pageSize := pageSize s; total := total s; currentPage := currentPage s;
      allCollection := allCollection s; metaStoreType := type |},
   if streq type "jdbc" then []
   else [Alert "Collection failed! Only hetu-metastore storage type configured as JDBC is supported!"]).

(** The delete button of a row: the row is the identifier of what was clicked,
    and without one there is no such row.  The query goes out as it is. *)
Definition handleDeleteButton (target : option nat) (s : CollectionTable) : result Effect :=
  rows ← member (allCollection s) id;
  row ← member (rowIndex ← target; rows !! rowIndex) id;
  Ok (Send (CollectionActions.deleteCollection (c_query row) (c_catalog row) (c_schemata row))).

Definition rowsCount (s : CollectionTable) : Z :=
  let compare := total s - (currentPage s - 1) * pageSize s in
  if compare <? pageSize s then compare else pageSize s.

(** The cells of a row read the row at its index. *)
Definition collectionCells (rowIndex : nat) (s : CollectionTable) : result (string * string) :=
  rows ← member (allCollection s) id;
  row ← member (rows !! rowIndex) id;
  Ok (c_catalog row ++ "." ++ c_schemata row, c_query row).

(** The whole table, when the rows it announces can be drawn. *)
Definition renderCollection (s : CollectionTable) : result (list (string * string)) :=
  match allCollection s with
  | None => Ok []
  | Some _ => mapM_result (fun i => collectionCells i s) (seq 0 (Z.to_nat (rowsCount s)))
  end.

(** ** MySavedQueries.jsx *)

(** The lines of the box of a saved query, and its height in pixels. *)
Definition linesToShow (maxNumOfQueryLines : Z) (queryText : string) : Z :=
  let noOfLinesInQuery := Z.of_nat (length (split "010" queryText)) - 1 in
  let linesToShow := if maxNumOfQueryLines <? noOfLinesInQuery then maxNumOfQueryLines else noOfLinesInQuery in
  if linesToShow <=? 1 then 2 else linesToShow.

Definition boxHeight (maxQueryLines : option Z) (queryText : string) : Z :=
  linesToShow (default 20 maxQueryLines) queryText * 20.
