(* ===== verification/RunTablesFacts.v ===== *)
(** * The tables of the query editor: collecting a query, pages of the collection

    Lemmas and properties of RunTables.v. *)

From S2P Require Import Prelude JsString Http JsNumber RunStore RunTables.

(** ** The collect button *)

Section Collect.
Variables (i : nat) (q : string) (c : SessionContext).
Hypothesis Hshort : strlen (encodeURIComponent q) <= 10000.

Definition addRequest : Effect :=
  Send (CollectionActions.addToCollection (encodeURIComponent q) (catalog c) (schema c)).
Definition deleteRequest : Effect :=
  Send (CollectionActions.deleteCollection (encodeURIComponent q) (catalog c) (schema c)).

(** [n] cells are drawn. *)
Definition drawn (n : nat) (s : RunsTable) : RunsTable := Nat.iter n (fun s => (rowGetter 0 s).1) s.

(** The button is pressed again and again, with cells drawn before each press. *)
Fixpoint presses (draws : list nat) (s : RunsTable) : list Effect :=
  match draws with
  | [] => []
  | n :: draws =>
      let '(s, e) := handleCollection "jdbc" i q c (drawn n s) in e :: presses draws s
  end.

Fixpoint alternating (add : bool) (n : nat) : list Effect :=
  match n with
  | O => []
  | S n => (if add then addRequest else deleteRequest) :: alternating (negb add) n
  end.

Lemma drawn_collected n s :
  isCollected (drawn n s) = (isCollected s ++ replicate n (Some 0))%list.
Proof.
  induction n as [|n IH]; [by rw app_nil_r|]. unfold drawn in *. cbn. rw IH -app_assoc. f_equal.
  clear IH. induction n as [|n IH]; [done|]. cbn. by rw IH.
Qed.

Lemma assignAt_lookup v l : assignAt i v l !! i = Some (Some v).
Proof.
  unfold assignAt. destruct (Nat.ltb_spec i (length l)) as [Hi|Hi]; [by apply list_lookup_insert_eq|].
  rw lookup_app_r //. rw lookup_app_r; [by rw length_replicate|]. by rw length_replicate Nat.sub_diag.
Qed.

(** A press, by what is kept of the run. *)
Lemma press_spec s :
  let add := bool_decide (isCollected s !! i = Some (Some 0)) in
  (handleCollection "jdbc" i q c s).2 = (if add then addRequest else deleteRequest) /\
  isCollected (handleCollection "jdbc" i q c s).1 !! i = Some (Some (if add then 1 else 0)).
Proof.
  cbv zeta. unfold handleCollection. assert ((10000 <? strlen (encodeURIComponent q)) = false) as -> by lia.
  cbn [streq negb]. change (negb (streq "jdbc" "jdbc")) with false. cbv iota.
  case_bool_decide; (split; [done|]); apply assignAt_lookup.
Qed.

Lemma presses_kept draws s (b : bool) :
  isCollected s !! i = Some (Some (if b then 0 else 1)) -> presses draws s = alternating b (length draws).
Proof.
  revert s b. induction draws as [|n draws IH]; intros s b Hi; [done|]. cbn [presses length alternating].
  assert (Hd : isCollected (drawn n s) !! i = Some (Some (if b then 0 else 1))).
  { rw drawn_collected. by apply lookup_app_l_Some. }
  destruct (press_spec (drawn n s)) as [He Hk].
  destruct (handleCollection "jdbc" i q c (drawn n s)) as [s' e]. cbn in He, Hk. rw Hd in He Hk.
  destruct b; cbn in He, Hk; subst e; f_equal; [by apply (IH _ false)|by apply (IH _ true)].
Qed.

(** The collect button of a run alternates between adding the query to
    the collection and deleting it, whatever is drawn between the presses, but
    what the first press does depends on how many cells were drawn before it:
    with more cells than the index of the run it adds the query, and otherwise it
    asks the server to delete a query that was never added. *)
Theorem collect_button rs k draws :
  presses (k :: draws) (initialRuns rs) = alternating (i <? k)%nat (S (length draws)).
Proof.
  cbn [presses alternating]. destruct (press_spec (drawn k (initialRuns rs))) as [He Hk].
  destruct (handleCollection "jdbc" i q c (drawn k (initialRuns rs))) as [s' e]. cbn in He, Hk.
  rw drawn_collected in He Hk. cbn [isCollected initialRuns app] in He, Hk.
  assert (bool_decide (replicate k (Some 0) !! i = Some (Some 0)) = (i <? k)%nat) as Hb.
  { destruct (Nat.ltb_spec i k) as [Hi|Hi].
    - apply bool_decide_eq_true_2. by apply lookup_replicate_2.
    - apply bool_decide_eq_false_2. intros [_ Hl]%lookup_replicate. lia. }
  rw Hb in He Hk. subst e. f_equal. destruct (i <? k)%nat; [by apply (presses_kept _ _ false)|].
  by apply (presses_kept _ _ true).
Qed.
End Collect.

Lemma collect_button_witness :
  let c := {| catalog := "hive"; schema := "default"; properties := [] |} in
  presses 99 "select 1" c [80; 80]%nat (initialRuns []) =
    [deleteRequest "select 1" c; addRequest "select 1" c].
Proof. intros c. apply (collect_button 99 "select 1" c). by apply (bool_decide_unpack _); vm_compute. Defined.

(** ** Pages of the collection *)

(** What the server answers for a page. *)
Definition pageOf (all : list Collected) (page size : Z) : list Collected :=
  take (Z.to_nat size) (drop (Z.to_nat ((page - 1) * size)) all).

(** The table after the answer to its request. *)
Definition answered (all : list Collected) (s : CollectionTable) : CollectionTable :=
  onCollection (Some (pageOf all (currentPage s) (pageSize s))) (Z.of_nat (length all)) s.

Definition cells (row : Collected) : string * string := (c_catalog row ++ "." ++ c_schemata row, c_query row).

Lemma collectionCells_spec rows s k :
  allCollection s = Some rows ->
  collectionCells k s = match rows !! k with Some row => Ok (cells row) | None => Throw TypeError end.
Proof. intros Hs. unfold collectionCells. rw Hs. cbn. by destruct (rows !! k). Qed.

Lemma mapM_throw {A B} (f : A -> result B) l e :
  (forall x, x ∈ l -> (exists y, f x = Ok y) \/ f x = Throw e) -> (exists x, x ∈ l /\ f x = Throw e) ->
  mapM_result f l = Throw e.
Proof.
  induction l as [|x l IH]; intros Hall (z & Hz & Hf); [by apply elem_of_nil in Hz|]. cbn.
  destruct (Hall x) as [[y Hy]|Hx]; [by left| |by rw Hx]. rw Hy. cbn. rw IH; [| |done].
  - intros x' Hx'. apply Hall. by right.
  - apply elem_of_cons in Hz as [->|Hz]; [congruence|]. by exists z.
Qed.

Lemma mapM_cells rows s :
  allCollection s = Some rows ->
  mapM_result (fun i => collectionCells i s) (seq 0 (length rows)) = Ok (cells <$> rows).
Proof.
  intros Hs. apply mapM_result_spec. apply Forall2_same_length_lookup_2.
  - by rw length_seq length_fmap.
  - intros k j y Hj Hy. apply lookup_seq in Hj as [-> _]. rw list_lookup_fmap in Hy.
    rw (collectionCells_spec rows) //. cbn. destruct (rows !! k); [|done]. by injection Hy as <-.
Qed.

Lemma pageOf_length all page size :
  0 < size -> 1 <= page -> (page - 1) * size <= Z.of_nat (length all) ->
  Z.of_nat (length (pageOf all page size)) = Z.min size (Z.of_nat (length all) - (page - 1) * size).
Proof. intros Hs Hp Hle. unfold pageOf. rw length_take length_drop. nia. Qed.

(** C40.  A page of the collection is drawn completely: once the request of the
    page and size set is answered, the table has exactly one row for each query
    of that page of the server's list.  Between a change of the page and its
    answer the old rows are drawn with the new page's number of rows: when the
    page left was not full and the page chosen is, drawing throws. *)
Theorem collection_rows all s :
  0 < pageSize s -> 1 <= currentPage s -> (currentPage s - 1) * pageSize s <= Z.of_nat (length all) ->
  renderCollection (answered all s) = Ok (cells <$> pageOf all (currentPage s) (pageSize s)) /\
  rowsCount (answered all s) = Z.of_nat (length (pageOf all (currentPage s) (pageSize s))) /\
  (forall page,
     1 <= page -> page * pageSize s <= Z.of_nat (length all) ->
     Z.of_nat (length (pageOf all (currentPage s) (pageSize s))) < pageSize s ->
     renderCollection (onPageChange page (answered all s)) = Throw TypeError).
Proof.
  intros Hs Hp Hle. set (rows := pageOf all (currentPage s) (pageSize s)).
  pose proof (pageOf_length all _ _ Hs Hp Hle) as Hlen. fold rows in Hlen.
  assert (Hcount : rowsCount (answered all s) = Z.of_nat (length rows)).
  { unfold rowsCount, answered. cbn. destruct (Z.ltb_spec (Z.of_nat (length all) - (currentPage s - 1) * pageSize s) (pageSize s)); lia. }
  split; [|split; [done|]].
  - unfold renderCollection. cbn [allCollection answered onCollection]. rw Hcount Nat2Z.id.
    by apply mapM_cells.
  - intros page H1 Hfull Hshort. fold rows in Hshort. unfold renderCollection. cbn [allCollection answered onCollection onPageChange].
    assert (rowsCount (onPageChange page (answered all s)) = pageSize s) as ->.
    { unfold rowsCount, answered. cbn. destruct (Z.ltb_spec (Z.of_nat (length all) - (page - 1) * pageSize s) (pageSize s)); lia. }
    apply mapM_throw.
    + intros k _. rw (collectionCells_spec rows) //. destruct (rows !! k); eauto.
    + exists (length rows). split; [apply elem_of_seq; lia|].
      by rw (collectionCells_spec rows) // lookup_ge_None_2.
Qed.

Lemma collection_rows_witness :
  let row n := {| c_query := n; c_catalog := "hive"; c_schemata := "default" |} in
  let all := [row "a"; row "b"; row "c"] in
  let s := onPageChange 2 (onPageSizeChange 2 initialCollection) in
  renderCollection (answered all s) = Ok [("hive.default", "c")] /\
  renderCollection (onPageChange 1 (answered all s)) = Throw TypeError.
Proof.
  intros row all s. destruct (collection_rows all s) as (Hr & _ & Ht); [by vm_compute..|].
  split; [exact Hr|]. by apply Ht; vm_compute.
Defined.

(** ** Saved queries *)

(** The box of a saved query has two lines at least and the maximum at most. *)
Lemma linesToShow_bounds m q : 2 <= m -> 2 <= linesToShow m q <= m.
Proof.
  intros Hm. unfold linesToShow. destruct (Z.ltb_spec m (Z.of_nat (length (split "010" q)) - 1)).
  - destruct (Z.leb_spec m 1); lia.
  - destruct (Z.leb_spec (Z.of_nat (length (split "010" q)) - 1) 1); lia.
Qed.

(** ** Cells *)

(** Only the owner of a run gets the button that kills it, and only while the
    run is under way; a result is offered only of a run that has not failed. *)
Lemma outputCell_spec currentUser run :
  (forall p id, outputCell currentUser run = Progress p (Some id) ->
     currentUser = Some (user run) /\ id = uuid run /\
     state run ∈ ["RUNNING"; "QUEUED"; "RESCHEDULING"; "RESUMING"]) /\
  (forall l q c, outputCell currentUser run = Download l q c ->
     output run = Some (Some l) /\ state run <> "FAILED" /\ isAddress l = true) /\
  (state run = "FAILED" -> outputCell currentUser run = QueryError (default "Unknown" (error run))).
Proof.
  unfold outputCell, RunStateConstants.FAILED, RunStateConstants.QUEUED, RunStateConstants.RESCHEDULING,
    RunStateConstants.RESUMING.
  split; [|split].
  - intros p id. destruct (_ && _); [by destruct (isAddress _)|].
    destruct (streq_spec (state run) "RUNNING") as [->|]; [|destruct (streq_spec (state run) "QUEUED") as [->|];
      [|destruct (streq_spec (state run) "RESCHEDULING") as [->|];
        [|destruct (streq_spec (state run) "RESUMING") as [->|]; [|by destruct (streq (state run) "FAILED")]]]];
      cbn [orb]; case_bool_decide; intros [=]; (split; [done|split; [done|]]);
      by apply (bool_decide_unpack _); vm_compute.
  - intros l q c. destruct (streq_spec (default "" (default None (output run))) "") as [|Hl]; cbn [negb andb].
    + destruct (_ || _); [done|]. by destruct (streq (state run) "FAILED").
    + destruct (streq_spec (state run) "FAILED") as [|Hf]; cbn [negb andb].
      * by destruct (_ || _).
      * destruct (isAddress _) eqn:Ha; [|done]. intros [= <- _ _]. split; [|done].
        by destruct (output run) as [[l'|]|].
  - intros ->. cbn. by rw andb_false_r.
Qed.
