(* ===== verification/PageHeader.v ===== *)
(** * components/PageTitle.jsx and components/QueryHeader.jsx

    The title bar of the pages, a refresh loop that asks for the server's
    version and shows whether it answers, and the header of a query with its
    buttons. *)

From S2P Require Import Prelude JsString Timers RefreshLoop.

(** ** PageTitle.jsx *)

Record Info := { version : string; environment : string; uptime : string }.

Record Title := {
  noConnection : bool;
  lightShown : bool;
  info : option Info;
  lastSuccess : Z;
  modalShown : bool;
  errorText : option string
}.

Definition initialTitle (now : Z) : Title :=
  {| noConnection := false; lightShown := false; info := None; lastSuccess := now; modalShown := false;
     errorText := None |}.

(** A request ends with the information, or with an error; [now] is the reading
    of the clock. *)
Inductive Fetched := Received (i : Info) (now : Z) | Failed (error : string) (now : Z).

Definition onInfo (i : Info) (now : Z) (s : Title) : Title :=
  {| noConnection := false; lightShown := lightShown s; info := Some i; lastSuccess := now;
     modalShown := false; errorText := errorText s |}.

(** [fail || ...]: the error is an object, so the time since the last success
    does not matter. *)
Definition onFail (error : string) (now : Z) (s : Title) : Title :=
  let fail := true in
  let modal := negb (modalShown s) && (fail || (30 * 1000 <? now - lastSuccess s)) in
  {| noConnection := true; lightShown := negb (lightShown s); info := info s; lastSuccess := lastSuccess s;
     modalShown := modal || modalShown s; errorText := Some error |}.

Definition onFetched (r : Fetched) (s : Title) : Title :=
  match r with Received i now => onInfo i now s | Failed e now => onFail e now s end.

(** Every request is answered in one of the two ways; the title never stops. *)
#[export] Instance title_loop : RefreshLoop Title unit Fetched := {
  capture := fun _ => tt;
  on_answer := fun _ r s => onFetched r s;
  on_fail := fun s => s;
  stopped := fun _ => false;
  interval := 1000;
  recovers := true
}.

Inductive Light := Green | Red | Off.

Definition renderStatusLight (s : Title) : Light :=
  if noConnection s then if lightShown s then Red else Off else Green.

(** ** QueryHeader.jsx *)

(** The button that sends one request.  Its [complete] callback is a plain
    function: jQuery calls it with another [this], which has no [setState], so
    that nothing enables the button again. *)
Record Button := { isButtonDisabled : bool; uri : string; b_label : string }.

Definition sendRequest (b : Button) : Button * (string * string) :=
  ({| isButtonDisabled := true; uri := uri b; b_label := b_label b |}, ("DELETE", uri b)).

Record HeaderQuery := { queryId : string; state : string; recoveryEnabled : bool }.

Definition isSuspendable (q : HeaderQuery) : bool := streq (state q) "RUNNING" && recoveryEnabled q.
Definition isResumable (q : HeaderQuery) : bool := streq (state q) "SUSPENDED" && recoveryEnabled q.

Definition ended (q : HeaderQuery) : bool := existsb (streq (state q)) ["FINISHED"; "FAILED"; "CANCELED"].

Definition queryUrl (q : HeaderQuery) (action : string) : string :=
  "../v1/query/" ++ queryId q ++ "/" ++ action.

(** The requests the header offers: method and address. *)
Definition actions (q : HeaderQuery) : list (string * string * string) :=
  if ended q then []
  else
    ([("Preempt", "PUT", queryUrl q "preempted");
     ("Kill", "PUT", queryUrl q "killed")] ++
    (if isSuspendable q then [("Suspend", "DELETE", queryUrl q "suspend")] else []) ++
    (if isResumable q then [("Resume", "DELETE", queryUrl q "resume")] else []))%list.

(** The tabs, and which one is the page shown. *)
Definition renderTab (pathname queryId path name : string) : string * string * bool :=
  (name, path ++ "?" ++ queryId, contains_str path pathname).

Definition tabs (pathname : string) (q : HeaderQuery) : list (string * string * bool) :=
  [renderTab pathname (queryId q) "query.html" "Overview";
   renderTab pathname (queryId q) "plan.html" "Live Plan";
   renderTab pathname (queryId q) "stage.html" "Stage Performance";
   renderTab pathname (queryId q) "timeline.html" "Splits"].

(** ** The title over time *)

Definition failed (r : Fetched) : bool := match r with Failed _ _ => true | Received _ _ => false end.

Definition titleAfter (start : Z) (rs : list Fetched) : Title :=
  fold_left (fun s r => onFetched r s) rs (initialTitle start).

(** The light is green exactly when the last request was answered, or none was
    made, it blinks with every failure, and the warning is up exactly while the
    requests fail: from the first failure on, however short ago the last success
    was. *)
Theorem title_light start rs :
  let s := titleAfter start rs in
  (renderStatusLight s = Green <-> (failed <$> last rs) <> Some true) /\
  modalShown s = noConnection s /\
  lightShown s = Nat.odd (length (List.filter failed rs)).
Proof.
  cbv zeta. unfold titleAfter. induction rs as [|r rs IH] using rev_ind; [done|].
  rw fold_left_app last_snoc List.filter_app length_app. cbn [fold_left default].
  destruct IH as (_ & Hm & Hl). set (s := fold_left _ rs (initialTitle start)) in *.
  destruct r as [i now|e now]; cbn [onFetched failed List.filter length].
  - rw Nat.add_0_r. by split.
  - rw Nat.add_1_r Nat.odd_succ -Nat.negb_odd -Hl. unfold renderStatusLight, onFail. cbn.
    split; [by destruct (lightShown s)|]. split; [by destruct (modalShown s)|done].
Qed.
