(* ===== verification/QueryPage.v ===== *)
(** * The elements of the query page

    What the render methods of QueryHeader.jsx and QueryDetail.jsx return, and
    what componentDidUpdate draws into it. *)

From S2P Require Import Prelude JsString Markup JsNumber Utils JsMap Timers RefreshLoop ClusterPages PageHeader QueryDetail.
Import QueryDetail.TaskList QueryDetail.StageSummary.

(** The button beside a value that copies it. *)
Definition copyButton (className : string) (href : list (string * Value)) (target placement : string) : Html :=
  el "a" (href ++ [cls className; "data-clipboard-target" =: target; "data-toggle" =: "tooltip";
                   "data-placement" =: placement; "title" =: "Copy to clipboard"])
    [el "span" [cls "glyphicon glyphicon-copy"; "aria-hidden" =: "true"; "alt" =: "Copy to clipboard"] []].

(** A row of a table of figures: the title and the cell of the value. *)
Definition infoRow (title className : string) (value : list Html) : Html :=
  el "tr" [] [el "td" [cls "info-title"] [txt title]; el "td" [cls className] value].

(** ** QueryHeader.jsx *)

Definition summary (q : QueryInfo) : Utils.Query :=
  {| Utils.state := QueryDetail.state q; Utils.queryStats := Some (driverStats (queryStats q));
     Utils.errorType := errorType (details q);
     Utils.errorCode := (fun e => {| errorCode_name := e.1 |}) <$> errorCode (details q);
     Utils.failed := None; Utils.scheduled := scheduled (details q);
     Utils.memoryPool := Some (memoryPool (details q)) |}.

Definition headerQuery (q : QueryInfo) : HeaderQuery :=
  {| PageHeader.queryId := queryId (details q); PageHeader.state := QueryDetail.state q;
     PageHeader.recoveryEnabled := recoveryEnabled (details q) |}.

Module QueryHeader.
(** SinglePressButton.render; the button has its state from its constructor. *)
Definition renderButton (b : Button) : Html :=
  el "button" ["onClick" =>: "this.sendRequest()"; "disabled" =: (if isButtonDisabled b then "true" else "false");
               cls "btn btn-warning"; "target" =: "_blank"] [txt (b_label b)].

Definition renderProgress (percentage : num) (color title : string) : Html :=
  el "div" [cls "progress-large"]
    [el "div" [cls "progress-bar progress-bar-info"; "role" =: "progressbar"; "aria-valuenow" =: to_string percentage;
               "aria-valuemin" =: "0"; "aria-valuemax" =: "100";
               style [("width", to_string percentage ++ "%"); ("backgroundColor", color)]] [txt title]].

(** [suspend] and [resume] are the two buttons, whose state outlives a render. *)
Definition renderProgressBar (q : QueryInfo) (suspend resume : Button) : result Html :=
  percentage ← getProgressBarPercentage (summary q);
  color ← getQueryStateColor (summary q);
  title ← getProgressBarTitle (summary q);
  let progress := renderProgress percentage color title in
  Ok (if isQueryEnded (summary q) then progress
      else
        el "table" []
          [el "tbody" []
             [el "tr" []
                [el "td" ["width" =: "100%"] [progress];
                 el "td" [] [el "a" ["onClick" =>: "PUT " ++ queryUrl (headerQuery q) "preempted"; cls "btn btn-warning";
                                     "target" =: "_blank"] [txt "Preempt"]];
                 el "td" [] [el "a" ["onClick" =>: "PUT " ++ queryUrl (headerQuery q) "killed"; cls "btn btn-warning";
                                     "target" =: "_blank"] [txt "Kill"]];
                 when (isSuspendable (headerQuery q)) (el "td" [] [renderButton suspend]);
                 when (isResumable (headerQuery q)) (el "td" [] [renderButton resume])]]]).

Definition renderTab (pathname queryId path name : string) : Html :=
  let className := if contains_str path pathname then "btn btn-info navbar-btn nav-disabled"
                   else "btn btn-info navbar-btn" in
  el "a" ["href" =: path ++ "?" ++ queryId; cls className] [txt name].

Definition render (pathname : string) (suspend resume : Button) (q : QueryInfo) : result Html :=
  let id := queryId (details q) in
  progressBar ← renderProgressBar q suspend resume;
  Ok (el "div" []
    [el "div" [cls "row"]
       [el "div" [cls "col-xs-6"]
          [el "h3" [cls "query-id"]
             [el "span" [] [txt "Query Detail: "];
              el "span" ["id" =: "query-id"] [txt id];
              copyButton "btn copy-button" [] "#query-id" "right"]];
        el "div" [cls "col-xs-6"]
          [el "table" [cls "header-inline-links"]
             [el "tbody" []
                [el "tr" []
                   [el "td" []
                      [renderTab pathname id "query.html" "Overview"; txt nbsp;
                       renderTab pathname id "plan.html" "Live Plan"; txt nbsp;
                       renderTab pathname id "stage.html" "Stage Performance"; txt nbsp;
                       renderTab pathname id "timeline.html" "Splits"; txt nbsp;
                       el "a" ["href" =: "../v1/query/" ++ id ++ "?pretty"; cls "btn btn-info navbar-btn";
                               "target" =: "_blank"] [txt "JSON"]]]]]]];
     el "hr" [cls "h2-hr"] [];
     el "div" [cls "row"] [el "div" [cls "col-xs-12"] [progressBar]]]).
End QueryHeader.

(** ** The table of tasks *)

Module TaskList.
(** The columns the reader can sort by; 'id' is compared by compareTaskId. *)
Definition sortable : list string :=
  ["id"; "host"; "state"; "splitsPending"; "splitsRunning"; "splitsBlocked"; "splitsDone"; "rows"; "rowsSec";
   "bytes"; "bytesSec"; "elapsedTime"; "cpuTime"; "bufferedBytes"].

Definition header (column : string) (label : Html) : Html := el "Th" ["column" =: column] [label].

Definition glyphicon (icon title : string) : Html :=
  el "span" [cls ("glyphicon " ++ icon); GLYPHICON_HIGHLIGHT; "data-toggle" =: "tooltip"; "data-placement" =: "top";
             "title" =: title] [].

Definition headers : list Html :=
  [header "id" (txt "ID");
   header "host" (txt "Host");
   header "state" (txt "State");
   header "splitsPending" (glyphicon "glyphicon-pause" "Pending splits");
   header "splitsRunning" (glyphicon "glyphicon-play" "Running splits");
   header "splitsBlocked" (glyphicon "glyphicon-bookmark" "Blocked splits");
   header "splitsDone" (glyphicon "glyphicon-ok" "Completed splits");
   header "rows" (txt "Rows");
   header "rowsSec" (txt "Rows/s");
   header "bytes" (txt "Bytes");
   header "bytesSec" (txt "Bytes/s");
   header "elapsedTime" (txt "Elapsed");
   header "cpuTime" (txt "CPU Time");
   header "bufferedBytes" (txt "Buffered")].

(** A cell: its column, the value it sorts by, and what it shows. *)
Definition cell (column : string) (value : option string) (children : Html) : Html :=
  el "Td" (("column" =: column) :: from_option (fun v => ["value" =: v]) [] value) [children].

Section Url.
(** The platform's URL constructor and its parser of dates. *)
Context {URL : Type} (newURL : string -> result URL) (hostname port : URL -> string) (Date_parse : string -> num).

(** The elapsed time a rate is computed over; null when it cannot be parsed. *)
Definition elapsedMillis (now : num) (task : Task) : option num :=
  match parseDuration (elapsedTime task) with
  | Some ms => if eq ms (of_Z 0) then Some (sub now (Date_parse (createTime task))) else Some ms
  | None => None
  end.

Definition renderTask (now : num) (showPortNumbers : bool) (task : Task) : result Html :=
  let elapsed := elapsedMillis now task in
  host ← getHostname URL newURL hostname (self task);
  shownHost ← (if showPortNumbers then getHostAndPort URL newURL hostname port (self task)
               else getHostname URL newURL hostname (self task));
  let state := formatState (taskState task) (fullyBlocked task) in
  let rowsSec := computeRateOf (rawInputPositions task) elapsed in
  let bytes := parseDataSize (rawInputDataSize task) in
  bytesText ← formatOf formatDataSizeBytes bytes;
  let bytesSec := computeRateOf (nullToNumber bytes) elapsed in
  Ok (el "Tr" ["key" =: taskId task]
        [cell "id" (Some (taskId task))
           (el "a" ["href" =: self task ++ "?pretty"] [txt (getTaskIdSuffix (taskId task))]);
         cell "host" (Some host)
           (el "a" ["href" =: "worker.html?" ++ nodeId task; cls "font-light"; "target" =: "_blank"] [txt shownHost]);
         cell "state" (Some state) (txt state);
         cell "rows" (Some (to_string (rawInputPositions task))) (txt (formatCount (rawInputPositions task)));
         cell "rowsSec" (Some (to_string rowsSec)) (txt (formatCount rowsSec));
         cell "bytes" (to_string <$> bytes) (txt bytesText);
         cell "bytesSec" (Some (to_string bytesSec)) (txt (formatDataSizeBytes bytesSec));
         cell "splitsPending" (Some (to_string (queuedDrivers task))) (num_child (queuedDrivers task));
         cell "splitsRunning" (Some (to_string (runningDrivers task))) (num_child (runningDrivers task));
         cell "splitsBlocked" (Some (to_string (blockedDrivers task))) (num_child (blockedDrivers task));
         cell "splitsDone" (Some (to_string (completedDrivers task))) (num_child (completedDrivers task));
         cell "elapsedTime" (to_string <$> parseDuration (elapsedTime task)) (txt (elapsedTime task));
         cell "cpuTime" (to_string <$> parseDuration (totalCpuTime task)) (txt (totalCpuTime task));
         cell "bufferedBytes" (Some (to_string (totalBufferedBytes task)))
           (txt (formatDataSizeBytes (totalBufferedBytes task)))]).

Definition render (now : num) (tasks : list Task) : result Html :=
  if (length tasks =? 0)%nat then
    Ok (el "div" [cls "row error-message"]
          [el "div" [cls "col-xs-12"] [el "h4" [] [txt "No threads in the selected group"]]])
  else
    ports ← showPortNumbers newURL hostname port tasks;
    renderedTasks ← mapM_result (renderTask now ports) tasks;
    Ok (el "Table" ["id" =: "tasks"; cls "table table-striped sortable"; ("sortable", Strings sortable);
                    ("defaultSort", Style [("column", "id"); ("direction", "asc")])]
          [el "Thead" [] headers; concat renderedTasks]).
End Url.
End TaskList.

(** ** The stages *)

Module StageSummary.
(** One of the small tables of figures: the title of the column and the rows. *)
Definition statRow (title : string) (value : Html) : Html :=
  el "tr" [] [el "td" [cls "stage-table-stat-title"] [txt title]; el "td" [cls "stage-table-stat-text"] [value]].

Definition statTable (kind title : string) (rows : list Html) : Html :=
  el "table" [cls ("stage-table stage-table-" ++ kind)]
    [el "thead" []
       [el "tr" [] [el "th" [cls "stage-table-stat-title stage-table-stat-header"] [txt title]; el "th" [] []]];
     el "tbody" [] rows].

Definition loader : Html := el "div" [cls "loader"] [].

Definition histogramTable (title id : string) : Html :=
  el "table" [cls "stage-table histogram-table"]
    [el "thead" [] [el "tr" [] [el "th" [cls "stage-table-stat-title stage-table-chart-header"] [txt title]]];
     el "tbody" []
       [el "tr" [] [el "td" [cls "histogram-container"] [el "span" [cls "histogram"; "id" =: id] [loader]]]]].

Definition expandedChart (expanded : bool) (title id : string) : Html :=
  el "tr" [style (getExpandedStyle expanded)]
    [el "td" ["colSpan" =: "6"]
       [el "table" [cls "expanded-chart"]
          [el "tbody" []
             [el "tr" []
                [el "td" [cls "stage-table-stat-title expanded-chart-title"] [txt title];
                 el "td" [cls "bar-chart-container"] [el "span" [cls "bar-chart"; "id" =: id] [loader]]]]]]].

Definition timeTable (f : StageFigures) : Html :=
  statTable "time" "Time"
    [statRow "Scheduled" (txt (stageScheduledTime f));
     statRow "Blocked" (txt (stageBlockedTime f));
     statRow "CPU" (txt (stageCpuTime f))].

Definition memoryTable (f : StageFigures) (tasks : list Task) : Html :=
  statTable "memory" "Memory"
    [statRow "Cumulative" (txt (formatDataSizeBytes (div (stageCumulativeMemory f) (of_Z 1000))));
     statRow "Current" (txt (stageReservation f));
     statRow "Buffers" (txt (formatDataSize (buffers tasks)));
     statRow "Peak" (txt (stagePeakReservation f))].

Definition tasksTable (tasks : list Task) : Html :=
  let count p := length_child (List.filter p tasks) in
  statTable "tasks" "Tasks"
    [statRow "Pending" (count (fun task => streq (taskState task) "PLANNED"));
     statRow "Running" (count (fun task => streq (taskState task) "RUNNING"));
     statRow "Blocked" (count fullyBlocked);
     statRow "Total" (length_child tasks)].

Definition unavailable : Html := el "tr" [] [el "td" [] [txt "Information about this stage is unavailable."]].

Definition render (expanded : bool) (stage : Stage) : result Html :=
  match figures stage with
  | None => Ok unavailable
  | Some f =>
      tasks ← member (tasks stage) id;
      let stageId := to_string (getStageNumber (stageId stage)) in
      Ok (el "tr" []
        [el "td" [cls "stage-id"]
           [el "div" [cls "stage-state-color"; style [("borderLeftColor", getStageStateColor (stageState f))]]
              [txt stageId]];
         el "td" []
           [el "table" [cls "table single-stage-table"]
              [el "tbody" []
                 [el "tr" []
                    [el "td" [] [timeTable f];
                     el "td" [] [memoryTable f tasks];
                     el "td" [] [tasksTable tasks];
                     el "td" [] [histogramTable "Scheduled Time Skew" ("scheduled-time-histogram-" ++ stageId)];
                     el "td" [] [histogramTable "CPU Time Skew" ("cpu-time-histogram-" ++ stageId)];
                     el "td" [cls "expand-charts-container"]
                       [el "a" ["onClick" =>: "this.toggleExpanded"; cls "expand-charts-button"]
                          [el "span" [cls ("glyphicon " ++ getExpandedIcon expanded); GLYPHICON_HIGHLIGHT;
                                      "data-toggle" =: "tooltip"; "data-placement" =: "top"; "title" =: "More"] []]]];
                  expandedChart expanded "Task Scheduled Time" ("scheduled-time-bar-chart-" ++ stageId);
                  expandedChart expanded "Task CPU Time" ("cpu-time-bar-chart-" ++ stageId)]]]])
  end.

(** The charts componentDidUpdate draws, by the identifiers of their elements:
    the two histograms, and the bar charts of a stage that is expanded, whether
    or not the stage has a plan. *)
Definition drawnOn (expanded : bool) (stage : Stage) : list string :=
  let id kind := kind ++ to_string (getStageNumber (stageId stage)) in
  id <$> "scheduled-time-histogram-" :: "cpu-time-histogram-" ::
         if expanded then ["scheduled-time-bar-chart-"; "cpu-time-bar-chart-"] else [].
End StageSummary.

Module StageList.
(** [expanded] is the state of the summaries, which React keeps by their keys,
    the numbers of the stages. *)
Definition render (expanded : string -> bool) (outputStage : option Stage) : result Html :=
  let stages := match outputStage with Some stage => getStages stage | None => [] end in
  if (length stages =? 0)%nat then
    Ok (el "div" [cls "row"] [el "div" [cls "col-xs-12"] [txt "No stage information available."]])
  else
    renderedStages ← mapM_result (fun stage => StageSummary.render (expanded (stageId stage)) stage) stages;
    Ok (el "div" [cls "row"]
          [el "div" [cls "col-xs-12"]
             [el "table" [cls "table"; "id" =: "stage-list"] [el "tbody" [] renderedStages]]]).
End StageList.

(** ** The page *)

Module QueryDetail.
Section Page.
Context {URL : Type} (newURL : string -> result URL) (hostname port : URL -> string) (Date_parse : string -> num).

(** What the page depends on beside its state: the path of its address, the
    clock, the buttons of the header and the stages that are expanded. *)
Context (pathname : string) (now : num) (suspend resume : Button) (expanded : string -> bool).

Definition renderTaskRefreshButton (s : QueryPage) : Html :=
  el "button" [cls "btn btn-info live-button"; "onClick" =>: "this.handleTaskRefreshClick"]
    [txt (if taskRefresh s then "Auto-Refresh: On" else "Auto-Refresh: Off")].

Definition renderStageRefreshButton (s : QueryPage) : Html :=
  el "button" [cls "btn btn-info live-button"; "onClick" =>: "this.handleStageRefreshClick"]
    [txt (if stageRefresh s then "Auto-Refresh: On" else "Auto-Refresh: Off")].

#[local] Instance filter_eq_dec : EqDecision TASK_FILTER.
Proof. solve_decision. Defined.

Definition renderTaskFilterListItem (s : QueryPage) (filter : TASK_FILTER) (text : string) : Html :=
  el "li" [] [el "a" ["href" =: "#"; cls (if decide (taskFilter s = filter) then "selected" else "");
                      "onClick" =>: "this.handleTaskFilterClick"] [txt text]].

Definition renderTasks (s : QueryPage) : result Html :=
  match listedTasks s with
  | None => Ok []
  | Some tasks =>
      taskList ← TaskList.render newURL hostname port Date_parse now tasks;
      Ok (el "div" []
        [el "div" [cls "row"]
           [el "div" [cls "col-xs-9"] [el "h3" [] [txt "Tasks"]];
            el "div" [cls "col-xs-3"]
              [el "table" [cls "header-inline-links"]
                 [el "tbody" []
                    [el "tr" []
                       [el "td" []
                          [el "div" [cls "input-group-btn text-right"]
                             [el "button" ["type" =: "button";
                                           cls "btn btn-default dropdown-toggle pull-right text-right";
                                           "data-toggle" =: "dropdown"; "aria-haspopup" =: "true";
                                           "aria-expanded" =: "false"]
                                [txt "Show "; el "span" [cls "caret"] []];
                              el "ul" [cls "dropdown-menu"]
                                [renderTaskFilterListItem s ALL "All";
                                 renderTaskFilterListItem s PLANNED "Planned";
                                 renderTaskFilterListItem s RUNNING "Running";
                                 renderTaskFilterListItem s SUSPENDED "Suspended";
                                 renderTaskFilterListItem s FINISHED "Finished";
                                 renderTaskFilterListItem s FAILED "Aborted/Canceled/Failed"]]];
                        el "td" [] [txt (nbsp ++ nbsp); renderTaskRefreshButton s]]]]]];
         el "div" [cls "row"] [el "div" [cls "col-xs-12"] [taskList]]])
  end.

(** [lastSnapshotStage] is not null before the first answer but undefined. *)
Definition renderStages (s : QueryPage) : result Html :=
  stageList ← StageList.render expanded (default None (lastSnapshotStage s));
  Ok (el "div" []
    [el "div" [cls "row"]
       [el "div" [cls "col-xs-9"] [el "h3" [] [txt "Stages"]];
        el "div" [cls "col-xs-3"]
          [el "table" [cls "header-inline-links"]
             [el "tbody" [] [el "tr" [] [el "td" [] [renderStageRefreshButton s]]]]]];
     el "div" [cls "row"] [el "div" [cls "col-xs-12"] [stageList]]]).

Definition lineSpan (line : string) : Html := el "span" [] [txt line; txt " "; br].

Definition warningRow (warning : string * string) : Html :=
  el "tr" [] [el "td" [] [txt warning.1]; el "td" [] [txt warning.2]].

Definition renderWarningInfo (q : QueryInfo) : Html :=
  if (0 <? length (warnings (details q)))%nat then
    el "div" [cls "row"]
      [el "div" [cls "col-xs-12"]
         [el "h3" [] [txt "Warnings"];
          el "hr" [cls "h3-hr"] [];
          el "table" [cls "table"; "id" =: "warnings-table"] (warningRow <$> warnings (details q))]]
  else [].

Definition renderFailureInfo (q : QueryInfo) : result Html :=
  match failureInfo (details q) with
  | None => Ok (txt "")
  | Some info =>
      code ← member (errorCode (details q)) id;
      stackTrace ← formatStackTrace info;
      Ok (el "div" [cls "row"]
        [el "div" [cls "col-xs-12"]
           [el "h3" [] [txt "Error Information"];
            el "hr" [cls "h3-hr"] [];
            el "table" [cls "table"]
              [el "tbody" []
                 [infoRow "Error Type" "info-text" [opt (errorType (details q))];
                  infoRow "Error Code" "info-text" [txt (code.1 ++ " (" ++ code.2 ++ ")")];
                  el "tr" []
                    [el "td" [cls "info-title"]
                       [txt "Stack Trace"; copyButton "btn copy-button" [] "#stack-trace" "right"];
                     el "td" [cls "info-text"] [el "pre" ["id" =: "stack-trace"] [txt stackTrace]]]]]]])
  end.

Definition sessionTable (session : Session) : Html :=
  el "table" [cls "table"]
    [el "tbody" []
       [infoRow "User" "info-text wrap-text"
          [el "span" ["id" =: "query-user"] [txt (user session)]; txt (nbsp ++ nbsp);
           copyButton "copy-button" ["href" =: "#"] "#query-user" "right"];
        infoRow "Principal" "info-text wrap-text" [opt (principal session)];
        infoRow "Source" "info-text wrap-text" [opt (source session)];
        infoRow "Catalog" "info-text" [opt (catalog session)];
        infoRow "Schema" "info-text" [opt (schema session)];
        infoRow "Client Address" "info-text" [opt (remoteUserAddress session)];
        infoRow "Client Tags" "info-text" [txt (join ", " (clientTags session))];
        infoRow "Session Properties" "info-text wrap-text" (lineSpan <$> renderSessionProperties session);
        infoRow "Resource Estimates" "info-text wrap-text" (lineSpan <$> renderResourceEstimates session)]].

Definition executionTable (q : QueryInfo) : Html :=
  let stats := queryStats q in
  el "table" [cls "table"]
    [el "tbody" []
       [infoRow "Resource Group" "info-text wrap-text"
          [txt (match resourceGroupId (details q) with Some group => join "." group | None => "n/a" end)];
        infoRow "Submission Time" "info-text" [txt (formatShortDateTime (queryCreateTime stats))];
        infoRow "Completion Time" "info-text"
          [txt (match queryEndTime stats with Some date => formatShortDateTime date | None => "" end)];
        infoRow "Elapsed Time" "info-text" [txt (queryElapsedTime stats)];
        infoRow "Queued Time" "info-text" [txt (queuedTime stats)];
        infoRow "Execution Time" "info-text" [txt (executionTime stats)]]].

(** [parseDataSize(size) > 0]; null is not. *)
Definition positiveSize (size : string) : bool := gt (nullToNumber (parseDataSize size)) (of_Z 0).

Definition utilizationTable (q : QueryInfo) : Html :=
  let stats := queryStats q in
  let row title value := infoRow title "info-text" [txt value] in
  el "table" [cls "table"]
    [el "tbody" []
       [row "CPU Time" (queryCpuTime stats);
        row "Scheduled Time" (queryScheduledTime stats);
        row "Blocked Time" (queryBlockedTime stats);
        row "Input Rows" (formatCount (processedInputPositions stats));
        row "Input Data" (processedInputDataSize stats);
        row "Physical Input Rows" (formatCount (physicalInputPositions stats));
        row "Physical Input Data" (physicalInputDataSize stats);
        row "Internal Network Rows" (formatCount (internalNetworkInputPositions stats));
        row "Internal Network Data" (internalNetworkInputDataSize stats);
        row "Peak User Memory" (peakUserMemoryReservation stats);
        when (positiveSize (peakRevocableMemoryReservation stats))
          (row "Peak Revocable Memory" (peakRevocableMemoryReservation stats));
        row "Peak Total Memory" (peakTotalMemoryReservation stats);
        row "Memory Pool" (memoryPool (details q));
        row "Cumulative User Memory"
          (formatDataSizeBytes (div (cumulativeUserMemory stats) (of_Z 1000)) ++ " seconds");
        row "Output Rows" (formatCount (outputPositions stats));
        row "Output Data" (outputDataSize stats);
        row "Written Rows" (formatCount (writtenPositions stats));
        row "Logical Written Data" (logicalWrittenDataSize stats);
        row "Physical Written Data" (physicalWrittenDataSize stats);
        when (positiveSize (spilledDataSize stats)) (row "Spilled Data" (spilledDataSize stats))]].

(** The same for a history of sizes: null throws. *)
Definition latestSize (history : list (option num)) : result string :=
  formatOf formatDataSize (default (Some NaN) (last history)).

(** A sparkline beside its title and above its latest value. *)
Definition sparkline (title id value : string) : Html :=
  (el "tr" []
     [el "td" [cls "info-title"] [txt title];
      el "td" ["rowSpan" =: "2"]
        [el "div" [cls "query-stats-sparkline-container"]
           [el "span" [cls "sparkline"; "id" =: id] [el "div" [cls "loader"] [txt "Loading ..."]]]]] ++
   el "tr" [cls "tr-noborder"] [el "td" [cls "info-sparkline-text"] [txt value]])%list.

Definition timeline (s : QueryPage) : result Html :=
  memory ← latestSize (reservedMemory s);
  Ok (el "table" [cls "table"]
    [el "tbody" []
       [sparkline "Parallelism" "cpu-time-rate-sparkline" (formatCount (latest (cpuTimeRate s)));
        sparkline "Scheduled Time/s" "scheduled-time-rate-sparkline" (formatCount (latest (scheduledTimeRate s)));
        sparkline "Input Rows/s" "row-input-rate-sparkline" (formatCount (latest (rowInputRate s)));
        sparkline "Input Bytes/s" "byte-input-rate-sparkline" (formatDataSize (latest (byteInputRate s)));
        sparkline "Memory Utilization" "reserved-memory-sparkline" memory]]).

Definition titled (title : string) (table : Html) : Html :=
  el "div" [cls "col-xs-6"] [el "h3" [] [txt title]; el "hr" [cls "h3-hr"] []; table].

Definition renderQuery (s : QueryPage) (q : QueryInfo) : result Html :=
  header ← QueryHeader.render pathname suspend resume q;
  timeline ← timeline s;
  failure ← renderFailureInfo q;
  stages ← renderStages s;
  tasks ← renderTasks s;
  Ok (el "div" []
    [header;
     el "div" [cls "row"]
       [titled "Session" (sessionTable (session (details q))); titled "Execution" (executionTable q)];
     el "div" [cls "row"]
       [el "div" [cls "col-xs-12"]
          [el "div" [cls "row"]
             [titled "Resource Utilization Summary" (utilizationTable q); titled "Timeline" timeline]]];
     renderWarningInfo q;
     failure;
     el "div" [cls "row"]
       [el "div" [cls "col-xs-12"]
          [el "h3" [] [txt "Query"; copyButton "btn copy-button" [] "#query-text" "right"];
           el "pre" ["id" =: "query"]
             [el "code" [cls "lang-sql"; "id" =: "query-text"] [txt (queryText (details q))]]]];
     stages;
     tasks]).

Definition message (label : Html) : Html :=
  el "div" [cls "row error-message"] [el "div" [cls "col-xs-12"] [el "h4" [] [label]]].

Definition render (s : QueryPage) : result Html :=
  match query s with
  | Some q => if initialized s then renderQuery s q else Ok (message (el "div" [cls "loader"] [txt "Loading..."]))
  | None =>
      Ok (message (if initialized s then txt "Query not found" else el "div" [cls "loader"] [txt "Loading..."]))
  end.

(** Whether drawing the page throws; none of its charts does. *)
Definition query_rendering : Rendering QueryPage :=
  fun s => match render s with Ok _ => false | Throw _ => true end.
End Page.

(** ** What componentDidUpdate draws *)

Definition sparklines (s : QueryPage) : list Drawing :=
  [{| element := "scheduled-time-rate-sparkline"; values := Some <$> scheduledTimeRate s; numberFormatter := PrecisionRound |};
   {| element := "cpu-time-rate-sparkline"; values := Some <$> cpuTimeRate s; numberFormatter := PrecisionRound |};
   {| element := "row-input-rate-sparkline"; values := Some <$> rowInputRate s; numberFormatter := FormatCount |};
   {| element := "byte-input-rate-sparkline"; values := Some <$> byteInputRate s; numberFormatter := FormatDataSize |};
   {| element := "reserved-memory-sparkline"; values := reservedMemory s; numberFormatter := FormatDataSize |}].

(** [this.setState({lastRender: renderTimestamp})] *)
Definition withRender (renderTimestamp : num) (s : QueryPage) : QueryPage :=
  {| query := query s; lastSnapshotStage := lastSnapshotStage s; lastSnapshotStages := lastSnapshotStages s;
     lastSnapshotTasks := lastSnapshotTasks s; lastScheduledTime := lastScheduledTime s;
     lastCpuTime := lastCpuTime s; lastRowInput := lastRowInput s; lastByteInput := lastByteInput s;
     scheduledTimeRate := scheduledTimeRate s; cpuTimeRate := cpuTimeRate s; rowInputRate := rowInputRate s;
     byteInputRate := byteInputRate s; reservedMemory := reservedMemory s; initialized := initialized s;
     ended := ended s; lastRefresh := lastRefresh s; lastRender := Some renderTimestamp;
     stageRefresh := stageRefresh s; taskRefresh := taskRefresh s; taskFilter := taskFilter s |}.

(** The drawings and whether the text of the query is highlighted, at the two
    readings of the clock; the setState of its own updates the page once more,
    too early to draw again. *)
Definition componentDidUpdate (now renderTimestamp : num) (s : QueryPage) : list Drawing * bool * QueryPage :=
  if drawsSparklines now (lastRender s)
  then (sparklines s, match lastRender s with None => true | Some _ => false end, withRender renderTimestamp s)
  else ([], false, s).

(** The readings of the clock in the two updates of an answer. *)
Record Clock := { update1 : num; render1 : num; update2 : num; render2 : num }.

(** An answer as React handles it: a setState outside of React's own events
    renders and updates at once, so that the first is drawn before the rates of
    the second are known.  The rates are measured from the state [s] that was
    captured before. *)
Definition handleAnswer (c : Clock) (q : QueryInfo) (s : QueryPage) : list Drawing * QueryPage :=
  let '(drawn1, _, s1) := componentDidUpdate (update1 c) (render1 c) (withQuery q s) in
  match measuredSince q s with
  | None => (drawn1, s1)
  | Some last =>
      if ge (div (sub (nowMillis q) last) (of_Z 1000)) (of_Z 0) then
        let '(drawn2, _, s2) := componentDidUpdate (update2 c) (render2 c) (withRates q last s s1) in
        ((drawn1 ++ drawn2)%list, s2)
      else (drawn1, s1)
  end.
End QueryDetail.
