(* ===== verification/QueryPageFacts.v ===== *)
(** * The query page in the browser

    Lemmas and properties of QueryPage.v. *)

From S2P Require Import Prelude JsString Markup JsNumber Utils JsMap Timers RefreshLoop ClusterPages PageHeader QueryDetail QueryPage.

(** ** Well-formed fragments *)

Lemma wf_copyButton className href target placement parent :
  allowed parent "a" = true -> wellFormed parent (copyButton className href target placement) = true.
Proof. intros Ha. apply wf_el; [done|done|]. markup. Qed.

#[export] Hint Extern 1 (wellFormed _ (copyButton _ _ _ _) = true) => apply wf_copyButton; reflexivity : markup.

Lemma wf_infoRow title className value :
  Forall (fun h => wellFormed "td" h = true) value -> wellFormed "tbody" (infoRow title className value) = true.
Proof. intros Hv. unfold infoRow. by markup. Qed.

Lemma wf_lineSpan line : wellFormed "td" (QueryDetail.lineSpan line) = true.
Proof. unfold QueryDetail.lineSpan, br. markup. Qed.
#[export] Hint Resolve wf_lineSpan : markup.

Lemma wf_sessionTable session : wellFormed "div" (QueryDetail.sessionTable session) = true.
Proof. unfold QueryDetail.sessionTable. markup; apply wf_infoRow; markup. Qed.

Lemma wf_executionTable q : wellFormed "div" (QueryDetail.executionTable q) = true.
Proof. unfold QueryDetail.executionTable. markup; apply wf_infoRow; markup. Qed.

Lemma wf_utilizationTable q : wellFormed "div" (QueryDetail.utilizationTable q) = true.
Proof.
  unfold QueryDetail.utilizationTable. markup; try (apply wf_infoRow; markup).
  by destruct (QueryDetail.positiveSize (peakRevocableMemoryReservation (queryStats q))),
    (QueryDetail.positiveSize (spilledDataSize (queryStats q))).
Qed.

Lemma wf_sparkline title id value : wellFormed "tbody" (QueryDetail.sparkline title id value) = true.
Proof. unfold QueryDetail.sparkline. markup. Qed.

#[export] Hint Resolve wf_sessionTable wf_executionTable wf_utilizationTable wf_sparkline : markup.

Lemma wf_timeline s h : QueryDetail.timeline s = Ok h -> wellFormed "div" h = true.
Proof.
  unfold QueryDetail.timeline. destruct (QueryDetail.latestSize _); [|done]. cbn [mbind result_bind].
  intros [= <-]. markup.
Qed.

Lemma wf_titled title table : wellFormed "div" table = true -> wellFormed "div" (QueryDetail.titled title table) = true.
Proof. intros Ht. unfold QueryDetail.titled. markup. Qed.

(** ** The header *)

Lemma wf_renderProgress percentage color title parent :
  allowed parent "div" = true -> wellFormed parent (QueryHeader.renderProgress percentage color title) = true.
Proof. intros Ha. apply wf_el; [done|done|]. markup. Qed.
#[export] Hint Extern 1 (wellFormed _ (QueryHeader.renderProgress _ _ _) = true) => apply wf_renderProgress; reflexivity : markup.

Lemma wf_renderButton b : wellFormed "td" (QueryHeader.renderButton b) = true.
Proof. unfold QueryHeader.renderButton. markup. Qed.
#[export] Hint Resolve wf_renderButton : markup.

Lemma wf_progressBar q suspend resume h :
  QueryHeader.renderProgressBar q suspend resume = Ok h -> wellFormed "div" h = true.
Proof.
  unfold QueryHeader.renderProgressBar.
  destruct (getProgressBarPercentage _); [|done]. destruct (getQueryStateColor _); [|done].
  destruct (getProgressBarTitle _); [|done]. cbn [mbind result_bind]. intros [= <-]. markup.
  by destruct (isSuspendable (headerQuery q)), (isResumable (headerQuery q)).
Qed.

Lemma wf_renderTab pathname queryId path name : wellFormed "td" (QueryHeader.renderTab pathname queryId path name) = true.
Proof. unfold QueryHeader.renderTab. markup. Qed.
#[export] Hint Resolve wf_renderTab : markup.

Lemma wf_queryHeader pathname suspend resume q h :
  QueryHeader.render pathname suspend resume q = Ok h -> wellFormed "div" h = true.
Proof.
  unfold QueryHeader.render. destruct (QueryHeader.renderProgressBar _ _ _) as [bar|] eqn:Hb; [|done].
  apply wf_progressBar in Hb. cbn [mbind result_bind]. intros [= <-]. markup.
Qed.

(** ** Tasks and stages *)

Section Tasks.
Context {URL : Type} (newURL : string -> result URL) (hostname port : URL -> string) (Date_parse : string -> num).

Lemma wf_cell column value children : wellFormed "Td" children = true -> wellFormed "Tr" (TaskList.cell column value children) = true.
Proof. intros Hc. unfold TaskList.cell. markup. Qed.

(** The columns of a rendered task, in the order of its cells. *)
Definition columnsOf (row : Html) : list string := omap (attribute "column") (flat_map children row).

Lemma renderTask_inv now ports task row :
  TaskList.renderTask newURL hostname port Date_parse now ports task = Ok row ->
  wellFormed "Table" row = true /\
  columnsOf row = ["id"; "host"; "state"; "rows"; "rowsSec"; "bytes"; "bytesSec"; "splitsPending"; "splitsRunning";
                   "splitsBlocked"; "splitsDone"; "elapsedTime"; "cpuTime"; "bufferedBytes"].
Proof.
  unfold TaskList.renderTask. cbv zeta.
  destruct (getHostname _ _ _ _) as [host|]; [|done]. cbn [mbind result_bind].
  destruct (if ports then _ else _) as [shown|]; [|done]. cbn [mbind result_bind].
  destruct (formatOf _ _) as [bytes|]; [|done]. cbn [mbind result_bind].
  intros [= <-]. split; [|reflexivity]. markup; apply wf_cell; unfold num_child; markup.
Qed.

Lemma wf_taskList now tasks h :
  TaskList.render newURL hostname port Date_parse now tasks = Ok h -> wellFormed "div" h = true.
Proof.
  unfold TaskList.render. destruct (_ =? 0)%nat; [intros [= <-]; markup|].
  destruct (QueryDetail.TaskList.showPortNumbers _ _ _ _) as [ports|]; [|done]. cbn [mbind result_bind].
  destruct (mapM_result _ _) as [rows|] eqn:Hm; [|done]. cbn [mbind result_bind]. intros [= <-].
  apply mapM_result_spec in Hm. markup; [unfold TaskList.headers, TaskList.header, TaskList.glyphicon; markup|].
  induction Hm as [|t row ts rows Hr _ IH]; constructor; [by eapply renderTask_inv|done].
Qed.
End Tasks.

Lemma wf_statTable kind title rows :
  Forall (fun h => wellFormed "tbody" h = true) rows -> rectangular (Element "table" [cls ("stage-table stage-table-" ++ kind)]
    (concat [el "thead" [] [el "tr" [] [el "th" [cls "stage-table-stat-title stage-table-stat-header"] [txt title]; el "th" [] []]];
     el "tbody" [] rows])) = true ->
  wellFormed "td" (StageSummary.statTable kind title rows) = true.
Proof. intros Hr Hg. unfold StageSummary.statTable. apply wf_table; [done|exact Hg|]. markup. Qed.

Lemma wf_statRow title value : wellFormed "td" value = true -> wellFormed "tbody" (StageSummary.statRow title value) = true.
Proof. intros Hv. unfold StageSummary.statRow. markup. Qed.

Lemma wf_timeTable f : wellFormed "td" (StageSummary.timeTable f) = true.
Proof. apply wf_statTable; [|reflexivity]. markup; apply wf_statRow; markup. Qed.

Lemma wf_memoryTable f tasks : wellFormed "td" (StageSummary.memoryTable f tasks) = true.
Proof. apply wf_statTable; [|reflexivity]. markup; apply wf_statRow; markup. Qed.

Lemma wf_tasksTable tasks : wellFormed "td" (StageSummary.tasksTable tasks) = true.
Proof. apply wf_statTable; [|reflexivity]. unfold length_child. markup; apply wf_statRow; markup. Qed.

Lemma wf_histogramTable title id : wellFormed "td" (StageSummary.histogramTable title id) = true.
Proof. unfold StageSummary.histogramTable, StageSummary.loader. markup. Qed.

Lemma wf_expandedChart expanded title id : wellFormed "tbody" (StageSummary.expandedChart expanded title id) = true.
Proof. unfold StageSummary.expandedChart, StageSummary.loader. markup. Qed.

#[export] Hint Resolve wf_timeTable wf_memoryTable wf_tasksTable wf_histogramTable wf_expandedChart : markup.

(** A stage is one row of two cells, or of one when it has no plan. *)
Definition stageWidth (stage : Stage) : nat := match figures stage with Some _ => 2 | None => 1 end.

Lemma stageSummary_row expanded stage h :
  StageSummary.render expanded stage = Ok h ->
  wellFormed "tbody" h = true /\ plainRow (stageWidth stage) h.
Proof.
  unfold StageSummary.render, stageWidth. destruct (figures stage) as [f|].
  - destruct (tasks stage) as [ts|]; [|done]. cbn [mbind result_bind member]. intros [= <-]. split; [markup|].
    eexists. split; [reflexivity|by repeat split].
  - intros [= <-]. split; [unfold StageSummary.unavailable; markup|]. eexists. split; [reflexivity|by repeat split].
Qed.

Lemma stageList_wellFormed expanded outputStage h :
  StageList.render expanded outputStage = Ok h ->
  wellFormed "div" h = uniform (stageWidth <$> match outputStage with Some stage => getStages stage | None => [] end).
Proof.
  unfold StageList.render. set (stages := match outputStage with Some _ => _ | None => _ end).
  destruct (length stages =? 0)%nat eqn:Hl.
  { apply Nat.eqb_eq, nil_length_inv in Hl as ->. by intros [= <-]. }
  destruct (mapM_result _ _) as [rows|] eqn:Hm; [|done]. cbn [mbind result_bind]. intros [= <-].
  apply mapM_result_spec in Hm.
  rw -(rectangular_rows [cls "table"; "id" =: "stage-list"] [] rows).
  { eapply Forall2_impl; [exact Hm|]. by intros stage row [_ ?]%stageSummary_row. }
  rw !wellFormed_el. cbn [forallb]. rw wellFormed_el. cbn [forallb]. rw wellFormed_el. cbn [forallb].
  rw wellFormed_el. rw (forallb_intro _ rows); [|by rw !andb_true_r].
  eapply Forall2_Forall_r; [exact Hm|]. apply Forall_true. by intros stage row [? _]%stageSummary_row.
Qed.

(** ** The page *)

Lemma wf_failureInfo q h : QueryDetail.renderFailureInfo q = Ok h -> wellFormed "div" h = true.
Proof.
  unfold QueryDetail.renderFailureInfo. destruct (failureInfo (details q)) as [info|]; [|by intros [= <-]].
  destruct (errorCode (details q)) as [code|]; [|done]. cbn [mbind result_bind member].
  destruct (formatStackTrace info); [|done]. cbn [mbind result_bind]. intros [= <-]. markup; apply wf_infoRow; markup.
Qed.

Lemma warnings_wellFormed q : wellFormed "div" (QueryDetail.renderWarningInfo q) = (length (warnings (details q)) =? 0)%nat.
Proof.
  unfold QueryDetail.renderWarningInfo. destruct (warnings (details q)) as [|w ws]; [done|].
  rw !wellFormed_el. cbn [forallb]. rw !wellFormed_el. cbn [forallb]. rw !wellFormed_el. cbn [forallb fmap list_fmap].
  unfold QueryDetail.warningRow at 1. rw wellFormed_el. cbn [allowed]. by rw !andb_false_r.
Qed.

Section Page.
Context {URL : Type} (newURL : string -> result URL) (hostname port : URL -> string) (Date_parse : string -> num)
  (pathname : string) (now : num) (suspend resume : Button) (expanded : string -> bool).

Notation render := (QueryDetail.render newURL hostname port Date_parse pathname now suspend resume expanded).
Notation renderQuery := (QueryDetail.renderQuery newURL hostname port Date_parse pathname now suspend resume expanded).

Lemma wf_renderTasks s h :
  QueryDetail.renderTasks newURL hostname port Date_parse now s = Ok h -> wellFormed "div" h = true.
Proof.
  unfold QueryDetail.renderTasks. destruct (listedTasks s) as [tasks|]; [|by intros [= <-]].
  destruct (TaskList.render _ _ _ _ _ _) as [list|] eqn:Hl; [|done]. apply wf_taskList in Hl.
  cbn [mbind result_bind]. intros [= <-]. unfold QueryDetail.renderTaskFilterListItem, QueryDetail.renderTaskRefreshButton.
  markup.
Qed.

(** The stages the page lists. *)
Definition listedStages (s : QueryPage) : list Stage :=
  match default None (lastSnapshotStage s) with Some stage => getStages stage | None => [] end.

Lemma renderStages_wellFormed s h :
  QueryDetail.renderStages expanded s = Ok h -> wellFormed "div" h = uniform (stageWidth <$> listedStages s).
Proof.
  unfold QueryDetail.renderStages. destruct (StageList.render _ _) as [list|] eqn:Hl; [|done].
  apply stageList_wellFormed in Hl. fold (listedStages s) in Hl. rw -Hl. cbn [mbind result_bind]. intros [= <-].
  rw wellFormed_el. cbn [forallb]. rw wf_el; [done|done|unfold QueryDetail.renderStageRefreshButton; markup|].
  rw wellFormed_el. cbn [forallb]. rw wellFormed_el. cbn [forallb]. cbn. by rw !andb_true_r.
Qed.

(** The parts of a page that shows a query. *)
Lemma renderQuery_inv s q h :
  renderQuery s q = Ok h ->
  exists header timeline failure stages tasks,
    QueryHeader.render pathname suspend resume q = Ok header /\ QueryDetail.timeline s = Ok timeline /\
    QueryDetail.renderFailureInfo q = Ok failure /\ QueryDetail.renderStages expanded s = Ok stages /\
    QueryDetail.renderTasks newURL hostname port Date_parse now s = Ok tasks /\
    h = el "div" [] [header;
      el "div" [cls "row"]
        [QueryDetail.titled "Session" (QueryDetail.sessionTable (session (details q)));
         QueryDetail.titled "Execution" (QueryDetail.executionTable q)];
      el "div" [cls "row"]
        [el "div" [cls "col-xs-12"]
           [el "div" [cls "row"]
              [QueryDetail.titled "Resource Utilization Summary" (QueryDetail.utilizationTable q);
               QueryDetail.titled "Timeline" timeline]]];
      QueryDetail.renderWarningInfo q; failure;
      el "div" [cls "row"]
        [el "div" [cls "col-xs-12"]
           [el "h3" [] [txt "Query"; copyButton "btn copy-button" [] "#query-text" "right"];
            el "pre" ["id" =: "query"]
              [el "code" [cls "lang-sql"; "id" =: "query-text"] [txt (queryText (details q))]]]];
      stages; tasks].
Proof.
  unfold QueryDetail.renderQuery.
  destruct (QueryHeader.render _ _ _ _) as [header|]; [|done]. cbn [mbind result_bind].
  destruct (QueryDetail.timeline s) as [tl|]; [|done]. cbn [mbind result_bind].
  destruct (QueryDetail.renderFailureInfo q) as [failure|]; [|done]. cbn [mbind result_bind].
  destruct (QueryDetail.renderStages _ _) as [stages|]; [|done]. cbn [mbind result_bind].
  destruct (QueryDetail.renderTasks _ _ _ _ _ _) as [tasks|]; [|done]. cbn [mbind result_bind].
  intros [= <-]. by eexists _, _, _, _, _.
Qed.

(** C15.  The page of a query, whatever its state and the answers it got, is
    nested as HTML asks, each of its tables a grid whose rows are equally wide
    with what spans them, exactly when the query has no warnings and its stages
    all have a plan, or none has: the rows of the warnings stand in their table
    without a body, and a stage without a plan is a row of one cell among rows of
    two. *)
Theorem query_page_wellFormed s h :
  render s = Ok h ->
  wellFormed "div" h = true <->
  forall q, query s = Some q -> initialized s = true ->
    warnings (details q) = [] /\ uniform (stageWidth <$> listedStages s) = true.
Proof.
  unfold QueryDetail.render. destruct (query s) as [q|]; cycle 1.
  { intros [= <-]. split; [done|]. intros _. unfold QueryDetail.message. markup. }
  destruct (initialized s); [|intros [= <-]; split; [done|intros _; unfold QueryDetail.message; markup]].
  intros (header & tl & failure & stages & tasks & Hh%wf_queryHeader & Ht%wf_timeline & Hf%wf_failureInfo &
          Hs%renderStages_wellFormed & Hk%wf_renderTasks & ->)%renderQuery_inv.
  transitivity ((length (warnings (details q)) =? 0)%nat && uniform (stageWidth <$> listedStages s) = true).
  - rw wellFormed_el. cbn [forallb]. rw Hh Hf Hk Hs warnings_wellFormed.
    rw !wf_el; try done; try (markup; apply wf_titled; markup).
    cbn. by rw ?andb_true_r.
  - rw andb_true_iff Nat.eqb_eq. split; [intros [Hw%nil_length_inv Hu] ? [= <-] _; by split|].
    intros H. destruct (H q eq_refl eq_refl) as [Hw Hu]. split; [by rw Hw|done].
Qed.
End Page.

(** ** Identifiers and copy buttons *)

(** The two attributes the pages look elements up by. *)
Definition lookups : list string := ["id"; "data-clipboard-target"].

Lemma lookups_cases (P : string -> Prop) : P "id" -> P "data-clipboard-target" -> forall name, name ∈ lookups -> P name.
Proof. intros H1 H2 name Hn. repeat (apply elem_of_cons in Hn as [->|Hn]; [done|]). inversion Hn. Qed.

Lemma attributesOf_infoRow name title className value :
  name ∈ lookups -> attributesOf name (infoRow title className value) = flat_map (attributesOf name) value.
Proof. revert name. apply lookups_cases; unfold infoRow; attributes; done. Qed.

Lemma attributesOf_lineSpans name lines :
  name ∈ lookups -> flat_map (attributesOf name) (QueryDetail.lineSpan <$> lines) = [].
Proof.
  intros Hn. apply attributesOf_map. intros line. revert name Hn.
  apply lookups_cases; unfold QueryDetail.lineSpan, br; attributes; done.
Qed.

Lemma attributesOf_copyButton className href target placement :
  href = [] \/ href = ["href" =: "#"] ->
  ids (copyButton className href target placement) = [] /\ copyTargets (copyButton className href target placement) = [target].
Proof. intros [->| ->]; split; reflexivity. Qed.

Ltac rows := attributes; rw ?attributesOf_infoRow; try (by repeat constructor); attributes;
  rw ?attributesOf_lineSpans; try (by repeat constructor); attributes.

Lemma lookups_sessionTable session :
  ids (QueryDetail.sessionTable session) = ["query-user"] /\ copyTargets (QueryDetail.sessionTable session) = ["#query-user"].
Proof. unfold ids, copyTargets, QueryDetail.sessionTable. split; rows; reflexivity. Qed.

Lemma lookups_executionTable q name : name ∈ lookups -> attributesOf name (QueryDetail.executionTable q) = [].
Proof. revert name. apply lookups_cases; unfold QueryDetail.executionTable; rows; reflexivity. Qed.

Lemma lookups_utilizationTable q name : name ∈ lookups -> attributesOf name (QueryDetail.utilizationTable q) = [].
Proof.
  revert name. apply lookups_cases; unfold QueryDetail.utilizationTable;
    destruct (QueryDetail.positiveSize _), (QueryDetail.positiveSize _); collects; rows; reflexivity.
Qed.

Lemma lookups_timeline s h :
  QueryDetail.timeline s = Ok h ->
  ids h = ["cpu-time-rate-sparkline"; "scheduled-time-rate-sparkline"; "row-input-rate-sparkline";
           "byte-input-rate-sparkline"; "reserved-memory-sparkline"] /\ copyTargets h = [].
Proof.
  unfold QueryDetail.timeline. destruct (QueryDetail.latestSize _); [|done]. cbn [mbind result_bind].
  intros [= <-]. by split.
Qed.

Lemma lookups_titled name title table :
  name ∈ lookups -> attributesOf name (QueryDetail.titled title table) = attributesOf name table.
Proof. revert name. apply lookups_cases; unfold QueryDetail.titled; attributes; reflexivity. Qed.

Lemma lookups_progressBar q suspend resume h name :
  name ∈ lookups -> QueryHeader.renderProgressBar q suspend resume = Ok h -> attributesOf name h = [].
Proof.
  intros Hn. unfold QueryHeader.renderProgressBar.
  destruct (getProgressBarPercentage _); [|done]. destruct (getQueryStateColor _); [|done].
  destruct (getProgressBarTitle _); [|done]. cbn [mbind result_bind]. intros [= <-]. revert name Hn.
  apply lookups_cases; destruct (isQueryEnded _), (isSuspendable (headerQuery q)), (isResumable (headerQuery q)); reflexivity.
Qed.

Lemma lookups_header pathname suspend resume q h :
  QueryHeader.render pathname suspend resume q = Ok h ->
  ids h = ["query-id"] /\ copyTargets h = ["#query-id"] /\ textContent <$> byId "query-id" h = Some (queryId (details q)).
Proof.
  unfold QueryHeader.render. destruct (QueryHeader.renderProgressBar _ _ _) as [bar|] eqn:Hb; [|done].
  cbn [mbind result_bind]. intros [= <-]. unfold ids, copyTargets, QueryHeader.renderTab. split; [|split].
  - collects. by rw (lookups_progressBar q suspend resume bar "id"); [left|..].
  - collects. by rw (lookups_progressBar q suspend resume bar "data-clipboard-target"); [right; left|..].
  - reflexivity.
Qed.

Lemma lookups_warningInfo q :
  ids (QueryDetail.renderWarningInfo q) = (if (0 <? length (warnings (details q)))%nat then ["warnings-table"] else []) /\
  copyTargets (QueryDetail.renderWarningInfo q) = [].
Proof.
  unfold QueryDetail.renderWarningInfo. destruct (0 <? _)%nat; [|done].
  unfold ids, copyTargets. split; attributes; rw ?attributesOf_map; done.
Qed.

Definition failed (q : QueryInfo) : bool := match failureInfo (details q) with Some _ => true | None => false end.

Lemma lookups_failureInfo q h :
  QueryDetail.renderFailureInfo q = Ok h ->
  ids h = (if failed q then ["stack-trace"] else []) /\
  copyTargets h = (if failed q then ["#stack-trace"] else []) /\
  Ok (textContent <$> byId "stack-trace" h) =
    (match failureInfo (details q) with Some info => Some <$> formatStackTrace info | None => Ok None end).
Proof.
  unfold QueryDetail.renderFailureInfo, failed. destruct (failureInfo (details q)) as [info|]; [|by intros [= <-]].
  destruct (errorCode (details q)) as [code|]; [|done]. cbn [mbind result_bind member].
  destruct (formatStackTrace info); [|done]. cbn [mbind result_bind]. intros [= <-].
  destruct (errorType (details q)); repeat split.
Qed.

(** The identifiers of the charts of a stage that has a plan. *)
Definition chartIds (stage : Stage) : list string :=
  match figures stage with Some _ => StageSummary.drawnOn true stage | None => [] end.

Lemma lookups_stageSummary expanded stage h :
  StageSummary.render expanded stage = Ok h -> ids h = chartIds stage /\ copyTargets h = [].
Proof.
  unfold StageSummary.render, chartIds. destruct (figures stage) as [f|]; [|by intros [= <-]].
  destruct (tasks stage) as [ts|]; [|done]. cbn [mbind result_bind member]. intros [= <-].
  destruct expanded; by split.
Qed.

Lemma lookups_stageList expanded outputStage h :
  StageList.render expanded outputStage = Ok h ->
  let stages := match outputStage with Some stage => getStages stage | None => [] end in
  ids h = ((if (length stages =? 0)%nat then [] else ["stage-list"]) ++ flat_map chartIds stages)%list /\ copyTargets h = [].
Proof.
  intros Hr stages. revert Hr. unfold StageList.render. fold stages.
  destruct (length stages =? 0)%nat eqn:Hl.
  { apply Nat.eqb_eq, nil_length_inv in Hl as ->. by intros [= <-]. }
  destruct (mapM_result _ _) as [rows|] eqn:Hm; [|done]. cbn [mbind result_bind]. intros [= <-].
  apply mapM_result_spec in Hm. unfold ids, copyTargets. attributes.
  assert (flat_map (attributesOf "id") rows = flat_map chartIds stages /\
          flat_map (attributesOf "data-clipboard-target") rows = []) as [-> ->]; [|done].
  clear Hl. induction Hm as [|stage row stages' rows Hs _ [IHi IHc]]; [done|].
  apply lookups_stageSummary in Hs as [Hi Hc]. unfold ids, copyTargets in Hi, Hc.
  cbn [flat_map]. by rw Hi Hc IHi IHc.
Qed.

Section Lookups.
Context {URL : Type} (newURL : string -> result URL) (hostname port : URL -> string) (Date_parse : string -> num)
  (pathname : string) (now : num) (suspend resume : Button) (expanded : string -> bool).

Lemma lookups_renderTask ports task row name :
  name ∈ lookups ->
  TaskList.renderTask newURL hostname port Date_parse now ports task = Ok row -> attributesOf name row = [].
Proof.
  intros Hn. unfold TaskList.renderTask. cbv zeta.
  destruct (getHostname _ _ _ _) as [host|]; [|done]. cbn [mbind result_bind].
  destruct (if ports then _ else _) as [shown|]; [|done]. cbn [mbind result_bind].
  destruct (formatOf _ _) as [bytes|]; [|done]. cbn [mbind result_bind].
  intros [= <-]. revert name Hn.
  apply lookups_cases; destruct (parseDataSize _), (parseDuration (elapsedTime _)), (parseDuration (totalCpuTime _)); reflexivity.
Qed.

Lemma lookups_taskList tasks h :
  TaskList.render newURL hostname port Date_parse now tasks = Ok h ->
  ids h = (if (length tasks =? 0)%nat then [] else ["tasks"]) /\ copyTargets h = [].
Proof.
  unfold TaskList.render. destruct (_ =? 0)%nat; [by intros [= <-]|].
  destruct (QueryDetail.TaskList.showPortNumbers _ _ _ _) as [ports|]; [|done]. cbn [mbind result_bind].
  destruct (mapM_result _ _) as [rows|] eqn:Hm; [|done]. cbn [mbind result_bind]. intros [= <-].
  apply mapM_result_spec in Hm. unfold ids, copyTargets. attributes.
  assert (forall name, name ∈ lookups -> flat_map (attributesOf name) rows = []) as Hrows.
  { intros name Hn. induction Hm as [|t row ts rows Hr _ IH]; [done|]. cbn [flat_map].
    by rw (lookups_renderTask _ _ _ _ Hn Hr) IH. }
  rw !Hrows; [by left|by right; left|]. by split.
Qed.

Lemma lookups_renderStages s h :
  QueryDetail.renderStages expanded s = Ok h ->
  ids h = ((if (length (listedStages s) =? 0)%nat then [] else ["stage-list"]) ++ flat_map chartIds (listedStages s))%list /\
  copyTargets h = [].
Proof.
  unfold QueryDetail.renderStages. destruct (StageList.render _ _) as [list|] eqn:Hl; [|done].
  apply lookups_stageList in Hl as [Hi Hc]. cbn [mbind result_bind]. intros [= <-].
  unfold ids, copyTargets, QueryDetail.renderStageRefreshButton in *. by split; collects; rw ?Hi ?Hc.
Qed.

Lemma lookups_renderTasks s h :
  QueryDetail.renderTasks newURL hostname port Date_parse now s = Ok h ->
  ids h = match listedTasks s with Some (_ :: _) => ["tasks"] | _ => [] end /\ copyTargets h = [].
Proof.
  unfold QueryDetail.renderTasks. destruct (listedTasks s) as [tasks|]; [|by intros [= <-]].
  destruct (TaskList.render _ _ _ _ _ _) as [list|] eqn:Hl; [|done]. apply lookups_taskList in Hl as [Hi Hc].
  cbn [mbind result_bind]. intros [= <-].
  unfold ids, copyTargets, QueryDetail.renderTaskFilterListItem, QueryDetail.renderTaskRefreshButton in *.
  split; collects; rw ?Hi ?Hc; by destruct tasks.
Qed.

(** The identifiers of the page, in order. *)
Definition pageIds (s : QueryPage) (q : QueryInfo) : list string :=
  (["query-id"; "query-user"; "cpu-time-rate-sparkline"; "scheduled-time-rate-sparkline"; "row-input-rate-sparkline";
    "byte-input-rate-sparkline"; "reserved-memory-sparkline"] ++
   (if (0 <? length (warnings (details q)))%nat then ["warnings-table"] else []) ++
   (if failed q then ["stack-trace"] else []) ++ ["query"; "query-text"] ++
   (if (length (listedStages s) =? 0)%nat then [] else ["stage-list"]) ++ flat_map chartIds (listedStages s) ++
   match listedTasks s with Some (_ :: _) => ["tasks"] | _ => [] end)%list.

Lemma lookups_page s q h :
  QueryDetail.renderQuery newURL hostname port Date_parse pathname now suspend resume expanded s q = Ok h ->
  ids h = pageIds s q /\
  copyTargets h = (["#query-id"; "#query-user"] ++ (if failed q then ["#stack-trace"] else []) ++ ["#query-text"])%list.
Proof.
  intros (header & tl & failure & stages & tasks & (Hh & Hhc & _)%lookups_header & (Ht & Htc)%lookups_timeline &
          (Hf & Hfc & _)%lookups_failureInfo & (Hs & Hsc)%lookups_renderStages & (Hk & Hkc)%lookups_renderTasks & ->)%renderQuery_inv.
  destruct (lookups_warningInfo q) as [Hw Hwc], (lookups_sessionTable (session (details q))) as [Hu Huc].
  unfold ids, copyTargets in *. split; collects.
  - rw !lookups_titled; try by left. rw ?(lookups_executionTable _ "id"); try by left.
    rw ?(lookups_utilizationTable _ "id"); try by left. rw ?Hh ?Ht ?Hf ?Hs ?Hk ?Hw ?Hu -(app_assoc _ (flat_map chartIds _)). reflexivity.
  - rw !lookups_titled; try by (right; left). rw ?(lookups_executionTable _ "data-clipboard-target"); try by (right; left).
    rw ?(lookups_utilizationTable _ "data-clipboard-target"); try by (right; left). rw ?Hhc ?Htc ?Hfc ?Hsc ?Hkc ?Hwc ?Huc.
    by destruct (failed q).
Qed.
End Lookups.

(** ** Distinct identifiers *)

Definition chartKinds : list string :=
  ["scheduled-time-histogram-"; "cpu-time-histogram-"; "scheduled-time-bar-chart-"; "cpu-time-bar-chart-"].

Definition printedNumber (stage : Stage) : string := to_string (getStageNumber (stageId stage)).

Lemma append_inj_l k (a b : string) : k ++ a = k ++ b -> a = b.
Proof. induction k as [|c k IH]; cbn; [done|]. intros [= H]. by apply IH. Qed.

Lemma chartKinds_apart k k' a b : k ∈ chartKinds -> k' ∈ chartKinds -> k ++ a = k' ++ b -> k = k' /\ a = b.
Proof.
  intros Hk Hk' He. assert (k = k') as ->; [|split; [done|by eapply append_inj_l]].
  revert Hk Hk' He. unfold chartKinds. rw !list_elem_of_In. cbn [In].
  intros [<-|[<-|[<-|[<-|[]]]]] [<-|[<-|[<-|[<-|[]]]]]; cbn; congruence.
Qed.

Lemma elem_of_chartIds x stage : x ∈ chartIds stage -> exists k, k ∈ chartKinds /\ x = k ++ printedNumber stage.
Proof.
  unfold chartIds. destruct (figures stage); [|intros H; inversion H].
  intros (k & -> & Hk)%list_elem_of_fmap. by exists k.
Qed.

Lemma chartIds_NoDup stage : NoDup (chartIds stage).
Proof.
  unfold chartIds. destruct (figures stage); [|constructor]. apply NoDup_fmap_2_strong.
  - intros k k' Hk Hk' He. by destruct (chartKinds_apart _ _ _ _ Hk Hk' He).
  - apply (bool_decide_unpack (NoDup chartKinds)). by vm_compute.
Qed.

Lemma charts_NoDup stages : NoDup (printedNumber <$> stages) -> NoDup (flat_map chartIds stages).
Proof.
  induction stages as [|stage stages IH]; cbn; [constructor|]. intros [Hn Hd]%NoDup_cons.
  apply NoDup_app. split; [apply chartIds_NoDup|]. split; [|by apply IH].
  intros x (k & Hk & ->)%elem_of_chartIds Hin. apply Hn. rw list_elem_of_In in Hin.
  apply in_flat_map in Hin as (stage' & Hs & (k' & Hk' & He)%list_elem_of_In%elem_of_chartIds).
  apply chartKinds_apart in He as [_ ->]; [|done..]. apply list_elem_of_fmap. exists stage'. by rw list_elem_of_In.
Qed.

(** An identifier of the page that is not a chart's. *)
Definition staticIds : list string :=
  ["query-id"; "query-user"; "cpu-time-rate-sparkline"; "scheduled-time-rate-sparkline"; "row-input-rate-sparkline";
   "byte-input-rate-sparkline"; "reserved-memory-sparkline"; "warnings-table"; "stack-trace"; "query"; "query-text";
   "stage-list"; "tasks"].

Lemma chart_not_static x k a :
  x ∈ staticIds ->
  k ∈ chartKinds -> x <> k ++ a.
Proof.
  unfold chartKinds, staticIds. rw !list_elem_of_In. cbn [In]. intros Hx Hk. repeat destruct Hx as [<-|Hx]; try done;
    repeat destruct Hk as [<-|Hk]; done.
Qed.

(** The identifiers of the page that are not charts'. *)
Definition fixedIds (s : QueryPage) (q : QueryInfo) : list string :=
  (["query-id"; "query-user"; "cpu-time-rate-sparkline"; "scheduled-time-rate-sparkline"; "row-input-rate-sparkline";
    "byte-input-rate-sparkline"; "reserved-memory-sparkline"] ++
   (if (0 <? length (warnings (details q)))%nat then ["warnings-table"] else []) ++
   (if failed q then ["stack-trace"] else []) ++ ["query"; "query-text"] ++
   (if (length (listedStages s) =? 0)%nat then [] else ["stage-list"]) ++
   match listedTasks s with Some (_ :: _) => ["tasks"] | _ => [] end)%list.

Lemma pageIds_split s q : pageIds s q ≡ₚ (fixedIds s q ++ flat_map chartIds (listedStages s))%list.
Proof.
  unfold pageIds, fixedIds. rw !(assoc_L (++)%list) -(assoc_L (++)%list).
  rw (Permutation_app_comm (flat_map chartIds (listedStages s))). by rw (assoc_L (++)%list).
Qed.

Lemma fixedIds_static s q : NoDup (fixedIds s q) /\ forall x, x ∈ fixedIds s q -> x ∈ staticIds.
Proof.
  unfold fixedIds.
  destruct (0 <? _)%nat, (failed q), (length _ =? 0)%nat, (listedTasks s) as [[|? ?]|];
    (split; [apply (bool_decide_unpack (NoDup _)); by vm_compute|]);
    apply Forall_forall; apply (bool_decide_unpack (Forall (fun x => x ∈ staticIds) _)); by vm_compute.
Qed.

Lemma pageIds_NoDup s q : NoDup (printedNumber <$> listedStages s) -> NoDup (pageIds s q).
Proof.
  intros Hn. rw pageIds_split. destruct (fixedIds_static s q) as [Hd Hst].
  apply NoDup_app. split; [done|split; [|by apply charts_NoDup]].
  intros x Hx Hin. rw list_elem_of_In in Hin. apply in_flat_map in Hin as (stage & _ & Hin).
  rw -list_elem_of_In in Hin. apply elem_of_chartIds in Hin as (k & Hk & He).
  revert He. apply chart_not_static; [|done]. by apply Hst.
Qed.

(** A chart of a stage is on the page exactly if the stage has a plan. *)
Lemma chart_on_page s q stage expanded x :
  NoDup (printedNumber <$> listedStages s) -> stage ∈ listedStages s ->
  x ∈ StageSummary.drawnOn expanded stage -> x ∈ pageIds s q <-> is_Some (figures stage).
Proof.
  intros Hn Hs (k & -> & Hk)%list_elem_of_fmap. rw pageIds_split elem_of_app.
  assert (Hkind : k ∈ chartKinds) by (revert Hk; unfold chartKinds; destruct expanded; cbn; rw !elem_of_cons; tauto).
  fold (printedNumber stage). split.
  - intros [Hx|Hx].
    + exfalso. by apply (chart_not_static _ k (printedNumber stage) (proj2 (fixedIds_static s q) _ Hx)).
    + rw list_elem_of_In in Hx. apply in_flat_map in Hx as (stage' & Hs' & Hx). rw -!list_elem_of_In in Hx Hs'.
      pose proof Hx as (k' & Hk' & He)%elem_of_chartIds. apply chartKinds_apart in He as [_ He]; [|done..].
      enough (stage = stage') as -> by (revert Hx; unfold chartIds; destruct (figures stage'); [by eexists|intros H; inversion H]).
      apply list_elem_of_lookup in Hs as [i Hi]. apply list_elem_of_lookup in Hs' as [j Hj].
      enough (i = j) as -> by congruence. apply (NoDup_lookup _ _ _ (printedNumber stage) Hn); rw list_lookup_fmap.
      * by rw Hi.
      * by rw Hj He.
  - intros [f Hf]. right. rw list_elem_of_In. apply in_flat_map. exists stage. rw -!list_elem_of_In. split; [done|].
    unfold chartIds. rw Hf. apply list_elem_of_fmap. by exists k.
Qed.

Section Found.
Context {URL : Type} (newURL : string -> result URL) (hostname port : URL -> string) (Date_parse : string -> num)
  (pathname : string) (now : num) (suspend resume : Button) (expanded : string -> bool).

(** The elements the page and the summaries of its stages draw on. *)
Definition drawnElements (s : QueryPage) : list string :=
  ((element <$> QueryDetail.sparklines s) ++
   flat_map (fun stage => StageSummary.drawnOn (expanded (stageId stage)) stage) (listedStages s))%list.

(** C16.  On a page that shows a query, the sparklines of the query and the
    histograms and bar charts of its stages find the element they are drawn on,
    and find only that one, except those of a stage without a plan, which are
    drawn all the same and have no element: no two elements of the page have the
    same identifier, if no two stages have the same number. *)
Theorem drawn_elements_found s q h :
  query s = Some q -> initialized s = true ->
  QueryDetail.render newURL hostname port Date_parse pathname now suspend resume expanded s = Ok h ->
  NoDup (printedNumber <$> listedStages s) ->
  NoDup (ids h) /\
  forall id, id ∈ drawnElements s ->
    (forall n, byId id h = Some n -> attribute "id" n = Some id) /\
    (byId id h = None <->
     exists stage, stage ∈ listedStages s /\ figures stage = None /\
                   id ∈ StageSummary.drawnOn (expanded (stageId stage)) stage).
Proof.
  intros Hq Hi Hr Hn. unfold QueryDetail.render in Hr. rw Hq Hi in Hr. apply lookups_page in Hr as [Hids _].
  split; [rw Hids; by apply pageIds_NoDup|]. intros id Hid.
  assert (Hfound : is_Some (byId id h) <-> id ∈ pageIds s q) by by rw byId_found Hids.
  split.
  { intros n Hb. destruct (byId_attribute id h) as (n' & Hb' & Ha); [|congruence]. rw -byId_found Hb. by eexists. }
  rw eq_None_not_Some Hfound. split.
  - intros Hno. unfold drawnElements in Hid. apply elem_of_app in Hid as [Hid|Hid].
    { destruct Hno. unfold pageIds. apply elem_of_app; left. revert Hid. cbn. rw !elem_of_cons. tauto. }
    rw list_elem_of_In in Hid. apply in_flat_map in Hid as (stage & Hs & Hid). rw -!list_elem_of_In in Hs Hid.
    exists stage. split; [done|split; [|done]]. rw (chart_on_page s q stage _ id Hn Hs Hid) in Hno.
    by apply eq_None_not_Some.
  - intros (stage & Hs & Hf & Hon). rw (chart_on_page s q stage _ id Hn Hs Hon) Hf. by intros [? ?].
Qed.

(** C26.  The copy buttons of the page of a query copy what they stand beside: its
    identifier, the user, the text of the query, and, if it failed, the stack
    trace; there are no others. *)
Theorem copy_buttons s q h :
  query s = Some q -> initialized s = true ->
  QueryDetail.render newURL hostname port Date_parse pathname now suspend resume expanded s = Ok h ->
  copyTargets h = (["#query-id"; "#query-user"] ++ (if failed q then ["#stack-trace"] else []) ++ ["#query-text"])%list /\
  copied "#query-id" h = Some (queryId (details q)) /\
  copied "#query-user" h = Some (user (session (details q))) /\
  copied "#query-text" h = Some (queryText (details q)) /\
  (forall info, failureInfo (details q) = Some info -> Some <$> formatStackTrace info = Ok (copied "#stack-trace" h)).
Proof.
  intros Hq Hi Hr. unfold QueryDetail.render in Hr. rw Hq Hi in Hr. pose proof Hr as Hp.
  apply lookups_page in Hp as [_ Hc]. split; [done|]. clear Hc.
  apply renderQuery_inv in Hr as (header & tl & failure & stages & tasks & (Hh & _ & Hid)%lookups_header &
    (Ht & _)%lookups_timeline & (Hf & _ & Hst)%lookups_failureInfo & _ & _ & ->).
  set (session_row := el "div" [cls "row"] [_; _]).
  set (stats_row := el "div" [cls "row"] [el "div" [cls "col-xs-12"] [el "div" _ _]]).
  assert (textContent <$> byId "query-user" session_row = Some (user (session (details q)))) as Huser by done.
  assert (ids session_row = ["query-user"] /\ ids stats_row = ids tl) as [Hsession Hstats].
  { destruct (lookups_sessionTable (session (details q))) as [Hu _]. unfold ids, session_row, stats_row in *.
    split; attributes; rw !lookups_titled; try by left.
    - rw Hu ?lookups_executionTable; by [left|].
    - rw ?lookups_utilizationTable; by [left|]. }
  rw Ht in Hstats. destruct (lookups_warningInfo q) as [Hw _].
  assert (forall id (skipped : list Html) rest, id ∉ flat_map ids skipped ->
            byId id (el "div" [] (skipped ++ rest)) = byId id (concat rest)) as Hskip.
  { intros id skipped rest Hn. rw byId_el. cbn [attribute List.find]. rw concat_app byId_app byId_absent; [|done].
    unfold ids. by rw attributesOf_concat. }
  unfold copied. split; [|split; [|split]].
  - rw byId_el. cbn [attribute List.find]. rw byId_cons. by destruct (byId "query-id" header).
  - rw (Hskip "query-user" [header]); [cbn [flat_map]; rw Hh; set_solver|]. rw byId_cons.
    by destruct (byId "query-user" session_row).
  - rw (Hskip "query-text" [header; session_row; stats_row; _; failure]); [|done].
    cbn [flat_map]. rw Hh Hsession Hstats Hw Hf. by destruct (0 <? _)%nat, (failed q); eapply (bool_decide_eq_false_1 (_ ∈ _)).
  - intros info Hinfo. rw Hinfo in Hst. rw (Hskip "stack-trace" [header; session_row; stats_row; _]).
    { cbn [flat_map]. rw Hh Hsession Hstats Hw. by destruct (0 <? _)%nat; eapply (bool_decide_eq_false_1 (_ ∈ _)). }
    rw byId_cons. destruct (formatStackTrace info) as [trace|]; [|done]. cbn in Hst |- *. injection Hst as Hst.
    destruct (byId "stack-trace" failure); cbn in Hst |- *; congruence.
Qed.
End Found.

(** ** Sparklines *)

(** C32.  The sparklines are always one answer behind: an answer first stores the
    query, which draws the histories as they were before, and only then adds its
    rates, too soon after the drawing to be drawn themselves; the figures beside
    the sparklines do show them.  The page of a query that has ended gets one
    answer only, so that its sparklines are drawn without a value. *)
Theorem sparklines_lag c q s :
  drawsSparklines (QueryDetail.update1 c) (lastRender s) = true ->
  ge (sub (QueryDetail.update2 c) (QueryDetail.render1 c)) (of_Z 1000) = false ->
  QueryDetail.handleAnswer c q s =
    (QueryDetail.sparklines s, QueryDetail.withRender (QueryDetail.render1 c) (onQueryInfo q s)) /\
  (s = initialPage -> finalQueryInfo q = true ->
     Forall (fun d => values d = []) (QueryDetail.handleAnswer c q s).1 /\
     stopped (QueryDetail.handleAnswer c q s).2 = true).
Proof.
  intros Hd Hl.
  assert (QueryDetail.handleAnswer c q s =
            (QueryDetail.sparklines s, QueryDetail.withRender (QueryDetail.render1 c) (onQueryInfo q s))) as ->.
  { unfold QueryDetail.handleAnswer, QueryDetail.componentDidUpdate, onQueryInfo.
    change (lastRender (withQuery q s)) with (lastRender s). rw Hd.
    destruct (measuredSince q s) as [last|]; [|done]. unfold withRates.
    destruct (ge (div _ _) _); [|done]. cbn [lastRender]. unfold drawsSparklines. cbn. by rw Hl. }
  split; [done|]. intros -> Hf. split; [repeat (apply Forall_cons_2; [done|]); apply Forall_nil_2|].
  unfold onQueryInfo, withRates. destruct (measuredSince q initialPage); [|exact Hf]. destruct (ge (div _ _) _); exact Hf.
Qed.

(** ** The table of tasks *)

Section Table.
Context {URL : Type} (newURL : string -> result URL) (hostname port : URL -> string) (Date_parse : string -> num).

Definition headerColumns : list string := omap (attribute "column") (concat TaskList.headers).

(** The table has one row for each task, and a row has one cell for each column
    of the header, all of which can be sorted by. *)
Theorem task_table now tasks h :
  tasks <> [] ->
  TaskList.render newURL hostname port Date_parse now tasks = Ok h ->
  (exists attributes rows,
     h = el "Table" attributes [el "Thead" [] TaskList.headers; concat rows] /\
     Forall2 (fun task row => columnsOf row ≡ₚ headerColumns /\ exists n, row = [n] /\ attribute "key" n = Some (taskId task))
       tasks rows) /\
  NoDup headerColumns /\ TaskList.sortable ≡ₚ headerColumns.
Proof.
  intros Hne Hr. split; [|split].
  - revert Hr. unfold TaskList.render. destruct tasks as [|t ts]; [done|]. cbn [length Nat.eqb].
    destruct (QueryDetail.TaskList.showPortNumbers _ _ _ _) as [ports|]; [|done]. cbn [mbind result_bind].
    destruct (mapM_result _ _) as [rows|] eqn:Hm; [|done]. cbn [mbind result_bind]. intros [= <-].
    apply mapM_result_spec in Hm. eexists _, rows. split; [done|]. eapply Forall2_impl; [done|].
    intros task row Hrow. split.
    + apply renderTask_inv in Hrow as [_ ->]. apply (bool_decide_unpack (_ ≡ₚ headerColumns)). by vm_compute.
    + revert Hrow. unfold TaskList.renderTask. cbv zeta.
      destruct (getHostname _ _ _ _) as [host|]; [|done]. cbn [mbind result_bind].
      destruct (if ports then _ else _) as [shown|]; [|done]. cbn [mbind result_bind].
      destruct (formatOf _ _) as [bytes|]; [|done]. cbn [mbind result_bind]. intros [= <-]. by eexists.
  - apply (bool_decide_unpack (NoDup headerColumns)). by vm_compute.
  - apply (bool_decide_unpack (TaskList.sortable ≡ₚ headerColumns)). by vm_compute.
Qed.
End Table.

(** ** A page *)

Definition exampleDate : Date := {| getFullYear := 2020; getMonth := 5; getDate := 9; getHours := 13; getMinutes := 5 |}.

Definition exampleSession : Session :=
  {| user := "ann"; principal := None; source := Some "cli"; catalog := Some "hive"; schema := None;
     remoteUserAddress := None; clientTags := ["a"; "b"]; systemProperties := [("k", "v")];
     catalogProperties := []; resourceEstimates := [("peakMemory", "1GB")] |}.

Definition exampleStats : QueryStats :=
  {| queryScheduledTime := "4.00s"; queryCpuTime := "2.00s"; queryBlockedTime := "0.00s"; queuedTime := "1ms";
     executionTime := "3.00s"; queryElapsedTime := "3.10s"; queryCreateTime := exampleDate; queryEndTime := Some exampleDate;
     processedInputPositions := of_Z 0; processedInputDataSize := "0B"; physicalInputPositions := of_Z 0;
     physicalInputDataSize := "1kB"; internalNetworkInputPositions := of_Z 0; internalNetworkInputDataSize := "1kB";
     outputPositions := of_Z 0; outputDataSize := "8B"; writtenPositions := of_Z 0; logicalWrittenDataSize := "0B";
     physicalWrittenDataSize := "0B"; spilledDataSize := "0B"; userMemoryReservation := "0B";
     peakUserMemoryReservation := "2MB"; peakRevocableMemoryReservation := "0B"; peakTotalMemoryReservation := "2MB";
     cumulativeUserMemory := of_Z 0;
     driverStats := {| Utils.totalDrivers := of_Z 2; Utils.runningDrivers := of_Z 0; Utils.fullyBlocked := false;
                       Utils.blockedReasons := None; Utils.progressPercentage := None |} |}.

Definition exampleFigures : StageFigures :=
  {| stageState := {| Utils.stage_state := "FINISHED"; Utils.stage_fullyBlocked := Some false |};
     stageScheduledTime := "1s"; stageBlockedTime := "0s"; stageCpuTime := "1s"; stageCumulativeMemory := of_Z 0;
     stageReservation := "0B"; stagePeakReservation := "1MB" |}.

Definition exampleTask : Task :=
  {| taskId := "q.1.0"; self := "http://w1:80/task"; nodeId := "w1"; taskState := "FINISHED"; fullyBlocked := false;
     elapsedTime := "1.00s"; createTime := "t"; totalScheduledTime := "1.00s"; totalCpuTime := "1.00s";
     rawInputPositions := of_Z 0; rawInputDataSize := "0B"; queuedDrivers := of_Z 0; runningDrivers := of_Z 0;
     blockedDrivers := of_Z 0; completedDrivers := of_Z 2; totalBufferedBytes := of_Z 0 |}.

Definition exampleFailure : FailureInfo := mkFailureInfo "E" (Some "division by zero") (Frames ["f"]) [] None.

Definition exampleQuery : QueryInfo :=
  {| state := "FAILED"; queryStats := exampleStats;
     details :=
       {| queryId := "20200609_1"; recoveryEnabled := false; scheduled := true; session := exampleSession;
          resourceGroupId := None; memoryPool := "general"; warnings := []; failureInfo := Some exampleFailure;
          errorType := Some "USER_ERROR"; errorCode := Some ("DIVISION_BY_ZERO", "8"); queryText := "select 1/0" |};
     outputStage :=
       Some (mkStage "q.0" (Some exampleFigures) (Some [])
         (Some [mkStage "q.1" (Some exampleFigures) (Some [exampleTask]) (Some [])]));
     finalQueryInfo := true; nowMillis := of_Z 1000000 |}.

(** An URL is its host and its port. *)
Definition exampleURL (url : string) : result (string * string) := Ok ("w1", "80").

(** The page between the two setStates of its first answer. *)
Definition examplePage : QueryPage := withQuery exampleQuery initialPage.

Definition noButton : Button := {| isButtonDisabled := false; uri := ""; b_label := "" |}.

Definition exampleRender : result Html :=
  QueryDetail.render exampleURL fst snd (fun _ => of_Z 0) "/ui/query.html" (of_Z 1000000) noButton noButton
    (fun _ => false) examplePage.

Definition exampleHtml : Html := resultOr [] exampleRender.

Lemma exampleRender_ok : exampleRender = Ok exampleHtml.
Proof. vm_compute. reflexivity. Qed.

Lemma query_page_wellFormed_witness :
  wellFormed "div" exampleHtml = true <->
  forall q, query examplePage = Some q -> initialized examplePage = true ->
    warnings (details q) = [] /\ uniform (stageWidth <$> listedStages examplePage) = true.
Proof.
  apply (query_page_wellFormed exampleURL fst snd (fun _ => of_Z 0) "/ui/query.html" (of_Z 1000000) noButton noButton
           (fun _ => false)).
  exact exampleRender_ok.
Defined.

(** The query with one stage that has a plan, and one that has none. *)
Definition prunedQuery : QueryInfo :=
  {| state := state exampleQuery; queryStats := queryStats exampleQuery; details := details exampleQuery;
     outputStage := Some (mkStage "q.0" (Some exampleFigures) (Some []) (Some [mkStage "q.1" None (Some []) (Some [])]));
     finalQueryInfo := true; nowMillis := of_Z 1000000 |}.

Definition prunedPage : QueryPage := withQuery prunedQuery initialPage.

Definition prunedRender : result Html :=
  QueryDetail.render exampleURL fst snd (fun _ => of_Z 0) "/ui/query.html" (of_Z 1000000) noButton noButton
    (fun _ => false) prunedPage.

Definition prunedHtml : Html := resultOr [] prunedRender.

Lemma prunedRender_ok : prunedRender = Ok prunedHtml.
Proof. vm_compute. reflexivity. Qed.

Lemma drawn_elements_found_witness :
  NoDup (ids prunedHtml) /\ byId "cpu-time-histogram-1" prunedHtml = None /\
  "cpu-time-histogram-1" ∈ drawnElements (fun _ => false) prunedPage.
Proof.
  destruct (drawn_elements_found exampleURL fst snd (fun _ => of_Z 0) "/ui/query.html" (of_Z 1000000) noButton noButton
           (fun _ => false) prunedPage prunedQuery prunedHtml) as [Hn Hf];
    [vm_compute; reflexivity..|exact prunedRender_ok| |].
  - apply (bool_decide_unpack (NoDup (printedNumber <$> listedStages prunedPage))). vm_compute. exact I.
  - assert ("cpu-time-histogram-1" ∈ drawnElements (fun _ => false) prunedPage) as Hin.
    { apply (bool_decide_unpack (_ ∈ drawnElements (fun _ => false) prunedPage)). vm_compute. exact I. }
    split; [exact Hn|]. split; [|exact Hin]. apply (proj2 (Hf _ Hin)).
    exists (mkStage "q.1" None (Some []) (Some [])).
    split; [vm_compute; right; left|]. split; [reflexivity|].
    apply (bool_decide_unpack (_ ∈ StageSummary.drawnOn false (mkStage "q.1" None (Some []) (Some [])))). vm_compute. exact I.
Defined.

Lemma copy_buttons_witness : copied "#query-text" exampleHtml = Some "select 1/0".
Proof.
  apply (copy_buttons exampleURL fst snd (fun _ => of_Z 0) "/ui/query.html" (of_Z 1000000) noButton noButton
           (fun _ => false) examplePage exampleQuery); [vm_compute; reflexivity..|exact exampleRender_ok].
Defined.

Lemma sparklines_lag_witness :
  let c := {| QueryDetail.update1 := of_Z 10; QueryDetail.render1 := of_Z 10; QueryDetail.update2 := of_Z 11;
              QueryDetail.render2 := of_Z 11 |} in
  Forall (fun d => values d = []) (QueryDetail.handleAnswer c exampleQuery initialPage).1 /\
  stopped (QueryDetail.handleAnswer c exampleQuery initialPage).2 = true.
Proof. intros c. apply (sparklines_lag c exampleQuery initialPage); vm_compute; reflexivity. Defined.
