(* ===== verification/WorkerPage.v ===== *)
(** * The elements of the worker page

    What the render methods of WorkerStatus.jsx return, the sparklines drawn into
    it, and what its copy buttons copy. *)

From S2P Require Import Prelude JsString Markup JsNumber Utils Timers RefreshLoop ClusterPages PageHeader QueryDetail QueryPage QueryPageFacts.
Import ClusterPages.WorkerStatus.

(** ** The memory pools *)

Definition bar (className : string) (percentage : num) (label : list Html) : Html :=
  el "div" [cls className; "role" =: "progressbar"; style [("width", to_string percentage ++ "%")]] label.

Definition renderPoolBar (name : string) (pool : option Pool) : Html :=
  match pool with
  | None => []
  | Some pool =>
      let size := maxBytes pool in
      let reserved := reservedBytes pool in
      let revocable := reservedRevocableBytes pool in
      let percentageReservedNonRevocable := barPercentage (sub reserved revocable) size in
      let percentageRevocable := barPercentage revocable size in
      let percentageFree := sub (of_Z 100) (add percentageRevocable percentageReservedNonRevocable) in
      el "div" [cls "row"]
        [el "div" [cls "col-xs-12"]
           [el "div" [cls "row"]
              [el "div" [cls "col-xs-8"] [el "h4" [] [txt (name ++ " Pool")]];
               el "div" [cls "col-xs-4"]
                 [el "div" [cls "progress"; style [("marginTop", "6px")]]
                    [el "div" [cls "progress-bar memory-progress-bar memory-progress-bar-info"; "role" =: "progressbar";
                               style [("width", "100%")]] [txt (formatDataSize size ++ " total")]]]];
            el "div" [cls "row"]
              [el "div" [cls "col-xs-12"]
                 [el "hr" [cls "h4-hr"] [];
                  el "div" [cls "progress"]
                    [bar "progress-bar memory-progress-bar progress-bar-warning progress-bar-striped active"
                       percentageReservedNonRevocable [txt (formatDataSize (sub reserved revocable))];
                     bar "progress-bar memory-progress-bar progress-bar-danger progress-bar-striped active"
                       percentageRevocable [txt (formatDataSize revocable)];
                     bar "progress-bar memory-progress-bar progress-bar-success"
                       percentageFree [txt (formatDataSize (sub size reserved))]]]]]]
  end.

Definition renderPoolQuery (query : string) (reserved revocable total : num) : Html :=
  el "tr" []
    [el "td" []
       [el "div" [cls "row query-memory-list-header"]
          [el "div" [cls "col-xs-7"] [el "a" ["href" =: "query.html?" ++ query; "target" =: "_blank"] [txt query]];
           el "div" [cls "col-xs-5"]
             [el "div" [cls "row text-right"]
                [el "div" [cls "col-xs-6"]
                   [el "span" ["data-toggle" =: "tooltip"; "data-placement" =: "top";
                               "title" =: "% of pool memory reserved"]
                      [txt (to_string (math_round (div (mul reserved (of_Z 100)) total)) ++ "%")]];
                 el "div" [cls "col-xs-6"]
                   [el "span" ["data-toggle" =: "tooltip"; "data-placement" =: "top";
                               "title" =: "Reserved: " ++ formatDataSize reserved ++ ". Revocable: " ++
                                          formatDataSize revocable]
                      [txt (formatDataSize reserved)]]]]]]].

Definition renderPoolQueries (pool : option Pool) : Html :=
  match pool with
  | None => []
  | Some pool =>
      let queries := poolQueries pool in
      if (length queries =? 0)%nat then
        el "div" []
          [el "table" [cls "table table-condensed"]
             [el "tbody" [] [el "tr" [] [el "td" [] [txt "No queries using pool"]]]]]
      else
        el "div" []
          [el "table" [cls "table"]
             [el "tbody" []
                ((fun '(query, (reserved, revocable)) => renderPoolQuery query reserved revocable (maxBytes pool)) <$>
                 queries)]]
  end.

(** ** The page *)

(** A value with its identifier; the copy button beside it has no aria-hidden. *)
Definition value (id text : string) : Html := el "span" ["id" =: id] [txt text].

Definition copyIcon (target : string) : Html :=
  el "a" ["href" =: "#"; cls "copy-button"; "data-clipboard-target" =: target; "data-toggle" =: "tooltip";
          "data-placement" =: "right"; "title" =: "Copy to clipboard"]
    [el "span" [cls "glyphicon glyphicon-copy"; "alt" =: "Copy to clipboard"] []].

Definition overviewLeft (i : ServerInfo) : Html :=
  el "table" [cls "table"]
    [el "tbody" []
       [infoRow "Node ID" "info-text wrap-text" [value "node-id" (nodeId i); txt (nbsp ++ nbsp); copyIcon "#node-id"];
        infoRow "Heap Memory" "info-text wrap-text" [value "internal-address" (formatDataSize (heapAvailable i))];
        infoRow "Processors" "info-text wrap-text" [value "internal-address" (to_string (processors i))]]].

Definition overviewRight (i : ServerInfo) : Html :=
  el "table" [cls "table"]
    [el "tbody" []
       [infoRow "Uptime" "info-text wrap-text" [txt (uptime i)];
        infoRow "External Address" "info-text wrap-text"
          [value "external-address" (externalAddress i); txt (nbsp ++ nbsp); copyIcon "#external-address"];
        infoRow "Internal Address" "info-text wrap-text"
          [value "internal-address" (internalAddress i); txt (nbsp ++ nbsp); copyIcon "#internal-address"]]].

Definition utilization (s : t) : Html :=
  let percent history := formatCount (latest history) ++ "%" in
  el "div" [cls "row"]
    [el "div" [cls "col-xs-6"]
       [el "table" [cls "table"]
          [el "tbody" []
             [QueryDetail.sparkline "Process CPU Utilization" "process-cpu-load-sparkline" (percent (processCpuLoads s));
              QueryDetail.sparkline "System CPU Utilization" "system-cpu-load-sparkline" (percent (systemCpuLoads s))]]];
     el "div" [cls "col-xs-6"]
       [el "table" [cls "table"]
          [el "tbody" []
             [QueryDetail.sparkline "Heap Utilization" "heap-percent-used-sparkline" (percent (heapPercentUsed s));
              QueryDetail.sparkline "Non-Heap Memory Used" "nonheap-used-sparkline"
                (formatDataSize (latest (nonHeapUsage s)))]]]].

Definition renderInfo (s : t) (i : ServerInfo) : Html :=
  el "div" []
    [el "div" [cls "row"]
       [el "div" [cls "col-xs-12"]
          [el "h3" [] [txt "Overview"];
           el "hr" [cls "h3-hr"] [];
           el "div" [cls "row"]
             [el "div" [cls "col-xs-6"] [overviewLeft i]; el "div" [cls "col-xs-6"] [overviewRight i]];
           el "div" [cls "row"]
             [el "div" [cls "col-xs-12"]
                [el "h3" [] [txt "Resource Utilization"]; el "hr" [cls "h3-hr"] []; utilization s]]]];
     el "div" [cls "row"]
       [el "div" [cls "col-xs-12"]
          [el "h3" [] [txt "Memory Pools"];
           el "hr" [cls "h3-hr"] [];
           el "div" [cls "row"]
             [el "div" [cls "col-xs-6"] [renderPoolBar "General" (general i); renderPoolQueries (general i)];
              el "div" [cls "col-xs-6"] [renderPoolBar "Reserved" (reserved i); renderPoolQueries (reserved i)]]]]].

Definition render (s : t) : Html :=
  match serverInfo s with
  | Some i => renderInfo s i
  | None =>
      if initialized s then
        el "div" [cls "row error-message"]
          [el "div" [cls "col-xs-12"] [el "h4" [] [txt "Node information could not be loaded"]]]
      else el "div" [cls "loader"] [txt "Loading..."]
  end.

(** The calls of the sparkline plugin, on every update. *)
Definition componentDidUpdate (s : t) : list Drawing :=
  let draw id values formatter :=
    {| element := id; values := Some <$> values; numberFormatter := formatter |} in
  [draw "process-cpu-load-sparkline" (processCpuLoads s) PrecisionRound;
   draw "system-cpu-load-sparkline" (systemCpuLoads s) PrecisionRound;
   draw "heap-percent-used-sparkline" (heapPercentUsed s) PrecisionRound;
   draw "nonheap-used-sparkline" (nonHeapUsage s) FormatDataSize].

(** ** The queries of a pool *)

Lemma setRevocable_map query revocable queries :
  (list_to_map (setRevocable query revocable queries) : gmap string (num * num)) =
  <[query := (from_option fst (of_Z 0) ((list_to_map queries : gmap string (num * num)) !! query), revocable)]>
    (list_to_map queries).
Proof.
  induction queries as [|[q [a b]] queries IH]; [done|]. cbn. unfold streq. destruct (String.eqb_spec q query) as [->|Hne]; cbn.
  - by rw lookup_insert_eq insert_insert_eq.
  - rw IH lookup_insert_ne; [done|]. by rw insert_insert_ne.
Qed.

Lemma setRevocable_keys query revocable queries q :
  q ∈ (setRevocable query revocable queries).*1 <-> q = query \/ q ∈ queries.*1.
Proof.
  induction queries as [|[q' [a b]] queries IH]; cbn.
  - rw elem_of_cons. set_solver.
  - unfold streq. destruct (String.eqb_spec q' query) as [->|Hne]; cbn; rw !elem_of_cons ?IH; tauto.
Qed.

Lemma setRevocable_NoDup query revocable queries :
  NoDup queries.*1 -> NoDup (setRevocable query revocable queries).*1.
Proof.
  induction queries as [|[q [a b]] queries IH]; cbn; [intros _; apply NoDup_singleton|].
  unfold streq. intros [Hn Hd]%NoDup_cons. destruct (String.eqb_spec q query) as [->|Hne]; cbn; apply NoDup_cons.
  - done.
  - split; [rw setRevocable_keys; tauto|by apply IH].
Qed.

Notation reservations l := (list_to_map l : gmap string num).

Lemma revocables_merged (revocables : list (string * num)) queries :
  NoDup revocables.*1 -> NoDup queries.*1 ->
  let merged := fold_left (fun queries '(query, bytes) => setRevocable query bytes queries) revocables queries in
  NoDup merged.*1 /\
  forall q, (list_to_map merged : gmap string (num * num)) !! q =
    match reservations revocables !! q, (list_to_map queries : gmap string (num * num)) !! q with
    | Some r, ab => Some (from_option fst (of_Z 0) ab, r)
    | None, ab => ab
    end.
Proof.
  intros Hr Hq. cbv zeta. revert queries Hq. induction revocables as [|[query r] revocables IH]; cbn; intros queries Hq; [done|].
  apply NoDup_cons in Hr as [Hn Hr]. destruct (IH Hr _ (setRevocable_NoDup query r queries Hq)) as [Hd Hl].
  split; [done|]. intros q. rw Hl setRevocable_map.
  destruct (decide (q = query)) as [->|Hne].
  - rw !lookup_insert_eq. by rw (not_elem_of_list_to_map_1 revocables query).
  - by rw !lookup_insert_ne.
Qed.

(** The page lists each query of a pool once, with its reserved and its
    revocable memory, zero where the pool has no entry of the kind, and lists no
    other. *)
Theorem poolQueries_complete pool :
  NoDup (queryMemoryReservations pool).*1 -> NoDup (queryMemoryRevocableReservations pool).*1 ->
  NoDup (poolQueries pool).*1 /\
  forall q reserved revocable,
    (q, (reserved, revocable)) ∈ poolQueries pool <->
    let a := reservations (queryMemoryReservations pool) !! q in
    let b := reservations (queryMemoryRevocableReservations pool) !! q in
    (is_Some a \/ is_Some b) /\ reserved = default (of_Z 0) a /\ revocable = default (of_Z 0) b.
Proof.
  intros Ha Hb. unfold poolQueries.
  set (queries := map _ (queryMemoryReservations pool)).
  assert (queries.*1 = (queryMemoryReservations pool).*1) as Hk.
  { clear. subst queries. induction (queryMemoryReservations pool) as [|[q r] l IH]; cbn; [done|]. by f_equal. }
  assert (forall q, (list_to_map queries : gmap string (num * num)) !! q =
            (fun r => (r, of_Z 0)) <$> reservations (queryMemoryReservations pool) !! q) as Hl.
  { clear. subst queries. intros q. induction (queryMemoryReservations pool) as [|[q' r] l IH]; cbn; [done|].
    destruct (decide (q = q')) as [->|]; [by rw !lookup_insert_eq|by rw !lookup_insert_ne]. }
  rw -Hk in Ha. destruct (revocables_merged (queryMemoryRevocableReservations pool) queries Hb Ha) as [Hd Hm].
  split; [done|]. intros q reserved revocable. cbv zeta.
  rw (elem_of_list_to_map _ q (reserved, revocable) Hd) Hm Hl.
  destruct (reservations (queryMemoryRevocableReservations pool) !! q), (reservations (queryMemoryReservations pool) !! q);
    cbn; unfold is_Some; naive_solver.
Qed.

(** ** The page in the browser *)

Lemma wf_copyIcon target : wellFormed "td" (copyIcon target) = true.
Proof. unfold copyIcon. markup. Qed.
Lemma wf_value id text : wellFormed "td" (value id text) = true.
Proof. unfold value. markup. Qed.
Lemma wf_bar className percentage text : wellFormed "div" (bar className percentage [txt text]) = true.
Proof. unfold bar. markup. Qed.
Lemma wf_renderPoolBar name pool : wellFormed "div" (renderPoolBar name pool) = true.
Proof. destruct pool; [|done]. unfold renderPoolBar. markup; apply wf_bar. Qed.
#[export] Hint Resolve wf_copyIcon wf_value wf_renderPoolBar : markup.

Lemma poolRow total row :
  let h := (fun '(query, (reserved, revocable)) => renderPoolQuery query reserved revocable total) row in
  wellFormed "tbody" h = true /\ ids h = [] /\ copyTargets h = [] /\ plainRow 1 h.
Proof.
  destruct row as [query [reserved revocable]]. cbv zeta iota beta. split; [unfold renderPoolQuery; markup|].
  split; [done|split; [done|]]. by eexists.
Qed.

Lemma renderPoolQueries_ok pool :
  wellFormed "div" (renderPoolQueries pool) = true /\ ids (renderPoolQueries pool) = [] /\ copyTargets (renderPoolQueries pool) = [].
Proof.
  destruct pool as [pool|]; [|done]. unfold renderPoolQueries. destruct (_ =? 0)%nat; [done|].
  split; [|unfold ids, copyTargets; split; attributes; by rw attributesOf_map; [intros row; apply (poolRow (maxBytes pool) row)|]].
  apply wf_el; [done..|]. apply Forall_cons_2; [|done]. apply wf_table; [done| |].
  - rw (rectangular_rows _ _ _ (fun _ => 1%nat) (poolQueries pool)); [|apply uniform_const].
    apply Forall2_fmap_r, Forall_Forall2_diag, Forall_true. intros row. apply (poolRow (maxBytes pool) row).
  - markup. apply wf_map. intros row. apply (poolRow (maxBytes pool) row).
Qed.

Lemma wf_renderPoolQueries pool : wellFormed "div" (renderPoolQueries pool) = true.
Proof. apply renderPoolQueries_ok. Qed.
Lemma wf_overviewLeft i : wellFormed "div" (overviewLeft i) = true.
Proof. unfold overviewLeft. markup; apply wf_infoRow; markup. Qed.
Lemma wf_overviewRight i : wellFormed "div" (overviewRight i) = true.
Proof. unfold overviewRight. markup; apply wf_infoRow; markup. Qed.
Lemma wf_utilization s : wellFormed "div" (utilization s) = true.
Proof. unfold utilization. markup. Qed.
#[export] Hint Resolve wf_renderPoolQueries wf_overviewLeft wf_overviewRight wf_utilization : markup.

Lemma ids_renderInfo s i :
  ids (renderInfo s i) =
  ["node-id"; "internal-address"; "internal-address"; "external-address"; "internal-address"; "process-cpu-load-sparkline";
   "system-cpu-load-sparkline"; "heap-percent-used-sparkline"; "nonheap-used-sparkline"].
Proof.
  unfold ids, renderInfo. attributes.
  destruct (renderPoolQueries_ok (general i)) as (_ & Hg & _), (renderPoolQueries_ok (reserved i)) as (_ & Hr & _).
  unfold ids in Hg, Hr. rw Hg Hr. by destruct (general i), (reserved i).
Qed.

(** C30.  The page of a worker is well formed, the elements of its sparklines are
    there, and the buttons beside the node and the external address copy these;
    but three elements have the identifier internal-address, so that the button
    beside the internal address copies the first of them, the heap memory. *)
Theorem worker_page s i :
  serverInfo s = Some i ->
  wellFormed "div" (render s) = true /\
  Forall (fun d => element d ∈ ids (render s)) (componentDidUpdate s) /\
  copied "#node-id" (render s) = Some (nodeId i) /\
  copied "#external-address" (render s) = Some (externalAddress i) /\
  copied "#internal-address" (render s) = Some (formatDataSize (heapAvailable i)).
Proof.
  intros Hi. unfold render. rw Hi ids_renderInfo. split; [unfold renderInfo; markup|].
  split; [repeat (apply Forall_cons_2; [cbn; set_solver|]); apply Forall_nil_2|]. by repeat split.
Qed.

(** ** A worker *)

Definition examplePool : Pool :=
  {| maxBytes := of_Z 100; reservedBytes := of_Z 100; reservedRevocableBytes := of_Z 5;
     queryMemoryReservations := [("q1", of_Z 60); ("q2", of_Z 40)];
     queryMemoryRevocableReservations := [("q2", of_Z 3); ("q3", of_Z 2)] |}.

Definition exampleWorker : ServerInfo :=
  {| nodeId := "w1"; processors := of_Z 8; uptime := "1h"; externalAddress := "1.2.3.4"; internalAddress := "10.0.0.1";
     processCpuLoad := of_Z 0; workerCpuLoad := of_Z 0; heapUsed := of_Z 0; heapAvailable := of_Z 0; nonHeapUsed := of_Z 0;
     general := Some examplePool; reserved := None |}.

(** A bar that is not empty takes 15% at least, whatever the others take, so that
    the free part of a pool may be negative: the bars do not fit. *)
Lemma pool_bars_overflow :
  let free := sub (of_Z 100) (add (barPercentage (of_Z 5) (of_Z 100)) (barPercentage (of_Z 95) (of_Z 100))) in
  free = of_Z (-10).
Proof. vm_compute. reflexivity. Qed.

Lemma worker_page_witness :
  let s := {| serverInfo := Some exampleWorker; initialized := true; processCpuLoads := [of_Z 0]; systemCpuLoads := [of_Z 0];
              heapPercentUsed := [of_Z 0]; nonHeapUsage := [of_Z 0] |} in
  copied "#external-address" (render s) = Some "1.2.3.4" /\ copied "#internal-address" (render s) = Some "0B".
Proof.
  intros s. destruct (worker_page s exampleWorker) as (_ & _ & _ & He & Hi); [reflexivity|].
  split; [exact He|]. rewrite Hi. vm_compute. reflexivity.
Defined.

Lemma poolQueries_complete_witness :
  NoDup (poolQueries examplePool).*1 /\ ("q2", (of_Z 40, of_Z 3)) ∈ poolQueries examplePool.
Proof.
  destruct (poolQueries_complete examplePool) as [Hd Hq].
  - apply (bool_decide_unpack (NoDup ["q1"; "q2"])). vm_compute. exact I.
  - apply (bool_decide_unpack (NoDup ["q2"; "q3"])). vm_compute. exact I.
  - split; [exact Hd|]. apply Hq. split; [left; eexists; vm_compute; reflexivity|]. split; vm_compute; reflexivity.
Defined.
