(* ===== verification/Panels.v ===== *)
(** * Panels around the query editor

    ResultsTable.jsx and DataPreview.jsx (tables of rows), ColumnsPreview.jsx,
    QueryInformation.jsx and LeftPanel.jsx (the tabs), ShowCatalog.jsx,
    and the state of Header.jsx. *)

From S2P Require Import Prelude JsString JsNumber JsMap Http Fqn Timers RefreshLoop RunStore Stores PageHeader.

(** ** Tables of rows *)

Record Column := { name : string; type : string; partition : bool }.

(** A table the stores keep; [V] are the values of the cells. *)
Record Grid (V : Type) := {
  columns : list Column;
  columnWidths : list Z;
  data : option (list (list V))
}.
Arguments columns {V}. Arguments columnWidths {V}. Arguments data {V}.

Section Grids.
Context {V : Type}.
Implicit Types g : Grid V.

(** [rowGetter(rowIndex)[i]]; a row past the end is undefined. *)
Definition rowGetter (rowIndex : nat) g : option (list V) := rows ← data g; rows !! rowIndex.
Definition cell (i rowIndex : nat) g : result (option V) := member (rowGetter rowIndex g) (fun row => row !! i).

(** The header and the width of every column; without a width it has none. *)
Definition getColumns g : list (string * option Z) :=
  imap (fun i c => (name c, columnWidths g !! i)) (columns g).

(** All the cells the table draws, row by row; [None] is the message that asks
    for a table. *)
Definition renderGrid (table : option (Grid V)) : option (result (list (list (option V)))) :=
  g ← table;
  rows ← data g;
  Some (mapM_result (fun rowIndex => mapM_result (fun i => cell i rowIndex g) (seq 0 (length (columns g))))
          (seq 0 (length rows))).
End Grids.

(** ** ResultsTable.jsx *)

Module ResultsTable.
Section Results.
Context {P Q : Type} (fileName : P -> string) (total : P -> Z).

(** The store of previews, by its contents. *)
Record Store := { preview : option P; previewQuery : option Q }.

Record t := { currentPage : Z; r_total : Z; query : option Q; table : option P; r_fileName : string; pageSize : Z }.

Definition initial : t :=
  {| currentPage := 1; r_total := 0; query := None; table := None; r_fileName := ""; pageSize := 10 |}.

(** The page, the store it listens to and the requests under way. *)
Record World := { store : Store; component : t; pending : list (string * Z * Z) }.

Definition mount (s : Store) : World := {| store := s; component := initial; pending := [] |}.

(** The store's query and preview, and nothing else. *)
Definition _onChange (w : World) : World :=
  let s := component w in
  {| store := store w;
     component := {| currentPage := currentPage s; r_total := r_total s; query := previewQuery (store w);
                     table := preview (store w); r_fileName := r_fileName s; pageSize := pageSize s |};
     pending := pending w |}.

Definition withStore (s : Store) (w : World) : World :=
  _onChange {| store := s; component := component w; pending := pending w |}.

(** RunsTable's [previewQueryResult]: the first page of a result. *)
Definition previewQueryResult (file : string) (q : Q) (w : World) : World :=
  let w := withStore {| preview := preview (store w); previewQuery := Some q |} w in
  {| store := store w; component := component w; pending := (pending w ++ [(file, 1, 10)])%list |}.

Definition onPageChange (current size : Z) (w : World) : result World :=
  page ← member (preview (store w)) id;
  Ok {| store := store w;
        component := {| currentPage := current; r_total := total page; query := previewQuery (store w);
                        table := Some page; r_fileName := fileName page; pageSize := size |};
        pending := (pending w ++ [(("../api/files/" ++ fileName page)%string, current, size)])%list |}.

(** An answer arrives, or a request fails, which is only logged. *)
Definition settle (i : nat) (answer : option P) (w : World) : option World :=
  _ ← pending w !! i;
  let w := {| store := store w; component := component w; pending := delete i (pending w) |} in
  Some (match answer with
        | Some p => withStore {| preview := Some p; previewQuery := previewQuery (store w) |} w
        | None => w
        end).

Definition request '(file, pageNum, size) : Request :=
  ResultsPreviewApiUtils.loadResultsPreview file (Some pageNum) (Some size).
End Results.
Arguments Store : clear implicits.
Arguments t : clear implicits.
Arguments World : clear implicits.
End ResultsTable.

(** ** ColumnsPreview.jsx *)

Module ColumnsPreview.
(** [reuseGroup]: the last group is continued while it has no column. *)
Definition group {A} (m : list (list A)) (col : A) : list (list A) :=
  match last m with
  | Some g => if (length g <? 1)%nat then (removelast m ++ [(g ++ [col])%list])%list else (m ++ [[col]])%list
  | None => (m ++ [[col]])%list
  end.

(** The lines of the panel, of the columns sorted by name. *)
Definition renderColumns (sortByName : list Column -> list Column) (cols : list Column) : list (list Column) :=
  fold_left group (sortByName cols) [].

(** Column.jsx: the two texts of a line. *)
Definition line (c : Column) : string * string :=
  (name c, type c ++ " " ++ (if partition c then "(Partition)" else "")).

Definition labels (tableName : string) : list (option string) :=
  [Fqn.catalog (Some tableName); Fqn.simpleSchema (Some tableName); Fqn.table (Some tableName)].
End ColumnsPreview.

(** ** QueryInformation.jsx, LeftPanel.jsx *)

Module QueryInformation.
Section Tabs.
Context {T : Type} (t_name : T -> string).

Record t := { tableWidth : num; tableHeight : num; dataPreview : option T; selectedTab : Z }.

Definition initial (activeTable : option T) (tab : Z) : t :=
  {| tableWidth := of_Z 400; tableHeight := of_Z 400; dataPreview := activeTable; selectedTab := tab |}.

(** [400 > x ? 400 : x] *)
Definition atLeast400 (x : num) : num := if gt (of_Z 400) x then of_Z 400 else x.

(** The size of the tables, of that of the window. *)
Definition update (windowWidth windowHeight : num) (s : t) : t :=
  let newWidth := sub (sub (sub windowWidth (of_Z 75)) (of_Z 270)) (of_Z 10) in
  let newHeight :=
    sub windowHeight
      (add (add (add (add (mul (of_decimal 3 1) (add windowHeight (of_Z 50))) (of_Z 40)) (of_Z 57)) (of_Z 46)) (of_Z 6)) in
  {| tableWidth := atLeast400 newWidth; tableHeight := atLeast400 newHeight;
     dataPreview := dataPreview s; selectedTab := selectedTab s |}.

(** Another table becomes the active one. *)
Definition onChange (activeTable : option T) (s : t) : t :=
  match activeTable with
  | None => s
  | Some table =>
      match dataPreview s with
      | Some shown => if streq (t_name table) (t_name shown) then s
                      else {| tableWidth := tableWidth s; tableHeight := tableHeight s;
                              dataPreview := Some table; selectedTab := selectedTab s |}
      | None => {| tableWidth := tableWidth s; tableHeight := tableHeight s; dataPreview := Some table;
                   selectedTab := selectedTab s |}
      end
  end.

Definition onTabChange (store : TabStore.t) (s : t) : t :=
  {| tableWidth := tableWidth s; tableHeight := tableHeight s; dataPreview := dataPreview s;
     selectedTab := TabStore.getSelectedTab store |}.

(** A tab is chosen: the store tells the panel. *)
Definition onTabSelect (tab : Z) (store : TabStore.t) (s : t) : TabStore.t * t :=
  let store := TabStore.onSelectTab tab store in (store, onTabChange store s).
End Tabs.
Arguments t : clear implicits.
End QueryInformation.

Module LeftPanel.
Definition onTabSelect (tab : Z) (store : TabStore.t) : TabStore.t * Z :=
  let store := TabStore.onSelectLeftPanelTab tab store in (store, TabStore.getSelectedLeftPanelTab store).
End LeftPanel.

(** ** ShowCatalog.jsx *)

Module ShowCatalog.
Record t := { catalog_name : string; showObj : list (string * string) }.

(** Other properties of the catalog are shown; the comparison is one of
    objects, [same] says whether it is the same one. *)
Definition componentWillReceiveProps (same : bool) (name : string) (showText : list (string * string)) (s : t) : t :=
  if same then s else {| catalog_name := name; showObj := showText |}.

(** The properties of a catalog, in the order of the object's keys. *)
Definition _objToStrMap (obj : list (string * string)) : jsmap string string :=
  fold_left (fun m '(k, v) => map_set k v m) obj [].

Definition deleteMapKey (m : jsmap string string) (key : string) : jsmap string string :=
  fold_left (fun newMap '(item, v) => if streq item key then newMap else map_set item v newMap) m [].

(** The connector's name, and the lines of its properties. *)
Definition render (showObj : list (string * string)) : option string * jsmap string string :=
  let showMap := _objToStrMap showObj in
  (map_get "connector.name" showMap, deleteMapKey showMap "connector.name").
End ShowCatalog.

(** ** Header.jsx *)

Module Header.
Record t := {
  user : UserStore.User;
  noConnection : bool;
  lightShown : bool;
  info : option Info;
  lastSuccess : Z;
  modalShown : bool;
  errorText : option string
}.

Definition initial (u : UserStore.User) (now : Z) : t :=
  {| user := u; noConnection := false; lightShown := false; info := None; lastSuccess := now;
     modalShown := false; errorText := None |}.

Definition _onChange (u : UserStore.User) (s : t) : t :=
  {| user := u; noConnection := noConnection s; lightShown := lightShown s; info := info s;
     lastSuccess := lastSuccess s; modalShown := modalShown s; errorText := errorText s |}.

(** The same loop as that of the page title, without its dialog. *)
Definition onFetched (r : Fetched) (s : t) : t :=
  match r with
  | Received i now =>
      {| user := user s; noConnection := false; lightShown := lightShown s; info := Some i; lastSuccess := now;
         modalShown := false; errorText := errorText s |}
  | Failed e _ =>
      {| user := user s; noConnection := true; lightShown := negb (lightShown s); info := info s;
         lastSuccess := lastSuccess s; modalShown := modalShown s; errorText := Some e |}
  end.

#[export] Instance header_loop : RefreshLoop t unit Fetched := {
  capture := fun _ => tt;
  on_answer := fun _ r s => onFetched r s;
  on_fail := fun s => s;
  stopped := fun _ => false;
  interval := 1000;
  recovers := true
}.

Definition renderStatusLight (s : t) : Light :=
  if noConnection s then if lightShown s then Red else Off else Green.
End Header.
