(* ===== verification/PanelsFacts.v ===== *)
(** * What the panels show

    Lemmas of Panels.v. *)

From S2P Require Import Prelude JsString JsNumber JsMap Panels.

(** ** Tables of rows *)

(** A table is drawn completely: one cell for each row and column, empty where a
    row is short, and drawing never throws. *)
Lemma renderGrid_complete {V} (g : Grid V) rows :
  data g = Some rows ->
  renderGrid (Some g) = Some (Ok ((fun row => (fun i => row !! i) <$> seq 0 (length (columns g))) <$> rows)).
Proof.
  intros Hd. unfold renderGrid. cbn. rw Hd. cbn. f_equal. apply mapM_result_spec, Forall2_same_length_lookup_2.
  { by rw length_seq length_fmap. }
  intros k i cells Hi Hc. apply lookup_seq in Hi as [-> _]. rw list_lookup_fmap in Hc.
  destruct (rows !! k) as [row|] eqn:Hr; [|done]. cbn in Hc. injection Hc as <-.
  apply mapM_result_spec, Forall2_same_length_lookup_2; [by rw length_fmap|].
  intros j n v Hj Hv. rw list_lookup_fmap Hj in Hv. cbn in Hv. injection Hv as <-.
  unfold cell, rowGetter. rw Hd. cbn. by rw Hr.
Qed.

(** Every column has a line of its own, in the order of the names. *)
Lemma renderColumns_lines sortByName cols :
  ColumnsPreview.renderColumns sortByName cols = (fun c => [c]) <$> sortByName cols.
Proof.
  unfold ColumnsPreview.renderColumns. generalize (sortByName cols). intros l.
  induction l as [|c l IH] using rev_ind; [done|]. rw fold_left_app IH fmap_app. cbn.
  unfold ColumnsPreview.group. rw fmap_last. by destruct (last l).
Qed.

(** ** ShowCatalog *)

Lemma map_set_new {V} k (v : V) (m : jsmap string V) : k ∉ m.*1 -> map_set k v m = (m ++ [(k, v)])%list.
Proof.
  induction m as [|[k' v'] m IH]; [done|]. cbn. intros Hk. apply not_elem_of_cons in Hk as [Hne Hk].
  rw decide_False; [congruence|]. by rw IH.
Qed.

Lemma objToStrMap_same obj : NoDup obj.*1 -> ShowCatalog._objToStrMap obj = obj.
Proof.
  unfold ShowCatalog._objToStrMap. induction obj as [|[k v] obj IH] using rev_ind; [done|].
  rw fmap_app fold_left_app. cbn. intros Hnd. apply NoDup_app in Hnd as (Hnd & Hk & _).
  rw IH // map_set_new //. intros Hin. by apply (Hk k Hin), list_elem_of_singleton.
Qed.

(** The panel shows the connector's name apart and every other property once, in
    the order of the object. *)
Theorem showCatalog_properties obj :
  NoDup obj.*1 ->
  ShowCatalog.render obj =
    (map_get "connector.name" obj, List.filter (fun '(k, _) => negb (streq k "connector.name")) obj).
Proof.
  intros Hnd. unfold ShowCatalog.render. rw (objToStrMap_same obj Hnd). f_equal. unfold ShowCatalog.deleteMapKey.
  induction obj as [|[k v] obj IH] using rev_ind; [done|]. rw fold_left_app List.filter_app. cbn.
  rw fmap_app in Hnd. apply NoDup_app in Hnd as (Hnd & Hk & _). rw IH //.
  destruct (streq_spec k "connector.name"); cbn; [by rw app_nil_r|]. apply map_set_new. intros Hin.
  apply (Hk k); [|by left]. apply list_elem_of_fmap in Hin as ([k' v'] & -> & Hin). cbn.
  apply list_elem_of_In, List.filter_In in Hin as [Hin _]. apply list_elem_of_In in Hin.
  by apply (list_elem_of_fmap_2 fst) in Hin.
Qed.

Lemma showCatalog_properties_witness :
  ShowCatalog.render [("connector.name", "tpch"); ("tpch.splits", "4")] = (Some "tpch", [("tpch.splits", "4")]).
Proof. apply showCatalog_properties. by apply (bool_decide_unpack _); vm_compute. Defined.

(** ** Results *)

Module Results.
Import ResultsTable.

Section Pages.
Context {P Q : Type} (fileName : P -> string) (total : P -> Z) (serve : string * Z * Z -> P).
Implicit Types w : World P Q.

(** The states of the panel when answers come in the order of the requests,
    with the requests sent so far and the page and size the user chose last. *)
Inductive reach : World P Q -> list (string * Z * Z) -> Z * Z -> Prop :=
  | reach_mount : reach (mount {| preview := None; previewQuery := None |}) [] (1, 10)
  | reach_preview w log chosen file q :
      reach w log chosen -> reach (previewQueryResult file q w) (log ++ [(file, 1, 10)]) chosen
  | reach_page w log chosen page current size w' :
      reach w log chosen -> preview (store w) = Some page -> onPageChange fileName total current size w = Ok w' ->
      reach w' (log ++ [(("../api/files/" ++ fileName page)%string, current, size)]) (current, size)
  | reach_answer w log chosen req w' :
      reach w log chosen -> pending w !! 0%nat = Some req -> settle 0 (Some (serve req)) w = Some w' ->
      reach w' log chosen.

Lemma reach_inv w log chosen :
  reach w log chosen ->
  table (component w) = preview (store w) /\ (currentPage (component w), pageSize (component w)) = chosen /\
  exists done, log = (done ++ pending w)%list /\ preview (store w) = serve <$> last done.
Proof.
  induction 1 as [|w log chosen file q _ (Ht & Hc & d & -> & Hp)|
                   w log chosen page current size w' _ (Ht & Hc & d & -> & Hp) Hpage Hs|
                   w log chosen req w' _ (Ht & Hc & d & -> & Hp) Hreq Hs].
  - split; [done|split; [done|]]. by exists [].
  - split; [done|split; [done|]]. exists d. by rw -app_assoc.
  - unfold onPageChange in Hs. rw Hpage in Hs. cbn in Hs. injection Hs as <-. cbn. split; [done|split; [done|]].
    exists d. by rw -app_assoc.
  - unfold settle in Hs. rw Hreq in Hs. cbn in Hs. injection Hs as <-. cbn. split; [done|split; [done|]].
    destruct (pending w) as [|r rs]; [done|]. cbn in Hreq. injection Hreq as ->. exists (d ++ [req])%list.
    by rw -app_assoc last_snoc.
Qed.
End Pages.

(** The rows shown at rest are those of the last request, and the pager shows
    the page the user chose last; but the preview of another result asks for its
    first page without resetting the pager, which then shows another page than
    that of the rows. *)
Theorem results_pager {P Q} (fileName : P -> string) (total : P -> Z) serve :
  (forall (w : World P Q) log chosen,
     reach fileName total serve w log chosen -> pending w = [] ->
     table (component w) = serve <$> last log /\
     (currentPage (component w), pageSize (component w)) = chosen) /\
  (forall file (q : Q) current size, exists (w : World P Q) log,
     reach fileName total serve w log (current, size) /\ pending w = [] /\
     table (component w) = Some (serve (file, 1, 10)) /\
     (currentPage (component w), pageSize (component w)) = (current, size)).
Proof.
  split.
  - intros w log chosen Hr Hp. destruct (reach_inv _ _ _ _ _ _ Hr) as (-> & -> & d & -> & ->).
    by rw Hp app_nil_r.
  - intros file q current size. do 2 eexists. split; [|split].
    + assert (H1 := reach_preview fileName total serve _ _ _ file q (reach_mount _ _ _)).
      eassert (H2 := reach_answer _ _ _ _ _ _ _ _ H1 eq_refl eq_refl).
      eassert (H3 := reach_page _ _ _ _ _ _ _ current size _ H2 eq_refl eq_refl).
      eassert (H4 := reach_answer _ _ _ _ _ _ _ _ H3 eq_refl eq_refl).
      assert (H5 := reach_preview _ _ _ _ _ _ file q H4).
      exact (reach_answer _ _ _ _ _ _ _ _ H5 eq_refl eq_refl).
    + done.
    + done.
Qed.
End Results.
