(* ===== verification/ShellMarkup.v ===== *)
(** * The frame of the pages

    Header.jsx, Footer.jsx, NavigationMenu.jsx, ModalDialog.jsx and PageTitle.jsx,
    and the pages that put their components into it: HetuQueryEditorApp.jsx,
    OverviewMain.jsx with EchartPart.jsx, and NodesMain.jsx. *)

From S2P Require Import Prelude JsString JsNumber Utils Markup Timers RefreshLoop Stores ClusterPages ClusterMarkup PageHeader Panels Overview.

(** ** Header and footer *)

Definition light (color : Light) : Html :=
  let className :=
    match color with
    | Green => "status-light status-light-green" | Red => "status-light status-light-red" | Off => "status-light"
    end in
  el "span" [cls className; "id" =: "status-indicator"] [].

Module Header.
Import Panels.Header.

Definition render (s : t) : Html :=
  el "header" [cls "flex flex-row"]
    [el "div" [cls "flex"]
       [el "a" [cls "hetu-header-brand-name"; "href" =: "/"; style [("fontFamily", "roboto!important")]]
          [el "img" ["src" =: "assets/lk-logos.svg"; "alt" =: "openLooKeng logo"; cls "hetu-header-brand-name"] []]];
     el "div" [cls "flex justify-flex-end menu"]
       [el "div" [cls "flex flex-initial version"]
          [el "div" [cls "version-inner"] [txt "Version :"; txt (from_option version "null" (info s))];
           el "div" [cls "version-inner"] [txt "Environment :"; txt (from_option environment "null" (info s))];
           el "div" [cls "version-inner"] [txt "Uptime : "; txt (from_option uptime "0s" (info s))];
           el "div" [cls "version-inner"]
             [el "span" ["data-toggle" =: "tooltip"; "data-placement" =: "bottom"; "title" =: "Connection status"]
                [light (renderStatusLight s)]]];
        el "div" [cls "flex flex-initial"]
          [el "div" [] [el "i" [cls "glyphicon glyphicon-user"] []; txt (UserStore.name (user s))];
           el "div" [cls "logout"]
             [el "form" ["method" =: "post"; "action" =: "../ui/api/logout"]
                [el "button" ["type" =: "submit"; cls "btn btn-sm"] [el "i" [cls "fa fa-sign-out"] []; txt "Logout"]]]]]].
End Header.

Module Footer.
Definition render : Html :=
  el "div" [cls "flex footer"]
    [el "div" [cls "flex flex-initial"]
       [el "p" [] [el "a" ["href" =: "mailto:contact@openlookeng.io"] [txt "contact@openlookeng.io"]]];
     el "div" [cls "flex justify-flex-end"]
       [el "div" [cls "flex flex-initial"]
          [el "p" []
             [txt "Copyright © 2021 ";
              el "a" ["href" =: "https://openlookeng.io"; "target" =: "_blank"] [txt "openLooKeng"];
              txt ". All rights reserved"]]]].
End Footer.

(** HeaderFooter.jsx puts the two into the elements of the page. *)
Definition pageHeader (s : Panels.Header.t) : Html :=
  el "div" [cls "flex flex-row flex-initial header"] [Header.render s].
Definition pageFooter : Html := el "div" [cls "flex flex-row flex-initial footer"] [Footer.render].

(** ** The menu *)

Module NavigationMenu.
Definition render (active : string) : Html :=
  el "div" [cls "menu-left"]
    [el "ul" []
       [el "li" [cls (if streq active "queryeditor" then "active" else "")]
          [el "a" ["href" =: (if streq active "queryeditor" then "#" else "./queryeditor.html")]
             [el "div" [] [el "i" [cls "fa fa-home"] []];
              el "div" [] [txt "Home"]]];
        el "li" [cls (if streq active "metrics" then "active" else "")]
          [el "a" ["href" =: (if streq active "metrics" then "#" else "./overview.html")]
             [el "div" [] [el "i" [cls "fa fa-line-chart"] []];
              el "div" [] [txt "Metrics"]]];
        el "li" [cls (if streq active "nodes" then "active" else "")]
          [el "a" ["href" =: (if streq active "nodes" then "#" else "./nodes.html")]
             [el "div" [] [el "i" [cls "fa fa-server"] []];
              el "div" [] [txt "Nodes"]]];
        el "li" [cls (if streq active "querymonitor" then "active" else "")]
          [el "a" ["href" =: (if streq active "querymonitor" then "#" else "./querymonitor.html")]
             [el "div" [] [el "i" [cls "fa fa-desktop"] []];
              el "div" [] [txt "Query Monitor"]]];
        el "li" [cls (if streq active "queryhistory" then "active" else "")]
          [el "a" ["href" =: (if streq active "queryhistory" then "#" else "./queryhistory.html")]
             [el "div" [] [el "i" [cls "fa fa-history"] []];
              el "div" [] [txt "Query History"]]];
        el "li" [cls (if streq active "auditlog" then "active" else "")]
          [el "a" ["href" =: (if streq active "auditlog" then "#" else "./auditlog.html")]
             [el "div" [] [el "i" [cls "fa fa-file-text-o"] []];
              el "div" [] [txt "Audit Log"]]]]].
End NavigationMenu.

(** ** Dialogs *)

Module ModalDialog.
Definition render (show : bool) (header footer : Html) (children : list Html) : Html :=
  if negb show then []
  else
  el "div" [cls "hetu-modal-dialog"]
    [el "div" [cls "hetu-modal-dialog-content"]
       [el "div" [cls "hetu-modal-dialog-header"]
          [el "span" [cls "hetu-modal-dialog-close glyphicon glyphicon-remove"; "onClick" =>: "this.onClose"] [];
           el "h3" [] [header]];
        el "div" [cls "hetu-modal-dialog-body"] [concat children];
        el "div" [cls "hetu-hetu-modal-dialog-footer"] [el "h3" [] [footer]]]].
End ModalDialog.

(** ** PageTitle.jsx *)

Module PageTitle.
Definition render (title : string) (s : Title) : Html :=
  match info s with
  | None => []
  | Some info =>
  el "div" []
    [el "nav" [cls "navbar"]
       [el "div" [cls "container-fluid"]
          [el "div" [cls "navbar-header"]
             [el "table" []
                [el "tbody" []
                   [el "tr" []
                      [el "td" [] [el "a" ["href" =: "./"] [el "img" ["src" =: "assets/lk-logos.svg"] []]];
                       el "td" [] [el "span" [cls "navbar-brand"] [txt title]]]]]];
           el "div" ["id" =: "navbar"; cls "navbar-collapse collapse"]
             [el "ul" [cls "nav navbar-nav navbar-right"]
                [el "li" []
                   [el "span" [cls "navbar-cluster-info"]
                      [el "span" [cls "uppercase"] [txt "Version"];
                       el "br" [] [];
                       el "span" [cls "text uppercase"; "id" =: "version-number"] [txt (version info)]]];
                 el "li" []
                   [el "span" [cls "navbar-cluster-info"]
                      [el "span" [cls "uppercase"] [txt "Environment"];
                       el "br" [] [];
                       el "span" [cls "text uppercase"; "id" =: "environment"] [txt (environment info)]]];
                 el "li" []
                   [el "span" [cls "navbar-cluster-info"]
                      [el "span" [cls "uppercase"] [txt "Uptime"];
                       el "br" [] [];
                       el "span" ["data-toggle" =: "tooltip"; "data-placement" =: "bottom";
                                  "title" =: "Connection status"]
                         [light (renderStatusLight s)];
                       txt nbsp;
                       el "span" [cls "text"; "id" =: "uptime"] [txt (uptime info)]]]]]]];
     el "div" ["id" =: "no-connection-modal"; cls "modal"; "tabIndex" =: "-1"; "role" =: "dialog"]
       [el "div" [cls "modal-dialog modal-sm"; "role" =: "document"]
          [el "div" [cls "modal-content"]
             [el "div" [cls "row error-message"]
                [el "div" [cls "col-xs-12"]
                   [el "br" [] [];
                    el "h4" [] [txt "Unable to connect to server"];
                    el "p" [] [opt (append "Error: " <$> errorText s)]]]]]]]
  end.
End PageTitle.

(** ** The pages *)

Module HetuQueryEditorApp.
(** The panels of the page are parameters. *)
Definition render (header statusFooter leftPanel queryEditor queryInformation : Html) : Html :=
  el "div" [cls "hetu-app flex-column"]
    [el "div" [cls "flex flex-row flex-initial header"; style [("height", "61px")]] [header];
     el "div" [cls "flex flex-row content"]
       [NavigationMenu.render "queryeditor";
        el "div" [cls "flex flex-column flex-initial left"; style [("height", "100%")]]
          [el "div" [cls "flex flex-column content"; style [("height", "100%")]] [leftPanel]];
        el "div" [cls "flex flex-column right"; style [("height", "100%")]]
          [el "div" [cls "flex flex-column"; style [("height", "40%")]] [queryEditor];
           el "div" [cls "flex flex-column"; style [("height", "60%")]] [queryInformation]]];
     el "div" [cls "flex flex-row flex-initial statusFooter"] [statusFooter];
     el "div" [cls "flex flex-row flex-initial footer"] [Footer.render]].
End HetuQueryEditorApp.

Module EchartPart.
(** The references of the charts but the first, in the order of
    [state.checkStatus]; the menu of charts has no others. *)
Definition chartRef : list string :=
  ["checkOne"; "checkTwo"; "checkThree"; "checkFour"; "checkFive"; "checkSix"; "checkSeven"; "checkEight"].

Definition chartClass (s : Charts) (name : string) : string :=
  if chartVisible s name then "overviewChart" else "display-none".
Definition chartStyle : list (string * string) :=
  [("height", "30vh"); ("width", "calc(40vw - 80px)"); ("left", "center"); ("top", "center")].

Definition renderChart (s : Charts) (key : string) : Html :=
  el "div" [cls (chartClass s key)] [el "div" ["ref" =: key; style chartStyle] []].

(** The menu is a component of a package: its properties are kept. *)
Definition multiSelect (s : Charts) : Html :=
  el "MultiSelect" ["title" =: "Select Chart"; ("itemList", Strings itemList.*1);
                    ("selectedItemList", Strings (selectedItemList s).*1); "changeList" =>: "this.changeList";
                    "isObjectArray" =: "true"] [].

Definition render (s : Charts) : Html :=
  el "div" []
    [el "div" [cls "selectItemContainer"]
       [el "div" [cls "selectChart multiSelect"] [multiSelect s];
        el "div" [cls "select-part"]
          [el "select" ["onChange" =>: "this.selected"; "value" =: show_Z (step s)]
             [el "option" ["value" =: "10"] [txt "Last 10 minutes"];
              el "option" ["value" =: "20"] [txt "Last 20 minutes"];
              el "option" ["value" =: "30"] [txt "Last 30 minutes"]]]];
     el "div" [cls "overviewGraphContainerParent"]
       [el "div" [cls "overviewGraphContainer"]
          [el "div" [cls (chartClass s "cpuLoad")] [el "div" ["ref" =: "cpuLoad"; style chartStyle] []];
           concat (renderChart s <$> chartRef)]]].
End EchartPart.

Module OverviewMain.
Definition render (header : Html) (s : Overview) (echart : Charts) : Html :=
  let charts := EchartPart.render echart in
  el "div" []
    [el "div" [cls "flex flex-row flex-initial header"] [header];
     el "div" [cls "overview"]
       [NavigationMenu.render "metrics";
        el "div" [cls "line-right"]
          [el "h2" [] [txt "Overview Dashboard"];
           el "div" [cls "line-show"]
             [el "div" [cls "line-part"] [charts];
              el "div" [cls "summary-info"]
                [el "div" [cls "summary-detail"]
                   [el "h3" [] [txt "Summary Info"];
                    el "table" [style [("width", "100%"); ("marginTop", "20px")]]
                      [el "tbody" []
                         [el "tr" [cls "border-bottom"]
                            [el "td" []
                               [el "p" [cls "font-18"]
                                  [txt "Total Nodes ";
                                   el "a" ["href" =: "./nodes.html"] [txt "(view list)"]]];
                             el "td" [] [el "span" [cls "float-right color-2b610a"] [txt (from_option (fun n => show_Z (Z.of_nat n)) "" (totalNodes s))]]];
                          el "tr" [cls "border-bottom"]
                            [el "td" [] [el "p" [cls "font-18 padding-top-10"] [txt "Total Usable Memory"]];
                             el "td" []
                               [el "span" [cls "float-right color-2b610a"]
                                  [txt (formatDataSizeBytes (o_totalMemory s))]]];
                          el "tr" [cls "border-bottom"]
                            [el "td" [] [el "p" [cls "font-18 padding-top-10"] [txt "Memory Used"]];
                             el "td" []
                               [el "span" [cls "float-right color-2b610a"]
                                  [txt (formatDataSizeBytes (memoryUsed s))]]];
                          el "tr" [cls "border-bottom"]
                            [el "td" [] [el "p" [cls "font-18 padding-top-10"] [txt "Process CPU Load"]];
                             el "td" [] [el "span" [cls "float-right color-2b610a"] [txt (default "0" (o_processCpuLoad s))]]];
                          el "tr" []
                            [el "td" [] [el "p" [cls "font-18 padding-top-10"] [txt "System CPU Load "]];
                             el "td" [] [el "span" [cls "float-right color-2b610a"] [txt (default "0" (o_systemCpuLoad s))]]]]]]]]]];
     el "div" [cls "flex flex-row flex-initial footer"] [Footer.render]].
End OverviewMain.

Module NodesMain.
Definition renderNode (ele : NodeRow) : Html :=
  el "tr" []
    [el "td" [] [txt (r_id ele)];
     el "td" [] [txt (r_ip ele)];
     el "td" [] [txt (r_role ele)];
     el "td" [] [num_child (r_count ele)];
     el "td" [] [txt (formatDataSizeBytes (r_memory ele))];
     el "td" [] [txt (formatDataSizeBytes (r_used ele))];
     el "td" [] [txt (formatDataSizeBytes (r_free ele))];
     el "td" [] [txt (r_state ele)]].

Definition render (header statusFooter : Html) (tableData : list NodeRow) : Html :=
  el "div" []
    [el "div" [cls "flex flex-row flex-initial header"] [header];
     el "div" [cls "nodes"]
       [NavigationMenu.render "nodes";
        el "div" [cls "line-right"]
          [el "div" [cls "line-show"]
             [el "div" [cls "summary-table"]
                [el "h3" [] [txt "Cluster Nodes"];
                 el "table" [cls "table"]
                   [el "thead" []
                      [el "tr" []
                         [el "th" [] [txt "ID"];
                          el "th" [] [txt "IP"];
                          el "th" [] [txt "Role"];
                          el "th" [] [txt "CPU Count"];
                          el "th" [] [txt "Usable Node Memory"];
                          el "th" [] [txt "Used Memory"];
                          el "th" [] [txt "Free Memory"];
                          el "th" [] [txt "State"]]];
                    el "tbody" [] [concat (renderNode <$> tableData)]]]]]];
     el "div" [cls "flex flex-row flex-initial statusFooter"] [statusFooter];
     el "div" [cls "flex flex-row flex-initial footer"] [Footer.render]].
End NodesMain.

(** ** The frame in the browser *)

Lemma wf_pageHeader s : wellFormed "div" (Header.render s) = true.
Proof. unfold Header.render, light. markup. Qed.

Lemma wf_menu active : wellFormed "div" (NavigationMenu.render active) = true.
Proof. unfold NavigationMenu.render. markup. Qed.

Lemma wf_frame_footer : wellFormed "div" Footer.render = true.
Proof. reflexivity. Qed.

Lemma wf_dialog show header footer children :
  wellFormed "h3" header = true -> wellFormed "h3" footer = true ->
  Forall (fun h => wellFormed "div" h = true) children ->
  wellFormed "div" (ModalDialog.render show header footer children) = true.
Proof. intros Hh Hf Hc. unfold ModalDialog.render. destruct show; [|done]. cbn [negb]. markup. Qed.

#[export] Hint Resolve wf_pageHeader wf_menu wf_frame_footer : markup.

(** Looking at attributes, the frame has only the light's identifier. *)
Lemma ids_frame s active :
  ids (Header.render s) = ["status-indicator"] /\ ids (NavigationMenu.render active) = [] /\ ids Footer.render = [].
Proof. done. Qed.

Lemma handlers_frame s active :
  handlersOn "onClick" (Header.render s) = [] /\ handlersOn "onClick" (NavigationMenu.render active) = [] /\
  handlersOn "onClick" Footer.render = [].
Proof. done. Qed.

(** The addresses of the menu: the page that is shown has none. *)
Definition pages : list (string * string) :=
  [("queryeditor", "./queryeditor.html"); ("metrics", "./overview.html"); ("nodes", "./nodes.html");
   ("querymonitor", "./querymonitor.html"); ("queryhistory", "./queryhistory.html"); ("auditlog", "./auditlog.html")].

Lemma menu_links active :
  attributesOf "href" (NavigationMenu.render active) =
  (fun '(page, address) => if streq active page then "#" else address) <$> pages.
Proof. unfold NavigationMenu.render. by collects. Qed.

(** Every chart the code draws into has its element, selected or not, and the
    elements that are not hidden are those of the selected charts. *)
Lemma charts_have_elements s :
  attributesOf "ref" (EchartPart.render s) = "cpuLoad" :: EchartPart.chartRef /\
  forall key, EchartPart.chartClass s key = "display-none" <-> chartVisible s key = false.
Proof.
  split; [unfold EchartPart.render, EchartPart.renderChart, EchartPart.multiSelect; by attributes|].
  intros key. unfold EchartPart.chartClass. by destruct (chartVisible s key).
Qed.

Lemma wf_charts s : wellFormed "div" (EchartPart.render s) = true.
Proof. unfold EchartPart.render, EchartPart.renderChart, EchartPart.multiSelect. markup. Qed.
#[export] Hint Resolve wf_charts : markup.

(** The pages of the overview and of the nodes, for whatever is known of the
    cluster: the tables are grids. *)
Lemma overview_page header s echart :
  wellFormed "div" header = true -> wellFormed "div" (OverviewMain.render header s echart) = true.
Proof. intros Hh. unfold OverviewMain.render. markup. Qed.

Lemma nodes_page header statusFooter tableData :
  wellFormed "div" header = true -> wellFormed "div" statusFooter = true ->
  wellFormed "div" (NodesMain.render header statusFooter tableData) = true.
Proof.
  intros Hh Hs. unfold NodesMain.render. markup; try (apply wf_map; intros ele; unfold NodesMain.renderNode; markup).
  apply (rectangular_headed 8); [by eexists|]. intros ele. by eexists.
Qed.

Lemma editor_page header statusFooter leftPanel queryEditor queryInformation :
  wellFormed "div" header = true -> wellFormed "div" statusFooter = true -> wellFormed "div" leftPanel = true ->
  wellFormed "div" queryEditor = true -> wellFormed "div" queryInformation = true ->
  wellFormed "div" (HetuQueryEditorApp.render header statusFooter leftPanel queryEditor queryInformation) = true.
Proof. intros. unfold HetuQueryEditorApp.render. markup. Qed.

(** ** The dialog of the page title *)

Definition dialog (title : string) (s : Title) : option Node := byId "no-connection-modal" (PageTitle.render title s).

Lemma dialog_drawn title s : is_Some (dialog title s) <-> is_Some (info s).
Proof.
  unfold dialog. rw byId_found. unfold PageTitle.render. destruct (info s) as [i|].
  - split; [by intros|]. intros _. unfold light.
    match goal with |- _ ∈ ids ?h => eassert (ids h = _) as ->; [collects; reflexivity|] end. repeat (left || right).
  - split; [intros H; inversion H|by intros []].
Qed.

Lemma info_answered start rs : is_Some (info (titleAfter start rs)) <-> exists r, r ∈ rs /\ failed r = false.
Proof.
  unfold titleAfter. induction rs as [|r rs IH] using rev_ind.
  - split; [by intros []|]. intros (r & H & _). inversion H.
  - rw fold_left_app. cbn [fold_left]. destruct r as [i now|e now]; cbn [onFetched onInfo onFail info].
    + split; [|by eexists]. intros _. exists (Received i now). split; [|done]. apply elem_of_app. right. by left.
    + rw IH. split; intros (r & Hr & Hf); exists r; (split; [|done]); apply elem_of_app in Hr || apply elem_of_app; [by left|].
      destruct Hr as [Hr|Hr]; [done|]. apply list_elem_of_singleton in Hr as ->. done.
Qed.

(** The dialog "Unable to connect to server" is part of the page from the first
    answer on and not before.  So while no request has been answered, a failure
    marks the dialog as shown though there is none to show; once one has, the
    dialog is in the page whenever it is marked as shown, and it is marked so
    exactly while the requests fail.  The page is well formed throughout. *)
Theorem title_dialog title start rs :
  let s := titleAfter start rs in
  wellFormed "div" (PageTitle.render title s) = true /\
  (is_Some (dialog title s) <-> exists r, r ∈ rs /\ failed r = false) /\
  (modalShown s = true <-> failed <$> last rs = Some true) /\
  (Forall (fun r => failed r = true) rs -> PageTitle.render title s = []).
Proof.
  intros s. split; [|split; [|split]].
  - unfold PageTitle.render, light. destruct (info s); [markup|done].
  - by rw dialog_drawn info_answered.
  - destruct (title_light start rs) as (Hl & Hm & _). fold s in Hl, Hm. rw Hm. unfold renderStatusLight in Hl.
    destruct (noConnection s).
    + split; [intros _|done]. destruct (failed <$> last rs) as [[]|]; [done|..];
        (destruct Hl as [_ Hl]; by destruct (lightShown s); discriminate Hl).
    + destruct Hl as [Hl _]. split; [done|]. intros Hf. by destruct (Hl eq_refl).
  - intros Hall. unfold PageTitle.render. destruct (info s) as [i|] eqn:Hi; [|done].
    assert (is_Some (info s)) as (r & Hr & Hf)%info_answered by by eexists.
    rw Forall_forall in Hall. by rw (Hall r Hr) in Hf.
Qed.
