(* ===== verification/EchartCanvas.v ===== *)
(** * The charts of the dashboard as ECharts draws them

    EchartPart.jsx around Overview.v: the options it gives the nine charts, the
    interval that asks for new data, the choice of the minutes, the listeners for
    the size of the window.  ECharts is a library: an interface with the merging
    of options its manual describes. *)

From S2P Require Import Prelude JsString JsNumber Stores Timers Utils Markup Overview OverviewFacts ShellMarkup.

(** ** The options the code sets and reads *)

Record XAxis := { interval : num; x_label : Z -> nat -> string }.
Record YAxis := { y_name : option string; y_label : option (num -> nat -> string); y_range : option (num * num) }.
(** The colours of the area, of the line and of its points. *)
Record Series := { data : option (list Point); colors : option (string * string * string) }.
Record ChartOption := {
  animation : option bool; title : option string; xAxis : option XAxis; yAxis : option YAxis; series : option Series
}.

Definition noOption : ChartOption :=
  {| animation := None; title := None; xAxis := None; yAxis := None; series := None |}.

(** What is given replaces what there is; what is not given stays. *)
Definition mergeY (new old : YAxis) : YAxis :=
  {| y_name := y_name new ∪ y_name old; y_label := y_label new ∪ y_label old; y_range := y_range new ∪ y_range old |}.
Definition mergeSeries (new old : Series) : Series :=
  {| data := data new ∪ data old; colors := colors new ∪ colors old |}.
Definition merge (new old : ChartOption) : ChartOption :=
  {| animation := animation new ∪ animation old; title := title new ∪ title old; xAxis := xAxis new ∪ xAxis old;
     yAxis := union_with (fun n o => Some (mergeY n o)) (yAxis new) (yAxis old);
     series := union_with (fun n o => Some (mergeSeries n o)) (series new) (series old) |}.

(** [echarts.init] of an element answers the chart the element has, or a fresh
    one; a chart that was never given an option has none. *)
Class Echarts (Chart : Type) := {
  fresh : Chart;
  setOption : ChartOption -> Chart -> Chart;
  getOption : Chart -> option ChartOption;
  resizeChart : Chart -> Chart
}.
Class EchartsLaws (Chart : Type) `{Echarts Chart} := {
  fresh_option : getOption fresh = None;
  set_get : forall o c, getOption (setOption o c) = Some (merge o (default noOption (getOption c)));
  resize_get : forall c, getOption (resizeChart c) = getOption c
}.

(** ** The elements the charts are drawn on *)

(** [Object.keys(this.state.checkStatus)] *)
Definition chartRef : list string := (EchartPart.chartRef ++ ["cpuLoad"])%list.
Definition chartName : list string :=
  ["Used Query Memory"; "Running Queries"; "Queued Queries"; "Blocked Queries"; "Active Workers"; "Avg Running Tasks";
   "Avg CPU cycles per worker"; "total Input Bytes"].
Definition unitArr : list string :=
  ["bytes"; "quantity"; "quantity"; "quantity"; "quantity"; "quantity"; "quantity"; "bytes"].

(** [this.refs[name].className] on the mounted page. *)
Definition refClass (s : Charts) (name : string) : option string :=
  (fun n => default "" (attribute "className" n)) <$>
  List.find (fun n => match attribute "ref" n with Some r => streq r name | None => false end)
    (allElements (EchartPart.render s)).

Inductive Kind := ForCluster | ForMemory.
Inductive Event :=
  | Reply (now : nat -> Z) (a : Answer)
  | Tick (id : nat)
  | Select (selectedIndex : nat)
  | Choose (selection : list (string * string))
  | Resize
  | Unmount.

Section Canvas.
Context {Chart : Type} `{Echarts Chart} (calendar : Z -> DateFields).

#[local] Abbreviation Canvas := (gmap string Chart).

(** What is done to a chart; whether it threw. *)
Definition Work := Chart -> Chart * bool.
Record Job := { guarded : bool; ref : string; work : Work }.

Definition chartAt (cv : Canvas) (name : string) : Chart := default fresh (cv !! name).

Definition touch (name : string) (f : Work) (cv : Canvas) : Canvas * bool :=
  let '(c, threw) := f (chartAt cv name) in (<[name := c]> cv, threw).

(** [if (!this.refs[name].className)] around the work; reading the property of an
    element that is not there throws. *)
Definition visit (present : bool) (s : Charts) (j : Job) (cv : Canvas) : Canvas * bool :=
  match (if present then refClass s (ref j) else None) with
  | None => (cv, true)
  | Some c => if negb (guarded j) || streq c "" then touch (ref j) (work j) cv else (cv, false)
  end.

(** One after the other, up to the first that throws. *)
Fixpoint drawAll (present : bool) (s : Charts) (jobs : list Job) (cv : Canvas) : Canvas * bool :=
  match jobs with
  | [] => (cv, false)
  | j :: jobs => let '(cv, threw) := visit present s j cv in if threw then (cv, true) else drawAll present s jobs cv
  end.

(** [for (let i = 0; i < this.state.chartName.length; i++)] with the guard. *)
Definition forCharts (f : nat -> Work) : list Job :=
  (fun i => {| guarded := true; ref := default "" (chartRef !! i); work := f i |}) <$> seq 0 (length chartName).

(** [option = chart.getOption(); change it; chart.setOption(option)] *)
Definition edit (f : ChartOption -> option ChartOption) : Work := fun c =>
  match getOption c ≫= f with Some o => (setOption o c, false) | None => (c, true) end.

(** ** setXAxis *)

Definition cpuOption (s : Charts) : ChartOption :=
  {| animation := Some false; title := Some "Average Cluster CPU Usage";
     xAxis := Some {| interval := axisInterval s; x_label := timeTick calendar |};
     yAxis := Some {| y_name := Some "usage(%)"; y_label := Some (valueTick ""); y_range := None |};
     series := Some {| data := Some []; colors := None |} |}.

Definition chartOption (s : Charts) (i : nat) : ChartOption :=
  {| animation := Some false; title := chartName !! i;
     xAxis := Some {| interval := axisInterval s; x_label := timeTick calendar |};
     yAxis := Some {| y_name := unitArr !! i; y_label := Some (valueTick (default "" (unitArr !! i))); y_range := None |};
     series := Some {| data := Some (shown s (default [] (charts s !! S i))); colors := None |} |}.

Definition firstJobs (s : Charts) : list Job :=
  {| guarded := false; ref := "cpuLoad"; work := fun c => (setOption (cpuOption s) c, false) |} ::
  forCharts (fun i c => (setOption (chartOption s i) c, false)).

(** ** _onChange *)

Definition newData (points : list Point) (color : string * string * string) (o : ChartOption) : option ChartOption :=
  (fun _ => {| animation := animation o; title := title o; xAxis := xAxis o; yAxis := yAxis o;
               series := Some {| data := Some points; colors := Some color |} |}) <$> series o.

Definition percentAxis (o : ChartOption) : ChartOption :=
  {| animation := animation o; title := title o; xAxis := xAxis o;
     yAxis := Some {| y_name := None; y_label := None; y_range := Some (of_Z 0, of_Z 100) |}; series := series o |}.

Definition sampleJobs (s : Charts) : list Job :=
  {| guarded := true; ref := "cpuLoad";
     work := edit (fun o => percentAxis <$>
                            newData (shown s (default [] (charts s !! 0%nat))) ("#41BB04", "#137113", "#137113") o) |} ::
  forCharts (fun i => edit (newData (shown s (default [] (charts s !! S i))) ("#c3c683", "#b6a019", "#b6a019"))).

(** ** selected *)

Definition newInterval (s : Charts) (o : ChartOption) : option ChartOption :=
  (fun x => {| animation := animation o; title := title o;
               xAxis := Some {| interval := axisInterval s; x_label := x_label x |}; yAxis := yAxis o;
               series := series o |}) <$> xAxis o.

Definition intervalJobs (s : Charts) : list Job :=
  (forCharts (fun _ => edit (newInterval s)) ++
   [{| guarded := false; ref := "cpuLoad"; work := edit (newInterval s) |}])%list.

(** ** resize *)

Definition resizeJobs : list Job :=
  (fun name => {| guarded := true; ref := name; work := fun c => (resizeChart c, false) |}) <$> chartRef.

(** ** The page

    [timer] is [state.timer]; [resizers] counts the listeners for the size of the
    window; [sent] are the requests, oldest first. *)
Record Page := {
  dash : Dashboard; canvas : Canvas; timer : option nat; timers : Timers; mounted : bool; resizers : nat;
  sent : list Kind
}.

Definition withDash (d : Dashboard) (cv : Canvas) (p : Page) : Page :=
  {| dash := d; canvas := cv; timer := timer p; timers := timers p; mounted := mounted p; resizers := resizers p;
     sent := sent p |}.
Definition withTimer (i : option nat) (t : Timers) (p : Page) : Page :=
  {| dash := dash p; canvas := canvas p; timer := i; timers := t; mounted := mounted p; resizers := resizers p;
     sent := sent p |}.
Definition send (ks : list Kind) (p : Page) : Page :=
  {| dash := dash p; canvas := canvas p; timer := timer p; timers := timers p; mounted := mounted p;
     resizers := resizers p; sent := (sent p ++ ks)%list |}.
Definition withCharts (f : Charts -> Charts) (d : Dashboard) : Dashboard :=
  {| store := store d; echart := f (echart d); overview := overview d |}.

(** The interval has an identifier as a timer has; it stays armed. *)
Definition lineDatas (p : Page) : Page :=
  let '(i, t) := setTimeout 1000 (timers p) in withTimer (Some i) t p.

Definition tick (id : nat) (p : Page) : Page :=
  if existsb (fun x => (x.1 =? id)%nat) (armed (timers p)) then send [ForCluster; ForMemory] p else p.

(** Inside of componentDidMount the assignments of setState wait for its end, so
    that the charts get the options of the state before: no points. *)
Definition componentDidMount (reading : nat -> Z) : Page :=
  let '(cv, _) := drawAll true initialCharts (firstJobs initialCharts) ∅ in
  let p := {| dash := mountDashboard calendar reading; canvas := cv; timer := None; timers := no_timers;
              mounted := true; resizers := 0; sent := [ForCluster; ForMemory] |} in
  let p := lineDatas p in
  {| dash := dash p; canvas := canvas p; timer := timer p; timers := timers p; mounted := mounted p; resizers := 2;
     sent := sent p |}.

Definition componentWillUnmount (p : Page) : Page :=
  {| dash := dash p; canvas := canvas p; timer := timer p; timers := clearTimeout (timer p) (timers p);
     mounted := false; resizers := resizers p; sent := sent p |}.

(** The listener, after which the summary is told.  The answer arrives outside of
    React's own events, so that setState takes effect at once. *)
Definition sampled (now : nat -> Z) (a : Answer) (p : Page) : bool :=
  Z.rem (OverviewStore.requestNum (received a (store (dash p)))) 2 =? 0.

Definition reply (now : nat -> Z) (a : Answer) (p : Page) : Page * bool :=
  let st := received a (store (dash p)) in
  if mounted p then
    let '(s, threw) := onChange calendar now st (echart (dash p)) in
    let '(cv, threw) :=
      if threw then (canvas p, true)
      else if sampled now a p then drawAll true s (sampleJobs s) (canvas p) else (canvas p, false) in
    match (if threw then Throw TypeError else overviewOnChange st (overview (dash p))) with
    | Throw _ => (withDash {| store := st; echart := s; overview := overview (dash p) |} cv p, true)
    | Ok o => (withDash {| store := st; echart := s; overview := o |} cv p, false)
    end
  else
    (* the summary still listens, but its setState has no effect *)
    (withDash {| store := st; echart := echart (dash p); overview := overview (dash p) |} (canvas p) p,
     match overviewOnChange st (overview (dash p)) with Throw _ => true | Ok _ => false end).

Definition select (selectedIndex : nat) (p : Page) : Page * bool :=
  let p := withTimer (timer p) (clearTimeout (timer p) (timers p)) p in
  let d := withCharts (selected selectedIndex) (dash p) in
  let '(cv, threw) := drawAll true (echart d) (intervalJobs (echart d)) (canvas p) in
  let p := withDash d cv p in
  if threw then (p, true) else (lineDatas (send [ForCluster] p), false).

(** Each listener runs, whatever became of the one before. *)
Fixpoint resized (n : nat) (p : Page) : Page * bool :=
  match n with
  | O => (p, false)
  | S n =>
      let '(cv, threw) := drawAll (mounted p) (echart (dash p)) resizeJobs (canvas p) in
      let '(p, threw') := resized n (withDash (dash p) cv p) in (p, threw || threw')
  end.

(** The menus are there while the page is. *)
Definition handle (e : Event) (p : Page) : Page * bool :=
  match e with
  | Reply now a => reply now a p
  | Tick id => (tick id p, false)
  | Select i => if mounted p then select i p else (p, false)
  | Choose selection =>
      (if mounted p then withDash (withCharts (changeList selection) (dash p)) (canvas p) p else p, false)
  | Resize => resized (resizers p) p
  | Unmount => (if mounted p then componentWillUnmount p else p, false)
  end.

Fixpoint run (log : list Event) (p : Page) : Page * bool :=
  match log with
  | [] => (p, false)
  | e :: log => let '(p, threw) := handle e p in let '(p, threw') := run log p in (p, threw || threw')
  end.
End Canvas.

(** ** Drawing on the page *)

(** The charts by their numbers, that of the processor first. *)
Definition numbered : list string := "cpuLoad" :: EchartPart.chartRef.

Lemma numbered_ref name : name ∈ numbered <-> name ∈ chartRef.
Proof. unfold numbered, chartRef. rw elem_of_app elem_of_cons list_elem_of_singleton. tauto. Qed.

Lemma numbered_unique i j name : numbered !! i = Some name -> numbered !! j = Some name -> i = j.
Proof. intros Hi Hj. eapply NoDup_lookup; [|done|done]. by apply (bool_decide_unpack _). Qed.

(** No element has a class of its own, hidden or not: the guards always let the
    drawing through. *)
Lemma refClass_none s name : name ∈ chartRef -> refClass s name = Some "".
Proof.
  intros Hn. unfold refClass, EchartPart.render, EchartPart.renderChart, EchartPart.multiSelect.
  repeat (apply elem_of_cons in Hn as [->|Hn]; [reflexivity|]). inversion Hn.
Qed.

Section Facts.
Context {Chart : Type} `{EchartsLaws Chart} (calendar : Z -> DateFields).
#[local] Abbreviation Canvas := (gmap string Chart).

Lemma chartAt_touch name (f : Work) (cv : Canvas) name' :
  chartAt (touch name f cv).1 name' = if decide (name' = name) then (f (chartAt cv name)).1 else chartAt cv name'.
Proof.
  unfold touch. destruct (f (chartAt cv name)) as [c threw]. cbn. unfold chartAt. case_decide as Hd.
  - subst. by rw lookup_insert_eq.
  - by rw lookup_insert_ne.
Qed.

(** Jobs on different charts, each of which does what is asked, are all done. *)
Lemma drawAll_done s (jobs : list Job) (P Q : string -> Chart -> Prop) (cv : Canvas) :
  ref <$> jobs ⊆ chartRef -> NoDup (ref <$> jobs) ->
  Forall (fun j => forall c, P (ref j) c -> (work j c).2 = false /\ Q (ref j) (work j c).1) jobs ->
  (forall name, name ∈ ref <$> jobs -> P name (chartAt cv name)) ->
  exists cv', drawAll true s jobs cv = (cv', false) /\
    (forall name, name ∈ ref <$> jobs -> Q name (chartAt cv' name)) /\
    (forall name, name ∉ ref <$> jobs -> chartAt cv' name = chartAt cv name).
Proof.
  revert cv. induction jobs as [|j jobs IH]; intros cv Hr Hd Hj HP.
  { exists cv. split; [done|split; [by intros ? ?%elem_of_nil|done]]. }
  cbn [fmap list_fmap drawAll] in *. apply NoDup_cons in Hd as [Hn Hd]. apply Forall_cons in Hj as [Hj Hjs].
  destruct (Hj _ (HP (ref j) ltac:(by left))) as [Ht HQ]. unfold visit.
  rw refClass_none; [apply Hr; by left|]. rw orb_true_r.
  destruct (touch (ref j) (work j) cv) as [cv1 threw] eqn:Htouch.
  assert (threw = false /\ forall name, chartAt cv1 name = if decide (name = ref j) then (work j (chartAt cv (ref j))).1 else chartAt cv name) as [-> Hat].
  { split; [|intros name; by rw -chartAt_touch Htouch]. unfold touch in Htouch.
    destruct (work j (chartAt cv (ref j))). by injection Htouch as _ <-. }
  destruct (IH cv1) as (cv' & -> & Hin & Hout); [set_solver|done|done|..].
  - intros name Hname. rw Hat. case_decide; [by subst|]. apply HP. by right.
  - exists cv'. split; [done|]. split.
    + intros name [->|Hname]%elem_of_cons; [|by apply Hin]. rw Hout //. rw Hat decide_True //.
    + intros name Hname. rw Hout; [set_solver|]. rw Hat decide_False //. set_solver.
Qed.

(** The same for all nine charts, by their numbers. *)
Lemma drawAll_numbered s (jobs : list Job) (P Q : nat -> Chart -> Prop) (cv : Canvas) :
  ref <$> jobs ≡ₚ numbered ->
  Forall (fun j => exists k, numbered !! k = Some (ref j) /\ forall c, P k c -> (work j c).2 = false /\ Q k (work j c).1) jobs ->
  (forall k name, numbered !! k = Some name -> P k (chartAt cv name)) ->
  exists cv', drawAll true s jobs cv = (cv', false) /\
    forall k name, numbered !! k = Some name -> Q k (chartAt cv' name).
Proof.
  intros Hp Hj HP.
  destruct (drawAll_done s jobs (fun name c => forall k, numbered !! k = Some name -> P k c)
              (fun name c => forall k, numbered !! k = Some name -> Q k c) cv) as (cv' & Hd & Hin & _).
  - intros name. rw Hp. by rw numbered_ref.
  - rw Hp. by apply (bool_decide_unpack _).
  - eapply Forall_impl; [exact Hj|]. intros j (k & Hk & Hw) c Hc. destruct (Hw c (Hc k Hk)) as [Ht HQ].
    split; [done|]. intros k' Hk'. by rw (numbered_unique k' k (ref j)).
  - intros name Hname k Hk. by apply HP.
  - exists cv'. split; [done|]. intros k name Hk. apply (Hin name); [|done]. rw Hp. by eapply list_elem_of_lookup_2.
Qed.

(** ** What a chart shows *)

Definition titleOf (k : nat) : option string :=
  match k with O => Some "Average Cluster CPU Usage" | S i => chartName !! i end.
Definition unitOf (k : nat) : option string := match k with O => Some "usage(%)" | S i => unitArr !! i end.
Definition tickOf (k : nat) : num -> nat -> string :=
  valueTick (match k with O => "" | S i => default "" (unitArr !! i) end).

(** Title, axes and points of chart [k]. *)
Definition shows (s : Charts) (k : nat) (pts : list Point) (c : Chart) : Prop :=
  exists o, getOption c = Some o /\ title o = titleOf k /\
    xAxis o = Some {| interval := axisInterval s; x_label := timeTick calendar |} /\
    (exists y, yAxis o = Some y /\ y_name y = unitOf k /\ y_label y = Some (tickOf k)) /\
    (series o ≫= data) = Some pts.

Lemma shows_series s k pts c o : getOption c = Some o -> shows s k pts c -> exists sr, series o = Some sr.
Proof. intros Ho (o' & Ho' & _ & _ & _ & Hs). rw Ho in Ho'. injection Ho' as <-. destruct (series o); [by eexists|done]. Qed.

Lemma edit_shows (f : ChartOption -> option ChartOption) (Q : Chart -> Prop) o c :
  getOption c = Some o -> (exists o', f o = Some o' /\ Q (setOption o' c)) -> (edit f c).2 = false /\ Q (edit f c).1.
Proof. intros Ho (o' & Hf & HQ). unfold edit. rw Ho. cbn. by rw Hf. Qed.

(** A job for every chart. *)
Ltac nine :=
  repeat match goal with |- Forall _ (_ :: _) => constructor | |- Forall _ [] => constructor end;
  [exists 0%nat|exists 1%nat|exists 2%nat|exists 3%nat|exists 4%nat|exists 5%nat|exists 6%nat|exists 7%nat|exists 8%nat];
  (split; [reflexivity|]).

Lemma first_shows :
  exists cv, drawAll true initialCharts (firstJobs calendar initialCharts) ∅ = (cv, false) /\
    forall k name, numbered !! k = Some name -> shows initialCharts k [] (chartAt cv name).
Proof.
  apply (drawAll_numbered _ _ (fun _ c => getOption c = None) (fun k => shows initialCharts k [])); [reflexivity| |].
  - unfold firstJobs, forCharts. cbn [fmap list_fmap seq length chartName]. nine;
      intros c Hc; (split; [done|]); eexists; cbn [work fst]; rw set_get Hc;
      (split; [reflexivity|]); repeat (split; try reflexivity); by eexists.
  - intros k name _. apply fresh_option.
Qed.

Lemma interval_step (s s' : Charts) : step s' = step s -> axisInterval s' = axisInterval s.
Proof. unfold axisInterval. by intros ->. Qed.
#[local] Opaque axisInterval of_Z.

Lemma union_same {A} (o : option A) : o ∪ o = o.
Proof. by destruct o. Qed.
Lemma union_none {A} (o : option A) : None ∪ o = o.
Proof. by destruct o. Qed.
Lemma union_given {A} (x : A) o : Some x ∪ o = Some x.
Proof. by destruct o. Qed.

(** New points, new ticks: everything else stays. *)
Lemma newData_shows (s s0 : Charts) k pts pts' col (f : ChartOption -> option ChartOption) (c : Chart) :
  (forall o, f o = percentAxis <$> newData pts' col o) \/ (forall o, f o = newData pts' col o) ->
  axisInterval s = axisInterval s0 -> shows s0 k pts c -> (edit f c).2 = false /\ shows s k pts' (edit f c).1.
Proof.
  intros Hf Hs (o & Ho & Ht & Hx & (y & Hy & Hn & Hl) & Hd). destruct (series o) as [sr|] eqn:Hsr; [|done].
  eapply edit_shows; [exact Ho|].
  assert (exists o', f o = Some o' /\ title o' = title o /\ xAxis o' = xAxis o /\
    (yAxis o' = yAxis o \/ exists r, yAxis o' = Some {| y_name := None; y_label := None; y_range := r |}) /\
    (series o' ≫= data) = Some pts') as (o' & Hf' & Ht' & Hx' & Hy' & Hd').
  { destruct Hf as [Hf|Hf]; rw Hf; unfold newData; rw Hsr; (eexists; split; [reflexivity|]);
      (split; [reflexivity|split; [reflexivity|split; [|reflexivity]]]); [right; eexists|left]; reflexivity. }
  exists o'. split; [done|]. eexists. rw set_get Ho. split; [reflexivity|]. unfold merge. cbn [title xAxis yAxis series default].
  rw Ht' Hx' Ht Hx Hs Hsr. split; [apply union_same|]. split; [reflexivity|]. split.
  - destruct Hy' as [Hy'|[r Hy']]; rw Hy' Hy; cbn [union_with option_union_with]; (eexists; split; [reflexivity|]);
      cbn [mergeY y_name y_label]; rw Hn Hl; (split; [by rw ?union_same ?union_none|reflexivity]).
  - destruct (series o') as [sr'|]; [|done]. cbn in Hd' |- *. rw Hd'. apply union_given.
Qed.

Lemma newInterval_shows (s s0 : Charts) k pts (c : Chart) :
  shows s0 k pts c -> (edit (newInterval s) c).2 = false /\ shows s k pts (edit (newInterval s) c).1.
Proof.
  intros (o & Ho & Ht & Hx & (y & Hy & Hn & Hl) & Hd). destruct (series o) as [sr|] eqn:Hsr; [|done].
  eapply edit_shows; [exact Ho|]. unfold newInterval. rw Hx. eexists. split; [reflexivity|]. eexists. rw set_get Ho.
  split; [reflexivity|]. unfold merge. cbn [title xAxis yAxis series default interval x_label]. rw Ht Hx Hy Hsr.
  split; [apply union_same|]. split; [reflexivity|]. split.
  - eexists. split; [reflexivity|]. unfold mergeY. cbn. rw Hn Hl. split; [apply union_same|reflexivity].
  - cbn in Hd |- *. rw Hd. reflexivity.
Qed.

Lemma sample_shows (s s0 : Charts) (cv : Canvas) :
  axisInterval s = axisInterval s0 ->
  (forall k name, numbered !! k = Some name -> exists pts, shows s0 k pts (chartAt cv name)) ->
  exists cv', drawAll true s (sampleJobs s) cv = (cv', false) /\
    forall k name, numbered !! k = Some name -> shows s k (shown s (default [] (charts s !! k))) (chartAt cv' name).
Proof.
  intros Hs Hcv. apply (drawAll_numbered _ _ (fun k c => exists pts, shows s0 k pts c)
                          (fun k => shows s k (shown s (default [] (charts s !! k))))); [reflexivity| |done].
  unfold sampleJobs, forCharts. cbn [fmap list_fmap seq length chartName].
  nine; intros c (pts & Hc); cbn [work];
    (eapply newData_shows; [|exact Hs|exact Hc]); [left|right..]; intros o; reflexivity.
Qed.

Lemma interval_shows (s s0 : Charts) pts (cv : Canvas) :
  (forall k name, numbered !! k = Some name -> shows s0 k (pts k) (chartAt cv name)) ->
  exists cv', drawAll true s (intervalJobs s) cv = (cv', false) /\
    forall k name, numbered !! k = Some name -> shows s k (pts k) (chartAt cv' name).
Proof.
  intros Hcv. apply (drawAll_numbered _ _ (fun k => shows s0 k (pts k)) (fun k => shows s k (pts k))); [| |done].
  - symmetry. apply Permutation_cons_append.
  - apply Forall_app. split; [|repeat constructor; exists 0%nat; split; [done|]; intros c; apply newInterval_shows].
    apply Forall_fmap, Forall_forall. intros i Hi%elem_of_seq. exists (S i). cbn [compose ref work].
    split; [|intros c; apply newInterval_shows].
    assert (i < 8)%nat as Hi8 by (cbn in Hi; lia). do 8 (destruct i as [|i]; [reflexivity|]). lia.
Qed.

Lemma resize_shows (s s0 : Charts) pts (cv : Canvas) :
  (forall k name, numbered !! k = Some name -> shows s0 k (pts k) (chartAt cv name)) ->
  exists cv', drawAll true s resizeJobs cv = (cv', false) /\
    forall k name, numbered !! k = Some name -> shows s0 k (pts k) (chartAt cv' name).
Proof.
  intros Hcv. apply (drawAll_numbered _ _ (fun k => shows s0 k (pts k)) (fun k => shows s0 k (pts k))); [| |done].
  - symmetry. apply Permutation_cons_append.
  - apply Forall_fmap, Forall_forall. intros name Hn. cbn [compose ref work].
    apply numbered_ref, list_elem_of_lookup_1 in Hn as [k Hk]. exists k. split; [done|]. intros c (o & Ho & Hc). split; [done|].
    exists o. by rw resize_get.
Qed.

Lemma shown_newest (s : Charts) c :
  step s ∈ [10; 20; 30] -> length c = 1800%nat ->
  Z.of_nat (length (shown s c)) = 60 * step s /\ exists older, c = (older ++ shown s c)%list.
Proof.
  intros Hs Hc. unfold shown. repeat (apply elem_of_cons in Hs as [->|Hs]); [..|inversion Hs]; cbn [Z.eqb].
  - change (10 =? 10) with true. cbn iota. rw length_drop Hc. split; [done|]. exists (take 1200 c). by rw take_drop.
  - change (20 =? 10) with false. change (20 =? 20) with true. cbn iota. rw length_drop Hc. split; [done|].
    exists (take 600 c). by rw take_drop.
  - change (30 =? 10) with false. change (30 =? 20) with false. cbn iota. rw Hc. split; [done|]. by exists [].
Qed.

Lemma window_none (init : list Point) : window init [] = init.
Proof. unfold window. by rw app_nil_r. Qed.
#[local] Opaque axis window shown.

(** ** The page while it is shown *)

Section Run.
Variable reading : nat -> Z.
#[local] Abbreviation Page := (Page (Chart := Chart)).

(** The points in the option of a chart. *)
Definition drawn (p : Page) (name : string) : option (list Point) :=
  o ← getOption (chartAt (canvas p) name); s ← series o; data s.

Lemma shows_drawn s k pts (p : Page) name : shows s k pts (chartAt (canvas p) name) -> drawn p name = Some pts.
Proof. intros (o & Ho & _ & _ & _ & Hd). unfold drawn. by rw Ho. Qed.

Lemma shows_step (s s' : Charts) k pts (c : Chart) : step s' = step s -> shows s k pts c -> shows s' k pts c.
Proof.
  intros Hs (o & Ho & Ht & Hx & Hr). exists o. split; [done|split; [done|split; [|done]]]. rw Hx.
  by rw (interval_step s s' Hs).
Qed.

(** The sample an event leads to, those of a sequence of events. *)
Definition eventSample (e : Event) (p : Page) : list (list Point) :=
  match e with Reply now a => if mounted p then sampleAt calendar now a (dash p) else [] | _ => [] end.
Fixpoint eventSamples (log : list Event) (p : Page) : list (list Point) :=
  match log with [] => [] | e :: log => (eventSample e p ++ eventSamples log (handle calendar e p).1)%list end.

Definition sampling (e : Event) (p : Page) : bool := match eventSample e p with [] => false | _ => true end.

Record Running (ss : list (list Point)) (p : Page) : Prop := {
  r_mounted : mounted p = true;
  r_windows : windows (axis calendar reading) ss (charts (echart (dash p)));
  r_step : step (echart (dash p)) ∈ [10; 20; 30];
  r_drawn : forall k name, numbered !! k = Some name ->
    exists pts, shows (echart (dash p)) k pts (chartAt (canvas p) name);
  r_timer : exists i, timer p = Some i /\ armed (timers p) = [(i, 1000)] /\ (i < next_id (timers p))%nat;
  r_resizers : resizers p = 2%nat
}.

(** After an event: nothing threw, the page is in order, and the charts show
    their newest points if there is a sample, and otherwise what they showed. *)
Definition after (e : Event) (ss : list (list Point)) (p : Page) : Prop :=
  let p' := (handle calendar e p).1 in
  (handle calendar e p).2 = false /\ Running (ss ++ eventSample e p) p' /\
  forall k name, numbered !! k = Some name ->
    drawn p' name = if sampling e p then Some (shown (echart (dash p')) (default [] (charts (echart (dash p')) !! k)))
                    else drawn p name.

Lemma all_shown (s : Charts) (cv : Canvas) :
  (forall k name, numbered !! k = Some name -> exists pts, shows s k pts (chartAt cv name)) ->
  exists pts, forall k name, numbered !! k = Some name -> shows s k (pts k) (chartAt cv name).
Proof.
  intros Hall. exists (fun k => default [] (o ← getOption (chartAt cv (default "" (numbered !! k))); s ← series o; data s)).
  intros k name Hk. destruct (Hall k name Hk) as [pts Hp]. rw Hk. cbn [default].
  destruct Hp as (o & Ho & Hr & Hx & Hy & Hd). exists o. split; [done|]. rw Ho. cbn [mbind option_bind].
  cbn [mbind option_bind] in Hd. split; [done|split; [done|split; [done|]]]. rw Hd. done.
Qed.

Lemma after_reply now a ss (p : Page) :
  Running ss p -> OverviewStore.lineData (received a (store (dash p))) <> None -> after (Reply now a) ss p.
Proof.
  intros [Hm Hw Hs Hd Ht Hr] Hl. unfold after, sampling. cbn [handle eventSample]. unfold reply. rw Hm.
  assert (axis calendar reading <> []) as Hne.
  { intros He. pose proof (axis_length calendar reading) as Hlen. by rw He in Hlen. }
  destruct (onChange_windows calendar _ Hne now _ (echart (dash p)) ss Hl Hw) as (H1 & H2 & H3).
  fold (sampleAt calendar now a (dash p)) in H3. unfold sampled. unfold sampleAt in *.
  destruct (onChange calendar now (received a (store (dash p))) (echart (dash p))) as [s threw]. cbn [fst snd] in *. subst threw.
  unfold overviewOnChange. destruct (OverviewStore.lineData (received a (store (dash p)))) as [line|] eqn:Hline; [|done].
  assert (forall k name, numbered !! k = Some name -> exists pts, shows (echart (dash p)) k pts (chartAt (canvas p) name)) as Hd' by done.
  destruct (Z.rem (OverviewStore.requestNum (received a (store (dash p)))) 2 =? 0).
  - destruct (sample_shows s (echart (dash p)) (canvas p)) as (cv & -> & Hcv); [by apply interval_step|done|].
    cbn. split; [done|]. split.
    + split; cbn; [done|done|by rw H2|intros k name Hk; by eexists; apply Hcv|done|done].
    + intros k name Hk. eapply shows_drawn, Hcv, Hk.
  - cbn. split; [done|]. split; [|done]. split; cbn; [done|done|by rw H2| |done|done].
    intros k name Hk. destruct (Hd' k name Hk) as [pts Hp]. exists pts. by apply (shows_step (echart (dash p))).
Qed.

Lemma after_select i ss (p : Page) : Running ss p -> after (Select i) ss p.
Proof.
  intros [Hm Hw Hs Hd (j & Hj & Ha & Hlt) Hr]. unfold after. cbn [handle eventSample sampling]. rw Hm app_nil_r. unfold select.
  destruct (all_shown _ _ Hd) as [pts Hp].
  destruct (interval_shows (selected i (echart (dash p))) _ pts (canvas p) Hp) as (cv & Hcv & Hsh).
  cbn [withTimer dash canvas withCharts echart]. rw Hcv. cbn. rw Hj. split; [done|]. split.
  - split; cbn; [done|done| |intros k name Hk; by eexists; apply Hsh| |done].
    + destruct i as [|[|i]]; set_solver.
    + rw Ha. cbn. rw Nat.eqb_refl. eexists. split; [done|]. split; [done|lia].
  - intros k name Hk. erewrite shows_drawn; [|by apply Hsh]. erewrite shows_drawn; [done|by apply Hp].
Qed.

Lemma after_resize ss (p : Page) : Running ss p -> after Resize ss p.
Proof.
  intros Hrun. unfold after. cbn [handle eventSample sampling]. rw app_nil_r. generalize (resizers p) as n.
  intros n. revert p Hrun. induction n as [|n IH]; intros p Hrun; [done|]. cbn [resized]. destruct Hrun as [Hm Hw Hs Hd Ht Hr].
  rw Hm. destruct (all_shown _ _ Hd) as [pts Hp].
  destruct (resize_shows (echart (dash p)) _ pts (canvas p) Hp) as (cv & -> & Hsh).
  destruct (IH (withDash (dash p) cv p)) as (H1 & H2 & H3).
  { split; cbn; [done|done|done|intros k name Hk; by eexists; apply Hsh|done|done]. }
  destruct (resized n (withDash (dash p) cv p)) as [p' threw]. cbn [fst snd orb] in *. split; [done|split; [done|]].
  intros k name Hk. rw (H3 k name Hk). erewrite shows_drawn; [|by apply Hsh]. erewrite shows_drawn; [done|by apply Hp].
Qed.

Lemma after_event e ss (p : Page) :
  Running ss p -> e <> Unmount ->
  (forall now a, e = Reply now a -> OverviewStore.lineData (received a (store (dash p))) <> None) -> after e ss p.
Proof.
  intros Hrun He Hl. destruct e as [now a|id|i|selection| |]; [by eapply after_reply, Hl| |by apply after_select| |by apply after_resize|done].
  - unfold after. cbn [handle eventSample sampling fst snd]. rw app_nil_r. unfold tick. destruct Hrun. by case_match; (split; [|split]).
  - unfold after. cbn [handle eventSample sampling fst snd]. destruct Hrun as [Hm Hw Hs Hd Ht Hr]. rw Hm app_nil_r.
    split; [done|]. split; [|done]. split; done.
Qed.

Lemma mounted_running : Running [] (componentDidMount calendar reading).
Proof.
  unfold componentDidMount. destruct first_shows as (cv & -> & Hcv). split; cbn.
  - done.
  - split; [done|]. intros k c Hc. change (replicate 9 (axis calendar reading) !! k = Some c) in Hc.
    apply lookup_replicate in Hc as [-> _]. symmetry. apply window_none.
  - set_solver.
  - intros k name Hk. exists []. apply (shows_step initialCharts); [reflexivity|by apply Hcv].
  - eexists. split; [done|]. split; [done|lia].
  - done.
Qed.

(** The first answer is the one about the cluster. *)
Fixpoint clusterFirst (log : list Event) : Prop :=
  match log with
  | [] | Reply _ (Cluster _) :: _ => True
  | Reply _ (Memory _) :: _ => False
  | _ :: log => clusterFirst log
  end.

Definition answered (log : list Event) (p : Page) : Prop :=
  OverviewStore.lineData (store (dash p)) <> None \/ clusterFirst log.

Lemma reply_store now a (p : Page) : store (dash (reply calendar now a p).1) = received a (store (dash p)).
Proof.
  unfold reply. destruct (mounted p); [|done]. destruct (onChange _ _ _ _) as [s []]; [done|].
  destruct (if sampled now a p then _ else _) as [cv []]; [done|]. by destruct (overviewOnChange _ _).
Qed.

Lemma answered_line e log (p : Page) now a :
  answered (e :: log) p -> e = Reply now a -> OverviewStore.lineData (received a (store (dash p))) <> None.
Proof. intros [Hl|Hc] ->; [by apply received_line|by destruct a]. Qed.

Lemma resized_store n (p : Page) : store (dash (resized n p).1) = store (dash p).
Proof.
  revert p. induction n as [|n IH]; intros p; [done|]. cbn [resized]. destruct (drawAll _ _ _ _) as [cv threw].
  specialize (IH (withDash (dash p) cv p)). by destruct (resized n _) as [p' threw'].
Qed.

Lemma handle_store e (p : Page) :
  store (dash (handle calendar e p).1) = match e with Reply _ a => received a (store (dash p)) | _ => store (dash p) end.
Proof.
  destruct e as [now a|id|i|selection| |]; cbn [handle fst].
  - apply reply_store.
  - unfold tick. by case_match.
  - unfold select. destruct (mounted p); [|done]. by destruct (drawAll _ _ _ _) as [cv []].
  - by destruct (mounted p).
  - apply resized_store.
  - by destruct (mounted p).
Qed.

Lemma answered_next e log (p : Page) : answered (e :: log) p -> answered log (handle calendar e p).1.
Proof.
  intros Ha. unfold answered. rw handle_store. destruct e as [now a|id|i|selection| |]; [|by destruct Ha; [left|right]..].
  left. by eapply answered_line.
Qed.

Lemma run_running log ss (p : Page) :
  Running ss p -> Unmount ∉ log -> answered log p ->
  (run calendar log p).2 = false /\ Running (ss ++ eventSamples log p) (run calendar log p).1.
Proof.
  revert ss p. induction log as [|e log IH]; intros ss p Hr Hu Ha; [by rw app_nil_r|].
  destruct (after_event e ss p Hr) as (Ht & Hr' & _); [set_solver|intros now a; by eapply answered_line|].
  cbn [run eventSamples]. pose proof (answered_next _ _ _ Ha) as Ha'. destruct (handle calendar e p) as [p' threw].
  cbn [fst snd] in *. subst threw.
  destruct (IH _ p' Hr') as [Ht' Hr'']; [set_solver|done|]. destruct (run calendar log p') as [p'' threw'].
  cbn [fst snd orb] in *. by rw app_assoc.
Qed.

Lemma answered_run log e (p : Page) :
  answered (log ++ [e]) p -> answered [e] (run calendar log p).1.
Proof.
  revert p. induction log as [|e' log IH]; intros p Ha; [done|]. cbn [run]. apply answered_next in Ha.
  destruct (handle calendar e' p) as [p' threw]. specialize (IH p' Ha). by destruct (run calendar log p').
Qed.

(** Every second answer is a sample. *)
Definition replies (log : list Event) : nat :=
  length (List.filter (fun e => match e with Reply _ _ => true | _ => false end) log).

Lemma samples_half log ss (p : Page) n :
  Running ss p -> Unmount ∉ log -> answered log p -> OverviewStore.requestNum (store (dash p)) = Z.of_nat n ->
  Z.of_nat (length (eventSamples log p)) = (Z.of_nat n + Z.of_nat (replies log)) / 2 - Z.of_nat n / 2.
Proof.
  revert ss p n. induction log as [|e log IH]; intros ss p n Hr Hu Ha Hn.
  { cbn. rw Z.add_0_r. lia. }
  destruct (after_event e ss p Hr) as (_ & Hr' & _); [set_solver|intros now a; by eapply answered_line|].
  cbn [eventSamples]. rw length_app Nat2Z.inj_add.
  assert (forall m, OverviewStore.requestNum (store (dash (handle calendar e p).1)) = Z.of_nat m ->
    Z.of_nat (length (eventSamples log (handle calendar e p).1)) = (Z.of_nat m + Z.of_nat (replies log)) / 2 - Z.of_nat m / 2) as Hrest.
  { intros m Hm. eapply IH; [done|set_solver|by apply answered_next|done]. }
  destruct e as [now a|id|i|selection| |].
  - rw (Hrest (S n)); [rw handle_store received_count Hn; lia|]. change (replies (Reply now a :: log)) with (S (replies log)).
    pose proof (answered_line _ _ _ _ _ Ha eq_refl) as Hl. cbn [eventSample]. rw (r_mounted _ _ Hr). unfold sampleAt.
    rw received_count Hn. destruct (OverviewStore.lineData _); [|done].
    destruct (Z.eqb_spec (Z.rem (Z.of_nat n + 1) 2) 0) as [He|He]; cbn [length];
      (rw Z.rem_mod_nonneg in He; [lia|lia|]); Z.div_mod_to_equations; lia.
  - rw (Hrest n); [by rw handle_store|]. done.
  - rw (Hrest n); [by rw handle_store|]. done.
  - rw (Hrest n); [by rw handle_store|]. done.
  - rw (Hrest n); [by rw handle_store|]. done.
  - set_solver.
Qed.
Lemma running_chart ss (p : Page) k name :
  Running ss p -> numbered !! k = Some name ->
  exists c, charts (echart (dash p)) !! k = Some c /\ c = window (axis calendar reading) (points k ss) /\
    length c = 1800%nat.
Proof.
  intros [_ [Hl Hw] _ _ _ _] Hk. destruct (lookup_lt_is_Some_2 (charts (echart (dash p))) k) as [c Hc].
  { rw Hl. apply lookup_lt_Some in Hk. done. }
  exists c. split; [done|]. rw (Hw k c Hc). split; [done|]. by rw window_length axis_length.
Qed.

(** C29.  The dashboard while it is shown, for any sequence of answers, of which
    the first is the one about the cluster, of seconds, choices of minutes and of
    charts, and changes of the size: nothing throws; there is exactly one
    interval; every second answer is a sample.  Each of the nine charts, hidden or not, has its own title,
    unit and labels and the ticks of the minutes chosen; the points kept for it
    are 1800, the last of half an hour of zeros followed by its samples in order.
    A sample gives it the newest of these points, 60 for each of the minutes
    chosen; no other event changes the points it shows, so that a choice of
    minutes moves the ticks at once and the points with the next sample.  When
    the answer about the memory is the first, the listener throws, and neither
    charts nor summary change.  Once the charts are taken off the page, the
    interval is cleared, but the listeners for the size remain and throw. *)
Theorem charts_drawn log :
  clusterFirst log -> Unmount ∉ log ->
  let p0 := componentDidMount calendar reading in
  let p := (run calendar log p0).1 in
  (run calendar log p0).2 = false /\
  (exists i, timer p = Some i /\ armed (timers p) = [(i, 1000)]) /\
  Z.of_nat (length (eventSamples log p0)) = Z.of_nat (replies log) / 2 /\
  (forall k name, numbered !! k = Some name ->
     (exists pts, shows (echart (dash p)) k pts (chartAt (canvas p) name)) /\
     (exists c, charts (echart (dash p)) !! k = Some c /\
        c = window (axis calendar reading) (points k (eventSamples log p0)) /\ length c = 1800%nat) /\
     forall e, clusterFirst (log ++ [e]) -> e <> Unmount ->
       let p' := (handle calendar e p).1 in
       if sampling e p then
         exists c newest, charts (echart (dash p')) !! k = Some c /\ drawn p' name = Some newest /\
           Z.of_nat (length newest) = 60 * step (echart (dash p')) /\ exists older, c = (older ++ newest)%list
       else drawn p' name = drawn p name) /\
  (forall now m, (handle calendar (Reply now (Memory m)) p0).2 = true /\
     canvas (handle calendar (Reply now (Memory m)) p0).1 = canvas p0 /\
     overview (dash (handle calendar (Reply now (Memory m)) p0).1) = overview (dash p0)) /\
  let gone := (handle calendar Unmount p).1 in
  armed (timers gone) = [] /\ (handle calendar Resize gone).2 = true.
Proof.
  intros Hc Hu p0 p. pose proof mounted_running as Hr0. fold p0 in Hr0.
  destruct (run_running log [] p0 Hr0 Hu (or_intror Hc)) as [Ht Hr]. fold p in Hr.
  split; [done|]. split; [destruct (r_timer _ _ Hr) as (i & Hi & Ha & _); by exists i|]. split.
  { rw (samples_half log [] p0 0 Hr0 Hu (or_intror Hc)); [done|]. change (Z.of_nat 0 / 2) with 0. by rw Z.sub_0_r. }
  split; [|split].
  - intros k name Hk. split; [by apply (r_drawn _ _ Hr k name)|]. split; [by apply (running_chart _ _ k name Hr)|].
    intros e He Hne p'. destruct (after_event e _ p Hr Hne) as (_ & Hr' & Hd).
    { intros now a ->. eapply answered_line; [|done]. by apply answered_run; right. }
    fold p' in Hr', Hd. specialize (Hd k name Hk). destruct (sampling e p); [|done].
    destruct (running_chart _ _ k name Hr' Hk) as (c & Hck & _ & Hlen). rw Hck in Hd.
    exists c, (shown (echart (dash p')) c). split; [done|split; [done|]]. by apply shown_newest; [apply Hr'|].
  - done.
  - cbn [handle fst]. rw (r_mounted _ _ Hr). destruct (r_timer _ _ Hr) as (i & Hi & Ha & _).
    unfold componentWillUnmount. cbn [timers resizers]. split; [rw Hi; cbn; rw Ha; cbn; by rw Nat.eqb_refl|].
    rw (r_resizers _ _ Hr). done.
Qed.
End Run.
End Facts.

(** A library of charts that merges options and nothing else. *)
Definition refCharts : Echarts (option ChartOption) :=
  {| fresh := None; setOption := fun o c => Some (merge o (default noOption c)); getOption := id; resizeChart := id |}.
Lemma refCharts_laws : @EchartsLaws (option ChartOption) refCharts.
Proof. by split. Qed.

Definition exampleLine : LineData :=
  {| reservedMemory := of_Z 1; runningQueries := of_Z 2; queuedQueries := of_Z 0; blockedQueries := of_Z 0;
     activeWorkers := of_Z 3; runningDrivers := of_Z 4; totalInputBytes := of_Z 5; totalCpuTimeSecs := of_Z 6;
     totalMemory := of_Z 7; processCpuLoad := of_Z 0; systemCpuLoad := of_Z 1 |}.
Definition exampleLog : list Event :=
  [Tick 1; Reply (fun _ => 1000) (Cluster exampleLine); Select 2; Choose []; Reply (fun _ => 1001) (Memory []); Resize].

Lemma charts_drawn_witness :
  clusterFirst exampleLog /\ Unmount ∉ exampleLog /\
  let p0 := @componentDidMount _ refCharts (fun _ => {| fullYear := 2021; month := 0; date := 1; hours := 0; minutes := 0; seconds := 0 |}) (fun _ => 0) in
  Z.of_nat (length (@eventSamples _ refCharts (fun _ => {| fullYear := 2021; month := 0; date := 1; hours := 0; minutes := 0; seconds := 0 |}) exampleLog p0)) = 1.
Proof.
  assert (Unmount ∉ exampleLog) as Hu by (unfold exampleLog; set_solver).
  split; [exact I|split; [exact Hu|]].
  apply (@charts_drawn _ refCharts refCharts_laws _ (fun _ => 0) exampleLog I Hu).
Defined.

(** ** The page of the nodes (NodesMain.jsx)

    It asks for data by an interval of its own, for the first time after a
    second. *)
Module NodesMain.
Record Page := {
  n_store : Store; tableData : list NodeRow; n_timer : option nat; n_timers : Timers; listening : bool;
  n_sent : list Kind
}.

Definition lineDatas (p : Page) : Page :=
  let '(i, t) := setTimeout 1000 (n_timers p) in
  {| n_store := n_store p; tableData := tableData p; n_timer := Some i; n_timers := t; listening := listening p;
     n_sent := n_sent p |}.

Definition componentDidMount : Page :=
  lineDatas {| n_store := OverviewStore.constructor; tableData := []; n_timer := None; n_timers := no_timers;
               listening := true; n_sent := [] |}.

Definition componentWillUnmount (p : Page) : Page :=
  {| n_store := n_store p; tableData := tableData p; n_timer := n_timer p;
     n_timers := clearTimeout (n_timer p) (n_timers p); listening := false; n_sent := n_sent p |}.

Definition tick (id : nat) (p : Page) : Page :=
  if existsb (fun x => (x.1 =? id)%nat) (armed (n_timers p)) then
    {| n_store := n_store p; tableData := tableData p; n_timer := n_timer p; n_timers := n_timers p;
       listening := listening p; n_sent := (n_sent p ++ [ForCluster; ForMemory])%list |}
  else p.

Definition reply (a : Answer) (p : Page) : Page :=
  let st := received a (n_store p) in
  {| n_store := st; tableData := if listening p then nodesOnChange st else tableData p; n_timer := n_timer p;
     n_timers := n_timers p; listening := listening p; n_sent := n_sent p |}.

Inductive Event := Reply (a : Answer) | Tick (id : nat).
Definition handle (p : Page) (e : Event) : Page := match e with Reply a => reply a p | Tick id => tick id p end.

(** The rows are those of the answer about the memory that came last, whatever
    else is answered; there is one interval until the page is left, and none
    afterwards. *)
Definition memoryOf (e : Event) : option MemoryData := match e with Reply (Memory m) => Some m | _ => None end.

Lemma nodes_rows log :
  let p := fold_left handle log componentDidMount in
  tableData p = nodeRow <$> default [] (last (omap memoryOf log)) /\
  armed (n_timers p) = [(1%nat, 1000)] /\ n_timer p = Some 1%nat /\
  armed (n_timers (componentWillUnmount p)) = [].
Proof.
  assert (let p := fold_left handle log componentDidMount in
    tableData p = nodeRow <$> default [] (last (omap memoryOf log)) /\
    OverviewStore.memoryData (n_store p) = last (omap memoryOf log) /\
    listening p = true /\ armed (n_timers p) = [(1%nat, 1000)] /\ n_timer p = Some 1%nat) as (H1 & _ & _ & H2 & H3).
  { induction log as [|e log IH] using rev_ind; [done|]. cbv zeta in *. rw fold_left_app omap_app. cbn [fold_left].
    destruct IH as (H1 & H2 & H3 & H4 & H5). destruct e as [[d|m]|id]; cbn [handle omap list_omap memoryOf].
    - rw app_nil_r. cbn. rw H3. unfold nodesOnChange. cbn. by rw H2.
    - cbn. rw last_snoc H3. done.
    - rw app_nil_r. unfold tick. by case_match. }
  split; [done|split; [done|split; [done|]]]. cbn. rw H3. cbn. by rw H2.
Qed.
End NodesMain.
