(* ===== verification/AuditLogMarkup.v ===== *)
(** * The elements of the audit log

    What the render method of AuditLog.jsx returns, which filter each of its
    inputs changes, and the listeners of the page besides those of AuditLog.v. *)

From S2P Require Import Prelude JsString JsNumber Timers Stores Markup Panels ShellMarkup AuditLog AuditLogFacts.

(** ** Listeners *)

Section Listeners.
Context {T : Type} (name : T -> string).   (* a table of the store *)

(** Whether the run store polls and the two stores are listened to; [update] is
    called twice when the window changes: as [onResize], and by jQuery. *)
Record Frame := {
  dataPreview : option T; selectedTab : Z; connected : bool; listening : bool; resizers : nat
}.

Definition constructor (tabs : TabStore.t) : Frame :=
  {| dataPreview := None; selectedTab := TabStore.getSelectedTab tabs; connected := false; listening := false;
     resizers := 0 |}.

Definition componentDidMount (f : Frame) : Frame :=
  {| dataPreview := dataPreview f; selectedTab := selectedTab f; connected := true; listening := true; resizers := 2 |}.

Definition componentWillUnmount (f : Frame) : Frame :=
  {| dataPreview := dataPreview f; selectedTab := selectedTab f; connected := false; listening := false;
     resizers := resizers f |}.

Definition onChange (table : option T) (f : Frame) : Frame :=
  match table with
  | None => f
  | Some t =>
      if (match dataPreview f with Some old => streq (name t) (name old) | None => false end) then f
      else {| dataPreview := Some t; selectedTab := selectedTab f; connected := connected f; listening := listening f;
              resizers := resizers f |}
  end.

Definition onTabChange (tabs : TabStore.t) (f : Frame) : Frame :=
  {| dataPreview := dataPreview f; selectedTab := TabStore.getSelectedTab tabs; connected := connected f;
     listening := listening f; resizers := resizers f |}.
End Listeners.

(** No element calls [handleSortClick], whose constants are not imported. *)
Definition handleSortClick (sortType : string) : result unit := Throw (ErrorMsg "SORT_ORDER is not defined").

(** ** Elements *)

Definition userInput (s : LogPage) : Html :=
  if streq (user s) "admin" then
    el "input" ["type" =: "text"; cls "form-control form-control-auditlog search-bar"; "placeholder" =: "User";
                "name" =: "User"; "onChange" =>: "this.handleSearchStringChange";
                "value" =: searchStringUser (filters s)] []
  else
    el "input" ["type" =: "text"; cls "form-control form-control-auditlog search-bar"; "placeholder" =: "User";
                "name" =: "User"; "onChange" =>: "this.handleSearchStringChange"; "value" =: user s;
                "readOnly" =: "readOnly"] [].

Definition dateInput (s : LogPage) : Html :=
  el "input" ["type" =: "text"; "id" =: "date-picker"; cls "form-control form-control-auditlog search-bar";
              "placeholder" =: "Date"; "name" =: "Date"; "onFocus" =>: "this.renderDateRangePicker";
              "onChange" =>: "this.handleSearchStringChange"; "value" =: searchStringDate s] [].

Definition levelSelect (s : LogPage) : Html :=
  el "select" ["id" =: "loglevel"; cls "selectpicker"; "data-style" =: "select";
               "onChange" =>: "this.handleSearchStringChange"; "value" =: searchStringLogLevel (filters s);
               "name" =: "LogLevel"]
    [el "option" [] [txt "INFO "]; el "option" [] [txt "WARN "]].

Definition typeSelect (s : LogPage) : Html :=
  el "select" ["id" =: "audittype"; cls "selectpicker"; "data-style" =: "select";
               "onChange" =>: "this.handleSearchStringChange"; "value" =: searchStringType (filters s);
               "name" =: "AuditType"]
    [el "option" ["value" =: "Sql"] [txt "Sql"]; el "option" ["value" =: "WebUi"] [txt "WebUI"];
     el "option" ["value" =: "Cluster"] [txt "Cluster"]].

Definition noAuditLog : Html :=
  el "div" [cls "row error-message"] [el "div" [cls "col-xs-12"] [el "h4" [] [txt "No Audit Log"]]].

Definition logRow (line : option string) : Html := el "div" [cls "auditlog-row"] [opt line].

(** The message stands for [{}], which an answer without lines is not. *)
Definition logText (s : LogPage) : Html :=
  match auditlog s with
  | None => noAuditLog
  | Some lines => concat (logRow <$> renderAuditLog lines (currentPage s) (Z.to_nat (pageSize s)))
  end.

Definition downloadLink (s : LogPage) : Html :=
  el "a" ["href" =: downloadHref (filters s); "target" =: "_blank"; cls "btn"]
    [txt " Download "; el "i" [cls "icon fa fa-download"] []; txt " "].

(** The pager is a component of a package: its properties are kept. *)
Definition logPager (s : LogPage) : Html :=
  el "Pagination" ["defaultCurrent" =: "1"; "current" =: show_Z (currentPage s); "total" =: show_Z (total s);
                   "defaultPageSize" =: "20"; "pageSize" =: show_Z (pageSize s); "onChange" =>: "this.onPageChange";
                   "showTotal" =: "Total " ++ show_Z (total s) ++ " "; style [("marginTop", "10")];
                   "locale" =: "en_US"; "showSizeChanger" =: "true"; "onShowSizeChange" =>: "this.onPageSizeChange";
                   "selectComponentClass" =: "Select"] [].

Definition toolbar (s : LogPage) : Html :=
  el "div" [cls "col-xs-12 toolbar-audit"]
    [el "div" [cls "input-group-audit"] [userInput s; dateInput s; levelSelect s; typeSelect s; downloadLink s]].

Definition render (header : Panels.Header.t) (statusFooter : Html) (s : LogPage) : Html :=
  el "div" []
    [el "div" [cls "flex flex-row flex-initial header"] [Header.render header];
     el "div" [cls "flex flex-row content"]
       [NavigationMenu.render "auditlog";
        el "div" [cls "container"]
          [el "div" [cls "log toolbar-log"]
             [toolbar s;
              el "div" [cls "col-xs-12 auditlog-text"] [logText s]];
           logPager s]];
     el "div" [cls "flex flex-row flex-initial statusFooter"] [statusFooter];
     el "div" [cls "flex flex-row flex-initial footer"] [Footer.render]].

(** ** Changes of the inputs

    [event.target] is the input; of a select element the handler reads the option
    chosen off the document. *)

(** The value of an option: its attribute, or its text without the spaces around
    it. *)
Definition optionValue (n : Node) : string := default (trim (textContent n)) (attribute "value" n).

Definition optionsOf (id : string) (h : Html) : list string :=
  from_option (fun n => optionValue <$> List.filter (hasTag "option") (children n)) [] (byId id h).

Definition fieldOf (name : string) : Field :=
  if streq name "User" then FUser else if streq name "Date" then FDate
  else if streq name "LogLevel" then FLogLevel else if streq name "AuditType" then FAuditType else FOther.

(** The names of the inputs with the handler. *)
Definition inputNames (h : Html) : list string :=
  omap (attribute "name")
    (List.filter (fun n => match handler "onChange" n with Some c => streq c "this.handleSearchStringChange" | None => false end)
       (allElements h)).

(** Text is typed in, or the [i]-th option chosen. *)
Definition typed (name value : string) (w : World) : World := handleSearchStringChange (fieldOf name) value w.
Definition chosen (header : Panels.Header.t) (statusFooter : Html) (name id : string) (i : nat) (w : World) : option World :=
  (fun value => handleSearchStringChange (fieldOf name) value w) <$>
  optionsOf id (render header statusFooter (page w)) !! i.

(** ** What the page shows *)

Section Page.
Context (header : Panels.Header.t) (statusFooter : Html) (Hfooter : wellFormed "div" statusFooter = true).

Lemma audit_page s : wellFormed "div" (render header statusFooter s) = true.
Proof using Hfooter.
  unfold render, toolbar, userInput, dateInput, levelSelect, typeSelect, downloadLink, logText, noAuditLog, logPager.
  destruct (auditlog s); markup. apply wf_map. intros line. unfold logRow. markup.
Qed.

(** The options the select elements offer, in the order of the menus. *)
Lemma options_offered s :
  optionsOf "loglevel" (render header statusFooter s) = ["INFO"; "WARN"] /\
  optionsOf "audittype" (render header statusFooter s) = ["Sql"; "WebUi"; "Cluster"].
Proof using.
  unfold optionsOf, render, toolbar, userInput.
  destruct (streq (user s) "admin"); split; reflexivity.
Qed.

(** The inputs the handler is attached to. *)
Lemma input_names s : inputNames (toolbar s) = ["User"; "Date"; "LogLevel"; "AuditType"].
Proof using. unfold inputNames, toolbar, userInput. destruct (streq (user s) "admin"); reflexivity. Qed.

Lemma inputs_known s : Forall (fun n => fieldOf n <> FOther) (inputNames (toolbar s)).
Proof using. rw input_names. repeat constructor; done. Qed.

(** An option that is chosen is the one the element shows afterwards, on the first
    page, and the search is due. *)
Lemma option_chosen i (w w' : World) :
  (chosen header statusFooter "LogLevel" "loglevel" i w = Some w' ->
     ["INFO"; "WARN"] !! i = attribute "value" (hd (Text "") (levelSelect (page w'))) /\
     currentPage (page w') = 1 /\ debounced w' = true) /\
  (chosen header statusFooter "AuditType" "audittype" i w = Some w' ->
     ["Sql"; "WebUi"; "Cluster"] !! i = attribute "value" (hd (Text "") (typeSelect (page w'))) /\
     currentPage (page w') = 1 /\ debounced w' = true).
Proof using.
  unfold chosen. destruct (options_offered (page w)) as [-> ->].
  split; (destruct (_ !! i) as [value|]; [|done]); by intros [= <-].
Qed.

(** What is typed as a name is what the field shows, for an administrator; for
    others the field shows their own name and cannot be changed. *)
Lemma user_typed value (w : World) :
  let s := page (typed "User" value w) in
  searchStringUser (filters s) = value /\
  attribute "value" (hd (Text "") (userInput s)) = Some (userShown s) /\
  attribute "readOnly" (hd (Text "") (userInput s)) = (if streq (user s) "admin" then None else Some "readOnly").
Proof using. cbv zeta. split; [done|]. unfold userInput, userShown. by destruct (streq _ _). Qed.

(** The text of the log: the message before the first answer only, so that an
    answer without lines shows empty rows; then one row for each line of the
    page.  The link asks for the filters the request would ask for. *)
Theorem audit_text s :
  (logText s = noAuditLog <-> auditlog s = None) /\
  (forall lines, auditlog s = Some lines ->
     textContent <$> logText s = default "" <$> renderAuditLog lines (currentPage s) (Z.to_nat (pageSize s))) /\
  (auditlog s = Some [] -> Forall (fun row => textContent row = "") (logText s) /\ length (logText s) = Z.to_nat (pageSize s)) /\
  attributesOf "href" (downloadLink s) = [downloadHref (filters s)].
Proof using.
  assert (forall rows, textContent <$> concat (logRow <$> rows) = default "" <$> rows) as Htext.
  { induction rows as [|row rows IH]; [done|]. cbn [fmap list_fmap concat]. rw -IH. by destruct row. }
  assert (forall rows, length (concat (logRow <$> rows)) = length rows) as Hlen.
  { induction rows as [|row rows IH]; [done|]. cbn. by rw IH. }
  split; [|split; [|split]].
  - unfold logText. destruct (auditlog s) as [lines|]; [|done]. split; [|done]. intros He. exfalso.
    assert (Forall (fun n => attribute "className" n = Some "auditlog-row")
              (concat (logRow <$> renderAuditLog lines (currentPage s) (Z.to_nat (pageSize s))))) as Hall.
    { generalize (renderAuditLog lines (currentPage s) (Z.to_nat (pageSize s))). intros rows.
      induction rows as [|row rows IH]; [constructor|]. by constructor. }
    rw He in Hall. by inversion Hall.
  - intros lines Hl. unfold logText. by rw Hl Htext.
  - intros Hl. unfold logText. rw Hl. split.
    + assert (Forall (fun row => row = None) (renderAuditLog [] (currentPage s) (Z.to_nat (pageSize s)))) as Hn.
      { unfold renderAuditLog. apply Forall_fmap, Forall_true. intros k. cbn. by destruct (_ <? 0). }
      revert Hn. generalize (renderAuditLog [] (currentPage s) (Z.to_nat (pageSize s))). intros rows Hn.
      induction Hn as [|row rows -> _ IH]; [constructor|]. by constructor.
    + rw Hlen. unfold renderAuditLog. by rw length_fmap length_seq.
  - done.
Qed.

(** The handler of a new size keeps the number of the page, which may then lie
    behind the log, all of whose rows are empty, until the pager reports the page
    by onPageChange. *)
Lemma size_keeps_page size (w : World) lines :
  auditlog (page w) = Some lines -> 1 <= currentPage (page w) -> 0 <= size ->
  Z.of_nat (length lines) <= (currentPage (page w) - 1) * size ->
  let s := page (onPageSizeChange size w) in
  currentPage s = currentPage (page w) /\ Forall (fun row => textContent row = "") (logText s) /\
  forall current, let s' := page (onPageChange current (onPageSizeChange size w)) in
    currentPage s' = current /\ pageSize s' = size.
Proof using.
  intros Hl Hp Hs Hlen. cbv zeta. split; [done|]. split; [|done]. unfold logText. cbn [auditlog onPageSizeChange deferRefresh page withPage withPaging].
  rw Hl. cbn [currentPage pageSize]. apply Forall_forall. intros row Hrow.
  apply list_elem_of_In, in_concat in Hrow as (h & Hh%list_elem_of_In & Hrow%list_elem_of_In).
  apply list_elem_of_fmap in Hh as (line & -> & Hline). apply list_elem_of_singleton in Hrow as ->.
  unfold renderAuditLog in Hline. apply list_elem_of_fmap in Hline as (k & -> & Hk).
  cbn [withPaging currentPage pageSize]. rw Z2Nat.id //. destruct (Z.ltb_spec ((currentPage (page w) - 1) * size + Z.of_nat k) 0); [done|].
  rw lookup_ge_None_2; [lia|done].
Qed.
End Page.
