(* ===== verification/RunTablesMarkup.v ===== *)
(** * The elements of the tables of the query editor

    What RunsTable.jsx, CollectionTable.jsx, MySavedQueries.jsx, ProgressBar.jsx,
    AllRunningQueries.jsx and MyCollection.jsx return, and what their buttons do. *)

From S2P Require Import Prelude JsString Markup JsNumber Http RunStore RunTables RunTablesFacts ShellMarkup Tables.

(** ** ProgressBar.jsx *)

Module ProgressBar.
Definition render (progress : num) : Html :=
  let width := ("width", to_string (math_round progress) ++ "%") in
  el "div" [cls "col-xs-12 query-progress-container"; style [("width", "120px"); ("padding", "0px")]]
    [el "div" [cls "progress"]
       [el "div" [cls "progress-bar progress-bar-info"; "role" =: "progressbar";
                  "aria-valuenow" =: to_string (math_round progress); "aria-valuemin" =: "0"; "aria-valuemax" =: "100";
                  style [width; ("backgroundColor", "#19874e")]]
          [txt (progressText progress)]]].
End ProgressBar.

(** ** RunsTable.jsx *)

Module CellRenderers.
Definition user (cellData : string) : Html := el "span" ["title" =: cellData] [txt cellData].

Definition context (c : SessionContext) : Html := el "span" ["title" =: contextTitle c] [txt (contextText c)].

Definition query (query : string) : Html :=
  el "a" ["href" =: "#"; "onClick" =>: "selectQuery " ++ query] [el "code" ["title" =: query] [txt query]].

Definition status (run : Run) : Html :=
  let link := statusLink run in
  let '(label, text) := statusLabel run in
  let span :=
    el "span" [cls ("label " ++ label); style [("minWidth", "61px")]]
      [el "a" ["href" =: link; "target" =: "_blank"] [txt text]] in
  if streq (state run) RunStateConstants.FAILED then
    el "span" []
      [span;
       el "a" ["href" =: "#";
               "title" =: "Queries may fail or be cancelled if they exceed configured resources limits.This includes limits on memory consumption and result file size"]
         [el "i" [cls "fa fa-info"; style [("top", "3px"); ("color", "#d5534f"); ("marginLeft", "5px")]] []]]
  else span.

Definition output (currentUser : option string) (run : Run) : Html :=
  match outputCell currentUser run with
  | Download location _ _ =>
      el "div" []
        [el "a" ["href" =: location; "target" =: "_blank"; cls "btn"]
           [txt "Download CSV"; el "i" [cls "glyphicon glyphicon-download"] []];
         el "a" ["href" =: "#"; "onClick" =>: "previewQueryResult " ++ location; cls "btn"] [txt "Preview Results"]]
  | TableLink location =>
      el "a" ["href" =: "#"; "onClick" =>: "selectTable " ++ location]
        [el "code" ["title" =: location] [txt location]]
  | Progress progress kill =>
      el "div" [cls ("runs-table-progress" ++ match kill with Some _ => " runs-table-progress-killable" | None => "" end)]
        [ProgressBar.render progress;
         match kill with
         | Some uuid =>
             el "span" [cls "glyphicon glyphicon-remove text-danger"; "title" =: "Kill query";
                        "onClick" =>: "killRun " ++ uuid] []
         | None => []
         end]
  | QueryError message =>
      el "div" [] [el "button" [cls "btn btn-error"; "onClick" =>: "toggleModal " ++ message] [txt "Query ERROR"]]
  | Nothing => []
  end.

(** react-moment prints the time in the browser's zone. *)
Definition started (cellData : string) : Html := el "Moment" ["utc" =: "true"; "local" =: "true"] [txt cellData].

Definition collect (descIndex : Z) : Html :=
  el "span" []
    [el "button" [cls "collection-btn"; "onClick" =>: "handleCollection " ++ show_Z descIndex]
       [el "i" [cls "icon-center fa fa-plus icon"] [];
        el "i" [cls "icon-center fa fa-star icon"] []]].
End CellRenderers.

Module RunsTablePage.
Definition renderErrorDialogFooter : Html :=
  el "div" [cls "catalog-btn-part"]
    [el "button" [cls "btn btn-success active"; style [("padding", "6px 12px"); ("color", "#ffffff")];
                  "onClick" =>: "toggleModal null"]
       [txt "Close"]].

Definition renderModalDialog (s : RunsTable) : Html :=
  if negb (showModal s) then []
  else
    ModalDialog.render (showModal s) (el "div" [style [("color", "#ff0000")]] [txt "Query Error"])
      renderErrorDialogFooter
      [el "div" [style [("backgroundColor", "#f5f5f5"); ("border", "1px solid #ccc"); ("borderRadius", "4px");
                        ("color", "#333"); ("padding", "15px"); ("margin", "30px"); ("maxHeight", "300px");
                        ("overflow", "auto")]]
         [opt (currentErrorMessage s)]].

Definition renderEmptyMessage : Html := el "p" [cls "info panel-body text-light text-center"] [txt "No queries to show"].

(** [columnGetter]: the row is undefined past the end, and its fields throw, as
    do those of a context that is missing. *)
Definition columnGetter (currentUser : option string) (s : RunsTable) (key : string) (rowIndex : nat) : result Html :=
  row ← member (rowGetter rowIndex s).2 id;
  if streq "context" key then c ← member (sessionContext row) id; Ok (CellRenderers.context c)
  else
  Ok (if streq "user" key then CellRenderers.user (user row)
      else if streq "query" key then CellRenderers.query (query row)
      else if streq "status" key then CellRenderers.status row
      else if streq "started" key then CellRenderers.started (queryStarted row)
      else if streq "duration" key then opt (elapsedTime <$> queryStats row)
      else if streq "output" key then CellRenderers.output currentUser row
      else if streq "collect" key then CellRenderers.collect (descIndex (runs s) rowIndex)
      else []).

Definition table (currentUser : option string) (width height : num) (s : RunsTable) : DataTable :=
  let column title key width :=
    {| header := title; cellOf := fun rowIndex => Cell <$> columnGetter currentUser s key rowIndex;
       columnWidth := Some width |} in
  {| rows := length (runs s);
     columns :=
       [column "User" "user" 90; column "Context" "context" 150; column "Query" "query" 460;
        column "Status" "status" 90; column "Started" "started" 180; column "Duration" "duration" 80;
        column "Output" "output" 150; column "Collect" "collect" 120];
     tableWidth := width; tableHeight := height |}.

(** A message, or the dialog and the table. *)
Definition render (currentUser : option string) (width height : num) (s : RunsTable) : Html + Html * DataTable :=
  if (length (runs s) =? 0)%nat then inl renderEmptyMessage
  else inr (renderModalDialog s, table currentUser width height s).
End RunsTablePage.

(** AllRunningQueries.jsx: the table of all users' runs. *)
Module AllRunningQueries.
Definition render := RunsTablePage.render.
End AllRunningQueries.

(** ** CollectionTable.jsx *)

Module CollectionTablePage.
Definition renderQuery (row : Collected) : Html := CellRenderers.query (c_query row).

Definition deleteButton (rowIndex : nat) : Html :=
  el "button" [cls "collection-btn"; "id" =: show_nat rowIndex; "onClick" =>: "handleDeleteButton"]
    [el "i" [cls "icon icon-center fa fa-trash-o"] []].

Definition rowAt (s : CollectionTable) (rowIndex : nat) : result Collected :=
  rows ← member (allCollection s) id; member (rows !! rowIndex) id.

(** The heading and the width of a column, and its cells. *)
Definition table (user : string) (width height : num) (s : CollectionTable) : DataTable :=
  {| rows := Z.to_nat (rowsCount s);
     columns :=
       [{| header := "User"; cellOf := fun _ => Ok (el "Cell" [] [txt " "; txt user; txt " "]); columnWidth := Some 150 |};
        {| header := "Context";
           cellOf := fun rowIndex =>
             row ← rowAt s rowIndex;
             Ok (el "Cell" [] [txt " "; txt (c_catalog row); txt "."; txt (c_schemata row)]);
           columnWidth := Some 200 |};
        {| header := "Query";
           cellOf := fun rowIndex => row ← rowAt s rowIndex; Ok (el "Cell" [] [txt " "; renderQuery row; txt " "]);
           columnWidth := Some 800 |};
        {| header := "Delete"; cellOf := fun rowIndex => Ok (el "Cell" [] [deleteButton rowIndex]); columnWidth := Some 100 |}];
     tableWidth := width; tableHeight := height |}.

Definition pager (s : CollectionTable) : Html :=
  el "Pagination" ["defaultCurrent" =: "1"; "current" =: show_Z (currentPage s); "total" =: show_Z (total s);
                   "defaultPageSize" =: "10"; "pageSize" =: show_Z (pageSize s); "onChange" =>: "onPageChange";
                   "showTotal" =: "Total " ++ show_Z (total s) ++ " queries"; style [("marginTop", "10")];
                   "showSizeChanger" =: "true"; "onShowSizeChange" =>: "onPageSizeChange";
                   "selectComponentClass" =: "Select"] [].

(** A message, or the table and the pager. *)
Definition render (user : string) (width height : num) (s : CollectionTable) : Html + DataTable * Html :=
  match allCollection s with
  | None => inl RunsTablePage.renderEmptyMessage
  | Some _ => inr (table user width height s, pager s)
  end.

(** A click: [e.target.id] is the identifier of the element that was hit. *)
Definition targetId (target : Node) : option nat := indexIn "id" target.

Definition click (call : string) (target : Node) (s : CollectionTable) : result (option Effect) :=
  if streq call "handleDeleteButton" then Some <$> handleDeleteButton (targetId target) s else Ok None.
End CollectionTablePage.

(** MyCollection.jsx *)
Module MyCollection.
Definition render := CollectionTablePage.render.
End MyCollection.

(** ** MySavedQueries.jsx *)

Module MySavedQueries.
Record SavedQuery := {
  saved_uuid : string;
  saved_name : string;
  saved_description : string;
  queryWithPlaceholders : string;        (* its field query *)
  featured : bool
}.

Definition deleteButton (query : SavedQuery) : Html :=
  el "Button" ["size" =: "sm"; "onClick" =>: "_deleteQuery " ++ saved_uuid query] [txt "Delete"].

Definition renderQuery (maxQueryLines : option Z) (query : SavedQuery) : Html :=
  let queryText := queryWithPlaceholders query in
  el "div" ["key" =: saved_uuid query; cls "saved-container"]
    [el "div" [] [el "h4" [] [txt (saved_name query)]; el "p" [] [txt (saved_description query)]];
     el "div" [cls "clearfix"]
       [el "pre" ["onClick" =>: "_onSelectQuery " ++ queryText;
                  style [("height", show_Z (boxHeight maxQueryLines queryText))]]
          [el "code" [] [txt queryText]];
        el "ButtonToolbar" [cls "pull-right"]
          [when (negb (featured query)) (deleteButton query);
           el "Button" [cls "btn btn-success active"; "size" =: "sm"; "variant" =: "success";
                        "onClick" =>: "_runQuery " ++ queryText]
             [txt "Run"]]]].

Definition renderEmptyMessage : Html :=
  el "div" [cls "row"] [el "div" [cls "col-md-12 text-center"] [txt "No sample queries"]].

Definition renderChildren (maxQueryLines : option Z) (queries : list SavedQuery) : Html :=
  if (length queries =? 0)%nat then renderEmptyMessage else concat (renderQuery maxQueryLines <$> queries).

Definition render (maxQueryLines : option Z) (queries : list SavedQuery) : Html :=
  el "div" [cls "panel-body"] [el "div" [] [renderChildren maxQueryLines queries]].
End MySavedQueries.

(** ** What the tables offer *)

Section Runs.
Context (currentUser : option string) (width height : num) (s : RunsTable).

Notation drawn := (drawRows (RunsTablePage.table currentUser width height s)).

(** The cells of the row of a run that has a context. *)
Definition runRow (rowIndex : nat) (run : Run) : Html :=
  concat (Cell <$>
    [CellRenderers.user (user run); from_option CellRenderers.context [] (sessionContext run); CellRenderers.query (query run);
     CellRenderers.status run; CellRenderers.started (queryStarted run); opt (elapsedTime <$> queryStats run);
     CellRenderers.output currentUser run; CellRenderers.collect (descIndex (runs s) rowIndex)]).

Lemma drawRow_run rowIndex :
  drawRow (RunsTablePage.table currentUser width height s) rowIndex =
  (run ← member (runAt (runs s) rowIndex) id; _ ← member (sessionContext run) id; Ok (runRow rowIndex run)).
Proof.
  unfold drawRow, RunsTablePage.table, RunsTablePage.columnGetter, runRow. cbn.
  destruct (runAt (runs s) rowIndex) as [run|]; [|done]. cbn. by destruct (sessionContext run).
Qed.

Lemma runAt_lookup (rs : list Run) i : (i < length rs)%nat -> runAt rs i = reverse rs !! i.
Proof.
  intros Hi. unfold runAt, descIndex. destruct (Z.ltb_spec (Z.of_nat (length rs) - Z.of_nat i - 1) 0); [lia|].
  rw (_ : Z.to_nat _ = length rs - S i)%nat; [lia|]. by rw reverse_lookup.
Qed.

(** The rows can be drawn if all runs have a context, the newest run first. *)
Definition contexts_known : Prop := Forall (fun run => is_Some (sessionContext run)) (runs s).

Lemma runs_drawn : contexts_known -> drawn = Ok (imap runRow (reverse (runs s))).
Proof.
  intros Hc. unfold drawRows. apply mapM_result_spec, Forall2_same_length_lookup.
  rw length_seq length_imap length_reverse. split; [done|]. intros i j h [-> Hi]%lookup_seq.
  rw list_lookup_imap drawRow_run /= runAt_lookup //. intros Hl.
  destruct (reverse (runs s) !! i) as [run|] eqn:Hr; [|done]. cbn in Hl |- *. injection Hl as <-.
  assert (is_Some (sessionContext run)) as [c ->]; [|done].
  unfold contexts_known in Hc. rw Forall_forall in Hc. apply Hc. rw -elem_of_reverse. by eapply list_elem_of_lookup_2.
Qed.

Lemma runs_not_drawn hs : drawn = Ok hs -> contexts_known.
Proof.
  intros Hd%mapM_result_spec. apply Forall_forall. intros run Hr. rw -elem_of_reverse in Hr.
  apply list_elem_of_lookup in Hr as [i Hi]. pose proof (lookup_lt_Some _ _ _ Hi) as Hlt. rw length_reverse in Hlt.
  destruct (Forall2_lookup_l _ _ _ i i Hd) as (h & _ & Hh); [by apply lookup_seq|].
  rw drawRow_run runAt_lookup // Hi in Hh. cbn in Hh. by destruct (sessionContext run).
Qed.

(** The run of the current user that is under way and has no result yet. *)
Definition killable (run : Run) : bool :=
  bool_decide (currentUser = Some (user run)) &&
  bool_decide (state run ∈ ["RUNNING"; "QUEUED"; "RESCHEDULING"; "RESUMING"]) &&
  bool_decide (default "" (default None (output run)) = "").

(** The run has a result that can be fetched. *)
Definition downloadable (run : Run) : option string :=
  let location := default "" (default None (output run)) in
  if negb (streq location "") && negb (streq (state run) "FAILED") && isAddress location then Some location else None.

Lemma output_handlers run :
  handlersOn "onClick" (CellRenderers.output currentUser run) =
  match outputCell currentUser run with
  | Download location _ _ => ["previewQueryResult " ++ location]
  | TableLink location => ["selectTable " ++ location]
  | Progress _ (Some uuid) => ["killRun " ++ uuid]
  | QueryError message => ["toggleModal " ++ message]
  | _ => []
  end.
Proof. unfold CellRenderers.output. by destruct (outputCell currentUser run) as [| |progress [|]| |]. Qed.

Lemma under_way run :
  bool_decide (state run ∈ ["RUNNING"; "QUEUED"; "RESCHEDULING"; "RESUMING"]) =
  streq (state run) "RUNNING" || streq (state run) "QUEUED" || streq (state run) "RESCHEDULING" ||
  streq (state run) "RESUMING".
Proof.
  apply eq_bool_prop_intro. rw bool_decide_spec !orb_True !elem_of_cons elem_of_nil. unfold streq.
  rw !Is_true_true !String.eqb_eq. tauto.
Qed.

Lemma output_calls run :
  omap (argumentOf "killRun") (handlersOn "onClick" (CellRenderers.output currentUser run)) =
    (if killable run then [uuid run] else []) /\
  omap (argumentOf "previewQueryResult") (handlersOn "onClick" (CellRenderers.output currentUser run)) =
    option_list (downloadable run).
Proof.
  rw output_handlers. unfold killable, downloadable, outputCell. rw under_way.
  set (location := default "" (default None (output run))).
  change RunStateConstants.FAILED with "FAILED". change RunStateConstants.QUEUED with "QUEUED".
  change RunStateConstants.RESCHEDULING with "RESCHEDULING". change RunStateConstants.RESUMING with "RESUMING".
  destruct (streq_spec location "") as [Hl|Hl]; cbn [negb andb].
  - rw Hl. destruct (_ || _); [|by rw andb_false_r; destruct (streq _ _)].
    rw andb_true_r (bool_decide_eq_true_2 ("" = "")) // andb_true_r. case_bool_decide; [|done].
    cbn [omap list_omap]. by rw (argument_own "killRun").
  - rw (bool_decide_eq_false_2 _ Hl) andb_false_r. destruct (streq_spec (state run) "FAILED") as [->|Hf]; cbn [negb andb].
    + by case_bool_decide.
    + destruct (isAddress location); [|done]. cbn [omap list_omap]. by rw (argument_own "previewQueryResult").
Qed.

Lemma row_calls rowIndex run :
  handlersOn "onClick" (runRow rowIndex run) =
  (("selectQuery " ++ query run)%string :: handlersOn "onClick" (CellRenderers.output currentUser run) ++
   [("handleCollection " ++ show_Z (descIndex (runs s) rowIndex))%string])%list.
Proof.
  unfold runRow, Cell. assert (handlersOn "onClick" (CellRenderers.status run) = []) as Hs.
  { unfold CellRenderers.status. destruct (statusLabel run) as [label text]. destruct (streq _ _); reflexivity. }
  unfold CellRenderers.user, CellRenderers.context, CellRenderers.query, CellRenderers.started, CellRenderers.collect.
  destruct (sessionContext run); cbn [fmap list_fmap from_option]; collects; by rw ?Hs.
Qed.

(** The arguments a method is bound to, over all rows. *)
Definition offeredIn (method : string) (hs : list Html) : list string := flat_map (offered "onClick" method) hs.

Lemma row_offers method rowIndex run :
  offered "onClick" method (runRow rowIndex run) =
  (option_list (argumentOf method ("selectQuery " ++ query run)) ++
   omap (argumentOf method) (handlersOn "onClick" (CellRenderers.output currentUser run)) ++
   option_list (argumentOf method ("handleCollection " ++ show_Z (descIndex (runs s) rowIndex))))%list.
Proof.
  unfold offered. rw row_calls. cbn [omap list_omap]. rw omap_app. cbn [omap list_omap].
  by destruct (argumentOf method ("selectQuery " ++ query run)), (argumentOf method ("handleCollection " ++ _)).
Qed.

(** The calls the output cell offers are none of [method]. *)
Lemma output_other method run :
  (forall v, argumentOf method ("killRun " ++ v) = None) -> (forall v, argumentOf method ("previewQueryResult " ++ v) = None) ->
  (forall v, argumentOf method ("selectTable " ++ v) = None) -> (forall v, argumentOf method ("toggleModal " ++ v) = None) ->
  omap (argumentOf method) (handlersOn "onClick" (CellRenderers.output currentUser run)) = [].
Proof.
  intros Hk Hp Ht Hm. rw output_handlers. destruct (outputCell currentUser run) as [| |progress [|]| |]; cbn [omap list_omap];
    by rw ?Hk ?Hp ?Ht ?Hm.
Qed.

(** C39.  The table can be drawn exactly if every run has its context, which one
    that was not yet executed may lack.  It has one row for each run, the newest
    on top.  A run can be
    killed from its row exactly if it is the current user's, under way and without
    a result, by the run's own identifier; results are offered of exactly the runs
    that have one at an address and have not failed; and the buttons that select
    and collect a query are bound to the run of their row. *)
Theorem run_buttons :
  (contexts_known <-> exists hs, drawn = Ok hs) /\
  (forall hs, drawn = Ok hs ->
    length hs = length (runs s) /\
    offeredIn "killRun" hs = uuid <$> List.filter killable (reverse (runs s)) /\
    offeredIn "previewQueryResult" hs = omap downloadable (reverse (runs s)) /\
    offeredIn "selectQuery" hs = query <$> reverse (runs s) /\
    offeredIn "handleCollection" hs = (fun i => show_Z (descIndex (runs s) i)) <$> seq 0 (length (runs s)) /\
    forall i, (i < length (runs s))%nat -> runs s !! Z.to_nat (descIndex (runs s) i) = reverse (runs s) !! i).
Proof.
  split; [split; [intros Hc; eexists; by apply runs_drawn|intros [hs Hd]; by eapply runs_not_drawn]|].
  intros hs Hd. pose proof (runs_drawn (runs_not_drawn hs Hd)) as He. rw Hd in He. injection He as ->. clear Hd.
  split; [by rw length_imap length_reverse|].
  unfold offeredIn. split; [|split; [|split; [|split]]].
  - rw -flat_map_when. apply flat_map_imap. intros i run. rw row_offers (proj1 (output_calls run)). apply app_nil_r.
  - rw -flat_map_option. apply flat_map_imap. intros i run. rw row_offers (proj2 (output_calls run)). apply app_nil_r.
  - rw -flat_map_one. apply flat_map_imap. intros i run. rw row_offers output_other //. by rw (argument_own "selectQuery").
  - rw -(length_reverse (runs s)). apply flat_map_index. intros i run. rw row_offers output_other //.
    by rw (argument_own "handleCollection").
  - intros i Hi. rw -runAt_lookup // /runAt. destruct (Z.ltb_spec (descIndex (runs s) i) 0); [unfold descIndex in *; lia|done].
Qed.
End Runs.

(** The run of another user, and one that was not executed yet. *)
Definition exampleRun (context : option SessionContext) : Run :=
  {| uuid := "1"; user := "bob"; state := "QUEUED"; query := "select 1"; sessionContext := context;
     infoUri := None; queryStarted := ""; queryStats := None; output := None; error := None |}.
Definition exampleContext : SessionContext := {| catalog := "hive"; schema := "default"; properties := [] |}.

Lemma run_buttons_witness :
  (exists hs, drawRows (RunsTablePage.table (Some "ann") (of_Z 800) (of_Z 400)
                 (initialRuns [exampleRun (Some exampleContext)])) = Ok hs /\
     offeredIn "killRun" hs = [] /\ offeredIn "selectQuery" hs = ["select 1"]) /\
  ~ exists hs, drawRows (RunsTablePage.table (Some "ann") (of_Z 800) (of_Z 400)
                 (initialRuns [exampleRun (Some exampleContext); exampleRun None])) = Ok hs.
Proof.
  destruct (run_buttons (Some "ann") (of_Z 800) (of_Z 400) (initialRuns [exampleRun (Some exampleContext)]))
    as [[H1 _] H2]. split.
  - destruct H1 as [hs Hd]; [constructor; [by eexists|constructor]|]. exists hs. split; [done|].
    destruct (H2 hs Hd) as (_ & Hk & _ & Hs & _). rw Hk Hs. by split.
  - destruct (run_buttons (Some "ann") (of_Z 800) (of_Z 400)
      (initialRuns [exampleRun (Some exampleContext); exampleRun None])) as [[_ H3] _].
    intros He. apply H3 in He. unfold contexts_known in He. cbn in He. apply Forall_cons in He as [_ He].
    apply Forall_cons in He as [[c Hc] _]. discriminate.
Defined.

(** ** The collection *)

(** The table draws its rows whenever the rows it announces are there. *)
Lemma collection_drawn user width height s rows :
  allCollection s = Some rows ->
  (exists hs, drawRows (CollectionTablePage.table user width height s) = Ok hs) <->
  (exists cells, renderCollection s = Ok cells).
Proof.
  intros Hs. unfold renderCollection, drawRows. rw Hs. cbn [CollectionTablePage.table Tables.rows].
  assert (forall i, (exists h, drawRow (CollectionTablePage.table user width height s) i = Ok h) <->
                    exists c, collectionCells i s = Ok c) as Hi.
  { intros i. unfold drawRow, collectionCells, CollectionTablePage.table, CollectionTablePage.rowAt. cbn. rw Hs. cbn.
    destruct (rows !! i); cbn; [by split; eexists|by split; intros []]. }
  induction (seq 0 (Z.to_nat (rowsCount s))) as [|i l IH]; [by split; eexists|]. cbn [mapM_result]. specialize (Hi i).
  destruct (drawRow _ i) as [h|], (collectionCells i s) as [c|]; cbn [mbind result_bind].
  - destruct (mapM_result _ l), (mapM_result _ l); cbn; split; intros [? ?]; try done; try (by eexists);
      [destruct (proj1 IH)|destruct (proj2 IH)]; by [eexists|].
  - by destruct (proj1 Hi) as [? ?]; [eexists|].
  - by destruct (proj2 Hi) as [? ?]; [eexists|].
  - by split; intros [].
Qed.

(** The delete button of a row of the collection asks the server to delete the
    query of that row if the click falls on the button itself; if it falls on the
    icon that fills it, the icon has no identifier, the row is looked up under no
    index, and the handler throws. *)
Theorem collection_delete s rows i row :
  allCollection s = Some rows -> rows !! i = Some row ->
  (fun '(call, target) => CollectionTablePage.click call target s) <$>
    triggers "onClick" (CollectionTablePage.deleteButton i) =
  [Ok (Some (Send (CollectionActions.deleteCollection (c_query row) (c_catalog row) (c_schemata row))));
   Throw TypeError].
Proof.
  intros Hs Hi. unfold CollectionTablePage.click, handleDeleteButton, CollectionTablePage.targetId, indexIn.
  cbn -[show_nat read_digits]. rw read_show Hs. cbn. by rw Hi.
Qed.

Lemma collection_delete_witness :
  let row := {| c_query := "select 1"; c_catalog := "hive"; c_schemata := "default" |} in
  let s := onCollection (Some [row]) 1 initialCollection in
  (fun '(call, target) => CollectionTablePage.click call target s) <$>
    triggers "onClick" (CollectionTablePage.deleteButton 0) =
  [Ok (Some (Send (CollectionActions.deleteCollection "select 1" "hive" "default"))); Throw TypeError].
Proof. intros row s. by apply (collection_delete s [row] 0 row). Defined.

(** ** Saved queries *)

Lemma saved_calls lines (q : MySavedQueries.SavedQuery) :
  handlersOn "onClick" (MySavedQueries.renderQuery lines q) =
  (("_onSelectQuery " ++ MySavedQueries.queryWithPlaceholders q)%string ::
   (if MySavedQueries.featured q then [] else [("_deleteQuery " ++ MySavedQueries.saved_uuid q)%string]) ++
   [("_runQuery " ++ MySavedQueries.queryWithPlaceholders q)%string])%list.
Proof.
  unfold MySavedQueries.renderQuery, MySavedQueries.deleteButton. cbv zeta. destruct (MySavedQueries.featured q); reflexivity.
Qed.

Lemma saved_handlers lines queries :
  handlersOn "onClick" (MySavedQueries.render lines queries) =
  flat_map (fun q => handlersOn "onClick" (MySavedQueries.renderQuery lines q)) queries.
Proof.
  unfold MySavedQueries.render, MySavedQueries.renderChildren. destruct queries as [|q queries]; [reflexivity|].
  cbn [length Nat.eqb]. generalize (q :: queries). intros l. collects.
  induction l as [|x l IH]; [done|]. cbn [fmap list_fmap flat_map]. by rw -IH.
Qed.

(** Every saved query can be selected and run; those that are not samples can be
    deleted. *)
Lemma saved_queries lines queries :
  let page := MySavedQueries.render lines queries in
  offered "onClick" "_runQuery" page = MySavedQueries.queryWithPlaceholders <$> queries /\
  offered "onClick" "_onSelectQuery" page = MySavedQueries.queryWithPlaceholders <$> queries /\
  offered "onClick" "_deleteQuery" page =
    MySavedQueries.saved_uuid <$> List.filter (fun q => negb (MySavedQueries.featured q)) queries.
Proof.
  cbv zeta. unfold offered. rw saved_handlers. induction queries as [|q queries (IH1 & IH2 & IH3)]; [done|].
  cbn [flat_map fmap list_fmap List.filter]. rw !saved_calls !omap_app IH1 IH2 IH3.
  destruct (MySavedQueries.featured q); cbn [app omap list_omap negb];
    by rw (argument_own "_runQuery") (argument_own "_onSelectQuery") ?(argument_own "_deleteQuery").
Qed.
