(* ===== verification/PanelsMarkup.v ===== *)
(** * The elements of the panels around the query editor

    What ResultsTable.jsx, DataPreview.jsx, ColumnsPreview.jsx, Column.jsx,
    ShowCatalog.jsx, QueryInformation.jsx and LeftPanel.jsx return. *)

From S2P Require Import Prelude JsString Markup JsNumber JsMap Fqn RunStore Tables Panels PanelsFacts.

(** ** Tables of rows

    The cells of a preview are strings. *)

(** [getColumns], of ResultsTable and of DataPreview. *)
Definition gridColumns (g : Grid string) : list TableColumn :=
  imap (fun i '(name, width) =>
          {| header := name;
             cellOf := fun rowIndex =>
               value ← cell i rowIndex g; Ok (el "Cell" [cls "text-overflow-ellipsis"] [opt value]);
             columnWidth := width |})
    (getColumns g).

Definition gridTable (g : Grid string) (rows : list (list string)) (width height : num) : DataTable :=
  {| Tables.rows := length rows; Tables.columns := gridColumns g; Tables.tableWidth := width; Tables.tableHeight := height |}.

Module ResultsTablePage.
Section Page.
Context (total : Grid string -> Z).

Definition _renderEmptyMessage : Html :=
  el "div" [cls "panel-body text-light text-center"] [el "p" [] [txt "Please make a query."]].

(** The link with the text of the query, above the table. *)
Definition editorMenu (width : num) (query : string) : Html :=
  el "div" [cls "editor-menu"]
    [el "div" [style [("width", to_string (sub width (of_Z 20)))]; cls "text-overflow-ellipsis"]
       [el "a" ["href" =: "#"; "onClick" =>: "selectQuery"] [txt query]]].

Definition pager (currentPage total pageSize : Z) : Html :=
  el "Pagination" ["defaultCurrent" =: "1"; "current" =: show_Z currentPage; "total" =: show_Z total;
                   "defaultPageSize" =: "10"; "pageSize" =: show_Z pageSize; "onChange" =>: "onPageChange";
                   "showTotal" =: "Total " ++ show_Z total ++ " results"; style [("marginTop", "10")];
                   "locale" =: "en_US"; "showSizeChanger" =: "true"; "onShowSizeChange" =>: "onPageChange";
                   "selectComponentClass" =: "Select"] [].

(** The message, or the parts of the page: the query (its field query, which must
    be there), the table and the pager.  The message that is made for an empty
    result is not returned. *)
Definition render (width height : num) (s : ResultsTable.t (Grid string) (option string)) :
    result (Html + Html * DataTable * Html) :=
  match ResultsTable.table s with
  | Some g =>
      match data g with
      | Some rows =>
          query ← member (ResultsTable.query s) id;
          Ok (inr (editorMenu width (default "" query), gridTable g rows width (sub height (of_Z 90)),
                   pager (ResultsTable.currentPage s) (total g) (ResultsTable.pageSize s)))
      | None => Ok (inl _renderEmptyMessage)
      end
  | None => Ok (inl _renderEmptyMessage)
  end.
End Page.
End ResultsTablePage.

Module DataPreview.
Definition _renderEmptyMessage : Html :=
  el "div" [cls "panel-body text-light text-center"] [el "p" [] [txt "Please select a table."]].

(** The name of the table, and the table. *)
Definition render (width height : num) (table : option (string * Grid string)) : Html + Html * DataTable :=
  match table with
  | Some (name, g) =>
      match data g with
      | Some rows =>
          inr (el "div" [cls "editor-menu"] [el "strong" [] [txt name]],
               gridTable g rows width (sub height (of_Z 39)))
      | None => inl _renderEmptyMessage
      end
  | None => inl _renderEmptyMessage
  end.
End DataPreview.

(** ** ColumnsPreview.jsx, Column.jsx *)

Module ColumnLine.
(** Column.jsx; the heading of the list is a column too. *)
Definition render (heading : bool) (name type : string) (partition : bool) : Html :=
  el "div" []
    [el "div" [cls "flex justify-flex-end column-item"]
       [el "div" [cls "flex"] [el "strong" [] [txt name]];
        el "div" []
          [if heading then el "strong" [] [txt type]
           else el "small" [] [txt type; txt " "; when partition (txt "(Partition)")]]]].
End ColumnLine.

Module ColumnsPreviewPage.
Definition _renderEmptyMessage : Html :=
  el "div" [cls "flex justify-center text-light panel-body text-center"] [el "p" [] [txt "Please select a table."]].

Definition column (c : Column) : Html := ColumnLine.render false (name c) (type c) (partition c).

(** A line of columns. *)
Definition colRow (i : nat) (cols : list Column) : Html :=
  el "div" ["key" =: "col-row-" ++ show_nat i] [concat (column <$> cols)].

Definition _renderColumns (sortByName : list Column -> list Column) (name : string) (cols : list Column) : Html :=
  let heading := ColumnLine.render true "Column Name" "Data Type" false in
  let columns := imap colRow (ColumnsPreview.renderColumns sortByName cols) in
  el "div" [cls "flex flex-column columns-container panel-body content"]
    [el "div" [cls "columns-label"]
       [el "span" []
          [txt "Catalog : ";
           opt (Fqn.catalog (Some name));
           el "br" [] [];
           txt "Schema : ";
           opt (Fqn.simpleSchema (Some name));
           el "br" [] [];
           txt "Table : ";
           opt (Fqn.table (Some name))]];
     el "div" [style [("fontSize", "14px"); ("fontWeight", "500"); ("color", "#020202");
                      ("borderBottom", "2px solid #d6d9dc")]]
       [heading];
     el "div" [cls "scroll-container"] [concat columns]].

(** The table that is selected: its name, and its columns once they are there. *)
Definition render (sortByName : list Column -> list Column) (table : option (string * option (list Column))) : Html :=
  match table with
  | Some (name, Some cols) => _renderColumns sortByName name cols
  | _ => _renderEmptyMessage
  end.
End ColumnsPreviewPage.

(** ** ShowCatalog.jsx *)

Module ShowCatalogPage.
Definition property '((item, value) : string * string) : Html :=
  el "Row" [style [("display", "flex"); ("alignItems", "center")]]
    [el "Col" [style [("flexDirection", "column"); ("marginRight", "10px"); ("width", "70%")]]
       [el "FormControl" ["name" =: "name"; "type" =: "text"; "placeholder" =: "property name"; "value" =: item;
                          "readOnly" =: "true"] []];
     el "Col" [style [("flexDirection", "column"); ("width", "100%")]]
       [el "FormControl" ["name" =: "value"; "type" =: "text"; "placeholder" =: "property value"; "value" =: value;
                          "readOnly" =: "true"] []]].

Definition renderCatalogProperties (obj : jsmap string string) : list Html := property <$> obj.

Definition propertiesRow (catalogProperties : jsmap string string) : Html :=
  el "Row" []
    [el "Col" [style [("display", "flex"); ("alignItems", "center")]]
       [el "FormLabel" [cls "hetu-form-label"] [txt "Catalog Properties"]];
     el "Col" [] [el "div" [style [("display", "block")]] [concat (renderCatalogProperties catalogProperties)]]].

Definition render (s : ShowCatalog.t) : Html :=
  let showMap := ShowCatalog._objToStrMap (ShowCatalog.showObj s) in
  let catalogProperties := ShowCatalog.deleteMapKey showMap "connector.name" in
  let connector := match map_get "connector.name" showMap with Some v => ["value" =: v] | None => [] end in
  el "div" []
    [el "div" [cls "hetu-foem-body";
               style [("position", "relative"); ("paddingLeft", "20px"); ("paddingRight", "20px"); ("overflowY", "auto")]]
       [el "Form" []
          [el "FormGroup" []
             [el "Row" []
                [el "Col" [style [("display", "flex"); ("alignItems", "center")]]
                   [el "FormLabel" [cls "hetu-form-label"] [txt "Data Source Type"]];
                 el "Col" []
                   [el "div" [style [("display", "block")]]
                      [el "input" ([cls "form-control"] ++ connector ++ ["readOnly" =: "true"]) []]]];
              el "Row" []
                [el "Col" [style [("display", "flex"); ("alignItems", "center")]]
                   [el "FormLabel" [cls "hetu-form-label"] [txt "Catalog Name"]];
                 el "Col" []
                   [el "div" [style [("display", "block")]]
                      [el "input" [cls "form-control"; "value" =: ShowCatalog.catalog_name s; "disabled" =: "true"] []]]];
              if (length catalogProperties =? 0)%nat then [] else propertiesRow catalogProperties]]];
     el "div" [cls "catalog-btn-part"] [el "Button" ["onClick" =>: "handleClose"; cls "btn btn-lg"] [txt "Close"]]].
End ShowCatalogPage.

(** ** QueryInformation.jsx, LeftPanel.jsx: the tabs, of react-tabs *)

Module QueryInformationPage.
Definition panel (content : Html) : Html :=
  el "TabPanel" [style [("height", "calc(70vh - 200px)"); ("overflowY", "auto")]] [content].

Definition render {T} (s : QueryInformation.t T)
    (savedQueries allRunningQueries resultsTable dataPreview myCollection : Html) : Html :=
  el "div" ["ref" =: "QueryInformationRef"; cls "flex flex-column query-information"]
    [el "Tabs" [cls "flex"; "onSelect" =>: "onTabSelect"; "selectedIndex" =: show_Z (QueryInformation.selectedTab s)]
       [el "TabList" []
          [el "Tab" [] [txt "Sample Queries"];
           el "Tab" [] [txt "All Queries"];
           el "Tab" [] [txt "Results"];
           el "Tab" [] [txt "Data Preview"];
           el "Tab" [] [txt "My Collection"]];
        panel savedQueries;
        panel allRunningQueries;
        panel resultsTable;
        panel dataPreview;
        panel myCollection]].
End QueryInformationPage.

Module LeftPanelPage.
Definition render (selectedTab : Z) (schemaTree columnsPreview : Html) : Html :=
  el "div" ["id" =: "leftpanel"]
    [el "Tabs" ["forceRenderTabPanel" =: "true"; cls "leftTabContainer"; "onSelect" =>: "onTabSelect";
                "selectedIndex" =: show_Z selectedTab]
       [el "TabList" [] [el "Tab" [] [txt "Schema"]; el "Tab" [] [txt "Columns"]];
        el "TabPanel" [] [schemaTree];
        el "TabPanel" [] [columnsPreview]]].
End LeftPanelPage.

(** ** Facts *)

(** A preview shows its data: each row of the data is drawn, a cell for each column. *)
Definition cellsOf (g : Grid string) (row : list string) : Html :=
  concat ((fun i => el "Cell" [cls "text-overflow-ellipsis"] [opt (row !! i)]) <$> seq 0 (length (columns g))).

Lemma mapM_imap {A B C} (f : nat -> A -> B) (k : B -> result C) (r : nat -> C) l :
  (forall i x, k (f i x) = Ok (r i)) -> mapM_result k (imap f l) = Ok (r <$> seq 0 (length l)).
Proof.
  intros Hk. apply mapM_result_spec, Forall2_same_length_lookup_2; [by rw length_fmap length_seq length_imap|].
  intros i b c Hb Hc. apply list_lookup_imap_Some in Hb as (x & _ & ->). rw list_lookup_fmap in Hc.
  rw Hk. f_equal. destruct (seq 0 (length l) !! i) as [j|] eqn:Hj; [|done].
  apply lookup_seq in Hj as [-> _]. by injection Hc.
Qed.

Lemma grid_drawn g rows width height :
  data g = Some rows -> drawRows (gridTable g rows width height) = Ok (cellsOf g <$> rows).
Proof.
  intros Hd. apply mapM_result_spec, Forall2_same_length_lookup_2; [by rw length_seq length_fmap|].
  intros i j h Hj Hh. apply lookup_seq in Hj as [-> Hi]. rw list_lookup_fmap in Hh. cbn in Hi, Hh.
  destruct (rows !! i) as [row|] eqn:Hr; [|done]. injection Hh as <-. unfold drawRow, gridTable, gridColumns.
  cbn [Tables.columns].
  assert (forall k, cell k i g = Ok (row !! k)) as Hcell by (intros k; unfold cell, rowGetter; rw Hd; cbn; by rw Hr).
  rw (mapM_imap _ _ (fun k => el "Cell" [cls "text-overflow-ellipsis"] [opt (row !! k)])).
  - intros k [title w]. cbn. by rw Hcell.
  - cbn. unfold cellsOf, getColumns. by rw length_imap.
Qed.

(** The tabs of the editor, and their panels, stand at the numbers the actions
    select them by. *)
Definition tabTitles : list string := ["Sample Queries"; "All Queries"; "Results"; "Data Preview"; "My Collection"].

Lemma tab_panels {T} (s : QueryInformation.t T) savedQueries allRunningQueries resultsTable dataPreview myCollection :
  let panels := [savedQueries; allRunningQueries; resultsTable; dataPreview; myCollection] in
  QueryInformationPage.render s savedQueries allRunningQueries resultsTable dataPreview myCollection =
    el "div" ["ref" =: "QueryInformationRef"; cls "flex flex-column query-information"]
      [el "Tabs" [cls "flex"; "onSelect" =>: "onTabSelect"; "selectedIndex" =: show_Z (QueryInformation.selectedTab s)]
         (el "TabList" [] ((fun title => el "Tab" [] [txt title]) <$> tabTitles) ::
          (QueryInformationPage.panel <$> panels))] /\
  (fun tab => (tabTitles !! Z.to_nat tab, panels !! Z.to_nat tab)) <$>
    [TabConstants.MY_SAVED_QUERIES; TabConstants.ALL_QUERIES; TabConstants.RESULTS_PREVIEW; TabConstants.DATA_PREVIEW] =
    [(Some "Sample Queries", Some savedQueries); (Some "All Queries", Some allRunningQueries);
     (Some "Results", Some resultsTable); (Some "Data Preview", Some dataPreview)].
Proof. split; reflexivity. Qed.

(** The dialog shows the connector, the catalog, and every other property with its
    value, once and in order. *)
Lemma catalog_shown s :
  NoDup (ShowCatalog.showObj s).*1 ->
  attributesOf "value" (ShowCatalogPage.render s) =
  (option_list (map_get "connector.name" (ShowCatalog.showObj s)) ++ [ShowCatalog.catalog_name s] ++
   flat_map (fun '(k, v) => [k; v])
     (List.filter (fun '(k, _) => negb (streq k "connector.name")) (ShowCatalog.showObj s)))%list.
Proof.
  intros Hnd. pose proof (showCatalog_properties _ Hnd) as [= H1 H2]. unfold ShowCatalogPage.render.
  rw H1 H2. clear. generalize (List.filter (fun '(k, _) => negb (streq k "connector.name")) (ShowCatalog.showObj s)).
  intros l. assert (flat_map (attributesOf "value") (ShowCatalogPage.renderCatalogProperties l) =
                    flat_map (fun '(k, v) => [k; v]) l) as Hl.
  { induction l as [|[k v] l IH]; [done|]. cbn [ShowCatalogPage.renderCatalogProperties fmap list_fmap flat_map].
    by rw -IH. }
  assert (attributesOf "value" (if (length l =? 0)%nat then [] else ShowCatalogPage.propertiesRow l) =
          flat_map (fun '(k, v) => [k; v]) l) as Hrow.
  { destruct l as [|x l]; [done|]. cbn [length Nat.eqb]. rw -Hl. unfold ShowCatalogPage.propertiesRow. by collects. }
  revert Hrow. generalize (if (length l =? 0)%nat then [] else ShowCatalogPage.propertiesRow l). intros row Hrow.
  destruct (map_get _ _) as [v|]; collects; by rw ?Hrow.
Qed.

(** Every column of the table has a line with its name and type, under a key of
    its own. *)
Lemma column_lines sortByName name cols :
  let h := ColumnsPreviewPage.render sortByName (Some (name, Some cols)) in
  attributesOf "key" h = (fun i => "col-row-" ++ show_nat i) <$> seq 0 (length (sortByName cols)) /\
  NoDup (attributesOf "key" h).
Proof.
  intros h. assert (attributesOf "key" h = (fun i => "col-row-" ++ show_nat i) <$> seq 0 (length (sortByName cols))) as Hk.
  { subst h. unfold ColumnsPreviewPage.render, ColumnsPreviewPage._renderColumns. rw renderColumns_lines.
    generalize (sortByName cols). intros l. unfold ColumnLine.render. collects. rw imap_fmap.
    apply (flat_map_index _ _ (fun i => "col-row-" ++ show_nat i)). intros i c. cbn [compose].
    unfold ColumnsPreviewPage.colRow, ColumnsPreviewPage.column, ColumnLine.render. cbn [fmap list_fmap].
    destruct (partition c); reflexivity. }
  split; [done|]. rw Hk. apply NoDup_fmap_2; [|apply NoDup_seq]. intros i j E.
  by apply (inj (String.append "col-row-")), (inj show_nat) in E.
Qed.

(** ** Nesting *)

Lemma wf_columnLine heading name type partition : wellFormed "div" (ColumnLine.render heading name type partition) = true.
Proof. unfold ColumnLine.render. destruct heading; markup. Qed.
#[export] Hint Resolve wf_columnLine : markup.

Lemma columns_page sortByName table : wellFormed "div" (ColumnsPreviewPage.render sortByName table) = true.
Proof.
  unfold ColumnsPreviewPage.render, ColumnsPreviewPage._renderEmptyMessage, ColumnsPreviewPage._renderColumns.
  destruct table as [[name [cols|]]|]; markup. apply Forall_forall. intros h (i & c & -> & _)%elem_of_lookup_imap.
  unfold ColumnsPreviewPage.colRow, ColumnsPreviewPage.column. markup.
Qed.

Lemma catalog_page s : wellFormed "div" (ShowCatalogPage.render s) = true.
Proof.
  unfold ShowCatalogPage.render, ShowCatalogPage.propertiesRow. markup. apply wf_map. intros [k v].
  unfold ShowCatalogPage.property. markup.
Qed.

Lemma tabs_page {T} (s : QueryInformation.t T) a b c d e :
  Forall (fun h => wellFormed "TabPanel" h = true) [a; b; c; d; e] ->
  wellFormed "div" (QueryInformationPage.render s a b c d e) = true.
Proof.
  rw !Forall_cons. intros (Ha & Hb & Hc & Hd & He & _). unfold QueryInformationPage.render, QueryInformationPage.panel. markup.
Qed.

Lemma leftPanel_page tab tree columns :
  wellFormed "TabPanel" tree = true -> wellFormed "TabPanel" columns = true ->
  wellFormed "div" (LeftPanelPage.render tab tree columns) = true.
Proof. intros Ht Hc. unfold LeftPanelPage.render. markup. Qed.
