(* ===== verification/EditorMarkup.v ===== *)
(** * The elements of the query editor, and its intervals

    What the render methods of QueryEditor.jsx return, which catalog the menus
    show, and the interval every rendering starts. *)

From S2P Require Import Prelude JsString Markup SchemaActions Timers RunStore Stores QueryEditor QueryEditorFacts ShellMarkup.

(** ** The tree *)

Definition flag (b : bool) : string := if b then "true" else "false".

Definition renderErrorDialogFooter : Html :=
  el "div" [cls "flex flex-row justify-flex-end btn-toolbar btn-group net-error-dialog"]
    [el "button" [cls "btn btn-error"] [el "a" ["href" =: "/"] [txt "Reload"]];
     el "button" [cls "btn"]
       [el "a" ["href" =: "#"; "onClick" =>: "closeErrorDialog"; style [("color", "#666")]] [txt "Continue"]]].

(** The dialog: its header and message as renderErrorInfo chooses them. *)
Definition errorInfo (e : Editor) : Html :=
  match renderErrorInfo e with
  | None => []
  | Some (header, message) =>
      ModalDialog.render (errorDialog e) (txt header) renderErrorDialogFooter
        [el "div" [style [("color", "#ffffff"); ("padding", "10px 20px")]]
           [el "h4" [style [("alignSelf", "center")]] [txt (getBriefErrorMessage e)];
            el "button" [cls ("hetu-error-dialog-collapsible " ++
                              (if detailsShown e then "hetu-error-dialog-collapsible-active" else ""));
                         "onClick" =>: "errorCollapseToggle"]
              [txt "Details:"];
            el "div" [cls "hetu-error-dialog-collapsible-content";
                      style [("display", if detailsShown e then "block" else "none")]]
              [el "pre" [] [opt message]]]]
  end.

(** A button of the bar; [disabled] while a run is being submitted. *)
Definition barButton (className handler title text : string) (disabled : bool) : Html :=
  el "button" [cls ("btn btn-success btn-sm " ++ className ++ " active");
               style [("marginRight", "35px"); ("marginLeft", "35px")]; "disabled" =: flag disabled;
               "onClick" =>: handler; "title" =: title]
    [txt text].

Definition menuOption (name : string) : Html := el "option" ["key" =: name; "value" =: name] [txt name].

Definition contextSelect (name value : string) (options : list string) : Html :=
  el "Form.Control" ["as" =: "select"; "name" =: name; "value" =: value; "onChange" =>: "handleContextChange";
                     style [("fontsize", "15px"); ("margin", "5px"); ("width", "100px")]]
    [concat (menuOption <$> options)].

Section Bar.
Context `{FindByName}.

Definition renderMenubar (adminUsers : list string) (loginUser : string) (w : World) : Html :=
  let e := editor w in
  let run := barButton "runBtn" "handleRun" "Submit query" "Run" (buttonState e) in
  let kill := barButton "killBtn" "killAllRun" "Kill all query" "Kill" (buttonState e) in
  let menus :=
    [el "Form.Label" [style [("marginTop", "10px"); ("maxHeight", "30px"); ("textAlign", "end")]] [txt "Catalog:"];
     contextSelect "catalog" (catalog (context w)) (catalogOptions e);
     el "Form.Label" [style [("position", "relative"); ("top", "10px"); ("maxHeight", "30px"); ("textAlign", "end")]]
       [txt "Schema:"];
     contextSelect "schema" (schema (context w)) (schemaOptions w)] in
  el "div" []
    [if isAdminLogin adminUsers loginUser
     then el "div" [style [("display", "flex")]] ([run; kill] ++ menus)
     else el "div" [style [("display", "flex")]] ([run] ++ menus)].

Definition aceEditor (e : Editor) : Html :=
  el "AceEditor" ["ref" =: "queryEditorRef"; "mode" =: "sql"; "theme" =: "eclipse"; "onLoad" =>: "onload";
                  "onChange" =>: "onChange"; "name" =: "editor"; "highlightActiveLine" =: "true";
                  ("editorProps", Style []); "width" =: "100%"; "height" =: "100%"; "defaultValue" =: query e;
                  "fontSize" =: "16"; "wrapEnabled" =: "true";
                  ("setOptions", Style [("enableBasicAutocompletion", "true"); ("enableLiveAutocompletion", "true");
                                        ("enableSnippets", "true"); ("showLineNumbers", "true"); ("tabSize", "2")])] [].

Definition render (adminUsers : list string) (loginUser : string) (w : World) : Html :=
  el "div" [cls "flex flex-initial flex-column"]
    [el "div" [cls "flex flex-row editor-menu"]
       [el "div" [cls "flex "] [renderMenubar adminUsers loginUser w; errorInfo (editor w)];
        el "div" [cls "flex justify-flex-end"] []];
     el "div" ["ref" =: "queryContainerRef"; cls "editor-container clearfix"]
       [el "div" [cls "editor"] [aceEditor (editor w)]]].
End Bar.

(** The administrators are asked for once; without an answer there are none. *)
Definition adminUsersUrl : string := "../authenticator/api/getAdminUsers".
Definition onAdminUsers (answer : option (list string)) (adminUsers : list string) : list string :=
  default adminUsers answer.

(** ** The interval of render

    Times in milliseconds.  [due] has, for every interval the page has started,
    when it next fires; none is ever cleared, also not when the page is left. *)

Definition PERIOD : Z := 10000.

Record Intervals := { now : Z; due : list Z; requests : nat }.

Definition notRendered : Intervals := {| now := 0; due := []; requests := 0 |}.

(** [setInterval(..., 10000)], in each call of render. *)
Definition onRender (s : Intervals) : Intervals :=
  {| now := now s; due := (due s ++ [now s + PERIOD])%list; requests := requests s |}.

(** A millisecond passes: the intervals that are due ask for the catalogs. *)
Definition tick (s : Intervals) : Intervals :=
  let now := now s + 1 in
  {| now := now;
     due := (fun d => if d =? now then now + PERIOD else d) <$> due s;
     requests := (requests s + length (List.filter (Z.eqb now) (due s)))%nat |}.

Inductive Happens := Rendered | Elapsed (ms : nat).

Definition happen (s : Intervals) (h : Happens) : Intervals :=
  match h with Rendered => onRender s | Elapsed ms => Nat.iter ms tick s end.
Definition history (hs : list Happens) : Intervals := fold_left happen hs notRendered.

Definition renderings (hs : list Happens) : nat :=
  length (List.filter (fun h => match h with Rendered => true | Elapsed _ => false end) hs).

(** How often an interval next due at [d] fires within [j] milliseconds. *)
Definition firings (s : Intervals) (j d : Z) : Z := (now s + j - d + PERIOD) / PERIOD.

Definition onTime (s : Intervals) : Prop := Forall (fun d => now s < d <= now s + PERIOD) (due s).

Lemma firings_step s j d :
  firings s (j + 1) d = firings s j d + (if d + PERIOD * firings s j d =? now s + j + 1 then 1 else 0).
Proof.
  unfold firings, PERIOD. set (x := now s + j - d + 10000). replace (now s + (j + 1) - d + 10000) with (x + 1) by lia.
  pose proof (Z.div_mod x 10000 ltac:(lia)). pose proof (Z.mod_pos_bound x 10000 ltac:(lia)).
  destruct (Z.eqb_spec (d + 10000 * (x / 10000)) (now s + j + 1)) as [E|E].
  - symmetry. apply (Z.div_unique _ _ _ 0); lia.
  - symmetry. apply (Z.div_unique _ _ _ (x mod 10000 + 1)); lia.
Qed.

Lemma firings_none s d : now s < d <= now s + PERIOD -> firings s 0 d = 0.
Proof. unfold firings, PERIOD. intros Hd. apply Z.div_small. lia. Qed.

Lemma ticks s j :
  onTime s ->
  let s' := Nat.iter j tick s in
  now s' = now s + Z.of_nat j /\
  due s' = (fun d => d + PERIOD * firings s (Z.of_nat j) d) <$> due s /\
  Z.of_nat (requests s') = Z.of_nat (requests s) + foldr (fun d n => firings s (Z.of_nat j) d + n) 0 (due s).
Proof.
  intros Hs. cbv zeta. induction j as [|j (IHn & IHd & IHr)].
  - cbn [Nat.iter nat_rect]. split; [lia|]. unfold onTime in Hs. split.
    + rw -{1}(list_fmap_id (due s)). apply list_fmap_ext. intros i d Hd%list_elem_of_lookup_2.
      rw firings_none; [by apply (proj1 (Forall_forall _ _) Hs)|]. unfold PERIOD, id. lia.
    + assert (foldr (fun d n => firings s (Z.of_nat 0) d + n) 0 (due s) = 0) as ->; [|lia].
      induction Hs as [|d l Hd _ IH]; [done|]. cbn [foldr]. rw IH. by rw firings_none.
  - cbn [Nat.iter nat_rect]. fold (Nat.iter j tick s). set (s1 := Nat.iter j tick s) in *.
    unfold tick. cbn [now due requests]. rw IHn IHd. split; [lia|].
    replace (Z.of_nat (S j)) with (Z.of_nat j + 1) by lia. split.
    + rw -list_fmap_compose. apply list_fmap_ext. intros _ d _. cbn [compose]. rw firings_step.
      destruct (Z.eqb_spec (d + PERIOD * firings s (Z.of_nat j) d) (now s + Z.of_nat j + 1)); unfold PERIOD in *; lia.
    + rw Nat2Z.inj_add IHr. clear. induction (due s) as [|d l IH]; [cbn; lia|].
      cbn [foldr fmap list_fmap List.filter]. rw firings_step.
      rw (Z.eqb_sym (now s + Z.of_nat j + 1) (d + PERIOD * firings s (Z.of_nat j) d)).
      destruct (Z.eqb _ _); cbn [length]; lia.
Qed.

Lemma ticks_on_time s j : onTime s -> onTime (Nat.iter j tick s).
Proof.
  intros Hs. destruct (ticks s j Hs) as (Hn & Hd & _). unfold onTime. rw Hn Hd. apply Forall_fmap.
  eapply Forall_impl; [exact Hs|]. intros d Hb. cbn. unfold firings, PERIOD in *.
  set (x := now s + Z.of_nat j - d + 10000).
  pose proof (Z.div_mod x 10000 ltac:(lia)). pose proof (Z.mod_pos_bound x 10000 ltac:(lia)). lia.
Qed.

Lemma history_intervals hs : onTime (history hs) /\ length (due (history hs)) = renderings hs.
Proof.
  unfold history. induction hs as [|h hs [IHt IHl]] using rev_ind; [split; [by constructor|done]|].
  rw fold_left_app. cbn [fold_left]. unfold renderings. rw List.filter_app length_app -/(renderings hs) -IHl.
  destruct h as [|ms]; cbn [happen List.filter length].
  - split; [|cbn; by rw length_app]. unfold onTime, onRender. cbn. apply Forall_app. split; [done|].
    constructor; [unfold PERIOD; lia|constructor].
  - split; [by apply ticks_on_time|]. destruct (ticks (fold_left happen hs notRendered) ms IHt) as (_ & -> & _).
    rw length_fmap. lia.
Qed.

(** C27.  Every rendering of the editor starts an interval of its own, and none
    ends: after [n] renderings, however they were spread over time, every further
    ten seconds ask the server for the catalogs [n] times, and that for ever. *)
Theorem renderings_leak hs k :
  length (due (history hs)) = renderings hs /\
  requests (happen (history hs) (Elapsed (k * Z.to_nat PERIOD))) = (requests (history hs) + k * renderings hs)%nat.
Proof.
  destruct (history_intervals hs) as [Ht Hl]. split; [done|]. cbn [happen].
  destruct (ticks (history hs) (k * Z.to_nat PERIOD) Ht) as (_ & _ & Hr). apply Nat2Z.inj. rw Hr -Hl.
  assert (forall d, now (history hs) < d <= now (history hs) + PERIOD ->
            firings (history hs) (Z.of_nat (k * Z.to_nat PERIOD)) d = Z.of_nat k) as Hf.
  { intros d Hd. unfold firings. rw Nat2Z.inj_mul. unfold PERIOD in *. change (Z.of_nat (Z.to_nat 10000)) with 10000.
    symmetry. apply (Z.div_unique _ _ _ (now (history hs) - d + 10000)); lia. }
  unfold onTime in Ht. revert Ht Hf. generalize (due (history hs)). intros l Ht Hf.
  assert (foldr (fun d n => firings (history hs) (Z.of_nat (k * Z.to_nat PERIOD)) d + n) 0 l = Z.of_nat (k * length l)) as ->.
  { induction Ht as [|d l Hd _ IH]; [cbn; lia|]. cbn [foldr length]. rw IH Hf //. lia. }
  lia.
Qed.

(** A page that is rendered twice, five seconds apart: in the next ten seconds it
    asks twice. *)
Example rendered_twice :
  requests (happen (history [Rendered; Elapsed 3; Rendered]) (Elapsed (1 * Z.to_nat PERIOD))) = 2%nat.
Proof. apply (renderings_leak [Rendered; Elapsed 3; Rendered] 1). Qed.

(** ** The bar *)

Section Menus.
Context `{FindByNameLaw}.

Lemma isAdminLogin_spec users u : isAdminLogin users u = bool_decide (u ∈ users).
Proof.
  unfold isAdminLogin. assert (forall b, fold_left (fun isAdminLogin user => if streq user u then true else isAdminLogin) users b =
                                 b || bool_decide (u ∈ users)) as ->; [|done].
  induction users as [|x users IH]; intros b; cbn [fold_left].
  - rw bool_decide_eq_false_2; [by intros ?%elem_of_nil|]. by rw orb_false_r.
  - rw IH. destruct (streq_spec x u) as [->|Hne].
    + symmetry. rw (bool_decide_eq_true_2 (u ∈ u :: users)); [by left|]. by rw orb_true_r.
    + f_equal. apply bool_decide_ext. rw elem_of_cons. naive_solver.
Qed.

(** Everybody can run a query; all runs can be killed by administrators only. *)
Lemma bar_buttons users u w :
  handlersOn "onClick" (renderMenubar users u w) =
  "handleRun" :: (if bool_decide (u ∈ users) then ["killAllRun"] else []).
Proof.
  unfold renderMenubar, barButton, contextSelect. rw isAdminLogin_spec. generalize (catalogOptions (editor w)).
  generalize (schemaOptions w). intros ss cs.
  assert (forall l, flat_map (collect (handler "onClick")) (menuOption <$> l) = []) as Ho.
  { intros l. induction l as [|x l IH]; [done|]. by cbn [fmap list_fmap flat_map]; rw IH. }
  case_bool_decide; cbn [app]; collects; by rw !Ho.
Qed.

(** The menus show the context of the next run: both of its names are among the
    options. *)
Definition menusShow (w : World) : Prop :=
  catalog (context w) ∈ catalogOptions (editor w) /\ schema (context w) ∈ schemaOptions w.

Lemma findCatalog_unique m (c : Catalog) :
  NoDup (c_name <$> m) -> c ∈ m -> findCatalog m (c_name c) = Some c.
Proof.
  intros Hnd Hc. unfold findCatalog. destruct (find_pos (c_name <$> m) (c_name c)) as [i|] eqn:Hp.
  - apply find_pos_some in Hp. apply list_elem_of_lookup in Hc as [j Hj].
    assert ((c_name <$> m) !! j = Some (c_name c)) as Hj' by (by rw list_lookup_fmap Hj).
    by rw (proj1 (NoDup_alt _) Hnd _ _ _ Hp Hj').
  - apply find_pos_none in Hp. destruct Hp. by apply list_elem_of_fmap_2.
Qed.

Lemma catalog_option m c :
  c ∈ c_name <$> List.filter (fun c => match c_children c with [] => false | _ => true end) m ->
  exists cat, cat ∈ m /\ c = c_name cat /\ c_children cat <> [].
Proof.
  intros (cat & -> & Hcat)%list_elem_of_fmap. apply list_elem_of_In, List.filter_In in Hcat as [Hin Hch].
  exists cat. split; [by apply list_elem_of_In|]. split; [done|]. by destruct (c_children cat).
Qed.

Lemma context_new c w :
  context (withEditor (setContext (newContext c w).1 (editor (newContext c w).2)) (newContext c w).2) = c.
Proof.
  unfold context, contextAt, newContext. cbn [fst snd editor withEditor setContext currentContext contexts].
  by rw list_lookup_middle.
Qed.

Lemma schemas_found (m : list Catalog) (cat : Catalog) s :
  NoDup (c_name <$> m) -> cat ∈ m -> c_children cat <> [] ->
  let picked := match find_pos (s_name <$> c_children cat) s with None => firstSchema cat | Some _ => s end in
  picked ∈ s_name <$> c_children cat.
Proof.
  intros Hnd Hc Hch. cbv zeta. destruct (find_pos _ s) as [i|] eqn:Hp.
  - apply find_pos_some in Hp. by apply list_elem_of_lookup_2 in Hp.
  - unfold firstSchema. destruct (c_children cat) as [|s0 ss]; [done|]. left.
Qed.

Section Shown.
Context (w : World) (cat : Catalog).
Hypotheses (Hnd : NoDup (c_name <$> model (editor w))) (Hin : cat ∈ model (editor w)) (Hch : c_children cat <> [])
  (Hcat : catalog (context w) = c_name cat).

Lemma schemaOptions_found : schemaOptions w = s_name <$> c_children cat.
Proof. unfold schemaOptions. by rw Hcat findCatalog_unique. Qed.

Lemma shows_schema : schema (context w) ∈ s_name <$> c_children cat -> menusShow w.
Proof.
  intros Hs. split; [|by rw schemaOptions_found]. rw Hcat. apply list_elem_of_fmap_2, list_elem_of_In, List.filter_In.
  split; [by apply list_elem_of_In|]. by destruct (c_children cat).
Qed.

Lemma pickSchema_context s :
  (currentContext (editor w) < length (contexts w))%nat ->
  context (pickSchema s w) =
    {| catalog := c_name cat;
       schema := match find_pos (s_name <$> c_children cat) s with None => firstSchema cat | Some _ => s end |} /\
  editor (pickSchema s w) = editor w.
Proof.
  intros Hlt. split; [|done]. unfold pickSchema. rw Hcat findCatalog_unique //.
  set (picked := match find_pos _ s with None => _ | Some _ => _ end). unfold context, contextAt, assignContext in *.
  cbn [editor contexts]. rw list_lookup_alter_eq. destruct (contexts w !! currentContext (editor w)) as [c|] eqn:Hc.
  - cbn. cbn in Hcat. by rw Hcat.
  - apply lookup_ge_None in Hc. lia.
Qed.
End Shown.

(** C37.  Once a catalog has been picked, the menus show where the next query will
    run: the catalog picked, and a schema of it, are among the options; and so they
    are after any schema is asked for, which leaves the catalog as it is and takes
    the schema if the catalog has it. *)
Theorem menus_show w c :
  storeModel w = model (editor w) -> NoDup (c_name <$> model (editor w)) -> c <> "" ->
  c ∈ catalogOptions (editor w) ->
  let w' := pickCatalog c w in
  catalog (context w') = c /\ menusShow w' /\
  forall s, let w2 := pickSchema s w' in
    catalog (context w2) = c /\ menusShow w2 /\ (s ∈ schemaOptions w' -> schema (context w2) = s).
Proof.
  intros Hst Hnd Hc Ho w'. apply catalog_option in Ho as (cat & Hin & -> & Hch).
  set (first := {| catalog := c_name cat; schema := firstSchema cat |}).
  assert (w' = withEditor (setContext (newContext first w).1 (editor (newContext first w).2)) (newContext first w).2) as Hw.
  { subst w'. unfold pickCatalog. destruct (streq_spec (c_name cat) ""); [done|]. by rw Hst (findCatalog_unique _ cat). }
  assert (context w' = first /\ model (editor w') = model (editor w) /\
          (currentContext (editor w') < length (contexts w'))%nat) as (Hctx & Hm & Hlt).
  { rw Hw. split; [apply context_new|]. split; [done|]. cbn. rw length_app. cbn. lia. }
  clearbody w'. clear Hw. rw -Hm in Hnd Hin. assert (catalog (context w') = c_name cat) as Hcat by (by rw Hctx).
  split; [done|]. split.
  - apply (shows_schema w' cat); try done. rw Hctx. cbn. unfold firstSchema. destruct (c_children cat); [done|left].
  - intros s. cbv zeta. destruct (pickSchema_context w' cat Hnd Hin Hcat s Hlt) as [Hs He].
    assert (catalog (context (pickSchema s w')) = c_name cat) as Hcat2 by (by rw Hs).
    split; [done|]. split.
    + apply (shows_schema _ cat); rw ?He; try done. rw Hs. by apply (schemas_found (model (editor w'))).
    + rw (schemaOptions_found w' cat) // Hs. cbn. intros Hin'.
      destruct (find_pos _ s) eqn:Hp; [done|]. by apply find_pos_none in Hp.
Qed.
End Menus.

Lemma menus_show_witness :
  let e := FindRef.find_ref in
  let catalogOf name := {| c_name := name; c_fqn := ""; c_children := [newSchema name "default"; newSchema name "web"] |} in
  let m := [catalogOf "hive"; catalogOf "tpch"] in
  let w := updateSchemas m (mount [] Stores.ResultsPreviewStore.constructor) in
  let w' := pickCatalog "tpch" w in
  ~ menusShow w /\ menusShow w' /\ schema (context (pickSchema "web" w')) = "web".
Proof.
  intros e catalogOf m w w'. split.
  - intros [Hc _]. vm_compute in Hc. repeat (apply elem_of_cons in Hc as [Hc|Hc]; [discriminate|]). inversion Hc.
  - destruct (@menus_show e FindRef.find_ref_law w "tpch") as (_ & H1 & H2).
    + reflexivity.
    + vm_compute. repeat constructor; intros Hx; repeat (apply elem_of_cons in Hx as [Hx|Hx]; [discriminate|]); inversion Hx.
    + discriminate.
    + vm_compute. right. left.
    + split; [exact H1|]. destruct (H2 "web") as (_ & _ & H3). apply H3. vm_compute. right. left.
Defined.

(** ** Nesting *)

Lemma wf_contextSelect name value options : wellFormed "div" (contextSelect name value options) = true.
Proof. unfold contextSelect, menuOption. markup. Qed.
#[export] Hint Resolve wf_contextSelect : markup.

Lemma wf_errorInfo e : wellFormed "div" (errorInfo e) = true.
Proof.
  unfold errorInfo. destruct (renderErrorInfo e) as [[header message]|]; [|done]. unfold renderErrorDialogFooter.
  apply wf_dialog; markup.
Qed.
#[export] Hint Resolve wf_errorInfo : markup.

Lemma query_editor_page `{FindByName} users u w : wellFormed "div" (EditorMarkup.render users u w) = true.
Proof.
  unfold EditorMarkup.render, renderMenubar, barButton, aceEditor. destruct (isAdminLogin users u); cbn [app]; markup.
Qed.
