(* ===== verification/ListMarkup.v ===== *)
(** * The elements of the query list and the query monitor

    What the render methods of QueryList.jsx and QueryMonitor.jsx return: the
    items of the queries, the menus of the filters and of the order, and the
    pages. *)

From S2P Require Import Prelude JsString JsNumber Utils NewUtils Markup Timers RefreshLoop QueryText ListPages ClusterPages ClusterMarkup PageHeader Panels ShellMarkup.

(** ** Queries

    The figures both pages show, and what each knows of a query: the monitor
    gets the server's summary of a query, in which the figures may be missing,
    the history a record of a table, in which they stand beside the rest. *)
Record Figures := {
  drivers : Utils.QueryStats;
  completedDrivers : num;
  queuedDrivers : num;
  executionTime : string;
  elapsedTime : string;
  totalCpuTime : string;
  totalMemoryReservation : string;
  peakTotalMemoryReservation : string;
  cumulativeUserMemory : num;
  createTime : Date                    (* as Date.parse reads it *)
}.

Record HistoryQuery := {
  info : Utils.Query;
  figures : Figures;
  h_queryId : string;
  h_user : string;
  h_source : option string;
  resource : option string;
  catalog : option string;
  schemata : option string;
  h_query : string
}.

Record MonitorQuery := {
  state : string;
  queryStats : option Figures;
  errorType : option string;
  errorCode : option ErrorCode;
  failed : option string;
  scheduled : bool;
  memoryPool : option string;
  m_queryId : string;
  self : string;
  m_user : string;
  principal : option string;
  m_source : option string;
  resourceGroupId : option (list string);
  m_query : string
}.

(** The fields the helpers of utils.js read. *)
Definition summary (query : MonitorQuery) : Utils.Query :=
  {| Utils.state := state query; Utils.queryStats := drivers <$> queryStats query; Utils.errorType := errorType query;
     Utils.errorCode := errorCode query; Utils.failed := failed query; Utils.scheduled := scheduled query;
     Utils.memoryPool := memoryPool query |}.

(** ** Items *)

Definition whileRunning (state : string) (n : num) : num :=
  if streq state "FINISHED" || streq state "FAILED" then of_Z 0 else n.

Definition splitDetails (state : string) (f : Figures) : Html :=
  el "div" [cls "col-xs-12 tinystat-row"]
    [el "span" [cls "tinystat"; "data-toggle" =: "tooltip"; "data-placement" =: "top";
                "title" =: "Completed splits"; "data-container" =: "body"]
       [el "span" [cls "glyphicon glyphicon-ok"; GLYPHICON_HIGHLIGHT] [];
        txt (nbsp ++ nbsp);
        num_child (completedDrivers f)];
     el "span" [cls "tinystat"; "data-toggle" =: "tooltip"; "data-placement" =: "top"; "title" =: "Running splits";
                "data-container" =: "body"]
       [el "span" [cls "glyphicon glyphicon-play"; GLYPHICON_HIGHLIGHT] [];
        txt (nbsp ++ nbsp);
        num_child (whileRunning state (Utils.runningDrivers (drivers f)))];
     el "span" [cls "tinystat"; "data-toggle" =: "tooltip"; "data-placement" =: "top"; "title" =: "Queued splits";
                "data-container" =: "body"]
       [el "span" [cls "glyphicon glyphicon-pause"; GLYPHICON_HIGHLIGHT] [];
        txt (nbsp ++ nbsp);
        num_child (whileRunning state (queuedDrivers f))]].

Definition timingDetails (f : Figures) : Html :=
  el "div" [cls "col-xs-12 tinystat-row"]
    [el "span" [cls "tinystat"; "data-toggle" =: "tooltip"; "data-placement" =: "top";
                "title" =: "Wall time spent executing the query (not including queued time)";
                "data-container" =: "body"]
       [el "span" [cls "glyphicon glyphicon-hourglass"; GLYPHICON_HIGHLIGHT] [];
        txt (nbsp ++ nbsp);
        txt (executionTime f)];
     el "span" [cls "tinystat"; "data-toggle" =: "tooltip"; "data-placement" =: "top";
                "title" =: "Total query wall time"; "data-container" =: "body"]
       [el "span" [cls "glyphicon glyphicon-time"; GLYPHICON_HIGHLIGHT] [];
        txt (nbsp ++ nbsp);
        txt (elapsedTime f)];
     el "span" [cls "tinystat"; "data-toggle" =: "tooltip"; "data-placement" =: "top";
                "title" =: "CPU time spent by this query"; "data-container" =: "body"]
       [el "span" [cls "glyphicon glyphicon-dashboard"; GLYPHICON_HIGHLIGHT] [];
        txt (nbsp ++ nbsp);
        txt (totalCpuTime f)]].

Definition memoryDetails (f : Figures) : Html :=
  el "div" [cls "col-xs-12 tinystat-row"]
    [el "span" [cls "tinystat"; "data-toggle" =: "tooltip"; "data-placement" =: "top";
                "title" =: "Current total reserved memory"; "data-container" =: "body"]
       [el "span" [cls "glyphicon glyphicon-scale"; GLYPHICON_HIGHLIGHT] [];
        txt (nbsp ++ nbsp);
        txt (totalMemoryReservation f)];
     el "span" [cls "tinystat"; "data-toggle" =: "tooltip"; "data-placement" =: "top";
                "title" =: "Peak total memory"; "data-container" =: "body"]
       [el "span" [cls "glyphicon glyphicon-fire"; GLYPHICON_HIGHLIGHT] [];
        txt (nbsp ++ nbsp);
        txt (peakTotalMemoryReservation f)];
     el "span" [cls "tinystat"; "data-toggle" =: "tooltip"; "data-placement" =: "top";
                "title" =: "Cumulative user memory"; "data-container" =: "body"]
       [el "span" [cls "glyphicon glyphicon-equalizer"; GLYPHICON_HIGHLIGHT] [];
        txt (nbsp ++ nbsp);
        txt (formatDataSizeBytes (div (cumulativeUserMemory f) (of_Z 1000)))]].

(** The link "Show More" and the dialog it opens and closes. *)
Definition showMore (modal : Html) : Html :=
  el "div" [cls "query-showmore"]
    [el "a" ["onClick" =>: "this.showModal"; style [("color", "#1E90FF"); ("cursor", "pointer")]]
       [el "span" [cls "glyphicon glyphicon-arrow-right"; style [("color", "#1E90FF")]] [];
        txt (nbsp ++ "Show More")];
     modal].

(** [truncateString(user, 35)] gets an element: it has no length, so it comes back
    as it is. *)
Module HistoryItem.
Definition userNode (query : HistoryQuery) : Html := el "span" [] [txt (h_user query)].

(** An empty resource counts as none. *)
Definition resourceGroup (query : HistoryQuery) : string :=
  match resource query with Some r => if streq r "" then "n/a" else r | None => "n/a" end.

Definition modal (show : bool) (title : string) (query : HistoryQuery) : Html :=
  ModalDialog.render show (txt title) []
    [el "div" [cls "modal-querytext"] [txt (QueryListItem.getAllQueryText (h_query query))]].

Definition renderWith (color title : string) (more : Html) (query : HistoryQuery) : Html :=
  let f := figures query in
  el "div" [cls "query"]
    [el "div" [cls "row"]
       [el "div" [cls "col-xs-4"]
          [el "div" [cls "row stat-row query-header query-header-queryid"]
             [el "div" [cls "col-xs-9"; "data-toggle" =: "tooltip"; "data-placement" =: "bottom";
                        "title" =: "Query ID"]
                [el "a" ["href" =: "../ui/query.html?history_" ++ h_queryId query; "target" =: "_blank"]
                   [txt (h_queryId query)]];
              el "div" [cls "col-xs-3 query-header-timestamp"; "data-toggle" =: "tooltip";
                        "data-placement" =: "bottom"; "title" =: "Submit time"]
                [el "span" [] [txt (formatShortTime (createTime f))]]];
           el "div" [cls "row stat-row"]
             [el "div" [cls "col-xs-12"]
                [el "span" ["data-toggle" =: "tooltip"; "data-placement" =: "right"; "title" =: "User"]
                   [el "span" [cls "glyphicon glyphicon-user"; GLYPHICON_DEFAULT] [];
                    txt (nbsp ++ nbsp);
                    el "span" [] [userNode query]]]];
           el "div" [cls "row stat-row"]
             [el "div" [cls "col-xs-12"]
                [el "span" ["data-toggle" =: "tooltip"; "data-placement" =: "right"; "title" =: "Source"]
                   [el "span" [cls "glyphicon glyphicon-log-in"; GLYPHICON_DEFAULT] [];
                    txt (nbsp ++ nbsp);
                    el "span" [] [opt (truncateString (h_source query) 35)]]]];
           el "div" [cls "row stat-row"]
             [el "div" [cls "col-xs-12"]
                [el "span" ["data-toggle" =: "tooltip"; "data-placement" =: "right"; "title" =: "Resource Group"]
                   [el "span" [cls "glyphicon glyphicon-road"; GLYPHICON_DEFAULT] [];
                    txt (nbsp ++ nbsp);
                    el "span" [] [opt (truncateString (Some (resourceGroup query)) 35)]]]];
           el "div" [cls "row stat-row"] [splitDetails (Utils.state (info query)) f];
           el "div" [cls "row stat-row"] [timingDetails f];
           el "div" [cls "row stat-row"] [memoryDetails f]];
        el "div" [cls "col-xs-8"]
          [el "div" [cls "row query-header"]
             [el "div" [cls "col-xs-12 query-progress-container"]
                [el "div" [cls "progress"]
                   [el "div" [cls "progress-bar progress-bar-info"; "role" =: "progressbar";
                              "aria-valuemin" =: "0"; "aria-valuemax" =: "100";
                              style [("width", "100%"); ("backgroundColor", color)]]
                      [el "div" [cls "progress-catalog-schema-container"]
                         [el "span" [cls "progress-catalog-schema"] [txt "catalog:"];
                          el "span" [cls "text-catalog-schema"] [opt (catalog query)];
                          txt (nbsp ++ nbsp);
                          el "span" [cls "progress-catalog-schema"] [txt "schema:"];
                          el "span" [cls "text-catalog-schema"] [opt (schemata query)]];
                       el "div" [cls "progress-state"] [txt title]]]]];
           el "div" [cls "row query-row-bottom"]
             [el "div" [cls "col-xs-12"]
                [el "pre" [cls "query-snippet"]
                   [el "code" [cls "sql"] [opt (QueryListItem.stripQueryTextWhitespace (h_query query))]];
                 more]]]]].

Definition render (show : bool) (query : HistoryQuery) : result Html :=
  title ← NewUtils.getHumanReadableState (info query);
  let more := when (QueryListItem.isShowMore (h_query query)) (showMore (modal show title query)) in
  Ok (renderWith (NewUtils.getQueryStateColor (info query)) title more query).
End HistoryItem.

(** [self.replace(/.*\/v1\/query\//, ...)]: what follows the last occurrence, in an
    address, which has no line breaks. *)
Fixpoint afterLast (p s : string) : option string :=
  match (match s with EmptyString => None | String _ s' => afterLast p s' end) with
  | Some rest => Some rest
  | None => if String.prefix p s then Some (drop_str (String.length p) s) else None
  end.

Module MonitorItem.
Definition splitDetails := splitDetails.
Definition timingDetails := timingDetails.
Definition memoryDetails := memoryDetails.
Definition showMore := showMore.

Definition link (query : MonitorQuery) : string :=
  match afterLast "/v1/query/" (self query) with Some rest => "query.html?" ++ rest | None => self query end.

(** A user with a principal has a lock; an empty principal counts as none. *)
Definition userNode (query : MonitorQuery) : Html :=
  let lock := el "span" [cls "glyphicon glyphicon-lock-inverse"; GLYPHICON_DEFAULT] [] in
  match principal query with
  | Some p => el "span" [] [txt (m_user query); when (negb (streq p "")) lock]
  | None => el "span" [] [txt (m_user query)]
  end.

Definition resourceGroup (query : MonitorQuery) : string :=
  match resourceGroupId query with Some path => join "." path | None => "n/a" end.

Definition modal (show : bool) (title : string) (query : MonitorQuery) : Html :=
  ModalDialog.render show (txt title) []
    [el "div" [cls "modal-querytext"] [txt (QueryMonitorItem.getAllQueryText (m_query query))]].

Definition renderWith (percentage : num) (color title : string) (f : Figures) (more : Html) (query : MonitorQuery) : Html :=
  el "div" [cls "query"]
    [el "div" [cls "row"]
       [el "div" [cls "col-xs-4"]
          [el "div" [cls "row stat-row query-header query-header-queryid"]
             [el "div" [cls "col-xs-9"; "data-toggle" =: "tooltip"; "data-placement" =: "bottom";
                        "title" =: "Query ID"]
                [el "a" ["href" =: link query; "target" =: "_blank"] [txt (m_queryId query)]];
              el "div" [cls "col-xs-3 query-header-timestamp"; "data-toggle" =: "tooltip";
                        "data-placement" =: "bottom"; "title" =: "Submit time"]
                [el "span" [] [txt (formatShortTime (createTime f))]]];
           el "div" [cls "row stat-row"]
             [el "div" [cls "col-xs-12"]
                [el "span" ["data-toggle" =: "tooltip"; "data-placement" =: "right"; "title" =: "User"]
                   [el "span" [cls "glyphicon glyphicon-user"; GLYPHICON_DEFAULT] [];
                    txt (nbsp ++ nbsp);
                    el "span" [] [userNode query]]]];
           el "div" [cls "row stat-row"]
             [el "div" [cls "col-xs-12"]
                [el "span" ["data-toggle" =: "tooltip"; "data-placement" =: "right"; "title" =: "Source"]
                   [el "span" [cls "glyphicon glyphicon-log-in"; GLYPHICON_DEFAULT] [];
                    txt (nbsp ++ nbsp);
                    el "span" [] [opt (truncateString (m_source query) 35)]]]];
           el "div" [cls "row stat-row"]
             [el "div" [cls "col-xs-12"]
                [el "span" ["data-toggle" =: "tooltip"; "data-placement" =: "right"; "title" =: "Resource Group"]
                   [el "span" [cls "glyphicon glyphicon-road"; GLYPHICON_DEFAULT] [];
                    txt (nbsp ++ nbsp);
                    el "span" [] [opt (truncateString (Some (resourceGroup query)) 35)]]]];
           el "div" [cls "row stat-row"] [splitDetails (state query) f];
           el "div" [cls "row stat-row"] [timingDetails f];
           el "div" [cls "row stat-row"] [memoryDetails f]];
        el "div" [cls "col-xs-8"]
          [el "div" [cls "row query-header"]
             [el "div" [cls "col-xs-12 query-progress-container"]
                [el "div" [cls "progress"]
                   [el "div" [cls "progress-bar progress-bar-info"; "role" =: "progressbar";
                              "aria-valuenow" =: to_string percentage; "aria-valuemin" =: "0";
                              "aria-valuemax" =: "100";
                              style [("width", to_string percentage ++ "%"); ("backgroundColor", color)]]
                      [txt title]]]];
           el "div" [cls "row query-row-bottom"]
             [el "div" [cls "col-xs-12"]
                [el "pre" [cls "query-snippet"]
                   [el "code" [cls "sql"] [opt (QueryMonitorItem.stripQueryTextWhitespace (m_query query))]];
                 more]]]]].

(** The dialog's title is the state as newUtils.js reads it. *)
Definition render (show : bool) (query : MonitorQuery) : result Html :=
  percentage ← getProgressBarPercentage (summary query);
  color ← getQueryStateColor (summary query);
  f ← member (queryStats query) id;
  title ← getProgressBarTitle (summary query);
  more ← (if QueryMonitorItem.isShowMore (m_query query) then
            dialogTitle ← NewUtils.getHumanReadableState (summary query);
            Ok (showMore (modal show dialogTitle query))
          else Ok []);
  Ok (renderWith percentage color title f more query).
End MonitorItem.

(** The items in the order of the queries; each has kept whether its dialog is
    shown. *)
Module DisplayedQueriesList.
Definition render {Q} (item : Q -> result Html) (queries : list Q) : result Html :=
  queryNodes ← mapM_result item queries;
  Ok (el "div" [cls "queryListContainer"] [concat queryNodes]).
End DisplayedQueriesList.

(** ** Menus *)

Definition search (s : ListState) (name : string) : string :=
  from_option snd "" (List.find (fun '(key, _) => streq key name) (searches s)).

Definition renderSortListItem (s : ListState) (sortType sortText : string) : Html :=
  if streq (currentSortType s) sortType then
    let directionArrow :=
      match currentSortOrder s with
      | ASCENDING => el "span" [cls "glyphicon glyphicon-triangle-top"] []
      | DESCENDING => el "span" [cls "glyphicon glyphicon-triangle-bottom"] []
      end in
  el "li" []
    [el "a" ["href" =: "#"; cls "selected"; "onClick" =>: "this.handleSortClick " ++ sortType]
       [txt sortText;
        txt " ";
        directionArrow]]
  else
  el "li" [] [el "a" ["href" =: "#"; "onClick" =>: "this.handleSortClick " ++ sortType] [txt sortText]].

Definition checkmarkOf (marked : bool) : string * Markup.Value :=
  if marked then GLYPHICON_HIGHLIGHT else style [("color", "#ffffff")].

Definition renderFilterButton (s : ListState) (filterType filterText : string) : Html :=
  let checkmarkStyle := checkmarkOf (checkmark (stateFilters s) (stateSelectAll s) filterType) in
  el "li" []
    [el "a" ["href" =: "#"; "onClick" =>: "this.handleStateFilterClick " ++ filterType]
       [el "span" [cls "glyphicon glyphicon-ok"; checkmarkStyle] [];
        txt nbsp;
        txt filterText]].

Definition renderErrorTypeListItem (s : ListState) (errorType errorTypeText : string) : Html :=
  let checkmarkStyle := checkmarkOf (checkmark (errorTypeFilters s) (errorSelectAll s) errorType) in
  el "li" []
    [el "a" ["href" =: "#"; "onClick" =>: "this.handleErrorTypeFilterClick " ++ errorType]
       [el "span" [cls "glyphicon glyphicon-ok"; checkmarkStyle] [];
        txt nbsp;
        txt errorTypeText]].

(** The pager is a component of a package: its properties are kept. *)
Definition renderPagination (s : ListState) : Html :=
  el "Pagination" ["defaultCurrent" =: "1"; "current" =: show_Z (currentPage s); "total" =: show_Z (total s);
                   "defaultPageSize" =: "10"; "pageSize" =: show_Z (pageSize s);
                   "onChange" =>: "this.onPageChange"; "showTotal" =: "total => `Total ${total} queries`";
                   style [("marginTop", "10")]; "locale" =: "en_US"; "showSizeChanger" =: "true";
                   "onShowSizeChange" =>: "this.onPageSizeChange"; "selectComponentClass" =: "Select"] [].

(** The label "Loading..." is replaced under the condition that shows it. *)
Definition noQueries : Html :=
  el "div" [cls "row error-message"] [el "div" [cls "col-xs-12"] [el "h4" [] [txt "No queries"]]].

(** A handler opens the menu again it was called from: without an element of that
    identifier this throws. *)
Definition openMenu (id : string) (page : Html) : result unit := member (byId id page) (fun _ => tt).

Module HistoryPage.
Definition sortElement : string := "query-history-sort".
Definition filterElement : string := "query-history-filter".
Definition errorElement : string := "query-history-error".
Definition dateElement : string := "date-picker".

Definition errorMenu (s : ListState) : Html :=
  (el "div" [cls "input-group-btn"; "id" =: "query-history-error"]
    [el "button" ["type" =: "button"; cls "btn btn-default dropdown-toggle"; "data-toggle" =: "dropdown";
                  "aria-haspopup" =: "true"; "aria-expanded" =: "false"]
       [txt "Failed ";
        el "span" [cls "caret"] []];
     el "ul" [cls "dropdown-menu"]
       [renderErrorTypeListItem s SELECT_ALL "Select All";
        renderErrorTypeListItem s "internal_error" "Internal Error";
        renderErrorTypeListItem s "external" "External Error";
        renderErrorTypeListItem s "insufficient_resources" "Resources Error";
        renderErrorTypeListItem s "user_error" "User Error"]] ++
  txt nbsp)%list.

Definition renderPage (header : Panels.Header.t) (footer : ClusterPages.StatusFooter.t) (s : ListState) (queryList : Html) : Html :=
  el "div" []
    [el "div" [cls "flex flex-row flex-initial header"] [Header.render header];
     el "div" [cls "flex flex-row content"]
       [NavigationMenu.render "queryhistory";
        el "div" [cls "container"]
          [el "div" [cls "row toolbar-row"]
             [el "div" [cls "col-xs-12 toolbar-col query-history"]
                [el "div" [cls "input-group input-group-sm"]
                   [el "input" ["type" =: "text"; cls "form-control form-control-small search-bar";
                                "placeholder" =: "User"; "name" =: "User";
                                "onChange" =>: "this.handleSearchStringChange"; "value" =: search s "searchUser"] [];
                    el "input" ["type" =: "text"; "id" =: "date-picker";
                                cls "form-control form-control-small search-bar"; "placeholder" =: "Date";
                                "name" =: "Date"; "onFocus" =>: "this.renderDateRangePicker";
                                "onChange" =>: "this.handleSearchStringChange"; "value" =: search s "searchDate"] [];
                    el "input" ["type" =: "text"; cls "form-control form-control-small search-bar";
                                "placeholder" =: "Sql"; "name" =: "Sql";
                                "onChange" =>: "this.handleSearchStringChange"; "value" =: search s "searchSql"] [];
                    el "input" ["type" =: "text"; cls "form-control form-control-small search-bar";
                                "placeholder" =: "QueryId"; "name" =: "QueryId";
                                "onChange" =>: "this.handleSearchStringChange"; "value" =: search s "searchQueryId"] [];
                    el "input" ["type" =: "text"; cls "form-control form-control-small search-bar";
                                "placeholder" =: "ResourceGroup"; "name" =: "ResourceGroup";
                                "onChange" =>: "this.handleSearchStringChange"; "value" =: search s "searchResourceGroup"] [];
                    el "div" [cls "input-group-btn"; "id" =: "query-history-filter"]
                      [el "button" ["type" =: "button"; cls "btn btn-default dropdown-toggle";
                                    "data-toggle" =: "dropdown"; "aria-haspopup" =: "true";
                                    "aria-expanded" =: "false"]
                         [txt "State ";
                          el "span" [cls "caret"] []];
                       el "ul" [cls "dropdown-menu dropdown-menu-left"]
                         [renderFilterButton s SELECT_ALL "Select All";
                          renderFilterButton s "finished" "Finished";
                          renderFilterButton s "failed" "Failed"]];
                    txt nbsp;
                    when (bool_decide ("failed" ∈ stateFilters s)) (errorMenu s);
                    el "div" [cls "input-group-btn"; "id" =: "query-history-sort"]
                      [el "button" ["type" =: "button"; cls "btn btn-default dropdown-toggle";
                                    "data-toggle" =: "dropdown"; "aria-haspopup" =: "true";
                                    "aria-expanded" =: "false"]
                         [txt "Sort ";
                          el "span" [cls "caret"] []];
                       el "ul" [cls "dropdown-menu dropdown-menu-right"]
                         [renderSortListItem s "creation" "Creation Time";
                          renderSortListItem s "elapsed" "Elapsed Time";
                          renderSortListItem s "cpu" "CPU Time";
                          renderSortListItem s "execution" "Execution Time";
                          renderSortListItem s "memory" "Current Memory";
                          renderSortListItem s "cumulative" "Cumulative User Memory"]]]]];
           queryList;
           renderPagination s]];
     el "div" [cls "flex flex-row flex-initial statusFooter"] [StatusFooter.render footer];
     el "div" [cls "flex flex-row flex-initial footer"] [Footer.render]].

Definition render (header : Panels.Header.t) (footer : ClusterPages.StatusFooter.t) (show : HistoryQuery -> bool)
    (s : ListState) (allQueries : list HistoryQuery) : result Html :=
  queryList ← (if total s =? 0 then Ok noQueries
               else DisplayedQueriesList.render (fun query => HistoryItem.render (show query) query) allQueries);
  Ok (renderPage header footer s queryList).
End HistoryPage.

Module MonitorPage.
Definition filterElement : string := "query-monitor-filter".
Definition errorElement : string := "query-monitor-error".

Definition renderSortListItem := renderSortListItem.
Definition renderFilterButton := renderFilterButton.
Definition renderErrorTypeListItem := renderErrorTypeListItem.
Definition renderPagination := renderPagination.

Definition errorMenu (s : ListState) : Html :=
  (el "div" [cls "input-group-btn"; "id" =: "query-monitor-error"]
    [el "button" ["type" =: "button"; cls "btn btn-default dropdown-toggle"; "data-toggle" =: "dropdown";
                  "aria-haspopup" =: "true"; "aria-expanded" =: "false"]
       [txt "Failed ";
        el "span" [cls "caret"] []];
     el "ul" [cls "dropdown-menu"]
       [renderErrorTypeListItem s SELECT_ALL "Select All";
        renderErrorTypeListItem s "internal_error" "Internal Error";
        renderErrorTypeListItem s "external" "External Error";
        renderErrorTypeListItem s "insufficient_resources" "Resources Error";
        renderErrorTypeListItem s "user_error" "User Error"]] ++
  txt nbsp)%list.

(** The pager is there when there are queries. *)
Definition renderPage (header : Panels.Header.t) (footer : ClusterPages.StatusFooter.t) (s : ListState)
    (queries : bool) (queryList : Html) : Html :=
  el "div" []
    [el "div" [cls "flex flex-row flex-initial header"] [Header.render header];
     el "div" [cls "flex flex-row content"]
       [NavigationMenu.render "querymonitor";
        el "div" [cls "container"]
          [el "div" [cls "row toolbar-row"]
             [el "div" [cls "col-xs-12 toolbar-col query-monitor"]
                [el "div" [cls "input-group input-group-sm"]
                   [el "input" ["type" =: "text"; cls "form-control form-control-small search-bar";
                                "placeholder" =: "User, source, query ID, resource group, or query text";
                                "onChange" =>: "this.handleSearchStringChange"; "value" =: search s "search"] [];
                    el "div" [cls "input-group-btn"; "id" =: "query-monitor-filter"]
                      [el "button" ["type" =: "button"; cls "btn btn-default dropdown-toggle";
                                    "data-toggle" =: "dropdown"; "aria-haspopup" =: "true";
                                    "aria-expanded" =: "false"]
                         [txt "State ";
                          el "span" [cls "caret"] []];
                       el "ul" [cls "dropdown-menu dropdown-menu-left"]
                         [renderFilterButton s SELECT_ALL "Select All";
                          renderFilterButton s "queued" "Queued";
                          renderFilterButton s "waiting_for_resources" "Waiting For Resources";
                          renderFilterButton s "dispatching" "Dispatching";
                          renderFilterButton s "planning" "Planning";
                          renderFilterButton s "starting" "Starting";
                          renderFilterButton s "running" "Running";
                          renderFilterButton s "suspended" "Suspended";
                          renderFilterButton s "finishing" "Finishing";
                          renderFilterButton s "finished" "Finished";
                          renderFilterButton s "failed" "Failed"]];
                    txt nbsp;
                    when (bool_decide ("failed" ∈ stateFilters s)) (errorMenu s);
                    el "div" [cls "input-group-btn"]
                      [el "button" ["type" =: "button"; cls "btn btn-default dropdown-toggle";
                                    "data-toggle" =: "dropdown"; "aria-haspopup" =: "true";
                                    "aria-expanded" =: "false"]
                         [txt "Sort ";
                          el "span" [cls "caret"] []];
                       el "ul" [cls "dropdown-menu dropdown-menu-right"]
                         [renderSortListItem s "creation" "Creation Time";
                          renderSortListItem s "elapsed" "Elapsed Time";
                          renderSortListItem s "cpu" "CPU Time";
                          renderSortListItem s "execution" "Execution Time";
                          renderSortListItem s "memory" "Current Memory";
                          renderSortListItem s "cumulative" "Cumulative User Memory"]]]]];
           queryList;
           when queries (renderPagination s)]];
     el "div" [cls "flex flex-row flex-initial statusFooter"] [StatusFooter.render footer];
     el "div" [cls "flex flex-row flex-initial footer"] [Footer.render]].

Definition render (header : Panels.Header.t) (footer : ClusterPages.StatusFooter.t) (show : MonitorQuery -> bool)
    (s : ListState) (allQueries : list MonitorQuery) : result Html :=
  queryList ← (if total s =? 0 then Ok noQueries
               else DisplayedQueriesList.render (fun query => MonitorItem.render (show query) query) allQueries);
  Ok (renderPage header footer s (0 <? length allQueries)%nat queryList).
End MonitorPage.
