(* ===== verification/ListMarkupFacts.v ===== *)
(** * The pages of the query list and the query monitor in the browser

    Lemmas of ListMarkup.v: the menus offer what their handlers take and find the
    elements their handlers open, the pages are well formed, and when a query
    keeps the whole page from being drawn. *)

From S2P Require Import Prelude JsString JsNumber Utils NewUtils Markup QueryText ListPages ClusterPages ClusterMarkup Panels ShellMarkup ListMarkup.

(** ** Items *)

(** What the items leave alone: they have no identifiers, and their handlers are
    those of the dialog. *)
Definition quiet (h : Html) : Prop :=
  ids h = [] /\ handlersOn "onFocus" h = [] /\
  Forall (fun call => call ∈ ["this.showModal"; "this.onClose"]) (handlersOn "onClick" h).

Lemma wf_num_child parent n : partsOf parent = None -> wellFormed parent (num_child n) = true.
Proof. apply wf_txt. Qed.
#[export] Hint Extern 1 (wellFormed _ (num_child _) = true) => apply wf_num_child; reflexivity : markup.

Lemma wf_details state f :
  wellFormed "div" (splitDetails state f) = true /\ wellFormed "div" (timingDetails f) = true /\
  wellFormed "div" (memoryDetails f) = true.
Proof. unfold splitDetails, timingDetails, memoryDetails. split; [markup|split; markup]. Qed.

Lemma wf_splitDetails state f : wellFormed "div" (splitDetails state f) = true.
Proof. apply wf_details. Qed.
Lemma wf_timingDetails f : wellFormed "div" (timingDetails f) = true.
Proof. by apply (wf_details "" f). Qed.
Lemma wf_memoryDetails f : wellFormed "div" (memoryDetails f) = true.
Proof. by apply (wf_details "" f). Qed.
#[export] Hint Resolve wf_splitDetails wf_timingDetails wf_memoryDetails : markup.

Lemma quiet_app a b : quiet a -> quiet b -> quiet (a ++ b).
Proof.
  intros (Ha & Hb & Hc) (Ha' & Hb' & Hc'). unfold quiet. rw ids_app !handlersOn_app Ha Ha' Hb Hb'.
  split; [done|split; [done|]]. by apply Forall_app.
Qed.

Lemma quiet_concat cs : Forall quiet cs -> quiet (concat cs).
Proof. induction 1 as [|h hs Hh _ IH]; [by split|]. by apply quiet_app. Qed.

Lemma quiet_el tag a cs :
  attribute "id" (Element tag a []) = None -> handler "onFocus" (Element tag a []) = None ->
  Forall (fun call => call ∈ ["this.showModal"; "this.onClose"]) (option_list (handler "onClick" (Element tag a []))) ->
  Forall quiet cs -> quiet (el tag a cs).
Proof.
  intros Hi Hf Hc Hcs. unfold quiet, ids. rw attributesOf_el !handlersOn_el Hi Hf.
  apply quiet_concat in Hcs as (Hi' & Hf' & Hc'). unfold ids in Hi'.
  rw attributesOf_concat in Hi'. rw !handlersOn_concat in Hf' Hc'.
  split; [by rw Hi'|split; [by rw Hf'|]]. by apply Forall_app.
Qed.

Lemma quiet_txt s : quiet (txt s).
Proof. by split. Qed.
Lemma quiet_opt o : quiet (opt o).
Proof. destruct o; by split. Qed.
Lemma quiet_when b h : quiet h -> quiet (when b h).
Proof. by destruct b; [|split]. Qed.

Ltac quiet :=
  repeat match goal with
  | |- quiet (el _ _ _) => apply quiet_el; [reflexivity|reflexivity|cbn; repeat first [apply Forall_nil_2|apply Forall_cons_2; [set_solver|]]|]
  | |- quiet (txt _) => apply quiet_txt
  | |- quiet (num_child _) => apply quiet_txt
  | |- quiet (opt _) => apply quiet_opt
  | |- quiet (when _ _) => apply quiet_when
  | |- quiet [] => by split
  | |- quiet (concat _) => apply quiet_concat
  | |- quiet (_ ++ _) => apply quiet_app
  | H : quiet ?h |- quiet ?h => exact H
  | |- Forall quiet [] => apply Forall_nil_2
  | |- Forall quiet (_ :: _) => apply Forall_cons_2
  end.

Lemma quiet_details state f : quiet (splitDetails state f) /\ quiet (timingDetails f) /\ quiet (memoryDetails f).
Proof. unfold splitDetails, timingDetails, memoryDetails. split; [quiet|split; quiet]. Qed.

(** The link "Show More" with a dialog of one text. *)
Lemma more_ok show title text :
  let h := showMore (ModalDialog.render show (txt title) [] [el "div" [cls "modal-querytext"] [txt text]]) in
  wellFormed "div" h = true /\ quiet h.
Proof.
  unfold showMore, ModalDialog.render. split; destruct show; cbn [negb]; try markup; cbn [concat]; quiet.
Qed.

Lemma history_item color title more query :
  wellFormed "div" more = true -> quiet more ->
  wellFormed "div" (HistoryItem.renderWith color title more query) = true /\
  quiet (HistoryItem.renderWith color title more query).
Proof.
  intros Hw Hq. destruct (quiet_details (Utils.state (info query)) (figures query)) as (H1 & H2 & H3).
  unfold HistoryItem.renderWith, HistoryItem.userNode. split; [markup|quiet].
Qed.

Lemma monitor_item percentage color title f more query :
  wellFormed "div" more = true -> quiet more ->
  wellFormed "div" (MonitorItem.renderWith percentage color title f more query) = true /\
  quiet (MonitorItem.renderWith percentage color title f more query).
Proof.
  intros Hw Hq. destruct (quiet_details (state query) f) as (H1 & H2 & H3).
  unfold MonitorItem.renderWith, MonitorItem.userNode, MonitorItem.splitDetails, MonitorItem.timingDetails,
    MonitorItem.memoryDetails.
  split; destruct (principal query); [markup|markup|quiet|quiet].
Qed.

Lemma historyItem_ok show query h :
  HistoryItem.render show query = Ok h -> wellFormed "div" h = true /\ quiet h.
Proof.
  unfold HistoryItem.render. destruct (NewUtils.getHumanReadableState _) as [title|]; [|done].
  cbn [mbind result_bind]. intros [= <-]. unfold HistoryItem.modal.
  destruct (more_ok show title (QueryListItem.getAllQueryText (h_query query))).
  apply history_item; [markup|quiet].
Qed.

Lemma monitorItem_ok show query h :
  MonitorItem.render show query = Ok h -> wellFormed "div" h = true /\ quiet h.
Proof.
  unfold MonitorItem.render. destruct (getProgressBarPercentage _) as [percentage|]; [|done].
  destruct (getQueryStateColor _) as [color|]; [|done]. destruct (queryStats query) as [f|]; [|done].
  destruct (getProgressBarTitle _) as [title|]; [|done]. cbn [mbind result_bind member].
  destruct (QueryMonitorItem.isShowMore _).
  - destruct (NewUtils.getHumanReadableState _) as [dialogTitle|]; [|done]. cbn [mbind result_bind].
    intros [= <-]. unfold MonitorItem.modal.
    destruct (more_ok show dialogTitle (QueryMonitorItem.getAllQueryText (m_query query))). by apply monitor_item.
  - intros [= <-]. apply monitor_item; [done|quiet].
Qed.

Lemma displayed_ok {Q} (item : Q -> result Html) queries h :
  (forall query h, item query = Ok h -> wellFormed "div" h = true /\ quiet h) ->
  DisplayedQueriesList.render item queries = Ok h -> wellFormed "div" h = true /\ quiet h.
Proof.
  intros Hitem. unfold DisplayedQueriesList.render.
  destruct (mapM_result item queries) as [nodes|] eqn:Hm; [|done]. cbn [mbind result_bind]. intros [= <-].
  apply mapM_result_spec in Hm.
  assert (Forall (fun h => wellFormed "div" h = true) nodes /\ Forall quiet nodes) as [Hw Hq].
  { induction Hm as [|query node queries nodes Hn _ [IH1 IH2]]; [done|].
    apply Hitem in Hn as [? ?]. split; by constructor. }
  split; [markup|quiet]; done.
Qed.

(** ** Menus *)

Lemma statusFooter_calls event s : event ∈ ["onClick"; "onFocus"] -> handlersOn event (StatusFooter.render s) = [].
Proof.
  intros He. unfold StatusFooter.render, last_child.
  repeat (apply elem_of_cons in He as [->|He];
    [by destruct (last (ClusterPages.StatusFooter.running s)), (last (ClusterPages.StatusFooter.workers s)),
      (last (ClusterPages.StatusFooter.queued s)), (last (ClusterPages.StatusFooter.blocked s))|]).
  inversion He.
Qed.

Lemma statusFooter_click s : handlersOn "onClick" (StatusFooter.render s) = [].
Proof. apply statusFooter_calls. by left. Qed.
Lemma statusFooter_focus s : handlersOn "onFocus" (StatusFooter.render s) = [].
Proof. apply statusFooter_calls. by right; left. Qed.
Lemma header_click s : handlersOn "onClick" (Header.render s) = [].
Proof. done. Qed.
Lemma header_focus s : handlersOn "onFocus" (Header.render s) = [].
Proof. done. Qed.
Lemma menu_click active : handlersOn "onClick" (NavigationMenu.render active) = [].
Proof. done. Qed.
Lemma menu_focus active : handlersOn "onFocus" (NavigationMenu.render active) = [].
Proof. done. Qed.
Lemma footer_click : handlersOn "onClick" Footer.render = [].
Proof. done. Qed.
Lemma footer_focus : handlersOn "onFocus" Footer.render = [].
Proof. done. Qed.
#[export] Hint Resolve statusFooter_click statusFooter_focus header_click header_focus menu_click menu_focus
  footer_click footer_focus : collected.

Lemma wf_entries s a b :
  wellFormed "ul" (renderSortListItem s a b) = true /\ wellFormed "ul" (renderFilterButton s a b) = true /\
  wellFormed "ul" (renderErrorTypeListItem s a b) = true.
Proof.
  unfold renderSortListItem, renderFilterButton, renderErrorTypeListItem.
  split; [destruct (currentSortOrder s); markup|split; markup].
Qed.

Lemma wf_sortItem s a b : wellFormed "ul" (renderSortListItem s a b) = true.
Proof. apply wf_entries. Qed.
Lemma wf_filterItem s a b : wellFormed "ul" (renderFilterButton s a b) = true.
Proof. apply wf_entries. Qed.
Lemma wf_errorItem s a b : wellFormed "ul" (renderErrorTypeListItem s a b) = true.
Proof. apply wf_entries. Qed.
#[export] Hint Resolve wf_sortItem wf_filterItem wf_errorItem : markup.

(** Every entry has one handler, with its value, and no identifier. *)
Section Entries.
Context (s : ListState) (a b : string).

Ltac entry :=
  unfold renderSortListItem, renderFilterButton, renderErrorTypeListItem, checkmarkOf, ids;
  try destruct (checkmark _ _ _); try destruct (streq _ _), (currentSortOrder s); by attributes.

Lemma sort_click : handlersOn "onClick" (renderSortListItem s a b) = ["this.handleSortClick " ++ a].
Proof. entry. Qed.
Lemma filter_click : handlersOn "onClick" (renderFilterButton s a b) = ["this.handleStateFilterClick " ++ a].
Proof. entry. Qed.
Lemma error_click : handlersOn "onClick" (renderErrorTypeListItem s a b) = ["this.handleErrorTypeFilterClick " ++ a].
Proof. entry. Qed.
Lemma sort_focus : handlersOn "onFocus" (renderSortListItem s a b) = [].
Proof. entry. Qed.
Lemma filter_focus : handlersOn "onFocus" (renderFilterButton s a b) = [].
Proof. entry. Qed.
Lemma error_focus : handlersOn "onFocus" (renderErrorTypeListItem s a b) = [].
Proof. entry. Qed.
Lemma sort_ids : attributesOf "id" (renderSortListItem s a b) = [].
Proof. entry. Qed.
Lemma filter_ids : attributesOf "id" (renderFilterButton s a b) = [].
Proof. entry. Qed.
Lemma error_ids : attributesOf "id" (renderErrorTypeListItem s a b) = [].
Proof. entry. Qed.
End Entries.
#[export] Hint Resolve sort_click filter_click error_click sort_focus filter_focus error_focus
  sort_ids filter_ids error_ids : collected.

(** The calls of the three menus of a page, in the order of the page. *)
Definition menuCalls (states : list string) (s : ListState) : list string :=
  ((append "this.handleStateFilterClick " <$> (SELECT_ALL :: states)) ++
   (if bool_decide ("failed" ∈ stateFilters s)
    then append "this.handleErrorTypeFilterClick " <$>
           [SELECT_ALL; "internal_error"; "external"; "insufficient_resources"; "user_error"]
    else []) ++
   (append "this.handleSortClick " <$> ["creation"; "elapsed"; "cpu"; "execution"; "memory"; "cumulative"]))%list.

Lemma history_page header footer s queryList :
  wellFormed "div" queryList = true -> quiet queryList ->
  let h := HistoryPage.renderPage header footer s queryList in
  wellFormed "div" h = true /\
  handlersOn "onClick" h = (menuCalls QueryList.FILTER_TYPE s ++ handlersOn "onClick" queryList)%list /\
  handlersOn "onFocus" h = ["this.renderDateRangePicker"].
Proof.
  intros Hw (Hi & Hf & _). unfold HistoryPage.renderPage, HistoryPage.errorMenu, renderPagination. split; [markup|].
  split.
  - collects. unfold menuCalls. by case_bool_decide.
  - collects. by case_bool_decide.
Qed.

Lemma monitor_page header footer s queries queryList :
  wellFormed "div" queryList = true -> quiet queryList ->
  let h := MonitorPage.renderPage header footer s queries queryList in
  wellFormed "div" h = true /\
  handlersOn "onClick" h = (menuCalls QueryMonitor.FILTER_TYPE s ++ handlersOn "onClick" queryList)%list /\
  handlersOn "onFocus" h = [].
Proof.
  intros Hw (Hi & Hf & _). unfold MonitorPage.renderPage, MonitorPage.errorMenu, MonitorPage.renderPagination,
    MonitorPage.renderSortListItem, MonitorPage.renderFilterButton, MonitorPage.renderErrorTypeListItem, renderPagination.
  split; [markup|split].
  - collects. unfold menuCalls. by case_bool_decide; destruct queries; rw ?app_nil_r.
  - collects. by case_bool_decide; destruct queries.
Qed.

(** What the entries of a menu are bound to. *)
Lemma arguments_own method (values : list string) : omap (argumentOf method) (append (method ++ " ") <$> values) = values.
Proof.
  induction values as [|v values IH]; [done|]. cbn [fmap list_fmap omap list_omap]. by rw argument_own IH.
Qed.

Lemma arguments_other method prefix (values : list string) :
  (forall v, argumentOf method (prefix ++ v) = None) -> omap (argumentOf method) (append prefix <$> values) = [].
Proof.
  intros Hp. induction values as [|v values IH]; [done|]. cbn [fmap list_fmap omap list_omap]. by rw Hp IH.
Qed.

(** ** Identifiers *)

Lemma header_id s : attributesOf "id" (Header.render s) = ["status-indicator"].
Proof. apply (ids_frame s ""). Qed.
Lemma menu_id active : attributesOf "id" (NavigationMenu.render active) = [].
Proof. done. Qed.
Lemma footer_id : attributesOf "id" Footer.render = [].
Proof. done. Qed.
Lemma statusFooter_id s : attributesOf "id" (StatusFooter.render s) = ids (StatusFooter.render s).
Proof. done. Qed.
#[export] Hint Resolve header_id menu_id footer_id statusFooter_id : collected.

Lemma history_ids header footer s queryList :
  quiet queryList ->
  ids (HistoryPage.renderPage header footer s queryList) =
  (["status-indicator"; HistoryPage.dateElement; HistoryPage.filterElement] ++
   (if bool_decide ("failed" ∈ stateFilters s) then [HistoryPage.errorElement] else []) ++
   [HistoryPage.sortElement] ++ ids (StatusFooter.render footer))%list.
Proof.
  intros (Hi & _).
  unfold HistoryPage.renderPage, HistoryPage.errorMenu, renderPagination. unfold ids in Hi.
  collects. by case_bool_decide.
Qed.

Lemma monitor_ids header footer s queries queryList :
  quiet queryList ->
  ids (MonitorPage.renderPage header footer s queries queryList) =
  (["status-indicator"; MonitorPage.filterElement] ++
   (if bool_decide ("failed" ∈ stateFilters s) then [MonitorPage.errorElement] else []) ++
   ids (StatusFooter.render footer))%list.
Proof.
  intros (Hi & _).
  unfold MonitorPage.renderPage, MonitorPage.errorMenu, MonitorPage.renderPagination,
    MonitorPage.renderSortListItem, MonitorPage.renderFilterButton, MonitorPage.renderErrorTypeListItem, renderPagination.
  unfold ids in Hi. collects. by case_bool_decide; destruct queries.
Qed.

Lemma openMenu_ok id h : openMenu id h = Ok tt <-> id ∈ ids h.
Proof.
  unfold openMenu. rw -byId_found. destruct (byId id h); [by split|]. split; [done|by intros []].
Qed.

(** The calls that are left are none of the menus'. *)
Lemma quiet_arguments method queryList :
  method ∈ ["this.handleStateFilterClick"; "this.handleErrorTypeFilterClick"; "this.handleSortClick"] ->
  quiet queryList -> omap (argumentOf method) (handlersOn "onClick" queryList) = [].
Proof.
  intros Hm (_ & _ & Hc). induction Hc as [|call calls Hcall _ IH]; [done|].
  assert (argumentOf method call = None) as He; [|cbn; by rw He IH].
  repeat match goal with
  | H : _ ∈ [] |- _ => inversion H
  | H : _ ∈ _ :: _ |- _ => apply elem_of_cons in H as [->|H]
  end; done.
Qed.

(** ** The pages *)

(** The menus offer the chosen states, the kinds of failure while failed queries
    are chosen, and the ways to sort. *)
Lemma menu_offers s h states queryList :
  quiet queryList ->
  handlersOn "onClick" h = (menuCalls states s ++ handlersOn "onClick" queryList)%list ->
  Markup.offered "onClick" "this.handleStateFilterClick" h = SELECT_ALL :: states /\
  Markup.offered "onClick" "this.handleErrorTypeFilterClick" h ≡ₚ
    (if bool_decide ("failed" ∈ stateFilters s) then SELECT_ALL :: ERROR_TYPE else []) /\
  Markup.offered "onClick" "this.handleSortClick" h ≡ₚ SORT_TYPE.
Proof.
  intros Hq Hc. unfold Markup.offered. rw Hc. unfold menuCalls. rw !omap_app.
  rw !quiet_arguments //; try (repeat (left || right)).
  change "this.handleStateFilterClick " with ("this.handleStateFilterClick" ++ " ") at 1.
  rw arguments_own !app_nil_r. split; [|split].
  - case_bool_decide; cbn; by rw ?app_nil_r.
  - rw (arguments_other _ "this.handleStateFilterClick ") //. case_bool_decide; [|done].
    apply (bool_decide_unpack (_ ≡ₚ _)); by vm_compute.
  - rw (arguments_other _ "this.handleStateFilterClick ") //. case_bool_decide;
      apply (bool_decide_unpack (_ ≡ₚ _)); by vm_compute.
Qed.

Lemma noQueries_ok : wellFormed "div" noQueries = true /\ quiet noQueries.
Proof. split; [done|]. unfold noQueries. quiet. Qed.

(** A page that is drawn is one with the items, or with the words "No queries". *)
Lemma historyPage_inv header footer show s queries h :
  HistoryPage.render header footer show s queries = Ok h ->
  exists queryList, wellFormed "div" queryList = true /\ quiet queryList /\
    h = HistoryPage.renderPage header footer s queryList.
Proof.
  unfold HistoryPage.render. destruct (total s =? 0).
  - intros [= <-]. exists noQueries. by destruct noQueries_ok.
  - destruct (DisplayedQueriesList.render _ queries) as [queryList|] eqn:Hd; [|done]. intros [= <-].
    exists queryList. apply displayed_ok in Hd as [? ?]; [done|]. intros query h. apply historyItem_ok.
Qed.

Lemma monitorPage_inv header footer show s queries h :
  MonitorPage.render header footer show s queries = Ok h ->
  exists queryList, wellFormed "div" queryList = true /\ quiet queryList /\
    h = MonitorPage.renderPage header footer s (0 <? length queries)%nat queryList.
Proof.
  unfold MonitorPage.render. destruct (total s =? 0).
  - intros [= <-]. exists noQueries. by destruct noQueries_ok.
  - destruct (DisplayedQueriesList.render _ queries) as [queryList|] eqn:Hd; [|done]. intros [= <-].
    exists queryList. apply displayed_ok in Hd as [? ?]; [done|]. intros query h. apply monitorItem_ok.
Qed.

(** C20.  Whatever the filters, the order and the queries, if a page of the query
    list or of the query monitor is drawn, it is well formed and its menus offer
    "Select All" and exactly the states of the page, the kinds of failure exactly
    while failed queries are chosen, and the six ways to sort.  A handler that
    looks for an element finds it: the menus it opens again are on the page
    whenever one of their entries can be clicked, and so is the field of the
    dates. *)
Theorem list_menus header footer s :
  (forall show queries h, HistoryPage.render header footer show s queries = Ok h ->
     wellFormed "div" h = true /\
     Markup.offered "onClick" "this.handleStateFilterClick" h = SELECT_ALL :: QueryList.FILTER_TYPE /\
     Markup.offered "onClick" "this.handleErrorTypeFilterClick" h ≡ₚ
       (if bool_decide ("failed" ∈ stateFilters s) then SELECT_ALL :: ERROR_TYPE else []) /\
     Markup.offered "onClick" "this.handleSortClick" h ≡ₚ SORT_TYPE /\
     openMenu HistoryPage.filterElement h = Ok tt /\ openMenu HistoryPage.sortElement h = Ok tt /\
     (Markup.offered "onClick" "this.handleErrorTypeFilterClick" h <> [] -> openMenu HistoryPage.errorElement h = Ok tt) /\
     handlersOn "onFocus" h = ["this.renderDateRangePicker"] /\ HistoryPage.dateElement ∈ ids h) /\
  (forall show queries h, MonitorPage.render header footer show s queries = Ok h ->
     wellFormed "div" h = true /\
     Markup.offered "onClick" "this.handleStateFilterClick" h = SELECT_ALL :: QueryMonitor.FILTER_TYPE /\
     Markup.offered "onClick" "this.handleErrorTypeFilterClick" h ≡ₚ
       (if bool_decide ("failed" ∈ stateFilters s) then SELECT_ALL :: ERROR_TYPE else []) /\
     Markup.offered "onClick" "this.handleSortClick" h ≡ₚ SORT_TYPE /\
     openMenu MonitorPage.filterElement h = Ok tt /\
     (Markup.offered "onClick" "this.handleErrorTypeFilterClick" h <> [] -> openMenu MonitorPage.errorElement h = Ok tt)).
Proof.
  split; intros show queries h Hr.
  - apply historyPage_inv in Hr as (queryList & Hw & Hq & ->).
    destruct (history_page header footer s queryList Hw Hq) as (H1 & H2 & H3).
    destruct (menu_offers _ _ _ _ Hq H2) as (H4 & H5 & H6). rw !openMenu_ok (history_ids _ _ _ _ Hq).
    split; [done|split; [done|split; [done|split; [done|]]]].
    split; [set_solver|split; [set_solver|split; [|split; [done|set_solver]]]].
    intros Hne. case_bool_decide; [set_solver|]. by apply Permutation_nil_r in H5.
  - apply monitorPage_inv in Hr as (queryList & Hw & Hq & ->).
    destruct (monitor_page header footer s (0 <? length queries)%nat queryList Hw Hq) as (H1 & H2 & H3).
    destruct (menu_offers _ _ _ _ Hq H2) as (H4 & H5 & H6). rw !openMenu_ok (monitor_ids _ _ _ _ _ Hq).
    split; [done|split; [done|split; [done|split; [done|]]]].
    split; [set_solver|]. intros Hne. case_bool_decide; [set_solver|]. by apply Permutation_nil_r in H5.
Qed.

(** ** What keeps the monitor from being drawn *)

(** The server sent the figures, and the error code of a user's error. *)
Definition drawable (query : MonitorQuery) : Prop :=
  queryStats query <> None /\
  (state query = "FAILED" -> errorType query = Some "USER_ERROR" -> errorCode query <> None).

Lemma opt_is_spec o t : opt_is o t = true <-> o = Some t.
Proof. destruct o as [u|]; cbn; [|done]. destruct (streq_spec u t) as [->|]; [done|]. split; [done|by intros [= ->]]. Qed.

(** The colour and the title are there, or the code of a user's error is not. *)
Lemma failed_code query :
  ((exists color, getQueryStateColor (summary query) = Ok color) <->
   (state query = "FAILED" -> errorType query = Some "USER_ERROR" -> errorCode query <> None)) /\
  ((exists title, failedTitle (summary query) = Ok title) <->
   (errorType query = Some "USER_ERROR" -> errorCode query <> None)).
Proof.
  split.
  - unfold getQueryStateColor. cbn [summary Utils.state Utils.errorType Utils.errorCode].
    destruct (streq_spec (state query) "QUEUED") as [->|]; [by split; [|eexists]|].
    destruct (streq_spec (state query) "PLANNING") as [->|]; [by split; [|eexists]|].
    destruct (streq_spec (state query) "SUSPENDED") as [->|]; [by split; [|eexists]|].
    destruct (streq_spec (state query) "FAILED") as [->|Hf].
    + cbn. destruct (opt_is (errorType query) "USER_ERROR") eqn:Hu.
      * apply opt_is_spec in Hu as ->. destruct (errorCode query) as [c|]; cbn.
        -- split; [done|]. intros _. destruct (streq _ _); by eexists.
        -- split; [by intros []|]. by intros H; destruct (H eq_refl eq_refl).
      * split; [intros _ _ H; apply opt_is_spec in H; congruence|]. intros _.
        repeat destruct (opt_is _ _); by eexists.
    + split; [done|]. intros _.
      destruct (_ || _); [destruct (stats_blocked _)|destruct (streq (state query) "FINISHED")]; by eexists.
  - unfold failedTitle. cbn [summary Utils.state Utils.errorType Utils.errorCode].
    destruct (opt_is (errorType query) "USER_ERROR") eqn:Hu.
    + apply opt_is_spec in Hu as ->. destruct (errorCode query) as [c|]; cbn.
      * split; [done|]. intros _. destruct (streq _ _); by eexists.
      * split; [by intros []|]. by intros H; destruct (H eq_refl).
    + split; [intros _ H; apply opt_is_spec in H; congruence|]. intros _.
      repeat destruct (opt_is _ _); by eexists.
Qed.

Section Drawn.
Context (query : MonitorQuery) (f : Figures) (Hf : queryStats query = Some f).

Lemma percentage_drawn : exists p, getProgressBarPercentage (summary query) = Ok p.
Proof. unfold getProgressBarPercentage. cbn. rw Hf. cbn. destruct (_ || _); by eexists. Qed.

Lemma running_title : exists t, (qs ← member (Utils.queryStats (summary query)) id;
  if gt (totalDrivers qs) (of_Z 0) && ge (Utils.runningDrivers qs) (of_Z 0)
  then Ok (runningTitle qs (Utils.memoryPool (summary query))) else Ok (Utils.state (summary query))) = Ok t.
Proof. cbn. rw Hf. cbn. destruct (_ && _); by eexists. Qed.

Lemma dialogTitle_drawn : exists t, NewUtils.getHumanReadableState (summary query) = Ok t.
Proof.
  unfold NewUtils.getHumanReadableState. destruct (streq _ "RUNNING").
  - destruct (Utils.scheduled _); [apply running_title|by eexists].
  - destruct (streq _ "FAILED"); by eexists.
Qed.

Lemma state_drawn :
  (state query = "FAILED" -> errorType query = Some "USER_ERROR" -> errorCode query <> None) ->
  exists t, getHumanReadableState (summary query) = Ok t.
Proof.
  intros Hc. unfold getHumanReadableState. destruct (streq _ "RUNNING").
  - destruct (Utils.scheduled _); [apply running_title|by eexists].
  - cbn [summary Utils.state]. destruct (streq_spec (state query) "FAILED") as [He|]; [|by eexists].
    apply (failed_code query). by apply Hc.
Qed.

Lemma title_drawn :
  (state query = "FAILED" -> errorType query = Some "USER_ERROR" -> errorCode query <> None) ->
  exists t, getProgressBarTitle (summary query) = Ok t.
Proof.
  intros Hc. unfold getProgressBarTitle. destruct (state_drawn Hc) as [t Ht], percentage_drawn as [p Hp].
  rw Ht Hp. cbn. rw Hf. cbn. destruct (_ && _); by eexists.
Qed.
End Drawn.

Lemma monitorItem_drawn show query : (exists h, MonitorItem.render show query = Ok h) <-> drawable query.
Proof.
  unfold MonitorItem.render, drawable. destruct (queryStats query) as [f|] eqn:Hf; cycle 1.
  { split; [|by intros []]. unfold getProgressBarPercentage. cbn. rw Hf. by intros []. }
  destruct (percentage_drawn query f Hf) as [p ->], (dialogTitle_drawn query f Hf) as [d ->].
  cbn [mbind result_bind member]. split.
  - intros [h Hh]. split; [done|]. apply (failed_code query).
    destruct (getQueryStateColor _) as [color|]; [by eexists|done].
  - intros [_ Hc]. destruct (title_drawn query f Hf Hc) as [t ->].
    apply (failed_code query) in Hc as [color ->]. cbn [mbind result_bind].
    destruct (QueryMonitorItem.isShowMore _); by eexists.
Qed.

Lemma displayed_drawn {Q} (item : Q -> result Html) queries :
  (exists h, DisplayedQueriesList.render item queries = Ok h) <-> Forall (fun query => exists h, item query = Ok h) queries.
Proof.
  unfold DisplayedQueriesList.render. split.
  - intros [h Hh]. destruct (mapM_result item queries) as [nodes|] eqn:Hm; [|done]. apply mapM_result_spec in Hm.
    clear Hh. induction Hm as [|query node queries nodes Hn _ IH]; constructor; [by eexists|done].
  - intros Hall. assert (exists nodes, mapM_result item queries = Ok nodes) as [nodes ->]; [|by eexists].
    induction Hall as [|query queries [node Hn] _ [nodes IH]]; [by eexists|].
    exists (node :: nodes). cbn. by rw Hn IH.
Qed.

(** The monitor is drawn exactly when it says "No queries" or every query has
    its figures and, failed by an error of its user, its error code: one query
    without them keeps all the others from being shown. *)
Theorem monitor_drawn header footer show s queries :
  (exists h, MonitorPage.render header footer show s queries = Ok h) <-> total s = 0 \/ Forall drawable queries.
Proof.
  unfold MonitorPage.render. destruct (Z.eqb_spec (total s) 0) as [He|Hne]; [split; [by left|by eexists]|].
  transitivity (exists h, DisplayedQueriesList.render (fun query => MonitorItem.render (show query) query) queries = Ok h).
  - split; intros [h Hh]; [|rw Hh; by eexists]. destruct (DisplayedQueriesList.render _ _) as [l|]; [by eexists|done].
  - rw displayed_drawn. etransitivity; [apply Forall_iff; intros query; apply monitorItem_drawn|].
    split; [by right|by intros [?|?]].
Qed.

(** The server's summary of a query has no [failed], the field newUtils.js reads:
    the dialog of a failed query says so without the kind of its failure, which
    the bar shows. *)
Lemma dialog_says_failed query :
  failed query = None -> state query = "FAILED" -> NewUtils.getHumanReadableState (summary query) = Ok "FAILED".
Proof.
  intros Hf Hs. unfold NewUtils.getHumanReadableState, NewUtils.failedTitle. cbn [summary Utils.state Utils.failed].
  by rw Hs Hf.
Qed.

(** ** Witnesses *)

Definition sampleFigures : Figures :=
  {| drivers := {| totalDrivers := of_Z 4; Utils.runningDrivers := of_Z 1; fullyBlocked := false;
                   blockedReasons := None; progressPercentage := Some (of_Z 50) |};
     completedDrivers := of_Z 3; queuedDrivers := of_Z 0; executionTime := "1s"; elapsedTime := "2s";
     totalCpuTime := "1s"; totalMemoryReservation := "0B"; peakTotalMemoryReservation := "1MB";
     cumulativeUserMemory := of_Z 2000;
     createTime := {| getFullYear := 2021; getMonth := 0; getDate := 5; getHours := 14; getMinutes := 7 |} |}.

Definition sampleHistory : HistoryQuery :=
  {| info := {| Utils.state := "FAILED"; Utils.queryStats := None; Utils.errorType := None; Utils.errorCode := None;
                Utils.failed := Some "USER_ERROR"; Utils.scheduled := false; Utils.memoryPool := None |};
     figures := sampleFigures; h_queryId := "q1"; h_user := "lk"; h_source := None; resource := None;
     catalog := Some "hive"; schemata := None; h_query := "select 1" |}.

Definition sampleState : ListState :=
  {| currentSortType := "creation"; currentSortOrder := DESCENDING; stateFilters := ["failed"];
     errorTypeFilters := ERROR_TYPE; stateSelectAll := false; errorSelectAll := true; searches := [];
     currentPage := 1; pageSize := 10; total := 1 |}.

Definition sampleHeader : Panels.Header.t := Panels.Header.initial Stores.UserStore.getDefaultUser 0.
Definition sampleFooter : ClusterPages.StatusFooter.t := ClusterPages.StatusFooter.initial.

(** The history of one failed query: the menu of the kinds of failure is found. *)
Lemma list_menus_witness :
  exists h, HistoryPage.render sampleHeader sampleFooter (fun _ => false) sampleState [sampleHistory] = Ok h /\
    openMenu HistoryPage.errorElement h = Ok tt.
Proof.
  eexists. split; [reflexivity|].
  destruct (proj1 (list_menus sampleHeader sampleFooter sampleState) (fun _ => false) [sampleHistory] _ eq_refl)
    as (_ & _ & _ & _ & _ & _ & H & _).
  apply H. by vm_compute.
Defined.
