(* ===== verification/TreeMenu.v ===== *)
(** * components/SchemaTree.jsx: the menu of a node and the catalog's dialog

    [renderItem] offers the operations of SchemaTree.v; which of them depends on
    the node's children and on the favourites. *)

From stdpp Require Import relations.
From S2P Require Import Prelude JsString JsMap Panels SchemaActions SchemaTree.

(** The children of an item: none at all (a table), an array, or a function
    that fetches them. *)
Inductive Children := NoChildren | ArrayOf (n : nat) | Function.

(** The module's [flag], set when an item is rendered. *)
Definition flag (children : Children) : bool :=
  match children with NoChildren | ArrayOf 0 => true | _ => false end.

Inductive Entry :=
  | RemoveFromFavorites
  | AddToFavorites
  | ShowColumns
  | PreviewData
  | Refresh
  | ShowCatalogEntry
  | DeleteCatalog
  | UseAsDefault.

#[export] Instance entry_eq_dec : EqDecision Entry.
Proof. solve_decision. Defined.

(** The icon, and whether it is drawn as that of a node without children. *)
Definition getIcon (type : dataType) (flag : bool) : string * bool :=
  match type with
  | TABLE => ("fa-table", false)
  | SCHEMA => ("fa-database", false)
  | CATALOG => ("fa-server", flag)
  | ROOT => ("dashboard", false)
  end.

Section Menu.
Context `{FindIndex}.

(** The star behind the name. *)
Definition star (f : Favourites) (item : Node) : option string :=
  let favorite := isFavorite f item in
  if found favorite then
    Some (if self favorite || bool_decide (type item = TABLE) then "favorite" else "favoriteParent")
  else None.

Definition renderItem (f : Favourites) (item : Node) (children : Children) : list Entry :=
  let favorite := isFavorite f item in
  let favoriteEntry :=
    if found favorite && self favorite && negb (flag children) then RemoveFromFavorites else AddToFavorites in
  if bool_decide (type item = TABLE) then [favoriteEntry; ShowColumns; PreviewData]
  else
    ([favoriteEntry; Refresh] ++
     (if bool_decide (type item = CATALOG) then [ShowCatalogEntry; DeleteCatalog] else []) ++
     (if bool_decide (type item = SCHEMA) then [UseAsDefault] else []))%list.

(** What an entry does to the favourites. *)
Definition choose (e : Entry) (item : Node) (f : Favourites) : Favourites :=
  match e with
  | AddToFavorites => (addToFavorites f item).1
  | RemoveFromFavorites => removeFromFavorites f item
  | _ => f
  end.
End Menu.

(** ** The dialog of a catalog *)

Record Dialog := {
  show : bool;
  catalog_name : string;
  connection_password : option string;
  connector_name : option string;
  url : option string;
  user : option string;
  showObj : list (string * string);
  requests : list string                    (* catalogs asked for *)
}.

Definition initialDialog : Dialog :=
  {| show := false; catalog_name := ""; connection_password := Some ""; connector_name := Some "";
     url := Some ""; user := Some ""; showObj := []; requests := [] |}.

Definition showModal (d : Dialog) : Dialog :=
  {| show := negb (show d); catalog_name := catalog_name d; connection_password := connection_password d;
     connector_name := connector_name d; url := url d; user := user d; showObj := showObj d;
     requests := requests d |}.

(** The request goes out and the dialog is shown at once, with what it had. *)
Definition showCatalog (name : string) (d : Dialog) : Dialog :=
  showModal
    {| show := show d; catalog_name := name; connection_password := connection_password d;
       connector_name := connector_name d; url := url d; user := user d; showObj := showObj d;
       requests := (requests d ++ [name])%list |}.

Definition showUrl (name : string) : string := "../v1/showCatalog/" ++ name.

(** An answer; which request it belongs to makes no difference. *)
Definition onShowList (i : nat) (showList : list (string * string)) (d : Dialog) : Dialog :=
  let showMap := ShowCatalog._objToStrMap showList in
  {| show := show d; catalog_name := catalog_name d;
     connection_password := map_get "connection-password" showMap;
     connector_name := map_get "connector.name" showMap; url := map_get "connection-url" showMap;
     user := map_get "connection-user" showMap; showObj := showList; requests := delete i (requests d) |}.

(** ** Facts *)

Section Facts.
Context `{FindIndexLaw}.
Implicit Types (f : Favourites) (item : Node).

(** A node has children unless it is a table, which has none. *)
Definition children_of item (children : Children) : Prop :=
  match type item with
  | TABLE => children = NoChildren
  | _ => flag children = false
  end.

(** A click on an entry that the menu of an item offers. *)
Inductive click f f' : Prop :=
  | click_entry item children e :
      type item <> ROOT -> children_of item children -> e ∈ renderItem f item children ->
      f' = choose e item f -> click f f'.

Lemma offers_remove f item children :
  type item <> ROOT -> children_of item children ->
  RemoveFromFavorites ∈ renderItem f item children <-> type item <> TABLE /\ is_self f item.
Proof.
  intros Hroot Hc. destruct (isFavorite_spec f item Hroot) as [Hself Hfound]. unfold renderItem.
  assert (Hs : found (isFavorite f item) && self (isFavorite f item) = self (isFavorite f item)).
  { destruct (self (isFavorite f item)); [|by rw andb_false_r]. rw andb_true_r. apply Hfound. left. by apply Hself. }
  rw Hs. unfold children_of in Hc. destruct (type item) eqn:Ht; [done| | |]; cbn -[flag]; rw ?Hc ?andb_true_r.
  1, 2: rw -Hself; clear; destruct (self (isFavorite f item)); cbn; set_solver.
  cbn. rw andb_false_r. clear. set_solver.
Qed.

Lemma choose_tables e item f :
  e ∈ renderItem f item NoChildren \/ type item <> TABLE -> tables f ⊆ tables (choose e item f).
Proof.
  intros He. destruct e; try done; cbn.
  - unfold removeFromFavorites. destruct (type item) eqn:Ht; try done. destruct He as [He|]; [|done].
    apply offers_remove in He as [? _]; [done|by rw Ht|unfold children_of; by rw Ht].
  - unfold addToFavorites. clear. destruct (type item); repeat case_match; cbn; set_solver.
Qed.
End Facts.

(** A favourite table stays one: no sequence of choices from the menus removes a
    table from the favourites, because the entry that removes is offered only
    for nodes with children; for a catalog or a schema with children it is
    offered exactly when the node is a favourite itself, and choosing it ends
    that. *)
Theorem favourite_tables_stay `{FindIndexLaw} f :
  (forall f', rtc click f f' -> tables f ⊆ tables f') /\
  (forall item children,
     type item <> ROOT -> type item <> TABLE -> flag children = false -> no_repeats f ->
     (RemoveFromFavorites ∈ renderItem f item children <-> is_self f item) /\
     ~ is_self (choose RemoveFromFavorites item f) item).
Proof.
  split.
  - induction 1 as [f|f f1 f' [item children e Hroot Hc He ->] _ IH]; [done|]. etrans; [|exact IH].
    apply choose_tables. unfold children_of in Hc. destruct (type item) eqn:Ht; [by right..|].
    rw Hc in He. by left.
  - intros item children Hroot Ht Hc Hnr. split.
    + rw (offers_remove f item children Hroot); [|tauto]. unfold children_of. by destruct (type item).
    + intros Hs. apply (remove_spec f item Hroot Hnr) in Hs as [_ Hs]; [|done]. apply Hs.
      unfold same_id. by destruct (type item).
Qed.

(** Opening the dialog twice closes it, and the answer that arrives last is
    shown under the name chosen last, whichever catalog it is of. *)
Lemma dialog_races first second answer1 answer2 d :
  requests d = [] ->
  let d' := onShowList 0 answer1 (onShowList 1 answer2 (showCatalog second (showCatalog first d))) in
  show d' = show d /\ requests d' = [] /\ catalog_name d' = second /\ showObj d' = answer1.
Proof. intros Hr. cbn. rw Hr negb_involutive. by repeat split. Qed.
