(* ===== verification/SchemaTreeMarkup.v ===== *)
(** * The elements of the schema tree

    What SchemaTree.jsx returns for an item of the tree and around the tree, what
    the entries of an item's menu do, and the colour of the selected table.  The
    tree itself is drawn by a library, the menus too. *)

From stdpp Require Import relations.
From S2P Require Import Prelude JsString JsMap Http RunStore Stores Markup Panels ShellMarkup PanelsMarkup SchemaActions SchemaTree TreeMenu.

(** ** Items *)

(** An item as the tree library hands it over. *)
Record Item := { node : SchemaTree.Node; fqn : string; children : Children }.

Definition iconOf (type : dataType) (flag : bool) : Html :=
  match type with
  | TABLE => el "i" [cls "icon fa fa-table valign-middle"] []
  | SCHEMA => el "i" [cls "icon fa fa-database valign-middle"] []
  | CATALOG =>
      if negb flag then el "i" [cls "icon fa fa-server valign-middle"] []
      else el "i" [cls "icon fa fa-server valign-middle"; style [("marginLeft", "14.5px"); ("color", "gray")]] []
  | ROOT => el "i" [cls "material-icons"] [txt "dashboard"]
  end.

(** The call of an entry. *)
Definition callOf (e : Entry) : string :=
  match e with
  | RemoveFromFavorites => "tree.removeFromFavorites"
  | AddToFavorites => "tree.addToFavorites"
  | ShowColumns => "showColumns"
  | PreviewData => "previewData"
  | Refresh => "tree.refreshItem"
  | ShowCatalogEntry => "tree.showCatalog"
  | DeleteCatalog => "tree.deleteCatalog"
  | UseAsDefault => "QueryActions.setSessionContext"
  end.

Definition menuItem (e : Entry) (icon label : string) : Html :=
  el "MenuItem" ["onClick" =>: callOf e] [el "i" [cls icon] []; el "span" [] [txt label]].

Section Items.
Context `{FindIndex}.

(** The first entry of every menu. *)
Definition favoriteItem (f : Favourites) (item : Item) : Html :=
  let favorite := isFavorite f (node item) in
  if found favorite && self favorite && negb (flag (children item))
  then menuItem RemoveFromFavorites "icon fa fa-minus-square-o valign-middle contextmenu-icons remove-favorite"
         "Remove from Favorites"
  else menuItem AddToFavorites "icon fa fa-star valign-middle contextmenu-icons favorite" "Add to Favorites".

Definition starOf (f : Favourites) (item : Item) : Html :=
  let favorite := isFavorite f (node item) in
  when (found favorite)
    (el "i" [cls (if bool_decide (type (node item) = TABLE) || self favorite
                  then "icon fa fa-star valign-middle schema-tree-icons favorite"
                  else "icon fa fa-star valign-middle schema-tree-icons favoriteParent")] []).

Definition tableStyle (selectedTableName : string) (item : Item) : list (string * string) :=
  if bool_decide (type (node item) = TABLE) && streq (fqn item) selectedTableName then [("color", "#0000ff")] else [].

Definition menuOf (f : Favourites) (item : Item) : Html :=
  if bool_decide (type (node item) = TABLE) then
    el "ContextMenu" ["id" =: fqn item]
      [favoriteItem f item;
       menuItem ShowColumns "icon fa fa-columns valign-middle" "Show columns";
       menuItem PreviewData "icon fa fa-list valign-middle" "Preview data"]
  else
    el "ContextMenu" ["id" =: fqn item]
      [favoriteItem f item;
       menuItem Refresh "icon fa fa-refresh valign-middle" "Refresh";
       when (bool_decide (type (node item) = CATALOG))
         (menuItem ShowCatalogEntry "icon fa fa-file-text-o valign-middle contextmenu-icons show-catalog" "Show Catalog");
       when (bool_decide (type (node item) = CATALOG))
         (menuItem DeleteCatalog "icon fa fa-trash-o valign-middle contextmenu-icons remove-favorite" "Delete Catalog");
       when (bool_decide (type (node item) = SCHEMA))
         (menuItem UseAsDefault "icon fa fa-database valign-middle" "Use as default")].

Definition renderItem (f : Favourites) (selectedTableName : string) (item : Item) : Html :=
  el "a" [style (tableStyle selectedTableName item); "id" =: fqn item]
    [el "ContextMenuTrigger" ["id" =: fqn item]
       [iconOf (type (node item)) (flag (children item)); el "span" [] [txt (name (node item))]; starOf f item];
     menuOf f item].
End Items.

(** ** What the entries do besides the favourites

    The actions sent, in order. *)
Inductive Sent :=
  | SelectInTree (fqn : string)                  (* tree.selectTable *)
  | AddTable (name : string)
  | SelectTable (name : string)
  | SelectLeftPanelTab (tab : Z)
  | SelectTab (tab : Z)
  | RefreshItem
  | ShowCatalogOf (name : string)
  | DeleteCatalogOf (name : string)
  | SetSessionContext (catalog schema : string).

Definition perform (e : Entry) (item : Item) : list Sent :=
  match e with
  | AddToFavorites | RemoveFromFavorites => []
  | ShowColumns =>
      [SelectInTree (fqn item); AddTable (fqn item); SelectTable (fqn item);
       SelectLeftPanelTab TabConstants.LEFT_PANEL_COLUMNS]
  | PreviewData =>
      [SelectInTree (fqn item); AddTable (fqn item); SelectTable (fqn item); SelectTab TabConstants.DATA_PREVIEW]
  | Refresh => [RefreshItem]
  | ShowCatalogEntry => [ShowCatalogOf (name (node item))]
  | DeleteCatalog => [DeleteCatalogOf (name (node item))]
  | UseAsDefault => [SetSessionContext (catalog (node item)) (name (node item))]
  end.

(** The tabs after the actions. *)
Definition tabsAfter (sent : list Sent) (t : TabStore.t) : TabStore.t :=
  fold_left (fun t s => match s with
                        | SelectTab tab => TabStore.onSelectTab tab t
                        | SelectLeftPanelTab tab => TabStore.onSelectLeftPanelTab tab t
                        | _ => t
                        end) sent t.

(** [deleteCatalog]: the question, then the request and its report. *)
Definition deleteCatalog {J} (confirmed : bool) (typeErrorText : string) (sent : result J) (item : Item) :
    option (string * Request * DeleteOutcome) :=
  let msg := deletePrompt (name (node item)) in
  if confirmed then
    Some (msg, deleteCatalogRequest (name (node item)), deleteReport (SchemaActions.deleteCatalog typeErrorText sent))
  else None.

(** ** Around the tree *)

Definition addCatalogContainer (show : bool) (addCatalog : Html) : Html :=
  el "div" []
    [el "button" [cls "btn btn-success btn-lg active addcatalog"; style [("margin", "10px")];
                  "onClick" =>: "AddCatalogContainer.showModal"] [txt "Add Catalog"];
     ModalDialog.render show (txt "Add Catalog") [] [addCatalog]].

Definition renderButtons (container : Html) : Html :=
  el "div" [cls "flex flex-row"; style [("justifyContent", "space-between")]]
    [container;
     el "button" [cls "btn btn-default"; style [("margin", "10px")]; "onClick" =>: "this.updateTree"]
       [el "i" [cls "fa fa-refresh"; style [("top", "3px"); ("color", "#39b0d2"); ("marginRight", "0")]] []]].

(** The library draws [model]; [tree] is what it returns. *)
Definition render {A} (container tree : Html) (model : list A) (d : Dialog) : Html :=
  if (length model =? 0)%nat then
    el "div" [style [("height", "71"); ("minHeight", "71")]] [renderButtons container]
  else
    el "div" []
      [renderButtons container;
       el "div" [style [("height", "calc(100vh - 200px)")]] [el "TreeView" [] [tree]];
       ModalDialog.render (show d) (txt "Show Catalog") []
         [ShowCatalogPage.render {| ShowCatalog.catalog_name := catalog_name d; ShowCatalog.showObj := showObj d |}]].

(** ** The selected table on the page

    [document] of a [Selection] has the colour of each element of a table that is
    there; an element that is drawn has that of its style. *)

Definition BLUE : string := "#0000ff".

(** The items drawn from scratch, each with its identifier. *)
Definition draw (items : list Item) (selectedTableName : string) : Selection :=
  {| document := list_to_map ((fun item => (fqn item, from_option snd "" (hd_error (tableStyle selectedTableName item)))) <$> items);
     selectedTableName := selectedTableName |}.

(** Rendering again changes the colours of the elements whose style is not the
    one of the rendering before. *)
Definition recolour (before now : string) (m : gmap string string) (item : Item) : gmap string string :=
  if bool_decide (tableStyle before item = tableStyle now item) then m
  else <[fqn item := from_option snd "" (hd_error (tableStyle now item))]> m.

Definition redraw (before : string) (items : list Item) (s : Selection) : Selection :=
  {| document := fold_left (recolour before (selectedTableName s)) items (document s);
     selectedTableName := selectedTableName s |}.

Inductive TreeEvent :=
  | Pick (fqn : string)                 (* selectTable *)
  | Drop                                (* unselectTable *)
  | Rebuild (items : list Item)         (* the elements are made anew *)
  | Rerender.                           (* the same elements are rendered *)

(** The page: the elements, the name their styles were rendered with. *)
Record TreePage := { shown : list Item; rendered : string; selection : Selection }.

Definition happen (p : TreePage) (e : TreeEvent) : TreePage :=
  match e with
  | Pick t => {| shown := shown p; rendered := rendered p; selection := selectTable t (selection p) |}
  | Drop => {| shown := shown p; rendered := rendered p; selection := unselectTable (selection p) |}
  | Rebuild items =>
      {| shown := items; rendered := selectedTableName (selection p);
         selection := draw items (selectedTableName (selection p)) |}
  | Rerender =>
      {| shown := shown p; rendered := selectedTableName (selection p);
         selection := redraw (rendered p) (shown p) (selection p) |}
  end.

Definition emptyPage : TreePage :=
  {| shown := []; rendered := ""; selection := {| document := ∅; selectedTableName := "" |} |}.

(** ** Items *)

Section ItemFacts.
Context `{FindIndex}.
Implicit Types (f : Favourites) (item : Item).

(** The menu of an item offers the entries of TreeMenu.v, in their order. *)
Lemma item_menu f selected item :
  handlersOn "onClick" (renderItem f selected item) = callOf <$> TreeMenu.renderItem f (node item) (children item).
Proof.
  unfold TreeMenu.renderItem, renderItem, menuOf, favoriteItem, starOf, iconOf, menuItem.
  destruct (found (isFavorite f (node item)) && self (isFavorite f (node item)) && negb (flag (children item)));
    destruct (type (node item)), (found (isFavorite f (node item))), (flag (children item)); reflexivity.
Qed.

(** Its element, the one looked up by the item's identifier, is drawn blue when
    the item is the selected table. *)
Lemma item_element f selected item :
  exists cs, byId (fqn item) (renderItem f selected item) =
             Some (Element "a" [style (tableStyle selected item); "id" =: fqn item] cs).
Proof.
  eexists. unfold renderItem. rw byId_el. change (attribute "id" _) with (Some (fqn item)). unfold streq.
  rw String.eqb_refl. reflexivity.
Qed.

Lemma item_nested f selected item : wellFormed "div" (renderItem f selected item) = true.
Proof.
  unfold renderItem, menuOf, favoriteItem, starOf, iconOf, menuItem.
  destruct (type (node item)); cbn [bool_decide]; markup.
Qed.

(** The star is there when the item or something below it is a favourite. *)
Lemma item_star f item :
  starOf f item = [] <-> found (isFavorite f (node item)) = false.
Proof. unfold starOf. by destruct (found _). Qed.
End ItemFacts.

(** Showing the columns changes the panel on the left only, the preview the tabs
    below the editor only; no other entry changes a tab. *)
Lemma entry_tabs e item t :
  tabsAfter (perform e item) t =
  match e with
  | ShowColumns => TabStore.onSelectLeftPanelTab TabConstants.LEFT_PANEL_COLUMNS t
  | PreviewData => TabStore.onSelectTab TabConstants.DATA_PREVIEW t
  | _ => t
  end.
Proof. by destruct e. Qed.

(** ** Around the tree *)

(** While a reload has emptied the model, neither the tree nor the dialog is on
    the page; otherwise the dialog is when it is to be shown. *)
Lemma tree_emptied {A} container tree (model : list A) d :
  (model = [] -> render container tree model d =
     el "div" [style [("height", "71"); ("minHeight", "71")]] [renderButtons container]) /\
  (model <> [] -> wellFormed "div" container = true -> wellFormed "TreeView" tree = true ->
     wellFormed "div" (render container tree model d) = true).
Proof.
  split; [by intros ->|]. intros Hm Hc Ht. unfold render. destruct model as [|x model]; [done|]. cbn [length Nat.eqb].
  unfold renderButtons. markup. apply wf_dialog; [done|done|]. apply Forall_singleton, catalog_page.
Qed.

(** ** The selected table *)

(** What may be drawn: tables with identifiers. *)
Definition tablesOnly (items : list Item) : Prop :=
  Forall (fun item => type (node item) = TABLE /\ fqn item <> "") items.
Definition proper (e : TreeEvent) : Prop := match e with Rebuild items => tablesOnly items | _ => True end.

Definition marked (s : Selection) (id color : string) : Prop := color = BLUE <-> id = selectedTableName s.

Record Consistent (p : TreePage) : Prop := {
  c_tables : tablesOnly (shown p);
  c_marked : forall id color, document (selection p) !! id = Some color -> marked (selection p) id color;
  c_present : forall id, is_Some (document (selection p) !! id) <-> id ∈ fqn <$> shown p
}.

Lemma style_marked items item s :
  tablesOnly items -> item ∈ items ->
  marked s (fqn item) (from_option snd "" (hd_error (tableStyle (selectedTableName s) item))).
Proof.
  intros Ht Hi. unfold tablesOnly in Ht. rw Forall_forall in Ht. destruct (Ht item Hi) as [Htype _].
  unfold marked, tableStyle. rw Htype. cbn. destruct (streq_spec (fqn item) (selectedTableName s)) as [->|Hne]; [done|].
  by split.
Qed.

Lemma no_empty_id p : Consistent p -> document (selection p) !! "" = None.
Proof.
  intros [Ht _ Hp]. apply eq_None_not_Some. intros Hs%Hp. apply list_elem_of_fmap in Hs as (item & He & Hi).
  unfold tablesOnly in Ht. rw Forall_forall in Ht. by destruct (Ht item Hi) as [_ []].
Qed.

Lemma unselect_consistent p : Consistent p -> Consistent (happen p Drop).
Proof.
  intros Hc. pose proof (no_empty_id p Hc) as He. destruct Hc as [Ht Hm Hp]. split; [done|..]; cbn [happen selection shown].
  - unfold unselectTable. destruct (streq_spec (selectedTableName (selection p)) "") as [Hs|Hs]; [done|].
    intros id color. unfold marked. cbn [document selectedTableName]. intros Hid.
    assert (id <> "") as Hne.
    { intros ->. destruct (document (selection p) !! selectedTableName (selection p)); [|congruence].
      rw lookup_insert_ne // in Hid. congruence. }
    split; [|done]. intros ->. exfalso. destruct (document (selection p) !! selectedTableName (selection p)) eqn:Hd.
    + destruct (decide (id = selectedTableName (selection p))) as [->|Hi]; [by rw lookup_insert_eq in Hid|].
      rw lookup_insert_ne // in Hid. by apply Hi, (Hm id BLUE).
    + apply Hm in Hid as Hmk; destruct Hmk as [Hi _]. specialize (Hi eq_refl). congruence.
  - intros id. rw -Hp. unfold unselectTable. destruct (streq _ ""); [done|]. cbn [document].
    destruct (document (selection p) !! selectedTableName (selection p)) eqn:Hd; [|done].
    rw lookup_insert_is_Some. destruct (decide (selectedTableName (selection p) = id)) as [<-|]; [|tauto]. rw Hd. split; [by eexists|by left].
Qed.

Lemma unselect_name s : selectedTableName (unselectTable s) = "".
Proof. unfold unselectTable. by destruct (streq_spec (selectedTableName s) ""). Qed.

Lemma pick_consistent p t : Consistent p -> Consistent (happen p (Pick t)).
Proof.
  intros Hc. pose proof (unselect_consistent p Hc) as Hu. pose proof (no_empty_id _ Hu) as Hn. destruct Hu as [Ht Hm Hp].
  cbn [happen selection shown] in *. unfold selectTable. split; [done|..]; cbn [happen selection shown];
    (destruct (document (unselectTable (selection p)) !! t) as [c|] eqn:Hd; [|done]).
  - intros id color. unfold marked. cbn [document selectedTableName].
    destruct (decide (id = t)) as [->|Hi]; [by rw lookup_insert_eq; intros [= <-]|]. rw lookup_insert_ne //.
    intros Hid. apply Hm in Hid as Hmk. unfold marked in Hmk. rw unselect_name in Hmk. split; [|done].
    intros ->. assert (id = "") as -> by by apply Hmk. congruence.
  - intros id. rw -Hp lookup_insert_is_Some. destruct (decide (t = id)) as [<-|]; [|tauto]. rw Hd. split; [by eexists|by left].
Qed.

Lemma rebuild_consistent p items : tablesOnly items -> Consistent (happen p (Rebuild items)).
Proof.
  intros Ht. split; cbn [happen selection shown draw document]; [done|..].
  - intros id color Hid. apply elem_of_list_to_map_2, list_elem_of_fmap in Hid as (item & [= -> ->] & Hi).
    apply (style_marked items item (draw items (selectedTableName (selection p))) Ht Hi).
  - intros id. split.
    + intros [c Hid]. apply elem_of_list_to_map_2, list_elem_of_fmap in Hid as (item & [= -> ->] & Hi).
      apply list_elem_of_fmap. by exists item.
    + intros Hi. apply not_eq_None_Some. rw -not_elem_of_list_to_map -list_fmap_compose. intros Hni. by apply Hni.
Qed.

(** Rendering again gives elements no other colour than their mark. *)
Lemma recolour_marked s before items l (m : gmap string string) :
  tablesOnly items -> l ⊆ items -> (forall id color, m !! id = Some color -> marked s id color) ->
  forall id color, fold_left (recolour before (selectedTableName s)) l m !! id = Some color -> marked s id color.
Proof.
  intros Ht. revert m. induction l as [|item l IH]; intros m Hl Hmk; [done|]. cbn [fold_left]. apply IH; [set_solver|].
  unfold recolour. case_bool_decide; [done|]. intros id' color'. destruct (decide (id' = fqn item)) as [->|Hi].
  - rw lookup_insert_eq. intros [= <-]. apply (style_marked items); [done|set_solver].
  - rw lookup_insert_ne //. apply Hmk.
Qed.

Lemma recolour_present now before items l (m : gmap string string) :
  l ⊆ items -> (forall id, is_Some (m !! id) <-> id ∈ fqn <$> items) ->
  forall id, is_Some (fold_left (recolour before now) l m !! id) <-> id ∈ fqn <$> items.
Proof.
  revert m. induction l as [|item l IH]; intros m Hl Hmk; [done|]. cbn [fold_left]. apply IH; [set_solver|].
  unfold recolour. case_bool_decide; [done|]. intros id'. rw lookup_insert_is_Some -Hmk.
  destruct (decide (fqn item = id')) as [<-|]; [|tauto]. split; [|by left]. intros _. apply Hmk, list_elem_of_fmap.
  exists item. split; [done|set_solver].
Qed.

Lemma happen_consistent p e : Consistent p -> proper e -> Consistent (happen p e).
Proof.
  intros Hc He. destruct e as [t| |items|].
  - by apply pick_consistent.
  - by apply unselect_consistent.
  - by apply rebuild_consistent.
  - destruct Hc as [Ht Hm Hp]. split; cbn [happen selection shown redraw document]; [done|..].
    + intros id color Hid. by apply (recolour_marked (selection p) (rendered p) (shown p) (shown p) (document (selection p))).
    + by apply recolour_present.
Qed.

(** The table that is blue on the page is always the one the component has noted
    as selected, whatever is picked and dropped, whether elements are made anew
    or rendered again; a table that is picked and on the page is the only blue
    one afterwards, and picking one that is not there leaves none. *)
Theorem selection_consistent log :
  Forall proper log ->
  let p := fold_left happen log emptyPage in
  (forall id color, document (selection p) !! id = Some color -> color = BLUE <-> id = selectedTableName (selection p)) /\
  (forall id, is_Some (document (selection p) !! id) <-> id ∈ fqn <$> shown p) /\
  forall t,
    let q := happen p (Pick t) in
    forall id color, document (selection q) !! id = Some color -> color = BLUE <-> id = t.
Proof.
  intros Hlog p. assert (Consistent p) as Hc.
  { subst p. revert Hlog. induction log as [|e log IH] using rev_ind; intros Hlog.
    - split; [by constructor|by intros|]. intros id. cbn. rw elem_of_nil. split; [by intros []|done].
    - apply Forall_app in Hlog as [Hl He]. rw fold_left_app. apply happen_consistent; [by apply IH|]. by inversion He. }
  split; [apply Hc|split; [apply Hc|]]. intros t q id color Hid.
  pose proof (happen_consistent p (Pick t) Hc I) as Hq. fold q in Hq. pose proof (no_empty_id q Hq) as Hn.
  pose proof (c_marked q Hq id color Hid) as Hmk. unfold marked in Hmk. rw Hmk.
  subst q. cbn [happen selection] in *. unfold selectTable in *.
  destruct (document (unselectTable (selection p)) !! t) as [c|] eqn:Hd; cbn [selectedTableName]; [done|].
  rw unselect_name. split; intros ->; congruence.
Qed.
