(* ===== verification/Tableau.v ===== *)
(** * tableau/presto-client.js and tableau/presto-connector.html

    The page a Tableau workbook loads to read a query's result: a client that
    submits the statement and follows the addresses of the answers one after the
    other, and the connector that turns its pages into calls of Tableau.  All
    requests are synchronous, so the code is a sequence of states; the server is
    the parameter of the client, and what the client's owner does with headers,
    rows and errors is an interface. *)

From S2P Require Import Prelude JsString JsNumber JsMap.

(** ** JSON *)

Inductive Json :=
  | JNull
  | JBool (b : bool)
  | JNum (n : num)
  | JStr (s : string)
  | JArr (l : list Json)
  | JObj (fields : list (string * Json)).

Definition hexDigit (n : N) : string :=
  String (ascii_of_N (if (n <? 10)%N then n + 48 else n + 87)%N) "".

(** A code unit in a JSON string. *)
Definition quoteUnit (c : ascii) : string :=
  let n := N_of_ascii c in
  if (n =? 8)%N then "\b" else if (n =? 9)%N then "\t" else if (n =? 10)%N then "\n"
  else if (n =? 12)%N then "\f" else if (n =? 13)%N then "\r"
  else if (n =? 34)%N || (n =? 92)%N then "\" ++ String c ""
  else if (n <? 32)%N then "\u00" ++ hexDigit (n / 16) ++ hexDigit (n mod 16)
  else String c "".

Fixpoint quoteUnits (s : string) : string :=
  match s with EmptyString => "" | String c s => quoteUnit c ++ quoteUnits s end.

Definition quote (s : string) : string := String "034" (quoteUnits s ++ String "034" "").

(** [JSON.stringify] *)
Fixpoint stringify (j : Json) : string :=
  match j with
  | JNull => "null"
  | JBool b => if b then "true" else "false"
  | JNum n => match n with NaN | PInf | NInf => "null" | _ => to_string n end
  | JStr s => quote s
  | JArr l => "[" ++ join "," (map stringify l) ++ "]"
  | JObj fields => "{" ++ join "," (map (fun '(k, v) => quote k ++ ":" ++ stringify v) fields) ++ "}"
  end.

(** [String(j)], which an element's text is set to. *)
Fixpoint text_of (j : Json) : string :=
  match j with
  | JNull => "null"
  | JBool b => if b then "true" else "false"
  | JNum n => to_string n
  | JStr s => s
  | JArr l => join "," (map (fun j => match j with JNull => "" | _ => text_of j end) l)
  | JObj _ => "[object Object]"
  end.

(** ** The client *)

Record Column := { name : string; type : string }.

(** A page of the server's answer. *)
Record Page := {
  error : option (string * option string);       (* errorName, message *)
  columns : option (list Column);
  data : option (list (list Json));
  nextUri : option string
}.

Inductive Reply := Success (p : Page) | Failure (responseText errorStr : string).

Record Headers := {
  X_Presto_User : string;
  X_Presto_Source : string;
  X_Presto_Session : list string;
  X_Presto_Catalog : option string;
  X_Presto_Schema : option string
}.

Inductive Sent := Post (headers : Headers) (query : string) | Get (uri : string) (headers : Headers).

(** What the owner of a client does with what it reads. *)
Class Callbacks (C : Type) := {
  headerCallback : option (list Column) -> C -> result C;
  dataCallback : list (list Json) -> option (list Column) -> Z -> C -> result C;
  errorCallback : string -> option string -> C -> result C
}.

(** The data of a connection; the session's parameters are read of their JSON
    text. *)
Record ConnectionData := {
  cd_query : string;
  cd_catalog : option string;
  cd_schema : option string;
  cd_userName : option string;
  cd_sessionParameters : option (list (string * string))
}.

Definition clientHeaders (cd : ConnectionData) : Headers :=
  {| X_Presto_User := match cd_userName cd with Some u => if streq u "" then "N/A" else u | None => "N/A" end;
     X_Presto_Source := "Tableau Web Connector";
     X_Presto_Session :=
       match cd_sessionParameters cd with
       | Some parameterMap => (fun '(name, value) => name ++ "=" ++ value) <$> parameterMap
       | None => []
       end;
     X_Presto_Catalog := cd_catalog cd;
     X_Presto_Schema := cd_schema cd |}.

(** The address of the next page; an empty one counts as none. *)
Definition next_uri (p : Page) : option string :=
  u ← nextUri p; if streq u "" then None else Some u.

Section Client.
Context {C Sv : Type} `{Callbacks C} (serve : Sv -> Sent -> Sv * Reply).

(** The client, its owner and the server. *)
Record World := {
  server : Sv;
  headers : Headers;
  currentResults : option Page;
  valid : bool;
  owner : C
}.

Definition withOwner (w : World) (c : C) : World :=
  {| server := server w; headers := headers w; currentResults := currentResults w; valid := valid w;
     owner := c |}.

Definition responseHandler (response : Page) (lastRecordNumber : Z) (c : C) : result C :=
  c ← match error response with Some (name, message) => errorCallback name message c | None => Ok c end;
  c ← match columns response with Some _ => headerCallback (columns response) c | None => Ok c end;
  match data response with
  | Some rows =>
      c ← headerCallback (columns response) c;
      dataCallback rows (columns response) lastRecordNumber c
  | None => Ok c
  end.

(** An answer: the current results change only when the request succeeded. *)
Definition onReply (reply : Reply) (lastRecordNumber : Z) (w : World) : result World :=
  match reply with
  | Failure responseText errorStr => withOwner w <$> errorCallback responseText (Some errorStr) (owner w)
  | Success response =>
      withOwner {| server := server w; headers := headers w; currentResults := Some response;
                   valid := valid w; owner := owner w |}
        <$> responseHandler response lastRecordNumber (owner w)
  end.

(** A request and what its callback does. *)
Definition exchange (sent : Sent) (lastRecordNumber : Z) (w : World) : Reply * result World :=
  let '(sv, reply) := serve (server w) sent in
  (reply, onReply reply lastRecordNumber
            {| server := sv; headers := headers w; currentResults := currentResults w; valid := valid w;
               owner := owner w |}).

(** [new StatementClient(connectionData, ...)], which submits the query. *)
Definition submitQuery (cd : ConnectionData) (sv : Sv) (c : C) : result World :=
  (exchange (Post (clientHeaders cd) (cd_query cd)) 0
     {| server := sv; headers := clientHeaders cd; currentResults := None; valid := true; owner := c |}).2.

(** [advance] follows the addresses until a page has data or an error; [None]
    when the fuel does not suffice for the pages without. *)
Fixpoint advance (fuel : nat) (lastRecordNumber : Z) (w : World) : option (result World) :=
  match fuel with
  | O => None
  | S fuel =>
      match r ← currentResults w; next_uri r with
      | None =>
          Some (Ok {| server := server w; headers := headers w; currentResults := currentResults w;
                      valid := false; owner := owner w |})
      | Some uri =>
          match exchange (Get uri (headers w)) lastRecordNumber w with
          | (Success response, Ok w) =>
              if bool_decide (is_Some (data response)) || bool_decide (is_Some (error response))
              then Some (Ok w)
              else advance fuel lastRecordNumber w
          | (_, r) => Some r
          end
      end
  end.

(** [while (client.valid) client.advance(0)], the loop of the lists of catalogs
    and schemas. *)
Fixpoint drain (fuel : nat) (w : World) : option (result World) :=
  if valid w then
    match fuel with
    | O => None
    | S fuel => match advance fuel 0 w with Some (Ok w) => drain fuel w | r => r end
    end
  else Some (Ok w).
End Client.
Arguments World : clear implicits.

(** ** The connector *)

Definition Cell := option Json.                  (* None is undefined *)

(** The calls of Tableau's interface. *)
Inductive TableauCall :=
  | HeadersCallback (fieldNames fieldTypes : list string)
  | DataCallback (rows : list (jsmap string Cell)) (lastRecordNumber : Z) (moreData : bool)
  | AbortWithError (message : string).

(** The page's variables, and the calls made so far. *)
Record Connector := {
  headersPushed : bool;
  getTableDataCalled : bool;
  buffer : list (list (list Json));
  schema : option (list Column);
  errorName : string;
  errorMessage : option string;
  calls : list TableauCall
}.

Definition initialConnector : Connector :=
  {| headersPushed := false; getTableDataCalled := false; buffer := []; schema := None; errorName := "null";
     errorMessage := None; calls := [] |}.

Definition call (e : TableauCall) (g : Connector) : Connector :=
  {| headersPushed := headersPushed g; getTableDataCalled := getTableDataCalled g; buffer := buffer g;
     schema := schema g; errorName := errorName g; errorMessage := errorMessage g;
     calls := (calls g ++ [e])%list |}.

Definition fieldType (columnType : string) : string :=
  if streq columnType "boolean" then "bool" else if streq columnType "date" then "date" else "string".

Definition headersOf (cs : list Column) : TableauCall :=
  HeadersCallback (name <$> cs) ((fun c => fieldType (type c)) <$> cs).

Definition pushHeadersToTableau (columns : option (list Column)) (g : Connector) : Connector :=
  match columns with
  | Some cs =>
      if headersPushed g then g
      else call (headersOf cs)
             {| headersPushed := true; getTableDataCalled := getTableDataCalled g; buffer := buffer g;
                schema := Some cs; errorName := errorName g; errorMessage := errorMessage g; calls := calls g |}
  | None => g
  end.

(** [indexOf(p) === 0] *)
Definition isComplexType (typeName : string) : bool :=
  String.prefix "map" typeName || String.prefix "array" typeName || String.prefix "row" typeName.

(** A field of a row; [JSON.stringify] of undefined is undefined. *)
Definition fieldValue (c : Column) (cell : Cell) : Cell :=
  if isComplexType (type c) then (fun j => JStr (stringify j)) <$> cell else cell.

Definition addField (dataArray : list Json) (row : jsmap string Cell) '(j, c) : jsmap string Cell :=
  map_set (name c) (fieldValue c (dataArray !! j)) row.

Definition rowOf (cs : list Column) (dataArray : list Json) : jsmap string Cell :=
  fold_left (addField dataArray) (imap pair cs) [].

Definition pushDataToTableau (data : list (list Json)) (columns : option (list Column))
    (lastRecordNumber : Z) (g : Connector) : result Connector :=
  if bool_decide (data = []) then Ok g
  else if getTableDataCalled g then
    cs ← member columns id;
    Ok (call (DataCallback (rowOf cs <$> data) lastRecordNumber true) g)
  else
    Ok {| headersPushed := headersPushed g; getTableDataCalled := getTableDataCalled g;
          buffer := (buffer g ++ [data])%list; schema := schema g; errorName := errorName g;
          errorMessage := errorMessage g; calls := calls g |}.

Definition errorHandler (errName : string) (errMessage : option string) (g : Connector) : Connector :=
  {| headersPushed := headersPushed g; getTableDataCalled := getTableDataCalled g; buffer := buffer g;
     schema := schema g; errorName := errName; errorMessage := errMessage; calls := calls g |}.

#[export] Instance connector_callbacks : Callbacks Connector := {
  headerCallback cs g := Ok (pushHeadersToTableau cs g);
  dataCallback := pushDataToTableau;
  errorCallback n m g := Ok (errorHandler n m g)
}.

(** The error message, when it counts as one. *)
Definition failure (g : Connector) : option string :=
  m ← errorMessage g; if streq m "" then None else Some m.

(** [headersPushed || errorMessage] *)
Definition decided (g : Connector) : bool := headersPushed g || bool_decide (is_Some (failure g)).

Section Connect.
Context {Sv : Type} (serve : Sv -> Sent -> Sv * Reply).
Implicit Types w : World Connector Sv.

Fixpoint waitForHeaders (fuel : nat) w : option (result (World Connector Sv)) :=
  if decided (owner w) then Some (Ok w)
  else match fuel with
       | O => None
       | S fuel => match advance serve fuel 0 w with Some (Ok w) => waitForHeaders fuel w | r => r end
       end.

Definition getColumnHeaders (fuel : nat) (connectionData : ConnectionData) (sv : Sv) (g : Connector) :
    option (result (World Connector Sv)) :=
  match submitQuery serve connectionData sv g with
  | Throw e => Some (Throw e)
  | Ok w =>
      match waitForHeaders fuel w with
      | Some (Ok w) =>
          Some (Ok match failure (owner w) with
                   | Some message =>
                       withOwner w (call (AbortWithError ("Error: [" ++ errorName (owner w) ++ "]: " ++ message))
                                      (owner w))
                   | None => w
                   end)
      | r => r
      end
  end.

Definition setCalled (g : Connector) (rest : list (list (list Json))) : Connector :=
  {| headersPushed := headersPushed g; getTableDataCalled := true; buffer := rest; schema := schema g;
     errorName := errorName g; errorMessage := errorMessage g; calls := calls g |}.

(** The buffer first, then the next page with data. *)
Definition getTableData (fuel : nat) (lastRecordNumber : Z) w : option (result (World Connector Sv)) :=
  match buffer (owner w) with
  | page :: rest =>
      let g := setCalled (owner w) rest in
      Some (withOwner w <$> pushDataToTableau page (schema g) lastRecordNumber g)
  | [] =>
      match advance serve fuel lastRecordNumber (withOwner w (setCalled (owner w) [])) with
      | Some (Ok w) =>
          Some (Ok (if valid w then w
                    else withOwner w (call (DataCallback [] lastRecordNumber false) (owner w))))
      | r => r
      end
  end.

(** Tableau asks for the data again and again, with the last record's number. *)
Fixpoint readAll (fuel : nat) (lasts : list Z) w : option (result (World Connector Sv)) :=
  match lasts with
  | [] => Some (Ok w)
  | last :: lasts => match getTableData fuel last w with Some (Ok w) => readAll fuel lasts w | r => r end
  end.
End Connect.

(** ** The form *)

(** The options of a list: text, and whether it is selected, which the code does
    for one schema and for no catalog; [failed] is the connector's
    [errorMessage], which its error handler sets here too. *)
Record Options := { options : list (string * bool); chosen : option string; failed : option string }.

Definition optionOf (chosen : option string) (row : list Json) : string * bool :=
  let text := text_of (JArr row) in (text, bool_decide (chosen = Some text)).

#[export] Instance options_callbacks : Callbacks Options := {
  headerCallback _ o := Ok o;
  dataCallback data _ _ o :=
    Ok {| options := (options o ++ (optionOf (chosen o) <$> data))%list; chosen := chosen o; failed := failed o |};
  errorCallback _ m o := Ok {| options := options o; chosen := chosen o; failed := m |}
}.

Section Form.
Context {Sv : Type} (serve : Sv -> Sent -> Sv * Reply).

Definition populate (fuel : nat) (cd : ConnectionData) (chosen : option string) (sv : Sv) :
    option (result (World Options Sv)) :=
  match submitQuery serve cd sv {| options := []; chosen := chosen; failed := None |} with
  | Ok w => drain serve fuel w
  | r => Some r
  end.

Definition populateCatalogs (fuel : nat) (sv : Sv) : option (result (World Options Sv)) :=
  populate fuel {| cd_query := "show catalogs"; cd_catalog := None; cd_schema := None; cd_userName := None;
                   cd_sessionParameters := None |} None sv.

Definition populateSchemas (fuel : nat) (catalogName : option string) (sv : Sv) :
    option (result (World Options Sv)) :=
  populate fuel {| cd_query := "show schemas"; cd_catalog := catalogName; cd_schema := Some "default";
                   cd_userName := None; cd_sessionParameters := None |} (Some "default") sv.
End Form.

(** The inputs of the session's parameters, names and values in turn; a name
    without its value keeps null. *)
Fixpoint readParameters (inputs : list string) (m : jsmap string (option string)) :
    jsmap string (option string) :=
  match inputs with
  | paramName :: value :: inputs => readParameters inputs (map_set paramName (Some value) (map_set paramName None m))
  | [paramName] => map_set paramName None m
  | [] => m
  end.

(** The form is submitted when every field is filled in. *)
Definition submitForm (query schema catalog userName dataSourceName : string) : result unit :=
  if existsb (fun v => streq v "") [query; schema; catalog; userName; dataSourceName]
  then Throw (ErrorMsg "Please fill in all the fields") else Ok ().
