(* ===== verification/TableauFacts.v ===== *)
(** * The Tableau connector delivers the whole result

    Lemmas and properties of Tableau.v. *)

From S2P Require Import Prelude JsString JsNumber JsMap Tableau.

(** ** The pages of a statement *)

Section Chain.
Context {C Sv : Type} `{Callbacks C} (serve : Sv -> Sent -> Sv * Reply).
Implicit Types (w : World C Sv) (r : Page) (rs : list Page) (c : C).

(** The pages that follow the page [r], every request being answered with one. *)
Inductive follows (hs : Headers) : Sv -> Page -> list Page -> Prop :=
  | follows_end sv r : next_uri r = None -> follows hs sv r []
  | follows_next sv r u sv' r' rs :
      next_uri r = Some u -> serve sv (Get u hs) = (sv', Success r') -> follows hs sv' r' rs ->
      follows hs sv r (r' :: rs).

(** The pages of a query, from the first. *)
Definition answers (cd : ConnectionData) (sv : Sv) r rs : Prop :=
  exists sv', serve sv (Post (clientHeaders cd) (cd_query cd)) = (sv', Success r) /\
              follows (clientHeaders cd) sv' r rs.

(** The client stands at page [r] with [rs] to come. *)
Record at_page w r rs : Prop := {
  at_results : currentResults w = Some r;
  at_follows : follows (headers w) (server w) r rs
}.

(** A page that ends a call of [advance]. *)
Definition stops r : bool := bool_decide (is_Some (data r)) || bool_decide (is_Some (error r)).

(** The pages one call of [advance] handles, the pages left, and whether a page
    ended the call. *)
Fixpoint upTo rs : list Page * list Page * bool :=
  match rs with
  | [] => ([], [], false)
  | r :: rs =>
      if stops r then ([r], rs, true)
      else let '(mid, rest, found) := upTo rs in (r :: mid, rest, found)
  end.

Fixpoint handleAll (last : Z) rs c : result C :=
  match rs with [] => Ok c | r :: rs => c ← responseHandler r last c; handleAll last rs c end.

Lemma upTo_split rs :
  rs = ((upTo rs).1.1 ++ (upTo rs).1.2)%list /\
  ((upTo rs).2 = false -> (upTo rs).1.2 = []) /\ (rs = [] \/ (length (upTo rs).1.2 < length rs)%nat).
Proof.
  induction rs as [|r rs IH]; cbn; [by repeat split; left|]. destruct (stops r); cbn.
  - split; [done|split; [done|right; lia]].
  - destruct (upTo rs) as [[mid rest] found]. cbn in *. destruct IH as (-> & Hf & Hl).
    split; [done|split; [done|]]. right. rw length_app. lia.
Qed.

(** A request at a page: its answer is handled. *)
Lemma exchange_page last w r u r' rs sv' :
  next_uri r = Some u -> serve (server w) (Get u (headers w)) = (sv', Success r') ->
  follows (headers w) sv' r' rs ->
  match responseHandler r' last (owner w) with
  | Throw e => exchange serve (Get u (headers w)) last w = (Success r', Throw e)
  | Ok c => exists w', exchange serve (Get u (headers w)) last w = (Success r', Ok w') /\
              owner w' = c /\ valid w' = valid w /\ at_page w' r' rs
  end.
Proof.
  intros Hu Hs Hf. unfold exchange. rw Hs. cbn. destruct (responseHandler r' last (owner w)); cbn; [|done].
  by eexists.
Qed.

Lemma advance_spec fuel last w r rs :
  at_page w r rs -> (length rs < fuel)%nat ->
  match handleAll last (upTo rs).1.1 (owner w) with
  | Throw e => advance serve fuel last w = Some (Throw e)
  | Ok c => exists w' r', advance serve fuel last w = Some (Ok w') /\ owner w' = c /\
              at_page w' r' (upTo rs).1.2 /\ valid w' = (upTo rs).2 && valid w
  end.
Proof.
  revert w r rs. induction fuel as [|fuel IH]; intros w r rs [Hr Hf] Hlt; [lia|]. cbn [advance].
  rw Hr. cbn [mbind option_bind]. inversion Hf as [sv r0 Hu|sv r0 u sv' r' rs' Hu Hs Hf']; subst; rw Hu.
  - cbn. do 2 eexists. split; [done|]. split; [done|]. split; [by split|done].
  - pose proof (exchange_page last w r u r' rs' sv' Hu Hs Hf') as Hx. cbn [upTo]. cbn [length] in Hlt.
    assert (Hall : (if stops r' then ([r'], rs', true) else let '(mid, rest, found) := upTo rs' in
                      (r' :: mid, rest, found)).1.1 = r' :: (if stops r' then [] else (upTo rs').1.1)).
    { destruct (stops r'); [done|]. by destruct (upTo rs') as [[??]?]. }
    rw Hall. cbn [handleAll]. destruct (responseHandler r' last (owner w)) as [c|e]; [|by rw Hx].
    destruct Hx as (w' & -> & <- & Hv & Hat). fold (stops r'). cbn [mbind result_bind].
    destruct (stops r'); cbn.
    + do 2 eexists. split; [done|]. split; [done|]. split; [exact Hat|done].
    + specialize (IH w' r' rs' Hat ltac:(lia)). destruct (upTo rs') as [[mid rest] found]. cbn in *.
      by rw -Hv.
Qed.

(** More fuel changes nothing. *)
Lemma advance_mono fuel k last w x :
  advance serve fuel last w = Some x -> advance serve (fuel + k) last w = Some x.
Proof.
  revert w. induction fuel as [|fuel IH]; intros w; [done|]. cbn.
  destruct (mbind _ (currentResults w)) as [u|]; [|done].
  destruct (exchange serve (Get u (headers w)) last w) as [[p|] [w'|]]; [|done..].
  destruct (bool_decide (is_Some (data p)) || _); [done|]. apply IH.
Qed.
End Chain.

(** ** The headers *)

(** The message of an error, when it counts as one. *)
Definition message (r : Page) : option string :=
  '(_, m) ← error r; m ← m; if streq m "" then None else Some m.

(** A page after which Tableau can be told something: it has columns, or an
    error with a message. *)
Definition decisive (r : Page) : bool := bool_decide (is_Some (columns r)) || bool_decide (is_Some (message r)).

(** The callbacks, by the flags they leave. *)
Lemma pushHeaders_flags cs g :
  let g' := pushHeadersToTableau cs g in
  headersPushed g' = headersPushed g || bool_decide (is_Some cs) /\ failure g' = failure g /\
  getTableDataCalled g' = getTableDataCalled g /\ buffer g' = buffer g.
Proof. unfold pushHeadersToTableau. destruct cs as [cs|]; cbn; [|by rw orb_false_r]. destruct (headersPushed g) eqn:Hp; cbn; by rw ?Hp. Qed.

Lemma pushData_early d cs last g :
  getTableDataCalled g = false ->
  exists g', pushDataToTableau d cs last g = Ok g' /\ headersPushed g' = headersPushed g /\
    failure g' = failure g /\ getTableDataCalled g' = false.
Proof.
  intros Hc. unfold pushDataToTableau. case_bool_decide; [by exists g|]. rw Hc. by eexists.
Qed.

(** What a page leaves before Tableau has asked for data. *)
Lemma early_page r g :
  getTableDataCalled g = false ->
  exists g', responseHandler r 0 g = Ok g' /\ getTableDataCalled g' = false /\
    headersPushed g' = headersPushed g || bool_decide (is_Some (columns r)) /\
    failure g' = match error r with Some _ => message r | None => failure g end.
Proof.
  intros Hc. unfold responseHandler. cbn [headerCallback dataCallback errorCallback connector_callbacks].
  set (g1 := match error r with Some (n, m) => errorHandler n m g | None => g end).
  assert (H1 : headersPushed g1 = headersPushed g /\ getTableDataCalled g1 = false /\
               failure g1 = match error r with Some _ => message r | None => failure g end).
  { unfold g1, message. by destruct (error r) as [[n m]|]. }
  replace (match error r with Some (name, message) => Ok (errorHandler name message g) | None => Ok g end)
    with (Ok g1) by (unfold g1; by destruct (error r) as [[??]|]).
  cbn [mbind result_bind]. destruct H1 as (<- & Hc1 & <-). clearbody g1. clear Hc g.
  destruct (pushHeaders_flags (columns r) g1) as (Hp & Hf & Hc & _).
  set (g2 := pushHeadersToTableau (columns r) g1) in *.
  replace (match columns r with Some _ => Ok g2 | None => Ok g1 end) with (Ok g2)
    by (unfold g2; by destruct (columns r)).
  cbn [mbind result_bind]. rw Hc1 in Hc. clearbody g2. destruct (data r) as [d|]; [|by exists g2].
  destruct (pushHeaders_flags (columns r) g2) as (Hp3 & Hf3 & Hc3 & _). rw Hc in Hc3.
  destruct (pushData_early d (columns r) 0 _ Hc3) as (g' & -> & Hp' & Hf' & Hc').
  exists g'. split; [done|]. rw Hp' Hp3 Hp Hf' Hf3 Hf. split; [done|]. split; [|done].
  by rw -orb_assoc orb_diag.
Qed.

Lemma failure_message g : decided g = false -> headersPushed g = false /\ failure g = None.
Proof. unfold decided. intros [Hp Hf]%orb_false_iff. split; [done|]. by destruct (failure g). Qed.

Lemma early_pages rs g :
  getTableDataCalled g = false -> failure g = None ->
  exists g', handleAll 0 (upTo rs).1.1 g = Ok g' /\ getTableDataCalled g' = false /\
    decided g' = headersPushed g || existsb decisive (upTo rs).1.1.
Proof.
  revert g. induction rs as [|r rs IH]; intros g Hc Hf.
  { exists g. split; [done|split; [done|]]. unfold decided. by rw Hf. }
  destruct (early_page r g Hc) as (g1 & Hr & Hc1 & Hp1 & Hf1). cbn [upTo].
  assert (Hd : decided g1 = headersPushed g || decisive r).
  { unfold decided, decisive. rw Hp1 Hf1 -orb_assoc. f_equal. f_equal. unfold message. rw Hf. by destruct (error r). }
  destruct (stops r) eqn:Hs.
  - exists g1. cbn [handleAll fst existsb]. rw Hr orb_false_r. by split.
  - unfold stops in Hs. apply orb_false_iff in Hs as [_ Hs]. destruct (error r) as [|] eqn:He; [done|].
    destruct (IH g1) as (g' & Hall & Hc' & Hd'); [done|by rw Hf1|].
    destruct (upTo rs) as [[mid rest] found]. cbn in *. exists g'. rw Hr. split; [done|split; [done|]].
    rw Hd' Hp1. unfold decisive at 2. unfold message. rw He. cbn. by rw orb_false_r orb_assoc.
Qed.

Section Connect.
Context {Sv : Type} (serve : Sv -> Sent -> Sv * Reply).
Implicit Types w : World Connector Sv.

(** The loop of [getColumnHeaders] at a page. *)
Lemma wait_decides fuel w r rs :
  at_page serve w r rs -> getTableDataCalled (owner w) = false -> (S (length rs) < fuel)%nat ->
  decided (owner w) || existsb decisive rs = true -> exists w', waitForHeaders serve fuel w = Some (Ok w').
Proof.
  revert w r rs. induction fuel as [|fuel IH]; intros w r rs Hat Hc Hlt Hd; [lia|]. cbn [waitForHeaders].
  destruct (decided (owner w)) eqn:Hdw; [by exists w|]. apply failure_message in Hdw as [Hp Hf].
  destruct (early_pages rs (owner w) Hc Hf) as (g' & Hall & Hc' & Hd').
  pose proof (advance_spec serve fuel 0 w r rs Hat ltac:(lia)) as Ha. rw Hall in Ha.
  destruct Ha as (w' & r' & -> & <- & Hat' & _). destruct (upTo_split rs) as (Hrs & _ & Hlen).
  apply (IH w' r' _ Hat' Hc').
  - destruct Hlen as [->|]; [cbn in *; lia|lia].
  - rw Hd' Hp. cbn. cbn in Hd. rw Hrs in Hd. by rw existsb_app in Hd.
Qed.

Lemma wait_spins fuel w r rs :
  at_page serve w r rs -> getTableDataCalled (owner w) = false ->
  decided (owner w) || existsb decisive rs = false -> waitForHeaders serve fuel w = None.
Proof.
  revert w r rs. induction fuel as [|fuel IH]; intros w r rs Hat Hc [Hdw Hd]%orb_false_iff;
    cbn [waitForHeaders]; rw Hdw; [done|].
  apply failure_message in Hdw as [Hp Hf]. destruct (early_pages rs (owner w) Hc Hf) as (g' & Hall & Hc' & Hd').
  pose proof (advance_spec serve (fuel + S (length rs)) 0 w r rs Hat ltac:(lia)) as Hs. rw Hall in Hs.
  destruct Hs as (w' & r' & Hs & <- & Hat' & _).
  destruct (advance serve fuel 0 w) as [x|] eqn:Ha; [|done].
  apply (advance_mono serve fuel (S (length rs))) in Ha. rw Hs in Ha. injection Ha as <-.
  apply (IH w' r' _ Hat' Hc'). rw Hd' Hp. cbn.
  destruct (upTo_split rs) as (Hrs & _). rw Hrs in Hd. by rw existsb_app in Hd.
Qed.

(** The client after its first answer. *)
Lemma submitted cd sv r rs :
  answers serve cd sv r rs ->
  exists w, submitQuery serve cd sv initialConnector = Ok w /\ at_page serve w r rs /\
    getTableDataCalled (owner w) = false /\ decided (owner w) = decisive r /\
    responseHandler r 0 initialConnector = Ok (owner w).
Proof.
  intros (sv' & Hp & Hf). unfold submitQuery, exchange. cbn [server]. rw Hp. cbn [snd onReply owner].
  destruct (early_page r initialConnector eq_refl) as (g & Hr & Hc & Hpd & Hfl). rw Hr. cbn.
  eexists. split; [done|]. split; [by split|]. cbn. split; [done|]. split; [|done].
  unfold decided, decisive. rw Hpd Hfl. cbn. f_equal. unfold message. by destruct (error r).
Qed.

(** C19.  [getColumnHeaders], which Tableau calls first, comes to an end exactly
    when one of the pages of the query has columns or an error with a message;
    then a number of steps above the number of pages is enough.  Otherwise its
    loop, which does not ask whether the client is used up, never ends, and the
    page hangs, since all its requests are synchronous. *)
Theorem headers_terminate cd sv r rs :
  answers serve cd sv r rs ->
  (existsb decisive (r :: rs) = true ->
     forall fuel, (S (length rs) < fuel)%nat ->
       exists w, getColumnHeaders serve fuel cd sv initialConnector = Some (Ok w)) /\
  (existsb decisive (r :: rs) = false ->
     forall fuel, getColumnHeaders serve fuel cd sv initialConnector = None).
Proof.
  intros (w & Hw & Hat & Hc & Hd & _)%submitted. unfold getColumnHeaders. rw Hw. cbn [existsb]. rw -Hd.
  split; intros Hx fuel.
  - intros Hlt. destruct (wait_decides fuel w r rs Hat Hc Hlt Hx) as [w' ->]. by eexists.
  - by rw (wait_spins fuel w r rs Hat Hc Hx).
Qed.
End Connect.

(** ** The rows *)

Section Rows.
Context {Sv : Type} (serve : Sv -> Sent -> Sv * Reply) (cols : list Column).
Implicit Types w : World Connector Sv.

(** A page of a query with columns [cols] that does not fail: rows come with the
    columns, and a page without rows has no data. *)
Record regular (r : Page) : Prop := {
  regular_error : error r = None;
  regular_columns : columns r = None \/ columns r = Some cols;
  regular_data d : data r = Some d -> d <> [] /\ columns r = Some cols
}.

Definition hasColumns (r : Page) : bool := bool_decide (is_Some (columns r)).

(** The connector once it has handled the pages [done] and Tableau has not asked
    for data. *)
Record early (g : Connector) (done : list Page) : Prop := {
  early_called : getTableDataCalled g = false;
  early_message : errorMessage g = None;
  early_buffer : buffer g = omap data done;
  early_pushed : headersPushed g = existsb hasColumns done;
  early_calls : calls g = if headersPushed g then [headersOf cols] else [];
  early_schema : headersPushed g = true -> schema g = Some cols
}.

Lemma existsb_snoc {A} (p : A -> bool) l x : existsb p (l ++ [x])%list = existsb p l || p x.
Proof. rw existsb_app. cbn. by rw orb_false_r. Qed.

Lemma omap_snoc {A B} (f : A -> option B) l x :
  omap f (l ++ [x])%list = (omap f l ++ match f x with Some y => [y] | None => [] end)%list.
Proof. rw omap_app. cbn. by destruct (f x). Qed.

Lemma push_again cs g : headersPushed g = true -> pushHeadersToTableau cs g = g.
Proof. intros Hp. unfold pushHeadersToTableau. rw Hp. by destruct cs. Qed.

(** Columns before Tableau has asked for data. *)
Lemma push_early g done :
  early g done ->
  let g' := pushHeadersToTableau (Some cols) g in
  getTableDataCalled g' = false /\ errorMessage g' = None /\ buffer g' = omap data done /\
  headersPushed g' = true /\ calls g' = [headersOf cols] /\ schema g' = Some cols.
Proof.
  intros [Hc Hm Hb _ Hk Hs]. cbn. destruct (headersPushed g) eqn:Hp; cbn; [by rw Hs|]. by rw Hk.
Qed.

#[local] Arguments pushHeadersToTableau : simpl never.

Lemma early_step g done r :
  early g done -> regular r ->
  exists g', responseHandler r 0 g = Ok g' /\ early g' (done ++ [r]).
Proof.
  intros Hg [He Hcol Hd]. unfold responseHandler. rw He. cbn. destruct Hcol as [Hcol|Hcol]; rw Hcol.
  - destruct (data r) as [d|] eqn:Hdata; [destruct (Hd d eq_refl); congruence|]. exists g. split; [done|].
    destruct Hg. split; try done; rw ?existsb_snoc ?omap_snoc /hasColumns ?Hdata ?Hcol.
    + by rw app_nil_r.
    + by rw orb_false_r.
  - cbn. destruct (push_early g done Hg) as (Hc & Hm & Hb & Hp & Hk & Hs).
    set (g1 := pushHeadersToTableau (Some cols) g) in *. clearbody g1.
    assert (Hh : existsb hasColumns (done ++ [r]) = true).
    { rw existsb_snoc /hasColumns Hcol. by rw orb_true_r. }
    destruct (data r) as [d|] eqn:Hdata; cbn.
    + destruct (Hd d eq_refl) as [Hne _]. rw push_again //. unfold pushDataToTableau.
      rw bool_decide_eq_false_2 // Hc. eexists. split; [done|].
      split; cbn; rw ?Hp ?omap_snoc ?Hdata ?Hb ?Hh; done.
    + exists g1. split; [done|]. split; rw ?Hp ?omap_snoc ?Hdata ?Hb ?Hh ?app_nil_r; done.
Qed.

Lemma regular_stops r : regular r -> stops r = bool_decide (is_Some (data r)).
Proof. intros [He _ _]. unfold stops. rw He. by rw orb_false_r. Qed.

Lemma early_all rs g done :
  early g done -> Forall regular rs -> exists g', handleAll 0 rs g = Ok g' /\ early g' (done ++ rs).
Proof.
  revert g done. induction rs as [|r rs IH]; intros g done Hg Hrs; cbn.
  { exists g. by rw app_nil_r. }
  inversion Hrs as [|? ? Hr Hrs']; subst. destruct (early_step g done r Hg Hr) as (g1 & -> & Hg1).
  cbn. destruct (IH g1 _ Hg1 Hrs') as (g' & Hall & Hg'). exists g'. by rw -app_assoc in Hg'.
Qed.

(** The client when Tableau has its headers: the pages whose rows it has not
    been given are those of the buffer and those to come. *)
Record ready (fuel : nat) w (pages : list (list (list Json))) (made : list TableauCall) : Prop := {
  ready_pages : exists r rs, at_page serve w r rs /\ Forall regular rs /\ (length rs < fuel)%nat /\
                  (valid w = true \/ rs = []) /\ pages = (buffer (owner w) ++ omap data rs)%list;
  ready_buffer : Forall (fun d => d <> []) (buffer (owner w));
  ready_pushed : headersPushed (owner w) = true;
  ready_schema : schema (owner w) = Some cols;
  ready_calls : calls (owner w) = made
}.

Lemma early_ready fuel w r rs done :
  at_page serve w r rs -> early (owner w) done -> Forall regular done -> Forall regular rs ->
  (length rs < fuel)%nat -> valid w = true \/ rs = [] -> headersPushed (owner w) = true ->
  ready fuel w (omap data (done ++ rs)%list) [headersOf cols].
Proof.
  intros Hat [Hc Hm Hb Hp Hk Hs] Hd Hrs Hlt Hv Hpush. split; [|rw Hb|done|by apply Hs|by rw Hk Hpush].
  - exists r, rs. split_and!; try done. by rw omap_app Hb.
  - clear -Hd. induction Hd as [|x l [_ _ Hx] Hl IH]; cbn; [constructor|].
    destruct (data x) as [d|]; [|done]. constructor; [by apply Hx|done].
Qed.

(** [getColumnHeaders] reads pages until one has the columns. *)
Lemma wait_ready fuel F w r rs done :
  at_page serve w r rs -> early (owner w) done -> Forall regular done -> Forall regular rs ->
  (S (length rs) < fuel)%nat -> (length rs < F)%nat -> valid w = true \/ rs = [] ->
  existsb hasColumns (done ++ rs)%list = true ->
  exists w', waitForHeaders serve fuel w = Some (Ok w') /\ failure (owner w') = None /\
    ready F w' (omap data (done ++ rs)%list) [headersOf cols].
Proof.
  revert w r rs done. induction fuel as [|fuel IH]; intros w r rs done Hat He Hd Hrs Hlt HF Hv Hh; [lia|].
  assert (Hfail : failure (owner w) = None) by (unfold failure; by rw (early_message _ _ He)).
  cbn [waitForHeaders]. unfold decided. rw Hfail orb_false_r. destruct (headersPushed (owner w)) eqn:Hp.
  { exists w. split; [done|]. split; [done|]. by apply (early_ready F w r). }
  pose proof (advance_spec serve fuel 0 w r rs Hat ltac:(lia)) as Ha.
  destruct (upTo_split rs) as (Hsplit & Hfound & Hlen).
  destruct (upTo rs) as [[mid rest] found]. cbn [fst snd] in *. subst rs.
  apply Forall_app in Hrs as [Hmid Hrest]. destruct (early_all _ _ _ He Hmid) as (g & Hall & Hg).
  rw Hall in Ha. destruct Ha as (w' & r' & -> & <- & Hat' & Hv').
  assert (Hl : (length rest < fuel)%nat /\ (length rest < F)%nat /\ (S (length rest) < fuel)%nat).
  { destruct Hlen as [Hnil|]; [|lia]. rw Hnil app_nil_r in Hh. by rw -(early_pushed _ _ He) Hp in Hh. }
  rw app_assoc in Hh. rw app_assoc. apply (IH w' r'); try tauto; [by apply Forall_app|].
  rw Hv'. destruct found; [|by right; apply Hfound]. destruct Hv as [->|Hnil]; [by left|].
  right. by apply app_eq_nil in Hnil as [_ ->].
Qed.

(** The pages that one call of [advance] handles once Tableau asks for data. *)
Lemma late_pages last rs g :
  Forall regular rs -> headersPushed g = true -> getTableDataCalled g = true ->
  match omap data rs with
  | [] => handleAll last (upTo rs).1.1 g = Ok g /\ (upTo rs).2 = false
  | d :: ds =>
      handleAll last (upTo rs).1.1 g = Ok (call (DataCallback (rowOf cols <$> d) last true) g) /\
      (upTo rs).2 = true /\ omap data (upTo rs).1.2 = ds
  end.
Proof.
  intros Hrs Hp Hc. induction Hrs as [|r rs Hr Hrs IH]; [done|]. cbn [upTo omap list_omap].
  rw (regular_stops r Hr). destruct Hr as [He _ Hd].
  assert (Hr : responseHandler r last g =
               match data r with
               | Some d => Ok (call (DataCallback (rowOf cols <$> d) last true) g) | None => Ok g end).
  { unfold responseHandler. rw He. cbn. rw !push_again //. destruct (data r) as [d|] eqn:Hdata.
    - destruct (Hd d eq_refl) as [Hne ->]. cbn. rw push_again //. unfold pushDataToTableau.
      by rw bool_decide_eq_false_2 // Hc.
    - by destruct (columns r). }
  destruct (data r) as [d|] eqn:Hdata.
  - cbn. by rw Hr.
  - cbn in *. destruct (upTo rs) as [[mid rest] found]. cbn in *. by rw Hr.
Qed.
(** The call that answers one request for data, by the pages to come. *)
Definition served (pages : list (list (list Json))) (last : Z) : TableauCall :=
  match pages with
  | d :: _ => DataCallback (rowOf cols <$> d) last true
  | [] => DataCallback [] last false
  end.

Lemma getTableData_ready fuel last w pages made :
  ready fuel w pages made ->
  exists w', getTableData serve fuel last w = Some (Ok w') /\
    ready fuel w' (tail pages) (made ++ [served pages last]).
Proof.
  intros [(r & rs & Hat & Hrs & Hlt & Hv & ->) Hb Hp Hs Hk]. unfold getTableData.
  destruct (buffer (owner w)) as [|d ds] eqn:Hbuf; cbn [app].
  - set (w0 := withOwner w (setCalled (owner w) [])).
    pose proof (advance_spec serve fuel last w0 r rs ltac:(destruct Hat; by split) Hlt) as Ha.
    destruct (upTo_split rs) as (Hsplit & Hfound & Hlen).
    pose proof (late_pages last rs (owner w0) Hrs Hp eq_refl) as Hpages.
    destruct (upTo rs) as [[mid rest] found]. cbn [fst snd] in *.
    assert (Hrest : Forall regular rest) by (rw Hsplit in Hrs; by apply Forall_app in Hrs as [_ ?]).
    assert (Hlt' : (length rest < fuel)%nat) by (rw Hsplit length_app in Hlt; lia).
    destruct (omap data rs) as [|d ds] eqn:Hdata.
    + destruct Hpages as [Hall ->]. rw Hall in Ha. destruct Ha as (w' & r' & -> & Ho & Hat' & ->).
      eexists. split; [done|]. cbn [andb]. rw Ho. split; cbn; try done; [|by rw Hk].
      exists r', rest. rw Hfound //. rw Hfound // in Hat' Hlt' Hrest. split_and!; try done; [|by right].
      destruct Hat'. by split.
    + destruct Hpages as (Hall & -> & Hds). rw Hall in Ha. destruct Ha as (w' & r' & -> & Ho & Hat' & Hv').
      assert (Hvw : valid w' = true) by (rw Hv'; destruct Hv as [Hvt|Hnil]; [done|by subst rs]).
      eexists. split; [done|]. rw Hvw. split; rw ?Ho; cbn; try done; [|by rw Hk].
      exists r', rest. split_and!; try done. by left.
  - inversion Hb as [|? ? Hd Hds]; subst. cbn [setCalled schema]. unfold pushDataToTableau. rw bool_decide_eq_false_2 //.
    cbn. rw Hs. cbn. eexists. split; [done|]. split; cbn; try done.
    exists r, rs. split_and!; try done. destruct Hat. by split.
Qed.

Lemma readAll_ready fuel lasts w pages made :
  ready fuel w pages made ->
  exists w', readAll serve fuel lasts w = Some (Ok w') /\
    calls (owner w') = (made ++ imap (fun i last => served (drop i pages) last) lasts)%list.
Proof.
  revert w pages made. induction lasts as [|last lasts IH]; intros w pages made Hw; cbn.
  { exists w. rw app_nil_r. split; [done|]. by destruct Hw. }
  destruct (getTableData_ready fuel last w pages made Hw) as (w1 & -> & Hw1).
  destruct (IH w1 _ _ Hw1) as (w' & Hr & Hc). exists w'. split; [done|]. rw Hc -app_assoc. cbn. do 2 f_equal.
  apply imap_ext. intros i x _. cbn. by destruct pages; rw ?drop_nil.
Qed.

(** C4.  Tableau gets the whole result of a query that does not fail, in the
    order of the server, each page once: after [getColumnHeaders] it has the
    columns, with the types it knows, exactly once, and the n-th call of
    [getTableData] brings the n-th page that has rows, as objects that
    have the columns' names, whatever pages without rows lie between; the call
    after the last page, and every later one, says that there are no more rows. *)
Theorem tableau_complete cd sv r rs fuel lasts :
  answers serve cd sv r rs -> Forall regular (r :: rs) -> existsb hasColumns (r :: rs) = true ->
  (S (length rs) < fuel)%nat ->
  exists w w',
    getColumnHeaders serve fuel cd sv initialConnector = Some (Ok w) /\
    calls (owner w) = [headersOf cols] /\
    readAll serve fuel lasts w = Some (Ok w') /\
    calls (owner w') =
      headersOf cols :: imap (fun i last => served (drop i (omap data (r :: rs))) last) lasts.
Proof.
  intros (w0 & Hw0 & Hat & Hc & _ & Hr)%submitted Hreg Hh Hlt.
  inversion Hreg as [|? ? Hr0 Hrs]; subst.
  destruct (early_step initialConnector [] r) as (g & Hg & He); [by split|done|].
  rw Hr in Hg. injection Hg as <-. assert (Hv : valid w0 = true).
  { revert Hw0. unfold submitQuery, exchange. cbn. destruct (serve sv _) as [sv' [p|? ?]]; cbn; [|by intros [= <-]].
    destruct (responseHandler p 0 initialConnector); cbn; [by intros [= <-]|done]. }
  destruct (wait_ready fuel fuel w0 r rs [r]) as (w & Hw & Hf & Hready); try done; [by constructor|lia|by left|].
  destruct (readAll_ready fuel lasts w _ _ Hready) as (w' & Hw' & Hcalls).
  exists w, w'. unfold getColumnHeaders. rw Hw0 Hw Hf. split; [done|]. split; [by destruct Hready|].
  split; [done|exact Hcalls].
Qed.
End Rows.

(** ** What the rows do not say *)

Section Silent.
Context {Sv : Type} (serve : Sv -> Sent -> Sv * Reply).
Implicit Types w : World Connector Sv.

(** A failure after the headers is never reported: when the next page, or
    the request for it, brings an error and no rows, [getTableData] makes no call
    at all, neither with rows nor with the end of them nor with the error, and
    leaves the error to a variable that only [getColumnHeaders] reads.  So it is
    with a page that has an empty list of rows. *)
Theorem getTableData_silent fuel last w r u sv reply :
  buffer (owner w) = [] -> headersPushed (owner w) = true -> valid w = true ->
  currentResults w = Some r -> next_uri r = Some u -> serve (server w) (Get u (headers w)) = (sv, reply) ->
  match reply with
  | Success p => data p = Some [] \/ (data p = None /\ is_Some (error p))
  | Failure _ _ => True
  end ->
  exists w', getTableData serve (S fuel) last w = Some (Ok w') /\ calls (owner w') = calls (owner w).
Proof.
  intros Hb Hp Hv Hr Hu Hs Hreply. unfold getTableData. rw Hb. cbn [advance withOwner currentResults].
  rw Hr. cbn [mbind option_bind]. rw Hu. unfold exchange. cbn [server headers withOwner]. rw Hs.
  destruct reply as [p|text err].
  - set (g := setCalled (owner w) []).
    assert (Hg : exists g', responseHandler p last g = Ok g' /\ calls g' = calls (owner w)).
    { unfold responseHandler. destruct (error p) as [[n m]|]; destruct Hreply as [Hd|[Hd [? [=]]]]; rw Hd; cbn;
        (destruct (columns p); cbn; rw ?Hp; cbn; rw ?Hp; by eexists). }
    destruct Hg as (g' & Hg & Hg'). unfold onReply. cbn [owner withOwner currentResults valid]. fold g. rw Hg.
    cbn. destruct Hreply as [Hd|[Hd He]]; rw Hd; cbn; rw ?bool_decide_eq_true_2 //; cbn.
    + eexists. split; [done|]. rw Hv. exact Hg'.
    + eexists. split; [done|]. rw Hv. exact Hg'.
  - cbn. eexists. split; [done|]. by rw Hv.
Qed.
End Silent.

(** The cell of a column. *)
Lemma rowOf_field cs dataArray j c :
  NoDup (name <$> cs) -> cs !! j = Some c -> map_get (name c) (rowOf cs dataArray) = Some (fieldValue c (dataArray !! j)).
Proof.
  intros Hnd Hj. unfold rowOf. induction cs as [|c' cs IH] using rev_ind; [done|].
  rw imap_app fold_left_app. cbn. rw Nat.add_0_r map_get_set. rw fmap_app in Hnd.
  apply lookup_app_Some in Hj as [Hj|[Hlen Hj]].
  - rw decide_False; [|apply IH; [by apply NoDup_app in Hnd as [? _]|done]].
    intros Heq. apply NoDup_app in Hnd as (_ & Hdisj & _). apply (Hdisj (name c)).
    + apply list_elem_of_fmap. exists c. split; [done|]. by apply list_elem_of_lookup_2 in Hj.
    + cbn. rw Heq. by left.
  - destruct (j - length cs)%nat as [|n] eqn:Hn; [|by destruct n]. cbn in Hj. injection Hj as ->.
    rw decide_True //. do 2 f_equal. f_equal. lia.
Qed.

(** ** The lists of the form *)

Section Lists.
Context {Sv : Type} (serve : Sv -> Sent -> Sv * Reply).
Implicit Types w : World Options Sv.

Definition rowsOf (rs : list Page) : list (list Json) := concat (omap data rs).

Lemma options_all rs o :
  Forall (fun r => error r = None) rs ->
  exists o', handleAll 0 rs o = Ok o' /\ chosen o' = chosen o /\ failed o' = failed o /\
    options o' = (options o ++ (optionOf (chosen o) <$> rowsOf rs))%list.
Proof.
  intros Hrs. revert o. induction Hrs as [|r rs He Hrs IH]; intros o.
  { exists o. by rw app_nil_r. }
  assert (Hr : exists o', responseHandler r 0 o = Ok o' /\ chosen o' = chosen o /\ failed o' = failed o /\
    options o' = (options o ++ (optionOf (chosen o) <$> rowsOf [r]))%list).
  { unfold responseHandler, rowsOf. rw He. cbn. destruct (columns r), (data r) as [d|]; cbn; eexists;
      (split; [done|]); by rw ?app_nil_r. }
  destruct Hr as (o1 & Ho1 & Hc1 & Hf1 & Hp1). cbn [handleAll]. rw Ho1. cbn [mbind result_bind].
  destruct (IH o1) as (o' & -> & Hc & Hf & Ho). exists o'. rw Hc Hf Ho Hc1 Hf1 Hp1 -app_assoc -fmap_app.
  split_and!; try done. do 2 f_equal. unfold rowsOf. cbn. destruct (data r); cbn; by rw ?app_nil_r.
Qed.

Lemma drain_all fuel w r rs :
  at_page serve w r rs -> Forall (fun r => error r = None) rs -> (S (length rs) < fuel)%nat -> valid w = true ->
  exists w', drain serve fuel w = Some (Ok w') /\
    options (owner w') = (options (owner w) ++ (optionOf (chosen (owner w)) <$> rowsOf rs))%list.
Proof.
  revert w r rs. induction fuel as [|fuel IH]; intros w r rs Hat He Hlt Hv; [lia|]. cbn [drain]. rw Hv.
  pose proof (advance_spec serve fuel 0 w r rs Hat ltac:(lia)) as Ha.
  destruct (upTo_split rs) as (Hsplit & Hfound & Hlen). rw Hv in Ha.
  assert (Hmid : Forall (fun r => error r = None) (upTo rs).1.1 /\ Forall (fun r => error r = None) (upTo rs).1.2).
  { apply Forall_app. by rw -Hsplit. }
  destruct Hmid as [Hmid Hrest]. destruct (options_all _ (owner w) Hmid) as (o & Hall & Hc & Hf & Ho).
  rw Hall in Ha. destruct Ha as (w' & r' & -> & Hw' & Hat' & Hv'). rw Hsplit /rowsOf omap_app concat_app fmap_app app_assoc.
  rw -Hw' in Ho Hc. rw -Hc -app_assoc. fold (rowsOf (upTo rs).1.1) (rowsOf (upTo rs).1.2). rw app_assoc. rw Hc -Ho -Hc.
  destruct (upTo rs).2 eqn:Hfd.
  - assert (length (upTo rs).1.2 < length rs)%nat by (destruct Hlen as [->|]; done).
    destruct (IH w' r' _ Hat' Hrest) as (w'' & Hw'' & Ho''); [lia|done|]. by exists w''.
  - exists w'. rw Hfound // app_nil_r. split; [|done]. by destruct fuel; cbn; rw Hv'.
Qed.

(** Once the catalogs or the schemas are asked for, the list has an option for
    every row of the result, in order, and the code gets out of its loop. *)
Theorem lists_filled cd ch sv r rs fuel :
  answers serve cd sv r rs -> Forall (fun r => error r = None) (r :: rs) -> (S (length rs) < fuel)%nat ->
  exists w, populate serve fuel cd ch sv = Some (Ok w) /\ options (owner w) = optionOf ch <$> rowsOf (r :: rs).
Proof.
  intros (sv' & Hp & Hf) Hall Hlt. inversion Hall as [|? ? He Hrs]; subst.
  destruct (options_all [r] {| options := []; chosen := ch; failed := None |}) as (o & Ho & Hc & _ & Hop); [by repeat constructor|].
  cbn in Ho, Hc, Hop. unfold populate, submitQuery, exchange. cbn [server]. rw Hp. cbn [snd onReply owner].
  destruct (responseHandler r 0 _) as [o1|] eqn:Hr; [|done]. cbn in Ho. injection Ho as ->. cbn.
  edestruct (drain_all fuel (withOwner {| server := sv'; headers := clientHeaders cd; currentResults := Some r;
    valid := true; owner := {| options := []; chosen := ch; failed := None |} |} o) r rs) as (w & -> & Hw);
    [by split|done|done|done|].
  exists w. split; [done|]. rw Hw. cbn. rw Hop Hc -fmap_app. f_equal. unfold rowsOf. cbn.
  destruct (data r); cbn; by rw ?app_nil_r.
Qed.
End Lists.

(** ** A run *)

(** A server that answers the i-th request with the i-th of its replies. *)
Definition scripted (replies : list Reply) (_ : Sent) : list Reply * Reply :=
  match replies with reply :: rest => (rest, reply) | [] => ([], Failure "" "") end.

Definition page (cs : option (list Column)) (d : option (list (list Json))) (next : option string) : Page :=
  {| error := None; columns := cs; data := d; nextUri := next |}.

Definition someQuery : ConnectionData :=
  {| cd_query := "select 1"; cd_catalog := Some "hive"; cd_schema := None; cd_userName := Some "ann";
     cd_sessionParameters := Some [("a", "b")] |}.

Lemma headers_terminate_witness :
  getColumnHeaders scripted 9 someQuery
    [Success (page None None (Some "u1")); Success (page None None None)] initialConnector = None.
Proof.
  apply (headers_terminate scripted someQuery _ (page None None (Some "u1")) [page None None None]); [|done].
  eexists. split; [done|]. econstructor; [done|done|]. by constructor.
Defined.

Lemma tableau_complete_witness :
  let cs := [{| name := "x"; type := "bigint" |}; {| name := "m"; type := "map(bigint,varchar)" |}] in
  let r := page None None (Some "u1") in
  let rs := [page (Some cs) None (Some "u2"); page (Some cs) (Some [[JNum (of_Z 1); JNull]]) (Some "u3"); page None None None] in
  exists w w',
    getColumnHeaders scripted 9 someQuery (Success <$> r :: rs) initialConnector = Some (Ok w) /\
    calls (owner w) = [HeadersCallback ["x"; "m"] ["string"; "string"]] /\
    readAll scripted 9 [0; 1] w = Some (Ok w') /\
    calls (owner w') =
      [HeadersCallback ["x"; "m"] ["string"; "string"];
       DataCallback [[("x", Some (JNum (of_Z 1))); ("m", Some (JStr "null"))]] 0 true; DataCallback [] 1 false].
Proof.
  intros cs r rs. apply (tableau_complete scripted cs someQuery (Success <$> r :: rs) r rs 9 [0; 1]).
  - eexists. split; [done|]. do 3 (econstructor; [done|done|]). by constructor.
  - repeat (apply Forall_cons; split; [split; cbn; [done|tauto|by intros d [= <-]]|]). constructor.
  - done.
  - cbn. lia.
Defined.

Lemma getTableData_silent_witness :
  let failed := {| error := Some ("EXCEEDED_TIME_LIMIT", Some "Query exceeded the time limit"); columns := None;
                   data := None; nextUri := None |} in
  let g := pushHeadersToTableau (Some [{| name := "x"; type := "bigint" |}]) initialConnector in
  let w := {| server := [Success failed]; headers := clientHeaders someQuery;
              currentResults := Some (page None None (Some "u1")); valid := true; owner := g |} in
  exists w', getTableData scripted 5 0 w = Some (Ok w') /\ calls (owner w') = calls g.
Proof.
  intros failed g w.
  apply (getTableData_silent scripted 4 0 w (page None None (Some "u1")) "u1" [] (Success failed)); try done.
  right. split; [done|by eexists].
Defined.
